(* ===== verification/_CoqProject ===== *)
-Q . S2P
Prelude.v
Kernel.v
Bits.v
HalTypes.v
Hif.v
HalRing.v
RingCursor.v
RingProtocol.v
HalSetup.v
HalInit.v
Skb.v
SrngTest.v
Descriptors.v
SrngSend.v
PipeLife.v
SrngTestRun.v
DstTest.v
RxRing.v
RxTotal.v
RxRun.v
RxLife.v
RxStart.v
RxTrace.v
Ieee80211.v
Dp.v
Wmi.v
WmiSend.v
MacTypes.v
Mac80211.v
MacOps.v
MacReg.v
MacIface.v
MacFrames.v
MacProbe.v
Pci.v
PciLife.v
DriverRun.v
DriverModule.v
DmaEngine.v
TestPci.v
HostDriver.v
Demo.v
DemoRx.v
DemoMac.v
DemoRun.v
DemoHost.v
