(* ===== verification/Prelude.v ===== *)
(** * Verification of the PCI wireless driver (src/driver/driver_wireless)

    The program is a Linux PCI driver for a simulated wireless device.  The
    driver and the device exchange descriptors through rings in shared memory
    ("srng"); on top of them are a send test, a receive path with a tasklet and
    a retry timer, and a mac80211 interface whose management frames travel to
    the firmware inside WMI commands.  This development translates the C
    functions of the driver into state transformers and proves what they do.

    ** Parts, and where they are

    - The machine.  [Prelude] (integers at their width, bytes of a word, record
      updates, tactics), [Kernel] (memory, MMIO log, allocations, mappings; the
      kernel's answers), [Bits] (GENMASK, FIELD_PREP, ...), [Skb] (struct
      sk_buff), [Ieee80211] (constants of the 802.11 headers), [Hif]
      (wireless_hif.c, locks).
    - The HAL (wireless_hal.h, wireless_hal.c up to line 770).  [HalTypes] has
      the data, [HalRing] the operations on a ring, [HalSetup]
      wireless_simu_hal_srng_setup and the registers it programs, [HalInit]
      initialisation and removal.  [RingCursor] compares the accessors with a
      reference cursor, [RingProtocol] interleaves host and device.
    - The send test (wireless_hal.c 774-1169).  [SrngTest] has the definitions;
      [Descriptors], [SrngSend], [PipeLife], [SrngTestRun] the theorems.
    - The receive path (wireless_hal.c 1171-1600).  [DstTest] has the
      definitions; [RxRing] (posting), [RxRun] (taking), [RxStart], [RxLife]
      (stopping), [RxTotal] (termination) and [RxTrace] (interleavings) the
      theorems.
    - Commands to the firmware (wireless_wmi.c, wireless_htc.c, wireless_ce.c)
      and cipher tables (wireless_dptx.c, wireless_dprx.c): [Wmi], [WmiSend],
      [Dp].
    - mac80211 (wireless_mac80211.c, .h).  [MacTypes], [Mac80211] have the data
      and the callbacks, [MacOps] the callbacks that only answer and the table,
      [MacReg] the regulatory domain and the interface limits (data only); [MacIface],
      [MacFrames], [MacProbe] the theorems.
    - The PCI driver (wireless.c, wireless_irq.c).  [Pci] has the definitions,
      [PciLife] the theorems on probe and removal; it composes all other parts.
      [DriverRun] is the driver at work: a step relation of the device, the
      interrupt, the tasklet, the timer, the callbacks of mac80211 and the work
      item, with an invariant from probe to removal.  [DriverModule] is the
      module: loading and unloading, with any number of bindings in between.
    - The DMA engine of the first version (wireless_dma.c): [DmaEngine].  Nothing
      calls it now, its text is disabled by WIRELESS_SIMU_DMA_NOUSE.
    - The PCI test driver (src/driver/pci_driver_test.c), a module of its own:
      [TestPci].
    - The host-side driver and its platform device (host_wireless_driver.c,
      host_wireless_device.c), modules of their own: [HostDriver].
    - [Demo], [DemoRx], [DemoMac], [DemoRun], [DemoHost] instantiate every theorem that has
      hypotheses.

    The parts interact as in the C code: [Pci] calls [HalInit], [DstTest],
    [SrngTest] and [Mac80211] on the members of [struct wireless_simu]
    ([on_dst], [on_mac]); [SrngTest] and [DstTest] run ring accesses of
    [HalRing] on rings made by [HalSetup]; [Mac80211] sends through [Wmi].

    ** Reading the definitions

    A C function is a definition of the same name in the monad [M] of [Kernel]:
    it takes a [world] and ends with a result and a new world ([Done]) or stops
    at a [Fault]: NULL or unmapped access, index out of bounds, division by
    zero, double or wild free, buffer overrun, taking a held lock.  The C return
    value comes first in the result; the structures the function changes come
    after it, as records whose fields are the C members.  [A ← m; k] runs [m];
    [r <| f := v |>] is an assignment to a member.  Members of pointer type are
    addresses ([Z], 0 is NULL), or the pointed-to structure as an [option] where
    nothing else points to it.  Socket buffers live in a store indexed by
    address.  A lock is a boolean: the functions run one at a time, and taking a
    lock that is held is the fault [Deadlock].  [goto] labels are helper
    definitions, as is the code between a lock and its release.

    ** What is assumed

    Answers of the kernel are functions of the world, in classes: [Kernel],
    [SkbApi], [Mac80211Api], [PciApi], [Bits], [Ieee80211].  The classes
    [KernelOk], [SkbOk], [Mac80211Ok], [BitsOk], [Ieee80211Ok] state the
    documented behaviour that proofs use (fresh and aligned allocations, what
    skb_put does, the smallest id free in the range, ...).  Nothing is assumed
    about success: every allocation, mapping and registration may fail at any
    call.  [demo_kernel], [linux_bits], [linear_skb], [linux_ieee80211],
    [demo_mac80211] and [granting_pci] are instances.  The device's side of a ring
    is the relation [Source.step] of [RingProtocol] and the events of [RxTrace].

    ** What the theorems show

    - Transport: [Source.source_ring_fifo], [Source.source_ring_progress],
      [accessors_are_cursors], [test_send_refines], [descriptor_roundtrip].
    - Set-up: [setup_starts_protocol], [setup_programs_device],
      [setup_register_frame].
    - Resources on every path: [srng_init_outcome], [srng_init_deinit],
      [pipe_alloc_free_balanced], [srng_test_balanced],
      [srng_test_confined].
    - Receive path: [dst_init_outcome], [irq_drains_and_refills],
      [receive_loops_end], [rx_lifecycle]; its faults
      [dst_failed_start_double_free] and [dst_deinit_tasklet_deadlock].
    - Frames: [tx_frame_fate], [work_func_drains], [ids_exhausted],
      [mgmt_send_roundtrip], [mgmt_send_safe].
    - Interfaces and registration: [fifth_interface_blocks], [remove_undoes_add],
      [conf_tx_sets_one_ac], [tables_well_formed],
      [core_probe_outcome], [core_probe_remove].
    - The whole driver: [driver_run_safe], through all its lives
      [module_lifetimes], and the removals they exclude, with work queued
      ([removal_drains_late]) and with the retry timer armed
      ([timer_outlives_driver]); [pci_claim_all_or_nothing], [irq_handler_spec],
      [probe_every_branch], [probe_remove_balanced], [probe_ignored_errors].
    - The old DMA engine: [dma_tx_ten], [rx_ring_balanced].
    - The test driver: [test_pci_lifecycle]; the host-side driver:
      [host_interfaces], [host_probe_remove].

    Several of them state what the code does where that is not what it is meant
    to do (leaks, a double free, a lock left taken): they are exact about it.

    Resources are heap blocks, coherent regions, streaming mappings and mapped
    memory ([same_resources]), and, counted apart, socket buffers.  In
    [rx_lifecycle] the buffers left are the old ones and those whose mapping the
    kernel refused ([refused]), at most one for each event and one for the start;
    in [driver_run_safe] ([removed]) a run of [n] steps from the probe leaves at
    most [2 n + 1] mappings and as many buffers: 1 for the probe, and for each
    step at most two of each - a frame mac80211 hands over and the buffer its
    command is sent in -, since a frame counts from when it is queued.  In
    [module_lifetimes] the bound is [2 i] for [i] steps, the bindings among them.
    mac80211 may offer interfaces in any number there; the fifth leaves
    [mac_conf_mutex] locked, after which the callbacks that take it, and the work
    item at a frame with an interface, do not return: they are then no steps.

    ** Rounds

    Loops over arrays and lists are structural.  The receive path's two loops
    take a number of rounds computed from the state ([post_fuel], [recv_fuel]);
    [receive_loops_end] shows, without the invariant, that they end before it is
    used up.
    [wireless_simu_wmi_cmd_send] takes the number of wake-ups that happen before
    the timeout of wait_event_timeout; the theorems hold for every number.  So
    does removal, where destroy_workqueue runs the work item that still waits.

    ** Not modelled

    simuwifi_tx and simuwifi_config of host_wireless_driver.c are not C as they
    stand: the first lacks a semicolon, the second returns no value.  The
    platform examples and netlink_maxpayload.c register a device, print or
    measure a socket option.  Nearly two hundred lines of wireless_hal.c are ring
    configurations in comments; wireless_wmi.h and wireless_hal.h have long
    enumerations no function uses.  Messages printed and timestamps never read
    are left out.  Failed probes are followed to their end ([probe_every_branch])
    but not into another life of the module.  Functions that run in parallel on
    several CPUs are modelled as running one after the other, in any order; what
    the caches hold is not modelled. *)

From stdpp Require Export base tactics numbers list gmap.
#[export] Set Default Goal Selector "!".

Declare Scope wl_scope.
Delimit Scope wl_scope with wl.
#[global] Open Scope Z_scope.

(* ------------------------------------------------------------------ *)
(** ** Machine integers *)

(** The conversions C inserts: an unsigned [w]-bit object keeps its value
    modulo [2^w], an [int] is the two's complement reading of 32 bits. *)

Definition wrap (w x : Z) : Z := x mod 2 ^ w.
Abbreviation u8 := (wrap 8).
Abbreviation u16 := (wrap 16).
Abbreviation u32 := (wrap 32).
Abbreviation u64 := (wrap 64).

Definition s32 (x : Z) : Z :=
  let y := u32 x in if decide (y < 2 ^ 31) then y else y - 2 ^ 32.

Lemma wrap_range w x : 0 ≤ w → 0 ≤ wrap w x < 2 ^ w.
Proof. intros. apply Z.mod_pos_bound, Z.pow_pos_nonneg; lia. Qed.

Lemma wrap_id w x : 0 ≤ x < 2 ^ w → wrap w x = x.
Proof. intros. by apply Z.mod_small. Qed.

Lemma wrap_wrap w x : wrap w (wrap w x) = wrap w x.
Proof. apply Zmod_mod. Qed.

Lemma wrap_add_l w x y : wrap w (wrap w x + y) = wrap w (x + y).
Proof. apply Zplus_mod_idemp_l. Qed.

Lemma wrap_sub_l w x y : wrap w (wrap w x - y) = wrap w (x - y).
Proof. apply Zminus_mod_idemp_l. Qed.

Lemma s32_id x : - 2 ^ 31 ≤ x < 2 ^ 31 → s32 x = x.
Proof.
  intros. unfold s32, wrap. case_decide as Hd.
  - destruct (decide (0 ≤ x)).
    + apply Z.mod_small; lia.
    + assert (x mod 2 ^ 32 = x + 2 ^ 32) as Hx; [|lia].
      symmetry. apply (Z.mod_unique_pos _ _ (-1)); lia.
  - destruct (decide (0 ≤ x)).
    + rewrite Z.mod_small in Hd; lia.
    + assert (x mod 2 ^ 32 = x + 2 ^ 32) as Hx; [|lia].
      symmetry. apply (Z.mod_unique_pos _ _ (-1)); lia.
Qed.

Lemma s32_u32 x : s32 (u32 x) = s32 x.
Proof. unfold s32. by rewrite wrap_wrap. Qed.

(** The four bytes of a [u32] in memory, little end first unless [big]. *)
Definition word_bytes (big : bool) (x : Z) : list Z :=
  let l := [x mod 256; x / 2 ^ 8 mod 256; x / 2 ^ 16 mod 256; x / 2 ^ 24 mod 256] in
  if big then rev l else l.

Definition bytes_word (big : bool) (l : list Z) : Z :=
  foldr (λ b x, b + 256 * x) 0 (if big then rev l else l).

Lemma length_word_bytes big x : length (word_bytes big x) = 4%nat.
Proof. by destruct big. Qed.

Lemma bytes_word_bytes big x : u32 x = x → bytes_word big (word_bytes big x) = x.
Proof.
  intros Hx. unfold bytes_word, word_bytes.
  assert (foldr (λ b y, b + 256 * y) 0 [x mod 256; x / 2 ^ 8 mod 256; x / 2 ^ 16 mod 256; x / 2 ^ 24 mod 256] = x) as H.
  { rewrite <-Hx at 5. unfold wrap. cbn [foldr].
    change (2 ^ 8) with 256. change (2 ^ 16) with (256 * 256). change (2 ^ 24) with (256 * 256 * 256).
    change (2 ^ 32) with (256 * (256 * (256 * 256))).
    rewrite (Z.rem_mul_r x 256), (Z.rem_mul_r (x / 256) 256), (Z.rem_mul_r (x / 256 / 256) 256) by lia.
    rewrite !Z.div_div by lia. change (256 * (256 * 256)) with (256 * 256 * 256). lia. }
  destruct big; [rewrite rev_involutive|]; exact H.
Qed.

(* ------------------------------------------------------------------ *)
(** ** Error numbers of <errno.h> *)

Definition EIO : Z := 5.
Definition ENOMEM : Z := 12.
Definition EBUSY : Z := 16.
Definition EINVAL : Z := 22.
Definition ENOSPC : Z := 28.
Definition EOPNOTSUPP : Z := 95.
Definition ENOBUFS : Z := 105.
Definition ESHUTDOWN : Z := 108.

(* ------------------------------------------------------------------ *)
(** ** Record update

    [r <| f := v |>] is the C assignment [r.f = v].  The updater of a field is
    found from the eta-expansion of its record, an instance of [Eta]. *)

Class Eta (R : Type) := MkEta { eta_expand : R → R }.
Class Update {R E : Type} (proj : R → E) := MkUpdate { update_with : (E → E) → R → R }.
Arguments MkEta {_} _.
Arguments MkUpdate {_ _ _} _.

Ltac derive_update proj :=
  lazymatch type of proj with
  | ?R → ?E =>
      exact (MkUpdate (proj := proj) (fun (f : E → E) (r : R) =>
        ltac:(let b := eval hnf in (eta_expand r) in
              let t := eval pattern (proj r) in b in
              lazymatch t with
              | ?g _ => let u := eval cbv beta in (g (f (proj r))) in exact u
              end)))
  end.

#[export] Hint Extern 0 (Update ?proj) => derive_update proj : typeclass_instances.

Definition update {R E : Type} (proj : R → E) {U : Update proj} (v : E) (r : R) : R :=
  update_with (fun _ => v) r.

Notation "r <| f := v |>" := (update f v r)
  (at level 12, f at next level, left associativity,
   format "r  <| f  :=  v |>") : wl_scope.
#[global] Open Scope wl_scope.
Arguments update _ _ _ _ _ _ / : simpl nomatch.
