(* ===== verification/Kernel.v ===== *)
(** * The machine and the kernel the driver runs on

    The driver's C functions are state transformers over a [world]: the words
    of kernel memory, the MMIO writes made so far, and the resources obtained
    from the kernel and not given back yet.  A transformer either finishes or
    stops at a [fault] (a null or unmapped access, a double free, a lock taken
    twice, ...).  What the kernel answers to an allocation, a mapping or a
    register read is not fixed: class [Kernel] collects the answers as
    functions of the world, [KernelOk] states what the kernel's documentation
    promises about them, and [demo_kernel] is one concrete kernel. *)

From S2P Require Import Prelude.

(* ------------------------------------------------------------------ *)
(** ** Faults and results *)

Inductive fault :=
  | NullDeref        (* access through a NULL pointer *)
  | Unmapped         (* access to memory that is not allocated *)
  | OutOfBounds      (* array index past the end *)
  | DivByZero        (* [/] or [%] by zero *)
  | BadFree          (* freeing what is not allocated, or with wrong arguments *)
  | Deadlock         (* taking a lock this context already holds *)
  | NotLocked        (* [lockdep_assert_held] on, or release of, a free lock *)
  | SkbPanic         (* [skb_over_panic] / [skb_under_panic] *)
  | OutOfFuel.       (* a loop ran longer than the bound it was given *)

#[export] Instance fault_eq_dec : EqDecision fault.
Proof. solve_decision. Defined.

Inductive res (A : Type) :=
  | Done (a : A)
  | Fault (f : fault).
Arguments Done {_} _.
Arguments Fault {_} _.

(* ------------------------------------------------------------------ *)
(** ** The world *)

Record world := World {
  w_tick : Z;                   (* kernel calls made so far *)
  w_mem : gmap Z Z;             (* mapped 32-bit words, by byte address *)
  w_mmio : list (Z * Z);        (* [iowrite32]s made: pointer, value; in order *)
  w_heap : gset Z;              (* live kmalloc blocks *)
  w_dma : gmap Z (Z * Z);       (* live coherent blocks: vaddr -> size, paddr *)
  w_map : gmap Z Z;             (* live streaming mappings: paddr -> length *)
  w_jiffies : Z                 (* the tick counter [jiffies] *)
}.
#[export] Instance eta_world : Eta world := MkEta (λ w,
  World (w_tick w) (w_mem w) (w_mmio w) (w_heap w) (w_dma w) (w_map w) (w_jiffies w)).

(* ------------------------------------------------------------------ *)
(** ** The state-and-fault monad *)

Definition M (A : Type) : Type := world → res (A * world).

#[export] Instance M_ret : MRet M := λ A a w, Done (a, w).
#[export] Instance M_bind : MBind M := λ A B k m w,
  match m w with
  | Done (a, w') => k a w'
  | Fault f => Fault f
  end.
Definition fail {A} (f : fault) : M A := λ _, Fault f.
Definition get_world : M world := λ w, Done (w, w).
Definition modify (f : world → world) : M unit := λ w, Done (tt, f w).

(** [run m w = Done (a, w')] and its composition laws: proofs step through a
    function with [M_bind_done] instead of unfolding the monad. *)
Lemma M_bind_done {A B} (m : M A) (k : A → M B) w a w' :
  m w = Done (a, w') → (m ≫= k) w = k a w'.
Proof. intros H. unfold mbind, M_bind. by rewrite H. Qed.

Lemma M_bind_fault {A B} (m : M A) (k : A → M B) w f :
  m w = Fault f → (m ≫= k) w = Fault f.
Proof. intros H. unfold mbind, M_bind. by rewrite H. Qed.

Lemma M_bind_inv {A B} (m : M A) (k : A → M B) w b w' :
  (m ≫= k) w = Done (b, w') →
  ∃ a w1, m w = Done (a, w1) ∧ k a w1 = Done (b, w').
Proof.
  unfold mbind, M_bind. destruct (m w) as [[a w1]|] eqn:E; [|done].
  intros H. by exists a, w1.
Qed.

Lemma M_bind_assoc {A B C} (m : M A) (k : A → M B) (k' : B → M C) w :
  ((m ≫= k) ≫= k') w = (m ≫= λ a, k a ≫= k') w.
Proof. unfold mbind, M_bind. by destruct (m w) as [[a w']|]. Qed.

Lemma M_bind_ret {A B} (a : A) (k : A → M B) w : (mret a ≫= k) w = k a w.
Proof. done. Qed.

(** Evaluate the monad where a step is already determined. *)
Ltac mcbn := unfold mbind, M_bind, mret, M_ret; cbn.
Tactic Notation "mcbn" "in" hyp(H) := unfold mbind, M_bind, mret, M_ret in H; cbn in H.

Definition when (b : bool) (m : M unit) : M unit := if b then m else mret tt.
Definition assert (b : bool) (f : fault) : M unit := if b then mret tt else fail f.
Definition of_option {A} (f : fault) (o : option A) : M A :=
  match o with Some a => mret a | None => fail f end.

(* ------------------------------------------------------------------ *)
(** ** Memory accesses of the C code *)

Definition load32 (p : Z) : M Z := λ w,
  match w_mem w !! p with
  | Some v => Done (v, w)
  | None => Fault (if decide (p = 0) then NullDeref else Unmapped)
  end.

Definition store32 (p v : Z) : M unit := λ w,
  match w_mem w !! p with
  | Some _ => Done (tt, w <| w_mem := <[p := u32 v]> (w_mem w) |>)
  | None => Fault (if decide (p = 0) then NullDeref else Unmapped)
  end.

(** [q[0] = v0; q[1] = v1; ...] for a pointer to [u32] words. *)
Fixpoint store_words (p : Z) (vs : list Z) : M unit :=
  match vs with
  | [] => mret tt
  | v :: vs' => store32 p v;; store_words (p + 4) vs'
  end.

Fixpoint load_words (p : Z) (n : nat) : M (list Z) :=
  match n with
  | O => mret []
  | S n' => v ← load32 p; vs ← load_words (p + 4) n'; mret (v :: vs)
  end.

(** [memset(p, 0, bytes)] on a word-aligned region. *)
Definition memset0 (p bytes : Z) : M unit :=
  store_words p (replicate (Z.to_nat ((bytes + 3) / 4)) 0).

(** Pointer arithmetic: [(u32 *p) + i] and [unsigned long] differences. *)
Definition ptr_add32 (p i : Z) : Z := u64 (p + 4 * i).
Definition ptr_sub (p q : Z) : Z := u64 (p - q).

(** Unsigned 32-bit [/] and [%]. *)
Definition udiv32 (a b : Z) : M Z := if decide (b = 0) then fail DivByZero else mret (a / b).
Definition umod32 (a b : Z) : M Z := if decide (b = 0) then fail DivByZero else mret (a mod b).

(* ------------------------------------------------------------------ *)
(** ** Kernel services *)

(** What the kernel answers, as functions of the world it is asked in.  A
    pointer answer [0] is [NULL]. *)
Class Kernel := {
  k_kmalloc : world → Z → Z;                (* size -> block *)
  k_dma_alloc : world → Z → Z * Z;          (* size -> vaddr, paddr *)
  k_dma_fill : world → Z → Z;               (* first contents of a word *)
  k_dma_map : world → Z → Z → Z;            (* pointer, length -> paddr *)
  k_dma_mapping_error : Z → bool;
  k_ioread32 : world → Z → Z;               (* pointer -> value *)
}.

(** The word addresses of a region of [size] bytes at [p]. *)
Definition region (p size : Z) : list Z :=
  (λ i : nat, p + 4 * Z.of_nat i) <$> seq 0 (Z.to_nat ((size + 3) / 4)).

Definition map_region (fill : Z → Z) (p size : Z) (m : gmap Z Z) : gmap Z Z :=
  foldr (λ a m, <[a := u32 (fill a)]> m) m (region p size).
Definition unmap_region (p size : Z) (m : gmap Z Z) : gmap Z Z :=
  foldr (λ a m, delete a m) m (region p size).

Definition PAGE_SIZE : Z := 4096.

(** What the driver relies on (Documentation/core-api/dma-api.rst and
    dma-api-howto.rst): fresh blocks, page-aligned coherent blocks inside the
    address space and the 32-bit DMA mask, and a mapping that does not report
    an error is a fresh bus address. *)
Class KernelOk `{K : Kernel} : Prop := {
  kmalloc_fresh w size : k_kmalloc w size ≠ 0 → k_kmalloc w size ∉ w_heap w;
  dma_alloc_range w size v p :
    k_dma_alloc w size = (v, p) → v ≠ 0 →
    0 < v ∧ v + size < 2 ^ 63 ∧ 0 ≤ p ∧ p + size < 2 ^ 32;
  dma_alloc_aligned w size v p :
    k_dma_alloc w size = (v, p) → v ≠ 0 → (PAGE_SIZE | v) ∧ (PAGE_SIZE | p);
  dma_alloc_fresh w size v p :
    k_dma_alloc w size = (v, p) → v ≠ 0 →
    w_dma w !! v = None ∧ ∀ a, v ≤ a < v + size + 4 → w_mem w !! a = None;
  dma_map_fresh w a len :
    k_dma_mapping_error (k_dma_map w a len) = false →
    w_map w !! k_dma_map w a len = None;
}.

Section services.
Context `{K : Kernel}.

Definition tick (w : world) : world := w <| w_tick := w_tick w + 1 |>.

Definition kmalloc (size : Z) : M Z := λ w,
  let p := k_kmalloc w size in
  Done (p, if decide (p = 0) then tick w
           else tick w <| w_heap := {[p]} ∪ w_heap w |>).

Definition kfree (p : Z) : M unit := λ w,
  if decide (p = 0) then Done (tt, w)
  else if decide (p ∈ w_heap w)
       then Done (tt, w <| w_heap := w_heap w ∖ {[p]} |>)
       else Fault BadFree.

Definition dma_alloc_coherent (size : Z) : M (Z * Z) := λ w,
  let '(v, p) := k_dma_alloc w size in
  Done ((v, p),
        if decide (v = 0) then tick w
        else tick w <| w_dma := <[v := (size, p)]> (w_dma w) |>
                    <| w_mem := map_region (k_dma_fill w) v size (w_mem w) |>).

Definition dma_free_coherent (size v p : Z) : M unit := λ w,
  if decide (w_dma w !! v = Some (size, p))
  then Done (tt, w <| w_dma := delete v (w_dma w) |>
                   <| w_mem := unmap_region v size (w_mem w) |>)
  else Fault BadFree.

Definition dma_map_single (a len : Z) : M Z := λ w,
  let p := k_dma_map w a len in
  Done (p, if k_dma_mapping_error p then tick w
           else tick w <| w_map := <[p := len]> (w_map w) |>).

Definition dma_mapping_error (p : Z) : M bool := mret (k_dma_mapping_error p).

Definition dma_unmap_single (p len : Z) : M unit := λ w,
  if decide (w_map w !! p = Some len)
  then Done (tt, w <| w_map := delete p (w_map w) |>)
  else Fault BadFree.

Definition iowrite32 (v p : Z) : M unit :=
  modify (λ w, w <| w_mmio := w_mmio w ++ [(p, u32 v)] |>).

Definition ioread32 (p : Z) : M Z := λ w,
  Done (u32 (k_ioread32 w p), tick w).

Definition jiffies : M Z := λ w, Done (w_jiffies w, w).
End services.

(* ------------------------------------------------------------------ *)
(** ** Words in memory *)

Fixpoint write_words (p : Z) (vs : list Z) (m : gmap Z Z) : gmap Z Z :=
  match vs with
  | [] => m
  | v :: vs' => write_words (p + 4) vs' (<[p := u32 v]> m)
  end.

Fixpoint read_words (m : gmap Z Z) (p : Z) (n : nat) : option (list Z) :=
  match n with
  | O => Some []
  | S n' => v ← m !! p; vs ← read_words m (p + 4) n'; Some (v :: vs)
  end.

(** The [n] words at [p] are mapped. *)
Definition mapped (m : gmap Z Z) (p : Z) (n : nat) : Prop :=
  ∀ k : nat, (k < n)%nat → is_Some (m !! (p + 4 * Z.of_nat k)).

Lemma mapped_S m p n : mapped m p (S n) ↔ is_Some (m !! p) ∧ mapped m (p + 4) n.
Proof.
  split.
  - intros H. split; [specialize (H 0%nat ltac:(lia)); by rewrite Z.add_0_r in H|].
    intros k Hk. specialize (H (S k) ltac:(lia)).
    by replace (p + 4 + 4 * Z.of_nat k) with (p + 4 * Z.of_nat (S k)) by lia.
  - intros [H0 H] [|k] Hk; [by rewrite Z.add_0_r|].
    specialize (H k ltac:(lia)).
    by replace (p + 4 * Z.of_nat (S k)) with (p + 4 + 4 * Z.of_nat k) by lia.
Qed.

#[export] Instance mapped_dec m p n : Decision (mapped m p n).
Proof.
  revert p. induction n as [|n IH]; intros p; [left; intros k Hk; lia|].
  destruct (decide (is_Some (m !! p) ∧ mapped m (p + 4) n)) as [H|H].
  - left. by apply mapped_S.
  - right. by intros ?%mapped_S.
Defined.

Lemma mapped_insert m p n a v : mapped m p n → mapped (<[a := v]> m) p n.
Proof. intros H k Hk. apply lookup_insert_is_Some'. right. auto. Qed.

Lemma write_words_is_Some vs m p a : is_Some (m !! a) → is_Some (write_words p vs m !! a).
Proof.
  revert m p. induction vs as [|v vs IH]; intros m p H; cbn; [done|].
  apply IH, lookup_insert_is_Some'. by right.
Qed.

Lemma mapped_write m p n q vs : mapped m p n → mapped (write_words q vs m) p n.
Proof. intros H k Hk. by apply write_words_is_Some, H. Qed.

Lemma write_words_ne vs m p a :
  (∀ k : nat, (k < length vs)%nat → a ≠ p + 4 * Z.of_nat k) →
  write_words p vs m !! a = m !! a.
Proof.
  revert m p. induction vs as [|v vs IH]; intros m p H; cbn; [done|].
  rewrite IH.
  - rewrite lookup_insert_ne; [done|]. specialize (H 0%nat). cbn in H.
    specialize (H ltac:(lia)). lia.
  - intros k Hk. specialize (H (S k)). cbn in H. specialize (H ltac:(lia)). lia.
Qed.

Lemma read_words_write_ne n vs m p q :
  (∀ j k : nat, (j < n)%nat → (k < length vs)%nat →
     q + 4 * Z.of_nat j ≠ p + 4 * Z.of_nat k) →
  read_words (write_words p vs m) q n = read_words m q n.
Proof.
  revert q. induction n as [|n IH]; intros q H; [done|]. cbn [read_words].
  rewrite IH, write_words_ne; [done|..].
  - intros k Hk. specialize (H 0%nat k ltac:(lia) Hk). lia.
  - intros j k Hj Hk. specialize (H (S j) k ltac:(lia) Hk). lia.
Qed.

Lemma read_words_agree n m m' q :
  (∀ j : nat, (j < n)%nat → m' !! (q + 4 * Z.of_nat j) = m !! (q + 4 * Z.of_nat j)) →
  read_words m' q n = read_words m q n.
Proof.
  revert q. induction n as [|n IH]; intros q H; [done|]. cbn [read_words].
  pose proof (H 0%nat ltac:(lia)) as H0. rewrite Z.add_0_r in H0. rewrite H0, IH; [done|].
  intros j Hj. specialize (H (S j) ltac:(lia)).
  by replace (q + 4 + 4 * Z.of_nat j) with (q + 4 * Z.of_nat (S j)) by lia.
Qed.

Lemma read_words_insert_ne n m q a v :
  (∀ j : nat, (j < n)%nat → q + 4 * Z.of_nat j ≠ a) →
  read_words (<[a := v]> m) q n = read_words m q n.
Proof.
  revert q. induction n as [|n IH]; intros q H; [done|]. cbn [read_words].
  rewrite IH, lookup_insert_ne; [done|..].
  - specialize (H 0%nat ltac:(lia)). lia.
  - intros j Hj. specialize (H (S j) ltac:(lia)). lia.
Qed.

(** All the values fit in a word. *)
Definition is_words (vs : list Z) : Prop := Forall (λ v, u32 v = v) vs.

Lemma read_write_words vs m p : is_words vs →
  read_words (write_words p vs m) p (length vs) = Some vs.
Proof.
  intros Hw. revert m p. induction Hw as [|v vs Hv Hw IH]; intros m p; [done|].
  cbn. rewrite IH, write_words_ne by (intros; lia).
  by rewrite lookup_insert_eq, Hv.
Qed.

Lemma store_words_eq vs p w : mapped (w_mem w) p (length vs) →
  store_words p vs w = Done (tt, w <| w_mem := write_words p vs (w_mem w) |>).
Proof.
  revert p w. induction vs as [|v vs IH]; intros p w H; [destruct w; reflexivity|].
  cbn [length] in H. cbn. apply mapped_S in H as [[x Hx] H]. unfold mbind, M_bind, store32. rewrite Hx. cbn.
  rewrite IH; cbn; [done|]. by apply mapped_insert.
Qed.

Lemma load_words_eq n p w vs : read_words (w_mem w) p n = Some vs →
  load_words p n w = Done (vs, w).
Proof.
  revert p vs. induction n as [|n IH]; intros p vs H; cbn in *; [by simplify_eq|].
  apply bind_Some in H as (v & Hv & H). apply bind_Some in H as (vs' & Hvs & H).
  simplify_eq. unfold mbind, M_bind, load32. rewrite Hv. cbn. by rewrite (IH _ _ Hvs).
Qed.

Lemma mapped_read m n p : mapped m p n → ∃ vs, read_words m p n = Some vs.
Proof.
  revert p. induction n as [|n IH]; intros p H; [by exists []|].
  apply mapped_S in H as [[v Hv] (vs & Hvs)%IH]. exists (v :: vs). cbn. by rewrite Hv, Hvs.
Qed.

Lemma load_words_inv n p w vs w' : load_words p n w = Done (vs, w') →
  read_words (w_mem w) p n = Some vs ∧ w' = w.
Proof.
  revert p vs w'. induction n as [|n IH]; intros p vs w' H; cbn in *;
    [by unfold mret, M_ret in H; simplify_eq|].
  apply M_bind_inv in H as (v & w1 & Hv & H). unfold load32 in Hv. case_match; simplify_eq.
  apply M_bind_inv in H as (vs' & w2 & Hvs & H). apply IH in Hvs as [Hr ->].
  cbn in H. unfold mret, M_ret in H. simplify_eq. by rewrite Hr.
Qed.

Lemma load32_eq p w v : w_mem w !! p = Some v → load32 p w = Done (v, w).
Proof. intros H. unfold load32. by rewrite H. Qed.

Lemma store32_eq p v w : is_Some (w_mem w !! p) →
  store32 p v w = Done (tt, w <| w_mem := <[p := u32 v]> (w_mem w) |>).
Proof. intros [x H]. unfold store32. by rewrite H. Qed.

Lemma memset0_eq p bytes n w : bytes = 4 * Z.of_nat n → mapped (w_mem w) p n →
  memset0 p bytes w =
    Done (tt, w <| w_mem := write_words p (replicate n 0) (w_mem w) |>).
Proof.
  intros -> Hm. unfold memset0.
  replace (Z.to_nat ((4 * Z.of_nat n + 3) / 4)) with n.
  - apply store_words_eq. by rewrite length_replicate.
  - rewrite Z.mul_comm, Z.div_add_l, (Z.div_small 3) by lia. lia.
Qed.

Lemma mapped_sub m p n q k :
  (∃ j : nat, q = p + 4 * Z.of_nat j ∧ (j + k ≤ n)%nat) → mapped m p n → mapped m q k.
Proof.
  intros (j & -> & Hk) H i Hi. specialize (H (j + i)%nat ltac:(lia)).
  by replace (p + 4 * Z.of_nat j + 4 * Z.of_nat i) with (p + 4 * Z.of_nat (j + i)) by lia.
Qed.

(** Allocating and freeing a region, word by word. *)
Lemma elem_of_region a p size :
  a ∈ region p size ↔ ∃ k : nat, a = p + 4 * Z.of_nat k ∧ 4 * Z.of_nat k < size.
Proof.
  unfold region. rewrite list_elem_of_fmap.
  pose proof (Z.div_mod (size + 3) 4 ltac:(lia)). pose proof (Z.mod_pos_bound (size + 3) 4 ltac:(lia)).
  split; intros (k & -> & Hk); exists k; (split; [done|]).
  - apply elem_of_seq in Hk. lia.
  - apply elem_of_seq. lia.
Qed.

Lemma lookup_map_region fill p size m a :
  map_region fill p size m !! a = if decide (a ∈ region p size) then Some (u32 (fill a)) else m !! a.
Proof.
  unfold map_region. induction (region p size) as [|x l IH]; cbn.
  - rewrite decide_False; [done|]. apply not_elem_of_nil.
  - destruct (decide (x = a)) as [->|Hne].
    + rewrite lookup_insert_eq, decide_True; [done|]. by left.
    + rewrite lookup_insert_ne, IH by done. repeat case_decide; set_solver.
Qed.

Lemma lookup_unmap_region p size m a :
  unmap_region p size m !! a = if decide (a ∈ region p size) then None else m !! a.
Proof.
  unfold unmap_region. induction (region p size) as [|x l IH]; cbn.
  - rewrite decide_False; [done|]. apply not_elem_of_nil.
  - destruct (decide (x = a)) as [->|Hne].
    + rewrite lookup_delete_eq, decide_True; [done|]. by left.
    + rewrite lookup_delete_ne, IH by done. repeat case_decide; set_solver.
Qed.

Lemma map_region_mapped fill p size m n :
  4 * Z.of_nat n ≤ size → mapped (map_region fill p size m) p n.
Proof.
  intros Hn k Hk. rewrite lookup_map_region, decide_True; [done|].
  apply elem_of_region. exists k. split; [done|lia].
Qed.

Lemma map_region_is_Some fill p size m a :
  is_Some (m !! a) → is_Some (map_region fill p size m !! a).
Proof. intros H. rewrite lookup_map_region. by case_decide. Qed.

Lemma region_bounds a p size : a ∈ region p size → p ≤ a < p + size + 4.
Proof. intros (k & -> & Hk)%elem_of_region. lia. Qed.

(** Mapping and unmapping a fresh region leaves memory as it was. *)
Lemma unmap_map_region fill p size m :
  (∀ a, p ≤ a < p + size + 4 → m !! a = None) →
  unmap_region p size (map_region fill p size m) = m.
Proof.
  intros Hfresh. apply map_eq. intros a.
  rewrite lookup_unmap_region, lookup_map_region. case_decide as Hd; [|done].
  symmetry. by apply Hfresh, region_bounds.
Qed.

Lemma dom_unmap_region p size (m : gmap Z Z) :
  dom (unmap_region p size m) = dom m ∖ list_to_set (region p size).
Proof.
  apply set_eq. intros a. rewrite elem_of_difference, elem_of_list_to_set, !elem_of_dom, lookup_unmap_region.
  case_decide; [|tauto]. split; [by intros []|tauto].
Qed.

(** Freeing a region mapped earlier, below a fresh one. *)
Lemma unmap_map_map_region f1 f2 p1 s1 p2 s2 m :
  (∀ a, p1 ≤ a < p1 + s1 + 4 → m !! a = None) →
  (∀ a, p2 ≤ a < p2 + s2 + 4 → map_region f1 p1 s1 m !! a = None) →
  unmap_region p1 s1 (map_region f2 p2 s2 (map_region f1 p1 s1 m)) = map_region f2 p2 s2 m.
Proof.
  intros H1 H2. apply map_eq. intros a.
  rewrite lookup_unmap_region, !lookup_map_region.
  destruct (decide (a ∈ region p1 s1)) as [Ha1|], (decide (a ∈ region p2 s2)) as [Ha2|]; try done.
  - specialize (H2 a (region_bounds _ _ _ Ha2)). rewrite lookup_map_region, decide_True in H2 by done.
    done.
  - symmetry. by apply H1, region_bounds.
Qed.

(* ------------------------------------------------------------------ *)
(** ** Resources of a world *)

(** Heap blocks, coherent regions, mappings and mapped memory.  Socket buffers
    are not in the world; they are accounted for where a theorem has a store. *)
Record same_resources (w w' : world) : Prop := {
  same_heap : w_heap w' = w_heap w;
  same_dma : w_dma w' = w_dma w;
  same_map : w_map w' = w_map w;
  same_dom : dom (w_mem w') = dom (w_mem w)
}.

#[export] Instance same_resources_refl : Reflexive same_resources.
Proof. by split. Qed.
#[export] Instance same_resources_trans : Transitive same_resources.
Proof. intros w1 w2 w3 [] []. split; by etrans. Qed.
#[export] Instance same_resources_sym : Symmetric same_resources.
Proof. intros w1 w2 []. by split. Qed.

(** The same without the streaming mappings. *)
Record same_blocks (w w' : world) : Prop := {
  blocks_heap : w_heap w' = w_heap w;
  blocks_dma : w_dma w' = w_dma w;
  blocks_dom : dom (w_mem w') = dom (w_mem w)
}.

#[export] Instance same_blocks_refl : Reflexive same_blocks.
Proof. by split. Qed.
#[export] Instance same_blocks_trans : Transitive same_blocks.
Proof. intros w1 w2 w3 [] []. split; by etrans. Qed.

Lemma same_resources_blocks w w' : same_resources w w' → same_blocks w w'.
Proof. by intros []. Qed.

Lemma dom_write_words vs p m : mapped m p (length vs) → dom (write_words p vs m) = dom m.
Proof.
  revert p m. induction vs as [|v vs IH]; intros p m Hm; [done|].
  cbn [length] in Hm. cbn. apply mapped_S in Hm as [Hp Hm]. rewrite IH by by apply mapped_insert.
  by apply dom_insert_lookup_L.
Qed.

Lemma mapped_dom m m' p n : dom m' = dom m → mapped m p n → mapped m' p n.
Proof.
  intros Hd Hm k Hk. apply elem_of_dom. rewrite Hd. apply elem_of_dom. by apply Hm.
Qed.

(* ------------------------------------------------------------------ *)
(** ** Outcomes of an allocation *)

(** The world once a coherent region is allocated. *)
Definition dma_world `{K : Kernel} (v p size : Z) (w : world) : world :=
  (tick w) <| w_dma := <[v := (size, p)]> (w_dma w) |>
           <| w_mem := map_region (k_dma_fill w) v size (w_mem w) |>.

Record dma_block (w : world) (v p size : Z) : Prop := {
  db_range : 0 < v ∧ v + size < 2 ^ 63 ∧ 0 ≤ p ∧ p + size < 2 ^ 32;
  db_align : (PAGE_SIZE | v) ∧ (PAGE_SIZE | p);
  db_dma : w_dma w !! v = None;
  db_mem : ∀ a, v ≤ a < v + size + 4 → w_mem w !! a = None
}.

Section allocation.
Context `{KO : KernelOk}.

Lemma kmalloc_cases size w :
  (kmalloc size w = Done (0, tick w)) ∨
  ∃ p, p ≠ 0 ∧ p ∉ w_heap w ∧
    kmalloc size w = Done (p, tick w <| w_heap := {[p]} ∪ w_heap w |>).
Proof.
  unfold kmalloc. destruct (decide (k_kmalloc w size = 0)) as [Hz|Hz].
  - left. by rewrite Hz.
  - right. exists (k_kmalloc w size). split_and!; [done|by apply kmalloc_fresh|done].
Qed.

Lemma dma_alloc_cases size w :
  (∃ p, dma_alloc_coherent size w = Done ((0, p), tick w)) ∨
  ∃ v p, v ≠ 0 ∧ dma_block w v p size ∧
    dma_alloc_coherent size w = Done ((v, p), dma_world v p size w).
Proof.
  unfold dma_alloc_coherent. destruct (k_dma_alloc w size) as [v p] eqn:E.
  destruct (decide (v = 0)) as [->|Hz]; [left; by exists p|].
  right. exists v, p. split_and!; [done| |done].
  destruct (dma_alloc_fresh _ _ _ _ E Hz). destruct (dma_alloc_aligned _ _ _ _ E Hz).
  split; [by eapply dma_alloc_range|done..].
Qed.

Lemma dma_map_cases a len w :
  ∃ pa, (dma_map_single a len w = Done (pa, tick w) ∧ k_dma_mapping_error pa = true) ∨
  (dma_map_single a len w = Done (pa, (tick w) <| w_map := <[pa := len]> (w_map w) |>) ∧
   k_dma_mapping_error pa = false ∧ w_map w !! pa = None).
Proof.
  exists (k_dma_map w a len). unfold dma_map_single.
  destruct (k_dma_mapping_error (k_dma_map w a len)) eqn:E; [by left|right].
  split_and!; [done..|]. by apply dma_map_fresh.
Qed.

Lemma dma_free_eq size v p w : w_dma w !! v = Some (size, p) →
  dma_free_coherent size v p w =
    Done (tt, w <| w_dma := delete v (w_dma w) |>
                <| w_mem := unmap_region v size (w_mem w) |>).
Proof. intros H. unfold dma_free_coherent. by rewrite decide_True. Qed.

Lemma kfree_eq p w : p ≠ 0 → p ∈ w_heap w →
  kfree p w = Done (tt, w <| w_heap := w_heap w ∖ {[p]} |>).
Proof. intros. unfold kfree. by rewrite decide_False, decide_True. Qed.

(** Freeing the region just allocated gives the old memory back. *)
Lemma dma_world_free v p size w w' : dma_block w v p size →
  w_dma w' = w_dma (dma_world v p size w) → w_mem w' = w_mem (dma_world v p size w) →
  dma_free_coherent size v p w' =
    Done (tt, w' <| w_dma := w_dma w |> <| w_mem := w_mem w |>).
Proof.
  intros [] Hd Hm. cbn in Hd, Hm. rewrite dma_free_eq; [|rewrite Hd; apply lookup_insert_eq].
  by rewrite Hd, Hm, delete_insert_id, unmap_map_region.
Qed.
End allocation.

(* ------------------------------------------------------------------ *)
(** ** One concrete kernel

    Every answer lies above everything in use; an allocation fails when the
    address space of the DMA mask is used up. *)

Definition max_key (l : list Z) : Z := foldr Z.max 0 l.

Lemma max_key_le l x : x ∈ l → x ≤ max_key l.
Proof.
  unfold max_key. induction l as [|y l IH]; cbn; [by intros ?%not_elem_of_nil|].
  intros [->|H]%elem_of_cons; [lia|]. specialize (IH H). lia.
Qed.

Lemma max_key_nonneg l : 0 ≤ max_key l.
Proof. unfold max_key. induction l; cbn; lia. Qed.

Definition map_keys {A} (m : gmap Z A) : list Z := (map_to_list m).*1.

Lemma map_keys_None {A} (m : gmap Z A) a : max_key (map_keys m) < a → m !! a = None.
Proof.
  intros Ha. destruct (m !! a) as [x|] eqn:E; [|done].
  assert (a ∈ map_keys m) as Hin.
  { apply list_elem_of_fmap. exists (a, x). by rewrite elem_of_map_to_list. }
  apply max_key_le in Hin. lia.
Qed.

Definition demo_dma_vaddr (w : world) : Z :=
  PAGE_SIZE * (1 + Z.max (max_key (map_keys (w_mem w))) (max_key (map_keys (w_dma w))) / PAGE_SIZE).

#[local] Instance demo_kernel : Kernel := {
  k_kmalloc w _ := 1 + max_key (elements (w_heap w));
  k_dma_alloc w size :=
    let v := demo_dma_vaddr w in
    if decide (v + Z.max 0 size < 2 ^ 31) then (v, v) else (0, 0);
  k_dma_fill _ _ := 0;
  k_dma_map w _ _ := PAGE_SIZE * (1 + max_key (map_keys (w_map w)) / PAGE_SIZE);
  k_dma_mapping_error p := bool_decide (p = 0);
  k_ioread32 _ _ := 0;
}.

Lemma demo_above x m : 0 ≤ m → x = PAGE_SIZE * (1 + m / PAGE_SIZE) → m < x ∧ 0 < x.
Proof.
  intros Hm ->. unfold PAGE_SIZE. pose proof (Z.div_mod m 4096 ltac:(lia)).
  pose proof (Z.mod_pos_bound m 4096 ltac:(lia)). pose proof (Z.div_pos m 4096 Hm ltac:(lia)).
  lia.
Qed.

Lemma demo_dma_above w :
  max_key (map_keys (w_mem w)) < demo_dma_vaddr w ∧
  max_key (map_keys (w_dma w)) < demo_dma_vaddr w ∧ 0 < demo_dma_vaddr w.
Proof.
  pose proof (max_key_nonneg (map_keys (w_mem w))).
  destruct (demo_above (demo_dma_vaddr w)
    (Z.max (max_key (map_keys (w_mem w))) (max_key (map_keys (w_dma w)))));
    [lia|done|lia].
Qed.

#[local] Instance demo_kernel_ok : KernelOk (K := demo_kernel).
Proof.
  split; cbn.
  - intros w _ _ Hin%elem_of_elements%max_key_le. lia.
  - intros w size v p Hv Hne. pose proof (demo_dma_above w). case_decide; simplify_eq; lia.
  - intros w size v p Hv Hne. case_decide; simplify_eq; split; apply Z.divide_factor_l.
  - intros w size v p Hv Hne. destruct (demo_dma_above w) as (Hm & Hd & _).
    case_decide; simplify_eq. split; [|intros a Ha]; apply map_keys_None; lia.
  - intros w a len _. apply map_keys_None.
    destruct (demo_above _ _ (max_key_nonneg (map_keys (w_map w))) eq_refl). lia.
Qed.

Definition demo_world : world := World 0 ∅ [] ∅ ∅ ∅ 0.
