(* ===== verification/Bits.v ===== *)
(** * Bit fields and rounding

    The driver builds register values, descriptors and message headers with
    the kernel's macros [GENMASK], [BIT], [FIELD_PREP], [ALIGN],
    [roundup_pow_of_two], ...  Those macros are kernel code: class [Bits]
    holds them, [BitsOk] their documented meaning (linux/bits.h,
    linux/bitfield.h, linux/align.h, linux/log2.h), [linux_bits] is an
    instance.  [get_field] reads a field back; the lemmas of this file turn a
    word built field by field into the values of its fields. *)

From S2P Require Import Prelude.

Class Bits := {
  GENMASK : Z → Z → Z;               (* GENMASK(h, l) *)
  BIT : Z → Z;
  FIELD_PREP : Z → Z → Z;            (* mask, value *)
  ALIGN : Z → Z → Z;                 (* also PTR_ALIGN *)
  roundup : Z → Z → Z;               (* also round_up *)
  roundup_pow_of_two : Z → Z;
  lower_32_bits : Z → Z;
  upper_32_bits : Z → Z;
}.

Class BitsOk `{B : Bits} : Prop := {
  genmask_spec h l : 0 ≤ l ≤ h → h < 64 →
    GENMASK h l = Z.ones (h - l + 1) ≪ l;
  bit_spec n : 0 ≤ n < 64 → BIT n = GENMASK n n;
  field_prep_spec h l v : 0 ≤ l ≤ h → h < 64 →
    FIELD_PREP (GENMASK h l) v = Z.land (v ≪ l) (GENMASK h l);
  align_spec x k : 0 ≤ x → 0 ≤ k → x + 2 ^ k ≤ 2 ^ 64 →
    ALIGN x (2 ^ k) = (x + 2 ^ k - 1) / 2 ^ k * 2 ^ k;
  roundup_spec x y : 0 ≤ x → 0 < y → x + y ≤ 2 ^ 32 →
    roundup x y = (x + y - 1) / y * y;
  roundup_pow_of_two_spec n : 0 < n ≤ 2 ^ 31 →
    roundup_pow_of_two n = 2 ^ Z.log2_up n;
  lower_32_bits_spec x : 0 ≤ x < 2 ^ 64 → lower_32_bits x = x mod 2 ^ 32;
  upper_32_bits_spec x : 0 ≤ x < 2 ^ 64 → upper_32_bits x = x / 2 ^ 32;
}.

(** The macros' usual definitions. *)
#[local] Instance linux_bits : Bits := {
  GENMASK h l := Z.ones (h - l + 1) ≪ l;
  BIT n := Z.ones (n - n + 1) ≪ n;
  FIELD_PREP mask v :=
    Z.land (v ≪ Z.log2 (Z.land mask (- mask))) mask;
  ALIGN x a := Z.land (x + (a - 1)) (Z.lnot (a - 1));
  roundup x y := (x + y - 1) / y * y;
  roundup_pow_of_two n := 2 ^ Z.log2_up n;
  lower_32_bits x := Z.land x (Z.ones 32);
  upper_32_bits x := x ≫ 32;
}.

(** The field of bits [h..l] of [x]. *)
Definition get_field (h l x : Z) : Z := Z.land (x ≫ l) (Z.ones (h - l + 1)).

(* ------------------------------------------------------------------ *)
(** ** Arithmetic of masks *)

Lemma land_ones_shiftl v k l :
  0 ≤ k → 0 ≤ l → Z.land (v ≪ l) (Z.ones k ≪ l) = (v mod 2 ^ k) * 2 ^ l.
Proof.
  intros. rewrite <-Z.shiftl_land, Z.land_ones, Z.shiftl_mul_pow2 by lia. done.
Qed.

Lemma land_lnot_ones x k :
  0 ≤ k → Z.land x (Z.lnot (Z.ones k)) = x / 2 ^ k * 2 ^ k.
Proof.
  intros. rewrite <-Z.ldiff_land, Z.ldiff_ones_r by lia.
  by rewrite Z.shiftl_mul_pow2, Z.shiftr_div_pow2 by lia.
Qed.

Lemma lowest_bit_of_mask k l :
  0 < k → 0 ≤ l → Z.land (Z.ones k ≪ l) (- (Z.ones k ≪ l)) = 2 ^ l.
Proof.
  intros. replace (- (Z.ones k ≪ l)) with ((- Z.ones k) ≪ l)
    by (rewrite !Z.shiftl_mul_pow2 by lia; lia).
  rewrite <-Z.shiftl_land.
  replace (Z.land (Z.ones k) (- Z.ones k)) with 1.
  { by rewrite Z.shiftl_1_l. }
  rewrite Z.land_comm, Z.land_ones by lia.
  replace (- Z.ones k) with (1 + (-1) * 2 ^ k) by (rewrite Z.ones_equiv; lia).
  rewrite Z.mod_add by (apply Z.pow_nonzero; lia).
  symmetry. apply Z.mod_small.
  split; [lia|]. apply Z.pow_gt_1; lia.
Qed.

#[local] Instance linux_bits_ok : BitsOk.
Proof.
  split; cbn.
  - done.
  - done.
  - intros h l v Hl Hh. rewrite lowest_bit_of_mask by lia.
    by rewrite Z.log2_pow2 by lia.
  - intros x k Hx Hk _.
    replace (2 ^ k - 1) with (Z.ones k) by (rewrite Z.ones_equiv; lia).
    rewrite land_lnot_ones by lia.
    by replace (x + Z.ones k) with (x + 2 ^ k - 1) by (rewrite Z.ones_equiv; lia).
  - done.
  - done.
  - intros. by rewrite Z.land_ones by lia.
  - intros. by rewrite Z.shiftr_div_pow2 by lia.
Qed.

(* ------------------------------------------------------------------ *)
(** ** Fields *)

Lemma get_field_range h l x : l ≤ h → 0 ≤ get_field h l x < 2 ^ (h - l + 1).
Proof.
  intros. unfold get_field. rewrite Z.land_ones by lia.
  apply Z.mod_pos_bound, Z.pow_pos_nonneg; lia.
Qed.

Lemma get_field_lor h l x y :
  get_field h l (Z.lor x y) = Z.lor (get_field h l x) (get_field h l y).
Proof. unfold get_field. by rewrite Z.shiftr_lor, Z.land_lor_distr_l. Qed.

Lemma get_field_0 h l : get_field h l 0 = 0.
Proof. unfold get_field. by rewrite Z.shiftr_0_l, Z.land_0_l. Qed.

(** Cutting a word to 32 bits keeps the fields below bit 32. *)
Lemma get_field_u32 h l x : 0 ≤ l ≤ h → h < 32 → get_field h l (u32 x) = get_field h l x.
Proof.
  intros. unfold get_field, wrap. rewrite <-Z.land_ones by lia.
  apply Z.bits_inj'. intros i Hi.
  rewrite !Z.land_spec, !Z.shiftr_spec, Z.land_spec by lia.
  rewrite !Z.testbit_ones_nonneg by lia.
  destruct (decide (i < h - l + 1)).
  - by rewrite (proj2 (Z.ltb_lt (i + l) 32)), andb_true_r by lia.
  - by rewrite (proj2 (Z.ltb_ge i (h - l + 1))), !andb_false_r by lia.
Qed.

Section fields.
Context `{BitsOk}.

Lemma field_prep_mul h l v : 0 ≤ l ≤ h → h < 64 →
  FIELD_PREP (GENMASK h l) v = (v mod 2 ^ (h - l + 1)) * 2 ^ l.
Proof.
  intros. rewrite field_prep_spec, genmask_spec by lia.
  apply land_ones_shiftl; lia.
Qed.

Lemma field_prep_range h l v : 0 ≤ l ≤ h → h < 32 →
  0 ≤ FIELD_PREP (GENMASK h l) v < 2 ^ 32.
Proof.
  intros. rewrite field_prep_mul by lia.
  assert (0 ≤ v mod 2 ^ (h - l + 1) < 2 ^ (h - l + 1)) as Hm
    by (apply Z.mod_pos_bound, Z.pow_pos_nonneg; lia).
  assert (0 < 2 ^ l) by (apply Z.pow_pos_nonneg; lia).
  assert (2 ^ (h - l + 1) * 2 ^ l ≤ 2 ^ 32).
  { rewrite <-Z.pow_add_r by lia. apply Z.pow_le_mono_r; lia. }
  nia.
Qed.

(** A field holds what was put in it, cut to its width; ... *)
Lemma get_field_prep h l v : 0 ≤ l ≤ h → h < 64 →
  get_field h l (FIELD_PREP (GENMASK h l) v) = v mod 2 ^ (h - l + 1).
Proof.
  intros. rewrite field_prep_mul by lia. unfold get_field.
  rewrite <-Z.shiftl_mul_pow2, Z.shiftr_shiftl_l, Z.sub_diag, Z.shiftl_0_r by lia.
  rewrite Z.land_ones by lia. apply Zmod_mod.
Qed.

(** ... and a field below or above it is left at zero. *)
Lemma get_field_prep_ne h l h' l' v :
  0 ≤ l ≤ h → h < 64 → 0 ≤ l' ≤ h' → (h < l' ∨ h' < l) →
  get_field h' l' (FIELD_PREP (GENMASK h l) v) = 0.
Proof.
  intros ?? ? Hd. rewrite field_prep_mul by lia.
  assert (0 ≤ v mod 2 ^ (h - l + 1) < 2 ^ (h - l + 1)) as Hm
    by (apply Z.mod_pos_bound, Z.pow_pos_nonneg; lia).
  generalize dependent (v mod 2 ^ (h - l + 1)). intros x Hx.
  unfold get_field. apply Z.bits_inj'. intros i Hi.
  rewrite Z.land_spec, Z.bits_0, Z.shiftr_spec, Z.testbit_ones_nonneg by lia.
  rewrite <-Z.shiftl_mul_pow2, Z.shiftl_spec by lia.
  destruct (decide (i < h' - l' + 1)) as [Hlt|]; [|by rewrite (proj2 (Z.ltb_ge _ _)), andb_false_r by lia].
  destruct Hd as [Hd|Hd].
  - replace x with (x mod 2 ^ (h - l + 1)) by (apply Z.mod_small; lia).
    by rewrite Z.mod_pow2_bits_high by lia.
  - by rewrite (Z.testbit_neg_r x) by lia.
Qed.

Lemma bit_pow n : 0 ≤ n < 64 → BIT n = 2 ^ n.
Proof.
  intros. rewrite bit_spec, genmask_spec by lia.
  replace (n - n + 1) with 1 by lia. apply Z.shiftl_1_l.
Qed.

Lemma get_field_bit n : 0 ≤ n < 64 → get_field n n (BIT n) = 1.
Proof.
  intros. rewrite bit_pow by lia. unfold get_field.
  rewrite Z.shiftr_div_pow2, Z.div_same by lia. by replace (n - n + 1) with 1 by lia.
Qed.

Lemma get_field_bit_ne h l n : 0 ≤ n < 64 → 0 ≤ l ≤ h → (n < l ∨ h < n) →
  get_field h l (BIT n) = 0.
Proof.
  intros Hn Hl Hd. rewrite bit_pow by lia. unfold get_field.
  apply Z.bits_inj'. intros i Hi.
  rewrite Z.land_spec, Z.bits_0, Z.shiftr_spec, Z.testbit_ones_nonneg by lia.
  destruct (decide (i < h - l + 1)).
  - by rewrite Z.pow2_bits_false by lia.
  - by rewrite (proj2 (Z.ltb_ge _ _)), andb_false_r by lia.
Qed.
End fields.

Lemma lor_range w x y : 0 ≤ w → 0 ≤ x < 2 ^ w → 0 ≤ y < 2 ^ w → 0 ≤ Z.lor x y < 2 ^ w.
Proof.
  intros Hw Hx Hy. split; [apply Z.lor_nonneg; lia|].
  destruct (decide (Z.lor x y = 0)) as [->|Hne]; [lia|].
  assert (0 ≤ Z.lor x y) by (apply Z.lor_nonneg; lia).
  destruct (decide (w = 0)) as [->|]; [|].
  { replace x with 0 in Hne by lia. by replace y with 0 in Hne by lia. }
  apply Z.log2_lt_pow2; [lia|]. rewrite Z.log2_lor by lia.
  assert (∀ z, 0 ≤ z < 2 ^ w → Z.log2 z < w) as Hl.
  { intros z Hz. destruct (decide (z = 0)) as [->|]; [simpl; lia|].
    apply Z.log2_lt_pow2; lia. }
  apply Z.max_lub_lt; by apply Hl.
Qed.

(** [bitfields] evaluates [get_field]s of words built with [FIELD_PREP]. *)
Create Rewrite HintDb bitfield.
#[export] Hint Rewrite get_field_lor get_field_0 Z.lor_0_l Z.lor_0_r : bitfield.
#[export] Hint Rewrite @get_field_prep using (try typeclasses eauto; lia) : bitfield.
#[export] Hint Rewrite @get_field_prep_ne using (try typeclasses eauto; lia) : bitfield.
#[export] Hint Rewrite @get_field_bit using (try typeclasses eauto; lia) : bitfield.
#[export] Hint Rewrite @get_field_bit_ne using (try typeclasses eauto; lia) : bitfield.
#[export] Hint Rewrite get_field_u32 using lia : bitfield.
Ltac bitfields := autorewrite with bitfield; try done.
