(* ===== verification/HalTypes.v ===== *)
(** * Data of the HAL: ring types, ring ids, registers, rings

    Source: src/driver/driver_wireless/wireless_hal.h and the configuration
    template at the top of wireless_hal.c.  Enumerations that the code uses as
    C integers in arithmetic ([hal_srng_ring_id]) are constants of type [Z],
    the others are inductive types. *)

From S2P Require Import Prelude Kernel Bits.

(* ------------------------------------------------------------------ *)
(** ** Enumerations and constants *)

Inductive hal_srng_dir := HAL_SRNG_DIR_SRC | HAL_SRNG_DIR_DST.

#[export] Instance hal_srng_dir_eq_dec : EqDecision hal_srng_dir.
Proof. solve_decision. Defined.

Inductive hal_ring_type :=
  | HAL_TEST_SRNG
  | HAL_TEST_SRNG_DST
  | HAL_TEST_SRNG_DST_STATUS.

#[export] Instance hal_ring_type_eq_dec : EqDecision hal_ring_type.
Proof. solve_decision. Defined.

(** The enumerators' values: the index into [hal->srng_config]. *)
Definition hal_ring_type_val (t : hal_ring_type) : nat :=
  match t with
  | HAL_TEST_SRNG => 0
  | HAL_TEST_SRNG_DST => 1
  | HAL_TEST_SRNG_DST_STATUS => 2
  end%nat.

Definition HAL_SRNG_FLAGS_MSI_SWAP : Z := 0x00000008.
Definition HAL_SRNG_FLAGS_RING_PTR_SWAP : Z := 0x00000010.
Definition HAL_SRNG_FLAGS_DATA_TLV_SWAP : Z := 0x00000020.
Definition HAL_SRNG_FLAGS_LOW_THRESH_INTR_EN : Z := 0x00010000.
Definition HAL_SRNG_FLAGS_MSI_INTR : Z := 0x00020000.
Definition HAL_SRNG_FLAGS_REMAP_CE_RING : Z := 0x10000000.
Definition HAL_SRNG_FLAGS_CACHED : Z := 0x20000000.
Definition HAL_SRNG_FLAGS_LMAC_RING : Z := 0x80000000.

(** [flags & FLAG] used as a condition. *)
Definition flag_set (flags flag : Z) : bool := negb (Z.land flags flag =? 0).

(** [enum hal_srng_ring_id] *)
Definition HAL_SRNG_RING_ID_REO2SW1 : Z := 0.
Definition HAL_SRNG_RING_ID_TEST_DST_STATUS : Z := 1.
Definition HAL_SRNG_RING_ID_TEST_DST : Z := 8.
Definition HAL_SRNG_RING_ID_WBM_IDLE_LINK : Z := 104.
Definition HAL_SRNG_RING_ID_TEST_SW2HW : Z := 125.
Definition HAL_SRNG_RING_ID_UMAC_ID_END : Z := 127.
Definition HAL_SRNG_RING_ID_LMAC1_ID_START : Z := 128.
Definition HAL_SRNG_RING_ID_LMAC1_ID_END : Z := 143.

Definition HAL_SRNG_NUM_LMACS : Z := 3.
Definition HAL_SRNG_RINGS_PER_LMAC : Z :=
  HAL_SRNG_RING_ID_LMAC1_ID_END - HAL_SRNG_RING_ID_LMAC1_ID_START.
Definition HAL_SRNG_NUM_LMAC_RINGS : Z := HAL_SRNG_NUM_LMACS * HAL_SRNG_RINGS_PER_LMAC.
Definition HAL_SRNG_RING_ID_MAX : Z := HAL_SRNG_RING_ID_UMAC_ID_END + HAL_SRNG_NUM_LMAC_RINGS.
Definition HAL_SHADOW_NUM_REGS : Z := 36.

(* ------------------------------------------------------------------ *)
(** ** Registers of a ring *)

Definition HAL_SRNG_REG_GRP_R0 : Z := 0.
Definition HAL_SRNG_REG_GRP_R2 : Z := 1.
Definition HAL_SRNG_NUM_REG_GRP : Z := 2.
Definition HAL_SRNG_REG_BASE : Z := 0x00010000.
Definition HAL_SRNG_REG_R_GROUP_OFFSET (x : Z) : Z := x ≪ 2.
Definition HAL_ADDR_LSB_REG_MASK : Z := 0xffffffff.
Definition HAL_ADDR_MSB_REG_SHIFT : Z := 32.

(** [srng->hwreg_base[grp]] as [wireless_simu_hal_srng_setup] computes it. *)
Definition hal_srng_reg_base (ring_id grp : Z) : Z :=
  Z.lor (Z.lor HAL_SRNG_REG_BASE (ring_id ≪ 8)) (grp ≪ 7).

(* ------------------------------------------------------------------ *)
(** ** Descriptors: the packed structures shared with the device *)

Record hal_test_sw2hw := HalTestSw2hw {
  sw2hw_buffer_addr_low : Z;
  sw2hw_buffer_addr_info : Z;
  sw2hw_meta_info : Z;
  sw2hw_write_index : Z;
  sw2hw_flags : Z
}.
Record hal_test_dst_status := HalTestDstStatus {
  dsts_buffer_length : Z;
  dsts_flag : Z
}.
Record hal_test_dst := HalTestDst {
  tdst_buffer_addr_low : Z;
  tdst_buffer_addr_info : Z;
  tdst_flag : Z
}.

(** Their layout: the u32 members in order. *)
Definition hal_test_sw2hw_words (d : hal_test_sw2hw) : list Z :=
  [sw2hw_buffer_addr_low d; sw2hw_buffer_addr_info d; sw2hw_meta_info d;
   sw2hw_write_index d; sw2hw_flags d].
Definition hal_test_dst_words (d : hal_test_dst) : list Z :=
  [tdst_buffer_addr_low d; tdst_buffer_addr_info d; tdst_flag d].

Definition sizeof_hal_test_sw2hw : Z := 4 * 5.
Definition sizeof_hal_test_dst_status : Z := 4 * 2.
Definition sizeof_hal_test_dst : Z := 4 * 3.

(* ------------------------------------------------------------------ *)
(** ** Ring configuration *)

Record hal_srng_config := HalSrngConfig {
  cfg_start_ring_id : Z;
  cfg_max_rings : Z;
  cfg_entry_size : Z;                  (* in 32-bit words *)
  cfg_reg_start : Z * Z;
  cfg_reg_size : Z * Z;
  cfg_lmac_ring : bool;
  cfg_ring_dir : hal_srng_dir;
  cfg_max_size : Z
}.

Definition HAL_TEST_SW2HW_SIZE : Z := 0x0000ffff.

Definition hw_srng_config_template : list hal_srng_config :=
  [ (* HAL_TEST_SRNG *)
    HalSrngConfig HAL_SRNG_RING_ID_TEST_SW2HW 1 (sizeof_hal_test_sw2hw ≫ 2)
      (0, 0) (0, 0) false HAL_SRNG_DIR_SRC HAL_TEST_SW2HW_SIZE;
    (* HAL_TEST_SRNG_DST *)
    HalSrngConfig HAL_SRNG_RING_ID_TEST_DST 1 (sizeof_hal_test_dst ≫ 2)
      (0, 0) (0, 0) false HAL_SRNG_DIR_SRC HAL_TEST_SW2HW_SIZE;
    (* HAL_TEST_SRNG_DST_STATUS *)
    HalSrngConfig HAL_SRNG_RING_ID_TEST_DST_STATUS 1 (sizeof_hal_test_dst_status ≫ 2)
      (0, 0) (0, 0) false HAL_SRNG_DIR_DST HAL_TEST_SW2HW_SIZE ].

(* ------------------------------------------------------------------ *)
(** ** struct hal_srng

    The anonymous union of the two directions is kept as two records: every
    access of the code goes to the arm that [ring_dir] names, and [ring_dir]
    is a constant of the ring's type. *)

Record hal_dst_ring := HalDstRing {
  dst_tp : Z;
  dst_hp_addr : Z;
  dst_cached_hp : Z;
  dst_tp_addr : Z;
  dst_loop_cnt : Z;
  dst_max_buffer_length : Z;
  dst_last_hp : Z
}.
#[export] Instance eta_hal_dst_ring : Eta hal_dst_ring := MkEta (λ r,
  HalDstRing (dst_tp r) (dst_hp_addr r) (dst_cached_hp r) (dst_tp_addr r)
    (dst_loop_cnt r) (dst_max_buffer_length r) (dst_last_hp r)).

Record hal_src_ring := HalSrcRing {
  src_hp : Z;
  src_reap_hp : Z;
  src_tp_addr : Z;
  src_cached_tp : Z;
  src_hp_addr : Z;
  src_low_threshold : Z;
  src_last_tp : Z
}.
#[export] Instance eta_hal_src_ring : Eta hal_src_ring := MkEta (λ r,
  HalSrcRing (src_hp r) (src_reap_hp r) (src_tp_addr r) (src_cached_tp r)
    (src_hp_addr r) (src_low_threshold r) (src_last_tp r)).

Record hal_srng := HalSrng {
  srng_ring_id : Z;
  srng_initialized : Z;
  srng_irq : Z;
  srng_ring_base_paddr : Z;
  srng_ring_base_vaddr : Z;
  srng_num_entries : Z;
  srng_ring_size : Z;                  (* in 32-bit words *)
  srng_ring_size_mask : Z;
  srng_entry_size : Z;                 (* in 32-bit words *)
  srng_intr_timer_thres_us : Z;
  srng_intr_batch_cntr_thres_entries : Z;
  srng_msi_addr : Z;
  srng_msi_data : Z;
  srng_flags : Z;
  srng_lock : bool;                    (* spinlock: taken? *)
  srng_hwreg_base : Z * Z;             (* groups R0, R2 *)
  srng_timestamp : Z;
  srng_ring_dir : hal_srng_dir;
  srng_src : hal_src_ring;
  srng_dst : hal_dst_ring
}.
#[export] Instance eta_hal_srng : Eta hal_srng := MkEta (λ s,
  HalSrng (srng_ring_id s) (srng_initialized s) (srng_irq s) (srng_ring_base_paddr s)
    (srng_ring_base_vaddr s) (srng_num_entries s) (srng_ring_size s)
    (srng_ring_size_mask s) (srng_entry_size s) (srng_intr_timer_thres_us s)
    (srng_intr_batch_cntr_thres_entries s) (srng_msi_addr s) (srng_msi_data s)
    (srng_flags s) (srng_lock s) (srng_hwreg_base s) (srng_timestamp s)
    (srng_ring_dir s) (srng_src s) (srng_dst s)).

(** A ring of zero bytes, as [memset] leaves it. *)
Definition hal_srng_zero : hal_srng :=
  HalSrng 0 0 0 0 0 0 0 0 0 0 0 0 0 0 false (0, 0) 0 HAL_SRNG_DIR_SRC
    (HalSrcRing 0 0 0 0 0 0 0) (HalDstRing 0 0 0 0 0 0 0).

Record hal_srng_params := HalSrngParams {
  par_ring_base_paddr : Z;
  par_ring_base_vaddr : Z;
  par_num_entries : Z;
  par_intr_batch_cntr_thres_entries : Z;
  par_intr_timer_thres_us : Z;
  par_flags : Z;
  par_max_buffer_len : Z;
  par_low_threshold : Z;
  par_msi_addr : Z;
  par_msi_data : Z
}.

(* ------------------------------------------------------------------ *)
(** ** struct wireless_simu_hal *)

Record wireless_simu_hal := WirelessSimuHal {
  hal_srng_list : list hal_srng;
  hal_config_ptr : Z;                          (* hal->srng_config *)
  hal_config_val : list hal_srng_config;       (* what it points to *)
  hal_rdp_vaddr : Z;
  hal_rdp_paddr : Z;
  hal_wrp_vaddr : Z;
  hal_wrp_paddr : Z;
  hal_avail_blk_resource : Z;
  hal_current_blk_index : Z;
  hal_shadow_reg_addr : list Z;
  hal_num_shadow_reg_configured : Z;
  hal_srng_key : gset Z                        (* registered lockdep keys *)
}.
#[export] Instance eta_wireless_simu_hal : Eta wireless_simu_hal := MkEta (λ h,
  WirelessSimuHal (hal_srng_list h) (hal_config_ptr h) (hal_config_val h)
    (hal_rdp_vaddr h) (hal_rdp_paddr h) (hal_wrp_vaddr h) (hal_wrp_paddr h)
    (hal_avail_blk_resource h) (hal_current_blk_index h) (hal_shadow_reg_addr h)
    (hal_num_shadow_reg_configured h) (hal_srng_key h)).

(** The structure cleared by [memset] in [wireless_simu_hal_srng_init]. *)
Definition wireless_simu_hal_zero : wireless_simu_hal :=
  WirelessSimuHal (replicate (Z.to_nat HAL_SRNG_RING_ID_MAX) hal_srng_zero)
    0 [] 0 0 0 0 0 0 (replicate (Z.to_nat HAL_SHADOW_NUM_REGS) 0) 0 ∅.
