(* ===== verification/Hif.v ===== *)
(** * Host interface: register access and locks

    Source: src/driver/driver_wireless/wireless_hif.c and the basic registers
    of wireless.h.  [priv->mmio_addr] is an argument.  The spinlocks and
    mutexes of the driver are booleans of the structure that holds them;
    taking one twice from the same context is a [Deadlock]. *)

From S2P Require Import Prelude Kernel Bits HalTypes.

Section hif.
Context `{K : Kernel}.

Definition wireless_hif_write32 (mmio_addr address data : Z) : M unit :=
  iowrite32 (u32 data) (mmio_addr + u32 address).

Definition wireless_hif_read32 (mmio_addr address : Z) : M Z :=
  val ← ioread32 (mmio_addr + u32 address); mret val.
End hif.

(** Registers outside the ring groups: [HAL_BASIC_REG(n)]. *)
Definition HAL_BASIC_REG (n : Z) : Z := Z.land (n ≪ 2) 0x0000ffff.
Definition WIRELESS_REG_BASIC_IRQ_ENABLE : Z := 1.
Definition WIRELESS_REG_BASIC_IRQ_STATUS : Z := 2.

(** Locks. *)
Definition lock_acquire (held : bool) : M bool :=
  if held then fail Deadlock else mret true.
Definition lock_release (held : bool) : M bool :=
  if held then mret false else fail NotLocked.
Definition lockdep_assert_held (held : bool) : M unit := assert held NotLocked.

Definition srng_spin_lock (srng : hal_srng) : M hal_srng :=
  l ← lock_acquire (srng_lock srng); mret (srng <| srng_lock := l |>).
Definition srng_spin_unlock (srng : hal_srng) : M hal_srng :=
  l ← lock_release (srng_lock srng); mret (srng <| srng_lock := l |>).

(** The value a device register holds: the last value written through a
    pointer, in a log of MMIO writes. *)
Definition mmio_last (log : list (Z * Z)) (p : Z) : option Z :=
  foldl (λ acc '(q, v), if decide (q = p) then Some v else acc) None log.

Lemma mmio_last_app log p v : mmio_last (log ++ [(p, v)]) p = Some v.
Proof. unfold mmio_last. rewrite foldl_snoc. by rewrite decide_True. Qed.

Lemma mmio_last_app_ne log p q v : q ≠ p → mmio_last (log ++ [(q, v)]) p = mmio_last log p.
Proof. intros. unfold mmio_last. rewrite foldl_snoc. by rewrite decide_False. Qed.

Lemma mmio_last_app_list l1 l2 p :
  mmio_last (l1 ++ l2) p = match mmio_last l2 p with Some v => Some v | None => mmio_last l1 p end.
Proof.
  induction l2 as [|[q v] l2 IH] using rev_ind; [by rewrite app_nil_r|].
  rewrite app_assoc. destruct (decide (q = p)) as [->|].
  - by rewrite !mmio_last_app.
  - by rewrite !mmio_last_app_ne.
Qed.

Lemma mmio_last_None log p : Forall (λ pv, pv.1 ≠ p) log → mmio_last log p = None.
Proof.
  induction log as [|[q v] log IH] using rev_ind; [done|].
  intros [H1 H2]%Forall_app. rewrite mmio_last_app_ne; [by apply IH|].
  by inversion H2.
Qed.

(** Evaluate [mmio_last] on an explicit log whose addresses [lia] can tell
    apart. *)
Ltac mmio_eval :=
  unfold mmio_last; cbn [foldl];
  repeat first [rewrite decide_True by lia | rewrite decide_False by lia].

(* ------------------------------------------------------------------ *)
(** ** What stays as it was *)

(** The words in [P] and the registers in [Q] read the same in [w'] as in [w]. *)
Record keeps (P Q : Z → Prop) (w w' : world) : Prop := {
  kp_mem : ∀ x, P x → w_mem w' !! x = w_mem w !! x;
  kp_reg : ∀ r, Q r → mmio_last (w_mmio w') r = mmio_last (w_mmio w) r
}.
#[export] Instance keeps_refl P Q : Reflexive (keeps P Q).
Proof. by split. Qed.
#[export] Instance keeps_trans P Q : Transitive (keeps P Q).
Proof. intros w1 w2 w3 [H1 G1] [H2 G2]. split; intros; [rewrite H2|rewrite G2]; auto. Qed.

Lemma keeps_mono (P P' Q Q' : Z → Prop) w w' : (∀ x, P' x → P x) → (∀ r, Q' r → Q r) →
  keeps P Q w w' → keeps P' Q' w w'.
Proof. intros HP HQ []. split; eauto. Qed.

Lemma keeps_same P Q w w' : w_mem w' = w_mem w → w_mmio w' = w_mmio w → keeps P Q w w'.
Proof. intros Hm Hi. split; intros; by rewrite ?Hm, ?Hi. Qed.

(** Memory that only grows. *)
Lemma keeps_grow (P Q : Z → Prop) w w' : (∀ x, P x → is_Some (w_mem w !! x)) →
  w_mem w ⊆ w_mem w' → w_mmio w' = w_mmio w → keeps P Q w w'.
Proof.
  intros HP Hm Hi. split; intros x Hx; [|by rewrite Hi].
  destruct (HP x Hx) as [v Hv]. rewrite Hv. by apply (lookup_weaken (w_mem w)).
Qed.
