(* ===== verification/HalRing.v ===== *)
(** * Operations on a ring

    Source: src/driver/driver_wireless/wireless_hal.c, functions
    [wireless_simu_hal_srng_access_begin] to
    [wireless_simu_hal_srng_dst_get_next_entry].  Head and tail pointers count
    32-bit words; a ring of [num_entries] entries of [entry_size] words has
    [ring_size = entry_size * num_entries] words. *)

From S2P Require Import Prelude Kernel Bits HalTypes Hif.

(* ------------------------------------------------------------------ *)
(** ** The functions *)

Section ring_ops.
Context `{K : Kernel}.

Definition wireless_simu_hal_srng_access_begin (srng : hal_srng) : M hal_srng :=
  lockdep_assert_held (srng_lock srng);;
  match srng_ring_dir srng with
  | HAL_SRNG_DIR_SRC =>
      tp ← load32 (src_tp_addr (srng_src srng));
      mret (srng <| srng_src := srng_src srng <| src_cached_tp := tp |> |>)
  | HAL_SRNG_DIR_DST =>
      hp ← load32 (dst_hp_addr (srng_dst srng));
      mret (srng <| srng_dst := srng_dst srng <| dst_cached_hp := hp |> |>)
  end.

(** Returns the C [int] and the ring. *)
Definition wireless_simu_hal_srng_src_num_free (srng : hal_srng) (sync_hw_ptr : bool)
    : M (Z * hal_srng) :=
  lockdep_assert_held (srng_lock srng);;
  let hp := src_hp (srng_src srng) in
  '(tp, srng) ←
    (if sync_hw_ptr
     then tp ← load32 (src_tp_addr (srng_src srng));
          mret (tp, srng <| srng_src := srng_src srng <| src_cached_tp := tp |> |>)
     else mret (src_cached_tp (srng_src srng), srng));
  if decide (hp < tp)
  then q ← udiv32 (u32 (tp - hp)) (srng_entry_size srng);
       mret (s32 (u32 (q - 1)), srng)
  else q ← udiv32 (u32 (u32 (srng_ring_size srng - hp) + tp)) (srng_entry_size srng);
       mret (s32 (u32 (q - 1)), srng).

Definition wireless_simu_hal_srng_access_end (mmio_addr : Z) (srng : hal_srng) : M hal_srng :=
  lockdep_assert_held (srng_lock srng);;
  srng ←
    (if flag_set (srng_flags srng) HAL_SRNG_FLAGS_LMAC_RING
     then
       match srng_ring_dir srng with
       | HAL_SRNG_DIR_SRC =>
           tp ← load32 (src_tp_addr (srng_src srng));
           store32 (src_hp_addr (srng_src srng)) (src_hp (srng_src srng));;
           mret (srng <| srng_src := srng_src srng <| src_last_tp := tp |> |>)
       | HAL_SRNG_DIR_DST =>
           hp ← load32 (dst_hp_addr (srng_dst srng));
           store32 (dst_tp_addr (srng_dst srng)) (dst_tp (srng_dst srng));;
           mret (srng <| srng_dst := srng_dst srng <| dst_last_hp := hp |> |>)
       end
     else
       match srng_ring_dir srng with
       | HAL_SRNG_DIR_SRC =>
           tp ← load32 (src_tp_addr (srng_src srng));
           wireless_hif_write32 mmio_addr
             (ptr_sub (src_hp_addr (srng_src srng)) mmio_addr) (src_hp (srng_src srng));;
           mret (srng <| srng_src := srng_src srng <| src_last_tp := tp |> |>)
       | HAL_SRNG_DIR_DST =>
           hp ← load32 (dst_hp_addr (srng_dst srng));
           wireless_hif_write32 mmio_addr
             (ptr_sub (dst_tp_addr (srng_dst srng)) mmio_addr) (dst_tp (srng_dst srng));;
           mret (srng <| srng_dst := srng_dst srng <| dst_last_hp := hp |> |>)
       end);
  now ← jiffies;
  mret (srng <| srng_timestamp := now |>).

(** The next three return the descriptor's address ([0] for NULL). *)
Definition wireless_simu_hal_srng_src_get_next_reaped (srng : hal_srng) : M (Z * hal_srng) :=
  lockdep_assert_held (srng_lock srng);;
  let r := srng_src srng in
  if decide (src_hp r = src_reap_hp r) then mret (0, srng)
  else
    let desc := ptr_add32 (srng_ring_base_vaddr srng) (src_hp r) in
    hp ← umod32 (u32 (src_hp r + srng_entry_size srng)) (srng_ring_size srng);
    mret (desc, srng <| srng_src := r <| src_hp := hp |> |>).

Definition wireless_simu_hal_srng_src_get_next_entry (srng : hal_srng) : M (Z * hal_srng) :=
  lockdep_assert_held (srng_lock srng);;
  let r := srng_src srng in
  next_hp ← umod32 (u32 (src_hp r + srng_entry_size srng)) (srng_ring_size srng);
  if decide (next_hp = src_cached_tp r) then mret (0, srng)
  else
    let desc := ptr_add32 (srng_ring_base_vaddr srng) (src_hp r) in
    mret (desc, srng <| srng_src := r <| src_hp := next_hp |> <| src_reap_hp := next_hp |> |>).

Definition wireless_simu_hal_srng_dst_get_next_entry (srng : hal_srng) : M (Z * hal_srng) :=
  lockdep_assert_held (srng_lock srng);;
  let r := srng_dst srng in
  if decide (dst_tp r = dst_cached_hp r) then mret (0, srng)
  else
    let desc := ptr_add32 (srng_ring_base_vaddr srng) (dst_tp r) in
    let tp := u32 (dst_tp r + srng_entry_size srng) in
    let tp := if decide (tp = srng_ring_size srng) then 0 else tp in
    mret (desc, srng <| srng_dst := r <| dst_tp := tp |> |>).
End ring_ops.

(* ------------------------------------------------------------------ *)
(** ** Index arithmetic of a ring

    An entry is named by its index [i] in [0, N); its first word is
    [e * i]. *)

Section index.
Context (e N : Z) (He : 0 < e) (HN : 0 < N) (Hb : e * N < 2 ^ 32).

(** Entries from tail index [t] up to head index [h], going round. *)
Definition ring_used (N h t : Z) : Z := (h - t) mod N.

Lemma ring_offset_lt i : 0 ≤ i < N → 0 ≤ e * i < e * N.
Proof. nia. Qed.

Lemma ring_offset_inj i j : e * i = e * j → i = j.
Proof. nia. Qed.

Lemma ring_next i : 0 ≤ i < N → u32 (e * i + e) mod (e * N) = e * ((i + 1) mod N).
Proof.
  intros Hi. rewrite wrap_id by nia.
  destruct (decide (i + 1 = N)) as [Heq|].
  - replace (e * i + e) with (e * N) by nia. rewrite Heq.
    rewrite !Z_mod_same_full. lia.
  - rewrite (Z.mod_small (i + 1)) by lia. rewrite Z.mod_small by nia. nia.
Qed.

(** The conditional wrap of the destination side is the modulo of the source
    side. *)
Lemma ring_next_cond i : 0 ≤ i < N →
  (if decide (u32 (e * i + e) = e * N) then 0 else u32 (e * i + e)) = e * ((i + 1) mod N).
Proof.
  intros Hi. rewrite <-ring_next by done. rewrite wrap_id by nia.
  case_decide as Hd.
  - by rewrite Hd, Z_mod_same_full.
  - rewrite Z.mod_small; nia.
Qed.

Lemma ring_used_range h t : 0 ≤ ring_used N h t < N.
Proof. apply Z.mod_pos_bound; lia. Qed.

Lemma ring_used_full h t : 0 ≤ h < N → 0 ≤ t < N →
  (h + 1) mod N = t ↔ ring_used N h t = N - 1.
Proof.
  intros Hh Ht. unfold ring_used. destruct (decide (h + 1 = N)) as [Heq|].
  - rewrite Heq, Z_mod_same_full. split; intros H.
    + rewrite Z.mod_small; lia.
    + destruct (decide (t = 0)); [lia|]. rewrite Z.mod_small in H; lia.
  - rewrite (Z.mod_small (h + 1)) by lia. split; intros H.
    + symmetry. apply (Z.mod_unique_pos _ _ (-1)); lia.
    + destruct (decide (t ≤ h)).
      * rewrite Z.mod_small in H; lia.
      * assert ((h - t) mod N = h - t + N) as Hm
          by (symmetry; apply (Z.mod_unique_pos _ _ (-1)); lia). lia.
Qed.

Lemma ring_used_empty h t : 0 ≤ h < N → 0 ≤ t < N → h = t ↔ ring_used N h t = 0.
Proof.
  intros Hh Ht. unfold ring_used. split; [intros ->; by rewrite Z.sub_diag, Zmod_0_l|].
  intros H. destruct (decide (t ≤ h)).
  - rewrite Z.mod_small in H; lia.
  - assert ((h - t) mod N = h - t + N) as Hm
      by (symmetry; apply (Z.mod_unique_pos _ _ (-1)); lia). lia.
Qed.

(** The two branches of [src_num_free] are one formula. *)
Lemma ring_free_formula h t : 0 ≤ h < N → 0 ≤ t < N →
  (if decide (e * h < e * t) then u32 (e * t - e * h) / e
   else u32 (u32 (e * N - e * h) + e * t) / e) = N - ring_used N h t.
Proof.
  intros Hh Ht. unfold ring_used. case_decide as Hd.
  - rewrite wrap_id by nia. replace (e * t - e * h) with ((t - h) * e) by lia.
    rewrite Z.div_mul by lia.
    assert ((h - t) mod N = h - t + N) as ->; [|lia].
    symmetry; apply (Z.mod_unique_pos _ _ (-1)); nia.
  - rewrite (wrap_id 32 (e * N - e * h)), wrap_id by nia.
    replace (e * N - e * h + e * t) with ((N - h + t) * e) by lia.
    rewrite Z.div_mul by lia. rewrite Z.mod_small; nia.
Qed.
End index.

(* ------------------------------------------------------------------ *)
(** ** Well-formed rings *)

(** What [wireless_simu_hal_srng_setup] establishes and no operation of this
    file changes. *)
Record srng_geometry (s : hal_srng) : Prop := SrngGeometry {
  geo_entry : 0 < srng_entry_size s;
  geo_num : 1 < srng_num_entries s;
  geo_size : srng_ring_size s = srng_entry_size s * srng_num_entries s;
  geo_bound : srng_entry_size s * srng_num_entries s < 2 ^ 30;
  geo_base : 0 < srng_ring_base_vaddr s;
  geo_top : srng_ring_base_vaddr s + 4 * srng_ring_size s < 2 ^ 64
}.

(** A word offset that is the start of an entry. *)
Definition is_entry (e N x : Z) : Prop := ∃ i, 0 ≤ i < N ∧ x = e * i.

(** The index of the entry a word offset starts. *)
Definition entry_index (e x : Z) : Z := x / e.

Record src_wf (s : hal_srng) : Prop := SrcWf {
  src_wf_geo : srng_geometry s;
  src_wf_hp : is_entry (srng_entry_size s) (srng_num_entries s) (src_hp (srng_src s));
  src_wf_tp : is_entry (srng_entry_size s) (srng_num_entries s) (src_cached_tp (srng_src s));
  src_wf_lock : srng_lock s = true
}.
Record dst_wf (s : hal_srng) : Prop := DstWf {
  dst_wf_geo : srng_geometry s;
  dst_wf_tp : is_entry (srng_entry_size s) (srng_num_entries s) (dst_tp (srng_dst s));
  dst_wf_hp : is_entry (srng_entry_size s) (srng_num_entries s) (dst_cached_hp (srng_dst s));
  dst_wf_lock : srng_lock s = true
}.

(** Free entries the source side sees; one entry always stays empty. *)
Definition src_free (s : hal_srng) : Z :=
  srng_num_entries s - 1 -
  ring_used (srng_num_entries s) (entry_index (srng_entry_size s) (src_hp (srng_src s)))
    (entry_index (srng_entry_size s) (src_cached_tp (srng_src s))).
(** Filled entries the destination side sees. *)
Definition dst_avail (s : hal_srng) : Z :=
  ring_used (srng_num_entries s) (entry_index (srng_entry_size s) (dst_cached_hp (srng_dst s)))
    (entry_index (srng_entry_size s) (dst_tp (srng_dst s))).

Lemma entry_index_mul e i : 0 < e → entry_index e (e * i) = i.
Proof. intros. unfold entry_index. rewrite Z.mul_comm. apply Z.div_mul. lia. Qed.

Lemma is_entry_next s i : srng_geometry s → 0 ≤ i < srng_num_entries s →
  is_entry (srng_entry_size s) (srng_num_entries s) (srng_entry_size s * ((i + 1) mod srng_num_entries s)).
Proof. intros []. eexists. split; [|done]. apply Z.mod_pos_bound. lia. Qed.

(** A descriptor's address does not wrap and is not NULL. *)
Lemma desc_addr s i : srng_geometry s → 0 ≤ i < srng_num_entries s →
  ptr_add32 (srng_ring_base_vaddr s) (srng_entry_size s * i) =
    srng_ring_base_vaddr s + 4 * (srng_entry_size s * i) ∧
  ptr_add32 (srng_ring_base_vaddr s) (srng_entry_size s * i) ≠ 0.
Proof.
  intros [] Hi. unfold ptr_add32. rewrite wrap_id by nia. split; nia.
Qed.

Lemma ring_used_succ N h t : 0 < N → ring_used N h t < N - 1 →
  ring_used N ((h + 1) mod N) t = ring_used N h t + 1.
Proof.
  intros HN Hu. unfold ring_used in *. rewrite Zminus_mod_idemp_l.
  replace (h + 1 - t) with (h - t + 1) by lia.
  rewrite <-Zplus_mod_idemp_l. apply Z.mod_small.
  pose proof (Z.mod_pos_bound (h - t) N). lia.
Qed.

Lemma ring_used_pred N h t : 0 < N → 0 < ring_used N h t →
  ring_used N h ((t + 1) mod N) = ring_used N h t - 1.
Proof.
  intros HN Hu. unfold ring_used in *. rewrite Zminus_mod_idemp_r.
  replace (h - (t + 1)) with (h - t - 1) by lia.
  rewrite <-Zminus_mod_idemp_l. apply Z.mod_small.
  pose proof (Z.mod_pos_bound (h - t) N). lia.
Qed.

(* ------------------------------------------------------------------ *)
(** ** What the operations compute on a well-formed ring *)

(** The ring after a successful claim: head (and reap head) one entry on. *)
Definition src_advance (s : hal_srng) : hal_srng :=
  let hp := srng_entry_size s *
    ((entry_index (srng_entry_size s) (src_hp (srng_src s)) + 1) mod srng_num_entries s) in
  s <| srng_src := srng_src s <| src_hp := hp |> <| src_reap_hp := hp |> |>.
Definition dst_advance (s : hal_srng) : hal_srng :=
  s <| srng_dst := srng_dst s <| dst_tp := srng_entry_size s *
    ((entry_index (srng_entry_size s) (dst_tp (srng_dst s)) + 1) mod srng_num_entries s) |> |>.

(** Replace a well-formed ring's pointers by their entry indices. *)
Ltac ring_indices :=
  repeat match goal with
  | H : src_wf _ |- _ => destruct H as [Hgeo [h [Hh Ehp]] [t [Ht Etp]] Hlock]
  | H : dst_wf _ |- _ => destruct H as [Hgeo [t [Ht Etp]] [h [Hh Ehp]] Hlock]
  end;
  match goal with H : srng_geometry ?s |- _ =>
    pose proof (geo_entry s H) as Hge; pose proof (geo_num s H) as Hgn;
    pose proof (geo_size s H) as Hgs; pose proof (geo_bound s H) as Hgb;
    assert (srng_num_entries s < 2 ^ 30) by nia
  end.

Section ring_specs.
Context `{K : Kernel}.

Lemma src_free_range s : src_wf s → 0 ≤ src_free s ≤ srng_num_entries s - 1.
Proof.
  intros [[] _ _ _]. unfold src_free, ring_used.
  pose proof (Z.mod_pos_bound (entry_index (srng_entry_size s) (src_hp (srng_src s)) -
    entry_index (srng_entry_size s) (src_cached_tp (srng_src s))) (srng_num_entries s)). lia.
Qed.

Lemma src_num_free_eq s w : src_wf s →
  wireless_simu_hal_srng_src_num_free s false w = Done ((src_free s, s), w).
Proof.
  intros Hwf. pose proof (src_free_range s Hwf) as Hr.
  unfold src_free in *. ring_indices.
  unfold wireless_simu_hal_srng_src_num_free, udiv32. rewrite Hlock.
  rewrite Ehp, Etp in Hr |- *. rewrite !entry_index_mul in * by done.
  pose proof (ring_free_formula (srng_entry_size s) (srng_num_entries s)
    ltac:(lia) ltac:(lia) ltac:(lia) h t Hh Ht) as Hf.
  unfold mbind, M_bind; cbn. rewrite ?Ehp, ?Etp, ?Hgs.
  case_decide; rewrite decide_False by lia; cbn; rewrite Hf.
  all: rewrite wrap_id, s32_id by lia; unfold mret, M_ret; do 3 f_equal; lia.
Qed.

Lemma src_next_full s w : src_wf s → src_free s = 0 →
  wireless_simu_hal_srng_src_get_next_entry s w = Done ((0, s), w).
Proof.
  intros Hwf Hz. unfold src_free in Hz. ring_indices.
  unfold wireless_simu_hal_srng_src_get_next_entry, umod32. rewrite Hlock.
  rewrite Ehp, Etp in *. rewrite !entry_index_mul in Hz by done.
  rewrite Hgs, decide_False by nia. unfold mbind, M_bind; cbn.
  rewrite ring_next by (done || lia).
  rewrite decide_True; [done|]. f_equal.
  apply (ring_used_full (srng_num_entries s)); lia.
Qed.

Lemma src_next_some s w : src_wf s → 0 < src_free s →
  wireless_simu_hal_srng_src_get_next_entry s w =
    Done ((srng_ring_base_vaddr s + 4 * src_hp (srng_src s), src_advance s), w).
Proof.
  intros Hwf Hz. unfold src_free in Hz. ring_indices.
  unfold wireless_simu_hal_srng_src_get_next_entry, src_advance, umod32. rewrite Hlock.
  rewrite Ehp, Etp in *. rewrite !entry_index_mul in * by done.
  rewrite Hgs, decide_False by nia. unfold mbind, M_bind; cbn.
  rewrite ring_next by (done || lia).
  rewrite decide_False.
  - by rewrite (proj1 (desc_addr s h Hgeo Hh)).
  - intros Heq. apply (ring_offset_inj _ (srng_num_entries s)) in Heq; [|lia..].
    apply (ring_used_full (srng_num_entries s)) in Heq; lia.
Qed.

Lemma dst_next_none s w : dst_wf s → dst_avail s = 0 →
  wireless_simu_hal_srng_dst_get_next_entry s w = Done ((0, s), w).
Proof.
  intros Hwf Hz. unfold dst_avail in Hz. ring_indices.
  unfold wireless_simu_hal_srng_dst_get_next_entry. rewrite Hlock.
  rewrite Ehp, Etp in *. rewrite !entry_index_mul in Hz by done.
  apply (ring_used_empty (srng_num_entries s)) in Hz; [|lia..]. subst h.
  unfold mbind, M_bind; cbn. by rewrite decide_True.
Qed.

Lemma dst_next_some s w : dst_wf s → 0 < dst_avail s →
  wireless_simu_hal_srng_dst_get_next_entry s w =
    Done ((srng_ring_base_vaddr s + 4 * dst_tp (srng_dst s), dst_advance s), w).
Proof.
  intros Hwf Hz. unfold dst_avail in Hz. ring_indices.
  unfold wireless_simu_hal_srng_dst_get_next_entry, dst_advance. rewrite Hlock.
  rewrite Ehp, Etp in *. rewrite !entry_index_mul in * by done.
  unfold mbind, M_bind; cbn. rewrite decide_False.
  - rewrite Hgs, ring_next_cond by lia.
    by rewrite (proj1 (desc_addr s t Hgeo Ht)).
  - intros Heq. apply (ring_offset_inj _ (srng_num_entries s)) in Heq; [|lia..]. subst.
    unfold ring_used in Hz. rewrite Z.sub_diag, Zmod_0_l in Hz. lia.
Qed.

(** Opening and closing an access, source side, not an LMAC ring. *)
Lemma src_begin_eq s w tp : srng_lock s = true → srng_ring_dir s = HAL_SRNG_DIR_SRC →
  w_mem w !! src_tp_addr (srng_src s) = Some tp →
  wireless_simu_hal_srng_access_begin s w =
    Done (s <| srng_src := srng_src s <| src_cached_tp := tp |> |>, w).
Proof.
  intros Hl Hd Ht. unfold wireless_simu_hal_srng_access_begin, load32. rewrite Hl, Hd.
  mcbn. by rewrite Ht.
Qed.

Lemma src_end_eq mmio_addr s w tp : srng_lock s = true → srng_ring_dir s = HAL_SRNG_DIR_SRC →
  flag_set (srng_flags s) HAL_SRNG_FLAGS_LMAC_RING = false →
  w_mem w !! src_tp_addr (srng_src s) = Some tp →
  wireless_simu_hal_srng_access_end mmio_addr s w =
    Done (s <| srng_src := srng_src s <| src_last_tp := tp |> |> <| srng_timestamp := w_jiffies w |>,
          w <| w_mmio := w_mmio w ++
            [(mmio_addr + u32 (ptr_sub (src_hp_addr (srng_src s)) mmio_addr),
              u32 (u32 (src_hp (srng_src s))))] |>).
Proof.
  intros Hl Hd Hf Ht. unfold wireless_simu_hal_srng_access_end, load32. rewrite Hl, Hd, Hf.
  mcbn. by rewrite Ht.
Qed.

(** The same for the destination side. *)
Lemma dst_begin_eq s w hp : srng_lock s = true → srng_ring_dir s = HAL_SRNG_DIR_DST →
  w_mem w !! dst_hp_addr (srng_dst s) = Some hp →
  wireless_simu_hal_srng_access_begin s w =
    Done (s <| srng_dst := srng_dst s <| dst_cached_hp := hp |> |>, w).
Proof.
  intros Hl Hd Ht. unfold wireless_simu_hal_srng_access_begin, load32. rewrite Hl, Hd.
  mcbn. by rewrite Ht.
Qed.

Lemma dst_end_eq mmio_addr s w hp : srng_lock s = true → srng_ring_dir s = HAL_SRNG_DIR_DST →
  flag_set (srng_flags s) HAL_SRNG_FLAGS_LMAC_RING = false →
  w_mem w !! dst_hp_addr (srng_dst s) = Some hp →
  wireless_simu_hal_srng_access_end mmio_addr s w =
    Done (s <| srng_dst := srng_dst s <| dst_last_hp := hp |> |> <| srng_timestamp := w_jiffies w |>,
          w <| w_mmio := w_mmio w ++
            [(mmio_addr + u32 (ptr_sub (dst_tp_addr (srng_dst s)) mmio_addr),
              u32 (u32 (dst_tp (srng_dst s))))] |>).
Proof.
  intros Hl Hd Hf Ht. unfold wireless_simu_hal_srng_access_end, load32. rewrite Hl, Hd, Hf.
  mcbn. by rewrite Ht.
Qed.
End ring_specs.

(* ------------------------------------------------------------------ *)
(** ** Preservation *)

Lemma src_advance_wf s : src_wf s → src_wf (src_advance s).
Proof.
  intros Hwf. ring_indices. unfold src_advance.
  rewrite Ehp, entry_index_mul by done.
  split; cbn; [by destruct Hgeo; split|by apply is_entry_next|by exists t|done].
Qed.

Lemma src_advance_free s : src_wf s → 0 < src_free s →
  src_free (src_advance s) = src_free s - 1.
Proof.
  intros Hwf Hz. unfold src_free in *. ring_indices. unfold src_advance. cbn.
  rewrite Ehp, Etp in *. rewrite !entry_index_mul in * by done.
  rewrite ring_used_succ by lia. lia.
Qed.

Lemma dst_advance_wf s : dst_wf s → dst_wf (dst_advance s).
Proof.
  intros Hwf. ring_indices. unfold dst_advance.
  rewrite Etp, entry_index_mul by done.
  split; cbn; [by destruct Hgeo; split|by apply is_entry_next|by exists h|done].
Qed.

Lemma dst_advance_avail s : dst_wf s → 0 < dst_avail s →
  dst_avail (dst_advance s) = dst_avail s - 1.
Proof.
  intros Hwf Hz. unfold dst_avail in *. ring_indices. unfold dst_advance. cbn.
  rewrite Ehp, Etp in *. rewrite !entry_index_mul in * by done.
  rewrite ring_used_pred by lia. lia.
Qed.
