(* ===== verification/RingCursor.v ===== *)
(** * The entry accessors against a reference ring

    [wireless_simu_hal_srng_src_get_next_entry] and
    [wireless_simu_hal_srng_dst_get_next_entry]
    (src/driver/driver_wireless/wireless_hal.c) work on word offsets with
    32-bit wrap-around and two different wrap rules.  The reference is a
    cursor: an index and the number of entries it may still hand out.  The
    class [RingSide] is what both sides promise. *)

From S2P Require Import Prelude Kernel Bits HalTypes Hif HalRing.

(** [cu_room] calls still get an entry. *)
Record cursor := Cursor { cu_entries : Z; cu_index : Z; cu_room : Z }.

Definition ref_next (c : cursor) : option (Z * cursor) :=
  if decide (cu_room c = 0) then None
  else Some (cu_index c, Cursor (cu_entries c) ((cu_index c + 1) mod cu_entries c) (cu_room c - 1)).

(** What [n] calls hand out. *)
Fixpoint ref_nexts (n : nat) (c : cursor) : list Z :=
  match n with
  | O => []
  | S n' => match ref_next c with None => [] | Some (i, c') => i :: ref_nexts n' c' end
  end.

Definition entry_addr (s : hal_srng) (i : Z) : Z :=
  srng_ring_base_vaddr s + 4 * (srng_entry_size s * i).

(** One side of the ring: its accessor and where its cursor stands. *)
Class RingSide := {
  side_next : hal_srng → M (Z * hal_srng);
  side_at : hal_srng → cursor → Prop
}.
Class RingSideOk (RS : RingSide) : Prop := {
  side_sim s c w : side_at s c →
    match ref_next c with
    | None => side_next s w = Done ((0, s), w)
    | Some (i, c') => ∃ s', side_next s w = Done ((entry_addr s i, s'), w) ∧ side_at s' c' ∧
        entry_addr s i ≠ 0 ∧ srng_ring_base_vaddr s' = srng_ring_base_vaddr s ∧
        srng_entry_size s' = srng_entry_size s
    end;
  side_bounds s c : side_at s c → 0 ≤ cu_index c < cu_entries c ∧ 0 ≤ cu_room c < cu_entries c
}.

(** Calls until NULL, at most [n]: the addresses. *)
Fixpoint nexts `{RingSide} (n : nat) (s : hal_srng) : M (list Z * hal_srng) :=
  match n with
  | O => mret ([], s)
  | S n' =>
      '(desc, s) ← side_next s;
      if decide (desc = 0) then mret ([], s)
      else '(l, s) ← nexts n' s; mret (desc :: l, s)
  end.

Lemma nexts_equiv `{RO : RingSideOk} n : ∀ s c w, side_at s c →
  ∃ s', nexts n s w = Done ((entry_addr s <$> ref_nexts n c, s'), w).
Proof.
  induction n as [|n IH]; intros s c w Hat; [by exists s|]. cbn [nexts ref_nexts].
  pose proof (side_sim s c w Hat) as H. destruct (ref_next c) as [[i c']|].
  - destruct H as (s1 & E & Hat1 & Hz & Hb & He). rewrite (M_bind_done _ _ _ _ _ E), decide_False by done.
    destruct (IH s1 c' w Hat1) as (s2 & E2). exists s2.
    rewrite (M_bind_done _ _ _ _ _ E2). cbn. unfold entry_addr. by rewrite Hb, He.
  - exists s. by rewrite (M_bind_done _ _ _ _ _ H), decide_True.
Qed.

(** The reference hands out consecutive indices. *)
Lemma ref_nexts_seq n : ∀ c, 0 ≤ cu_index c < cu_entries c → 0 ≤ cu_room c →
  ref_nexts n c = (λ k : nat, (cu_index c + Z.of_nat k) mod cu_entries c) <$>
    seq 0 (Nat.min n (Z.to_nat (cu_room c))).
Proof.
  induction n as [|n IH]; intros c Hi Hr; [done|]. cbn [ref_nexts]. unfold ref_next. case_decide as Hz.
  - by rewrite Hz, Nat.min_0_r.
  - rewrite IH; cbn [cu_entries cu_index cu_room]; [|apply Z.mod_pos_bound; lia|lia].
    replace (Nat.min (S n) (Z.to_nat (cu_room c))) with (S (Nat.min n (Z.to_nat (cu_room c - 1)))) by lia.
    cbn [seq fmap list_fmap]. f_equal; [rewrite Z.add_0_r, Z.mod_small; lia|].
    rewrite <-seq_shift, <-list_fmap_compose. apply list_fmap_ext. intros i k _. cbn.
    rewrite Zplus_mod_idemp_l. f_equal. lia.
Qed.

Section sides.
Context `{K : Kernel}.

#[local] Instance source_side : RingSide := {
  side_next := wireless_simu_hal_srng_src_get_next_entry;
  side_at s c := src_wf s ∧ c = Cursor (srng_num_entries s)
    (entry_index (srng_entry_size s) (src_hp (srng_src s))) (src_free s)
}.
#[local] Instance dest_side : RingSide := {
  side_next := wireless_simu_hal_srng_dst_get_next_entry;
  side_at s c := dst_wf s ∧ c = Cursor (srng_num_entries s)
    (entry_index (srng_entry_size s) (dst_tp (srng_dst s))) (dst_avail s)
}.

(** The pointer is the start of the entry with its index. *)
Lemma src_head s : src_wf s → let i := entry_index (srng_entry_size s) (src_hp (srng_src s)) in
  0 ≤ i < srng_num_entries s ∧ src_hp (srng_src s) = srng_entry_size s * i ∧ entry_addr s i ≠ 0 ∧
  entry_index (srng_entry_size s) (src_hp (srng_src (src_advance s))) = (i + 1) mod srng_num_entries s.
Proof.
  intros Hwf. ring_indices. cbv zeta. cbn. rewrite Ehp, !entry_index_mul by done.
  destruct (desc_addr s h Hgeo Hh) as [Ha Hn]. split_and!; try done; try lia. unfold entry_addr. by rewrite <-Ha.
Qed.

Lemma dst_tail s : dst_wf s → let i := entry_index (srng_entry_size s) (dst_tp (srng_dst s)) in
  0 ≤ i < srng_num_entries s ∧ dst_tp (srng_dst s) = srng_entry_size s * i ∧ entry_addr s i ≠ 0 ∧
  entry_index (srng_entry_size s) (dst_tp (srng_dst (dst_advance s))) = (i + 1) mod srng_num_entries s ∧
  0 ≤ dst_avail s < srng_num_entries s.
Proof.
  intros Hwf. assert (0 ≤ dst_avail s < srng_num_entries s)
    by (destruct Hwf as [[] _ _ _]; apply Z.mod_pos_bound; lia).
  ring_indices. cbv zeta. cbn. rewrite Etp, !entry_index_mul by done.
  destruct (desc_addr s t Hgeo Ht) as [Ha Hn]. split_and!; try done; try lia. unfold entry_addr. by rewrite <-Ha.
Qed.

#[local] Instance source_side_ok : RingSideOk source_side.
Proof.
  split; intros s c; [intros w|]; intros [Hwf ->]; pose proof (src_free_range s Hwf) as Hr;
    destruct (src_head s Hwf) as (Hi & Hhp & Hn & Hs); [|cbn; lia].
  unfold ref_next. cbn [cu_room cu_index cu_entries]. case_decide as Hz; [by apply src_next_full|].
  exists (src_advance s). split_and!; [|split; [by apply src_advance_wf|]|done|done|done].
  - unfold entry_addr. rewrite <-Hhp. apply src_next_some; [done|lia].
  - rewrite src_advance_free by (done || lia). by rewrite <-Hs.
Qed.

#[local] Instance dest_side_ok : RingSideOk dest_side.
Proof.
  split; intros s c; [intros w|]; intros [Hwf ->];
    destruct (dst_tail s Hwf) as (Hi & Htp & Hn & Hs & Hr); [|cbn; lia].
  unfold ref_next. cbn [cu_room cu_index cu_entries]. case_decide as Hz; [by apply dst_next_none|].
  exists (dst_advance s). split_and!; [|split; [by apply dst_advance_wf|]|done|done|done].
  - unfold entry_addr. rewrite <-Htp. apply dst_next_some; [done|lia].
  - rewrite dst_advance_avail by (done || lia). by rewrite <-Hs.
Qed.

(** Calls until NULL, at most [n], on either side of the ring. *)
Definition src_nexts : nat → hal_srng → M (list Z * hal_srng) := nexts (H := source_side).
Definition dst_nexts : nat → hal_srng → M (list Z * hal_srng) := nexts (H := dest_side).

(** The entries from index [i] on, [m] of them, going round. *)
Definition entries_from (s : hal_srng) (i : Z) (m : nat) : list Z :=
  (λ k : nat, entry_addr s ((i + Z.of_nat k) mod srng_num_entries s)) <$> seq 0 m.

Lemma side_nexts `{RO : RingSideOk} n s c w : side_at s c → cu_entries c = srng_num_entries s →
  ∃ s', nexts n s w = Done ((entries_from s (cu_index c) (Nat.min n (Z.to_nat (cu_room c))), s'), w).
Proof.
  intros Hat Hn. destruct (side_bounds s c Hat) as [Hi Hr].
  destruct (nexts_equiv n s c w Hat) as [s' E]. exists s'. rewrite E, ref_nexts_seq by lia.
  rewrite <-list_fmap_compose. unfold entries_from. by rewrite <-Hn.
Qed.

(** C16.  Both accessors are the reference cursor.  On a well-formed ring whose
    lock is held, [n] calls of the source side's accessor return the addresses
    of consecutive entries from the head on, going round at the end of the
    buffer, as many as are free, then NULL; the destination side's return those
    from the tail on, as many as are filled; and
    [wireless_simu_hal_srng_src_num_free] is the number of calls that will not
    return NULL.  No 32-bit wrap-around shows. *)
Theorem accessors_are_cursors n s w :
  (src_wf s →
     wireless_simu_hal_srng_src_num_free s false w = Done ((src_free s, s), w) ∧
     ∃ s', src_nexts n s w =
       Done ((entries_from s (src_hp (srng_src s) / srng_entry_size s)
                (Nat.min n (Z.to_nat (src_free s))), s'), w)) ∧
  (dst_wf s →
     ∃ s', dst_nexts n s w =
       Done ((entries_from s (dst_tp (srng_dst s) / srng_entry_size s)
                (Nat.min n (Z.to_nat (dst_avail s))), s'), w)).
Proof.
  split; intros Hwf.
  - split; [by apply src_num_free_eq|].
    exact (side_nexts (RS := source_side) n s _ w (conj Hwf eq_refl) eq_refl).
  - exact (side_nexts (RS := dest_side) n s _ w (conj Hwf eq_refl) eq_refl).
Qed.
End sides.
