(* ===== verification/RingProtocol.v ===== *)
(** * The ring protocol: host and device interleaved

    A source ring is shared by two parties.  The host claims entries with
    [wireless_simu_hal_srng_src_get_next_entry], fills them, and publishes its
    head pointer in [wireless_simu_hal_srng_access_end]; the device reads the
    entry at the tail pointer kept in shared memory and moves the tail, up to
    the published head (wireless_hal.h, comments of [struct hal_srng]).  The
    steps of the two parties interleave in any order.  Module [Source] gives
    the step relation - the host's steps are the functions of [HalRing] - and
    the invariant of its reachable states. *)

From S2P Require Import Prelude Kernel Bits HalTypes Hif HalRing.

(* ------------------------------------------------------------------ *)
(** ** Counters that go round *)

Lemma mod_window_inj N a b : 0 < N → - N < a - b < N → a mod N = b mod N → a = b.
Proof.
  intros HN Hd Hm.
  pose proof (Z.div_mod a N ltac:(lia)) as Ha.
  pose proof (Z.div_mod b N ltac:(lia)) as Hb. rewrite Hm in Ha.
  assert (a / N = b / N) as Hq by nia. rewrite Hq in Ha. lia.
Qed.

Lemma slot_words_disjoint e i j a b :
  0 < e → i ≠ j → 0 ≤ a < e → 0 ≤ b < e → e * i + a ≠ e * j + b.
Proof. intros He Hij Ha Hb Heq. assert (i = j) by nia. done. Qed.

Lemma succ_mod N a : 0 < N → (a mod N + 1) mod N = (a + 1) mod N.
Proof. intros. apply Zplus_mod_idemp_l. Qed.

(* ------------------------------------------------------------------ *)
(** ** Source rings *)

Module Source.

(** One ring, its world, and two ghost logs: the entries the host filled and
    the entries the device read, in order. *)
Record link := Link {
  l_srng : hal_srng;
  l_world : world;
  l_sent : list (list Z);
  l_taken : list (list Z)
}.

Section protocol.
Context `{K : Kernel} (mmio_addr : Z).

(** The register the host publishes its head pointer in. *)
Definition hp_reg (s : hal_srng) : Z :=
  mmio_addr + u32 (ptr_sub (src_hp_addr (srng_src s)) mmio_addr).

Inductive step : link → link → Prop :=
  | step_lock s s' w w' a b :
      srng_spin_lock s w = Done (s', w') →
      step (Link s w a b) (Link s' w' a b)
  | step_unlock s s' w w' a b :
      srng_spin_unlock s w = Done (s', w') →
      step (Link s w a b) (Link s' w' a b)
  | step_begin s s' w w' a b :
      wireless_simu_hal_srng_access_begin s w = Done (s', w') →
      step (Link s w a b) (Link s' w' a b)
  | step_full s s' w w' a b :
      wireless_simu_hal_srng_src_get_next_entry s w = Done ((0, s'), w') →
      step (Link s w a b) (Link s' w' a b)
  | step_push s s' w w1 w2 a b p d :
      wireless_simu_hal_srng_src_get_next_entry s w = Done ((p, s'), w1) →
      p ≠ 0 → Z.of_nat (length d) = srng_entry_size s → is_words d →
      store_words p d w1 = Done (tt, w2) →
      step (Link s w a b) (Link s' w2 (a ++ [d]) b)
  | step_end s s' w w' a b :
      wireless_simu_hal_srng_access_end mmio_addr s w = Done (s', w') →
      step (Link s w a b) (Link s' w' a b)
  | step_take s w a b hp tp d :
      mmio_last (w_mmio w) (hp_reg s) = Some hp →
      w_mem w !! src_tp_addr (srng_src s) = Some tp →
      hp ≠ tp →
      load_words (srng_ring_base_vaddr s + 4 * tp) (Z.to_nat (srng_entry_size s)) w =
        Done (d, w) →
      step (Link s w a b)
        (Link s (w <| w_mem := <[src_tp_addr (srng_src s) :=
                      (tp + srng_entry_size s) mod srng_ring_size s]> (w_mem w) |>)
              a (b ++ [d])).

(** A source ring that is not an LMAC ring, with its shared tail pointer
    outside the entries. *)
Record src_static (s : hal_srng) : Prop := {
  st_geo : srng_geometry s;
  st_dir : srng_ring_dir s = HAL_SRNG_DIR_SRC;
  st_lmac : flag_set (srng_flags s) HAL_SRNG_FLAGS_LMAC_RING = false;
  st_tp : ∀ k, 0 ≤ k < srng_ring_size s →
    src_tp_addr (srng_src s) ≠ srng_ring_base_vaddr s + 4 * k
}.

Definition slot (s : hal_srng) (i : Z) : Z :=
  srng_ring_base_vaddr s + 4 * (srng_entry_size s * (i mod srng_num_entries s)).

(** [C <= T <= P <= H <= C + N - 1]: entries the host believes taken, taken,
    published, filled; the four pointers are these counters modulo [N], and
    every filled entry not yet taken is intact. *)
Record counters (s : hal_srng) (w : world) (a b : list (list Z)) (P C : Z) : Prop := {
  ct_order : 0 ≤ C ≤ Z.of_nat (length b);
  ct_pub : Z.of_nat (length b) ≤ P ≤ Z.of_nat (length a);
  ct_cap : Z.of_nat (length a) - C ≤ srng_num_entries s - 1;
  ct_hp : src_hp (srng_src s) =
    srng_entry_size s * (Z.of_nat (length a) mod srng_num_entries s);
  ct_cached : src_cached_tp (srng_src s) = srng_entry_size s * (C mod srng_num_entries s);
  ct_tp : w_mem w !! src_tp_addr (srng_src s) =
    Some (srng_entry_size s * (Z.of_nat (length b) mod srng_num_entries s));
  ct_reg : mmio_last (w_mmio w) (hp_reg s) =
    Some (srng_entry_size s * (P mod srng_num_entries s));
  ct_prefix : b = take (length b) a;
  ct_slots : ∀ i d, (length b ≤ i)%nat → a !! i = Some d →
    read_words (w_mem w) (slot s (Z.of_nat i)) (Z.to_nat (srng_entry_size s)) = Some d
}.

Record inv (l : link) : Prop := {
  inv_static : src_static (l_srng l);
  inv_mapped : mapped (w_mem (l_world l)) (srng_ring_base_vaddr (l_srng l))
    (Z.to_nat (srng_ring_size (l_srng l)));
  inv_counters : ∃ P C, counters (l_srng l) (l_world l) (l_sent l) (l_taken l) P C
}.

(** The state [wireless_simu_hal_srng_setup] leaves: everything at zero. *)
Record initial (s : hal_srng) (w : world) : Prop := {
  init_static : src_static s;
  init_mapped : mapped (w_mem w) (srng_ring_base_vaddr s) (Z.to_nat (srng_ring_size s));
  init_hp : src_hp (srng_src s) = 0;
  init_cached : src_cached_tp (srng_src s) = 0;
  init_tp : w_mem w !! src_tp_addr (srng_src s) = Some 0;
  init_reg : mmio_last (w_mmio w) (hp_reg s) = Some 0
}.

Lemma initial_inv s w : initial s w → inv (Link s w [] []).
Proof.
  intros []. split; [done|done|]. exists 0, 0.
  assert (1 < srng_num_entries s) by (by destruct init_static0 as [[]]).
  split; cbn; rewrite ?Zmod_0_l, ?Z.mul_0_r; try done; try lia.
Qed.

(** The initial state survives what leaves the ring's words alone. *)
Lemma initial_frame s w w' : initial s w → dom (w_mem w') = dom (w_mem w) →
  w_mem w' !! src_tp_addr (srng_src s) = w_mem w !! src_tp_addr (srng_src s) →
  mmio_last (w_mmio w') (hp_reg s) = mmio_last (w_mmio w) (hp_reg s) → initial s w'.
Proof.
  intros [] Hd Ht Hr. split; rewrite ?Ht, ?Hr; try done. by eapply mapped_dom.
Qed.

(* ---------------- slots ---------------- *)

Lemma slot_word s i k : srng_geometry s → 0 ≤ k < srng_entry_size s →
  ∃ o, slot s i + 4 * k = srng_ring_base_vaddr s + 4 * o ∧ 0 ≤ o < srng_ring_size s ∧
       o = srng_entry_size s * (i mod srng_num_entries s) + k.
Proof.
  intros Hg Hk. exists (srng_entry_size s * (i mod srng_num_entries s) + k).
  pose proof (geo_entry s Hg). pose proof (geo_num s Hg).
  pose proof (Z.mod_pos_bound i (srng_num_entries s) ltac:(lia)).
  unfold slot. rewrite (geo_size s Hg). split; [lia|split; [nia|done]].
Qed.

Lemma slot_mapped s m i : srng_geometry s →
  mapped m (srng_ring_base_vaddr s) (Z.to_nat (srng_ring_size s)) →
  mapped m (slot s i) (Z.to_nat (srng_entry_size s)).
Proof.
  intros Hg Hm k Hk. destruct (slot_word s i (Z.of_nat k) Hg) as (o & -> & Ho & _); [lia|].
  specialize (Hm (Z.to_nat o)). rewrite Z2Nat.id in Hm by lia. apply Hm. lia.
Qed.

Lemma slots_disjoint s i j (a b : nat) : srng_geometry s →
  0 < Z.abs (i - j) < srng_num_entries s →
  (a < Z.to_nat (srng_entry_size s))%nat → (b < Z.to_nat (srng_entry_size s))%nat →
  slot s i + 4 * Z.of_nat a ≠ slot s j + 4 * Z.of_nat b.
Proof.
  intros Hg Hij Ha Hb Heq. pose proof (geo_entry s Hg). pose proof (geo_num s Hg).
  unfold slot in Heq.
  apply (slot_words_disjoint (srng_entry_size s) (i mod srng_num_entries s)
    (j mod srng_num_entries s) (Z.of_nat a) (Z.of_nat b)); try lia.
  intros Hm. apply mod_window_inj in Hm; lia.
Qed.

Lemma slot_tp s i (k : nat) : src_static s → (k < Z.to_nat (srng_entry_size s))%nat →
  slot s i + 4 * Z.of_nat k ≠ src_tp_addr (srng_src s).
Proof.
  intros [Hg _ _ Ht] Hk.
  destruct (slot_word s i (Z.of_nat k) Hg) as (o & -> & Ho & _); [lia|].
  specialize (Ht o Ho). congruence.
Qed.

(* ---------------- what a successful host step did ---------------- *)

Lemma begin_inv s w s' w' : src_static s →
  wireless_simu_hal_srng_access_begin s w = Done (s', w') →
  ∃ tp, w_mem w !! src_tp_addr (srng_src s) = Some tp ∧ w' = w ∧
    s' = s <| srng_src := srng_src s <| src_cached_tp := tp |> |>.
Proof.
  intros [_ Hd _ _] H. unfold wireless_simu_hal_srng_access_begin in H. rewrite Hd in H.
  apply M_bind_inv in H as ([] & w1 & Hl & H).
  unfold lockdep_assert_held, assert in Hl. destruct (srng_lock s); simplify_eq/=.
  apply M_bind_inv in H as (tp & w2 & Ht & H). unfold load32 in Ht.
  unfold mret, M_ret in *. case_match; simplify_eq. eauto.
Qed.

Lemma next_locked s w r w' :
  wireless_simu_hal_srng_src_get_next_entry s w = Done (r, w') → srng_lock s = true.
Proof.
  intros H. unfold wireless_simu_hal_srng_src_get_next_entry in H.
  apply M_bind_inv in H as ([] & w1 & Hl & _).
  unfold lockdep_assert_held, assert in Hl. by destruct (srng_lock s).
Qed.

Lemma end_inv s w s' w' : src_static s →
  wireless_simu_hal_srng_access_end mmio_addr s w = Done (s', w') →
  ∃ tp, s' = s <| srng_src := srng_src s <| src_last_tp := tp |> |>
               <| srng_timestamp := w_jiffies w |> ∧
    w' = w <| w_mmio := w_mmio w ++ [(hp_reg s, u32 (src_hp (srng_src s)))] |>.
Proof.
  intros [_ Hd Hf _] H. unfold wireless_simu_hal_srng_access_end in H. rewrite Hd, Hf in H.
  apply M_bind_inv in H as ([] & w1 & Hl & H).
  unfold lockdep_assert_held, assert in Hl. destruct (srng_lock s); simplify_eq/=.
  unfold mret, M_ret in Hl. simplify_eq.
  apply M_bind_inv in H as (s1 & w2 & H1 & H).
  apply M_bind_inv in H1 as (tp & w3 & Ht & H1). unfold load32 in Ht. case_match; simplify_eq.
  apply M_bind_inv in H1 as ([] & w4 & Hw & H1).
  unfold wireless_hif_write32, iowrite32, modify in Hw. simplify_eq.
  mcbn in H1. mcbn in H. simplify_eq.
  exists tp. split; [done|]. unfold hp_reg. by rewrite wrap_wrap.
Qed.

Lemma counters_wf s w a b P C : src_static s → counters s w a b P C → srng_lock s = true →
  src_wf s ∧ src_free s = srng_num_entries s - 1 - (Z.of_nat (length a) - C).
Proof.
  intros [Hg _ _ _] [] Hl. pose proof (geo_entry s Hg). pose proof (geo_num s Hg).
  assert (∀ x, 0 ≤ x mod srng_num_entries s < srng_num_entries s)
    by (intros; apply Z.mod_pos_bound; lia).
  
  split; [constructor; [done| | |done]; unfold is_entry; eauto|].
  unfold src_free. rewrite ct_hp0, ct_cached0, !entry_index_mul by done.
  unfold ring_used. rewrite <-Zminus_mod, Z.mod_small by lia. lia.
Qed.

(* ---------------- preservation ---------------- *)

Lemma inv_lock s w a b l : inv (Link s w a b) → inv (Link (s <| srng_lock := l |>) w a b).
Proof. intros [[[]] ? (P & C & [])]. repeat split; auto. exists P, C. by split. Qed.

(** The invariant looks only at memory and at the MMIO log. *)
Lemma inv_world s w w' a b : w_mem w' = w_mem w → w_mmio w' = w_mmio w →
  inv (Link s w a b) → inv (Link s w' a b).
Proof.
  intros Hm Hi [Hs Hmap (P & C & Hc)]. cbn in *.
  split; cbn; rewrite ?Hm; [done|done|]. exists P, C.
  destruct Hc. split; rewrite ?Hm, ?Hi; done.
Qed.

(** Writes outside the ring, its tail pointer and its register. *)
Lemma inv_frame s w w' a b : dom (w_mem w') = dom (w_mem w) →
  mmio_last (w_mmio w') (hp_reg s) = mmio_last (w_mmio w) (hp_reg s) →
  w_mem w' !! src_tp_addr (srng_src s) = w_mem w !! src_tp_addr (srng_src s) →
  (∀ k, 0 ≤ k < srng_ring_size s →
     w_mem w' !! (srng_ring_base_vaddr s + 4 * k) = w_mem w !! (srng_ring_base_vaddr s + 4 * k)) →
  inv (Link s w a b) → inv (Link s w' a b).
Proof.
  intros Hd Hi Ht Hm [Hs Hmap (P & C & Hc)]. cbn in *.
  split; cbn; [done|by eapply mapped_dom|]. exists P, C.
  destruct Hc. split; rewrite ?Ht, ?Hi; try done.
  intros i d Hl Hd'. rewrite <-(ct_slots0 i d Hl Hd'). apply read_words_agree. intros j Hj.
  destruct (slot_word s (Z.of_nat i) (Z.of_nat j) (st_geo _ Hs)) as (o & -> & Ho & _); [lia|]. by apply Hm.
Qed.

(** A write to another register. *)
Lemma inv_mmio s w a b p v : p ≠ hp_reg s → inv (Link s w a b) →
  inv (Link s (w <| w_mmio := w_mmio w ++ [(p, v)] |>) a b).
Proof.
  intros Hp [Hs Hmap (P & C & Hc)]. cbn in *. split; cbn; [done|done|]. exists P, C.
  destruct Hc. split; cbn -[mmio_last]; try done. by rewrite mmio_last_app_ne.
Qed.

Lemma src_static_ptrs s c l : src_static s →
  src_static (s <| srng_lock := l |> <| srng_src := srng_src s <| src_cached_tp := c |> |>).
Proof. intros [[]]. by repeat split. Qed.

(** Reading the tail pointer makes the host's belief exact. *)
Lemma counters_begin s w a b P C tp l : counters s w a b P C →
  w_mem w !! src_tp_addr (srng_src s) = Some tp →
  counters (s <| srng_lock := l |> <| srng_src := srng_src s <| src_cached_tp := tp |> |>)
    w a b P (Z.of_nat (length b)).
Proof.
  intros [????? Ht ???] Htp. rewrite Ht in Htp. simplify_eq.
  split; cbn; auto; lia.
Qed.

Lemma inv_begin s w a b s' w' : inv (Link s w a b) →
  wireless_simu_hal_srng_access_begin s w = Done (s', w') → inv (Link s' w' a b).
Proof.
  intros [Hst Hm (P & C & Hc)] Hb. cbn in *.
  destruct (begin_inv _ _ _ _ Hst Hb) as (tp & Htp & -> & ->).
  pose proof (counters_begin _ _ _ _ _ _ _ (srng_lock s) Hc Htp) as Hc'.
  pose proof (src_static_ptrs _ tp (srng_lock s) Hst) as Hst'.
  destruct s. by split; [..|exists P, (Z.of_nat (length b))].
Qed.

Lemma inv_end s w a b s' w' : inv (Link s w a b) →
  wireless_simu_hal_srng_access_end mmio_addr s w = Done (s', w') → inv (Link s' w' a b).
Proof.
  intros [Hst Hm (P & C & Hc)] Hb. cbn in *.
  destruct (end_inv _ _ _ _ Hst Hb) as (tp & -> & ->).
  assert (u32 (src_hp (srng_src s)) = src_hp (srng_src s)) as Hu.
  { destruct Hst as [Hg _ _ _], Hc as [??? Hh ?????]. rewrite Hh. apply wrap_id.
    pose proof (geo_entry s Hg). pose proof (geo_num s Hg). pose proof (geo_bound s Hg).
    pose proof (Z.mod_pos_bound (Z.of_nat (length a)) (srng_num_entries s)). nia. }
  destruct Hst as [[]]. split; [by repeat split|done|].
  exists (Z.of_nat (length a)), C. destruct Hc.
  split; cbn -[mmio_last]; auto; try lia.
  change (hp_reg _) with (hp_reg s). rewrite mmio_last_app. congruence.
Qed.

Lemma inv_next s w a b r s' w' : inv (Link s w a b) →
  wireless_simu_hal_srng_src_get_next_entry s w = Done ((r, s'), w') →
  (r = 0 ∧ s' = s ∧ w' = w) ∨
  (r = slot s (Z.of_nat (length a)) ∧ s' = src_advance s ∧ w' = w ∧ 0 < src_free s).
Proof.
  intros [Hst Hm (P & C & Hc)] Hn. cbn in *. pose proof (next_locked _ _ _ _ Hn) as Hl.
  destruct (counters_wf _ _ _ _ _ _ Hst Hc Hl) as [Hwf Hf].
  pose proof (src_free_range s Hwf).
  destruct (decide (src_free s = 0)) as [Hz|Hz].
  - left. rewrite (src_next_full _ _ Hwf Hz) in Hn. by simplify_eq.
  - right. rewrite (src_next_some _ _ Hwf ltac:(lia)) in Hn. simplify_eq.
    split_and!; [|done|done|lia]. unfold slot. by rewrite (ct_hp _ _ _ _ _ _ Hc).
Qed.

Lemma inv_push s w a b d : inv (Link s w a b) → srng_lock s = true → 0 < src_free s →
  Z.of_nat (length d) = srng_entry_size s → is_words d →
  inv (Link (src_advance s)
        (w <| w_mem := write_words (slot s (Z.of_nat (length a))) d (w_mem w) |>)
        (a ++ [d]) b).
Proof.
  intros [Hst Hm (P & C & Hc)] Hl Hfree Hd Hw. cbn in *.
  destruct (counters_wf _ _ _ _ _ _ Hst Hc Hl) as [Hwf Hf].
  pose proof (st_geo _ Hst) as Hg. pose proof (geo_entry s Hg). pose proof (geo_num s Hg).
  destruct Hc as [Ho Hp Hcap Hhp Hct Htp Hreg Hpre Hsl].
  split.
  - destruct Hst as [[]]. by repeat split.
  - by apply mapped_write.
  - exists P, C. split; cbn; rewrite ?length_app; cbn; try lia; try done.
    + rewrite Hhp, entry_index_mul, succ_mod by lia. do 2 f_equal. lia.
    + rewrite write_words_ne; [done|]. intros k Hk. symmetry. apply slot_tp; [done|lia].
    + rewrite take_app_le by lia. done.
    + intros i x Hi Hx.
      match goal with |- context [slot ?r _] =>
        assert_fails (unify r s); change (slot r) with (slot s) end.
      destruct (decide (i = length a)) as [->|Hne].
      * rewrite list_lookup_middle in Hx by done. simplify_eq.
        rewrite <-Hd, Nat2Z.id. by apply read_write_words.
      * assert (i < length a)%nat as Hia.
        { apply lookup_lt_Some in Hx. rewrite length_app in Hx. cbn in Hx. lia. }
        rewrite lookup_app_l in Hx by done.
        rewrite read_words_write_ne; [by apply Hsl|].
        intros j k Hj Hk. apply slots_disjoint; [done|lia|done|lia].
Qed.

Lemma inv_take s w a b hp tp d : inv (Link s w a b) →
  mmio_last (w_mmio w) (hp_reg s) = Some hp →
  w_mem w !! src_tp_addr (srng_src s) = Some tp → hp ≠ tp →
  load_words (srng_ring_base_vaddr s + 4 * tp) (Z.to_nat (srng_entry_size s)) w = Done (d, w) →
  a !! length b = Some d ∧
  inv (Link s (w <| w_mem := <[src_tp_addr (srng_src s) :=
                   (tp + srng_entry_size s) mod srng_ring_size s]> (w_mem w) |>) a (b ++ [d])).
Proof.
  intros [Hst Hm (P & C & Hc)] Hreg Htp Hne Hload. cbn in *.
  pose proof (st_geo _ Hst) as Hg. pose proof (geo_entry s Hg). pose proof (geo_num s Hg).
  destruct Hc as [Ho Hp Hcap Hhp Hct Htp' Hreg' Hpre Hsl].
  rewrite Hreg in Hreg'. rewrite Htp in Htp'. simplify_eq.
  assert (Z.of_nat (length b) < P) as Hlt.
  { destruct (decide (P = Z.of_nat (length b))); [congruence|lia]. }
  apply load_words_inv in Hload as [Hread _].
  destruct (lookup_lt_is_Some_2 a (length b)) as [d' Hd']; [lia|].
  pose proof (Hsl _ _ (le_n _) Hd') as Hread'. unfold slot in Hread'.
  rewrite Hread' in Hread. simplify_eq. split; [done|].
  assert ((srng_entry_size s * (Z.of_nat (length b) mod srng_num_entries s) + srng_entry_size s)
     mod srng_ring_size s
     = srng_entry_size s * (Z.of_nat (S (length b)) mod srng_num_entries s)) as Hnext.
  { rewrite (geo_size s Hg). pose proof (geo_bound s Hg).
    pose proof (Z.mod_pos_bound (Z.of_nat (length b)) (srng_num_entries s) ltac:(lia)).
    rewrite <-(wrap_id 32 (_ + _)) by nia.
    rewrite ring_next, succ_mod by lia. do 2 f_equal. lia. }
  rewrite Hnext.
  split; [done|by apply mapped_insert|].
  exists P, C. split; cbn; rewrite ?length_app; cbn; try lia; try done.
  - by rewrite lookup_insert_eq, Nat.add_1_r.
  - rewrite Nat.add_1_r. rewrite (take_S_r _ _ _ Hd'). by rewrite <-Hpre.
  - intros i x Hi Hx. rewrite read_words_insert_ne; [apply Hsl; [lia|done]|].
    intros j Hj. by apply slot_tp.
Qed.

Lemma step_inv l l' : step l l' → inv l → inv l'.
Proof.
  intros Hs Hi. destruct Hs as [s s' w w' a b H|s s' w w' a b H|s s' w w' a b H
    |s s' w w' a b H|s s' w w1 w2 a b p d H Hp Hd Hw Hst|s s' w w' a b H
    |s w a b hp tp d Hr Ht Hne Hl].
  - unfold srng_spin_lock, lock_acquire in H. destruct (srng_lock s); simplify_eq/=.
    unfold mbind, M_bind, mret, M_ret in H. simplify_eq. by apply inv_lock.
  - unfold srng_spin_unlock, lock_release in H. destruct (srng_lock s); simplify_eq/=.
    unfold mbind, M_bind, mret, M_ret in H. simplify_eq. by apply inv_lock.
  - by eapply inv_begin.
  - destruct (inv_next _ _ _ _ _ _ _ Hi H) as [(_ & -> & ->)|(Hz & -> & -> & Hf)]; [done|].
    destruct Hi as [Hst Hm (P & C & Hc)]. cbn in *.
    destruct (slot_word s (Z.of_nat (length a)) 0 (st_geo _ Hst)) as (o & Heq & Ho & _).
    { pose proof (geo_entry _ (st_geo _ Hst)). lia. }
    pose proof (geo_base _ (st_geo _ Hst)). lia.
  - pose proof (next_locked _ _ _ _ H) as Hlk.
    destruct (inv_next _ _ _ _ _ _ _ Hi H) as [(? & _)|(-> & -> & -> & Hf)]; [done|].
    rewrite store_words_eq in Hst.
    + simplify_eq. by apply inv_push.
    + destruct Hi as [Hs Hm _]. cbn in *.
      replace (length d) with (Z.to_nat (srng_entry_size s)) by lia.
      apply slot_mapped; [by destruct Hs|done].
  - by eapply inv_end.
  - by eapply inv_take.
Qed.

Lemma step_num l l' : step l l' → inv l →
  srng_num_entries (l_srng l') = srng_num_entries (l_srng l).
Proof.
  intros Hs Hi. destruct Hs as [s s' w w' a b H|s s' w w' a b H|s s' w w' a b H
    |s s' w w' a b H|s s' w w1 w2 a b p d H|s s' w w' a b H|]; cbn; try done.
  - unfold srng_spin_lock, lock_acquire in H. destruct (srng_lock s); mcbn in H; by simplify_eq.
  - unfold srng_spin_unlock, lock_release in H. destruct (srng_lock s); mcbn in H; by simplify_eq.
  - by destruct (begin_inv _ _ _ _ (inv_static _ Hi) H) as (? & _ & _ & ->).
  - by destruct (inv_next _ _ _ _ _ _ _ Hi H) as [(_ & -> & _)|(_ & -> & _)].
  - by destruct (inv_next _ _ _ _ _ _ _ Hi H) as [(_ & -> & _)|(_ & -> & _)].
  - by destruct (end_inv _ _ _ _ (inv_static _ Hi) H) as (? & -> & _).
Qed.

Lemma reach_inv l l' : rtc step l l' → inv l →
  inv l' ∧ srng_num_entries (l_srng l') = srng_num_entries (l_srng l).
Proof.
  induction 1 as [|l l1 l2 Hs _ IH]; [done|]. intros Hi.
  destruct IH as [? ->]; [by eapply step_inv|]. split; [done|]. by apply step_num.
Qed.

(** Words and registers that are none of the ring's. *)
Record off_limits (P Q : Z → Prop) (s : hal_srng) : Prop := {
  ol_tp x : P x → x ≠ src_tp_addr (srng_src s);
  ol_slots x k : P x → 0 ≤ k < srng_ring_size s → x ≠ srng_ring_base_vaddr s + 4 * k;
  ol_reg r : Q r → r ≠ hp_reg s
}.

(** Neither party touches them. *)
Lemma step_keeps P Q l l' : step l l' → inv l → off_limits P Q (l_srng l) →
  keeps P Q (l_world l) (l_world l') ∧ off_limits P Q (l_srng l').
Proof.
  intros Hs Hi Hol. destruct Hs as [s s' w w' a b H|s s' w w' a b H|s s' w w' a b H
    |s s' w w' a b H|s s' w w1 w2 a b p d H Hp Hd Hw Hst|s s' w w' a b H
    |s w a b hp tp d Hr Ht Hne Hl]; cbn in Hol |- *.
  - unfold srng_spin_lock, lock_acquire in H. destruct (srng_lock s); mcbn in H; simplify_eq.
    split; [done|by destruct Hol].
  - unfold srng_spin_unlock, lock_release in H. destruct (srng_lock s); mcbn in H; simplify_eq.
    split; [done|by destruct Hol].
  - destruct (begin_inv _ _ _ _ (inv_static _ Hi) H) as (? & _ & -> & ->).
    split; [done|by destruct Hol].
  - by destruct (inv_next _ _ _ _ _ _ _ Hi H) as [(_ & -> & ->)|(_ & -> & -> & _)]; destruct Hol.
  - destruct (inv_next _ _ _ _ _ _ _ Hi H) as [(? & _)|(-> & -> & -> & Hf)]; [done|].
    pose proof (st_geo _ (inv_static _ Hi)) as Hg. cbn in Hg.
    rewrite store_words_eq in Hst.
    2: { rewrite <-(Nat2Z.id (length d)), Hd. by apply slot_mapped; [|destruct Hi]. }
    simplify_eq. split; [|by destruct Hol]. split; [|done]. intros x Hx.
    apply write_words_ne. intros k Hk Heq.
    destruct (slot_word s (Z.of_nat (length a)) (Z.of_nat k) Hg) as (o & Ho & Hor & _); [lia|].
    apply (ol_slots _ _ _ Hol x o Hx Hor). congruence.
  - destruct (end_inv _ _ _ _ (inv_static _ Hi) H) as (? & -> & ->).
    split; [|by destruct Hol]. split; [done|]. intros r Hr. cbn -[mmio_last].
    apply mmio_last_app_ne. intros Heq. by apply (ol_reg _ _ _ Hol r Hr).
  - split; [|done]. split; [|done]. intros x Hx. cbn. apply lookup_insert_ne.
    intros Heq. by apply (ol_tp _ _ _ Hol x Hx).
Qed.

Lemma reach_keeps P Q l l' : rtc step l l' → inv l → off_limits P Q (l_srng l) →
  keeps P Q (l_world l) (l_world l') ∧ off_limits P Q (l_srng l').
Proof.
  induction 1 as [|l l1 l2 Hs _ IH]; [done|]. intros Hi Hol.
  destruct (step_keeps P Q _ _ Hs Hi Hol) as [H1 Hol1].
  destruct IH as [H2 ?]; [by eapply step_inv|done|]. split; [by etrans|done].
Qed.

(** C3.  Ring transport is a FIFO under every interleaving: whatever order the
    host's accesses (lock, begin, claim and fill, end, unlock) and the
    device's reads take, the entries the device has read are exactly a prefix
    of the entries the host filled, in order and intact; and never more than
    [num_entries - 1] filled entries are outstanding, so no entry is
    overwritten before it is read. *)
Theorem source_ring_fifo s w l :
  initial s w → rtc step (Link s w [] []) l →
  l_taken l `prefix_of` l_sent l ∧
  Z.of_nat (length (l_sent l)) - Z.of_nat (length (l_taken l)) ≤ srng_num_entries s - 1 ∧
  (∀ i d, (length (l_taken l) ≤ i)%nat → l_sent l !! i = Some d →
     read_words (w_mem (l_world l)) (slot (l_srng l) (Z.of_nat i))
       (Z.to_nat (srng_entry_size (l_srng l))) = Some d).
Proof.
  intros Hinit Hr. destruct (reach_inv _ _ Hr (initial_inv _ _ Hinit)) as [[_ _ (P & C & [])] Hn].
  cbn in Hn. split_and!; [|lia|done].
  rewrite ct_prefix0. apply prefix_take.
Qed.

(** What both parties keep adding to. *)
Lemma step_logs l l' : step l l' → l_sent l `prefix_of` l_sent l' ∧ l_taken l `prefix_of` l_taken l'.
Proof. destruct 1; cbn; split; done || by eexists. Qed.

Lemma reach_logs l l' : rtc step l l' → l_sent l `prefix_of` l_sent l' ∧ l_taken l `prefix_of` l_taken l'.
Proof.
  induction 1 as [|l l1 l2 Hs _ [IH1 IH2]]; [done|]. destruct (step_logs _ _ Hs). split; by etrans.
Qed.

(** At least the first [n] entries have been published. *)
Definition published (n : nat) (l : link) : Prop :=
  ∃ P C, counters (l_srng l) (l_world l) (l_sent l) (l_taken l) P C ∧ Z.of_nat n ≤ P.

(** The register tells how many. *)
Lemma counters_published s s' w w' a a' b b' P C P' C' : src_static s →
  srng_num_entries s' = srng_num_entries s → srng_entry_size s' = srng_entry_size s →
  counters s w a b P C → counters s' w' a' b' P' C' → mmio_last (w_mmio w') (hp_reg s') = mmio_last (w_mmio w) (hp_reg s) →
  (length a ≤ length a')%nat → (length b ≤ length b')%nat → a' = a ∨ b' = b → P = P'.
Proof.
  intros [Hg _ _ _] HN He [] [] Hreg Ha Hb Hab. pose proof (geo_entry s Hg). pose proof (geo_num s Hg).
  rewrite ct_reg0, ct_reg1, HN, He in Hreg. injection Hreg as Hreg. apply Z.mul_reg_l in Hreg; [|lia].
  symmetry in Hreg. apply mod_window_inj in Hreg; [done|lia|]. destruct Hab as [->| ->]; lia.
Qed.

(** Ending an access publishes everything filled; nothing is ever withdrawn. *)
Lemma end_published s w a b s' w' : inv (Link s w a b) →
  wireless_simu_hal_srng_access_end mmio_addr s w = Done (s', w') → published (length a) (Link s' w' a b).
Proof.
  intros Hi E. pose proof (inv_end _ _ _ _ _ _ Hi E) as [_ _ (P' & C' & Hc')].
  exists P', C'. split; [done|]. destruct Hi as [Hst _ (P & C & Hc)]. cbn in *.
  destruct (end_inv _ _ _ _ Hst E) as (tp & -> & ->). pose proof (geo_entry _ (st_geo _ Hst)).
  pose proof (geo_num _ (st_geo _ Hst)). pose proof (geo_bound _ (st_geo _ Hst)).
  destruct Hc, Hc'. cbn -[mmio_last] in *. change (hp_reg (_ <| srng_timestamp := _ |>)) with (hp_reg s) in *.
  rewrite mmio_last_app, ct_hp0 in ct_reg1. injection ct_reg1 as Heq.
  pose proof (Z.mod_pos_bound (Z.of_nat (length a)) (srng_num_entries s) ltac:(lia)).
  rewrite wrap_id in Heq by nia. apply Z.mul_reg_l in Heq; [|lia].
  apply mod_window_inj in Heq; lia.
Qed.

Lemma step_published n l l' : step l l' → inv l → published n l → published n l'.
Proof.
  intros Hs Hi (P & C & Hc & Hn). pose proof (step_inv _ _ Hs Hi) as [_ _ (P' & C' & Hc')].
  exists P', C'. split; [done|]. pose proof (inv_static _ Hi) as Hst.
  assert (∀ (Hreg : mmio_last (w_mmio (l_world l')) (hp_reg (l_srng l')) = mmio_last (w_mmio (l_world l)) (hp_reg (l_srng l)))
    (He : srng_entry_size (l_srng l') = srng_entry_size (l_srng l))
    (Hab : l_sent l' = l_sent l ∨ l_taken l' = l_taken l), Z.of_nat n ≤ P') as Hsame.
  { intros. destruct (step_logs _ _ Hs) as [H1%prefix_length H2%prefix_length].
    by rewrite <-(counters_published _ _ _ _ _ _ _ _ _ _ _ _ Hst (step_num _ _ Hs Hi) He Hc Hc' Hreg H1 H2 Hab). }
  destruct Hs as [s s' w w' a b H|s s' w w' a b H|s s' w w' a b H
    |s s' w w' a b H|s s' w w1 w2 a b p d H Hp Hd Hw Hsto|s s' w w' a b H|s w a b hp tp d Hr Ht Hne Hl]; cbn -[mmio_last] in *.
  - unfold srng_spin_lock, lock_acquire in H. destruct (srng_lock s); mcbn in H; simplify_eq. by apply Hsame; [..|left].
  - unfold srng_spin_unlock, lock_release in H. destruct (srng_lock s); mcbn in H; simplify_eq. by apply Hsame; [..|left].
  - destruct (begin_inv _ _ _ _ Hst H) as (? & _ & -> & ->). by apply Hsame; [..|left].
  - destruct (inv_next _ _ _ _ _ _ _ Hi H) as [(_ & -> & ->)|(_ & -> & -> & _)]; by apply Hsame; [..|left].
  - destruct (inv_next _ _ _ _ _ _ _ Hi H) as [(? & _)|(-> & -> & -> & Hf)]; [done|].
    rewrite store_words_eq in Hsto; [simplify_eq; by apply Hsame; [..|right]|].
    rewrite <-(Nat2Z.id (length d)), Hd. apply slot_mapped; [apply Hst|apply Hi].
  - destruct (end_published _ _ _ _ _ _ Hi H) as (P2 & C2 & Hc2 & HP2). cbn -[mmio_last] in Hc2.
    assert (P2 = P') as <-.
    { assert (src_static s') as Hst' by by (destruct (end_inv _ _ _ _ Hst H) as (? & -> & _); destruct Hst as [[]]; repeat split).
      by apply (counters_published _ _ _ _ _ _ _ _ _ _ _ _ Hst' eq_refl eq_refl Hc2 Hc'); [..|left]. }
    destruct Hc. lia.
  - apply Hsame; [done|done|by left].
Qed.

Lemma reach_published n l l' : rtc step l l' → inv l → published n l → published n l'.
Proof.
  induction 1 as [|l l1 l2 Hs _ IH]; [done|]. intros Hi Hp.
  apply IH; [by eapply step_inv|by eapply step_published].
Qed.

(** A read by the device. *)
Definition device_step (l l' : link) : Prop := step l l' ∧ ∃ d, l_taken l' = l_taken l ++ [d].

(** It can read while the published head is not the tail. *)
Lemma take_ready l hp tp : inv l →
  mmio_last (w_mmio (l_world l)) (hp_reg (l_srng l)) = Some hp →
  w_mem (l_world l) !! src_tp_addr (srng_src (l_srng l)) = Some tp → hp ≠ tp →
  ∃ d l', l_sent l !! length (l_taken l) = Some d ∧ step l l' ∧ l_taken l' = l_taken l ++ [d] ∧
    l_sent l' = l_sent l ∧ l_srng l' = l_srng l ∧ w_mmio (l_world l') = w_mmio (l_world l).
Proof.
  destruct l as [s w a b]. intros [Hst Hm (P & C & [Ho Hp Hcap Hhp Hct Htp Hreg Hpre Hsl])] Hr Ht Hne. cbn in *.
  destruct (lookup_lt_is_Some_2 a (length b)) as [d Hd].
  { destruct (decide (P = Z.of_nat (length b))); [congruence|lia]. }
  assert (load_words (srng_ring_base_vaddr s + 4 * tp) (Z.to_nat (srng_entry_size s)) w = Done (d, w)) as Hl.
  { rewrite Htp in Ht. injection Ht as <-. apply load_words_eq, (Hsl _ _ (le_n _) Hd). }
  eexists d, _. split; [done|]. split; [by eapply step_take|done].
Qed.

(** Once they are equal it has read all that was published. *)
Lemma taken_published n l hp : inv l → published n l →
  mmio_last (w_mmio (l_world l)) (hp_reg (l_srng l)) = Some hp →
  w_mem (l_world l) !! src_tp_addr (srng_src (l_srng l)) = Some hp → (n ≤ length (l_taken l))%nat.
Proof.
  intros Hi (P & C & [Ho Hp Hcap Hhp Hct Htp Hreg Hpre Hsl] & Hn) Hr Ht.
  pose proof (inv_static _ Hi) as Hst. pose proof (geo_entry _ (st_geo _ Hst)). pose proof (geo_num _ (st_geo _ Hst)).
  rewrite Hr in Hreg. rewrite Ht in Htp. rewrite Hreg in Htp. injection Htp as Heq.
  apply Z.mul_reg_l in Heq; [|lia]. apply mod_window_inj in Heq; lia.
Qed.

(** The device alone reads everything published. *)
Lemma device_drains n l : inv l → published n l →
  ∃ l', rtc device_step l l' ∧ l_sent l' = l_sent l ∧ (n ≤ length (l_taken l'))%nat.
Proof.
  remember (length (l_sent l) - length (l_taken l))%nat as m eqn:Hm.
  revert l Hm. induction m as [m IH] using lt_wf_ind. intros l Hm Hi Hp.
  pose proof Hi as [_ _ (P & C & Hc)].
  pose proof (ct_reg _ _ _ _ _ _ Hc) as Hr. pose proof (ct_tp _ _ _ _ _ _ Hc) as Ht.
  revert Hr Ht. generalize (srng_entry_size (l_srng l) * (P mod srng_num_entries (l_srng l))).
  generalize (srng_entry_size (l_srng l) * (Z.of_nat (length (l_taken l)) mod srng_num_entries (l_srng l))).
  intros tp hp Hr Ht. destruct (decide (hp = tp)) as [<-|Hne].
  { exists l. split_and!; [constructor|done|by eapply taken_published]. }
  destruct (take_ready _ _ _ Hi Hr Ht Hne) as (d & l1 & Hd & Hs & Htk & Hse & _).
  destruct (IH (length (l_sent l1) - length (l_taken l1))%nat) with (l := l1) as (l' & Hrun & Hse' & Hn).
  - rewrite Hse, Htk, length_app. apply lookup_lt_Some in Hd. cbn. lia.
  - done.
  - by eapply step_inv.
  - by eapply step_published.
  - exists l'. split_and!; [|congruence|done]. eapply rtc_l; [split; [exact Hs|by exists d]|done].
Qed.

(** C13.  The device gets everything it is told about.  Take any reachable state,
    let the host end an access there, and let both parties go on in any way.
    Whenever the published head differs from the tail the device can take the
    next entry, which is the next one the host filled; when they are equal it
    has read everything that was filled at the end of that access; and from
    every such state it can, alone and in finitely many reads, come to have read
    it. *)
Theorem source_ring_progress s w l0 s1 w1 l :
  initial s w → rtc step (Link s w [] []) l0 →
  wireless_simu_hal_srng_access_end mmio_addr (l_srng l0) (l_world l0) = Done (s1, w1) →
  rtc step (Link s1 w1 (l_sent l0) (l_taken l0)) l →
  (∃ hp tp, mmio_last (w_mmio (l_world l)) (hp_reg (l_srng l)) = Some hp ∧
    w_mem (l_world l) !! src_tp_addr (srng_src (l_srng l)) = Some tp ∧
    (hp ≠ tp → ∃ d l', l_sent l !! length (l_taken l) = Some d ∧
                       step l l' ∧ l_taken l' = l_taken l ++ [d] ∧ l_sent l' = l_sent l) ∧
    (hp = tp → l_sent l0 `prefix_of` l_taken l)) ∧
  ∃ l', rtc device_step l l' ∧ l_sent l0 `prefix_of` l_taken l'.
Proof.
  intros Hinit Hr0 E Hr. destruct (reach_inv _ _ Hr0 (initial_inv _ _ Hinit)) as [Hi0 _].
  destruct l0 as [s0 w0 a0 b0]. cbn in E, Hr |- *. pose proof (inv_end _ _ _ _ _ _ Hi0 E) as Hi1.
  destruct (reach_inv _ _ Hr Hi1) as [Hi _]. destruct (reach_logs _ _ Hr) as [Hpre _]. cbn in Hpre.
  pose proof (reach_published _ _ _ Hr Hi1 (end_published _ _ _ _ _ _ Hi0 E)) as Hp.
  assert (∀ l1, inv l1 → l_sent l1 = l_sent l → (length a0 ≤ length (l_taken l1))%nat → a0 `prefix_of` l_taken l1) as Hread.
  { intros l1 [_ _ (P & C & Hc)] Hse Hlen. pose proof (ct_prefix _ _ _ _ _ _ Hc) as Ht. rewrite Hse in Ht.
    destruct (prefix_weak_total a0 (l_taken l1) (l_sent l)) as [?|H]; [done|by rewrite Ht; apply prefix_take|done|].
    by rewrite (prefix_length_eq _ _ H Hlen). }
  split.
  - pose proof Hi as [_ _ (P & C & [Ho _ _ _ _ Htp Hreg _ _])]. eexists _, _. split; [exact Hreg|].
    split; [exact Htp|]. split.
    + intros Hne. destruct (take_ready _ _ _ Hi Hreg Htp Hne) as (d & l' & ? & ? & ? & ? & _). by exists d, l'.
    + intros Heq. apply Hread; [done|done|]. rewrite Heq in Hreg. by eapply taken_published.
  - destruct (device_drains _ _ Hi Hp) as (l' & Hrun & Hse & Hn). exists l'. split; [done|].
    apply Hread; [|done|done]. eapply reach_inv; [|exact Hi]. clear -Hrun.
    induction Hrun as [|? ? ? [Hs _] _ IH]; [constructor|by eapply rtc_l].
Qed.
End protocol.
End Source.
