(* ===== verification/HalSetup.v ===== *)
(** * Setting rings up

    Source: src/driver/driver_wireless/wireless_hal.c, functions
    [hal_srng_get_ring_id] to [wireless_simu_hal_srng_setup].  The functions
    take the [wireless_simu_hal] they work on and return it changed; the C
    return value comes first.  [CONFIG_CPU_BIG_ENDIAN] is the build option the
    code tests. *)

From S2P Require Import Prelude Kernel Bits HalTypes Hif HalRing RingProtocol.

(* ------------------------------------------------------------------ *)
(** ** Register fields *)

Section masks.
Context `{B : Bits}.
Definition HAL_TCL1_RING_BASE_MSB_RING_SIZE : Z := GENMASK 27 8.
Definition HAL_TCL1_RING_BASE_MSB_RING_BASE_ADDR_MSB : Z := GENMASK 7 0.
Definition HAL_TCL1_RING_MISC_MSI_LOOPCNT_DISABLE : Z := BIT 1.
Definition HAL_TCL1_RING_MISC_MSI_SWAP : Z := BIT 3.
Definition HAL_TCL1_RING_MISC_HOST_FW_SWAP : Z := BIT 4.
Definition HAL_TCL1_RING_MISC_DATA_TLV_SWAP : Z := BIT 5.
Definition HAL_TCL1_RING_MISC_SRNG_ENABLE : Z := BIT 6.
Definition HAL_TCL1_RING_CONSR_INT_SETUP_IX0_INTR_TMR_THOLD : Z := GENMASK 31 16.
Definition HAL_TCL1_RING_CONSR_INT_SETUP_IX0_BATCH_COUNTER_THOLD : Z := GENMASK 14 0.
Definition HAL_TCL1_RING_CONSR_INT_SETUP_IX1_LOW_THOLD : Z := GENMASK 15 0.

Definition HAL_REO1_RING_BASE_MSB_RING_SIZE : Z := GENMASK 27 8.
Definition HAL_REO1_RING_BASE_MSB_RING_BASE_ADDR_MSB : Z := GENMASK 7 0.
Definition HAL_REO1_RING_ID_RING_ID : Z := GENMASK 15 8.
Definition HAL_REO1_RING_ID_ENTRY_SIZE : Z := GENMASK 7 0.
Definition HAL_REO1_RING_MISC_MSI_SWAP : Z := BIT 3.
Definition HAL_REO1_RING_MISC_HOST_FW_SWAP : Z := BIT 4.
Definition HAL_REO1_RING_MISC_DATA_TLV_SWAP : Z := BIT 5.
Definition HAL_REO1_RING_MISC_SRNG_ENABLE : Z := BIT 6.
Definition HAL_REO1_RING_PRDR_INT_SETUP_INTR_TMR_THOLD : Z := GENMASK 31 16.
Definition HAL_REO1_RING_PRDR_INT_SETUP_BATCH_COUNTER_THOLD : Z := GENMASK 14 0.
End masks.

(* ------------------------------------------------------------------ *)
(** ** hal_srng_get_ring_id *)

Definition hal_srng_get_ring_id (srng_config : hal_srng_config) (ring_num mac_id : Z) : Z :=
  if decide (cfg_max_rings srng_config ≤ ring_num) then - EINVAL
  else
    let ring_id := cfg_start_ring_id srng_config + ring_num in
    let ring_id := if cfg_lmac_ring srng_config
                   then ring_id + mac_id * HAL_SRNG_RINGS_PER_LMAC else ring_id in
    if decide (HAL_SRNG_RING_ID_MAX ≤ ring_id) then - EINVAL else ring_id.

(* ------------------------------------------------------------------ *)
(** ** Programming the device's copy of a ring *)

Section hw_init.
Context `{K : Kernel} `{B : Bits}.

(** [srng->entry_size * srng->num_entries], in [u32]. *)
Definition srng_words (srng : hal_srng) : Z :=
  u32 (srng_entry_size srng * srng_num_entries srng).

Definition hal_srng_src_hw_init (mmio_addr : Z) (hal : wireless_simu_hal) (srng : hal_srng)
    : M unit :=
  let write reg_base n val :=
    wireless_hif_write32 mmio_addr (u32 (reg_base + HAL_SRNG_REG_R_GROUP_OFFSET n)) val in
  let r0 := (srng_hwreg_base srng).1 in
  let write_base :=
    wireless_hif_write32 mmio_addr r0 (srng_ring_base_paddr srng);;
    write r0 1 (Z.lor
      (FIELD_PREP HAL_TCL1_RING_BASE_MSB_RING_BASE_ADDR_MSB
        (srng_ring_base_paddr srng ≫ HAL_ADDR_MSB_REG_SHIFT))
      (FIELD_PREP HAL_TCL1_RING_BASE_MSB_RING_SIZE (srng_words srng)));;
    write r0 2 (FIELD_PREP HAL_REO1_RING_ID_ENTRY_SIZE (srng_entry_size srng)) in
  write_base;;
  when (bool_decide (srng_ring_id srng = HAL_SRNG_RING_ID_WBM_IDLE_LINK)) write_base;;
  write r0 3 (Z.lor
    (FIELD_PREP HAL_TCL1_RING_CONSR_INT_SETUP_IX0_INTR_TMR_THOLD
      (srng_intr_timer_thres_us srng))
    (FIELD_PREP HAL_TCL1_RING_CONSR_INT_SETUP_IX0_BATCH_COUNTER_THOLD
      (u32 (srng_intr_batch_cntr_thres_entries srng * srng_entry_size srng))));;
  write r0 4
    (if flag_set (srng_flags srng) HAL_SRNG_FLAGS_LOW_THRESH_INTR_EN
     then FIELD_PREP HAL_TCL1_RING_CONSR_INT_SETUP_IX1_LOW_THOLD
            (src_low_threshold (srng_src srng))
     else 0);;
  when (bool_decide (srng_ring_id srng ≠ HAL_SRNG_RING_ID_WBM_IDLE_LINK))
    (let tp_addr := u64 (hal_rdp_paddr hal +
                         ptr_sub (src_tp_addr (srng_src srng)) (hal_rdp_vaddr hal)) in
     write r0 5 (Z.land tp_addr HAL_ADDR_LSB_REG_MASK);;
     write r0 6 (tp_addr ≫ HAL_ADDR_MSB_REG_SHIFT));;
  let r2 := (srng_hwreg_base srng).2 in
  wireless_hif_write32 mmio_addr r2 0;;
  write r2 1 0;;
  store32 (src_tp_addr (srng_src srng)) 0;;
  let val := 0 in
  let val := if flag_set (srng_flags srng) HAL_SRNG_FLAGS_DATA_TLV_SWAP
             then Z.lor val HAL_TCL1_RING_MISC_DATA_TLV_SWAP else val in
  let val := if flag_set (srng_flags srng) HAL_SRNG_FLAGS_RING_PTR_SWAP
             then Z.lor val HAL_TCL1_RING_MISC_HOST_FW_SWAP else val in
  let val := if flag_set (srng_flags srng) HAL_SRNG_FLAGS_MSI_SWAP
             then Z.lor val HAL_TCL1_RING_MISC_MSI_SWAP else val in
  let val := Z.lor val HAL_TCL1_RING_MISC_MSI_LOOPCNT_DISABLE in
  let val := Z.lor val HAL_TCL1_RING_MISC_SRNG_ENABLE in
  write r0 7 val.

Definition hal_srng_dst_hw_init (mmio_addr : Z) (hal : wireless_simu_hal) (srng : hal_srng)
    : M unit :=
  let write reg_base n val :=
    wireless_hif_write32 mmio_addr (u32 (reg_base + HAL_SRNG_REG_R_GROUP_OFFSET n)) val in
  let r0 := (srng_hwreg_base srng).1 in
  write r0 0 (srng_ring_base_paddr srng);;
  write r0 1 (Z.lor
    (FIELD_PREP HAL_REO1_RING_BASE_MSB_RING_BASE_ADDR_MSB
      (srng_ring_base_paddr srng ≫ HAL_ADDR_MSB_REG_SHIFT))
    (FIELD_PREP HAL_REO1_RING_BASE_MSB_RING_SIZE (srng_words srng)));;
  write r0 2 (Z.lor
    (FIELD_PREP HAL_REO1_RING_ID_RING_ID (srng_ring_id srng))
    (FIELD_PREP HAL_REO1_RING_ID_ENTRY_SIZE (srng_entry_size srng)));;
  write r0 3 (Z.lor
    (FIELD_PREP HAL_REO1_RING_PRDR_INT_SETUP_INTR_TMR_THOLD
      (srng_intr_timer_thres_us srng ≫ 3))
    (FIELD_PREP HAL_REO1_RING_PRDR_INT_SETUP_BATCH_COUNTER_THOLD
      (u32 (srng_intr_batch_cntr_thres_entries srng * srng_entry_size srng))));;
  let hp_addr := u64 (hal_rdp_paddr hal +
                      ptr_sub (dst_hp_addr (srng_dst srng)) (hal_rdp_vaddr hal)) in
  write r0 5 (Z.land hp_addr HAL_ADDR_LSB_REG_MASK);;
  write r0 6 (hp_addr ≫ HAL_ADDR_MSB_REG_SHIFT);;
  let r2 := (srng_hwreg_base srng).2 in
  write r2 0 0;;
  write r2 1 0;;
  store32 (dst_hp_addr (srng_dst srng)) 0;;
  let val := 0 in
  let val := if flag_set (srng_flags srng) HAL_SRNG_FLAGS_DATA_TLV_SWAP
             then Z.lor val HAL_REO1_RING_MISC_DATA_TLV_SWAP else val in
  let val := if flag_set (srng_flags srng) HAL_SRNG_FLAGS_RING_PTR_SWAP
             then Z.lor val HAL_REO1_RING_MISC_HOST_FW_SWAP else val in
  let val := if flag_set (srng_flags srng) HAL_SRNG_FLAGS_MSI_SWAP
             then Z.lor val HAL_REO1_RING_MISC_MSI_SWAP else val in
  let val := Z.lor val HAL_REO1_RING_MISC_SRNG_ENABLE in
  write r0 7 val.

Definition hal_srng_hw_init (mmio_addr : Z) (hal : wireless_simu_hal) (srng : hal_srng)
    : M unit :=
  match srng_ring_dir srng with
  | HAL_SRNG_DIR_SRC => hal_srng_src_hw_init mmio_addr hal srng
  | HAL_SRNG_DIR_DST => hal_srng_dst_hw_init mmio_addr hal srng
  end.

(* ------------------------------------------------------------------ *)
(** ** wireless_simu_hal_srng_setup *)

Variable CONFIG_CPU_BIG_ENDIAN : bool.

(** [&hal->srng_config[type]]: the array lives in a kmalloc block. *)
Definition hal_get_config (hal : wireless_simu_hal) (type : hal_ring_type) : M hal_srng_config :=
  w ← get_world;
  if decide (hal_config_ptr hal = 0) then fail NullDeref
  else if decide (hal_config_ptr hal ∈ w_heap w)
  then of_option OutOfBounds (hal_config_val hal !! hal_ring_type_val type)
  else fail Unmapped.

(** The assignments that fill [srng] up to the [memset] of its entries. *)
Definition srng_fill (srng : hal_srng) (srng_config : hal_srng_config)
    (params : hal_srng_params) (ring_id : Z) : hal_srng :=
  let entry_size := cfg_entry_size srng_config in
  let num_entries := u32 (par_num_entries params) in
  srng <| srng_ring_id := u8 ring_id |>
       <| srng_ring_dir := cfg_ring_dir srng_config |>
       <| srng_ring_base_paddr := par_ring_base_paddr params |>
       <| srng_ring_base_vaddr := par_ring_base_vaddr params |>
       <| srng_entry_size := entry_size |>
       <| srng_num_entries := num_entries |>
       <| srng_ring_size := u32 (entry_size * num_entries) |>
       <| srng_intr_batch_cntr_thres_entries := par_intr_batch_cntr_thres_entries params |>
       <| srng_intr_timer_thres_us := par_intr_timer_thres_us params |>
       <| srng_flags := par_flags params |>
       <| srng_msi_addr := par_msi_addr params |>
       <| srng_msi_data := par_msi_data params |>
       <| srng_initialized := 1 |>
       <| srng_lock := false |>
       <| srng_hwreg_base := (u32 (hal_srng_reg_base ring_id HAL_SRNG_REG_GRP_R0),
                              u32 (hal_srng_reg_base ring_id HAL_SRNG_REG_GRP_R2)) |>.

(** The assignments that place its head and tail pointers. *)
Definition srng_fill_ptrs (mmio_addr : Z) (hal : wireless_simu_hal) (srng : hal_srng)
    (srng_config : hal_srng_config) (params : hal_srng_params) (ring_id : Z) : hal_srng :=
  let reg_base := (srng_hwreg_base srng).2 in
  let srng :=
    if CONFIG_CPU_BIG_ENDIAN
    then srng <| srng_flags := Z.lor (srng_flags srng)
           (Z.lor (Z.lor HAL_SRNG_FLAGS_MSI_SWAP HAL_SRNG_FLAGS_DATA_TLV_SWAP)
                  HAL_SRNG_FLAGS_RING_PTR_SWAP) |>
    else srng in
  let lmac_idx := u32 (ring_id - HAL_SRNG_RING_ID_LMAC1_ID_START) in
  match srng_ring_dir srng with
  | HAL_SRNG_DIR_SRC =>
      let r := srng_src srng
        <| src_hp := 0 |>
        <| src_cached_tp := 0 |>
        <| src_reap_hp := u32 (srng_ring_size srng - srng_entry_size srng) |>
        <| src_tp_addr := ptr_add32 (hal_rdp_vaddr hal) ring_id |>
        <| src_low_threshold := u32 (par_low_threshold params * srng_entry_size srng) |> in
      if cfg_lmac_ring srng_config
      then srng <| srng_src := r <| src_hp_addr := ptr_add32 (hal_wrp_vaddr hal) lmac_idx |> |>
                <| srng_flags := Z.lor (srng_flags srng) HAL_SRNG_FLAGS_LMAC_RING |>
      else srng <| srng_src := r <| src_hp_addr := u64 (mmio_addr + reg_base) |> |>
  | HAL_SRNG_DIR_DST =>
      let r := srng_dst srng
        <| dst_loop_cnt := 1 |>
        <| dst_tp := 0 |>
        <| dst_cached_hp := 0 |>
        <| dst_hp_addr := ptr_add32 (hal_rdp_vaddr hal) ring_id |> in
      if cfg_lmac_ring srng_config
      then srng <| srng_dst := r <| dst_tp_addr := ptr_add32 (hal_wrp_vaddr hal) lmac_idx |> |>
                <| srng_flags := Z.lor (srng_flags srng) HAL_SRNG_FLAGS_LMAC_RING |>
      else srng <| srng_dst := r <| dst_tp_addr := u64 (mmio_addr + reg_base) |> |>
  end.

Definition wireless_simu_hal_srng_setup (mmio_addr : Z) (hal : wireless_simu_hal)
    (type : hal_ring_type) (ring_num mac_id : Z) (params : hal_srng_params)
    : M (Z * wireless_simu_hal) :=
  srng_config ← hal_get_config hal type;
  let ring_id := hal_srng_get_ring_id srng_config ring_num mac_id in
  if decide (ring_id < 0) then mret (ring_id, hal)
  else
    srng ← of_option OutOfBounds (hal_srng_list hal !! Z.to_nat ring_id);
    let srng := srng_fill srng srng_config params ring_id in
    memset0 (srng_ring_base_vaddr srng) (u32 (srng_words srng ≪ 2));;
    let srng := srng_fill_ptrs mmio_addr hal srng srng_config params ring_id in
    let hal := hal <| hal_srng_list := <[Z.to_nat ring_id := srng]> (hal_srng_list hal) |> in
    if cfg_lmac_ring srng_config then mret (ring_id, hal)
    else hal_srng_hw_init mmio_addr hal srng;; mret (ring_id, hal).

End hw_init.

(* ------------------------------------------------------------------ *)
(** ** Register addresses *)

(** The 32-bit layout of a ring register: group number, ring id (8 bits),
    register group (1 bit), register (5 bits), byte (2 bits). *)
Lemma hal_srng_reg_base_add r g : 0 ≤ r < 256 → 0 ≤ g < 2 →
  hal_srng_reg_base r g = 0x10000 + 256 * r + 128 * g.
Proof.
  intros Hr Hg.
  assert (forallb (λ n : nat, forallb (λ k : nat,
    hal_srng_reg_base (Z.of_nat n) (Z.of_nat k) =?
      0x10000 + 256 * Z.of_nat n + 128 * Z.of_nat k) (seq 0 2)) (seq 0 256) = true) as Hall
    by (vm_compute; reflexivity).
  rewrite forallb_forall in Hall. specialize (Hall (Z.to_nat r)).
  rewrite forallb_forall in Hall. specialize (Hall ltac:(apply in_seq; lia) (Z.to_nat g)).
  specialize (Hall ltac:(apply in_seq; lia)). rewrite !Z2Nat.id in Hall by lia.
  by apply Z.eqb_eq.
Qed.

(** The value a ring register holds for the device. *)
Definition ring_reg (mmio_addr : Z) (log : list (Z * Z)) (ring_id grp n : Z) : option Z :=
  mmio_last log (mmio_addr + (hal_srng_reg_base ring_id grp + HAL_SRNG_REG_R_GROUP_OFFSET n)).

(** Ring registers written in [log] belong to ring [ring_id]. *)
Definition ring_window (mmio_addr ring_id : Z) (log : list (Z * Z)) : Prop :=
  Forall (λ pv, ∃ k, 0 ≤ k < 256 ∧ pv.1 = mmio_addr + 0x10000 + 256 * ring_id + k) log.

Definition type_ring_id (t : hal_ring_type) : Z :=
  match t with
  | HAL_TEST_SRNG => 125
  | HAL_TEST_SRNG_DST => 8
  | HAL_TEST_SRNG_DST_STATUS => 1
  end.
Definition type_dir (t : hal_ring_type) : hal_srng_dir :=
  match t with HAL_TEST_SRNG_DST_STATUS => HAL_SRNG_DIR_DST | _ => HAL_SRNG_DIR_SRC end.
Definition type_entry_size (t : hal_ring_type) : Z :=
  match t with
  | HAL_TEST_SRNG => 5
  | HAL_TEST_SRNG_DST => 3
  | HAL_TEST_SRNG_DST_STATUS => 2
  end.

(** The shared word a ring's device-side pointer lives in. *)
Definition rdp_word (hal : wireless_simu_hal) (t : hal_ring_type) : Z :=
  hal_rdp_vaddr hal + 4 * type_ring_id t.

(* ------------------------------------------------------------------ *)
(** ** The state after initialisation *)

Definition sizeof_rdp : Z := 4 * HAL_SRNG_RING_ID_MAX.

Record hal_ready (hal : wireless_simu_hal) (w : world) : Prop := {
  hr_ptr : hal_config_ptr hal ≠ 0 ∧ hal_config_ptr hal ∈ w_heap w;
  hr_val : hal_config_val hal = hw_srng_config_template;
  hr_list : length (hal_srng_list hal) = Z.to_nat HAL_SRNG_RING_ID_MAX;
  hr_rdp : 0 < hal_rdp_vaddr hal ∧ hal_rdp_vaddr hal + sizeof_rdp < 2 ^ 63;
  hr_rdp_paddr : 0 ≤ hal_rdp_paddr hal ∧ hal_rdp_paddr hal + sizeof_rdp < 2 ^ 32;
  hr_rdp_mapped : mapped (w_mem w) (hal_rdp_vaddr hal) (Z.to_nat HAL_SRNG_RING_ID_MAX)
}.

(** Parameters a module may pass: a mapped ring buffer away from the shared
    pointer words. *)
Record params_ok (hal : wireless_simu_hal) (t : hal_ring_type) (params : hal_srng_params)
    (w : world) : Prop := {
  po_num : 1 < par_num_entries params;
  po_size : type_entry_size t * par_num_entries params < 2 ^ 20;
  po_flags : par_flags params = 0;
  po_base : 0 < par_ring_base_vaddr params;
  po_top : par_ring_base_vaddr params + 4 * (type_entry_size t * par_num_entries params) < 2 ^ 64;
  po_paddr : 0 ≤ par_ring_base_paddr params < 2 ^ 40;
  po_mapped : mapped (w_mem w) (par_ring_base_vaddr params)
    (Z.to_nat (type_entry_size t * par_num_entries params));
  po_apart : ∀ k, 0 ≤ k < type_entry_size t * par_num_entries params →
    rdp_word hal t ≠ par_ring_base_vaddr params + 4 * k
}.

Lemma rdp_word_mapped hal w t : hal_ready hal w → is_Some (w_mem w !! rdp_word hal t).
Proof.
  intros [_ _ _ _ _ Hm]. specialize (Hm (Z.to_nat (type_ring_id t))).
  rewrite Z2Nat.id in Hm by (destruct t; cbn; lia). apply Hm, Nat.ltb_lt.
  by destruct t; vm_compute.
Qed.

(** What the device reads back from its registers after setup: the ring's bus
    address, its size in words, its entry size, the bus address of the shared
    pointer word, the enable bit, and both pointers at zero. *)
Record device_view (mmio_addr : Z) (hal : wireless_simu_hal) (t : hal_ring_type)
    (params : hal_srng_params) (log : list (Z * Z)) : Prop := {
  dv_base_size : ∃ lo v,
    ring_reg mmio_addr log (type_ring_id t) HAL_SRNG_REG_GRP_R0 0 = Some lo ∧
    ring_reg mmio_addr log (type_ring_id t) HAL_SRNG_REG_GRP_R0 1 = Some v ∧
    get_field 7 0 v * 2 ^ 32 + lo = par_ring_base_paddr params ∧
    get_field 27 8 v = type_entry_size t * par_num_entries params;
  dv_entry : ∃ v,
    ring_reg mmio_addr log (type_ring_id t) HAL_SRNG_REG_GRP_R0 2 = Some v ∧
    get_field 7 0 v = type_entry_size t ∧
    (type_dir t = HAL_SRNG_DIR_DST → get_field 15 8 v = type_ring_id t);
  dv_pointer : ∃ lo hi,
    ring_reg mmio_addr log (type_ring_id t) HAL_SRNG_REG_GRP_R0 5 = Some lo ∧
    ring_reg mmio_addr log (type_ring_id t) HAL_SRNG_REG_GRP_R0 6 = Some hi ∧
    hi * 2 ^ 32 + lo = hal_rdp_paddr hal + 4 * type_ring_id t;
  dv_enable : ∃ v,
    ring_reg mmio_addr log (type_ring_id t) HAL_SRNG_REG_GRP_R0 7 = Some v ∧
    get_field 6 6 v = 1;
  dv_hp : ring_reg mmio_addr log (type_ring_id t) HAL_SRNG_REG_GRP_R2 0 = Some 0;
  dv_tp : ring_reg mmio_addr log (type_ring_id t) HAL_SRNG_REG_GRP_R2 1 = Some 0
}.

Section setup_specs.
Context `{K : Kernel} `{BO : BitsOk}.

Lemma reg_addr r g n : 0 ≤ r < 256 → 0 ≤ g < 2 → 0 ≤ n < 32 →
  u32 (u32 (u32 (hal_srng_reg_base r g) + HAL_SRNG_REG_R_GROUP_OFFSET n)) =
    0x10000 + 256 * r + 128 * g + 4 * n.
Proof.
  intros. rewrite hal_srng_reg_base_add by lia. unfold HAL_SRNG_REG_R_GROUP_OFFSET.
  rewrite Z.shiftl_mul_pow2 by lia.
  rewrite wrap_wrap, (wrap_id 32 (_ + 128 * g)), wrap_id by lia. lia.
Qed.

Lemma reg_addr0 r g : 0 ≤ r < 256 → 0 ≤ g < 2 →
  u32 (u32 (hal_srng_reg_base r g)) = 0x10000 + 256 * r + 128 * g.
Proof. intros. rewrite hal_srng_reg_base_add by lia. rewrite wrap_wrap, wrap_id; lia. Qed.

Lemma ring_reg_addr mmio_addr log r g n : 0 ≤ r < 256 → 0 ≤ g < 2 → 0 ≤ n < 32 →
  ring_reg mmio_addr log r g n = mmio_last log (mmio_addr + (0x10000 + 256 * r + 128 * g + 4 * n)).
Proof.
  intros. unfold ring_reg, HAL_SRNG_REG_R_GROUP_OFFSET.
  rewrite hal_srng_reg_base_add, Z.shiftl_mul_pow2 by lia. do 2 f_equal. lia.
Qed.

(** The ring [wireless_simu_hal_srng_setup] stores. *)
Definition setup_srng (big : bool) (mmio_addr : Z) (hal : wireless_simu_hal)
    (t : hal_ring_type) (params : hal_srng_params) (old : hal_srng) : hal_srng :=
  let cfg := nth (hal_ring_type_val t) hw_srng_config_template
               (HalSrngConfig 0 0 0 (0, 0) (0, 0) false HAL_SRNG_DIR_SRC 0) in
  srng_fill_ptrs big mmio_addr hal (srng_fill old cfg params (type_ring_id t)) cfg params
    (type_ring_id t).

(** Memory after setup: zeroed entries, zeroed shared pointer. *)
Definition setup_mem (hal : wireless_simu_hal) (t : hal_ring_type) (params : hal_srng_params)
    (m : gmap Z Z) : gmap Z Z :=
  <[rdp_word hal t := 0]>
    (write_words (par_ring_base_vaddr params)
       (replicate (Z.to_nat (type_entry_size t * par_num_entries params)) 0) m).

Lemma hal_get_config_ready hal w t : hal_ready hal w →
  hal_get_config hal t w =
    Done (nth (hal_ring_type_val t) hw_srng_config_template
            (HalSrngConfig 0 0 0 (0, 0) (0, 0) false HAL_SRNG_DIR_SRC 0), w).
Proof.
  intros [[Hp Hin] Hv _ _ _ _]. unfold hal_get_config, get_world. mcbn.
  rewrite decide_False, decide_True, Hv by done. by destruct t.
Qed.

Lemma rdp_ptr hal w t : hal_ready hal w →
  ptr_add32 (hal_rdp_vaddr hal) (type_ring_id t) = rdp_word hal t ∧
  u64 (hal_rdp_paddr hal + ptr_sub (rdp_word hal t) (hal_rdp_vaddr hal)) =
    hal_rdp_paddr hal + 4 * type_ring_id t.
Proof.
  intros [_ _ _ [? Hr] [? Hp] _]. unfold ptr_add32, ptr_sub, rdp_word.
  change sizeof_rdp with 688 in *.
  assert (0 ≤ type_ring_id t ≤ 125) by (destruct t; cbn; lia).
  replace (hal_rdp_vaddr hal + 4 * type_ring_id t - hal_rdp_vaddr hal)
    with (4 * type_ring_id t) by lia.
  split; [by rewrite wrap_id by lia|].
  by rewrite (wrap_id 64 (4 * _)), wrap_id by lia.
Qed.

(** The registers either initialisation leaves behind, for a ring with id [r]
    whose shared pointer word has bus address [pa]. *)
Record hw_regs (mmio_addr r pa : Z) (s : hal_srng) (log : list (Z * Z)) : Prop := {
  hw_window : ring_window mmio_addr r log;
  hw_base : ring_reg mmio_addr log r HAL_SRNG_REG_GRP_R0 0 = Some (u32 (srng_ring_base_paddr s));
  hw_size : ring_reg mmio_addr log r HAL_SRNG_REG_GRP_R0 1 = Some (u32 (Z.lor
    (FIELD_PREP (GENMASK 7 0) (srng_ring_base_paddr s ≫ 32))
    (FIELD_PREP (GENMASK 27 8) (srng_words s))));
  hw_entry : ring_reg mmio_addr log r HAL_SRNG_REG_GRP_R0 2 = Some (u32
    match srng_ring_dir s with
    | HAL_SRNG_DIR_SRC => FIELD_PREP (GENMASK 7 0) (srng_entry_size s)
    | HAL_SRNG_DIR_DST => Z.lor (FIELD_PREP (GENMASK 15 8) r)
                            (FIELD_PREP (GENMASK 7 0) (srng_entry_size s))
    end);
  hw_lsb : ring_reg mmio_addr log r HAL_SRNG_REG_GRP_R0 5 =
    Some (u32 (Z.land pa HAL_ADDR_LSB_REG_MASK));
  hw_msb : ring_reg mmio_addr log r HAL_SRNG_REG_GRP_R0 6 =
    Some (u32 (pa ≫ HAL_ADDR_MSB_REG_SHIFT));
  hw_misc : ∃ v, ring_reg mmio_addr log r HAL_SRNG_REG_GRP_R0 7 = Some (u32 (Z.lor v (BIT 6)));
  hw_hp : ring_reg mmio_addr log r HAL_SRNG_REG_GRP_R2 0 = Some 0;
  hw_tp : ring_reg mmio_addr log r HAL_SRNG_REG_GRP_R2 1 = Some 0
}.

Lemma in_window mmio_addr r a : 0 ≤ a - (mmio_addr + 0x10000 + 256 * r) < 256 →
  ∃ k, 0 ≤ k < 256 ∧ a = mmio_addr + 0x10000 + 256 * r + k.
Proof. intros. exists (a - (mmio_addr + 0x10000 + 256 * r)). lia. Qed.

Ltac hw_log_regs Hdir :=
  split;
  [ unfold ring_window; repeat (apply Forall_cons; split); try apply Forall_nil_2;
    cbn [fst]; rewrite ?reg_addr, ?reg_addr0 by (done || lia);
    apply in_window; unfold HAL_SRNG_REG_GRP_R0, HAL_SRNG_REG_GRP_R2; lia
  | .. ];
  rewrite ?Hdir; try eexists; rewrite ring_reg_addr by (done || lia);
  rewrite ?reg_addr, ?reg_addr0, ?wrap_wrap by (done || lia);
  unfold HAL_SRNG_REG_GRP_R0, HAL_SRNG_REG_GRP_R2; mmio_eval; reflexivity.

Lemma src_hw_init_done mmio_addr hal s w r pa :
  is_Some (w_mem w !! src_tp_addr (srng_src s)) →
  0 ≤ r < 256 → srng_ring_id s = r → r ≠ HAL_SRNG_RING_ID_WBM_IDLE_LINK →
  srng_ring_dir s = HAL_SRNG_DIR_SRC →
  srng_hwreg_base s = (u32 (hal_srng_reg_base r HAL_SRNG_REG_GRP_R0),
                       u32 (hal_srng_reg_base r HAL_SRNG_REG_GRP_R2)) →
  u64 (hal_rdp_paddr hal + ptr_sub (src_tp_addr (srng_src s)) (hal_rdp_vaddr hal)) = pa →
  ∃ log, hal_srng_hw_init mmio_addr hal s w =
      Done (tt, w <| w_mmio := w_mmio w ++ log |>
                  <| w_mem := <[src_tp_addr (srng_src s) := 0]> (w_mem w) |>) ∧
    hw_regs mmio_addr r pa s log.
Proof.
  intros [x Hx] Hr Hid Hne Hd Hb Hpa. unfold hal_srng_hw_init. rewrite Hd.
  eexists. split.
  - unfold hal_srng_src_hw_init. rewrite Hid.
    rewrite (bool_decide_eq_false_2 (r = _)), (bool_decide_eq_true_2 (_ ≠ _)) by done.
    rewrite Hb, Hpa. unfold wireless_hif_write32, iowrite32, modify, store32, when.
    mcbn. rewrite Hx. cbn. rewrite <-!app_assoc. cbn. reflexivity.
  - hw_log_regs Hd.
Qed.

Lemma dst_hw_init_done mmio_addr hal s w r pa :
  is_Some (w_mem w !! dst_hp_addr (srng_dst s)) →
  0 ≤ r < 256 → srng_ring_id s = r → srng_ring_dir s = HAL_SRNG_DIR_DST →
  srng_hwreg_base s = (u32 (hal_srng_reg_base r HAL_SRNG_REG_GRP_R0),
                       u32 (hal_srng_reg_base r HAL_SRNG_REG_GRP_R2)) →
  u64 (hal_rdp_paddr hal + ptr_sub (dst_hp_addr (srng_dst s)) (hal_rdp_vaddr hal)) = pa →
  ∃ log, hal_srng_hw_init mmio_addr hal s w =
      Done (tt, w <| w_mmio := w_mmio w ++ log |>
                  <| w_mem := <[dst_hp_addr (srng_dst s) := 0]> (w_mem w) |>) ∧
    hw_regs mmio_addr r pa s log.
Proof.
  intros [x Hx] Hr Hid Hd Hb Hpa. unfold hal_srng_hw_init. rewrite Hd.
  eexists. split.
  - unfold hal_srng_dst_hw_init. rewrite Hid, Hb, Hpa.
    unfold wireless_hif_write32, iowrite32, modify, store32.
    mcbn. rewrite Hx. cbn. rewrite <-!app_assoc. cbn. reflexivity.
  - hw_log_regs Hd.
Qed.

(** Reading the registers back. *)
Lemma lsb_msb pa : 0 ≤ pa < 2 ^ 64 →
  u32 (pa ≫ HAL_ADDR_MSB_REG_SHIFT) * 2 ^ 32 + u32 (Z.land pa HAL_ADDR_LSB_REG_MASK) = pa.
Proof.
  intros. change HAL_ADDR_LSB_REG_MASK with (Z.ones 32).
  change HAL_ADDR_MSB_REG_SHIFT with 32.
  rewrite Z.land_ones, Z.shiftr_div_pow2 by lia.
  change (pa mod 2 ^ 32) with (u32 pa). rewrite wrap_wrap.
  rewrite (wrap_id 32 (pa / _)).
  - unfold wrap. pose proof (Z.div_mod pa (2 ^ 32)). lia.
  - split; [apply Z.div_pos|apply Z.div_lt_upper_bound]; lia.
Qed.

Lemma hw_regs_view mmio_addr hal t params s log :
  hw_regs mmio_addr (type_ring_id t) (hal_rdp_paddr hal + 4 * type_ring_id t) s log →
  0 ≤ hal_rdp_paddr hal ∧ hal_rdp_paddr hal + sizeof_rdp < 2 ^ 32 →
  0 ≤ par_ring_base_paddr params < 2 ^ 40 →
  0 < par_num_entries params → type_entry_size t * par_num_entries params < 2 ^ 20 →
  srng_ring_dir s = type_dir t → srng_entry_size s = type_entry_size t →
  srng_num_entries s = par_num_entries params →
  srng_ring_base_paddr s = par_ring_base_paddr params →
  device_view mmio_addr hal t params log.
Proof.
  intros [_ H0 H1 H2 H5 H6 [v7 H7] Hhp Htp] Hrdp Hpa Hn Hsz Hd He Hnum Hb.
  change sizeof_rdp with 688 in Hrdp.
  rewrite Hd, He, Hb in *. unfold srng_words in H1. rewrite He, Hnum in H1.
  assert (0 ≤ type_ring_id t ≤ 125) by (by destruct t; cbn).
  assert (0 < type_entry_size t < 8) by (by destruct t; cbn).
  split.
  - eexists _, _. split_and!; [exact H0|exact H1|..]; bitfields.
    + rewrite Z.shiftr_div_pow2 by lia. rewrite (Z.mod_small (_ / _)).
      * unfold wrap. pose proof (Z.div_mod (par_ring_base_paddr params) (2 ^ 32)). lia.
      * split; [apply Z.div_pos|apply Z.div_lt_upper_bound]; lia.
    + rewrite wrap_id, Z.mod_small by (rewrite ?wrap_id; lia). lia.
  - eexists. split; [exact H2|]. split; [|intros ->]; bitfields.
    + destruct (type_dir t); bitfields; rewrite Z.mod_small; lia.
    + rewrite Z.mod_small; lia.
  - eexists _, _. split_and!; [exact H5|exact H6|]. apply lsb_msb. lia.
  - eexists. split; [exact H7|]. bitfields.
    pose proof (get_field_range 6 6 v7 ltac:(lia)) as Hv.
    change (2 ^ (6 - 6 + 1)) with 2 in Hv.
    by assert (get_field 6 6 v7 = 0 ∨ get_field 6 6 v7 = 1) as [-> | ->] by lia.
  - done.
  - done.
Qed.

(** The ring the type's configuration gives. *)
Lemma setup_srng_fields big mmio_addr hal t params old :
  let s := setup_srng big mmio_addr hal t params old in
  srng_ring_id s = type_ring_id t ∧ srng_ring_dir s = type_dir t ∧
  srng_entry_size s = type_entry_size t ∧
  srng_num_entries s = u32 (par_num_entries params) ∧
  srng_ring_size s = u32 (type_entry_size t * u32 (par_num_entries params)) ∧
  srng_ring_base_vaddr s = par_ring_base_vaddr params ∧
  srng_ring_base_paddr s = par_ring_base_paddr params ∧
  srng_lock s = false ∧ srng_initialized s = 1 ∧
  srng_hwreg_base s = (u32 (hal_srng_reg_base (type_ring_id t) HAL_SRNG_REG_GRP_R0),
                       u32 (hal_srng_reg_base (type_ring_id t) HAL_SRNG_REG_GRP_R2)).
Proof. by destruct t, big. Qed.

(** Its pointers. *)
Lemma setup_srng_pointers big mmio_addr hal t params old :
  let s := setup_srng big mmio_addr hal t params old in
  let reg := u64 (mmio_addr +
               u32 (hal_srng_reg_base (type_ring_id t) HAL_SRNG_REG_GRP_R2)) in
  let word := ptr_add32 (hal_rdp_vaddr hal) (type_ring_id t) in
  match type_dir t with
  | HAL_SRNG_DIR_SRC =>
      src_hp (srng_src s) = 0 ∧ src_cached_tp (srng_src s) = 0 ∧
      src_reap_hp (srng_src s) = u32 (srng_ring_size s - srng_entry_size s) ∧
      src_tp_addr (srng_src s) = word ∧ src_hp_addr (srng_src s) = reg
  | HAL_SRNG_DIR_DST =>
      dst_tp (srng_dst s) = 0 ∧ dst_cached_hp (srng_dst s) = 0 ∧ dst_loop_cnt (srng_dst s) = 1 ∧
      dst_hp_addr (srng_dst s) = word ∧ dst_tp_addr (srng_dst s) = reg
  end.
Proof. by destruct t, big. Qed.

Lemma type_bounds t : 0 ≤ type_ring_id t ≤ 125 ∧ 2 ≤ type_entry_size t ≤ 5.
Proof. by destruct t; cbn. Qed.

Lemma type_config t :
  let cfg := nth (hal_ring_type_val t) hw_srng_config_template
               (HalSrngConfig 0 0 0 (0, 0) (0, 0) false HAL_SRNG_DIR_SRC 0) in
  hal_srng_get_ring_id cfg 0 0 = type_ring_id t ∧ cfg_lmac_ring cfg = false.
Proof. by destruct t. Qed.

Lemma setup_hw_init big mmio_addr hal t params old w w1 :
  hal_ready hal w → is_Some (w_mem w1 !! rdp_word hal t) →
  let s := setup_srng big mmio_addr hal t params old in
  let hal' := hal <| hal_srng_list := <[Z.to_nat (type_ring_id t) := s]> (hal_srng_list hal) |> in
  ∃ log, hal_srng_hw_init mmio_addr hal' s w1 =
      Done (tt, w1 <| w_mmio := w_mmio w1 ++ log |>
                   <| w_mem := <[rdp_word hal t := 0]> (w_mem w1) |>) ∧
    hw_regs mmio_addr (type_ring_id t) (hal_rdp_paddr hal + 4 * type_ring_id t) s log.
Proof.
  intros Hr Hw s hal'. destruct (rdp_ptr hal w t Hr) as [Hptr Hpa].
  destruct (setup_srng_fields big mmio_addr hal t params old)
    as (Hid & Hd & _ & _ & _ & _ & _ & _ & _ & Hreg).
  pose proof (setup_srng_pointers big mmio_addr hal t params old) as Hs.
  pose proof (type_bounds t). fold s in Hid, Hd, Hreg, Hs.
  destruct (type_dir t); destruct Hs as (_ & _ & _ & Hword & _); rewrite Hptr in Hword;
    rewrite <-Hword in *; cbn beta.
  - apply src_hw_init_done; try done; [lia|]. unfold HAL_SRNG_RING_ID_WBM_IDLE_LINK.
    by destruct t.
  - apply dst_hw_init_done; try done. lia.
Qed.

(** What a successful [wireless_simu_hal_srng_setup] did. *)
Lemma setup_done big mmio_addr hal t params w :
  hal_ready hal w → params_ok hal t params w →
  ∃ old log,
    hal_srng_list hal !! Z.to_nat (type_ring_id t) = Some old ∧
    wireless_simu_hal_srng_setup big mmio_addr hal t 0 0 params w =
      Done ((type_ring_id t,
             hal <| hal_srng_list := <[Z.to_nat (type_ring_id t) :=
                      setup_srng big mmio_addr hal t params old]> (hal_srng_list hal) |>),
            w <| w_mmio := w_mmio w ++ log |>
              <| w_mem := setup_mem hal t params (w_mem w) |>) ∧
    hw_regs mmio_addr (type_ring_id t) (hal_rdp_paddr hal + 4 * type_ring_id t)
      (setup_srng big mmio_addr hal t params old) log.
Proof.
  intros Hr Hp. pose proof (hal_get_config_ready hal w t Hr) as Hcfg.
  destruct (type_config t) as [Hid Hlmac]. pose proof (type_bounds t).
  pose proof (po_num _ _ _ _ Hp). pose proof (po_size _ _ _ _ Hp).
  destruct (lookup_lt_is_Some_2 (hal_srng_list hal) (Z.to_nat (type_ring_id t))) as [old Hold].
  { rewrite (hr_list _ _ Hr). apply Nat.ltb_lt. by destruct t; vm_compute. }
  set (n := Z.to_nat (type_entry_size t * par_num_entries params)).
  set (w1 := w <| w_mem := write_words (par_ring_base_vaddr params) (replicate n 0) (w_mem w) |>).
  destruct (setup_hw_init big mmio_addr hal t params old w w1 Hr) as (log & Hhw & Hregs).
  { apply write_words_is_Some, rdp_word_mapped, Hr. }
  exists old, log. split_and!; [done| |done].
  unfold wireless_simu_hal_srng_setup. rewrite (M_bind_done _ _ _ _ _ Hcfg). cbv zeta.
  rewrite Hid, decide_False by lia.
  rewrite (M_bind_done _ _ w old w) by (by rewrite Hold).
  rewrite (M_bind_done _ _ w tt w1).
  - rewrite Hlmac. by rewrite (M_bind_done _ _ _ _ _ Hhw).
  - apply memset0_eq.
    + trans (u32 (u32 (type_entry_size t * u32 (par_num_entries params)) ≪ 2)); [by destruct t|].
      rewrite Z.shiftl_mul_pow2 by lia. subst n. rewrite Z2Nat.id by nia.
      rewrite (wrap_id 32 (par_num_entries params)) by nia.
      rewrite (wrap_id 32 (_ * par_num_entries params)), wrap_id by nia. lia.
    + apply (po_mapped _ _ _ _ Hp).
Qed.

(** The stored ring has the geometry the ring operations need. *)
Lemma setup_geometry big mmio_addr hal t params old w :
  params_ok hal t params w → srng_geometry (setup_srng big mmio_addr hal t params old).
Proof.
  intros []. destruct (setup_srng_fields big mmio_addr hal t params old)
    as (_ & _ & He & Hn & Hz & Hb & _). pose proof (type_bounds t).
  rewrite (wrap_id 32 (par_num_entries params)) in Hn, Hz by nia.
  rewrite wrap_id in Hz by nia.
  split; rewrite ?He, ?Hn, ?Hz, ?Hb; nia || lia.
Qed.
End setup_specs.

(* ------------------------------------------------------------------ *)
(** ** Theorems: setting a ring up *)

Section setup_theorems.
Context `{K : Kernel} `{BO : BitsOk}.

Lemma hp_reg_addr big mmio_addr hal t params old :
  type_dir t = HAL_SRNG_DIR_SRC →
  Source.hp_reg mmio_addr (setup_srng big mmio_addr hal t params old) =
    mmio_addr + (hal_srng_reg_base (type_ring_id t) HAL_SRNG_REG_GRP_R2 +
                 HAL_SRNG_REG_R_GROUP_OFFSET 0).
Proof.
  intros Hd. pose proof (setup_srng_pointers big mmio_addr hal t params old) as Hs.
  rewrite Hd in Hs. destruct Hs as (_ & _ & _ & _ & Hreg). unfold Source.hp_reg. rewrite Hreg.
  pose proof (type_bounds t). unfold ptr_sub, HAL_SRNG_REG_GRP_R2.
  rewrite hal_srng_reg_base_add, wrap_sub_l by lia.
  rewrite (wrap_id 32 (_ + 128 * 1)) by lia.
  match goal with |- context [mmio_addr + ?x - mmio_addr] =>
    replace (mmio_addr + x - mmio_addr) with x by lia end.
  rewrite (wrap_id 64), wrap_id by lia. change (HAL_SRNG_REG_R_GROUP_OFFSET 0) with 0. lia.
Qed.

(** The host-side state a set up source ring is in. *)
Lemma setup_initial big mmio_addr hal t params old w log :
  hal_ready hal w → params_ok hal t params w → type_dir t = HAL_SRNG_DIR_SRC →
  hw_regs mmio_addr (type_ring_id t) (hal_rdp_paddr hal + 4 * type_ring_id t)
    (setup_srng big mmio_addr hal t params old) log →
  Source.initial mmio_addr (setup_srng big mmio_addr hal t params old)
    (w <| w_mmio := w_mmio w ++ log |> <| w_mem := setup_mem hal t params (w_mem w) |>).
Proof.
  intros Hr Hp Hd Hlog.
  pose proof (setup_geometry big mmio_addr hal t params old w Hp) as Hg.
  pose proof (hp_reg_addr big mmio_addr hal t params old Hd) as Hreg.
  pose proof (setup_srng_pointers big mmio_addr hal t params old) as Hs.
  destruct (setup_srng_fields big mmio_addr hal t params old)
    as (_ & Hdir & He & Hn & Hz & Hb & _).
  rewrite Hd in Hs, Hdir. destruct Hs as (Hhp & Hct & _ & Htp & _).
  rewrite (proj1 (rdp_ptr hal w t Hr)) in Htp.
  pose proof (type_bounds t). pose proof (po_num _ _ _ _ Hp). pose proof (po_size _ _ _ _ Hp).
  rewrite (wrap_id 32 (par_num_entries params)) in Hz by nia. rewrite wrap_id in Hz by nia.
  split; cbn [w_mem w_mmio update update_with]; rewrite ?Hz, ?Hb, ?Htp.
  - split; [done|done| |].
    + pose proof (po_flags _ _ _ _ Hp) as Hf. destruct t, big; cbn; by rewrite Hf.
    + intros k Hk. rewrite Htp, Hb. apply (po_apart _ _ _ _ Hp). lia.
  - apply mapped_insert, mapped_write, (po_mapped _ _ _ _ Hp).
  - done.
  - done.
  - apply lookup_insert_eq.
  - rewrite mmio_last_app_list, Hreg. pose proof (hw_hp _ _ _ _ _ Hlog) as Hz0.
    unfold ring_reg in Hz0. by rewrite Hz0.
Qed.

(** Words and registers that setting a ring of type [t] up does not touch. *)
Record not_of (P Q : Z → Prop) (mmio_addr : Z) (hal : wireless_simu_hal) (t : hal_ring_type)
    (params : hal_srng_params) : Prop := {
  no_rdp x : P x → x ≠ rdp_word hal t;
  no_words x k : P x → 0 ≤ k < type_entry_size t * par_num_entries params →
    x ≠ par_ring_base_vaddr params + 4 * k;
  no_regs r : Q r → ¬ 0 ≤ r - (mmio_addr + 0x10000 + 256 * type_ring_id t) < 256
}.

Lemma setup_keeps P Q mmio_addr hal t params pa s w log :
  not_of P Q mmio_addr hal t params → 0 ≤ par_num_entries params →
  hw_regs mmio_addr (type_ring_id t) pa s log →
  keeps P Q w (w <| w_mmio := w_mmio w ++ log |> <| w_mem := setup_mem hal t params (w_mem w) |>).
Proof.
  intros [Hr Hw Hq] Hn Hlog. pose proof (type_bounds t). split; intros x Hx; cbn -[mmio_last].
  - unfold setup_mem. rewrite lookup_insert_ne by (by apply not_eq_sym, Hr).
    apply write_words_ne. rewrite length_replicate. intros k Hk. apply Hw; [done|lia].
  - rewrite mmio_last_app_list, mmio_last_None; [done|].
    eapply Forall_impl; [exact (hw_window _ _ _ _ _ Hlog)|]. intros [q v] (k & Hk & ->) Heq.
    cbn in Heq. apply (Hq x Hx). lia.
Qed.

Lemma setup_off_limits P Q big mmio_addr hal t params old w :
  hal_ready hal w → params_ok hal t params w → type_dir t = HAL_SRNG_DIR_SRC →
  not_of P Q mmio_addr hal t params →
  Source.off_limits mmio_addr P Q (setup_srng big mmio_addr hal t params old).
Proof.
  intros Hr Hp Hd [Hrdp Hw Hq].
  pose proof (hp_reg_addr big mmio_addr hal t params old Hd) as Hreg.
  pose proof (setup_srng_pointers big mmio_addr hal t params old) as Hs.
  destruct (setup_srng_fields big mmio_addr hal t params old) as (_ & _ & _ & _ & Hz & Hb & _).
  rewrite Hd in Hs. destruct Hs as (_ & _ & _ & Htp & _).
  rewrite (proj1 (rdp_ptr hal w t Hr)) in Htp.
  pose proof (type_bounds t). pose proof (po_num _ _ _ _ Hp). pose proof (po_size _ _ _ _ Hp).
  rewrite (wrap_id 32 (par_num_entries params)) in Hz by nia. rewrite wrap_id in Hz by nia.
  split; rewrite ?Htp, ?Hz, ?Hb, ?Hreg; [exact Hrdp|exact Hw|].
  intros r Hr' ->. apply (Hq _ Hr'). unfold HAL_SRNG_REG_GRP_R2.
  rewrite hal_srng_reg_base_add by lia. change (HAL_SRNG_REG_R_GROUP_OFFSET 0) with 0. lia.
Qed.

(** C15.  Setting up any ring type with a valid buffer succeeds.  It returns the
    type's ring id, stores the ring there and leaves every other ring alone,
    and writes registers of that ring only, from which the device reads back
    the buffer's bus address and size, the entry size, the bus address of the
    shared pointer word, the enable bit and both pointers at zero. *)
Theorem setup_programs_device big mmio_addr hal t params w :
  hal_ready hal w → params_ok hal t params w →
  ∃ s log w',
    wireless_simu_hal_srng_setup big mmio_addr hal t 0 0 params w =
      Done ((type_ring_id t,
             hal <| hal_srng_list := <[Z.to_nat (type_ring_id t) := s]> (hal_srng_list hal) |>), w') ∧
    w_mmio w' = w_mmio w ++ log ∧ ring_window mmio_addr (type_ring_id t) log ∧
    device_view mmio_addr hal t params log ∧
    srng_geometry s ∧ srng_ring_dir s = type_dir t.
Proof.
  intros Hr Hp. destruct (setup_done big mmio_addr hal t params w Hr Hp) as (old & log & _ & Hs & Hregs).
  destruct (setup_srng_fields big mmio_addr hal t params old)
    as (_ & Hdir & He & Hn & _ & _ & Hb & _).
  pose proof (type_bounds t). pose proof (po_num _ _ _ _ Hp). pose proof (po_size _ _ _ _ Hp).
  rewrite (wrap_id 32 (par_num_entries params)) in Hn by nia.
  eexists _, log, _. split_and!; [exact Hs|done|by destruct Hregs| |by eapply setup_geometry|done].
  eapply hw_regs_view; [done|apply (hr_rdp_paddr _ _ Hr)|apply (po_paddr _ _ _ _ Hp)|lia|done..].
Qed.

(** C14.  A source ring set up on a ready HAL is in the initial state of the
    ring protocol, with a zeroed buffer: all the properties of the protocol
    hold for the rings the driver really creates. *)
Theorem setup_starts_protocol big mmio_addr hal t params w :
  hal_ready hal w → params_ok hal t params w → type_dir t = HAL_SRNG_DIR_SRC →
  ∃ s hal' w',
    wireless_simu_hal_srng_setup big mmio_addr hal t 0 0 params w =
      Done ((type_ring_id t, hal'), w') ∧
    hal_srng_list hal' !! Z.to_nat (type_ring_id t) = Some s ∧
    Source.initial mmio_addr s w' ∧
    read_words (w_mem w') (par_ring_base_vaddr params)
      (Z.to_nat (type_entry_size t * par_num_entries params)) =
      Some (replicate (Z.to_nat (type_entry_size t * par_num_entries params)) 0).
Proof.
  intros Hr Hp Hd. destruct (setup_done big mmio_addr hal t params w Hr Hp)
    as (old & log & Hold & Hs & Hregs).
  eexists _, _, _. split_and!; [exact Hs| |by apply setup_initial|]; cbn [w_mem update update_with].
  - cbn. apply list_lookup_insert_eq. by eapply lookup_lt_Some.
  - unfold setup_mem. rewrite read_words_insert_ne.
    + rewrite <-(length_replicate (Z.to_nat (type_entry_size t * par_num_entries params)) 0) at 2.
      apply read_write_words, Forall_replicate. done.
    + intros j Hj Heq. apply (po_apart _ _ _ _ Hp (Z.of_nat j)); [|done].
      pose proof (type_bounds t). lia.
Qed.

(** C27.  Setting up one ring leaves every register of the other rings as it
    was: a register of ring [r] reads the same before and after. *)
Theorem setup_register_frame big mmio_addr hal t params w ret hal' w' r g n :
  hal_ready hal w → params_ok hal t params w →
  wireless_simu_hal_srng_setup big mmio_addr hal t 0 0 params w = Done ((ret, hal'), w') →
  0 ≤ r < 256 → r ≠ type_ring_id t → 0 ≤ g < 2 → 0 ≤ n < 32 →
  ring_reg mmio_addr (w_mmio w') r g n = ring_reg mmio_addr (w_mmio w) r g n ∧
  (∀ i, i ≠ Z.to_nat (type_ring_id t) → hal_srng_list hal' !! i = hal_srng_list hal !! i).
Proof.
  intros Hr Hp Hs Hrr Hne Hg Hn.
  destruct (setup_done big mmio_addr hal t params w Hr Hp) as (old & log & _ & Hs' & Hregs).
  rewrite Hs in Hs'. simplify_eq. split; [|intros i Hi; cbn; by rewrite list_lookup_insert_ne].
  rewrite !ring_reg_addr by done. cbn [w_mmio update update_with].
  rewrite mmio_last_app_list, mmio_last_None; [done|].
  eapply Forall_impl; [apply (hw_window _ _ _ _ _ Hregs)|]. intros [a v] (k & Hk & Ha).
  cbn in *. lia.
Qed.

(** The return value of [hal_srng_get_ring_id] is [-EINVAL] or an index
    inside [hal->srng_list], for every configuration entry and every ring and
    MAC number that is not negative; and [wireless_simu_hal_srng_setup] passes
    the error on and then changes neither the HAL nor the world. *)
Theorem setup_ring_id_checked big mmio_addr hal t ring_num mac_id params w :
  hal_ready hal w → 0 ≤ ring_num → 0 ≤ mac_id →
  (∀ cfg, 0 ≤ cfg_start_ring_id cfg →
     hal_srng_get_ring_id cfg ring_num mac_id = - EINVAL ∨
     is_Some (hal_srng_list hal !! Z.to_nat (hal_srng_get_ring_id cfg ring_num mac_id))) ∧
  let cfg := nth (hal_ring_type_val t) hw_srng_config_template
               (HalSrngConfig 0 0 0 (0, 0) (0, 0) false HAL_SRNG_DIR_SRC 0) in
  let id := hal_srng_get_ring_id cfg ring_num mac_id in
  (id = - EINVAL ∧ 1 ≤ ring_num ∧
   wireless_simu_hal_srng_setup big mmio_addr hal t ring_num mac_id params w =
     Done ((- EINVAL, hal), w)) ∨
  (id = type_ring_id t ∧ ring_num = 0 ∧ is_Some (hal_srng_list hal !! Z.to_nat id)).
Proof.
  intros Hr Hn Hm. split.
  { intros cfg Hc. unfold hal_srng_get_ring_id. case_decide; [by left|]. case_decide; [by left|].
    right. apply lookup_lt_is_Some. rewrite (hr_list _ _ Hr).
    unfold HAL_SRNG_RINGS_PER_LMAC, HAL_SRNG_RING_ID_LMAC1_ID_END, HAL_SRNG_RING_ID_LMAC1_ID_START in *.
    destruct (cfg_lmac_ring cfg); lia. }
  intros cfg id. pose proof (hal_get_config_ready hal w t Hr) as Hcfg. fold cfg in Hcfg.
  assert (cfg_max_rings cfg = 1) as Hmax by (by destruct t).
  destruct (decide (ring_num = 0)) as [->|].
  - right. assert (id = type_ring_id t) as Hid by (by destruct t). split_and!; [done|done|].
    apply lookup_lt_is_Some. rewrite Hid, (hr_list _ _ Hr). apply Nat.ltb_lt. by destruct t; vm_compute.
  - left. assert (id = - EINVAL) as Hid.
    { subst id. unfold hal_srng_get_ring_id. by rewrite Hmax, decide_True by lia. }
    split_and!; [done|lia|]. unfold wireless_simu_hal_srng_setup.
    rewrite (M_bind_done _ _ _ _ _ Hcfg). cbv zeta. fold id. rewrite Hid.
    by rewrite decide_True.
Qed.
End setup_theorems.
