(* ===== verification/HalInit.v ===== *)
(** * Initialisation and removal of the HAL

    Source: src/driver/driver_wireless/wireless_hal.c, functions
    [hal_srng_create_config] to [wireless_simu_hal_srng_deinit]. *)

From S2P Require Import Prelude Kernel Bits HalTypes Hif HalRing RingProtocol HalSetup.

Section hal_life.
Context `{K : Kernel}.

Definition sizeof_hal_srng_config : Z := 32.

Definition hal_srng_create_config (hal : wireless_simu_hal) : M (Z * wireless_simu_hal) :=
  p ← kmalloc (sizeof_hal_srng_config * Z.of_nat (length hw_srng_config_template));
  if decide (p = 0) then mret (- ENOMEM, hal <| hal_config_ptr := 0 |>)
  else mret (0, hal <| hal_config_ptr := p |> <| hal_config_val := hw_srng_config_template |>).

Definition sizeof_wrp : Z := 4 * HAL_SRNG_NUM_LMAC_RINGS.

Definition hal_alloc_cont_rdp (hal : wireless_simu_hal) : M (Z * wireless_simu_hal) :=
  '(v, p) ← dma_alloc_coherent sizeof_rdp;
  if decide (v = 0) then mret (- ENOMEM, hal <| hal_rdp_vaddr := 0 |>)
  else mret (0, hal <| hal_rdp_vaddr := v |> <| hal_rdp_paddr := p |>).

Definition hal_alloc_cont_wdp (hal : wireless_simu_hal) : M (Z * wireless_simu_hal) :=
  '(v, p) ← dma_alloc_coherent sizeof_wrp;
  if decide (v = 0) then mret (- ENOMEM, hal <| hal_wrp_vaddr := 0 |>)
  else mret (0, hal <| hal_wrp_vaddr := v |> <| hal_wrp_paddr := p |>).

(** The loops over all ring ids; the body of both unregisters the key. *)
Definition srng_ids : list Z := Z.of_nat <$> seq 0 (Z.to_nat HAL_SRNG_RING_ID_MAX).

Definition hal_register_srng_key (hal : wireless_simu_hal) : wireless_simu_hal :=
  foldl (λ h ring_id, h <| hal_srng_key := hal_srng_key h ∖ {[ring_id]} |>) hal srng_ids.

Definition hal_unregister_srng_key (hal : wireless_simu_hal) : wireless_simu_hal :=
  foldl (λ h ring_id, h <| hal_srng_key := hal_srng_key h ∖ {[ring_id]} |>) hal srng_ids.

Definition hal_free_cont_rdp (hal : wireless_simu_hal) : M wireless_simu_hal :=
  if decide (hal_rdp_vaddr hal = 0) then mret hal
  else dma_free_coherent sizeof_rdp (hal_rdp_vaddr hal) (hal_rdp_paddr hal);;
       mret (hal <| hal_rdp_vaddr := 0 |>).

Definition hal_free_cont_wrp (hal : wireless_simu_hal) : M wireless_simu_hal :=
  if decide (hal_wrp_vaddr hal = 0) then mret hal
  else dma_free_coherent sizeof_wrp (hal_wrp_vaddr hal) (hal_wrp_paddr hal);;
       mret (hal <| hal_wrp_vaddr := 0 |>).

Definition wireless_simu_hal_srng_init : M (Z * wireless_simu_hal) :=
  let hal := wireless_simu_hal_zero in
  '(ret, hal) ← hal_srng_create_config hal;
  if decide (ret ≠ 0) then mret (ret, hal)                     (* goto err_hal *)
  else
    '(ret, hal) ← hal_alloc_cont_rdp hal;
    if decide (ret ≠ 0) then mret (ret, hal)                   (* goto err_hal *)
    else
      '(ret, hal) ← hal_alloc_cont_wdp hal;
      if decide (ret ≠ 0)
      then hal ← hal_free_cont_rdp hal; mret (ret, hal)        (* goto err_free_cont_rdp *)
      else mret (0, hal_register_srng_key hal).

Definition wireless_simu_hal_srng_deinit (hal : wireless_simu_hal) : M wireless_simu_hal :=
  let hal := hal_unregister_srng_key hal in
  hal ← hal_free_cont_rdp hal;
  hal ← hal_free_cont_wrp hal;
  kfree (hal_config_ptr hal);;
  mret hal.
End hal_life.

(* ------------------------------------------------------------------ *)
(** ** Theorems *)

(** The lockdep keys are never registered: both loops remove. *)
Lemma foldl_key_removed l hal :
  foldl (λ h ring_id, h <| hal_srng_key := hal_srng_key h ∖ {[ring_id]} |>) hal l =
    hal <| hal_srng_key := hal_srng_key hal ∖ list_to_set l |>.
Proof.
  revert hal. induction l as [|x l IH]; intros hal; cbn.
  - rewrite difference_empty_L. by destruct hal.
  - rewrite IH. cbn. f_equal. set_solver.
Qed.

Section life_theorems.
Context `{KO : KernelOk}.

(** The HAL and the world a successful initialisation leaves. *)
Definition init_hal (c v1 p1 v2 p2 : Z) : wireless_simu_hal :=
  wireless_simu_hal_zero <| hal_config_ptr := c |> <| hal_config_val := hw_srng_config_template |>
    <| hal_rdp_vaddr := v1 |> <| hal_rdp_paddr := p1 |>
    <| hal_wrp_vaddr := v2 |> <| hal_wrp_paddr := p2 |>.
Definition config_world (c : Z) (w : world) : world := (tick w) <| w_heap := {[c]} ∪ w_heap w |>.

Lemma create_config_cases hal w :
  (hal_srng_create_config hal w = Done ((- ENOMEM, hal <| hal_config_ptr := 0 |>), tick w)) ∨
  ∃ c, c ≠ 0 ∧ c ∉ w_heap w ∧
    hal_srng_create_config hal w =
      Done ((0, hal <| hal_config_ptr := c |> <| hal_config_val := hw_srng_config_template |>),
            config_world c w).
Proof.
  unfold hal_srng_create_config, mbind, M_bind.
  destruct (kmalloc_cases (sizeof_hal_srng_config * Z.of_nat (length hw_srng_config_template)) w)
    as [->|(c & Hc & Hn & ->)].
  - left. by rewrite decide_True.
  - right. exists c. by rewrite decide_False.
Qed.

Lemma alloc_rdp_cases hal w :
  (hal_alloc_cont_rdp hal w = Done ((- ENOMEM, hal <| hal_rdp_vaddr := 0 |>), tick w)) ∨
  ∃ v p, v ≠ 0 ∧ dma_block w v p sizeof_rdp ∧
    hal_alloc_cont_rdp hal w =
      Done ((0, hal <| hal_rdp_vaddr := v |> <| hal_rdp_paddr := p |>), dma_world v p sizeof_rdp w).
Proof.
  unfold hal_alloc_cont_rdp, mbind, M_bind.
  destruct (dma_alloc_cases sizeof_rdp w) as [[p ->]|(v & p & Hv & Hb & ->)].
  - left. by rewrite decide_True.
  - right. exists v, p. by rewrite decide_False.
Qed.

Lemma alloc_wrp_cases hal w :
  (hal_alloc_cont_wdp hal w = Done ((- ENOMEM, hal <| hal_wrp_vaddr := 0 |>), tick w)) ∨
  ∃ v p, v ≠ 0 ∧ dma_block w v p sizeof_wrp ∧
    hal_alloc_cont_wdp hal w =
      Done ((0, hal <| hal_wrp_vaddr := v |> <| hal_wrp_paddr := p |>), dma_world v p sizeof_wrp w).
Proof.
  unfold hal_alloc_cont_wdp, mbind, M_bind.
  destruct (dma_alloc_cases sizeof_wrp w) as [[p ->]|(v & p & Hv & Hb & ->)].
  - left. by rewrite decide_True.
  - right. exists v, p. by rewrite decide_False.
Qed.

(** The four ways initialisation can go. *)
Lemma init_cases w :
  (∃ hal, wireless_simu_hal_srng_init w = Done ((- ENOMEM, hal), tick w)) ∨
  (∃ c hal, c ≠ 0 ∧ c ∉ w_heap w ∧ hal_config_ptr hal = c ∧
    (wireless_simu_hal_srng_init w = Done ((- ENOMEM, hal), tick (config_world c w)) ∨
     wireless_simu_hal_srng_init w = Done ((- ENOMEM, hal), tick (tick (config_world c w))))) ∨
  (∃ c v1 p1 v2 p2, c ≠ 0 ∧ c ∉ w_heap w ∧ v1 ≠ 0 ∧ v2 ≠ 0 ∧
    dma_block (config_world c w) v1 p1 sizeof_rdp ∧
    dma_block (dma_world v1 p1 sizeof_rdp (config_world c w)) v2 p2 sizeof_wrp ∧
    wireless_simu_hal_srng_init w =
      Done ((0, init_hal c v1 p1 v2 p2),
            dma_world v2 p2 sizeof_wrp (dma_world v1 p1 sizeof_rdp (config_world c w)))).
Proof.
  unfold wireless_simu_hal_srng_init.
  destruct (create_config_cases wireless_simu_hal_zero w) as [Hc|(c & Hc & Hn & Ec)].
  { left. rewrite (M_bind_done _ _ _ _ _ Hc). eexists. by rewrite decide_True. }
  right. rewrite (M_bind_done _ _ _ _ _ Ec), decide_False by (intros H; by apply H).
  destruct (alloc_rdp_cases (wireless_simu_hal_zero <| hal_config_ptr := c |>
    <| hal_config_val := hw_srng_config_template |>) (config_world c w))
    as [E1|(v1 & p1 & Hv1 & Hb1 & E1)]; rewrite (M_bind_done _ _ _ _ _ E1).
  { left. exists c. eexists. split_and!; [done|done| |left; by rewrite decide_True]. done. }
  rewrite decide_False by (intros H; by apply H).
  match goal with |- context [hal_alloc_cont_wdp ?h ≫= _] => set (hal1 := h) end.
  destruct (alloc_wrp_cases hal1 (dma_world v1 p1 sizeof_rdp (config_world c w)))
    as [E2|(v2 & p2 & Hv2 & Hb2 & E2)].
  - left. exists c, (hal1 <| hal_wrp_vaddr := 0 |> <| hal_rdp_vaddr := 0 |>).
    split_and!; [done..|right].
    rewrite (M_bind_done _ _ _ _ _ E2), decide_True by done.
    rewrite (M_bind_done _ _ _ (hal1 <| hal_wrp_vaddr := 0 |> <| hal_rdp_vaddr := 0 |>)
      (tick (tick (config_world c w)))); [done|].
    unfold hal_free_cont_rdp. rewrite decide_False by done.
    by rewrite (M_bind_done _ _ _ _ _ (dma_world_free _ _ _ _
      (tick (dma_world v1 p1 sizeof_rdp (config_world c w))) Hb1 eq_refl eq_refl)).
  - right. exists c, v1, p1, v2, p2. split_and!; try done.
    rewrite (M_bind_done _ _ _ _ _ E2), decide_False by (intros H; by apply H).
    unfold hal_register_srng_key. rewrite foldl_key_removed.
    done.
Qed.
(** A successful initialisation leaves a HAL that can set rings up. *)
Lemma init_hal_ready c v1 p1 v2 p2 w :
  c ≠ 0 → dma_block (config_world c w) v1 p1 sizeof_rdp →
  hal_ready (init_hal c v1 p1 v2 p2)
    (dma_world v2 p2 sizeof_wrp (dma_world v1 p1 sizeof_rdp (config_world c w))).
Proof.
  intros Hc [(Hv & Hvt & Hp & Hpt) _ _ _]. split; cbn -[sizeof_rdp].
  - split; [done|set_solver].
  - done.
  - done.
  - done.
  - done.
  - intros k Hk. apply map_region_is_Some. apply (map_region_mapped _ _ _ _ (Z.to_nat HAL_SRNG_RING_ID_MAX)); [|done].
    unfold sizeof_rdp. by vm_compute.
Qed.

(** C24.  Initialisation either succeeds - and then the HAL is ready to set
    rings up, owns one new heap block and two new coherent regions, and has
    written no register - or returns [-ENOMEM], with memory and the coherent
    regions as they were before; only the block of [srng_config] may then stay
    allocated (the labels [err_hal] and [err_free_cont_rdp] do not free it). *)
Theorem srng_init_outcome w :
  ∃ ret hal w', wireless_simu_hal_srng_init w = Done ((ret, hal), w') ∧
    w_mmio w' = w_mmio w ∧
    ((ret = 0 ∧ hal_ready hal w' ∧
      w_heap w' = {[hal_config_ptr hal]} ∪ w_heap w ∧ hal_config_ptr hal ∉ w_heap w ∧
      dom (w_dma w') = {[hal_rdp_vaddr hal; hal_wrp_vaddr hal]} ∪ dom (w_dma w)) ∨
     (ret = - ENOMEM ∧ w_dma w' = w_dma w ∧ w_mem w' = w_mem w ∧
      (w_heap w' = w_heap w ∨
       hal_config_ptr hal ∉ w_heap w ∧ w_heap w' = {[hal_config_ptr hal]} ∪ w_heap w))).
Proof.
  destruct (init_cases w) as [[hal E]|[(c & hal & Hc & Hn & <- & [E|E])|
    (c & v1 & p1 & v2 & p2 & Hc & Hn & Hv1 & Hv2 & Hb1 & Hb2 & E)]];
    eexists _, _, _; (split; [exact E|]); (split; [done|]).
  - right. by split_and!; [..|left].
  - right. by split_and!; [..|right].
  - right. by split_and!; [..|right].
  - left. split_and!; [done|by apply init_hal_ready|done|done|].
    cbn. rewrite !dom_insert_L. set_solver.
Qed.

Lemma free_rdp_eq hal w : hal_rdp_vaddr hal ≠ 0 →
  w_dma w !! hal_rdp_vaddr hal = Some (sizeof_rdp, hal_rdp_paddr hal) →
  hal_free_cont_rdp hal w = Done (hal <| hal_rdp_vaddr := 0 |>,
    w <| w_dma := delete (hal_rdp_vaddr hal) (w_dma w) |>
      <| w_mem := unmap_region (hal_rdp_vaddr hal) sizeof_rdp (w_mem w) |>).
Proof.
  intros Hz Hd. unfold hal_free_cont_rdp. rewrite decide_False by done.
  by rewrite (M_bind_done _ _ _ _ _ (dma_free_eq _ _ _ _ Hd)).
Qed.

Lemma free_wrp_eq hal w : hal_wrp_vaddr hal ≠ 0 →
  w_dma w !! hal_wrp_vaddr hal = Some (sizeof_wrp, hal_wrp_paddr hal) →
  hal_free_cont_wrp hal w = Done (hal <| hal_wrp_vaddr := 0 |>,
    w <| w_dma := delete (hal_wrp_vaddr hal) (w_dma w) |>
      <| w_mem := unmap_region (hal_wrp_vaddr hal) sizeof_wrp (w_mem w) |>).
Proof.
  intros Hz Hd. unfold hal_free_cont_wrp. rewrite decide_False by done.
  by rewrite (M_bind_done _ _ _ _ _ (dma_free_eq _ _ _ _ Hd)).
Qed.

(** C22.  Removing the HAL gives back all that initialisation took: after a
    successful [wireless_simu_hal_srng_init], [wireless_simu_hal_srng_deinit]
    does not fault and leaves the heap, the coherent regions and memory
    exactly as they were before, whatever the kernel answered. *)
Theorem srng_init_deinit w hal w1 :
  wireless_simu_hal_srng_init w = Done ((0, hal), w1) →
  ∃ hal' w2, wireless_simu_hal_srng_deinit hal w1 = Done (hal', w2) ∧
    w_heap w2 = w_heap w ∧ w_dma w2 = w_dma w ∧ w_mem w2 = w_mem w ∧
    hal_rdp_vaddr hal' = 0 ∧ hal_wrp_vaddr hal' = 0.
Proof.
  intros Hi. destruct (init_cases w) as [[h E]|[(c & h & Hc & Hn & <- & [E|E])|
    (c & v1 & p1 & v2 & p2 & Hc & Hn & Hv1 & Hv2 & Hb1 & Hb2 & E)]];
    rewrite E in Hi; simplify_eq.
  set (hal0 := init_hal c v1 p1 v2 p2).
  exists (hal0 <| hal_rdp_vaddr := 0 |> <| hal_wrp_vaddr := 0 |>). eexists.
  destruct Hb1 as [_ _ Hd1 Hm1], Hb2 as [_ _ Hd2 Hm2].
  cbn -[map_region sizeof_rdp sizeof_wrp] in Hd1, Hd2, Hm1, Hm2.
  assert (v1 ≠ v2) as Hne by (intros ->; by rewrite lookup_insert_eq in Hd2).
  rewrite lookup_insert_ne in Hd2 by done.
  split.
  - unfold wireless_simu_hal_srng_deinit.
    replace (hal_unregister_srng_key hal0) with hal0 by done.
    erewrite M_bind_done; [|apply free_rdp_eq; [done|]; cbn; by rewrite lookup_insert_ne, lookup_insert_eq].
    erewrite M_bind_done; [|apply free_wrp_eq; [done|]; cbn; by rewrite lookup_delete_ne, lookup_insert_eq].
    erewrite M_bind_done; [|apply kfree_eq; [done|]; cbn; apply elem_of_union_l; by apply elem_of_singleton]. reflexivity.
  - cbn -[map_region unmap_region sizeof_rdp sizeof_wrp]. split_and!; [set_solver|..|done|done].
    + rewrite delete_insert_ne by done. rewrite (delete_insert_id (w_dma w)) by done.
      by rewrite delete_insert_id.
    + rewrite unmap_map_map_region by done. apply unmap_map_region. intros a Ha.
      specialize (Hm2 a Ha). rewrite lookup_map_region in Hm2. by case_decide.
Qed.
End life_theorems.
