(* ===== verification/Skb.v ===== *)
(** * Socket buffers

    The driver moves frames in the kernel's [struct sk_buff].  The kernel's
    functions on it are parameters: class [SkbApi] holds them, [SkbOk] their
    documented behaviour (Documentation/networking/skbuff.rst and the
    kernel-doc of include/linux/skbuff.h), [linear_skb] is one concrete
    implementation.  [sk_buff] adds the driver's control block
    (src/driver/driver_wireless/wireless_mac80211.h,
    [struct wireless_simu_skb_cb]); the buffers in use live in a store indexed
    by their pointers. *)

From S2P Require Import Prelude Kernel.

Class SkbApi := {
  skb : Type;
  skb_new : Z → skb;                    (* what dev_alloc_skb(size) yields *)
  skb_data : skb → list Z;              (* the bytes from data to tail *)
  skb_headroom : skb → Z;
  skb_tailroom : skb → Z;
  skb_reserve : Z → skb → skb;
  skb_put : Z → skb → option skb;       (* None: skb_over_panic *)
  skb_push : Z → skb → option skb;      (* None: skb_under_panic *)
  skb_pull : Z → skb → option skb;      (* None: NULL, nothing pulled *)
  skb_write : nat → list Z → skb → skb; (* memcpy(skb->data + off, ...) *)
  k_alloc_skb : world → gset Z → Z → Z; (* pointer, given those in use *)
  k_skb_addr : Z → skb → Z;             (* skb->data *)
}.

(** [skb->len] *)
Definition skb_len `{SkbApi} (s : skb) : Z := Z.of_nat (length (skb_data s)).

Class SkbOk `{SA : SkbApi} : Prop := {
  skb_new_spec n : 0 ≤ n → skb_data (skb_new n) = [] ∧ 0 ≤ skb_headroom (skb_new n) ∧
    n ≤ skb_tailroom (skb_new n);
  skb_reserve_spec n s : 0 ≤ n ≤ skb_tailroom s → skb_data s = [] →
    skb_data (skb_reserve n s) = [] ∧
    skb_headroom (skb_reserve n s) = skb_headroom s + n ∧
    skb_tailroom (skb_reserve n s) = skb_tailroom s - n;
  skb_put_spec n s : 0 ≤ n ≤ skb_tailroom s →
    ∃ s' t, skb_put n s = Some s' ∧ skb_data s' = skb_data s ++ t ∧ Z.of_nat (length t) = n ∧
      skb_headroom s' = skb_headroom s ∧ skb_tailroom s' = skb_tailroom s - n;
  skb_put_panic n s : skb_tailroom s < n → skb_put n s = None;
  skb_push_spec n s : 0 ≤ n ≤ skb_headroom s →
    ∃ s' t, skb_push n s = Some s' ∧ skb_data s' = t ++ skb_data s ∧ Z.of_nat (length t) = n ∧
      skb_headroom s' = skb_headroom s - n ∧ skb_tailroom s' = skb_tailroom s;
  skb_push_panic n s : skb_headroom s < n → skb_push n s = None;
  skb_pull_spec n s : 0 ≤ n ≤ skb_len s →
    ∃ s', skb_pull n s = Some s' ∧ skb_data s' = drop (Z.to_nat n) (skb_data s) ∧
      skb_headroom s' = skb_headroom s + n ∧ skb_tailroom s' = skb_tailroom s;
  skb_pull_short n s : skb_len s < n → skb_pull n s = None;
  skb_write_spec off bs s : (off + length bs ≤ length (skb_data s))%nat →
    skb_data (skb_write off bs s) =
      take off (skb_data s) ++ bs ++ drop (off + length bs) (skb_data s) ∧
    skb_headroom (skb_write off bs s) = skb_headroom s ∧
    skb_tailroom (skb_write off bs s) = skb_tailroom s;
  skb_alloc_fresh w used n : k_alloc_skb w used n ≠ 0 → k_alloc_skb w used n ∉ used;
}.

(* ------------------------------------------------------------------ *)
(** ** One concrete implementation *)

Record linear := Linear { lin_head : Z; lin_data : list Z; lin_tail : Z }.

(** The headroom [NET_SKB_PAD] that [dev_alloc_skb] reserves. *)
Definition NET_SKB_PAD : Z := 64.

#[local] Instance linear_skb : SkbApi := {
  skb := linear;
  skb_new n := Linear NET_SKB_PAD [] n;
  skb_data := lin_data;
  skb_headroom := lin_head;
  skb_tailroom := lin_tail;
  skb_reserve n s := Linear (lin_head s + n) (lin_data s) (lin_tail s - n);
  skb_put n s := if decide (n ≤ lin_tail s)
    then Some (Linear (lin_head s) (lin_data s ++ replicate (Z.to_nat n) 0) (lin_tail s - n))
    else None;
  skb_push n s := if decide (n ≤ lin_head s)
    then Some (Linear (lin_head s - n) (replicate (Z.to_nat n) 0 ++ lin_data s) (lin_tail s))
    else None;
  skb_pull n s := if decide (n ≤ Z.of_nat (length (lin_data s)))
    then Some (Linear (lin_head s + n) (drop (Z.to_nat n) (lin_data s)) (lin_tail s))
    else None;
  skb_write off bs s := Linear (lin_head s)
    (take off (lin_data s) ++ bs ++ drop (off + length bs) (lin_data s)) (lin_tail s);
  k_alloc_skb _ used _ := 1 + max_key (elements used);
  k_skb_addr p s := p + lin_head s;
}.

#[local] Instance linear_skb_ok : SkbOk.
Proof.
  split; cbn.
  - intros n Hn. unfold NET_SKB_PAD. split_and!; [done|lia|lia].
  - intros n s Hn Hd. done.
  - intros n s Hn. rewrite decide_True by lia. eexists _, _. split; [done|]. cbn.
    rewrite length_replicate. split_and!; [done|lia|done|done].
  - intros n s Hn. by rewrite decide_False by lia.
  - intros n s Hn. rewrite decide_True by lia. eexists _, _. split; [done|]. cbn.
    rewrite length_replicate. split_and!; [done|lia|done|done].
  - intros n s Hn. by rewrite decide_False by lia.
  - unfold skb_len. cbn. intros n s Hn. rewrite decide_True by lia. by eexists.
  - unfold skb_len. cbn. intros n s Hn. by rewrite decide_False by lia.
  - done.
  - intros w used n _ Hin%elem_of_elements%max_key_le. lia.
Qed.

(* ------------------------------------------------------------------ *)
(** ** The driver's buffers *)

(** [struct wireless_simu_skb_cb]; [cb_vif] is a pointer. *)
Record wireless_simu_skb_cb := SkbCb {
  cb_paddr : Z;
  cb_flags : Z;
  cb_cipher : Z;
  cb_vif : Z
}.
#[export] Instance eta_skb_cb : Eta wireless_simu_skb_cb := MkEta (λ c,
  SkbCb (cb_paddr c) (cb_flags c) (cb_cipher c) (cb_vif c)).
Definition skb_cb_zero : wireless_simu_skb_cb := SkbCb 0 0 0 0.

(** [sb_info_flags] is [IEEE80211_SKB_CB(skb)->flags], which lies before the
    control block. *)
Record sk_buff `{SA : SkbApi} := SkBuff {
  sb_buf : skb;
  sb_cb : wireless_simu_skb_cb;
  sb_info_flags : Z
}.
#[export] Instance eta_sk_buff `{SA : SkbApi} : Eta sk_buff :=
  MkEta (λ b, SkBuff SA (sb_buf b) (sb_cb b) (sb_info_flags b)).
Arguments SkBuff {_} _ _ _.

(** The store: buffers by pointer. *)
Abbreviation skbs := (gmap Z sk_buff).

Section store.
Context `{SA : SkbApi}.

Definition get_skb (store : skbs) (p : Z) : M sk_buff :=
  of_option (if decide (p = 0) then NullDeref else Unmapped) (store !! p).

(** [dev_alloc_skb(size)] *)
Definition dev_alloc_skb (store : skbs) (size : Z) : M (Z * skbs) := λ w,
  let p := k_alloc_skb w (dom store) size in
  Done ((p, if decide (p = 0) then store
            else <[p := SkBuff (skb_new size) skb_cb_zero 0]> store), tick w).

(** [dev_kfree_skb_any(skb)] *)
Definition dev_kfree_skb_any (store : skbs) (p : Z) : M skbs :=
  if decide (p ∈ dom store) then mret (delete p store) else fail BadFree.

(** [skb_put(skb, n)] on a buffer of the store. *)
Definition do_skb_put (store : skbs) (p n : Z) : M skbs :=
  b ← get_skb store p;
  s ← of_option SkbPanic (skb_put n (sb_buf b));
  mret (<[p := b <| sb_buf := s |>]> store).
Definition do_skb_push (store : skbs) (p n : Z) : M skbs :=
  b ← get_skb store p;
  s ← of_option SkbPanic (skb_push n (sb_buf b));
  mret (<[p := b <| sb_buf := s |>]> store).
Definition do_skb_pull (store : skbs) (p n : Z) : M skbs :=
  b ← get_skb store p;
  mret match skb_pull n (sb_buf b) with
       | Some s => <[p := b <| sb_buf := s |>]> store
       | None => store
       end.
Definition do_skb_reserve (store : skbs) (p n : Z) : M skbs :=
  b ← get_skb store p;
  mret (<[p := b <| sb_buf := skb_reserve n (sb_buf b) |>]> store).
(** [memcpy(skb->data + off, bs)]; outside the data it is a wild write. *)
Definition do_skb_write (store : skbs) (p : Z) (off : nat) (bs : list Z) : M skbs :=
  b ← get_skb store p;
  if decide (off + length bs ≤ length (skb_data (sb_buf b)))%nat
  then mret (<[p := b <| sb_buf := skb_write off bs (sb_buf b) |>]> store)
  else fail OutOfBounds.
Definition set_cb (store : skbs) (p : Z) (f : wireless_simu_skb_cb → wireless_simu_skb_cb) : M skbs :=
  b ← get_skb store p;
  mret (<[p := b <| sb_cb := f (sb_cb b) |>]> store).

(* ------------------------------------------------------------------ *)
(** ** Outcomes *)

Context `{SO : !SkbOk}.

Lemma dev_alloc_skb_cases (store : skbs) n w :
  dev_alloc_skb store n w = Done ((0, store), tick w) ∨
  ∃ p, p ≠ 0 ∧ store !! p = None ∧
    dev_alloc_skb store n w = Done ((p, <[p := SkBuff (skb_new n) skb_cb_zero 0]> store), tick w).
Proof.
  unfold dev_alloc_skb. destruct (decide (k_alloc_skb w (dom store) n = 0)) as [Hz|Hz].
  - left. by rewrite Hz.
  - right. exists (k_alloc_skb w (dom store) n). split_and!; [done| |done].
    apply not_elem_of_dom. by apply skb_alloc_fresh.
Qed.

Lemma skb_put_done (store : skbs) p b n w :
  store !! p = Some b → 0 ≤ n ≤ skb_tailroom (sb_buf b) →
  ∃ b' t, do_skb_put store p n w = Done (<[p := b']> store, w) ∧ sb_cb b' = sb_cb b ∧
    skb_data (sb_buf b') = skb_data (sb_buf b) ++ t ∧ Z.of_nat (length t) = n ∧
    skb_headroom (sb_buf b') = skb_headroom (sb_buf b).
Proof.
  intros Hb Hn. destruct (skb_put_spec n (sb_buf b) Hn) as (s' & t & E & Hd & Ht & Hh & _).
  exists (b <| sb_buf := s' |>), t. split_and!; try done.
  unfold do_skb_put, get_skb. rewrite Hb, (M_bind_done _ _ w b w) by done. by rewrite E.
Qed.

(** Overwriting bytes of a buffer keeps its length. *)
Lemma skb_write_done (store : skbs) p b off bs w :
  store !! p = Some b → (off + length bs ≤ length (skb_data (sb_buf b)))%nat →
  ∃ b', do_skb_write store p off bs w = Done (<[p := b']> store, w) ∧ sb_cb b' = sb_cb b ∧
    skb_data (sb_buf b') =
      take off (skb_data (sb_buf b)) ++ bs ++ drop (off + length bs) (skb_data (sb_buf b)) ∧
    length (skb_data (sb_buf b')) = length (skb_data (sb_buf b)) ∧
    skb_headroom (sb_buf b') = skb_headroom (sb_buf b).
Proof.
  intros Hb Hlen. destruct (skb_write_spec off bs (sb_buf b) Hlen) as (Hd & Hh & _).
  exists (b <| sb_buf := skb_write off bs (sb_buf b) |>). split_and!; try done.
  - unfold do_skb_write, get_skb. rewrite Hb, (M_bind_done _ _ w b w) by done. by rewrite decide_True.
  - cbn. rewrite Hd, !length_app, length_take, length_drop. lia.
Qed.

(** A new buffer of [n] bytes with all of them put. *)
Lemma skb_new_put p n (store : skbs) w : 0 ≤ n →
  ∃ b, do_skb_put (<[p := SkBuff (skb_new n) skb_cb_zero 0]> store) p n w = Done (<[p := b]> store, w) ∧
    Z.of_nat (length (skb_data (sb_buf b))) = n ∧ sb_cb b = skb_cb_zero.
Proof.
  intros Hn. destruct (skb_new_spec n Hn) as (Hd & _ & Ht).
  destruct (skb_put_done (<[p := SkBuff (skb_new n) skb_cb_zero 0]> store) p
    (SkBuff (skb_new n) skb_cb_zero 0) n w) as (b & t & E & Hcb & Hdt & Hlen & _);
    [apply lookup_insert_eq|done|].
  exists b. rewrite insert_insert_eq in E. split_and!; [done| |done].
  cbn in Hdt. by rewrite Hdt, Hd.
Qed.

Lemma get_skb_done (store : skbs) p b w : store !! p = Some b → get_skb store p w = Done (b, w).
Proof. intros H. unfold get_skb. by rewrite H. Qed.

Lemma set_cb_done (store : skbs) p b f w : store !! p = Some b →
  set_cb store p f w = Done (<[p := b <| sb_cb := f (sb_cb b) |>]> store, w).
Proof. intros H. unfold set_cb. by rewrite (M_bind_done _ _ _ _ _ (get_skb_done _ _ _ _ H)). Qed.

Lemma kfree_skb_done (store : skbs) p b w : store !! p = Some b →
  dev_kfree_skb_any store p w = Done (delete p store, w).
Proof.
  intros H. unfold dev_kfree_skb_any. rewrite decide_True; [done|]. apply elem_of_dom. by rewrite H.
Qed.

(* ------------------------------------------------------------------ *)
(** ** Building a message in a buffer *)

(** The buffer holds the bytes [d], with at least [h] bytes before them and at
    least [t] behind. *)
Record holds (b : sk_buff) (c : wireless_simu_skb_cb) (d : list Z) (h t : Z) : Prop := {
  ho_cb : sb_cb b = c;
  ho_data : skb_data (sb_buf b) = d;
  ho_head : h ≤ skb_headroom (sb_buf b);
  ho_tail : t ≤ skb_tailroom (sb_buf b)
}.

Lemma skb_new_holds n : 0 ≤ n → holds (SkBuff (skb_new n) skb_cb_zero 0) skb_cb_zero [] 0 n.
Proof. intros Hn. by destruct (skb_new_spec n Hn) as (? & ? & ?). Qed.

Section operations.
Context (store : skbs) (p : Z) (b : sk_buff) (c : wireless_simu_skb_cb) (d : list Z) (h t : Z) (w : world).
Hypothesis (Hb : holds b c d h t).

(** The store after an operation holds [b'] at [p]. *)
Definition becomes (r : res (skbs * world)) (c' : wireless_simu_skb_cb) (d' : list Z) (h' t' : Z) : Prop :=
  ∃ b', r = Done (<[p := b']> store, w) ∧ holds b' c' d' h' t'.

Lemma get_skb_here : get_skb (<[p := b]> store) p w = Done (b, w).
Proof. apply get_skb_done, lookup_insert_eq. Qed.

Lemma reserve_holds n : d = [] → 0 ≤ n ≤ t →
  becomes (do_skb_reserve (<[p := b]> store) p n w) c [] (h + n) (t - n).
Proof.
  intros -> Hn. destruct Hb as [Hc Hd Hh Ht].
  destruct (skb_reserve_spec n (sb_buf b)) as (Hd' & Hh' & Ht'); [lia|done|].
  exists (b <| sb_buf := skb_reserve n (sb_buf b) |>). split; [|split]; [|done|done|cbn; lia..].
  unfold do_skb_reserve. by rewrite (M_bind_done _ _ _ _ _ get_skb_here), insert_insert_eq.
Qed.

Lemma put_holds n : 0 ≤ n ≤ t → ∃ e, Z.of_nat (length e) = n ∧
  becomes (do_skb_put (<[p := b]> store) p n w) c (d ++ e) h (t - n).
Proof.
  intros Hn. destruct Hb as [Hc Hd Hh Ht].
  destruct (skb_put_spec n (sb_buf b)) as (s' & e & E & Hd' & He & Hh' & Ht'); [lia|].
  exists e. split; [done|]. exists (b <| sb_buf := s' |>). split; [|split]; [|done|by rewrite <-Hd, <-Hd'|cbn; lia..].
  unfold do_skb_put. rewrite (M_bind_done _ _ _ _ _ get_skb_here), E.
  by rewrite (M_bind_done _ _ w s' w), insert_insert_eq by done.
Qed.

Lemma push_holds n : 0 ≤ n ≤ h → ∃ e, Z.of_nat (length e) = n ∧
  becomes (do_skb_push (<[p := b]> store) p n w) c (e ++ d) (h - n) t.
Proof.
  intros Hn. destruct Hb as [Hc Hd Hh Ht].
  destruct (skb_push_spec n (sb_buf b)) as (s' & e & E & Hd' & He & Hh' & Ht'); [lia|].
  exists e. split; [done|]. exists (b <| sb_buf := s' |>). split; [|split]; [|done|by rewrite <-Hd, <-Hd'|cbn; lia..].
  unfold do_skb_push. rewrite (M_bind_done _ _ _ _ _ get_skb_here), E.
  by rewrite (M_bind_done _ _ w s' w), insert_insert_eq by done.
Qed.

Lemma pull_holds n d1 d2 : d = d1 ++ d2 → Z.of_nat (length d1) = n →
  becomes (do_skb_pull (<[p := b]> store) p n w) c d2 (h + n) t.
Proof.
  intros Hsplit Hn. destruct Hb as [Hc Hd Hh Ht].
  destruct (skb_pull_spec n (sb_buf b)) as (s' & E & Hd' & Hh' & Ht').
  { unfold skb_len. rewrite Hd, Hsplit, length_app. lia. }
  exists (b <| sb_buf := s' |>). split; [|split]; [|done| |cbn; lia..].
  - unfold do_skb_pull. by rewrite (M_bind_done _ _ _ _ _ get_skb_here), E, insert_insert_eq.
  - cbn. rewrite Hd', Hd, Hsplit, <-Hn, Nat2Z.id. apply drop_app_length.
Qed.

(** Overwriting the bytes [x] at [off]. *)
Lemma write_holds off d1 x d2 bs : d = d1 ++ x ++ d2 → length d1 = off → length x = length bs →
  becomes (do_skb_write (<[p := b]> store) p off bs w) c (d1 ++ bs ++ d2) h t.
Proof.
  intros Hsplit Ho Hx. destruct Hb as [Hc Hd Hh Ht].
  destruct (skb_write_spec off bs (sb_buf b)) as (Hd' & Hh' & Ht').
  { rewrite Hd, Hsplit, !length_app. lia. }
  exists (b <| sb_buf := skb_write off bs (sb_buf b) |>). split; [|split]; [|done| |cbn; lia..].
  - unfold do_skb_write. rewrite (M_bind_done _ _ _ _ _ get_skb_here), decide_True, insert_insert_eq; [done|].
    rewrite Hd, Hsplit, !length_app. lia.
  - cbn. rewrite Hd', Hd, Hsplit. subst off. rewrite take_app_length. f_equal. f_equal.
    rewrite (app_assoc d1 x d2). rewrite <-Hx, <-length_app. apply drop_app_length.
Qed.

Lemma set_cb_holds f : becomes (set_cb (<[p := b]> store) p f w) (f c) d h t.
Proof.
  destruct Hb as [Hc Hd Hh Ht]. exists (b <| sb_cb := f (sb_cb b) |>). split; [|split]; [|cbn; by rewrite Hc|done..].
  by rewrite (set_cb_done _ p b _ _ (lookup_insert_eq _ _ _)), insert_insert_eq.
Qed.
End operations.
End store.
