(* ===== verification/SrngTest.v ===== *)
(** * The test module: pipes, descriptor rings and sending

    Source: src/driver/driver_wireless/wireless_hal.c, functions
    [hal_srng_test_alloc_ring] to [wireless_simu_hal_srng_test], with the
    structures [srng_test_attr] to [srng_test] of wireless_hal.h.  The
    structures are passed and returned; the [priv] they point back to is the
    [wireless_simu_hal] argument.  The callbacks [recv_cb] and [send_cb] are
    never set nor called and are left out, as is [timestamp]. *)

From S2P Require Import Prelude Kernel Bits HalTypes Hif HalRing RingProtocol HalSetup HalInit Skb.

Definition SRNG_TEST_DESC_RING_ALIGN : Z := 8.
Definition SRNG_TEST_PIPE_COUNT_MAX : nat := 1.
Definition CE_ATTR_DIS_INTR : Z := 8.

Record srng_test_attr := SrngTestAttr {
  attr_flags : Z;
  attr_src_nentries : Z;
  attr_src_sz_max : Z;
  attr_dest_nentries : Z
}.

Definition srng_test_configs : list srng_test_attr := [SrngTestAttr 0 32 2048 0].
Definition srng_test_dst_configs : list srng_test_attr := [SrngTestAttr 0 0 2048 32].

(** [tr_ptr] is the kmalloc address of the structure. *)
Record srng_test_ring := SrngTestRing {
  tr_ptr : Z;
  tr_nentries : Z;
  tr_nentries_mask : Z;
  tr_sw_index : Z;
  tr_write_index : Z;
  tr_base_addr_owner_space_unaligned : Z;
  tr_base_addr_test_space_unaligned : Z;
  tr_dma_size : Z;
  tr_base_addr_owner_space : Z;
  tr_base_addr_test_space : Z;
  tr_hal_ring_id : Z;
  tr_skb : list Z                        (* pointers, 0 is NULL *)
}.
#[export] Instance eta_srng_test_ring : Eta srng_test_ring := MkEta (λ r,
  SrngTestRing (tr_ptr r) (tr_nentries r) (tr_nentries_mask r) (tr_sw_index r)
    (tr_write_index r) (tr_base_addr_owner_space_unaligned r)
    (tr_base_addr_test_space_unaligned r) (tr_dma_size r) (tr_base_addr_owner_space r)
    (tr_base_addr_test_space r) (tr_hal_ring_id r) (tr_skb r)).

Record srng_test_pipe := SrngTestPipe {
  pipe_num : Z;
  pipe_attr_flags : Z;
  pipe_buf_sz : Z;
  pipe_rx_buf_needed : Z;
  pipe_intr_tq : bool;                   (* tasklet scheduled? *)
  pipe_src_ring : option srng_test_ring;
  pipe_dst_ring : option srng_test_ring;
  pipe_status_ring : option srng_test_ring
}.
#[export] Instance eta_srng_test_pipe : Eta srng_test_pipe := MkEta (λ p,
  SrngTestPipe (pipe_num p) (pipe_attr_flags p) (pipe_buf_sz p) (pipe_rx_buf_needed p)
    (pipe_intr_tq p) (pipe_src_ring p) (pipe_dst_ring p) (pipe_status_ring p)).

Record srng_test := SrngTest {
  st_pipes_count : Z;
  st_pipes : list srng_test_pipe;
  st_config_ptr : Z;                     (* st->host_config *)
  st_config_val : list srng_test_attr;   (* what it points to *)
  st_lock : bool;                        (* srng_test_lock *)
  st_rx_replenish_retry : option Z       (* pending timer: expiry *)
}.
#[export] Instance eta_srng_test : Eta srng_test := MkEta (λ s,
  SrngTest (st_pipes_count s) (st_pipes s) (st_config_ptr s) (st_config_val s) (st_lock s)
    (st_rx_replenish_retry s)).

(** The structures cleared by [memset] (or by the allocation of [priv]). *)
Definition srng_test_pipe_zero : srng_test_pipe := SrngTestPipe 0 0 0 0 false None None None.
Definition srng_test_zero : srng_test :=
  SrngTest 0 (replicate SRNG_TEST_PIPE_COUNT_MAX srng_test_pipe_zero) 0 [] false None.

(** Assignments through [&st->pipes[id]]. *)
Definition put_pipe (st : srng_test) (id : nat) (pipe : srng_test_pipe) : srng_test :=
  st <| st_pipes := <[id := pipe]> (st_pipes st) |>.

(* ------------------------------------------------------------------ *)
(** ** Descriptors *)

Section descriptors.
Context `{B : Bits} `{SA : SkbApi}.

Definition wireless_simu_hal_srng_test_src_set_desc (b : sk_buff) (id byte_swap_data write_index : Z)
    : hal_test_sw2hw :=
  let paddr := cb_paddr (sb_cb b) in
  HalTestSw2hw
    (u32 (Z.land paddr HAL_ADDR_LSB_REG_MASK))
    (u32 (Z.lor (Z.lor (Z.lor
      (FIELD_PREP (GENMASK 7 0) (paddr ≫ HAL_ADDR_MSB_REG_SHIFT))
      (FIELD_PREP (BIT 9) byte_swap_data))
      (FIELD_PREP (BIT 11) 0))
      (FIELD_PREP (GENMASK 31 16) (skb_len (sb_buf b)))))
    (u32 (FIELD_PREP (GENMASK 15 0) id))
    (u32 write_index)
    0x114514ff.

Definition wireless_simu_test_dst_set_desc (paddr : Z) : hal_test_dst :=
  HalTestDst
    (u32 (Z.land paddr HAL_ADDR_LSB_REG_MASK))
    (u32 (FIELD_PREP (GENMASK 7 0) (paddr ≫ HAL_ADDR_MSB_REG_SHIFT)))
    0x114514aa.
End descriptors.

(* ------------------------------------------------------------------ *)
(** ** Allocating and freeing pipes *)

Section pipes.
Context `{K : Kernel} `{B : Bits}.

(** [struct_size(ring, skb, nentries)] on a 64-bit machine. *)
Definition sizeof_srng_test_ring (nentries : Z) : Z := 64 + 8 * nentries.

(** [inl] is [ERR_PTR]. *)
Definition hal_srng_test_alloc_ring (nentries desc_sz : Z) : M (Z + srng_test_ring) :=
  ring ← kmalloc (sizeof_srng_test_ring nentries);
  if decide (ring = 0) then mret (inl (- ENOMEM))
  else
    let dma_size := s32 (nentries * desc_sz + SRNG_TEST_DESC_RING_ALIGN) in
    '(base, base_addr) ← dma_alloc_coherent dma_size;
    if decide (base = 0) then kfree ring;; mret (inl (- ENOMEM))
    else
      memset0 base dma_size;;
      mret (inr (SrngTestRing ring (u32 nentries) (u32 (nentries - 1)) 0 0 base base_addr dma_size
        (ALIGN base SRNG_TEST_DESC_RING_ALIGN) (ALIGN base_addr SRNG_TEST_DESC_RING_ALIGN) 0
        (replicate (Z.to_nat nentries) 0))).

(** Freeing one ring of a pipe: its descriptors, then the structure. *)
Definition free_ring (dma_size : Z) (ring : srng_test_ring) : M unit :=
  dma_free_coherent dma_size (tr_base_addr_owner_space_unaligned ring)
    (tr_base_addr_test_space_unaligned ring);;
  kfree (tr_ptr ring).

Definition hal_srng_test_free_pipe (pipe : srng_test_pipe) : M srng_test_pipe :=
  pipe ← match pipe_src_ring pipe with
         | None => mret pipe
         | Some ring =>
             free_ring (u32 (u32 (tr_nentries ring * sizeof_hal_test_sw2hw) +
                             SRNG_TEST_DESC_RING_ALIGN)) ring;;
             mret (pipe <| pipe_src_ring := None |>)
         end;
  pipe ← match pipe_dst_ring pipe with
         | None => mret pipe
         | Some ring => free_ring (tr_dma_size ring) ring;; mret (pipe <| pipe_dst_ring := None |>)
         end;
  match pipe_status_ring pipe with
  | None => mret pipe
  | Some ring => free_ring (tr_dma_size ring) ring;; mret (pipe <| pipe_status_ring := None |>)
  end.

Fixpoint mapM_pipes (f : srng_test_pipe → M srng_test_pipe) (l : list srng_test_pipe)
    : M (list srng_test_pipe) :=
  match l with
  | [] => mret []
  | p :: l' => p' ← f p; l'' ← mapM_pipes f l'; mret (p' :: l'')
  end.

Definition hal_srng_test_free_pipes (st : srng_test) : M srng_test :=
  pipes ← mapM_pipes hal_srng_test_free_pipe (st_pipes st);
  mret (st <| st_pipes := pipes |>).

Definition hal_srng_test_alloc_pipe (st : srng_test) (id : nat) : M (Z * srng_test) :=
  pipe ← of_option OutOfBounds (st_pipes st !! id);
  attr ← of_option OutOfBounds (st_config_val st !! id);
  let pipe := pipe <| pipe_attr_flags := attr_flags attr |> <| pipe_num := Z.of_nat id |>
                   <| pipe_buf_sz := attr_src_sz_max attr |> in
  let set := put_pipe st id in
  '(ret, pipe) ←
    (if decide (attr_src_nentries attr = 0) then mret (0, pipe)
     else
       let nentries := s32 (roundup_pow_of_two (attr_src_nentries attr)) in
       r ← hal_srng_test_alloc_ring nentries sizeof_hal_test_sw2hw;
       match r with
       | inl err => mret (err, pipe)
       | inr ring => mret (0, pipe <| pipe_src_ring := Some ring |>)
       end);
  if decide (ret ≠ 0) then mret (ret, set pipe)
  else if decide (attr_dest_nentries attr = 0) then mret (0, set pipe)
  else
    let nentries := s32 (roundup_pow_of_two (attr_dest_nentries attr)) in
    r ← hal_srng_test_alloc_ring nentries sizeof_hal_test_dst;
    match r with
    | inl err => mret (err, set pipe)
    | inr ring =>
        let pipe := pipe <| pipe_dst_ring := Some ring |> in
        let nentries := s32 (roundup_pow_of_two (attr_dest_nentries attr)) in
        r ← hal_srng_test_alloc_ring nentries sizeof_hal_test_dst_status;
        match r with
        | inl err => mret (err, set pipe)
        | inr ring => mret (0, set (pipe <| pipe_status_ring := Some ring |>))
        end
    end.
End pipes.

(* ------------------------------------------------------------------ *)
(** ** Registering a ring and sending *)

Section sending.
Context `{K : Kernel} `{B : Bits} `{SA : SkbApi} (CONFIG_CPU_BIG_ENDIAN : bool) (mmio_addr : Z).

Definition test_params (ring : srng_test_ring) : hal_srng_params :=
  HalSrngParams (tr_base_addr_test_space ring) (tr_base_addr_owner_space ring)
    (s32 (tr_nentries ring)) 0 0 0 0 0 0 0.

(** Every ring type is valid: the [default] of the [switch] is dead. *)
Definition hal_srng_test_init_ring (hal : wireless_simu_hal) (ring : srng_test_ring) (id : Z)
    (type : hal_ring_type) : M (Z * wireless_simu_hal * srng_test_ring) :=
  '(ret, hal) ← wireless_simu_hal_srng_setup CONFIG_CPU_BIG_ENDIAN mmio_addr hal type id 0
                  (test_params ring);
  if decide (ret < 0) then mret (ret, hal, ring)
  else mret (0, hal, ring <| tr_hal_ring_id := ret |>).

(** Assignment to a slot of [ring->skb]. *)
Definition set_ring_skb (ring : srng_test_ring) (i p : Z) : M srng_test_ring :=
  if decide (0 ≤ i < Z.of_nat (length (tr_skb ring)))
  then mret (ring <| tr_skb := <[Z.to_nat i := p]> (tr_skb ring) |>)
  else fail OutOfBounds.

Definition get_srng (hal : wireless_simu_hal) (id : Z) : M hal_srng :=
  of_option OutOfBounds (hal_srng_list hal !! Z.to_nat id).
Definition put_srng (hal : wireless_simu_hal) (id : Z) (srng : hal_srng) : wireless_simu_hal :=
  hal <| hal_srng_list := <[Z.to_nat id := srng]> (hal_srng_list hal) |>.

(** The critical section of [wireless_simu_hal_srng_test_send], under both
    locks: claim an entry, fill it, remember the buffer. *)
Definition test_send_locked (store : skbs) (srng : hal_srng) (ring : srng_test_ring)
    (skb transfer_id : Z) : M (Z * hal_srng * srng_test_ring) :=
  let write_index := tr_write_index ring in
  srng ← wireless_simu_hal_srng_access_begin srng;
  '(num_free, srng) ← wireless_simu_hal_srng_src_num_free srng false;
  if decide (num_free < 1) then mret (- ENOBUFS, srng, ring)
  else
    '(desc, srng) ← wireless_simu_hal_srng_src_get_next_entry srng;
    if decide (desc = 0) then mret (- ENOBUFS, srng, ring)
    else
      b ← get_skb store skb;
      store_words desc (hal_test_sw2hw_words
        (wireless_simu_hal_srng_test_src_set_desc b transfer_id 0 write_index));;
      ring ← set_ring_skb ring write_index skb;
      mret (0, srng, ring <| tr_write_index :=
        Z.land (u32 (write_index + 1)) (tr_nentries_mask ring) |>).

(** The [CE_ATTR_DIS_INTR] block only computes [num_used], which nothing
    reads; what is left of it is the locking and the dereference. *)
Definition wireless_simu_hal_srng_test_send (hal : wireless_simu_hal) (st : srng_test)
    (store : skbs) (skb : Z) (pipe_id : nat) (transfer_id : Z)
    : M (Z * wireless_simu_hal * srng_test) :=
  pipe ← of_option OutOfBounds (st_pipes st !! pipe_id);
  st ← (if flag_set (pipe_attr_flags pipe) CE_ATTR_DIS_INTR then
          l ← lock_acquire (st_lock st);
          ring ← of_option NullDeref (pipe_src_ring pipe);
          l ← lock_release l;
          mret (st <| st_lock := l |>)
        else mret st);
  l ← lock_acquire (st_lock st);
  ring ← of_option NullDeref (pipe_src_ring pipe);
  let id := tr_hal_ring_id ring in
  srng ← get_srng hal id;
  srng ← srng_spin_lock srng;
  '(ret, srng, ring) ← test_send_locked store srng ring skb transfer_id;
  srng ← wireless_simu_hal_srng_access_end mmio_addr srng;
  srng ← srng_spin_unlock srng;
  l ← lock_release l;
  mret (ret, put_srng hal id srng,
        put_pipe st pipe_id (pipe <| pipe_src_ring := Some ring |>) <| st_lock := l |>).

(* ------------------------------------------------------------------ *)
(** ** The test itself *)

Fixpoint alloc_pipes (st : srng_test) (ids : list nat) : M (Z * srng_test) :=
  match ids with
  | [] => mret (0, st)
  | i :: ids' =>
      '(ret, st) ← hal_srng_test_alloc_pipe st i;
      if decide (ret ≠ 0) then mret (ret, st) else alloc_pipes st ids'
  end.

Definition pipe_ids : list nat := seq 0 SRNG_TEST_PIPE_COUNT_MAX.

(** The second loop of [wireless_simu_hal_srng_test]; destination and status
    rings only print a message. *)
Fixpoint register_pipes (hal : wireless_simu_hal) (st : srng_test) (ids : list nat)
    : M (Z * wireless_simu_hal * srng_test) :=
  match ids with
  | [] => mret (0, hal, st)
  | i :: ids' =>
      pipe ← of_option OutOfBounds (st_pipes st !! i);
      match pipe_src_ring pipe with
      | None => register_pipes hal st ids'
      | Some ring =>
          '(ret, hal, ring) ← hal_srng_test_init_ring hal ring (Z.of_nat i) HAL_TEST_SRNG;
          let set ring := put_pipe st i (pipe <| pipe_src_ring := Some ring |>) in
          if decide (ret ≠ 0) then mret (ret, hal, set ring)
          else register_pipes hal
                 (set (ring <| tr_sw_index := 0 |> <| tr_write_index := 0 |>)) ids'
      end
  end.

(** [for (test_count = ...; test_count < 50; test_count++)], [n] rounds left. *)
Fixpoint send_loop (hal : wireless_simu_hal) (st : srng_test) (store : skbs) (skb : Z) (n : nat)
    (test_count : Z) : M (wireless_simu_hal * srng_test * skbs) :=
  match n with
  | O => mret (hal, st, store)
  | S n' =>
      store ← do_skb_write store skb 0 (word_bytes CONFIG_CPU_BIG_ENDIAN test_count);
      '(ret, hal, st) ← wireless_simu_hal_srng_test_send hal st store skb 0 0;
      if decide (ret ≠ 0) then mret (hal, st, store)
      else send_loop hal st store skb n' (test_count + 1)
  end.

(** The labels [err_clear_pipes] and [err_clear_config]. *)
Definition test_clear (hal : wireless_simu_hal) (st : srng_test) (store : skbs)
    : M (wireless_simu_hal * skbs) :=
  st ← hal_srng_test_free_pipes st;
  kfree (st_config_ptr st);;
  mret (hal, store).

Definition sizeof_srng_test_attr : Z := 32.

(** From the assignment of [skb_cb->paddr] on; the labels from [err_free_dma]. *)
Definition test_mapped (hal : wireless_simu_hal) (st : srng_test) (store : skbs)
    (skb data skb_paddr : Z) : M (wireless_simu_hal * skbs) :=
  store ← set_cb store skb (λ c, c <| cb_paddr := skb_paddr |>);
  '(hal, st, store) ← send_loop hal st store skb 50 0;
  b ← get_skb store skb;
  dma_unmap_single skb_paddr (skb_len (sb_buf b));;
  store ← dev_kfree_skb_any store skb;
  kfree data;;
  test_clear hal st store.

(** [memcpy(skb->data, data, data_size)] runs just before [skb_put]; here the
    bytes are written once they belong to the data. *)
Definition test_traffic (hal : wireless_simu_hal) (st : srng_test) (store : skbs)
    : M (wireless_simu_hal * skbs) :=
  let data_size := roundup 50 4 in
  data ← kmalloc data_size;
  if decide (data = 0) then test_clear hal st store
  else
    let bytes := replicate 4 6 ++ replicate (Z.to_nat (data_size - 8)) 0 ++ replicate 4 7 in
    let round_len := roundup data_size 4 in
    '(skb, store) ← dev_alloc_skb store round_len;
    if decide (skb = 0) then kfree data;; test_clear hal st store
    else
      store ← do_skb_put store skb round_len;
      store ← do_skb_write store skb 0 bytes;
      b ← get_skb store skb;
      skb_paddr ← dma_map_single (k_skb_addr skb (sb_buf b)) (skb_len (sb_buf b));
      ret ← dma_mapping_error skb_paddr;
      if (ret : bool)
      then store ← dev_kfree_skb_any store skb; kfree data;; test_clear hal st store
      else test_mapped hal st store skb data skb_paddr.

Definition wireless_simu_hal_srng_test (hal : wireless_simu_hal) (store : skbs)
    : M (wireless_simu_hal * skbs) :=
  config ← kmalloc (sizeof_srng_test_attr * Z.of_nat (length srng_test_configs));
  if decide (config = 0) then mret (hal, store)
  else
    let st := srng_test_zero <| st_config_ptr := config |> <| st_config_val := srng_test_configs |>
                             <| st_lock := false |> in
    '(ret, st) ← alloc_pipes st pipe_ids;
    if decide (ret ≠ 0) then test_clear hal st store
    else
      '(ret, hal, st) ← register_pipes hal st pipe_ids;
      if decide (ret ≠ 0) then test_clear hal st store
      else test_traffic hal st store.
End sending.
