(* ===== verification/Descriptors.v ===== *)
(** * Descriptors, written and read back

    The descriptors the driver puts on the rings
    ([wireless_simu_hal_srng_test_src_set_desc] and
    [wireless_simu_test_dst_set_desc] of
    src/driver/driver_wireless/wireless_hal.c, [struct hal_test_sw2hw] and
    [struct hal_test_dst] of wireless_hal.h) pack an address of up to 40 bits
    and several fields into 32-bit words.  The decoders here read the words the
    way the device's side of the layout says. *)

From S2P Require Import Prelude Kernel Bits HalTypes Hif HalRing RingProtocol HalSetup HalInit Skb SrngTest.

(** A buffer address split over two words. *)
Definition desc_paddr (low info : Z) : Z := low + get_field 7 0 info * 2 ^ 32.

Record src_fields := SrcFields {
  sf_paddr : Z; sf_byte_swap : Z; sf_length : Z; sf_id : Z; sf_write_index : Z; sf_flags : Z
}.
Definition decode_src (ws : list Z) : option src_fields :=
  match ws with
  | [low; info; meta; index; flags] =>
      Some (SrcFields (desc_paddr low info) (get_field 9 9 info) (get_field 31 16 info)
              (get_field 15 0 meta) index flags)
  | _ => None
  end.
Definition decode_dst (ws : list Z) : option (Z * Z) :=
  match ws with [low; info; flag] => Some (desc_paddr low info, flag) | _ => None end.

Section descriptors.
Context `{BO : BitsOk} `{SA : SkbApi}.

Lemma paddr_low paddr : u32 (Z.land paddr HAL_ADDR_LSB_REG_MASK) = paddr mod 2 ^ 32.
Proof.
  change HAL_ADDR_LSB_REG_MASK with (Z.ones 32). rewrite Z.land_ones by lia. apply Zmod_mod.
Qed.

(** The high word keeps 8 bits: addresses below 2^40 survive. *)
Lemma paddr_split paddr info : 0 ≤ paddr < 2 ^ 40 →
  get_field 7 0 info = (paddr ≫ HAL_ADDR_MSB_REG_SHIFT) mod 2 ^ 8 →
  desc_paddr (u32 (Z.land paddr HAL_ADDR_LSB_REG_MASK)) info = paddr.
Proof.
  intros Hp Hi. unfold desc_paddr. rewrite Hi, paddr_low. change HAL_ADDR_MSB_REG_SHIFT with 32.
  rewrite Z.shiftr_div_pow2 by lia.
  assert (0 ≤ paddr / 2 ^ 32 < 2 ^ 8) by (split; [apply Z.div_pos; lia|apply Z.div_lt_upper_bound; lia]).
  rewrite (Z.mod_small (paddr / 2 ^ 32)) by lia. pose proof (Z.div_mod paddr (2 ^ 32)). lia.
Qed.

(** C25.  The device reads what the driver meant.  For a buffer mapped below
    2^40 and shorter than 64 kB, decoding the five words of a source descriptor
    gives back the buffer's address and length, the byte-swap flag, the transfer
    id and the write index; decoding the three words of a posted buffer's
    descriptor gives back its address.  Above 2^40 the address is cut: two
    addresses 2^40 apart get the same words. *)
Theorem descriptor_roundtrip b id swap index paddr :
  0 ≤ cb_paddr (sb_cb b) < 2 ^ 40 → skb_len (sb_buf b) < 2 ^ 16 → 0 ≤ id < 2 ^ 16 →
  swap = 0 ∨ swap = 1 → 0 ≤ index < 2 ^ 32 → 0 ≤ paddr < 2 ^ 40 →
  decode_src (hal_test_sw2hw_words (wireless_simu_hal_srng_test_src_set_desc b id swap index)) =
    Some (SrcFields (cb_paddr (sb_cb b)) swap (skb_len (sb_buf b)) id index 0x114514ff) ∧
  decode_dst (hal_test_dst_words (wireless_simu_test_dst_set_desc paddr)) = Some (paddr, 0x114514aa) ∧
  wireless_simu_test_dst_set_desc (paddr + 2 ^ 40) = wireless_simu_test_dst_set_desc paddr.
Proof.
  intros Hp Hlen Hid Hswap Hix Hpa. assert (0 ≤ skb_len (sb_buf b)) by (unfold skb_len; lia).
  unfold wireless_simu_hal_srng_test_src_set_desc, wireless_simu_test_dst_set_desc, hal_test_sw2hw_words,
    hal_test_dst_words. cbn [sw2hw_buffer_addr_low sw2hw_buffer_addr_info sw2hw_meta_info sw2hw_write_index
    sw2hw_flags tdst_buffer_addr_low tdst_buffer_addr_info tdst_flag decode_src decode_dst].
  rewrite !bit_spec by lia. split_and!.
  - rewrite paddr_split; [|done|by bitfields]. bitfields.
    rewrite (wrap_id 32 index) by lia. do 2 f_equal; [|rewrite Z.mod_small; lia..].
    destruct Hswap as [->| ->]; done.
  - rewrite paddr_split; [done|done|by bitfields].
  - f_equal.
    + rewrite !paddr_low. replace (2 ^ 40) with (2 ^ 8 * 2 ^ 32) by done. apply Z.mod_add. lia.
    + f_equal. rewrite !field_prep_mul by lia. change HAL_ADDR_MSB_REG_SHIFT with 32.
      rewrite !Z.shiftr_div_pow2 by lia. replace (2 ^ 40) with (2 ^ 8 * 2 ^ 32) by done.
      rewrite Z.div_add by lia. change (2 ^ (7 - 0 + 1)) with (2 ^ 8).
      rewrite <-(Z.mul_1_l (2 ^ 8)) at 1. by rewrite Z.mod_add by lia.
Qed.
End descriptors.
