(* ===== verification/SrngSend.v ===== *)
(** * Sending through a source ring refines the ring protocol

    [wireless_simu_hal_srng_test_send] and
    [wireless_simu_test_dst_enqueue_pipe] both run one host access - lock,
    begin, claim, fill, end, unlock - around a source ring.  The lemmas of this
    file show once what such an access does to a ring that satisfies the
    protocol's invariant; the theorems instantiate them. *)

From S2P Require Import Prelude Kernel Bits HalTypes Hif HalRing RingProtocol HalSetup HalInit Skb.
From S2P Require Import SrngTest.

Section access.
Context `{K : Kernel} (mmio_addr : Z).
Abbreviation inv := (Source.inv mmio_addr).
Abbreviation step := (Source.step mmio_addr).
Abbreviation steps := (rtc step).

(** The ring after lock and begin. *)
Definition opened (s : hal_srng) (tp : Z) : hal_srng :=
  s <| srng_lock := true |> <| srng_src := srng_src s <| src_cached_tp := tp |> |>.

(** The outcome of lock and begin: two steps of the protocol, after which the
    free count is exact. *)
Lemma open_spec s w a b : inv (Source.Link s w a b) → srng_lock s = false →
  ∃ tp, srng_spin_lock s w = Done (s <| srng_lock := true |>, w) ∧
    wireless_simu_hal_srng_access_begin (s <| srng_lock := true |>) w = Done (opened s tp, w) ∧
    steps (Source.Link s w a b) (Source.Link (opened s tp) w a b) ∧
    inv (Source.Link (opened s tp) w a b) ∧ src_wf (opened s tp) ∧
    src_free (opened s tp) = srng_num_entries s - 1 - (Z.of_nat (length a) - Z.of_nat (length b)).
Proof.
  intros Hi Hl. pose proof Hi as [Hst _ (P & C & Hc)]. cbn in Hst, Hc.
  pose proof (Source.ct_tp _ _ _ _ _ _ _ Hc) as Htp.
  set (tp := srng_entry_size s * (Z.of_nat (length b) mod srng_num_entries s)) in Htp.
  exists tp.
  assert (srng_spin_lock s w = Done (s <| srng_lock := true |>, w)) as Hlock.
  { unfold srng_spin_lock, lock_acquire. by rewrite Hl. }
  assert (wireless_simu_hal_srng_access_begin (s <| srng_lock := true |>) w = Done (opened s tp, w))
    as Hbegin by exact (src_begin_eq (s <| srng_lock := true |>) w tp eq_refl (Source.st_dir _ Hst) Htp).
  assert (inv (Source.Link (opened s tp) w a b)) as Hi2
    by (eapply Source.inv_begin; [apply (Source.inv_lock mmio_addr _ _ _ _ true Hi)|exact Hbegin]).
  pose proof (Source.counters_begin mmio_addr _ _ _ _ _ _ _ true Hc Htp) as Hc2.
  destruct (Source.counters_wf mmio_addr (opened s tp) w a b _ _
    (Source.inv_static _ _ Hi2) Hc2 eq_refl) as [Hwf Hfree].
  split_and!; [done|exact Hbegin| |exact Hi2|exact Hwf|exact Hfree].
  eapply rtc_l; [by apply Source.step_lock|]. apply rtc_once. by apply Source.step_begin.
Qed.

(** The members of a ring that no access changes. *)
Record same_shape (s s' : hal_srng) : Prop := {
  ss_entry : srng_entry_size s' = srng_entry_size s;
  ss_num : srng_num_entries s' = srng_num_entries s;
  ss_size : srng_ring_size s' = srng_ring_size s;
  ss_base : srng_ring_base_vaddr s' = srng_ring_base_vaddr s;
  ss_hp_addr : src_hp_addr (srng_src s') = src_hp_addr (srng_src s);
  ss_tp_addr : src_tp_addr (srng_src s') = src_tp_addr (srng_src s)
}.

(** The outcome of end and unlock. *)
Lemma close_spec s w a b : inv (Source.Link s w a b) → srng_lock s = true →
  ∃ s1 w1 s2, wireless_simu_hal_srng_access_end mmio_addr s w = Done (s1, w1) ∧
    srng_spin_unlock s1 w1 = Done (s2, w1) ∧ srng_lock s2 = false ∧
    same_shape s s2 ∧
    steps (Source.Link s w a b) (Source.Link s2 w1 a b) ∧
    w_mem w1 = w_mem w ∧ same_resources w w1.
Proof.
  intros Hi Hl. pose proof Hi as [Hst _ (P & C & Hc)]. cbn in Hst, Hc.
  pose proof (src_end_eq mmio_addr s w _ Hl (Source.st_dir _ Hst) (Source.st_lmac _ Hst)
    (Source.ct_tp _ _ _ _ _ _ _ Hc)) as Hend.
  eexists _, _, _. split_and!; [exact Hend|..].
  - unfold srng_spin_unlock, lock_release. cbn. rewrite Hl. reflexivity.
  - done.
  - done.
  - eapply rtc_l; [by apply Source.step_end, Hend|]. apply rtc_once. apply Source.step_unlock.
    unfold srng_spin_unlock, lock_release. cbn. rewrite Hl. reflexivity.
  - done.
  - by split.
Qed.

(** Claiming and filling one entry of an opened ring. *)
Lemma push_spec s w a b d : inv (Source.Link s w a b) → src_wf s → 0 < src_free s →
  Z.of_nat (length d) = srng_entry_size s → is_words d →
  ∃ p w1, wireless_simu_hal_srng_src_get_next_entry s w = Done ((p, src_advance s), w) ∧
    p ≠ 0 ∧ store_words p d w = Done (tt, w1) ∧
    step (Source.Link s w a b) (Source.Link (src_advance s) w1 (a ++ [d]) b) ∧
    inv (Source.Link (src_advance s) w1 (a ++ [d]) b) ∧
    same_resources w w1 ∧
    w1 = w <| w_mem := write_words (Source.slot s (Z.of_nat (length a))) d (w_mem w) |>.
Proof.
  intros Hi Hwf Hf Hd Hw. pose proof (src_next_some s w Hwf Hf) as Hnext.
  pose proof (Source.inv_static _ _ Hi) as Hst. cbn in Hst.
  destruct (Source.inv_next _ _ _ _ _ _ _ _ Hi Hnext) as [(_ & Hs & _)|(Hp & _)].
  { exfalso. pose proof (src_advance_free s Hwf Hf) as Hadv. rewrite Hs in Hadv. lia. }
  assert (srng_ring_base_vaddr s + 4 * src_hp (srng_src s) ≠ 0) as Hnz.
  { destruct Hwf as [Hg [i [Hi0 ->]] _ _]. pose proof (geo_base s Hg). pose proof (geo_entry s Hg). nia. }
  assert (mapped (w_mem w) (srng_ring_base_vaddr s + 4 * src_hp (srng_src s)) (length d)) as Hm.
  { rewrite Hp. replace (length d) with (Z.to_nat (srng_entry_size s)) by lia.
    apply Source.slot_mapped; [apply (Source.st_geo _ Hst)|apply (Source.inv_mapped _ _ Hi)]. }
  pose proof (store_words_eq d _ w Hm) as Hstore.
  eexists _, _. split_and!; [exact Hnext|exact Hnz|exact Hstore| | |by split; [..|apply dom_write_words]|by rewrite <-Hp].
  - by eapply Source.step_push.
  - eapply Source.step_inv; [|exact Hi]. by eapply Source.step_push.
Qed.
End access.

(* ------------------------------------------------------------------ *)
(** ** Sending *)

Section send.
Context `{K : Kernel} `{BO : BitsOk} `{SA : SkbApi} (mmio_addr : Z).

Lemma sw2hw_words_ok b id swap wi : is_words (hal_test_sw2hw_words
  (wireless_simu_hal_srng_test_src_set_desc b id swap wi)).
Proof. repeat constructor; apply wrap_wrap. Qed.

(** The critical section on an opened ring with a free entry, ... *)
Lemma send_locked_some store s ring p b tid w a t tp :
  store !! p = Some b → 0 ≤ tr_write_index ring < Z.of_nat (length (tr_skb ring)) →
  srng_entry_size s = 5 →
  wireless_simu_hal_srng_access_begin (s <| srng_lock := true |>) w = Done (opened s tp, w) →
  Source.inv mmio_addr (Source.Link (opened s tp) w a t) →
  src_wf (opened s tp) → 0 < src_free (opened s tp) →
  let d := hal_test_sw2hw_words
    (wireless_simu_hal_srng_test_src_set_desc b tid 0 (tr_write_index ring)) in
  ∃ w1, test_send_locked store (s <| srng_lock := true |>) ring p tid w =
      Done ((0, src_advance (opened s tp),
             ring <| tr_skb := <[Z.to_nat (tr_write_index ring) := p]> (tr_skb ring) |>
                  <| tr_write_index := Z.land (u32 (tr_write_index ring + 1)) (tr_nentries_mask ring) |>), w1) ∧
    Source.step mmio_addr (Source.Link (opened s tp) w a t)
      (Source.Link (src_advance (opened s tp)) w1 (a ++ [d]) t) ∧
    Source.inv mmio_addr (Source.Link (src_advance (opened s tp)) w1 (a ++ [d]) t) ∧
    same_resources w w1.
Proof.
  intros Hp Hwi He Hbegin Hi Hwf Hfree d.
  destruct (push_spec mmio_addr _ w a t d Hi Hwf Hfree) as (q & w1 & Hn & Hq & Hst & Hstep & Hi' & Hw1 & _).
  { exact (eq_sym He). }
  { apply sw2hw_words_ok. }
  exists w1. split_and!; [|done..]. unfold test_send_locked.
  rewrite (M_bind_done _ _ _ _ _ Hbegin), (M_bind_done _ _ _ _ _ (src_num_free_eq _ w Hwf)).
  rewrite decide_False by lia. rewrite (M_bind_done _ _ _ _ _ Hn), decide_False by done.
  unfold get_skb. rewrite Hp, (M_bind_done _ _ w b w) by done.
  rewrite (M_bind_done _ _ _ _ _ Hst). unfold set_ring_skb. by rewrite decide_True.
Qed.

(** ... and on a full one. *)
Lemma send_locked_full store s ring p tid w tp :
  wireless_simu_hal_srng_access_begin (s <| srng_lock := true |>) w = Done (opened s tp, w) →
  src_wf (opened s tp) → src_free (opened s tp) < 1 →
  test_send_locked store (s <| srng_lock := true |>) ring p tid w =
    Done ((- ENOBUFS, opened s tp, ring), w).
Proof.
  intros Hbegin Hwf Hfree. unfold test_send_locked.
  rewrite (M_bind_done _ _ _ _ _ Hbegin), (M_bind_done _ _ _ _ _ (src_num_free_eq _ w Hwf)).
  by rewrite decide_True.
Qed.

(** The locking around it. *)
Lemma send_run hal st store s ring pipe p pid tid w ret s1 ring1 w1 s2 w2 s3 :
  st_pipes st !! pid = Some pipe → pipe_src_ring pipe = Some ring → st_lock st = false →
  hal_srng_list hal !! Z.to_nat (tr_hal_ring_id ring) = Some s →
  srng_spin_lock s w = Done (s <| srng_lock := true |>, w) →
  test_send_locked store (s <| srng_lock := true |>) ring p tid w = Done ((ret, s1, ring1), w1) →
  wireless_simu_hal_srng_access_end mmio_addr s1 w1 = Done (s2, w2) →
  srng_spin_unlock s2 w2 = Done (s3, w2) →
  wireless_simu_hal_srng_test_send mmio_addr hal st store p pid tid w =
    Done ((ret, put_srng hal (tr_hal_ring_id ring) s3,
           put_pipe st pid (pipe <| pipe_src_ring := Some ring1 |>) <| st_lock := false |>), w2).
Proof.
  intros Hp Hr Hl Hs Hlock Hrun Hend Hun. unfold wireless_simu_hal_srng_test_send.
  rewrite Hp, (M_bind_done _ _ w pipe w) by done.
  rewrite (M_bind_done _ _ w st w).
  2: { destruct (flag_set _ _); [|done]. unfold lock_acquire, lock_release. rewrite Hl, Hr.
       mcbn. f_equal. f_equal. destruct st; cbn in *. by rewrite Hl. }
  unfold lock_acquire. rewrite Hl, (M_bind_done _ _ w true w) by done.
  rewrite Hr, (M_bind_done _ _ w ring w) by done. unfold get_srng.
  rewrite Hs, (M_bind_done _ _ w s w) by done.
  rewrite (M_bind_done _ _ _ _ _ Hlock), (M_bind_done _ _ _ _ _ Hrun).
  by rewrite (M_bind_done _ _ _ _ _ Hend), (M_bind_done _ _ _ _ _ Hun).
Qed.

(** The state a caller of [wireless_simu_hal_srng_test_send] is in. *)
Record send_ready (hal : wireless_simu_hal) (st : srng_test) (store : skbs) (s : hal_srng)
    (ring : srng_test_ring) (b : sk_buff) (p : Z) (pid : nat) (w : world)
    (a t : list (list Z)) : Prop := {
  sr_pipe : ∃ pipe, st_pipes st !! pid = Some pipe ∧ pipe_src_ring pipe = Some ring;
  sr_srng : hal_srng_list hal !! Z.to_nat (tr_hal_ring_id ring) = Some s;
  sr_unlocked : srng_lock s = false ∧ st_lock st = false;
  sr_skb : store !! p = Some b;
  sr_index : 0 ≤ tr_write_index ring < Z.of_nat (length (tr_skb ring));
  sr_entry : srng_entry_size s = 5;
  sr_inv : Source.inv mmio_addr (Source.Link s w a t)
}.

(** What one call does: a sequence of protocol steps, and changes to the
    pipe's ring structure that keep its blocks. *)
Lemma test_send_cases hal st store s ring b p pid w a t tid :
  send_ready hal st store s ring b p pid w a t →
  let d := hal_test_sw2hw_words
    (wireless_simu_hal_srng_test_src_set_desc b tid 0 (tr_write_index ring)) in
  let ring1 := ring <| tr_skb := <[Z.to_nat (tr_write_index ring) := p]> (tr_skb ring) |>
    <| tr_write_index := Z.land (u32 (tr_write_index ring + 1)) (tr_nentries_mask ring) |> in
  ∃ (room : bool) s' pipe w',
    (room ↔ Z.of_nat (length a) - Z.of_nat (length t) < srng_num_entries s - 1) ∧
    st_pipes st !! pid = Some pipe ∧ pipe_src_ring pipe = Some ring ∧
    wireless_simu_hal_srng_test_send mmio_addr hal st store p pid tid w =
      Done ((if room then 0 else - ENOBUFS, put_srng hal (tr_hal_ring_id ring) s',
             put_pipe st pid (pipe <| pipe_src_ring := Some (if room then ring1 else ring) |>)
               <| st_lock := false |>), w') ∧
    srng_lock s' = false ∧ srng_entry_size s' = srng_entry_size s ∧
    rtc (Source.step mmio_addr) (Source.Link s w a t)
      (Source.Link s' w' (if room then a ++ [d] else a) t) ∧
    same_resources w w' ∧ (¬ room → w_mem w' = w_mem w).
Proof.
  intros [(pipe & Hpipe & Hring) Hs [Hl Hsl] Hb Hwi He Hi] d ring1.
  destruct (open_spec mmio_addr s w a t Hi Hl) as (tp & Hlock & Hbegin & Hst1 & Hi1 & Hwf & Hfree).
  destruct (decide (Z.of_nat (length a) - Z.of_nat (length t) < srng_num_entries s - 1)) as [Hd|Hd].
  - destruct (send_locked_some store s ring p b tid w a t tp Hb Hwi He Hbegin Hi1 Hwf ltac:(lia))
      as (w1 & Hrun & Hstep & Hi2 & Hw1).
    destruct (close_spec mmio_addr _ w1 _ _ Hi2 eq_refl)
      as (s2 & w2 & s3 & Hend & Hun & Hl3 & [He3 _ _ _ _] & Hst3 & _ & Hsame).
    exists true, s3, pipe, w2. split_and!; [done|done|done| |done|done| | |done].
    + by eapply send_run.
    + etrans; [exact Hst1|]. eapply rtc_l; [exact Hstep|exact Hst3].
    + by etrans.
  - assert (src_free (opened s tp) < 1) as Hfull by lia.
    pose proof (send_locked_full store s ring p tid w tp Hbegin Hwf Hfull) as Hrun.
    destruct (close_spec mmio_addr _ w _ _ Hi1 eq_refl)
      as (s2 & w2 & s3 & Hend & Hun & Hl3 & [He3 _ _ _ _] & Hst3 & Hm & Hsame).
    exists false, s3, pipe, w2. split_and!; [by split|done|done| |done|done| |done|done].
    + by eapply send_run.
    + etrans; [exact Hst1|exact Hst3].
Qed.

(** C8.  [wireless_simu_hal_srng_test_send] implements the protocol's atomic
    "publish one entry": on a ring whose protocol invariant holds it never
    faults, and it is a sequence of protocol steps that appends exactly the
    descriptor of the buffer - returning 0, remembering the buffer in its slot
    and advancing the write index - when the device has left room, and
    [-ENOBUFS] with nothing appended exactly when [num_entries - 1] entries
    are outstanding.  Both locks are free again on both paths, and no resource
    is taken. *)
Theorem test_send_refines hal st store s ring b p pid w a t tid :
  send_ready hal st store s ring b p pid w a t →
  let d := hal_test_sw2hw_words
    (wireless_simu_hal_srng_test_src_set_desc b tid 0 (tr_write_index ring)) in
  ∃ ret s' ring' pipe w',
    wireless_simu_hal_srng_test_send mmio_addr hal st store p pid tid w =
      Done ((ret, put_srng hal (tr_hal_ring_id ring) s',
             put_pipe st pid (pipe <| pipe_src_ring := Some ring' |>) <| st_lock := false |>), w') ∧
    srng_lock s' = false ∧ st_pipes st !! pid = Some pipe ∧
    (if decide (Z.of_nat (length a) - Z.of_nat (length t) < srng_num_entries s - 1)
     then ret = 0 ∧ rtc (Source.step mmio_addr) (Source.Link s w a t) (Source.Link s' w' (a ++ [d]) t) ∧
          tr_skb ring' = <[Z.to_nat (tr_write_index ring) := p]> (tr_skb ring) ∧
          tr_write_index ring' = Z.land (u32 (tr_write_index ring + 1)) (tr_nentries_mask ring)
     else ret = - ENOBUFS ∧ rtc (Source.step mmio_addr) (Source.Link s w a t) (Source.Link s' w' a t) ∧
          ring' = ring ∧ w_mem w' = w_mem w) ∧
    same_resources w w'.
Proof.
  intros Hr d. destruct (test_send_cases _ _ _ _ _ _ _ _ _ _ _ tid Hr)
    as (room & s' & pipe & w' & Hroom & Hp & _ & Hrun & Hl & _ & Hsteps & Hsame & Hmem).
  eexists _, s', _, pipe, w'. split; [exact Hrun|]. split_and!; [done|done| |done].
  destruct (decide (Z.of_nat (length a) - Z.of_nat (length t) < srng_num_entries s - 1)) as [Hd|Hd].
  - assert (room = true) as -> by by apply Is_true_true, Hroom. done.
  - assert (room = false) as -> by (apply Is_true_false; tauto). 
    split_and!; try done. apply Hmem. by intros [].
Qed.
End send.
