(* ===== verification/PipeLife.v ===== *)
(** * Pipes take and give back what they say

    [hal_srng_test_alloc_ring], [hal_srng_test_alloc_pipe] and
    [hal_srng_test_free_pipes] (src/driver/driver_wireless/wireless_hal.c)
    move heap blocks and coherent regions.  [owns l w0 w] says that the
    resources of [w] are those of [w0] plus the rings of [l]; allocation adds
    a ring to [l], freeing removes one, and an empty [l] means that nothing is
    held. *)

From S2P Require Import Prelude Kernel Bits HalTypes Hif HalRing RingProtocol HalSetup HalInit Skb.
From S2P Require Import SrngTest.

(* ------------------------------------------------------------------ *)
(** ** Ownership *)

(** Memory got words, and nothing else happened to it or to the registers. *)
Record grows (w w' : world) : Prop := {
  gr_mmio : w_mmio w' = w_mmio w;
  gr_mem : w_mem w ⊆ w_mem w'
}.
#[export] Instance grows_refl : Reflexive grows.
Proof. by split. Qed.
#[export] Instance grows_trans : Transitive grows.
Proof. intros w1 w2 w3 [E1 H1] [E2 H2]. split; [congruence|by etrans]. Qed.

(** The blocks of one ring: its structure and its coherent region. *)
Record ring_block := RingBlock {
  owned_ptr : Z;
  owned_base : Z;
  owned_paddr : Z;
  owned_size : Z
}.
Definition owned_words (x : ring_block) : list Z := region (owned_base x) (owned_size x).
Definition block_of (r : srng_test_ring) (size : Z) : ring_block :=
  RingBlock (tr_ptr r) (tr_base_addr_owner_space_unaligned r)
    (tr_base_addr_test_space_unaligned r) size.

Record ring_owned (w0 w : world) (x : ring_block) : Prop := {
  ro_ptr : owned_ptr x ≠ 0 ∧ owned_ptr x ∈ w_heap w ∧ owned_ptr x ∉ w_heap w0;
  ro_dma : w_dma w !! owned_base x = Some (owned_size x, owned_paddr x);
  ro_new : w_dma w0 !! owned_base x = None;
  ro_mem : ∀ a, a ∈ owned_words x → w_mem w0 !! a = None
}.

Record owns (l : list ring_block) (w0 w : world) : Prop := {
  ow_ptrs : NoDup (owned_ptr <$> l);
  ow_bases : NoDup (owned_base <$> l);
  ow_rings : ∀ x, x ∈ l → ring_owned w0 w x;
  ow_heap : ∀ p, (∀ x, x ∈ l → p ≠ owned_ptr x) → p ∈ w_heap w ↔ p ∈ w_heap w0;
  ow_dma : ∀ v, (∀ x, x ∈ l → v ≠ owned_base x) → w_dma w !! v = w_dma w0 !! v;
  ow_mem : ∀ a, (∀ x, x ∈ l → a ∉ owned_words x) → a ∈ dom (w_mem w) ↔ a ∈ dom (w_mem w0)
}.

Lemma owns_nil w : owns [] w w.
Proof. split; try done; [constructor..|]. intros x Hx. by apply not_elem_of_nil in Hx. Qed.

Lemma owns_nil_inv w0 w : owns [] w0 w →
  w_heap w = w_heap w0 ∧ w_dma w = w_dma w0 ∧ dom (w_mem w) = dom (w_mem w0).
Proof.
  intros [_ _ _ Hh Hd Hm]. split_and!.
  - apply set_eq. intros p. apply Hh. by intros ? ?%not_elem_of_nil.
  - apply map_eq. intros v. apply Hd. by intros ? ?%not_elem_of_nil.
  - apply set_eq. intros a. apply Hm. by intros ? ?%not_elem_of_nil.
Qed.

Lemma owns_perm l l' w0 w : l ≡ₚ l' → owns l w0 w → owns l' w0 w.
Proof.
  intros Hp [H1 H2 H3 H4 H5 H6].
  split; setoid_rewrite <-Hp; done.
Qed.

Lemma owns_blocks l w0 w w' : owns l w0 w → same_blocks w w' → owns l w0 w'.
Proof.
  intros [H1 H2 H3 H4 H5 H6] [Hh Hd Hm].
  split; rewrite ?Hh, ?Hd, ?Hm; try done.
  intros x Hx. destruct (H3 x Hx). split; rewrite ?Hh, ?Hd; done.
Qed.

Lemma owns_same l w0 w w' : owns l w0 w → same_resources w w' → owns l w0 w'.
Proof. intros Ho Hs. by eapply owns_blocks, same_resources_blocks. Qed.

Section life.
Context `{KO : KernelOk} `{BO : BitsOk}.

(** Freeing one of the rings. *)
Lemma owns_free ring size l w0 w : owns (block_of ring size :: l) w0 w →
  ∃ w', free_ring size ring w = Done (tt, w') ∧ owns l w0 w' ∧ w_map w' = w_map w ∧
    keeps (λ a, is_Some (w_mem w0 !! a)) (λ _, True) w w'.
Proof.
  intros Ho. remember (block_of ring size) as x eqn:Ex. destruct Ho as [H1 H2 H3 H4 H5 H6].
  cbn in H1, H2.
  apply NoDup_cons in H1 as [Hn1 H1], H2 as [Hn2 H2].
  destruct (H3 x ltac:(by left)) as [(Hz & Hin & Hout) Hdma Hnew Hmem].
  exists (w <| w_dma := delete (owned_base x) (w_dma w) |>
            <| w_mem := unmap_region (owned_base x) (owned_size x) (w_mem w) |>
            <| w_heap := w_heap w ∖ {[owned_ptr x]} |>).
  split; [|split; [|split]].
  - unfold free_ring. subst x. rewrite (M_bind_done _ _ _ _ _ (dma_free_eq _ _ _ _ Hdma)).
    by rewrite kfree_eq.
  - split; cbn [w_heap w_dma w_mem update update_with]; [done|done|..].
    + intros y Hy. destruct (H3 y ltac:(by right)) as [(Hz' & Hin' & Hout') Hdma' Hnew' Hmem'].
      assert (owned_ptr y ≠ owned_ptr x).
      { intros Heq. apply Hn1. rewrite <-Heq. by apply (list_elem_of_fmap_2 owned_ptr). }
      assert (owned_base y ≠ owned_base x).
      { intros Heq. apply Hn2. rewrite <-Heq. by apply (list_elem_of_fmap_2 owned_base). }
      split; cbn; [set_solver|by rewrite lookup_delete_ne|done|done].
    + intros p Hp. rewrite elem_of_difference, elem_of_singleton.
      destruct (decide (p = owned_ptr x)) as [->|Hne]; [naive_solver|].
      rewrite H4; [naive_solver|]. intros y [->|Hy]%elem_of_cons; [done|by apply Hp].
    + intros v Hv. destruct (decide (v = owned_base x)) as [->|Hne]; [by rewrite lookup_delete_eq|].
      rewrite lookup_delete_ne by done. apply H5. intros y [->|Hy]%elem_of_cons; [done|by apply Hv].
    + intros a Ha. rewrite elem_of_dom, lookup_unmap_region.
      case_decide as Hr.
      * rewrite elem_of_dom, (Hmem a Hr). split; by intros [].
      * rewrite <-elem_of_dom. apply H6. intros y [->|Hy]%elem_of_cons; [done|by apply Ha].
  - done.
  - split; [|done]. intros a [v Ha]. cbn [w_mem update update_with]. rewrite lookup_unmap_region.
    case_decide as Hr; [|done]. by rewrite (Hmem a Hr) in Ha.
Qed.

(** What a new ring looks like, from the world it was made in on: empty, at aligned addresses, on zeroed words
    that were not mapped before. *)
Record new_ring (n size : Z) (ring : srng_test_ring) (w w' : world) : Prop := {
  nr_entries : tr_nentries ring = n ∧ tr_nentries_mask ring = n - 1;
  nr_indices : tr_sw_index ring = 0 ∧ tr_write_index ring = 0;
  nr_skb : tr_skb ring = replicate (Z.to_nat n) 0;
  nr_size : tr_dma_size ring = size;
  nr_base : tr_base_addr_owner_space ring = tr_base_addr_owner_space_unaligned ring ∧
            tr_base_addr_test_space ring = tr_base_addr_test_space_unaligned ring;
  nr_block : dma_block w (tr_base_addr_owner_space ring) (tr_base_addr_test_space ring) size;
  nr_mapped : ∀ k : nat, 4 * Z.of_nat k ≤ size → mapped (w_mem w') (tr_base_addr_owner_space ring) k;
  nr_others : ∀ a, is_Some (w_mem w !! a) → is_Some (w_mem w' !! a);
  nr_heap : w_heap w ⊆ w_heap w'
}.

Lemma page_aligned v : (PAGE_SIZE | v) → 0 ≤ v → v + 8 ≤ 2 ^ 64 →
  ALIGN v SRNG_TEST_DESC_RING_ALIGN = v.
Proof.
  intros [k ->] Hv Ht. unfold PAGE_SIZE in *. change SRNG_TEST_DESC_RING_ALIGN with (2 ^ 3).
  rewrite align_spec by lia.
  replace (k * 4096 + 2 ^ 3 - 1) with ((2 ^ 3 - 1) + (k * 512) * 2 ^ 3) by lia.
  rewrite Z.div_add by lia. rewrite (Z.div_small (2 ^ 3 - 1)) by lia. lia.
Qed.

(** The resources after a ring's allocation. *)
Lemma owns_alloc l w0 w w' ring size : owns l w0 w →
  tr_ptr ring ≠ 0 → tr_ptr ring ∉ w_heap w →
  dma_block w (tr_base_addr_owner_space_unaligned ring) (tr_base_addr_test_space_unaligned ring) size →
  w_heap w' = {[tr_ptr ring]} ∪ w_heap w →
  w_dma w' = <[tr_base_addr_owner_space_unaligned ring :=
               (size, tr_base_addr_test_space_unaligned ring)]> (w_dma w) →
  (∀ a, a ∈ dom (w_mem w') ↔
        a ∈ region (tr_base_addr_owner_space_unaligned ring) size ∨ a ∈ dom (w_mem w)) →
  owns (block_of ring size :: l) w0 w'.
Proof.
  intros [H1 H2 H3 H4 H5 H6] Hz Hnew [_ _ Hd Hm] Hheap Hdma Hmem.
  assert (tr_ptr ring ∉ w_heap w0) as Hnew0.
  { intros Hin. apply Hnew. destruct (decide (tr_ptr ring ∈ owned_ptr <$> l)) as [Hi|Hi].
    - apply list_elem_of_fmap in Hi as (x & Heq & Hx). rewrite Heq. apply (ro_ptr _ _ _ (H3 x Hx)).
    - apply H4; [|done]. intros x Hx Heq. apply Hi. rewrite Heq. by apply (list_elem_of_fmap_2 owned_ptr). }
  assert (∀ x, x ∈ l → tr_base_addr_owner_space_unaligned ring ≠ owned_base x) as Hbase.
  { intros x Hx Heq. pose proof (ro_dma _ _ _ (H3 x Hx)) as Hx'. rewrite <-Heq in Hx'. congruence. }
  assert (∀ x, x ∈ l → tr_ptr ring ≠ owned_ptr x) as Hptr.
  { intros x Hx Heq. apply Hnew. rewrite Heq. apply (ro_ptr _ _ _ (H3 x Hx)). }
  assert (∀ a, a ∈ region (tr_base_addr_owner_space_unaligned ring) size → w_mem w0 !! a = None) as Hm0.
  { intros a Ha. destruct (w_mem w0 !! a) eqn:E; [|done]. exfalso.
    assert (a ∈ dom (w_mem w)) as Hin.
    { apply H6; [|by apply elem_of_dom]. intros x Hx Hax.
      rewrite (ro_mem _ _ _ (H3 x Hx) a Hax) in E. done. }
    apply elem_of_dom in Hin as [y Hy]. rewrite (Hm a (region_bounds _ _ _ Ha)) in Hy. done. }
  split.
  - cbn. apply NoDup_cons. split; [|done]. intros (x & Heq & Hx)%list_elem_of_fmap. by eapply Hptr.
  - cbn. apply NoDup_cons. split; [|done]. intros (x & Heq & Hx)%list_elem_of_fmap. by eapply Hbase.
  - intros x [->|Hx]%elem_of_cons; cbn.
    + split; cbn; rewrite ?Hheap, ?Hdma; [split_and!; [done|set_solver|done]| |..|done].
      * apply lookup_insert_eq.
      * rewrite <-H5 by done. done.
    + destruct (H3 x Hx) as [(? & ? & ?) ???]. split; rewrite ?Hheap, ?Hdma; try done.
      * split_and!; [done|set_solver|done].
      * rewrite lookup_insert_ne by (by apply Hbase). done.
  - intros p Hp. rewrite Hheap, elem_of_union, elem_of_singleton.
    rewrite H4 by (intros x Hx; apply Hp; by right).
    specialize (Hp (block_of ring size) ltac:(by left)). cbn in Hp. naive_solver.
  - intros v Hv. rewrite Hdma. rewrite lookup_insert_ne.
    + apply H5. intros x Hx. apply Hv. by right.
    + intros Heq. by apply (Hv (block_of ring size) ltac:(by left)).
  - intros a Ha. rewrite Hmem. rewrite H6 by (intros x Hx; apply Ha; by right).
    specialize (Ha (block_of ring size) ltac:(by left)). cbn in Ha. naive_solver.
Qed.

Lemma new_block_grows v pa size k w : dma_block w v pa size → size = 4 * Z.of_nat k →
  w_mem w ⊆ write_words v (replicate k 0) (w_mem (dma_world v pa size w)).
Proof.
  intros [_ _ _ Hfree] Hk. apply map_subseteq_spec. intros x y Hx.
  assert (¬ v ≤ x < v + size + 4) as Hout by (intros H; rewrite (Hfree x H) in Hx; done).
  rewrite write_words_ne by (rewrite length_replicate; intros; lia).
  cbn. rewrite lookup_map_region, decide_False; [done|].
  intros H%region_bounds. lia.
Qed.

(** Allocating one ring of [n] entries of [4 * e] bytes. *)
Lemma alloc_ring_cases l w0 w n e : owns l w0 w → 0 < n → 0 < e → n * (4 * e) + 8 < 2 ^ 31 →
  ∃ r w', hal_srng_test_alloc_ring n (4 * e) w = Done (r, w') ∧
    w_map w' = w_map w ∧ grows w w' ∧
    match r with
    | inl err => err = - ENOMEM ∧ same_resources w w'
    | inr ring => owns (block_of ring (n * (4 * e) + 8) :: l) w0 w' ∧ new_ring n (n * (4 * e) + 8) ring w w'
    end.
Proof.
  intros Hl Hn He Hsize. set (size := n * (4 * e) + 8) in *. unfold hal_srng_test_alloc_ring.
  destruct (kmalloc_cases (sizeof_srng_test_ring n) w) as [E|(p & Hp & Hpn & E)];
    rewrite (M_bind_done _ _ _ _ _ E).
  { rewrite decide_True by done. eexists _, _. split; [done|]. by split_and!. }
  rewrite decide_False by done. rewrite s32_id by (unfold SRNG_TEST_DESC_RING_ALIGN; lia).
  fold size. set (w1 := (tick w) <| w_heap := {[p]} ∪ w_heap w |>) in *.
  destruct (dma_alloc_cases size w1) as [(pa & E2)|(v & pa & Hv & Hb & E2)];
    rewrite (M_bind_done _ _ _ _ _ E2).
  { rewrite decide_True by done. erewrite M_bind_done; [|apply kfree_eq; [done|]; cbn; set_solver].
    eexists _, _. split; [done|]. split_and!; try done.
    split; cbn; [set_solver|done..]. }
  rewrite decide_False by done.
  set (k := Z.to_nat (n * e + 2)).
  assert (size = 4 * Z.of_nat k) as Hk by (subst k size; rewrite Z2Nat.id by nia; lia).
  assert (mapped (w_mem (dma_world v pa size w1)) v k) as Hmap by (apply map_region_mapped; lia).
  rewrite (M_bind_done _ _ _ _ _ (memset0_eq v size k _ Hk Hmap)).
  destruct (db_range _ _ _ _ Hb) as (Hv0 & Hvt & Hp0 & Hpt).
  destruct (db_align _ _ _ _ Hb) as [Hva Hpaa].
  rewrite !page_aligned by (done || lia).
  assert (n < 2 ^ 31) by nia.
  eexists _, _. split; [reflexivity|]. split; [done|]. split; [by split; [|apply (new_block_grows v pa size k w1)]|]. split.
  - eapply owns_alloc; try done.
    + by destruct Hb.
    + intros a. cbn [w_mem update update_with]. rewrite dom_write_words by by rewrite length_replicate.
      rewrite elem_of_dom. cbn. rewrite lookup_map_region, elem_of_dom. case_decide; naive_solver.
  - assert (∀ j : nat, 4 * Z.of_nat j ≤ size → mapped
      (write_words v (replicate k 0) (w_mem (dma_world v pa size w1))) v j) as Hmapped.
    { intros j Hj. apply mapped_write, map_region_mapped. lia. }
    split; cbn [tr_nentries tr_nentries_mask tr_sw_index tr_write_index tr_skb tr_dma_size
      tr_base_addr_owner_space tr_base_addr_owner_space_unaligned tr_base_addr_test_space
      tr_base_addr_test_space_unaligned]; try done.
    + rewrite !wrap_id by lia. done.
    + by destruct Hb.
    + intros a Ha. cbn [w_mem update update_with]. by apply write_words_is_Some, map_region_is_Some.
    + cbn. set_solver.
Qed.

(** The rings a pipe holds, with the sizes [hal_srng_test_free_pipes] frees
    them with. *)
Definition ring_size_src (r : srng_test_ring) : Z :=
  u32 (u32 (tr_nentries r * sizeof_hal_test_sw2hw) + SRNG_TEST_DESC_RING_ALIGN).
Definition held (size : srng_test_ring → Z) (r : option srng_test_ring) : list ring_block :=
  match r with None => [] | Some r => [block_of r (size r)] end.
Definition pipe_owned (p : srng_test_pipe) : list ring_block :=
  held ring_size_src (pipe_src_ring p) ++ held tr_dma_size (pipe_dst_ring p) ++
  held tr_dma_size (pipe_status_ring p).
Definition pipe_emptied (p : srng_test_pipe) : srng_test_pipe :=
  p <| pipe_src_ring := None |> <| pipe_dst_ring := None |> <| pipe_status_ring := None |>.

Lemma owns_free_held size r l w0 w : owns (held size r ++ l) w0 w →
  ∃ w', match r with None => mret tt | Some r => free_ring (size r) r end w = Done (tt, w') ∧
    owns l w0 w' ∧ w_map w' = w_map w ∧ keeps (λ a, is_Some (w_mem w0 !! a)) (λ _, True) w w'.
Proof.
  intros Ho. destruct r as [r|]; cbn in Ho; [by apply owns_free|by exists w].
Qed.

Lemma free_pipe_owns p l w0 w : owns (pipe_owned p ++ l) w0 w →
  ∃ w', hal_srng_test_free_pipe p w = Done (pipe_emptied p, w') ∧ owns l w0 w' ∧
    w_map w' = w_map w ∧ keeps (λ a, is_Some (w_mem w0 !! a)) (λ _, True) w w'.
Proof.
  unfold pipe_owned. rewrite <-!app_assoc. intros H1.
  destruct (owns_free_held _ _ _ _ _ H1) as (w1 & E1 & H2 & M1 & I1).
  destruct (owns_free_held _ _ _ _ _ H2) as (w2 & E2 & H3 & M2 & I2).
  destruct (owns_free_held _ _ _ _ _ H3) as (w3 & E3 & H4 & M3 & I3).
  exists w3. split; [|split_and!; [done|congruence|by do 2 (etrans; [done|])]].
  unfold hal_srng_test_free_pipe.
  destruct p as [n f b x t r1 r2 r3]. cbn in E1, E2, E3 |- *.
  rewrite (M_bind_done _ _ _ (SrngTestPipe n f b x t None r2 r3) w1).
  2: { destruct r1; [by rewrite (M_bind_done _ _ _ _ _ E1)|]. mcbn in E1. by simplify_eq. }
  cbn. rewrite (M_bind_done _ _ _ (SrngTestPipe n f b x t None None r3) w2).
  2: { destruct r2; [by rewrite (M_bind_done _ _ _ _ _ E2)|]. mcbn in E2. by simplify_eq. }
  cbn. destruct r3; [by rewrite (M_bind_done _ _ _ _ _ E3)|]. mcbn in E3. by simplify_eq.
Qed.

Lemma free_pipes_list_owns ps l w0 w : owns (mjoin (pipe_owned <$> ps) ++ l) w0 w →
  ∃ w', mapM_pipes hal_srng_test_free_pipe ps w = Done (pipe_emptied <$> ps, w') ∧ owns l w0 w' ∧
    w_map w' = w_map w ∧ keeps (λ a, is_Some (w_mem w0 !! a)) (λ _, True) w w'.
Proof.
  revert w. induction ps as [|p ps IH]; intros w H; [by exists w|].
  cbn [fmap list_fmap mjoin list_join] in H. rewrite <-app_assoc in H.
  destruct (free_pipe_owns _ _ _ _ H) as (w1 & E1 & H1 & M1 & I1).
  destruct (IH _ H1) as (w2 & E2 & H2 & M2 & I2).
  exists w2. split; [|split_and!; [done|congruence|by etrans]]. cbn.
  by rewrite (M_bind_done _ _ _ _ _ E1), (M_bind_done _ _ _ _ _ E2).
Qed.

(** The rings of a whole [struct srng_test]. *)
Definition test_owned (st : srng_test) : list ring_block := mjoin (pipe_owned <$> st_pipes st).

Lemma free_pipes_owns st l w0 w : owns (test_owned st ++ l) w0 w →
  ∃ w', hal_srng_test_free_pipes st w =
      Done (st <| st_pipes := pipe_emptied <$> st_pipes st |>, w') ∧
    owns l w0 w' ∧ w_map w' = w_map w ∧ keeps (λ a, is_Some (w_mem w0 !! a)) (λ _, True) w w'.
Proof.
  intros H. destruct (free_pipes_list_owns _ _ _ _ H) as (w1 & E & ?).
  exists w1. split; [|done]. unfold hal_srng_test_free_pipes. by rewrite (M_bind_done _ _ _ _ _ E).
Qed.

(** The entries a count is rounded up to. *)
Definition pow2_entries (count : Z) : Z := 2 ^ Z.log2_up count.

Lemma pow2_entries_bound count : 0 < count ≤ 2 ^ 16 → 0 < pow2_entries count ≤ 2 ^ 16.
Proof.
  intros. unfold pow2_entries. split; [apply Z.pow_pos_nonneg; [lia|apply Z.log2_up_nonneg]|].
  apply Z.pow_le_mono_r; [lia|]. trans (Z.log2_up (2 ^ 16)); [apply Z.log2_up_le_mono; lia|by rewrite Z.log2_up_pow2].
Qed.

Lemma roundup_entries count : 0 < count ≤ 2 ^ 16 →
  s32 (roundup_pow_of_two count) = pow2_entries count.
Proof.
  intros H. pose proof (pow2_entries_bound count H). rewrite roundup_pow_of_two_spec by lia.
  apply s32_id. fold (pow2_entries count). lia.
Qed.

(** A ring of [count] entries of [e] words was made if [count] asks for one. *)
Definition ring_made (count e : Z) (r : option srng_test_ring) (w w' : world) : Prop :=
  if decide (count = 0) then r = None ∧ w' = w
  else ∃ ring, r = Some ring ∧
    new_ring (pow2_entries count) (pow2_entries count * (4 * e) + 8) ring w w'.

Record attr_ok (attr : srng_test_attr) : Prop := {
  ao_src : 0 ≤ attr_src_nentries attr ≤ 2 ^ 16;
  ao_dest : 0 ≤ attr_dest_nentries attr ≤ 2 ^ 16
}.

(** One [roundup_pow_of_two] and [hal_srng_test_alloc_ring], with the size the
    ring will be freed with. *)
Lemma alloc_entries_cases l w0 w count e : owns l w0 w → 0 < count ≤ 2 ^ 16 → 0 < e ≤ 5 →
  ∃ r w', hal_srng_test_alloc_ring (s32 (roundup_pow_of_two count)) (4 * e) w = Done (r, w') ∧
    w_map w' = w_map w ∧ grows w w' ∧
    match r with
    | inl err => err = - ENOMEM ∧ same_resources w w'
    | inr ring => owns (held tr_dma_size (Some ring) ++ l) w0 w' ∧
        (e = 5 → ring_size_src ring = tr_dma_size ring) ∧
        new_ring (pow2_entries count) (pow2_entries count * (4 * e) + 8) ring w w'
    end.
Proof.
  intros Hl Hc He. pose proof (pow2_entries_bound count Hc). rewrite roundup_entries by done.
  destruct (alloc_ring_cases l w0 w (pow2_entries count) e Hl) as (r & w' & E & Hm & Hi & Hr); [nia..|].
  exists r, w'. split_and!; [done..|]. destruct r as [err|ring]; [done|].
  destruct Hr as [Ho Hn]. pose proof (nr_size _ _ _ _ _ Hn) as Hsz. cbn.
  split_and!; [by rewrite Hsz| |done]. intros ->. unfold ring_size_src.
  rewrite Hsz, (proj1 (nr_entries _ _ _ _ _ Hn)).
  unfold sizeof_hal_test_sw2hw, SRNG_TEST_DESC_RING_ALIGN.
  rewrite (wrap_id 32 (_ * (4 * 5))), wrap_id by lia. done.
Qed.

Lemma made_none l w0 w w' count e : count = 0 → owns l w0 w → w' = w →
  owns (held ring_size_src None ++ l) w0 w ∧ ring_made count e None w w'.
Proof. intros -> ? ->. split; [done|]. by unfold ring_made. Qed.

Lemma made_some count e w w' ring : 0 < count →
  new_ring (pow2_entries count) (pow2_entries count * (4 * e) + 8) ring w w' →
  ring_made count e (Some ring) w w'.
Proof. intros Hc Hn. unfold ring_made. rewrite decide_False by lia. by exists ring. Qed.

(** The source ring of a pipe being filled in. *)
Lemma alloc_src_cases pipe attr l w0 w : attr_ok attr → pipe_src_ring pipe = None → owns l w0 w →
  ∃ ret r w', (if decide (attr_src_nentries attr = 0) then mret (0, pipe)
     else
       r ← hal_srng_test_alloc_ring (s32 (roundup_pow_of_two (attr_src_nentries attr)))
             sizeof_hal_test_sw2hw;
       match r with
       | inl err => mret (err, pipe)
       | inr ring => mret (0, pipe <| pipe_src_ring := Some ring |>)
       end) w = Done ((ret, pipe <| pipe_src_ring := r |>), w') ∧
    w_map w' = w_map w ∧ grows w w' ∧ owns (held ring_size_src r ++ l) w0 w' ∧
    ((ret = - ENOMEM ∧ r = None) ∨ (ret = 0 ∧ ring_made (attr_src_nentries attr) 5 r w w')).
Proof.
  intros [Hs _] Hnone Ho. case_decide as Hz.
  { exists 0, None, w. split; [by destruct pipe; cbn in *; subst|]. split_and!; [done|done|done|].
    right. split; [done|]. by eapply made_none. }
  destruct (alloc_entries_cases l w0 w (attr_src_nentries attr) 5 Ho) as (r & w' & E & Hm & Hi & Hr);
    [lia..|]. unfold sizeof_hal_test_sw2hw. rewrite (M_bind_done _ _ _ _ _ E).
  destruct r as [err|ring].
  - destruct Hr as [-> Hsame]. exists (- ENOMEM), None, w'.
    split; [by destruct pipe; cbn in *; subst|]. split_and!; [done|done|by eapply owns_same|by left].
  - destruct Hr as (Ho' & Hsz & Hn). exists 0, (Some ring), w'.
    split_and!; [done|done|done| |right; split; [done|apply made_some; [lia|done]]].
    cbn in Ho' |- *. by rewrite Hsz.
Qed.

(** The destination and status rings. *)
Definition alloc_dest_block (attr : srng_test_attr) (set : srng_test_pipe → srng_test)
    (pipe : srng_test_pipe) : M (Z * srng_test) :=
  if decide (attr_dest_nentries attr = 0) then mret (0, set pipe)
  else
    r ← hal_srng_test_alloc_ring (s32 (roundup_pow_of_two (attr_dest_nentries attr)))
          sizeof_hal_test_dst;
    match r with
    | inl err => mret (err, set pipe)
    | inr ring =>
        r ← hal_srng_test_alloc_ring (s32 (roundup_pow_of_two (attr_dest_nentries attr)))
              sizeof_hal_test_dst_status;
        match r with
        | inl err => mret (err, set (pipe <| pipe_dst_ring := Some ring |>))
        | inr ring2 => mret (0, set (pipe <| pipe_dst_ring := Some ring |>
                                          <| pipe_status_ring := Some ring2 |>))
        end
    end.

Lemma alloc_dest_cases pipe attr set l w0 w : attr_ok attr →
  pipe_dst_ring pipe = None → pipe_status_ring pipe = None → owns l w0 w →
  ∃ ret r2 r3 w', alloc_dest_block attr set pipe w =
      Done ((ret, set (pipe <| pipe_dst_ring := r2 |> <| pipe_status_ring := r3 |>)), w') ∧
    w_map w' = w_map w ∧ grows w w' ∧
    owns (held tr_dma_size r2 ++ held tr_dma_size r3 ++ l) w0 w' ∧
    (ret = - ENOMEM ∨ (ret = 0 ∧ ∃ w1, ring_made (attr_dest_nentries attr) 3 r2 w w1 ∧
       ring_made (attr_dest_nentries attr) 2 r3 w1 w')).
Proof.
  intros [_ Hd] H2 H3 Ho. unfold alloc_dest_block. case_decide as Hz.
  { exists 0, None, None, w. split; [by destruct pipe; cbn in *; subst|]. split_and!; [done|done|done|].
    right. split; [done|]. exists w. split; by eapply made_none. }
  destruct (alloc_entries_cases l w0 w (attr_dest_nentries attr) 3 Ho)
    as (r & w1 & E1 & M1 & I1 & Hr); [lia..|].
  unfold sizeof_hal_test_dst. rewrite (M_bind_done _ _ _ _ _ E1). destruct r as [err|ring].
  { destruct Hr as [-> Hsame]. exists (- ENOMEM), None, None, w1.
    split; [by destruct pipe; cbn in *; subst|].
    split_and!; [done|done|by eapply owns_same|by left]. }
  destruct Hr as (Ho1 & _ & Hn1).
  destruct (alloc_entries_cases _ w0 w1 (attr_dest_nentries attr) 2 Ho1)
    as (r & w2 & E2 & M2 & I2 & Hr); [lia..|].
  unfold sizeof_hal_test_dst_status. rewrite (M_bind_done _ _ _ _ _ E2). destruct r as [err|ring2].
  - destruct Hr as [-> Hsame]. exists (- ENOMEM), (Some ring), None, w2.
    split; [by destruct pipe; cbn in *; subst|].
    split_and!; [congruence|by etrans| |by left]. cbn. eapply owns_same; [exact Ho1|done].
  - destruct Hr as (Ho2 & _ & Hn2). exists 0, (Some ring), (Some ring2), w2.
    split_and!; [done|congruence|by etrans| |].
    + eapply owns_perm; [|exact Ho2]. cbn. constructor.
    + right. split; [done|]. exists w1. split; apply made_some; done || lia.
Qed.

Lemma alloc_pipe_cases st id pipe attr l w0 w :
  st_pipes st !! id = Some pipe → pipe_emptied pipe = pipe →
  st_config_val st !! id = Some attr → attr_ok attr → owns l w0 w →
  ∃ ret pipe' w', hal_srng_test_alloc_pipe st id w =
      Done ((ret, put_pipe st id pipe'), w') ∧
    owns (pipe_owned pipe' ++ l) w0 w' ∧ w_map w' = w_map w ∧ grows w w' ∧
    pipe_buf_sz pipe' = attr_src_sz_max attr ∧ pipe_intr_tq pipe' = pipe_intr_tq pipe ∧
    ((ret = - ENOMEM) ∨ (ret = 0 ∧
      pipe_attr_flags pipe' = attr_flags attr ∧
      pipe_rx_buf_needed pipe' = pipe_rx_buf_needed pipe ∧ pipe_num pipe' = Z.of_nat id ∧
      ∃ w1 w2, ring_made (attr_src_nentries attr) 5 (pipe_src_ring pipe') w w1 ∧
        ring_made (attr_dest_nentries attr) 3 (pipe_dst_ring pipe') w1 w2 ∧
        ring_made (attr_dest_nentries attr) 2 (pipe_status_ring pipe') w2 w')).
Proof.
  intros Hp Hempty Hattr Hok Ho. unfold hal_srng_test_alloc_pipe.
  rewrite Hp, (M_bind_done _ _ w pipe w) by done.
  rewrite Hattr, (M_bind_done _ _ w attr w) by done. cbv zeta.
  match goal with |- context [mret (0, ?p)] => set (pipe1 := p) end.
  assert (pipe_src_ring pipe1 = None ∧ pipe_dst_ring pipe1 = None ∧ pipe_status_ring pipe1 = None)
    as (N1 & N2 & N3) by (subst pipe1; clear -Hempty; destruct pipe; by injection Hempty as <- <- <-).
  assert (pipe_attr_flags pipe1 = attr_flags attr ∧ pipe_buf_sz pipe1 = attr_src_sz_max attr ∧
    pipe_rx_buf_needed pipe1 = pipe_rx_buf_needed pipe ∧ pipe_num pipe1 = Z.of_nat id ∧
    pipe_intr_tq pipe1 = pipe_intr_tq pipe) as (F1 & F2 & F3 & F4 & F5) by done.
  clearbody pipe1.
  destruct (alloc_src_cases pipe1 attr l w0 w Hok N1 Ho) as (ret & r1 & w1 & E1 & M1 & I1 & Ho1 & Hr1).
  rewrite (M_bind_done _ _ _ _ _ E1).
  destruct Hr1 as [[-> ->]|[-> Hr1]].
  { rewrite decide_True by done. eexists _, _, _. split; [done|].
    split_and!; [|done..|by left]. unfold pipe_owned.
    change (pipe_dst_ring (_ <| _ := _ |>)) with (pipe_dst_ring pipe1).
    change (pipe_status_ring (_ <| _ := _ |>)) with (pipe_status_ring pipe1).
    by rewrite N2, N3. }
  rewrite decide_False by (intros H; by apply H).
  pose (pipe2 := pipe1 <| pipe_src_ring := r1 |>).
  destruct (alloc_dest_cases pipe2 attr
    (put_pipe st id) _ w0 w1 Hok N2 N3 Ho1)
    as (ret & r2 & r3 & w2 & E2 & M2 & I2 & Ho2 & Hr2).
  exists ret, (pipe2 <| pipe_dst_ring := r2 |> <| pipe_status_ring := r3 |>), w2.
  split; [exact E2|].
  split_and!; [|congruence|by etrans|done|done|].
  - eapply owns_perm; [|exact Ho2]. unfold pipe_owned. cbn.
    rewrite !app_assoc. rewrite <-(app_assoc (held ring_size_src r1)).
    rewrite (Permutation_app_comm (held ring_size_src r1)). by rewrite <-!app_assoc.
  - destruct Hr2 as [->|[-> (w1' & Ha & Hb)]]; [by left|right]. split_and!; [done..|].
    exists w1, w1'. done.
Qed.

(** C23.  Pipes give back what they take: whatever mixture of rings a
    configuration asks for and whichever allocation fails, freeing the pipes
    after [hal_srng_test_alloc_pipe] does not fault and leaves exactly the
    resources of before.  A successful allocation makes each requested ring
    with the count rounded up to a power of two, on zeroed words. *)
Theorem pipe_alloc_free_balanced st pipe attr w :
  st_pipes st = [pipe] → pipe_emptied pipe = pipe →
  st_config_val st !! 0%nat = Some attr → attr_ok attr →
  ∃ ret st1 w1 st2 w2, hal_srng_test_alloc_pipe st 0 w = Done ((ret, st1), w1) ∧
    hal_srng_test_free_pipes st1 w1 = Done (st2, w2) ∧
    same_resources w w2 ∧ pipe_emptied <$> st_pipes st2 = st_pipes st2 ∧
    (ret = - ENOMEM ∨ ret = 0 ∧ ∃ pipe1 wa wb, st_pipes st1 = [pipe1] ∧
       ring_made (attr_src_nentries attr) 5 (pipe_src_ring pipe1) w wa ∧
       ring_made (attr_dest_nentries attr) 3 (pipe_dst_ring pipe1) wa wb ∧
       ring_made (attr_dest_nentries attr) 2 (pipe_status_ring pipe1) wb w1).
Proof.
  intros Hp Hempty Hattr Hok.
  destruct (alloc_pipe_cases st 0 pipe attr [] w w) as (ret & pipe1 & w1 & E1 & Ho & M1 & _ & _ & _ & Hr);
    [by rewrite Hp|done|done|done|apply owns_nil|].
  destruct (free_pipes_owns (put_pipe st 0 pipe1) [] w w1) as (w2 & E2 & Ho2 & M2 & _).
  { unfold test_owned, put_pipe. cbn. rewrite Hp. cbn. by rewrite !app_nil_r in *. }
  destruct (owns_nil_inv _ _ Ho2) as (Hh & Hd & Hm).
  exists ret, (put_pipe st 0 pipe1), w1. eexists _, w2. split_and!; [done|exact E2|..].
  - split; [done|done|congruence|done].
  - cbn. by rewrite Hp.
  - destruct Hr as [?|(-> & _ & _ & _ & wa & wb & ?)]; [by left|right].
    split; [done|]. exists pipe1, wa, wb. split; [|done]. cbn. by rewrite Hp.
Qed.
End life.
