(* ===== verification/SrngTestRun.v ===== *)
(** * The send test as a whole

    Theorems about [wireless_simu_hal_srng_test]
    (src/driver/driver_wireless/wireless_hal.c): from a ready HAL it runs to
    its end without a fault and gives back all it took, whatever the kernel
    answers to its allocations and mappings. *)

From S2P Require Import Prelude Kernel Bits HalTypes Hif HalRing RingProtocol HalSetup HalInit Skb.
From S2P Require Import SrngTest SrngSend PipeLife.

(* ------------------------------------------------------------------ *)
(** ** A ready HAL stays ready *)

Lemma hal_ready_mono hal w w' : hal_ready hal w →
  (∀ a, is_Some (w_mem w !! a) → is_Some (w_mem w' !! a)) → w_heap w ⊆ w_heap w' →
  hal_ready hal w'.
Proof.
  intros [[Hp Hin] Hv Hl Hr Hpa Hm] Hmem Hheap. split; try done.
  - split; [done|]. by apply Hheap.
  - intros k Hk. by apply Hmem, Hm.
Qed.

Lemma hal_ready_same hal w w' : hal_ready hal w → same_resources w w' → hal_ready hal w'.
Proof.
  intros Hr [Hh _ _ Hd]. eapply hal_ready_mono; [done| |by rewrite Hh].
  intros a Ha. apply elem_of_dom. rewrite Hd. by apply elem_of_dom.
Qed.

(** The HAL but for the rings' own records. *)
Record hal_kept (hal hal' : wireless_simu_hal) : Prop := {
  hk_rest : hal' <| hal_srng_list := [] |> = hal <| hal_srng_list := [] |>;
  hk_len : length (hal_srng_list hal') = length (hal_srng_list hal)
}.
#[export] Instance hal_kept_refl : Reflexive hal_kept.
Proof. by split. Qed.
#[export] Instance hal_kept_trans : Transitive hal_kept.
Proof. intros h1 h2 h3 [] []. split; by etrans. Qed.

Lemma put_srng_kept hal id s : hal_kept hal (put_srng hal id s).
Proof. split; [done|]. cbn. by rewrite length_insert. Qed.

Lemma hal_kept_fields hal hal' : hal_kept hal hal' →
  hal_config_ptr hal' = hal_config_ptr hal ∧ hal_config_val hal' = hal_config_val hal ∧
  hal_rdp_vaddr hal' = hal_rdp_vaddr hal ∧ hal_rdp_paddr hal' = hal_rdp_paddr hal ∧
  hal_wrp_vaddr hal' = hal_wrp_vaddr hal ∧ hal_wrp_paddr hal' = hal_wrp_paddr hal.
Proof.
  intros [H _]. split_and!;
    [exact (f_equal hal_config_ptr H)|exact (f_equal hal_config_val H)|exact (f_equal hal_rdp_vaddr H)
    |exact (f_equal hal_rdp_paddr H)|exact (f_equal hal_wrp_vaddr H)|exact (f_equal hal_wrp_paddr H)].
Qed.

Lemma hal_ready_kept hal hal' w : hal_ready hal w → hal_kept hal hal' → hal_ready hal' w.
Proof.
  intros [] Hk. pose proof (hk_len _ _ Hk).
  destruct (hal_kept_fields _ _ Hk) as (E1 & E2 & E3 & E4 & _ & _).
  split; rewrite ?E1, ?E2, ?E3, ?E4; try done. congruence.
Qed.

Lemma hal_ready_list hal w i s : hal_ready hal w → (i < length (hal_srng_list hal))%nat →
  hal_ready (hal <| hal_srng_list := <[i := s]> (hal_srng_list hal) |>) w.
Proof. intros [] _. split; try done. cbn. by rewrite length_insert. Qed.

(** A ring stays new while no block is given back. *)
Lemma new_ring_later n size ring w w1 w2 : new_ring n size ring w w1 →
  (∀ a, is_Some (w_mem w1 !! a) → is_Some (w_mem w2 !! a)) → w_heap w1 ⊆ w_heap w2 →
  new_ring n size ring w w2.
Proof.
  intros [] Hm Hh. split; try done.
  - intros k Hk j Hj. by apply Hm, (nr_mapped k).
  - intros a Ha. by apply Hm, nr_others.
  - by etrans.
Qed.

(** The HAL but for one ring's record. *)
Record ring_changed (id : Z) (hal hal' : wireless_simu_hal) : Prop := {
  rc_kept : hal_kept hal hal';
  rc_others i : i ≠ Z.to_nat id → hal_srng_list hal' !! i = hal_srng_list hal !! i
}.
#[export] Instance ring_changed_refl id : Reflexive (ring_changed id).
Proof. by split. Qed.
#[export] Instance ring_changed_trans id : Transitive (ring_changed id).
Proof. intros h1 h2 h3 [H1 G1] [H2 G2]. split; [by etrans|]. intros i Hi. rewrite G2; auto. Qed.

Lemma put_srng_changed hal id s : ring_changed id hal (put_srng hal id s).
Proof. split; [apply put_srng_kept|]. intros i Hi. cbn. by rewrite list_lookup_insert_ne. Qed.

Section run.
Context `{KO : KernelOk} `{BO : BitsOk} `{SO : SkbOk} (big : bool) (mmio_addr : Z).

(** A new ring may be set up. *)
Lemma new_ring_params hal t n ring w w' :
  hal_ready hal w → 1 < n ≤ 2 ^ 16 → new_ring n (n * (4 * type_entry_size t) + 8) ring w w' →
  params_ok hal t (test_params ring) w' ∧ hal_ready hal w'.
Proof.
  intros Hr Hn Hnew. pose proof (type_bounds t) as [_ Ht].
  destruct (nr_block _ _ _ _ _ Hnew) as [(Hv & Hvt & Hp & Hpt) _ _ Hfree].
  destruct (nr_entries _ _ _ _ _ Hnew) as [Hnum _].
  pose proof (rdp_word_mapped _ _ t Hr) as Hword.
  split.
  - split; cbn; rewrite ?Hnum, ?s32_id by lia; try done; try lia; try nia.
    + apply (nr_mapped _ _ _ _ _ Hnew). rewrite Z2Nat.id by nia. lia.
    + intros k Hk Heq. rewrite Heq, Hfree in Hword by lia. by destruct Hword.
  - eapply hal_ready_mono; [done| |apply (nr_heap _ _ _ _ _ Hnew)].
    apply (nr_others _ _ _ _ _ Hnew).
Qed.

(** Setting a ring up takes no resource. *)
Lemma setup_same hal t params w log :
  hal_ready hal w → params_ok hal t params w →
  same_resources w (w <| w_mmio := w_mmio w ++ log |> <| w_mem := setup_mem hal t params (w_mem w) |>).
Proof.
  intros Hr Hp. split; cbn; try done. unfold setup_mem.
  assert (dom (write_words (par_ring_base_vaddr params)
    (replicate (Z.to_nat (type_entry_size t * par_num_entries params)) 0) (w_mem w)) = dom (w_mem w)) as Hd.
  { apply dom_write_words. rewrite length_replicate. apply (po_mapped _ _ _ _ Hp). }
  rewrite dom_insert_L, Hd. apply subseteq_union_1_L. apply singleton_subseteq_l, elem_of_dom.
  by apply rdp_word_mapped.
Qed.

(** [hal_srng_test_init_ring] on a new ring. *)
Lemma init_ring_done hal t n ring w0 w :
  hal_ready hal w0 → 1 < n ≤ 2 ^ 16 → new_ring n (n * (4 * type_entry_size t) + 8) ring w0 w →
  ∃ s w1 log,
    hal_srng_test_init_ring big mmio_addr hal ring 0 t w =
      Done ((0, hal <| hal_srng_list := <[Z.to_nat (type_ring_id t) := s]> (hal_srng_list hal) |>,
             ring <| tr_hal_ring_id := type_ring_id t |>), w1) ∧
    same_resources w w1 ∧ w_mmio w1 = w_mmio w ++ log ∧
    hw_regs mmio_addr (type_ring_id t) (hal_rdp_paddr hal + 4 * type_ring_id t) s log ∧
    w1 = w <| w_mmio := w_mmio w ++ log |> <| w_mem := setup_mem hal t (test_params ring) (w_mem w) |> ∧
    (∃ old, s = setup_srng big mmio_addr hal t (test_params ring) old) ∧
    (type_dir t = HAL_SRNG_DIR_SRC → Source.initial mmio_addr s w1).
Proof.
  intros Hr0 Hn Hnew. destruct (new_ring_params _ _ _ _ _ _ Hr0 Hn Hnew) as [Hp Hr].
  destruct (setup_done big mmio_addr hal t _ w Hr Hp) as (old & log & _ & E & Hregs).
  eexists _, _, log. split; [|split_and!; [by apply setup_same|done|exact Hregs|done|by exists old|]].
  - unfold hal_srng_test_init_ring. rewrite (M_bind_done _ _ _ _ _ E).
    pose proof (type_bounds t). by rewrite decide_False by lia.
  - intros Hd. by apply setup_initial.
Qed.

(** Words and registers that the test must leave alone: nothing of them is
    the ring's. *)
Context (P Q : Z → Prop).
Abbreviation keeps := (keeps P Q).
Abbreviation test_changed := (ring_changed (type_ring_id HAL_TEST_SRNG)).

(** A pipe whose source ring is registered and satisfies the protocol. *)
Record registered (hal : wireless_simu_hal) (st : srng_test) (s : hal_srng)
    (pipe : srng_test_pipe) (ring : srng_test_ring) (w : world) (a t : list (list Z)) : Prop := {
  rg_pipes : st_pipes st = [pipe] ∧ pipe_src_ring pipe = Some ring;
  rg_id : tr_hal_ring_id ring = type_ring_id HAL_TEST_SRNG;
  rg_srng : hal_srng_list hal !! Z.to_nat (tr_hal_ring_id ring) = Some s;
  rg_unlocked : srng_lock s = false ∧ st_lock st = false;
  rg_slots : ∃ k, 0 ≤ k ≤ 16 ∧ tr_nentries_mask ring = Z.ones k ∧
    Z.of_nat (length (tr_skb ring)) = 2 ^ k ∧ 0 ≤ tr_write_index ring < 2 ^ k;
  rg_entry : srng_entry_size s = 5;
  rg_inv : Source.inv mmio_addr (Source.Link s w a t);
  rg_off : Source.off_limits mmio_addr P Q s
}.

(** The state the send loop runs in. *)
Record sending (hal : wireless_simu_hal) (st : srng_test) (store : skbs) (s : hal_srng)
    (pipe : srng_test_pipe) (ring : srng_test_ring) (b : sk_buff) (p : Z) (w : world)
    (a t : list (list Z)) : Prop := {
  sg_reg : registered hal st s pipe ring w a t;
  sg_skb : store !! p = Some b ∧ (4 ≤ length (skb_data (sb_buf b)))%nat
}.

Lemma registered_world hal st s pipe ring w w' a t :
  w_mem w' = w_mem w → w_mmio w' = w_mmio w →
  registered hal st s pipe ring w a t → registered hal st s pipe ring w' a t.
Proof.
  intros Hm Hi [? ? ? ? ? ? Hinv ?]. split; try done. by apply (Source.inv_world _ _ w).
Qed.

Lemma sending_ready hal st store s pipe ring b p w a t :
  sending hal st store s pipe ring b p w a t →
  send_ready mmio_addr hal st store s ring b p 0 w a t.
Proof.
  intros [[[Hp Hr] _ Hs Hu (k & _ & _ & Hlen & Hwi) He Hi _] [Hb _]].
  split; try done; [exists pipe; by rewrite Hp|by rewrite Hlen].
Qed.

(** What stays the same through the loop. *)
Record loop_kept (p : Z) (st st' : srng_test) (store store' : skbs) (pipe pipe' : srng_test_pipe)
    (w w' : world) : Prop := {
  lk_pipes : st_pipes st' = [pipe'];
  lk_owned : pipe_owned pipe' = pipe_owned pipe;
  lk_config : st_config_ptr st' = st_config_ptr st;
  lk_store : delete p store' = delete p store;
  lk_len : ∃ b b', store !! p = Some b ∧ store' !! p = Some b' ∧
    length (skb_data (sb_buf b')) = length (skb_data (sb_buf b));
  lk_same : same_resources w w';
  lk_keeps : keeps w w'
}.

(** One round: the message is written and sent, or the ring is full. *)
Lemma send_round hal st store s pipe ring b p w a t i :
  sending hal st store s pipe ring b p w a t →
  ∃ store1 ret hal1 st1 s1 pipe1 ring1 b1 a1 w1,
    do_skb_write store p 0 (word_bytes big i) w = Done (store1, w) ∧
    wireless_simu_hal_srng_test_send mmio_addr hal st store1 p 0 0 w = Done ((ret, hal1, st1), w1) ∧
    sending hal1 st1 store1 s1 pipe1 ring1 b1 p w1 a1 t ∧
    loop_kept p st st1 store store1 pipe pipe1 w w1 ∧ test_changed hal hal1.
Proof.
  intros [[[Hp Hr] Hrid Hs Hu (k & Hk & Hmask & Hslots & Hwi) He Hi Hol] [Hb Hlen]].
  assert (length (word_bytes big i) = 4%nat) as Hw by by destruct big.
  destruct (skb_write_done store p b 0 (word_bytes big i) w Hb) as (b1 & Ewr & _ & _ & Hlen1 & _); [lia|].
  set (store1 := <[p := b1]> store) in *.
  assert (send_ready mmio_addr hal st store1 s ring b1 p 0 w a t) as Hready.
  { split; try done; [exists pipe; by rewrite Hp|subst store1; apply lookup_insert_eq|by rewrite Hslots]. }
  destruct (test_send_cases mmio_addr hal st store1 s ring b1 p 0 w a t 0 Hready)
    as (room & s1 & pipe0 & w1 & _ & Hp0 & _ & Erun & Hl1 & He1 & Hsteps & Hsame & _).
  destruct (Source.reach_keeps _ P Q _ _ Hsteps Hi Hol) as [Hkeeps Hol1]. cbn in Hkeeps, Hol1.
  rewrite Hp in Hp0. cbn in Hp0. simplify_eq.
  set (ring1 := if room then _ else ring) in Erun.
  assert (tr_hal_ring_id ring1 = tr_hal_ring_id ring ∧
    held ring_size_src (Some ring1) = held ring_size_src (Some ring) ∧
    tr_nentries_mask ring1 = Z.ones k ∧ Z.of_nat (length (tr_skb ring1)) = 2 ^ k ∧
    0 ≤ tr_write_index ring1 < 2 ^ k) as (Hid & Hheld & Hm1 & Hlen2 & Hwi1).
  { subst ring1. destruct room; [|done]. cbn. rewrite length_insert, Hmask, Z.land_ones by lia.
    split_and!; try done; apply Z.mod_pos_bound, Z.pow_pos_nonneg; lia. }
  eexists store1, _, _, _, s1, (pipe0 <| pipe_src_ring := Some ring1 |>), ring1, b1, _, w1.
  split; [exact Ewr|]. split; [exact Erun|]. apply and_assoc. split; [|rewrite Hrid; apply put_srng_changed].
  split; split; [split|..]; try done.
  - split; [|done]. cbn. by rewrite Hp.
  - by rewrite Hid.
  - cbn. rewrite Hid. apply list_lookup_insert_eq. by eapply lookup_lt_Some.
  - by exists k.
  - by rewrite He1.
  - by apply (Source.reach_inv _ _ _ Hsteps).
  - split; [apply lookup_insert_eq|]. lia.
  - cbn. by rewrite Hp.
  - unfold pipe_owned. cbn [pipe_src_ring pipe_dst_ring pipe_status_ring update update_with].
    by rewrite Hheld, Hr.
  - subst store1. by rewrite delete_insert_eq.
  - exists b, b1. split_and!; [done|apply lookup_insert_eq|done].
Qed.

Lemma loop_kept_trans p st st1 st2 store store1 store2 pipe pipe1 pipe2 w w1 w2 :
  loop_kept p st st1 store store1 pipe pipe1 w w1 →
  loop_kept p st1 st2 store1 store2 pipe1 pipe2 w1 w2 →
  loop_kept p st st2 store store2 pipe pipe2 w w2.
Proof.
  intros [H1 H2 H3 H4 (b & b1 & Hb & Hb1 & Hl1) H6 H7] [G1 G2 G3 G4 (b1' & b2 & Hb1' & Hb2 & Hl2) G6 G7].
  split; [done|congruence|congruence|congruence| |by etrans|by etrans].
  exists b, b2. split_and!; [done|done|]. simplify_eq. congruence.
Qed.

(** The loop ends, with everything it does not send kept. *)
Lemma send_loop_done n hal st store s pipe ring b p w a t i :
  sending hal st store s pipe ring b p w a t →
  ∃ hal' st' store' pipe' w',
    send_loop big mmio_addr hal st store p n i w = Done ((hal', st', store'), w') ∧
    loop_kept p st st' store store' pipe pipe' w w' ∧ test_changed hal hal'.
Proof.
  revert hal st store s pipe ring b w a i. induction n as [|n IH];
    intros hal st store s pipe ring b w a i Hsg.
  { exists hal, st, store, pipe, w. split; [done|].
    destruct Hsg as [[[] ???????] []]. split; [|done]. split; try done. by exists b, b. }
  destruct (send_round _ _ _ _ _ _ _ _ _ _ _ i Hsg)
    as (store1 & ret & hal1 & st1 & s1 & pipe1 & ring1 & b1 & a1 & w1 & Ewr & Erun & Hsg1 & Hk1 & Hh1).
  cbn. rewrite (M_bind_done _ _ _ _ _ Ewr), (M_bind_done _ _ _ _ _ Erun). case_decide.
  - by exists hal1, st1, store1, pipe1, w1.
  - destruct (IH _ _ _ _ _ _ _ _ _ (i + 1) Hsg1) as (hal2 & st2 & store2 & pipe2 & w2 & E2 & Hk2 & Hh2).
    exists hal2, st2, store2, pipe2, w2. split; [done|]. split; [by eapply loop_kept_trans|by etrans].
Qed.

(* ------------------------------------------------------------------ *)
(** ** The labels at the end *)

(** The world once [w0] has lost the configuration block [c]. *)
Record cleared (c : Z) (w0 w' : world) : Prop := {
  cl_heap : w_heap w' = w_heap w0 ∖ {[c]};
  cl_dma : w_dma w' = w_dma w0;
  cl_map : w_map w' = w_map w0;
  cl_dom : dom (w_mem w') = dom (w_mem w0)
}.

Lemma clear_done hal st store w0 w : (∀ x, P x → is_Some (w_mem w0 !! x)) →
  owns (test_owned st) w0 w → w_map w = w_map w0 →
  st_config_ptr st ≠ 0 → st_config_ptr st ∈ w_heap w0 →
  ∃ w', test_clear hal st store w = Done ((hal, store), w') ∧ cleared (st_config_ptr st) w0 w' ∧
    keeps w w'.
Proof.
  intros HP Ho Hm Hc Hin. rewrite <-(app_nil_r (test_owned st)) in Ho.
  destruct (free_pipes_owns st [] w0 w Ho) as (w1 & E & Ho1 & M1 & Hk).
  destruct (owns_nil_inv _ _ Ho1) as (Hh & Hd & Hdom).
  eexists. split; [|split].
  - unfold test_clear. rewrite (M_bind_done _ _ _ _ _ E).
    rewrite (M_bind_done _ _ _ _ _ (kfree_eq (st_config_ptr st) w1 Hc ltac:(by rewrite Hh))). done.
  - split; cbn; congruence.
  - apply (keeps_mono _ P _ Q) in Hk; [by destruct Hk|done|done].
Qed.

Lemma test_owned_one st pipe : st_pipes st = [pipe] → test_owned st = pipe_owned pipe.
Proof. intros H. unfold test_owned. rewrite H. apply app_nil_r. Qed.

(** The world with one heap block more. *)
Definition heap_world (d : Z) (w : world) : world := (tick w) <| w_heap := {[d]} ∪ w_heap w |>.

Lemma same_after_kfree d w w1 : d ∉ w_heap w → same_resources (heap_world d w) w1 →
  same_resources w (w1 <| w_heap := w_heap w1 ∖ {[d]} |>).
Proof.
  intros Hd [Hh Hdm Hm Hdom]. cbn in Hh. split; cbn; [|done..]. rewrite Hh. set_solver.
Qed.

(** [kfree(data)] and the labels after it. *)
Lemma free_data_done hal st store d w0 wd w : (∀ x, P x → is_Some (w_mem w0 !! x)) →
  d ≠ 0 → d ∉ w_heap wd → same_resources (heap_world d wd) w →
  owns (test_owned st) w0 wd → w_map wd = w_map w0 →
  st_config_ptr st ≠ 0 → st_config_ptr st ∈ w_heap w0 →
  ∃ w', (kfree d;; test_clear hal st store) w = Done ((hal, store), w') ∧
    cleared (st_config_ptr st) w0 w' ∧ keeps w w'.
Proof.
  intros HP Hd Hdn Hs Ho Hm Hc Hin. pose proof (same_after_kfree d wd w Hdn Hs) as Hs3.
  erewrite M_bind_done; [|apply kfree_eq; [done|]].
  - destruct (clear_done hal st store w0 (w <| w_heap := w_heap w ∖ {[d]} |>) HP)
      as (w' & E & Hcl & Hk); [by eapply owns_same|by rewrite (same_map _ _ Hs3)|done|done|].
    exists w'. split; [exact E|]. split; [done|]. by destruct Hk.
  - rewrite (same_heap _ _ Hs). cbn. apply elem_of_union_l. by apply elem_of_singleton.
Qed.

(** The part under a DMA mapping. *)
Lemma mapped_done hal st store s pipe ring b p w a t d pa w0 wd :
  sending hal st store s pipe ring b p w a t →
  d ≠ 0 → d ∉ w_heap wd → w_map wd !! pa = None →
  same_resources ((heap_world d wd) <| w_map := <[pa := skb_len (sb_buf b)]> (w_map wd) |>) w →
  owns (test_owned st) w0 wd → w_map wd = w_map w0 → (∀ x, P x → is_Some (w_mem w0 !! x)) →
  st_config_ptr st ≠ 0 → st_config_ptr st ∈ w_heap w0 →
  ∃ hal' w', test_mapped big mmio_addr hal st store p d pa w = Done ((hal', delete p store), w') ∧
    cleared (st_config_ptr st) w0 w' ∧ test_changed hal hal' ∧ keeps w w'.
Proof.
  intros [Hreg [Hb Hlen]] Hd Hdn Hpa Hsame Ho Hm HP Hc Hin.
  pose proof (rg_pipes _ _ _ _ _ _ _ _ Hreg) as [Hp Hr]. unfold test_mapped.
  set (b1 := b <| sb_cb := sb_cb b <| cb_paddr := pa |> |>).
  rewrite (M_bind_done _ _ w (<[p := b1]> store) w).
  2: { unfold set_cb, get_skb. by rewrite Hb. }
  assert (sending hal st (<[p := b1]> store) s pipe ring b1 p w a t) as Hsg.
  { split; [done|]. split; [apply lookup_insert_eq|done]. }
  destruct (send_loop_done 50 _ _ _ _ _ _ _ _ _ _ _ 0 Hsg)
    as (hal' & st' & store' & pipe' & w1 & E & [Hp' Ho' Hc' Hst' (b1' & b2 & Hb1 & Hb2 & Hl) Hs' Hk'] & Hhk).
  rewrite lookup_insert_eq in Hb1. simplify_eq.
  rewrite (M_bind_done _ _ _ _ _ E), (M_bind_done _ _ _ _ _ (get_skb_done _ _ _ w1 Hb2)).
  assert (same_resources ((heap_world d wd) <| w_map := <[pa := skb_len (sb_buf b)]> (w_map wd) |>) w1)
    as Hs1 by by etrans.
  assert (skb_len (sb_buf b2) = skb_len (sb_buf b)) as Hlb by (unfold skb_len; by rewrite Hl).
  set (w2 := w1 <| w_map := delete pa (w_map w1) |>).
  rewrite (M_bind_done _ _ w1 tt w2).
  2: { unfold dma_unmap_single. rewrite decide_True; [done|].
       rewrite (same_map _ _ Hs1). cbn. by rewrite lookup_insert_eq, Hlb. }
  rewrite (M_bind_done _ _ _ _ _ (kfree_skb_done _ _ _ w2 Hb2)).
  assert (same_resources (heap_world d wd) w2) as Hs2.
  { destruct Hs1 as [E1 E2 E3 E4]. split; cbn; [done|done| |done].
    rewrite E3. cbn. by rewrite delete_insert_id. }
  rewrite <-Hc' in *.
  destruct (free_data_done hal' st' (delete p store') d w0 wd w2) as (w3 & E3 & Hcl & Hk3); try done.
  { rewrite (test_owned_one _ _ Hp'), Ho', <-(test_owned_one _ _ Hp). done. }
  exists hal', w3. split; [|split; [done|split; [done|]]].
  - rewrite E3, Hst'. by rewrite delete_insert_eq.
  - etrans; [exact Hk'|]. etrans; [|exact Hk3]. by apply keeps_same.
Qed.

(** The data buffer and the socket buffer in front of it. *)
Lemma traffic_done hal st store s pipe ring w a t w0 :
  registered hal st s pipe ring w a t →
  owns (test_owned st) w0 w → w_map w = w_map w0 → (∀ x, P x → is_Some (w_mem w0 !! x)) →
  st_config_ptr st ≠ 0 → st_config_ptr st ∈ w_heap w0 →
  ∃ hal' w', test_traffic big mmio_addr hal st store w = Done ((hal', store), w') ∧
    cleared (st_config_ptr st) w0 w' ∧ test_changed hal hal' ∧ keeps w w'.
Proof.
  intros Hreg Ho Hm HP Hc Hin. unfold test_traffic.
  assert (roundup 50 4 = 52) as -> by by rewrite roundup_spec.
  assert (roundup 52 4 = 52) as -> by by rewrite roundup_spec. cbv zeta.
  destruct (kmalloc_cases 52 w) as [E|(d & Hd & Hdn & E)]; rewrite (M_bind_done _ _ _ _ _ E).
  { rewrite decide_True by done. destruct (clear_done hal st store w0 (tick w)) as (w' & ? & ? & []); try done.
    - by eapply owns_same.
    - by exists hal, w'. }
  rewrite decide_False by done. fold (heap_world d w).
  destruct (dev_alloc_skb_cases store 52 (heap_world d w)) as [E2|(p & Hp & Hpn & E2)];
    rewrite (M_bind_done _ _ _ _ _ E2).
  { rewrite decide_True by done.
    destruct (free_data_done hal st store d w0 w (tick (heap_world d w))) as (w' & ? & ? & []); try done.
    by exists hal, w'. }
  rewrite decide_False by done. set (w1 := tick (heap_world d w)).
  destruct (skb_new_put p 52 store w1) as (b1 & E3 & Hl1 & _); [lia|].
  rewrite (M_bind_done _ _ _ _ _ E3).
  destruct (skb_write_done (<[p := b1]> store) p b1 0
    (replicate 4 6 ++ replicate (Z.to_nat (52 - 8)) 0 ++ replicate 4 7) w1)
    as (b & E4 & _ & _ & Hl & _); [apply lookup_insert_eq|rewrite !length_app, !length_replicate; lia|].
  rewrite insert_insert_eq in E4. rewrite (M_bind_done _ _ _ _ _ E4).
  rewrite (M_bind_done _ _ w1 b w1) by (apply get_skb_done, lookup_insert_eq).
  destruct (dma_map_cases (k_skb_addr p (sb_buf b)) (skb_len (sb_buf b)) w1)
    as (pa & [[E5 Herr]|(E5 & Herr & Hpa)]); rewrite (M_bind_done _ _ _ _ _ E5).
  - unfold dma_mapping_error. rewrite Herr, (M_bind_done _ _ _ true (tick w1)) by done.
    rewrite (M_bind_done _ _ _ _ _ (kfree_skb_done _ p b _ (lookup_insert_eq _ _ _))).
    rewrite delete_insert_id by done.
    destruct (free_data_done hal st store d w0 w (tick w1)) as (w' & ? & ? & []); try done.
    by exists hal, w'.
  - unfold dma_mapping_error. rewrite Herr.
    set (w2 := (tick w1) <| w_map := <[pa := skb_len (sb_buf b)]> (w_map w1) |>).
    rewrite (M_bind_done _ _ w2 false w2) by done.
    destruct (mapped_done hal st (<[p := b]> store) s pipe ring b p w2 a t d pa w0 w)
      as (hal' & w' & E6 & Hcl & Hhk & []); try done.
    + split; [by eapply registered_world; [..|exact Hreg]|]. split; [apply lookup_insert_eq|lia].
    + exists hal', w'. by rewrite E6, delete_insert_id.
Qed.

Lemma cleared_same c w w' : c ∉ w_heap w → cleared c (heap_world c w) w' → same_resources w w'.
Proof. intros Hc [Hh Hd Hm Hdom]. split; [|done..]. rewrite Hh. cbn. set_solver. Qed.

(** The state before the pipes are allocated. *)
Definition test_start (c : Z) : srng_test :=
  srng_test_zero <| st_config_ptr := c |> <| st_config_val := srng_test_configs |>
                 <| st_lock := false |>.

Lemma srng_test_configs_ok : attr_ok (SrngTestAttr 0 32 2048 0).
Proof. by split. Qed.

(** The words and registers of others: mapped before the test, not the tail
    pointer of its ring, not in its ring's window. *)
Record elsewhere (hal : wireless_simu_hal) (w0 : world) : Prop := {
  el_mapped x : P x → is_Some (w_mem w0 !! x);
  el_rdp x : P x → x ≠ rdp_word hal HAL_TEST_SRNG;
  el_regs r : Q r → ¬ 0 ≤ r - (mmio_addr + 0x10000 + 256 * type_ring_id HAL_TEST_SRNG) < 256
}.

Lemma elsewhere_not_of hal ring w0 w : new_ring 32 (32 * (4 * 5) + 8) ring w0 w → elsewhere hal w0 →
  not_of P Q mmio_addr hal HAL_TEST_SRNG (test_params ring).
Proof.
  intros Hnew [Hm Hr Hq]. split; [done| |done]. intros x k Hx Hk ->.
  destruct (nr_block _ _ _ _ _ Hnew) as [_ _ _ Hfree].
  destruct (nr_entries _ _ _ _ _ Hnew) as [Hnum _]. cbn in Hx, Hk. rewrite Hnum in Hk.
  destruct (Hm _ Hx) as [v Hv]. rewrite Hfree in Hv; [done|]. change (s32 32) with 32 in Hk. lia.
Qed.

(** The registration of the pipe [hal_srng_test_alloc_pipe] made. *)
Lemma register_done hal st pipe ring w0 w :
  hal_ready hal w0 → st_pipes st = [pipe] → pipe_src_ring pipe = Some ring → st_lock st = false →
  new_ring 32 (32 * (4 * 5) + 8) ring w0 w → elsewhere hal w0 →
  ∃ hal' st' s pipe' ring' w', register_pipes big mmio_addr hal st pipe_ids w =
      Done ((0, hal', st'), w') ∧
    registered hal' st' s pipe' ring' w' [] [] ∧ same_resources w w' ∧
    test_owned st' = test_owned st ∧ st_config_ptr st' = st_config_ptr st ∧ test_changed hal hal' ∧ keeps w w'.
Proof.
  intros Hr Hp Hsrc Hl Hnew Helse. pose proof (elsewhere_not_of _ _ _ _ Hnew Helse) as Hno.
  destruct (new_ring_params hal HAL_TEST_SRNG 32 ring w0 w Hr ltac:(lia) Hnew) as [Hpar Hr2].
  destruct (init_ring_done hal HAL_TEST_SRNG 32 ring w0 w Hr ltac:(lia) Hnew)
    as (s & w1 & log & E & Hsame & _ & Hlog & Hw1 & (old & Hs) & Hinit).
  destruct (nr_entries _ _ _ _ _ Hnew) as [Hn Hm].
  destruct (setup_srng_fields big mmio_addr hal HAL_TEST_SRNG (test_params ring) old)
    as (_ & _ & He & _ & _ & _ & _ & Hlk & _).
  eexists _, _, s, _, _, w1. split; [|split; [|split; [exact Hsame|]]].
  - cbn [pipe_ids register_pipes seq SRNG_TEST_PIPE_COUNT_MAX]. rewrite Hp.
    erewrite M_bind_done by reflexivity. rewrite Hsrc.
    rewrite (M_bind_done _ _ _ _ _ E), decide_False by (intros H; by apply H). reflexivity.
  - split.
    + split; [cbn; by rewrite Hp|done].
    + done.
    + cbn. apply list_lookup_insert_eq. rewrite (hr_list _ _ Hr). apply Nat.ltb_lt. by vm_compute.
    + by rewrite Hs.
    + exists 5. cbn. rewrite Hm, (nr_skb _ _ _ _ _ Hnew). by vm_compute.
    + by rewrite Hs.
    + by apply Source.initial_inv, Hinit.
    + rewrite Hs. by apply (setup_off_limits P Q big mmio_addr hal HAL_TEST_SRNG (test_params ring) old w).
  - split; [|split; [done|split]].
    + unfold test_owned. cbn. rewrite Hp. cbn. unfold pipe_owned. cbn. by rewrite Hsrc.
    + apply put_srng_changed.
    + rewrite Hw1. eapply setup_keeps; [exact Hno|destruct Hpar; lia|exact Hlog].
Qed.

(** The whole test, and what it keeps of the HAL. *)
Lemma srng_test_done hal store w :
  hal_ready hal w → elsewhere hal w →
  ∃ hal' w', wireless_simu_hal_srng_test big mmio_addr hal store w = Done ((hal', store), w') ∧
    same_resources w w' ∧ test_changed hal hal' ∧ keeps w w'.
Proof.
  intros Hr Helse. pose proof (el_mapped _ _ Helse) as HP. unfold wireless_simu_hal_srng_test.
  destruct (kmalloc_cases (sizeof_srng_test_attr * Z.of_nat (length srng_test_configs)) w)
    as [E|(c & Hc & Hcn & E)]; rewrite (M_bind_done _ _ _ _ _ E).
  { rewrite decide_True by done. by exists hal, (tick w). }
  rewrite decide_False by done. fold (heap_world c w) (test_start c).
  assert (hal_ready hal (heap_world c w)) as Hr1
    by (apply (hal_ready_mono hal w); [done|done|]; apply union_subseteq_r).
  assert (c ∈ w_heap (heap_world c w)) as Hcin by (cbn; apply elem_of_union_l; by apply elem_of_singleton).
  destruct (alloc_pipe_cases (test_start c) 0 srng_test_pipe_zero (SrngTestAttr 0 32 2048 0) []
    (heap_world c w) (heap_world c w) eq_refl eq_refl eq_refl srng_test_configs_ok (owns_nil _))
    as (ret & pipe & w1 & E1 & Ho & M1 & [Hg1 Hg2] & _ & _ & Hret).
  pose proof (keeps_grow P Q (heap_world c w) w1 HP Hg2 Hg1) as Hk1.
  rewrite app_nil_r in Ho.
  assert (test_owned (put_pipe (test_start c) 0 pipe) = pipe_owned pipe) as Hown
    by by apply test_owned_one.
  rewrite <-Hown in Ho.
  assert (alloc_pipes (test_start c) pipe_ids (heap_world c w) =
    Done ((ret, put_pipe (test_start c) 0 pipe), w1)) as E2.
  { cbn [pipe_ids alloc_pipes seq SRNG_TEST_PIPE_COUNT_MAX]. rewrite (M_bind_done _ _ _ _ _ E1).
    case_decide as Hz; [done|]. by assert (ret = 0) as -> by lia. }
  rewrite (M_bind_done _ _ _ _ _ E2). destruct Hret as [->|(-> & _ & _ & _ & wa & wb & Ha & Hb & Hd)].
  { rewrite decide_True by done.
    destruct (clear_done hal (put_pipe (test_start c) 0 pipe) store (heap_world c w) w1 HP Ho)
      as (w2 & E3 & Hcl & Hk2); [done..|].
    exists hal, w2. split; [done|]. split; [by eapply cleared_same|]. split; [done|].
    etrans; [by apply (keeps_same _ _ _ (heap_world c w))|]. by etrans. }
  rewrite decide_False by (intros H; by apply H).
  destruct Ha as (ring & Hring & Hnew). destruct Hb as [_ ->]. destruct Hd as [_ ->].
  destruct (register_done hal (put_pipe (test_start c) 0 pipe) pipe ring (heap_world c w) wa
    Hr1 eq_refl Hring eq_refl Hnew) as (hal2 & st2 & s & pipe2 & ring2 & w2 & E3 & Hreg & Hsame & Ho2 & Hc2 & Hk2 & Hkp2);
    [by destruct Helse|].
  rewrite (M_bind_done _ _ _ _ _ E3), decide_False by (intros H; by apply H).
  assert (st_config_ptr st2 = c) as Hc3 by (by rewrite Hc2).
  destruct (traffic_done hal2 st2 store s pipe2 ring2 w2 [] [] (heap_world c w) Hreg)
    as (hal3 & w3 & E4 & Hcl & Hk3 & Hkp3); [|by rewrite (same_map _ _ Hsame)|exact HP|by rewrite Hc3..|].
  { rewrite Ho2. by eapply owns_same. }
  exists hal3, w3. split; [exact E4|]. rewrite Hc3 in Hcl. split; [by eapply cleared_same|].
  split; [by etrans|]. etrans; [by apply (keeps_same _ _ _ (heap_world c w))|].
  etrans; [exact Hk1|]. etrans; [exact Hkp2|exact Hkp3].
Qed.
End run.

Section theorems.
Context `{KO : KernelOk} `{BO : BitsOk} `{SO : SkbOk} (big : bool) (mmio_addr : Z).

(** C10.  The whole send test is safe and balanced: started on a ready HAL,
    [wireless_simu_hal_srng_test] never faults - no invalid access, double
    free, deadlock or buffer overrun - and when it returns the heap, the
    coherent regions, the streaming mappings, the mapped memory and the socket
    buffers are those of before the call, whatever the kernel answered to each
    allocation and mapping. *)
Theorem srng_test_balanced hal store w :
  hal_ready hal w →
  ∃ hal' w', wireless_simu_hal_srng_test big mmio_addr hal store w = Done ((hal', store), w') ∧
    same_resources w w'.
Proof.
  intros Hr. destruct (srng_test_done big mmio_addr (λ _, False) (λ _, False) hal store w Hr)
    as (hal' & w' & E & H & _); [by split|]. by exists hal', w'.
Qed.

(** C11.  The send test keeps to its own: every word that was mapped before it
    reads the same after it, but for the tail pointer word of the test's ring;
    so does every register outside the window of that ring; and the records of
    all other rings in [hal->srng_list] are as they were.  In particular the
    receive path, started before the test, is undisturbed. *)
Theorem srng_test_confined hal store w hal' w' :
  hal_ready hal w →
  wireless_simu_hal_srng_test big mmio_addr hal store w = Done ((hal', store), w') →
  (∀ x, is_Some (w_mem w !! x) → x ≠ rdp_word hal HAL_TEST_SRNG → w_mem w' !! x = w_mem w !! x) ∧
  (∀ r, ¬ 0 ≤ r - (mmio_addr + 0x10000 + 256 * type_ring_id HAL_TEST_SRNG) < 256 →
     mmio_last (w_mmio w') r = mmio_last (w_mmio w) r) ∧
  (∀ i, i ≠ Z.to_nat (type_ring_id HAL_TEST_SRNG) → hal_srng_list hal' !! i = hal_srng_list hal !! i).
Proof.
  intros Hr E. destruct (srng_test_done big mmio_addr
    (λ x, is_Some (w_mem w !! x) ∧ x ≠ rdp_word hal HAL_TEST_SRNG)
    (λ r, ¬ 0 ≤ r - (mmio_addr + 0x10000 + 256 * type_ring_id HAL_TEST_SRNG) < 256) hal store w Hr)
    as (hal2 & w2 & E2 & _ & [_ Ho] & [Hm Hq]); [split; naive_solver|].
  rewrite E in E2. injection E2 as <- <-. split; [|by split]. intros x Hx Hn. by apply Hm.
Qed.
End theorems.
