(* ===== verification/DstTest.v ===== *)
(** * Receiving: the destination ring and its status ring

    Source: src/driver/driver_wireless/wireless_hal.c, functions
    [wireless_simu_test_dst_get_length] to
    [wireless_simu_hal_srng_dst_test_deinit].  The host posts empty buffers
    through a source-type ring (the "dst" ring) and learns from a
    destination-type ring (the "dst status" ring) which of them the device has
    filled.  [priv->st_dst] is persistent, so the operations pass the parts of
    [struct wireless_simu] they change as a [dst_priv].

    Loops get their number of rounds from the state: posting makes at most
    [rx_buf_needed] rounds, draining the status ring at most [nentries]; the
    theorems about them show that the bound is never the reason to stop. *)

From S2P Require Import Prelude Kernel Bits HalTypes Hif HalRing RingProtocol HalSetup HalInit Skb.
From S2P Require Import SrngTest.

Definition WIRELESS_SIMU_RX_POST_RETRY_JIFFIES : Z := 50.

(** The parts of [struct wireless_simu] the receive path works on. *)
Record dst_priv `{SA : SkbApi} := DstPriv {
  dp_hal : wireless_simu_hal;
  dp_st : srng_test;                    (* priv->st_dst *)
  dp_skbs : skbs
}.
Arguments DstPriv {_} _ _ _.
#[export] Instance eta_dst_priv `{SA : SkbApi} : Eta dst_priv :=
  MkEta (λ p, DstPriv (dp_hal p) (dp_st p) (dp_skbs p)).

Section receive.
Context `{K : Kernel} `{B : Bits} `{SA : SkbApi} (CONFIG_CPU_BIG_ENDIAN : bool) (mmio_addr : Z).

Definition get_pipe (p : dst_priv) (id : nat) : M srng_test_pipe :=
  of_option OutOfBounds (st_pipes (dp_st p) !! id).
Definition set_pipe (p : dst_priv) (id : nat) (pipe : srng_test_pipe) : dst_priv :=
  p <| dp_st := put_pipe (dp_st p) id pipe |>.
Definition set_srng (p : dst_priv) (id : Z) (srng : hal_srng) : dst_priv :=
  p <| dp_hal := put_srng (dp_hal p) id srng |>.
Definition set_lock (p : dst_priv) (l : bool) : dst_priv :=
  p <| dp_st := dp_st p <| st_lock := l |> |>.

(** [skb->len + skb_tailroom(skb)] *)
Definition skb_room (b : sk_buff) : Z := u32 (skb_len (sb_buf b) + skb_tailroom (sb_buf b)).

(* ------------------------------------------------------------------ *)
(** ** Taking one status entry *)

(** [desc->buffer_length], the first word. *)
Definition wireless_simu_test_dst_get_length (desc : Z) : M Z := load32 desc.

(** The critical section of [wireless_simu_test_dst_recv_next]: return code,
    buffer, length, ring and pipe. *)
Definition dst_recv_locked (srng : hal_srng) (pipe : srng_test_pipe) (ring : srng_test_ring)
    : M (Z * Z * Z * hal_srng * srng_test_pipe) :=
  let sw_index := tr_sw_index ring in
  srng ← wireless_simu_hal_srng_access_begin srng;
  '(desc, srng) ← wireless_simu_hal_srng_dst_get_next_entry srng;
  if decide (desc = 0) then mret (- EIO, 0, 0, srng, pipe)
  else
    nbytes ← wireless_simu_test_dst_get_length desc;
    if decide (nbytes = 0) then mret (- EIO, 0, 0, srng, pipe)
    else
      skb ← of_option OutOfBounds (tr_skb ring !! Z.to_nat sw_index);
      ring ← set_ring_skb ring sw_index 0;
      let ring := ring <| tr_sw_index := Z.land (u32 (sw_index + 1)) (tr_nentries_mask ring) |> in
      mret (0, skb, nbytes, srng,
            pipe <| pipe_dst_ring := Some ring |>
                 <| pipe_rx_buf_needed := u32 (pipe_rx_buf_needed pipe + 1) |>).

Definition wireless_simu_test_dst_recv_next (p : dst_priv) (pipe_id : nat)
    : M (Z * Z * Z * dst_priv) :=
  pipe ← get_pipe p pipe_id;
  l ← lock_acquire (st_lock (dp_st p));
  ring ← of_option NullDeref (pipe_dst_ring pipe);
  status ← of_option NullDeref (pipe_status_ring pipe);
  let id := tr_hal_ring_id status in
  srng ← get_srng (dp_hal p) id;
  srng ← srng_spin_lock srng;
  '(ret, skb, nbytes, srng, pipe) ← dst_recv_locked srng pipe ring;
  srng ← wireless_simu_hal_srng_access_end mmio_addr srng;
  srng ← srng_spin_unlock srng;
  l ← lock_release l;
  mret (ret, skb, nbytes, set_lock (set_pipe (set_srng p id srng) pipe_id pipe) l).

(* ------------------------------------------------------------------ *)
(** ** Posting one buffer *)

(** The critical section of [wireless_simu_test_dst_enqueue_pipe]; the
    [pr_info] reads the control block of the buffer just stored. *)
Definition dst_enqueue_locked (store : skbs) (srng : hal_srng) (pipe : srng_test_pipe)
    (ring : srng_test_ring) (skb paddr : Z) : M (Z * hal_srng * srng_test_pipe) :=
  let write_index := tr_write_index ring in
  srng ← wireless_simu_hal_srng_access_begin srng;
  '(num_free, srng) ← wireless_simu_hal_srng_src_num_free srng false;
  if decide (num_free < 1) then mret (- ENOSPC, srng, pipe)
  else
    '(desc, srng) ← wireless_simu_hal_srng_src_get_next_entry srng;
    if decide (desc = 0) then mret (- ENOSPC, srng, pipe)
    else
      store_words desc (hal_test_dst_words (wireless_simu_test_dst_set_desc paddr));;
      ring ← set_ring_skb ring write_index skb;
      b ← get_skb store skb;
      let ring := ring <| tr_write_index := Z.land (u32 (write_index + 1)) (tr_nentries_mask ring) |> in
      mret (0, srng, pipe <| pipe_dst_ring := Some ring |>
                          <| pipe_rx_buf_needed := u32 (pipe_rx_buf_needed pipe - 1) |>).

Definition wireless_simu_test_dst_enqueue_pipe (p : dst_priv) (pipe_id : nat) (skb paddr : Z)
    : M (Z * dst_priv) :=
  pipe ← get_pipe p pipe_id;
  ring ← of_option NullDeref (pipe_dst_ring pipe);
  lockdep_assert_held (st_lock (dp_st p));;
  let id := tr_hal_ring_id ring in
  srng ← get_srng (dp_hal p) id;
  srng ← srng_spin_lock srng;
  '(ret, srng, pipe) ← dst_enqueue_locked (dp_skbs p) srng pipe ring skb paddr;
  srng ← wireless_simu_hal_srng_access_end mmio_addr srng;
  srng ← srng_spin_unlock srng;
  mret (ret, set_pipe (set_srng p id srng) pipe_id pipe).

(* ------------------------------------------------------------------ *)
(** ** Filling the ring *)

(** The loop of [wireless_simu_test_dst_post_pipe].  When the mapping fails
    the buffer stays allocated: the code does not free it. *)
Fixpoint dst_post_loop (fuel : nat) (p : dst_priv) (pipe_id : nat) : M (Z * dst_priv) :=
  match fuel with
  | O => fail OutOfFuel
  | S fuel' =>
      pipe ← get_pipe p pipe_id;
      if decide (pipe_rx_buf_needed pipe = 0) then mret (0, p)
      else
        '(skb, store) ← dev_alloc_skb (dp_skbs p) (pipe_buf_sz pipe);
        if decide (skb = 0) then mret (- ENOMEM, p <| dp_skbs := store |>)
        else
          b ← get_skb store skb;
          paddr ← dma_map_single (k_skb_addr skb (sb_buf b)) (skb_room b);
          err ← dma_mapping_error paddr;
          if (err : bool) then mret (- EIO, p <| dp_skbs := store |>)
          else
            store ← set_cb store skb (λ c, c <| cb_paddr := paddr |>);
            '(ret, p) ← wireless_simu_test_dst_enqueue_pipe (p <| dp_skbs := store |>) pipe_id skb paddr;
            if decide (ret ≠ 0)
            then
              b ← get_skb (dp_skbs p) skb;
              dma_unmap_single paddr (skb_room b);;
              store ← dev_kfree_skb_any (dp_skbs p) skb;
              mret (ret, p <| dp_skbs := store |>)
            else dst_post_loop fuel' p pipe_id
  end.

Definition post_fuel (pipe : srng_test_pipe) : nat := S (Z.to_nat (pipe_rx_buf_needed pipe)).

Definition wireless_simu_test_dst_post_pipe (p : dst_priv) (pipe_id : nat) : M (Z * dst_priv) :=
  pipe ← get_pipe p pipe_id;
  match pipe_dst_ring pipe, pipe_status_ring pipe with
  | Some _, Some _ =>
      l ← lock_acquire (st_lock (dp_st p));
      '(ret, p) ← dst_post_loop (post_fuel pipe) (set_lock p l) pipe_id;
      l ← lock_release (st_lock (dp_st p));
      mret (ret, set_lock p l)
  | _, _ => mret (0, p)
  end.

(** [mod_timer(&priv->st_dst.rx_replenish_retry, jiffies + ...)] *)
Definition dst_mod_timer (p : dst_priv) : M dst_priv :=
  now ← jiffies;
  mret (p <| dp_st := dp_st p <| st_rx_replenish_retry :=
              Some (u64 (now + WIRELESS_SIMU_RX_POST_RETRY_JIFFIES)) |> |>).

(* ------------------------------------------------------------------ *)
(** ** The interrupt's bottom half *)

(** The first loop of [wireless_simu_irq_hal_srng_dst_dma_test]; [queue] is the
    local [list]. *)
Fixpoint dst_recv_loop (fuel : nat) (p : dst_priv) (pipe_id : nat) (queue : list Z)
    : M (dst_priv * list Z) :=
  match fuel with
  | O => fail OutOfFuel
  | S fuel' =>
      '(ret, skb, nbytes, p) ← wireless_simu_test_dst_recv_next p pipe_id;
      if decide (ret ≠ 0) then mret (p, queue)
      else
        b ← get_skb (dp_skbs p) skb;
        let max_nbytes := skb_room b in
        dma_unmap_single (cb_paddr (sb_cb b)) max_nbytes;;
        if decide (max_nbytes < nbytes)
        then store ← dev_kfree_skb_any (dp_skbs p) skb;
             dst_recv_loop fuel' (p <| dp_skbs := store |>) pipe_id queue
        else store ← do_skb_put (dp_skbs p) skb nbytes;
             dst_recv_loop fuel' (p <| dp_skbs := store |>) pipe_id (queue ++ [skb])
  end.

(** The second loop: every frame is printed and freed. *)
Fixpoint dst_consume (store : skbs) (queue : list Z) : M skbs :=
  match queue with
  | [] => mret store
  | skb :: queue' =>
      b ← get_skb store skb;
      store ← dev_kfree_skb_any store skb;
      dst_consume store queue'
  end.

(** Rounds for the first loop: a ring never holds more entries than it has. *)
Definition recv_fuel (pipe : srng_test_pipe) : nat :=
  match pipe_status_ring pipe with Some r => S (Z.to_nat (tr_nentries r)) | None => 1 end.

Definition wireless_simu_irq_hal_srng_dst_dma_test (p : dst_priv) (pipe_id : nat) : M dst_priv :=
  pipe ← get_pipe p pipe_id;
  '(p, queue) ← dst_recv_loop (recv_fuel pipe) p pipe_id [];
  store ← dst_consume (dp_skbs p) queue;
  '(ret, p) ← wireless_simu_test_dst_post_pipe (p <| dp_skbs := store |>) pipe_id;
  if decide (ret ≠ 0 ∧ ret ≠ - ENOSPC) then dst_mod_timer p else mret p.

(** The loop of [wireless_simu_test_dst_post_buf] over the pipes [ids]. *)
Fixpoint dst_post_pipes (p : dst_priv) (ids : list nat) : M dst_priv :=
  match ids with
  | [] => mret p
  | i :: ids' =>
      '(ret, p) ← wireless_simu_test_dst_post_pipe p i;
      if decide (ret = 0 ∨ ret = - ENOSPC) then dst_post_pipes p ids' else dst_mod_timer p
  end.

Definition wireless_simu_test_dst_post_buf (p : dst_priv) : M dst_priv :=
  dst_post_pipes p (seq 0 (Z.to_nat (st_pipes_count (dp_st p)))).

(** The timer's callback; the timer is no longer pending when it runs. *)
Definition wireless_simu_test_dst_rx_replenish_retry (p : dst_priv) : M dst_priv :=
  wireless_simu_test_dst_post_buf (p <| dp_st := dp_st p <| st_rx_replenish_retry := None |> |>).

(** The tasklet; it is no longer scheduled when it runs. *)
Definition wireless_simu_hal_srng_dst_tasklet (p : dst_priv) (id : nat) : M dst_priv :=
  pipe ← get_pipe p id;
  wireless_simu_irq_hal_srng_dst_dma_test
    (set_pipe p id (pipe <| pipe_intr_tq := false |>)) (Z.to_nat (pipe_num pipe)).

(* ------------------------------------------------------------------ *)
(** ** Initialisation *)

(** The second loop of [wireless_simu_hal_srng_dst_test_init]; [Some ret] is
    [goto err_clear_free_pipes] with [ret].  A pipe without both rings goes
    there with the [ret] of the calls before it, 0. *)
Fixpoint dst_register_pipes (hal : wireless_simu_hal) (st : srng_test) (ids : list nat)
    : M (option Z * wireless_simu_hal * srng_test) :=
  match ids with
  | [] => mret (None, hal, st)
  | i :: ids' =>
      pipe ← of_option OutOfBounds (st_pipes st !! i);
      match pipe_src_ring pipe, pipe_dst_ring pipe, pipe_status_ring pipe with
      | Some _, _, _ => mret (Some (- EINVAL), hal, st)
      | None, Some dst, Some status =>
          '(ret1, hal, dst) ← hal_srng_test_init_ring CONFIG_CPU_BIG_ENDIAN mmio_addr hal dst
                                (Z.of_nat i) HAL_TEST_SRNG_DST;
          '(ret2, hal, status) ← hal_srng_test_init_ring CONFIG_CPU_BIG_ENDIAN mmio_addr hal status
                                   (Z.of_nat i) HAL_TEST_SRNG_DST_STATUS;
          let ret := Z.lor ret1 ret2 in
          let pipe := pipe <| pipe_dst_ring := Some dst |> <| pipe_status_ring := Some status |> in
          if decide (ret ≠ 0) then mret (Some ret, hal, put_pipe st i pipe)
          else
            let pipe := pipe
              <| pipe_dst_ring := Some (dst <| tr_write_index := 0 |> <| tr_sw_index := 0 |>) |>
              <| pipe_rx_buf_needed := if decide (tr_nentries dst = 0) then 0
                                       else u32 (tr_nentries dst - 2) |>
              <| pipe_status_ring := Some (status <| tr_sw_index := 0 |> <| tr_write_index := 0 |>) |> in
            dst_register_pipes hal (put_pipe st i pipe) ids'
      | None, _, _ => mret (Some 0, hal, st)
      end
  end.

(** The labels [err_clear_free_pipes] and [err_clear_free_configs]. *)
Definition dst_init_failed (p : dst_priv) (ret : Z) : M (Z * dst_priv) :=
  st ← hal_srng_test_free_pipes (dp_st p);
  kfree (st_config_ptr st);;
  mret (ret, p <| dp_st := st |>).

Definition wireless_simu_hal_srng_dst_test_init (p : dst_priv) : M (Z * dst_priv) :=
  config ← kmalloc (sizeof_srng_test_attr * Z.of_nat (length srng_test_dst_configs));
  let st := dp_st p <| st_config_ptr := config |> in
  if decide (config = 0) then mret (- ENOBUFS, p <| dp_st := st |>)
  else
    let st := st <| st_config_val := srng_test_dst_configs |> <| st_lock := false |>
                 <| st_rx_replenish_retry := None |>
                 <| st_pipes_count := Z.of_nat SRNG_TEST_PIPE_COUNT_MAX |>
                 <| st_pipes := (λ pipe, pipe <| pipe_intr_tq := false |>) <$> st_pipes st |> in
    '(ret, st) ← alloc_pipes st pipe_ids;
    if decide (ret ≠ 0) then dst_init_failed (p <| dp_st := st |>) ret
    else
      '(err, hal, st) ← dst_register_pipes (dp_hal p) st pipe_ids;
      let p := p <| dp_hal := hal |> <| dp_st := st |> in
      match err with
      | Some ret => dst_init_failed p ret
      | None => p ← wireless_simu_test_dst_post_buf p; mret (0, p)
      end.

(* ------------------------------------------------------------------ *)
(** ** Removal *)

(** The loop of [wireless_simu_hal_srng_dst_test_cleanuprx] from slot [i]. *)
Fixpoint dst_cleanup_slots (store : skbs) (ring : srng_test_ring) (i : nat) (n : nat)
    : M (skbs * srng_test_ring) :=
  match n with
  | O => mret (store, ring)
  | S n' =>
      skb ← of_option OutOfBounds (tr_skb ring !! i);
      if decide (skb = 0) then dst_cleanup_slots store ring (S i) n'
      else
        ring ← set_ring_skb ring (Z.of_nat i) 0;
        b ← get_skb store skb;
        dma_unmap_single (cb_paddr (sb_cb b)) (skb_room b);;
        store ← dev_kfree_skb_any store skb;
        dst_cleanup_slots store ring (S i) n'
  end.

Definition wireless_simu_hal_srng_dst_test_cleanuprx (p : dst_priv) (id : nat) : M dst_priv :=
  pipe ← get_pipe p id;
  match pipe_dst_ring pipe with
  | None => if decide (pipe_buf_sz pipe ≠ 0) then mret p else fail NullDeref
  | Some ring =>
      '(store, ring) ← dst_cleanup_slots (dp_skbs p) ring 0 (Z.to_nat (tr_nentries ring));
      mret (set_pipe (p <| dp_skbs := store |>) id (pipe <| pipe_dst_ring := Some ring |>))
  end.

(** [tasklet_kill] waits for a scheduled tasklet to run. *)
Definition tasklet_kill (p : dst_priv) (id : nat) : M dst_priv :=
  pipe ← get_pipe p id;
  if pipe_intr_tq pipe then wireless_simu_hal_srng_dst_tasklet p id else mret p.

Fixpoint dst_for_pipes (f : dst_priv → nat → M dst_priv) (p : dst_priv) (ids : list nat)
    : M dst_priv :=
  match ids with
  | [] => mret p
  | i :: ids' => p ← f p i; dst_for_pipes f p ids'
  end.

(** The pending retry timer is not deleted. *)
Definition wireless_simu_hal_srng_dst_test_deinit (p : dst_priv) : M dst_priv :=
  let ids := seq 0 (Z.to_nat (st_pipes_count (dp_st p))) in
  l ← lock_acquire (st_lock (dp_st p));
  p ← dst_for_pipes tasklet_kill (set_lock p l) ids;
  p ← dst_for_pipes wireless_simu_hal_srng_dst_test_cleanuprx p ids;
  st ← hal_srng_test_free_pipes (dp_st p);
  kfree (st_config_ptr st);;
  l ← lock_release (st_lock st);
  mret (set_lock (p <| dp_st := st |>) l).
End receive.
