(* ===== verification/RxRing.v ===== *)
(** * Posting receive buffers

    The state of the receive path between two operations: the buffers the
    device may write to ([posted]), the slots of the destination ring that
    remember them ([rx_slots]), the descriptors that name them, in the same order
    ([booked]), and the protocol invariant of the ring their
    descriptors travel in ([rx_inv]).  This file shows that posting keeps it
    (src/driver/driver_wireless/wireless_hal.c,
    [wireless_simu_test_dst_enqueue_pipe], [wireless_simu_test_dst_post_pipe]). *)

From S2P Require Import Prelude Kernel Bits HalTypes Hif HalRing RingProtocol HalSetup HalInit Skb.
From S2P Require Import SrngTest SrngSend PipeLife SrngTestRun DstTest.

(* ------------------------------------------------------------------ *)
(** ** Posted buffers *)

Section posted.
Context `{SA : SkbApi}.

(** [posted s0 m0 l s m]: the store [s] and the streaming mappings [m] are
    [s0] and [m0] plus the empty buffers [l], each mapped over its room. *)
Inductive posted (s0 : skbs) (m0 : gmap Z Z) : list Z → skbs → gmap Z Z → Prop :=
  | posted_nil : posted s0 m0 [] s0 m0
  | posted_cons p b l s m :
      p ≠ 0 → s !! p = None → m !! cb_paddr (sb_cb b) = None →
      skb_data (sb_buf b) = [] → 0 ≤ skb_tailroom (sb_buf b) →
      posted s0 m0 l s m →
      posted s0 m0 (p :: l) (<[p := b]> s) (<[cb_paddr (sb_cb b) := skb_room b]> m).

(** Any of the buffers can be taken out; ... *)
Lemma posted_take s0 m0 l s m p : posted s0 m0 l s m → p ∈ l →
  ∃ b l', s !! p = Some b ∧ m !! cb_paddr (sb_cb b) = Some (skb_room b) ∧
    skb_data (sb_buf b) = [] ∧ 0 ≤ skb_tailroom (sb_buf b) ∧ p ≠ 0 ∧ l ≡ₚ p :: l' ∧
    posted s0 m0 l' (delete p s) (delete (cb_paddr (sb_cb b)) m).
Proof.
  induction 1 as [|q bq l s m Hq Hs Hm Hd Ht Hl IH]; [by intros ?%not_elem_of_nil|].
  destruct (decide (p = q)) as [->|Hne].
  { intros _. exists bq, l. rewrite !lookup_insert_eq, !delete_insert_id by done. done. }
  intros [|Hin]%elem_of_cons; [done|].
  destruct (IH Hin) as (b & l' & Hb & Hbm & Hbd & Hbt & Hp & Hperm & Hpost).
  assert (cb_paddr (sb_cb b) ≠ cb_paddr (sb_cb bq)) as Hne2 by (intros Heq; rewrite Heq in Hbm; congruence).
  exists b, (q :: l'). rewrite !lookup_insert_ne, !delete_insert_ne by congruence.
  split_and!; try done.
  - rewrite Hperm. apply perm_swap.
  - constructor; try done; by rewrite lookup_delete_ne by congruence.
Qed.

(** ... so their order does not matter. *)
Lemma posted_perm s0 m0 l l' s m : l ≡ₚ l' → posted s0 m0 l s m → posted s0 m0 l' s m.
Proof.
  revert l s m. induction l' as [|p l' IH]; intros l s m Hp H.
  { apply Permutation_nil_r in Hp as ->. done. }
  destruct (posted_take _ _ _ _ _ p H) as (b & l1 & Hb & Hm & Hd & Ht & Hz & Hperm & H1).
  { rewrite Hp. by left. }
  rewrite <-(insert_delete_id s p b), <-(insert_delete_id m (cb_paddr (sb_cb b)) (skb_room b)) by done.
  constructor; try done; try apply lookup_delete_eq.
  apply (IH l1); [|done]. apply (Permutation_cons_inv (a := p)). by rewrite <-Hperm.
Qed.

Lemma posted_nil_inv s0 m0 s m : posted s0 m0 [] s m → s = s0 ∧ m = m0.
Proof. by inversion 1. Qed.

(** A buffer outside all this is carried along. *)
Lemma posted_leak s0 m0 l s m q b : posted s0 m0 l s m → s !! q = None →
  s0 !! q = None ∧ posted (<[q := b]> s0) m0 l (<[q := b]> s) m.
Proof.
  induction 1 as [|p bp l s m Hp Hs Hm Hd Ht Hl IH]; intros Hq; [by split; [|constructor]|].
  assert (p ≠ q) by (intros ->; by rewrite lookup_insert_eq in Hq).
  rewrite lookup_insert_ne in Hq by done. destruct (IH Hq) as [H0 H1]. split; [done|].
  rewrite insert_insert_ne by congruence. constructor; try done.
  by rewrite lookup_insert_ne by congruence.
Qed.

(** What is not posted is still there, and can be taken out as well. *)
Lemma posted_base s0 m0 l s m q b : posted s0 m0 l s m → s0 !! q = Some b → s !! q = Some b.
Proof.
  induction 1 as [|p bp l s m Hp Hs Hm Hd Ht Hl IH]; intros Hq; [done|].
  specialize (IH Hq). by rewrite lookup_insert_ne by congruence.
Qed.

Lemma posted_unleak s0 m0 l s m q b : posted s0 m0 l s m → s0 !! q = Some b →
  posted (delete q s0) m0 l (delete q s) m.
Proof.
  induction 1 as [|p bp l s m Hp Hs Hm Hd Ht Hl IH]; intros Hq; [constructor|].
  pose proof (posted_base _ _ _ _ _ _ _ Hl Hq) as Hsq.
  assert (p ≠ q) by congruence.
  rewrite delete_insert_ne by done. constructor; [done| |done..|by apply IH].
  by rewrite lookup_delete_ne by done.
Qed.

Lemma posted_new s0 m0 l s m q : posted s0 m0 l s m → q ∈ l → is_Some (s !! q) ∧ s0 !! q = None.
Proof.
  intros H Hq. destruct (posted_take _ _ _ _ _ q H Hq) as (b & l' & Hb & _ & _ & _ & _ & _ & _).
  split; [by exists b|]. destruct (s0 !! q) as [b0|] eqn:E; [|done]. exfalso.
  clear Hb b. revert Hq E. induction H as [|p bp l s m Hp Hs Hm Hd Ht Hl IH]; [by intros ?%not_elem_of_nil|].
  intros [->|Hq]%elem_of_cons E; [|by apply IH]. pose proof (posted_base _ _ _ _ _ _ _ Hl E). congruence.
Qed.

Lemma posted_nodup s0 m0 l s m : posted s0 m0 l s m → NoDup l.
Proof.
  induction 1 as [|p bp l s m Hp Hs Hm Hd Ht Hl IH]; [constructor|]. constructor; [|done].
  intros Hin. destruct (posted_new _ _ _ _ _ _ Hl Hin) as [[] _]. congruence.
Qed.

(** The rest of the store, and how many buffers and mappings there are. *)
Lemma posted_rest s0 m0 l s m q : posted s0 m0 l s m → s0 !! q = if decide (q ∈ l) then None else s !! q.
Proof.
  intros H. case_decide as Hq; [by apply (posted_new _ _ _ _ _ _ H)|].
  induction H as [|p b l s m Hp Hs Hm Hd Ht Hl IH]; [done|]. apply not_elem_of_cons in Hq as [Hqp Hql].
  rewrite lookup_insert_ne by done. by apply IH.
Qed.

Lemma posted_size s0 m0 l s m : posted s0 m0 l s m →
  size s = (size s0 + length l)%nat ∧ size m = (size m0 + length l)%nat ∧ m0 ⊆ m.
Proof.
  induction 1 as [|p b l s m Hp Hs Hm Hd Ht Hl (IH1 & IH2 & IH3)]; [cbn; rewrite !Nat.add_0_r; done|].
  rewrite !map_size_insert_None by done. cbn. split_and!; [lia|lia|]. etrans; [exact IH3|].
  by apply insert_subseteq.
Qed.

(** Whatever else happens to the store, and whatever else gets mapped. *)
Lemma posted_change s0 m0 l s m : posted s0 m0 l s m → ∀ s' m', m ⊆ m' →
  (∀ q, q ∈ l → s' !! q = s !! q) →
  ∃ s0' m0', posted s0' m0' l s' m' ∧ m0 ⊆ m0' ∧ ∀ q, q ∉ l → s0' !! q = s' !! q.
Proof.
  induction 1 as [|p b l s m Hp Hs Hm Hd Ht Hl IH]; intros s' m' Hsub Hq.
  { exists s', m'. split; [constructor|done]. }
  assert (∀ q, q ∈ l → q ≠ p) as Hne.
  { intros q Hin ->. destruct (posted_new _ _ _ _ _ _ Hl Hin) as [[] _]. congruence. }
  assert (s' !! p = Some b) as Hsp by (rewrite Hq by (by left); apply lookup_insert_eq).
  assert (m' !! cb_paddr (sb_cb b) = Some (skb_room b)) as Hmp
    by (eapply lookup_weaken; [apply lookup_insert_eq|exact Hsub]).
  destruct (IH (delete p s') (delete (cb_paddr (sb_cb b)) m')) as (s0' & m0' & Hpost & Hm0 & Hrest).
  - by eapply insert_delete_subseteq.
  - intros q Hin. pose proof (Hne q Hin). rewrite lookup_delete_ne, Hq, lookup_insert_ne by (done || by right).
    done.
  - exists s0', m0'. split; [|split; [done|]].
    + rewrite <-(insert_delete_id s' p b), <-(insert_delete_id m' (cb_paddr (sb_cb b)) (skb_room b)) by done.
      constructor; try done; apply lookup_delete_eq.
    + intros q [Hqp Hql]%not_elem_of_cons. rewrite Hrest by done. by rewrite lookup_delete_ne by done.
Qed.
End posted.

(* ------------------------------------------------------------------ *)
(** ** Slots *)

(** The buffers a ring remembers. *)
Definition live (l : list Z) : list Z := filter (λ p, p ≠ 0) l.

Lemma live_set l i p : l !! i = Some 0 → p ≠ 0 → live (<[i := p]> l) ≡ₚ p :: live l.
Proof.
  intros Hi Hp. unfold live. rewrite <-(take_drop_middle l i 0) at 2 by done.
  rewrite insert_take_drop by by eapply lookup_lt_Some.
  rewrite !filter_app, !filter_cons, decide_True, decide_False by (done || naive_solver).
  by rewrite Permutation_middle.
Qed.

Lemma live_unset l i p : l !! i = Some p → p ≠ 0 → live l ≡ₚ p :: live (<[i := 0]> l).
Proof.
  intros Hi Hp.
  rewrite <-(live_set (<[i := 0]> l) i p), list_insert_insert, decide_True; try done.
  - by rewrite list_insert_id.
  - apply list_lookup_insert_eq. by eapply lookup_lt_Some.
Qed.

Lemma live_In l i p : l !! i = Some p → p ≠ 0 → p ∈ live l.
Proof. intros Hi Hp. apply list_elem_of_filter. split; [done|by eapply list_elem_of_lookup_2]. Qed.

(** [k] buffers, in the slots from [sw_index] up to [write_index]. *)
Record rx_slots (ring : srng_test_ring) (k : Z) : Prop := {
  rs_size : ∃ e, 1 ≤ e ≤ 16 ∧ tr_nentries ring = 2 ^ e ∧ tr_nentries_mask ring = Z.ones e;
  rs_len : Z.of_nat (length (tr_skb ring)) = tr_nentries ring;
  rs_count : 0 ≤ k ≤ tr_nentries ring - 2;
  rs_sw : 0 ≤ tr_sw_index ring < tr_nentries ring;
  rs_wi : tr_write_index ring = (tr_sw_index ring + k) mod tr_nentries ring;
  rs_live : ∀ i p, 0 ≤ i < tr_nentries ring → tr_skb ring !! Z.to_nat i = Some p →
    p ≠ 0 ↔ (i - tr_sw_index ring) mod tr_nentries ring < k
}.

Lemma mask_next e x : 0 ≤ e ≤ 16 → 0 ≤ x < 2 ^ e → Z.land (u32 (x + 1)) (Z.ones e) = (x + 1) mod 2 ^ e.
Proof.
  intros He Hx. assert (2 ^ e ≤ 2 ^ 16) by (apply Z.pow_le_mono_r; lia).
  rewrite Z.land_ones, wrap_id by lia. done.
Qed.

(** Positions in a window that moves. *)
Lemma window_pos N i sw : 0 < N → 0 ≤ i < N → 0 ≤ sw < N →
  (i - sw) mod N = if decide (sw ≤ i) then i - sw else i - sw + N.
Proof.
  intros HN Hi Hsw. case_decide; [by apply Z.mod_small; lia|].
  symmetry. apply (Z.mod_unique_pos _ _ (-1)); lia.
Qed.

Lemma window_end N sw k : 0 < N → 0 ≤ sw < N → 0 ≤ k < N →
  (sw + k) mod N = if decide (sw + k < N) then sw + k else sw + k - N.
Proof.
  intros HN Hs Hk. case_decide; [by apply Z.mod_small; lia|].
  symmetry. apply (Z.mod_unique_pos _ _ 1); lia.
Qed.

(** The slot about to be written is empty; writing it extends the window. *)
Lemma rx_slots_push ring k p : rx_slots ring k → k < tr_nentries ring - 2 → p ≠ 0 →
  tr_skb ring !! Z.to_nat (tr_write_index ring) = Some 0 ∧
  0 ≤ tr_write_index ring < tr_nentries ring ∧
  rx_slots (ring <| tr_skb := <[Z.to_nat (tr_write_index ring) := p]> (tr_skb ring) |>
                 <| tr_write_index := Z.land (u32 (tr_write_index ring + 1)) (tr_nentries_mask ring) |>)
           (k + 1).
Proof.
  intros [(e & He & Hn & Hm) Hlen Hk Hsw Hwi Hlive] Hlt Hp.
  assert (0 < tr_nentries ring) as HN by lia.
  assert (0 ≤ tr_write_index ring < tr_nentries ring) as Hwr
    by (rewrite Hwi; apply Z.mod_pos_bound; lia).
  assert (tr_skb ring !! Z.to_nat (tr_write_index ring) = Some 0) as Hz.
  { destruct (lookup_lt_is_Some_2 (tr_skb ring) (Z.to_nat (tr_write_index ring))) as [x Hx]; [lia|].
    rewrite Hx. f_equal. destruct (decide (x = 0)) as [->|Hne]; [done|]. exfalso.
    apply (Hlive _ _ Hwr Hx) in Hne. rewrite window_pos in Hne by lia.
    rewrite window_end in Hwi by lia. repeat case_decide; lia. }
  split_and!; [done|lia|lia|]. split; cbn; rewrite ?length_insert; try done.
  - by exists e.
  - lia.
  - rewrite Hm, mask_next, <-Hn, Hwi, Zplus_mod_idemp_l by lia. f_equal. lia.
  - intros i x Hi Hx. rewrite Hwi in Hx, Hz, Hwr. destruct (decide (Z.to_nat i = Z.to_nat ((tr_sw_index ring + k) mod tr_nentries ring))) as [Heq|Hne].
    + rewrite Heq, list_lookup_insert_eq in Hx by lia. simplify_eq.
      assert (i = (tr_sw_index ring + k) mod tr_nentries ring) as -> by lia.
      split; [intros _|done]. rewrite window_pos, window_end by (rewrite ?window_end by lia; repeat case_decide; lia).
      repeat case_decide; lia.
    + rewrite list_lookup_insert_ne in Hx by done. rewrite (Hlive _ _ Hi Hx).
      rewrite window_pos by lia. rewrite window_end in Hne by lia. repeat case_decide; lia.
Qed.

(** The oldest slot is occupied; emptying it shortens the window. *)
Lemma rx_slots_pop ring k : rx_slots ring k → 0 < k →
  ∃ p, tr_skb ring !! Z.to_nat (tr_sw_index ring) = Some p ∧ p ≠ 0 ∧
  rx_slots (ring <| tr_skb := <[Z.to_nat (tr_sw_index ring) := 0]> (tr_skb ring) |>
                 <| tr_sw_index := Z.land (u32 (tr_sw_index ring + 1)) (tr_nentries_mask ring) |>)
           (k - 1).
Proof.
  intros [(e & He & Hn & Hm) Hlen Hk Hsw Hwi Hlive] Hlt.
  destruct (lookup_lt_is_Some_2 (tr_skb ring) (Z.to_nat (tr_sw_index ring))) as [p Hp]; [lia|].
  assert (p ≠ 0) as Hz.
  { apply (Hlive _ _ Hsw Hp). rewrite Z.sub_diag, Zmod_0_l. done. }
  assert (Z.land (u32 (tr_sw_index ring + 1)) (tr_nentries_mask ring) =
    (tr_sw_index ring + 1) mod tr_nentries ring) as Hnext by (rewrite Hm, mask_next, Hn by lia; done).
  pose proof (Z.mod_pos_bound (tr_sw_index ring + 1) (tr_nentries ring) ltac:(lia)).
  exists p. split_and!; [done|done|]. split; cbn; rewrite ?Hnext, ?length_insert; try done.
  - by exists e.
  - lia.
  - rewrite Hwi, Zplus_mod_idemp_l. f_equal. lia.
  - intros i x Hi Hx. destruct (decide (i = tr_sw_index ring)) as [->|Hne].
    + rewrite list_lookup_insert_eq in Hx by lia. simplify_eq. split; [done|].
      rewrite (window_pos (tr_nentries ring)), window_end by (rewrite ?window_end by lia; repeat case_decide; lia).
      repeat case_decide; lia.
    + rewrite list_lookup_insert_ne in Hx by lia. rewrite (Hlive _ _ Hi Hx).
      rewrite !window_pos, window_end by (rewrite ?window_end by lia; repeat case_decide; lia).
      repeat case_decide; lia.
Qed.

(** The [k] buffers in the ring, the oldest first. *)
Definition window (ring : srng_test_ring) (k : Z) : list Z :=
  (λ i, tr_skb ring !!! Z.to_nat ((tr_sw_index ring + Z.of_nat i) mod tr_nentries ring)) <$> seq 0 (Z.to_nat k).

(** Places in the window are different. *)
Lemma window_ne N sw i j : 0 < N → 0 ≤ sw < N → 0 ≤ i < j → j < N →
  Z.to_nat ((sw + i) mod N) ≠ Z.to_nat ((sw + j) mod N).
Proof. intros. rewrite !window_end by lia. repeat case_decide; lia. Qed.

Lemma window_push ring k p : rx_slots ring k → k < tr_nentries ring - 2 →
  window (ring <| tr_skb := <[Z.to_nat (tr_write_index ring) := p]> (tr_skb ring) |>
               <| tr_write_index := Z.land (u32 (tr_write_index ring + 1)) (tr_nentries_mask ring) |>) (k + 1) =
  window ring k ++ [p].
Proof.
  intros [_ Hlen Hk Hsw Hwi _] Hlt. unfold window. cbn [tr_skb tr_sw_index tr_nentries update update_with].
  replace (Z.to_nat (k + 1)) with (S (Z.to_nat k)) by lia. rewrite seq_S, fmap_app. cbn. rewrite Z2Nat.id, Hwi by lia.
  f_equal.
  - apply list_fmap_ext. intros i ? [-> Hi]%lookup_seq. cbn [Nat.add]. apply list_lookup_total_insert_ne.
    apply not_eq_sym, window_ne; lia.
  - f_equal. apply list_lookup_total_insert_eq. pose proof (Z.mod_pos_bound (tr_sw_index ring + k) (tr_nentries ring)). lia.
Qed.

Lemma window_pop ring k q : rx_slots ring k → 0 < k → tr_skb ring !! Z.to_nat (tr_sw_index ring) = Some q →
  window ring k =
  q :: window (ring <| tr_skb := <[Z.to_nat (tr_sw_index ring) := 0]> (tr_skb ring) |>
                    <| tr_sw_index := Z.land (u32 (tr_sw_index ring + 1)) (tr_nentries_mask ring) |>) (k - 1).
Proof.
  intros [(e & He & Hn & Hm) Hlen Hk Hsw _ _] Hlt Hq. unfold window. cbn [tr_skb tr_sw_index tr_nentries update update_with].
  rewrite Hm, mask_next, <-Hn by lia.
  replace (Z.to_nat k) with (S (Z.to_nat (k - 1))) by lia. cbn [seq fmap list_fmap]. f_equal.
  - rewrite Z.add_0_r, Z.mod_small by lia. by apply list_lookup_total_correct.
  - rewrite <-fmap_S_seq, <-list_fmap_compose. apply list_fmap_ext. intros i ? [-> Hi]%lookup_seq. cbn.
    rewrite Zplus_mod_idemp_l. replace (tr_sw_index ring + 1 + Z.of_nat i) with (tr_sw_index ring + Z.of_nat (S i)) by lia.
    symmetry. apply list_lookup_total_insert_ne.
    pose proof (window_ne (tr_nentries ring) (tr_sw_index ring) 0 (Z.of_nat (S i))) as H.
    rewrite Z.add_0_r, (Z.mod_small (tr_sw_index ring)) in H by lia. apply H; lia.
Qed.

(** They are all the buffers it remembers. *)
Lemma window_live ring k : rx_slots ring k → window ring k ≡ₚ live (tr_skb ring).
Proof.
  intros Hs. pose proof (rs_count _ _ Hs) as Hk. remember (Z.to_nat k) as n eqn:Hn.
  revert ring k Hs Hk Hn. induction n as [|n IH]; intros ring k Hs Hk Hn.
  - replace k with 0 in * by lia. unfold window. cbn. symmetry. apply Permutation_nil_r.
    destruct Hs as [_ Hlen _ Hsw _ Hl]. unfold live.
    destruct (filter _ _) as [|x l'] eqn:Hf; [done|]. exfalso.
    assert (x ∈ filter (λ p, p ≠ 0) (tr_skb ring)) as [Hne Hx]%list_elem_of_filter by (rewrite Hf; left).
    apply list_elem_of_lookup_1 in Hx as [i Hx].
    pose proof (lookup_lt_Some _ _ _ Hx) as Hlt. specialize (Hl (Z.of_nat i) x ltac:(lia)). rewrite Nat2Z.id in Hl.
    apply Hl in Hne; [|done]. pose proof (Z.mod_pos_bound (Z.of_nat i - tr_sw_index ring) (tr_nentries ring)). lia.
  - destruct (rx_slots_pop ring k Hs) as (q & Hq & Hqz & Hs'); [lia|].
    rewrite (window_pop ring k q Hs) by (done || lia). rewrite (live_unset _ _ _ Hq Hqz). constructor.
    apply (IH _ (k - 1) Hs'); cbn; lia.
Qed.

Section booked.
Context `{B : Bits} `{SA : SkbApi}.

(** The last descriptors written are those of the buffers [win], in order: each
    names the address its buffer remembers. *)
Definition booked (a : list (list Z)) (win : list Z) (s : skbs) : Prop :=
  ∃ a0 ds, a = a0 ++ ds ∧ Forall2 (λ d q, ∃ b, s !! q = Some b ∧
    d = hal_test_dst_words (wireless_simu_test_dst_set_desc (cb_paddr (sb_cb b)))) ds win.

Lemma booked_store a win s s' : (∀ q, q ∈ win → s' !! q = s !! q) → booked a win s → booked a win s'.
Proof.
  intros Hs (a0 & ds & -> & Hd). exists a0, ds. split; [done|].
  apply Forall2_same_length_lookup in Hd as [Hlen Hd]. apply Forall2_same_length_lookup. split; [done|].
  intros i d q Hi Hq. destruct (Hd i d q Hi Hq) as (b & Hb & Hdb). exists b. split; [|done].
  rewrite Hs; [done|]. by eapply list_elem_of_lookup_2.
Qed.

Lemma booked_push a win s q b : s !! q = None → booked a win s →
  booked (a ++ [hal_test_dst_words (wireless_simu_test_dst_set_desc (cb_paddr (sb_cb b)))]) (win ++ [q]) (<[q := b]> s).
Proof.
  intros Hq (a0 & ds & -> & Hd). eexists a0, (ds ++ [_]). rewrite app_assoc. split; [done|].
  apply Forall2_app; [|constructor; [exists b; split; [apply lookup_insert_eq|done]|done]].
  eapply Forall2_impl; [exact Hd|]. intros d x (b' & Hb & ->). exists b'. split; [|done].
  rewrite lookup_insert_ne by congruence. done.
Qed.

Lemma booked_pop a q win s : booked a (q :: win) s → booked a win s.
Proof.
  intros (a0 & ds & -> & Hd). inversion Hd as [|d ? ds' ? _ Hd']; subst. exists (a0 ++ [d]), ds'.
  by rewrite <-app_assoc.
Qed.
End booked.

(* ------------------------------------------------------------------ *)
(** ** The invariant *)

(** The structures one receive pipe consists of. *)
Record rx_view := RxView {
  v_pipe : srng_test_pipe;
  v_dst : srng_test_ring;
  v_status : srng_test_ring;
  v_s : hal_srng;                  (* the destination ring's hal_srng *)
  v_s2 : hal_srng                  (* the status ring's *)
}.

(** A status ring in which the device has put [r] entries to be read. *)
Record status_ok (s : hal_srng) (w : world) (r : Z) : Prop := {
  so_geo : srng_geometry s;
  so_dir : srng_ring_dir s = HAL_SRNG_DIR_DST;
  so_lmac : flag_set (srng_flags s) HAL_SRNG_FLAGS_LMAC_RING = false;
  so_unlocked : srng_lock s = false;
  so_tp : is_entry (srng_entry_size s) (srng_num_entries s) (dst_tp (srng_dst s));
  so_hp : ∃ hp, w_mem w !! dst_hp_addr (srng_dst s) = Some hp ∧
    is_entry (srng_entry_size s) (srng_num_entries s) hp ∧
    ring_used (srng_num_entries s) (entry_index (srng_entry_size s) hp)
      (entry_index (srng_entry_size s) (dst_tp (srng_dst s))) = r
}.

(** The first word of the report [j] places ahead: the length. *)
Definition report_word (s : hal_srng) (j : Z) : Z :=
  srng_ring_base_vaddr s + 4 * (srng_entry_size s *
    ((entry_index (srng_entry_size s) (dst_tp (srng_dst s)) + j) mod srng_num_entries s)).

(** The lengths the device reports in the next entries of a status ring. *)
Definition reports (s : hal_srng) (w : world) (lens : list Z) : Prop :=
  ∀ j len, lens !! j = Some len →
    w_mem w !! report_word s (Z.of_nat j) = Some len ∧ 0 < len < 2 ^ 32.

(** The entries of the status ring [s2] lie apart from all the host writes for
    the destination ring [s], and hold the [r] reports to be read. *)
Record status_region (s s2 : hal_srng) (w : world) (r : Z) : Prop := {
  sr_sizes : srng_num_entries s ≤ srng_num_entries s2;
  sr_words : src_tp_addr (srng_src s) ≠ dst_hp_addr (srng_dst s2);
  sr_tail : ∀ j, 0 ≤ j < srng_ring_size s2 →
    srng_ring_base_vaddr s2 + 4 * j ≠ src_tp_addr (srng_src s);
  sr_head : ∀ j, 0 ≤ j < srng_ring_size s2 →
    srng_ring_base_vaddr s2 + 4 * j ≠ dst_hp_addr (srng_dst s2);
  sr_slots : ∀ i j, 0 ≤ i < srng_ring_size s → 0 ≤ j < srng_ring_size s2 →
    srng_ring_base_vaddr s2 + 4 * j ≠ srng_ring_base_vaddr s + 4 * i;
  sr_reports : ∃ lens, Z.of_nat (length lens) = r ∧ reports s2 w lens
}.

Lemma report_word_region s j : srng_geometry s →
  ∃ o, report_word s j = srng_ring_base_vaddr s + 4 * o ∧ 0 ≤ o < srng_ring_size s.
Proof.
  intros Hg. destruct (Source.slot_word s (entry_index (srng_entry_size s) (dst_tp (srng_dst s)) + j) 0 Hg)
    as (o & Ho & Hr & _); [destruct Hg; lia|].
  exists o. split; [|done]. rewrite <-Ho. unfold report_word, Source.slot. lia.
Qed.

Lemma reports_frame s w w' lens : srng_geometry s →
  (∀ j, 0 ≤ j < srng_ring_size s →
     w_mem w' !! (srng_ring_base_vaddr s + 4 * j) = w_mem w !! (srng_ring_base_vaddr s + 4 * j)) →
  reports s w lens → reports s w' lens.
Proof.
  intros Hg Hm Hrep j len Hj. destruct (Hrep j len Hj) as [Hw Hl]. split; [|done].
  destruct (report_word_region s (Z.of_nat j) Hg) as (o & Ho & Hr). by rewrite Ho, Hm, <-Ho.
Qed.

(** The host's work on the destination ring leaves the reports alone. *)
Lemma status_region_frame s s' s2 w w' r : same_shape s s' → srng_geometry s2 →
  (∀ j, 0 ≤ j < srng_ring_size s2 →
     w_mem w' !! (srng_ring_base_vaddr s2 + 4 * j) = w_mem w !! (srng_ring_base_vaddr s2 + 4 * j)) →
  status_region s s2 w r → status_region s' s2 w' r.
Proof.
  intros [_ HN Hz Hb _ Ht] Hg Hm [H0 H1 H2 H3 H4 (lens & Hn & Hrep)].
  split; rewrite ?HN, ?Hz, ?Hb, ?Ht; try done. exists lens. split; [done|]. by eapply reports_frame.
Qed.

Lemma same_shape_refl s : same_shape s s.
Proof. by split. Qed.

Section invariant.
Context `{K : Kernel} `{BO : BitsOk} `{SA : SkbApi} (mmio_addr : Z).

(** Where [wireless_simu_hal_srng_dst_test_init] put the two rings: the entries
    of [srng_list], the shared pointer words, the register; no slot is a shared
    pointer word. *)
Record rx_home (hal : wireless_simu_hal) (V : rx_view) : Prop := {
  rh_ids : tr_hal_ring_id (v_dst V) = type_ring_id HAL_TEST_SRNG_DST ∧
    tr_hal_ring_id (v_status V) = type_ring_id HAL_TEST_SRNG_DST_STATUS;
  rh_tail : src_tp_addr (srng_src (v_s V)) = rdp_word hal HAL_TEST_SRNG_DST;
  rh_head : dst_hp_addr (srng_dst (v_s2 V)) = rdp_word hal HAL_TEST_SRNG_DST_STATUS;
  rh_slots t j : 0 ≤ j < srng_ring_size (v_s V) →
    srng_ring_base_vaddr (v_s V) + 4 * j ≠ rdp_word hal t;
  rh_slots2 t j : 0 ≤ j < srng_ring_size (v_s2 V) →
    srng_ring_base_vaddr (v_s2 V) + 4 * j ≠ rdp_word hal t;
  rh_reg : 0 ≤ Source.hp_reg mmio_addr (v_s V) -
    (mmio_addr + 0x10000 + 256 * type_ring_id HAL_TEST_SRNG_DST) < 256
}.

Lemma rx_home_shape hal hal' V V' : rx_home hal V → hal_rdp_vaddr hal' = hal_rdp_vaddr hal →
  same_shape (v_s V) (v_s V') →
  (srng_ring_size (v_s2 V') = srng_ring_size (v_s2 V) ∧
   srng_ring_base_vaddr (v_s2 V') = srng_ring_base_vaddr (v_s2 V) ∧
   dst_hp_addr (srng_dst (v_s2 V')) = dst_hp_addr (srng_dst (v_s2 V))) →
  tr_hal_ring_id (v_dst V') = tr_hal_ring_id (v_dst V) →
  tr_hal_ring_id (v_status V') = tr_hal_ring_id (v_status V) → rx_home hal' V'.
Proof.
  intros [Hi Ht Hh Hs Hs2 Hr] Hv [_ _ Hz Hb Hp Htp] (Hz2 & Hb2 & Hp2) Hd He.
  assert (∀ t, rdp_word hal' t = rdp_word hal t) as Hw by (intros; unfold rdp_word; by rewrite Hv).
  split; rewrite ?Hz, ?Hb, ?Hz2, ?Hb2, ?Htp, ?Hp2, ?Hd, ?He; try setoid_rewrite Hw; try done.
  unfold Source.hp_reg. by rewrite Hp.
Qed.

(** [a] and [t] are the descriptors written and those read by the device, [k]
    the buffers posted, [r] the entries of the status ring not yet read: the
    device reports only buffers whose descriptors it has read. *)
Record rx_inv (s0 : skbs) (m0 : gmap Z Z) (id : nat) (p : dst_priv) (w : world) (V : rx_view)
    (a t : list (list Z)) (k r : Z) : Prop := {
  ri_pipe : st_pipes (dp_st p) !! id = Some (v_pipe V);
  ri_dst : pipe_dst_ring (v_pipe V) = Some (v_dst V);
  ri_status : pipe_status_ring (v_pipe V) = Some (v_status V);
  ri_buf : 0 ≤ pipe_buf_sz (v_pipe V);
  ri_s : hal_srng_list (dp_hal p) !! Z.to_nat (tr_hal_ring_id (v_dst V)) = Some (v_s V);
  ri_s2 : hal_srng_list (dp_hal p) !! Z.to_nat (tr_hal_ring_id (v_status V)) = Some (v_s2 V);
  ri_ids : Z.to_nat (tr_hal_ring_id (v_dst V)) ≠ Z.to_nat (tr_hal_ring_id (v_status V));
  ri_shape : srng_lock (v_s V) = false ∧ srng_entry_size (v_s V) = 3 ∧
    srng_num_entries (v_s V) = tr_nentries (v_dst V) ∧
    srng_num_entries (v_s2 V) = tr_nentries (v_status V);
  ri_inv : Source.inv mmio_addr (Source.Link (v_s V) w a t);
  ri_given : Z.of_nat (length a) - Z.of_nat (length t) ≤ k - r;
  ri_status_ok : status_ok (v_s2 V) w r;
  ri_reported : 0 ≤ r ≤ k;
  ri_apart : ∀ j, 0 ≤ j < srng_ring_size (v_s V) →
    dst_hp_addr (srng_dst (v_s2 V)) ≠ srng_ring_base_vaddr (v_s V) + 4 * j;
  ri_regs : mmio_addr + u32 (ptr_sub (dst_tp_addr (srng_dst (v_s2 V))) mmio_addr) ≠
    Source.hp_reg mmio_addr (v_s V);
  ri_slots : rx_slots (v_dst V) k;
  ri_needed : pipe_rx_buf_needed (v_pipe V) = tr_nentries (v_dst V) - 2 - k;
  ri_device : status_region (v_s V) (v_s2 V) w r;
  ri_home : rx_home (dp_hal p) V;
  ri_posted : posted s0 m0 (live (tr_skb (v_dst V))) (dp_skbs p) (w_map w);
  ri_booked : booked a (window (v_dst V) k) (dp_skbs p)
}.

(** What happens to other buffers does not matter. *)
Lemma rx_inv_booked s0 m0 id p w V a t k r s' : rx_inv s0 m0 id p w V a t k r →
  (∀ q, q ∈ live (tr_skb (v_dst V)) → s' !! q = dp_skbs p !! q) → booked a (window (v_dst V) k) s'.
Proof.
  intros Hinv Hs. eapply booked_store; [|exact (ri_booked _ _ _ _ _ _ _ _ _ _ Hinv)].
  intros q Hq. apply Hs. by rewrite <-(window_live _ _ (ri_slots _ _ _ _ _ _ _ _ _ _ Hinv)).
Qed.

Lemma status_ok_world s w w' r : status_ok s w r →
  w_mem w' !! dst_hp_addr (srng_dst s) = w_mem w !! dst_hp_addr (srng_dst s) → status_ok s w' r.
Proof. intros [? ? ? ? ? Hhp] Hm. split; try done. by rewrite Hm. Qed.

Lemma dst_words_ok paddr : is_words (hal_test_dst_words (wireless_simu_test_dst_set_desc paddr)).
Proof. repeat constructor; apply wrap_wrap. Qed.

(** Words outside the entries survive filling one. *)
Lemma push_frame s (i : Z) d m x : srng_geometry s → Z.of_nat (length d) = srng_entry_size s →
  (∀ j, 0 ≤ j < srng_ring_size s → x ≠ srng_ring_base_vaddr s + 4 * j) →
  write_words (Source.slot s i) d m !! x = m !! x.
Proof.
  intros Hg Hd Hx. apply write_words_ne. intros k Hk Heq.
  destruct (Source.slot_word s i (Z.of_nat k) Hg) as (o & Ho & Hr & _); [lia|].
  rewrite Ho in Heq. by apply (Hx o).
Qed.

(** The critical section of [wireless_simu_test_dst_enqueue_pipe] on an opened
    ring with a free entry. *)
Lemma enqueue_locked_done store s pipe ring q b w a t k tp :
  store !! q = Some b → q ≠ 0 → rx_slots ring k → k < tr_nentries ring - 2 →
  srng_entry_size s = 3 →
  wireless_simu_hal_srng_access_begin (s <| srng_lock := true |>) w = Done (opened s tp, w) →
  Source.inv mmio_addr (Source.Link (opened s tp) w a t) →
  src_wf (opened s tp) → 0 < src_free (opened s tp) →
  let d := hal_test_dst_words (wireless_simu_test_dst_set_desc (cb_paddr (sb_cb b))) in
  ∃ ring' w1, dst_enqueue_locked store (s <| srng_lock := true |>) pipe ring q
      (cb_paddr (sb_cb b)) w =
      Done ((0, src_advance (opened s tp),
             pipe <| pipe_dst_ring := Some ring' |>
                  <| pipe_rx_buf_needed := u32 (pipe_rx_buf_needed pipe - 1) |>), w1) ∧
    rx_slots ring' (k + 1) ∧ live (tr_skb ring') ≡ₚ q :: live (tr_skb ring) ∧
    window ring' (k + 1) = window ring k ++ [q] ∧
    tr_hal_ring_id ring' = tr_hal_ring_id ring ∧ tr_nentries ring' = tr_nentries ring ∧
    block_of ring' = block_of ring ∧ tr_dma_size ring' = tr_dma_size ring ∧
    Source.step mmio_addr (Source.Link (opened s tp) w a t)
      (Source.Link (src_advance (opened s tp)) w1 (a ++ [d]) t) ∧
    Source.inv mmio_addr (Source.Link (src_advance (opened s tp)) w1 (a ++ [d]) t) ∧
    w1 = w <| w_mem := write_words (Source.slot s (Z.of_nat (length a))) d (w_mem w) |>.
Proof.
  intros Hb Hq Hslots Hk He Hbegin Hi Hwf Hfree d.
  destruct (rx_slots_push ring k q Hslots Hk Hq) as (Hzero & Hwr & Hslots').
  destruct (push_spec mmio_addr _ w a t d Hi Hwf Hfree)
    as (pd & w1 & Hn & Hpd & Hst & Hstep & Hi' & _ & Hw1); [exact (eq_sym He)|apply dst_words_ok|].
  eexists _, w1. split; [|split_and!; [exact Hslots'|by apply live_set|by apply window_push|done..|exact Hstep|exact Hi'|exact Hw1]].
  unfold dst_enqueue_locked.
  rewrite (M_bind_done _ _ _ _ _ Hbegin), (M_bind_done _ _ _ _ _ (src_num_free_eq _ w Hwf)).
  rewrite decide_False by lia. rewrite (M_bind_done _ _ _ _ _ Hn), decide_False by done.
  rewrite (M_bind_done _ _ _ _ _ Hst). unfold set_ring_skb.
  rewrite decide_True by (rewrite (rs_len _ _ Hslots); lia). rewrite M_bind_ret.
  by rewrite (M_bind_done _ _ _ _ _ (get_skb_done store q b w1 Hb)).
Qed.

(* ---------------- what the operations keep ---------------- *)

(** What nothing but the scheduling of a tasklet changes in a pipe. *)
Definition pipe_fixed (pipe : srng_test_pipe) : bool * Z := (pipe_intr_tq pipe, pipe_num pipe).

(** The blocks, the configuration and everything of the HAL but the rings. *)
Record dst_kept (p p' : dst_priv) : Prop := {
  dk_owned : test_owned (dp_st p') = test_owned (dp_st p);
  dk_config : st_config_ptr (dp_st p') = st_config_ptr (dp_st p);
  dk_timer : st_rx_replenish_retry (dp_st p') = st_rx_replenish_retry (dp_st p);
  dk_count : st_pipes_count (dp_st p') = st_pipes_count (dp_st p);
  dk_len : length (st_pipes (dp_st p')) = length (st_pipes (dp_st p));
  dk_pipes : pipe_fixed <$> st_pipes (dp_st p') = pipe_fixed <$> st_pipes (dp_st p);
  dk_hal : dp_hal p' <| hal_srng_list := [] |> = dp_hal p <| hal_srng_list := [] |>;
  dk_hal_len : length (hal_srng_list (dp_hal p')) = length (hal_srng_list (dp_hal p))
}.

#[export] Instance dst_kept_refl : Reflexive dst_kept.
Proof. by split. Qed.
#[export] Instance dst_kept_trans : Transitive dst_kept.
Proof. intros p1 p2 p3 [] []. split; by etrans. Qed.

Lemma put_pipe_owned st id pipe pipe' : st_pipes st !! id = Some pipe →
  pipe_owned pipe' = pipe_owned pipe → test_owned (put_pipe st id pipe') = test_owned st.
Proof.
  intros Hp Ho. unfold test_owned. cbn. rewrite list_fmap_insert, Ho, list_insert_id; [done|].
  by rewrite list_lookup_fmap, Hp.
Qed.

Lemma set_kept p id hid pipe pipe' srng : st_pipes (dp_st p) !! id = Some pipe →
  pipe_owned pipe' = pipe_owned pipe → pipe_fixed pipe' = pipe_fixed pipe →
  dst_kept p (set_pipe (set_srng p hid srng) id pipe').
Proof.
  intros Hp Ho Ht. split; cbn; rewrite ?length_insert; try done.
  - by eapply put_pipe_owned.
  - rewrite list_fmap_insert, Ht, list_insert_id; [done|]. by rewrite list_lookup_fmap, Hp.
Qed.

(** The pipe with one buffer more on its ring. *)
Definition pushed_pipe (V : rx_view) (ring' : srng_test_ring) : srng_test_pipe :=
  v_pipe V <| pipe_dst_ring := Some ring' |>
           <| pipe_rx_buf_needed := u32 (pipe_rx_buf_needed (v_pipe V) - 1) |>.

(** One buffer more in the ring, in the slots and on the books. *)
Lemma rx_inv_pushed id p w V a t k r q b s0 m0 ring' s4 w3 :
  rx_inv s0 m0 id p w V a t k r →
  q ≠ 0 → dp_skbs p !! q = None →
  w_map w !! cb_paddr (sb_cb b) = None → skb_data (sb_buf b) = [] → 0 ≤ skb_tailroom (sb_buf b) →
  rx_slots ring' (k + 1) → live (tr_skb ring') ≡ₚ q :: live (tr_skb (v_dst V)) →
  window ring' (k + 1) = window (v_dst V) k ++ [q] →
  tr_hal_ring_id ring' = tr_hal_ring_id (v_dst V) → tr_nentries ring' = tr_nentries (v_dst V) →
  k < tr_nentries (v_dst V) - 2 → same_shape (v_s V) s4 → srng_lock s4 = false →
  let d := hal_test_dst_words (wireless_simu_test_dst_set_desc (cb_paddr (sb_cb b))) in
  Source.inv mmio_addr (Source.Link s4 w3 (a ++ [d]) t) →
  w_mem w3 = write_words (Source.slot (v_s V) (Z.of_nat (length a))) d (w_mem w) →
  w_map w3 = <[cb_paddr (sb_cb b) := skb_room b]> (w_map w) →
  let p1 := p <| dp_skbs := <[q := b]> (dp_skbs p) |> in
  rx_inv s0 m0 id (set_pipe (set_srng p1 (tr_hal_ring_id (v_dst V)) s4) id (pushed_pipe V ring')) w3
    (RxView (pushed_pipe V ring') ring' (v_status V) s4 (v_s2 V)) (a ++ [d]) t (k + 1) r.
Proof.
  intros [] Hq Hs Hm Hd Ht Hslots Hlive Hwin Hid Hnn Hk Hsh Hl4 d Hi4 Hmem Hmap p1.
  destruct ri_shape0 as (Hl & He & Hn & Hn2). pose proof Hsh as [He4 Hn4 Hz4 Hb4 Hr4 _].
  pose proof (rs_count _ _ ri_slots0).
  pose proof (Source.st_geo _ (Source.inv_static _ _ ri_inv0)) as Hgeo. cbn [Source.l_srng] in Hgeo.
  split; cbn [v_pipe v_dst v_status v_s v_s2]; try done.
  - cbn. apply list_lookup_insert_eq. by eapply lookup_lt_Some.
  - cbn. rewrite Hid. apply list_lookup_insert_eq. by eapply lookup_lt_Some.
  - cbn. by rewrite list_lookup_insert_ne.
  - by rewrite Hid.
  - rewrite He4, Hn4, Hnn. done.
  - rewrite length_app. cbn. lia.
  - eapply status_ok_world; [done|]. rewrite Hmem.
    exact (push_frame (v_s V) _ d _ _ Hgeo (eq_sym He) ri_apart0).
  - lia.
  - rewrite Hz4, Hb4. exact ri_apart0.
  - unfold Source.hp_reg. rewrite Hr4. exact ri_regs0.
  - cbn. rewrite Hnn, ri_needed0. destruct ri_slots0 as [(e & Hee & Hne & _) _ _ _ _ _].
    assert (2 ^ e ≤ 2 ^ 16) by (apply Z.pow_le_mono_r; lia). rewrite wrap_id; lia.
  - eapply status_region_frame; [exact Hsh|apply (so_geo _ _ _ ri_status_ok0)| |exact ri_device0].
    intros j Hj. rewrite Hmem. eapply (push_frame (v_s V)); [exact Hgeo|exact (eq_sym He)|].
    intros i Hir. by apply (sr_slots _ _ _ _ ri_device0).
  - by eapply rx_home_shape; [exact ri_home0|..].
  - rewrite Hmap. cbn. eapply posted_perm; [symmetry; exact Hlive|]. by constructor.
  - rewrite Hwin. by apply booked_push.
Qed.

(** The function as its four calls on the ring. *)
Lemma enqueue_runs p id pipe ring s q paddr w s1 ret s2 pipe' w2 s3 w3 s4 :
  st_pipes (dp_st p) !! id = Some pipe → pipe_dst_ring pipe = Some ring → st_lock (dp_st p) = true →
  hal_srng_list (dp_hal p) !! Z.to_nat (tr_hal_ring_id ring) = Some s →
  srng_spin_lock s w = Done (s1, w) →
  dst_enqueue_locked (dp_skbs p) s1 pipe ring q paddr w = Done ((ret, s2, pipe'), w2) →
  wireless_simu_hal_srng_access_end mmio_addr s2 w2 = Done (s3, w3) →
  srng_spin_unlock s3 w3 = Done (s4, w3) →
  wireless_simu_test_dst_enqueue_pipe mmio_addr p id q paddr w =
    Done ((ret, set_pipe (set_srng p (tr_hal_ring_id ring) s4) id pipe'), w3).
Proof.
  intros Hpipe Hring Hlock Hs E1 E2 E3 E4. unfold wireless_simu_test_dst_enqueue_pipe, get_pipe.
  rewrite Hpipe, (M_bind_done _ _ _ _ _ eq_refl), Hring, (M_bind_done _ _ _ _ _ eq_refl).
  unfold lockdep_assert_held, assert. rewrite Hlock, (M_bind_done _ _ _ _ _ eq_refl).
  unfold get_srng. rewrite Hs, (M_bind_done _ _ _ _ _ eq_refl).
  rewrite (M_bind_done _ _ _ _ _ E1), (M_bind_done _ _ _ _ _ E2).
  by rewrite (M_bind_done _ _ _ _ _ E3), (M_bind_done _ _ _ _ _ E4).
Qed.

(** [wireless_simu_test_dst_enqueue_pipe] with a mapped buffer: the ring is
    never full, so the buffer is posted. *)
Lemma enqueue_done id p w V a t k r q b s0 m0 :
  rx_inv s0 m0 id p w V a t k r → st_lock (dp_st p) = true →
  k < tr_nentries (v_dst V) - 2 → q ≠ 0 → dp_skbs p !! q = None →
  w_map w !! cb_paddr (sb_cb b) = None → skb_data (sb_buf b) = [] → 0 ≤ skb_tailroom (sb_buf b) →
  let p1 := p <| dp_skbs := <[q := b]> (dp_skbs p) |> in
  let w1 := w <| w_map := <[cb_paddr (sb_cb b) := skb_room b]> (w_map w) |> in
  let d := hal_test_dst_words (wireless_simu_test_dst_set_desc (cb_paddr (sb_cb b))) in
  ∃ p' w' V', wireless_simu_test_dst_enqueue_pipe mmio_addr p1 id q (cb_paddr (sb_cb b)) w1 =
      Done ((0, p'), w') ∧
    rx_inv s0 m0 id p' w' V' (a ++ [d]) t (k + 1) r ∧ st_lock (dp_st p') = true ∧
    rtc (Source.step mmio_addr) (Source.Link (v_s V) w1 a t) (Source.Link (v_s V') w' (a ++ [d]) t) ∧
    dst_kept p p' ∧ same_resources w1 w' ∧ tr_nentries (v_dst V') = tr_nentries (v_dst V) ∧
    window (v_dst V') (k + 1) = window (v_dst V) k ++ [q] ∧ dp_skbs p' = dp_skbs p1.
Proof.
  intros Hrx Hlock Hk Hq Hs Hm Hd Ht p1 w1 d. pose proof Hrx as []. destruct ri_shape0 as (Hl & He & Hn & Hn2).
  pose proof (Source.inv_world mmio_addr (v_s V) w w1 a t eq_refl eq_refl ri_inv0) as Hi.
  destruct (open_spec mmio_addr _ _ _ _ Hi Hl) as (tp & Elock & Ebegin & Hst1 & Hi1 & Hwf & Hfree).
  pose proof (rs_count _ _ ri_slots0).
  destruct (enqueue_locked_done (dp_skbs p1) (v_s V) (v_pipe V) (v_dst V) q b w1 a t k tp)
    as (ring' & w2 & Erun & Hslots & Hlive & Hwin & Hid & Hnn & Hblk & Hsz & Hstep & Hi2 & Hw2);
    [apply lookup_insert_eq|done..|lia|].
  destruct (close_spec mmio_addr _ _ _ _ Hi2 eq_refl)
    as (s3 & w3 & s4 & Eend & Eun & Hl4 & Hsh & Hst4 & Hm4 & Hsame4).
  exists (set_pipe (set_srng p1 (tr_hal_ring_id (v_dst V)) s4) id (pushed_pipe V ring')), w3,
    (RxView (pushed_pipe V ring') ring' (v_status V) s4 (v_s2 V)).
  split; [|split; [|split; [|split; [|split; [|split; [|split; [|split]]]]]]].
  - eapply enqueue_runs; [exact ri_pipe0|exact ri_dst0|exact Hlock|exact ri_s0|exact Elock|exact Erun|done|done].
  - eapply rx_inv_pushed; try done.
    + by destruct Hsh.
    + apply (Source.reach_inv _ _ _ Hst4 Hi2).
    + rewrite Hm4, Hw2. done.
    + rewrite (same_map _ _ Hsame4), Hw2. done.
  - exact Hlock.
  - cbn [v_s]. etrans; [exact Hst1|]. eapply rtc_l; [exact Hstep|exact Hst4].
  - trans p1; [by split|]. apply (set_kept p1 id _ (v_pipe V)); [done| |done].
    unfold pipe_owned, held. cbn. rewrite ri_dst0, Hsz, Hblk. done.
  - etrans; [|exact Hsame4]. rewrite Hw2. split; try done.
    change (dom (write_words (Source.slot (v_s V) (Z.of_nat (length a))) d (w_mem w)) = dom (w_mem w)).
    apply dom_write_words. change (length d) with 3%nat.
    replace 3%nat with (Z.to_nat (srng_entry_size (v_s V))) by (rewrite He; done).
    apply Source.slot_mapped; [apply (Source.st_geo _ (Source.inv_static _ _ ri_inv0))|].
    apply (Source.inv_mapped _ _ ri_inv0).
  - exact Hnn.
  - exact Hwin.
  - done.
Qed.

(* ---------------- filling the ring ---------------- *)

Lemma rx_inv_world s0 m0 id p w w' V a t k r : rx_inv s0 m0 id p w V a t k r →
  w_mem w' = w_mem w → w_mmio w' = w_mmio w → w_map w' = w_map w →
  rx_inv s0 m0 id p w' V a t k r.
Proof.
  intros [] Hm Hi Hmap. split; try done.
  - by eapply Source.inv_world.
  - eapply status_ok_world; [done|by rewrite Hm].
  - eapply status_region_frame; [apply same_shape_refl|by apply (so_geo _ _ _ ri_status_ok0)| |done].
    intros. by rewrite Hm.
  - by rewrite Hmap.
Qed.

Lemma same_skbs (p : dst_priv) : p <| dp_skbs := dp_skbs p |> = p.
Proof. by destruct p. Qed.

(** A new buffer the kernel refused to map. *)
Record refused (q : Z) (b : sk_buff) : Prop := {
  rf_new : skb_data (sb_buf b) = [] ∧ sb_cb b = skb_cb_zero;
  rf_map : ∃ w, k_dma_mapping_error (k_dma_map w (k_skb_addr q (sb_buf b)) (skb_room b)) = true
}.

(** The new base of the store: a buffer whose mapping failed stays behind. *)
Definition leaked (s0 s0' : skbs) : Prop := ∃ q b, refused q b ∧ s0 !! q = None ∧ s0' = <[q := b]> s0.

(** At most [n] of them, and nothing else, stayed behind. *)
Lemma leaked_spec n s0 s0' : bsteps leaked n s0 s0' →
  s0 ⊆ s0' ∧ (size s0' ≤ size s0 + n)%nat ∧ ∀ q b, s0' !! q = Some b → s0 !! q = Some b ∨ refused q b.
Proof.
  induction 1 as [n s0|n s0 s1 s2 (q & b & Hr & Hq & ->) _ (IH1 & IH2 & IH3)].
  { split_and!; [done|lia|by left]. }
  rewrite map_size_insert_None in IH2 by done. split_and!; [|lia|].
  - etrans; [by apply (insert_subseteq s0 q b)|done].
  - intros q' b' [Hb|?]%IH3; [|by right]. apply lookup_insert_Some in Hb as [[<- <-]|[_ ?]]; [by right|by left].
Qed.

(** How posting can end. *)
Inductive post_outcome (n : Z) (s0 : skbs) : Z → Z → skbs → Prop :=
  | post_full : post_outcome n s0 0 (n - 2) s0
  | post_nomem k : post_outcome n s0 (- ENOMEM) k s0
  | post_eio k s0' : leaked s0 s0' → post_outcome n s0 (- EIO) k s0'.

(** Posting the buffers [new] one after the other, with the descriptors [ds]:
    each is new to the store and empty, has been mapped at an address new to the
    mappings over its room, remembers that address, and its descriptor names
    it. *)
Inductive posts : skbs → gmap Z Z → list Z → skbs → gmap Z Z → list (list Z) → Prop :=
  | posts_nil s m : posts s m [] s m []
  | posts_cons s m q b new s' m' ds : q ≠ 0 → s !! q = None → m !! cb_paddr (sb_cb b) = None →
      skb_data (sb_buf b) = [] → 0 ≤ skb_tailroom (sb_buf b) →
      posts (<[q := b]> s) (<[cb_paddr (sb_cb b) := skb_room b]> m) new s' m' ds →
      posts s m (q :: new) s' m'
        (hal_test_dst_words (wireless_simu_test_dst_set_desc (cb_paddr (sb_cb b))) :: ds).

(** A round of posting: the buffers [win] in the ring and the descriptors [a]
    grow by as many, and no other buffer and mapping is new, but for the buffer
    the kernel may have refused to map at the end. *)
Definition grown (win : list Z) (s : skbs) (m : gmap Z Z) (a : list (list Z)) (k : Z)
    (win' : list Z) (s' : skbs) (m' : gmap Z Z) (a' : list (list Z)) (k' : Z) : Prop :=
  ∃ new ds s1, a' = a ++ ds ∧ k' = k + Z.of_nat (length ds) ∧ win' = win ++ new ∧
    posts s m new s1 m' ds ∧ (s' = s1 ∨ leaked s1 s').

Lemma grown_none win s m a k s' : s' = s ∨ leaked s s' → grown win s m a k win s' m a k.
Proof.
  intros Hs. exists [], [], s. rewrite !app_nil_r. split_and!; [done|cbn; lia|done|constructor|done].
Qed.
Lemma grown_one win s m a k q b win' s' m' a' k' : q ≠ 0 → s !! q = None → m !! cb_paddr (sb_cb b) = None →
  skb_data (sb_buf b) = [] → 0 ≤ skb_tailroom (sb_buf b) →
  grown (win ++ [q]) (<[q := b]> s) (<[cb_paddr (sb_cb b) := skb_room b]> m)
    (a ++ [hal_test_dst_words (wireless_simu_test_dst_set_desc (cb_paddr (sb_cb b)))]) (k + 1) win' s' m' a' k' →
  grown win s m a k win' s' m' a' k'.
Proof.
  intros ? ? ? ? ? (new & ds & s1 & -> & -> & -> & Hp & Hs). eexists (q :: new), (_ :: ds), s1.
  rewrite <-!app_assoc. split_and!; [done|cbn; lia|done|by constructor|done].
Qed.
Lemma grown_counts win s m a k win' s' m' a' k' : grown win s m a k win' s' m' a' k' →
  Z.of_nat (length a') - Z.of_nat (length a) = k' - k ∧ k ≤ k'.
Proof. intros (new & ds & s1 & -> & -> & _). rewrite length_app. lia. Qed.

Context `{KO : !KernelOk} `{SO : !SkbOk}.

(** A new buffer, mapped: what happens before it is enqueued. *)
Lemma new_buffer_cases id p w V a t k r s0 m0 :
  rx_inv s0 m0 id p w V a t k r →
  (dev_alloc_skb (dp_skbs p) (pipe_buf_sz (v_pipe V)) w = Done ((0, dp_skbs p), tick w)) ∨
  ∃ q b0 pa, q ≠ 0 ∧ dp_skbs p !! q = None ∧
    dev_alloc_skb (dp_skbs p) (pipe_buf_sz (v_pipe V)) w = Done ((q, <[q := b0]> (dp_skbs p)), tick w) ∧
    let w1 := tick (tick w) in
    let b := b0 <| sb_cb := sb_cb b0 <| cb_paddr := pa |> |> in
    skb_data (sb_buf b) = [] ∧ 0 ≤ skb_tailroom (sb_buf b) ∧ sb_cb b0 = skb_cb_zero ∧
    ((dma_map_single (k_skb_addr q (sb_buf b0)) (skb_room b0) (tick w) = Done (pa, w1) ∧
      k_dma_mapping_error pa = true) ∨
     (dma_map_single (k_skb_addr q (sb_buf b0)) (skb_room b0) (tick w) =
        Done (pa, w1 <| w_map := <[cb_paddr (sb_cb b) := skb_room b]> (w_map w1) |>) ∧
      k_dma_mapping_error pa = false ∧ w_map w1 !! cb_paddr (sb_cb b) = None)).
Proof.
  intros [_ _ _ Hbuf]. destruct (dev_alloc_skb_cases (dp_skbs p) (pipe_buf_sz (v_pipe V)) w)
    as [E|(q & Hq & Hn & E)]; [by left|right].
  destruct (skb_new_spec (pipe_buf_sz (v_pipe V)) Hbuf) as (Hd & _ & Ht).
  set (b0 := SkBuff (skb_new (pipe_buf_sz (v_pipe V))) skb_cb_zero 0) in *.
  destruct (dma_map_cases (k_skb_addr q (sb_buf b0)) (skb_room b0) (tick w)) as (pa & Hmap).
  exists q, b0, pa. cbv zeta. split_and!; [done|done|done|done|cbn; lia|done|].
  destruct Hmap as [Hmap|(Hmap & Herr & Hnone)]; [by left|by right].
Qed.

Lemma post_loop_done fuel id p w V a t k r s0 m0 :
  rx_inv s0 m0 id p w V a t k r → st_lock (dp_st p) = true →
  (Z.to_nat (tr_nentries (v_dst V) - 2 - k) < fuel)%nat →
  ∃ ret p' w' V' a' k' s0', dst_post_loop mmio_addr fuel p id w = Done ((ret, p'), w') ∧
    rx_inv s0' m0 id p' w' V' a' t k' r ∧ st_lock (dp_st p') = true ∧ dst_kept p p' ∧
    same_blocks w w' ∧ tr_nentries (v_dst V') = tr_nentries (v_dst V) ∧
    grown (window (v_dst V) k) (dp_skbs p) (w_map w) a k
      (window (v_dst V') k') (dp_skbs p') (w_map w') a' k' ∧
    post_outcome (tr_nentries (v_dst V)) s0 ret k' s0'.
Proof.
  revert p w V a k. induction fuel as [|fuel IH]; intros p w V a k Hinv Hlock Hfuel; [lia|].
  cbn [dst_post_loop]. unfold get_pipe.
  rewrite (ri_pipe _ _ _ _ _ _ _ _ _ _ Hinv), (M_bind_done _ _ _ _ _ eq_refl).
  pose proof (rs_count _ _ (ri_slots _ _ _ _ _ _ _ _ _ _ Hinv)) as Hk.
  pose proof (ri_needed _ _ _ _ _ _ _ _ _ _ Hinv) as Hneed.
  case_decide as Hz.
  { exists 0, p, w, V, a, k, s0. split_and!; try done; [apply grown_none; by left|].
    replace k with (tr_nentries (v_dst V) - 2) by lia. constructor. }
  destruct (new_buffer_cases _ _ _ _ _ _ _ _ _ _ Hinv)
    as [E|(q & b0 & pa & Hq & Hn & E & Hd & Ht & Hcb & Hmap)]; rewrite (M_bind_done _ _ _ _ _ E).
  { rewrite decide_True, same_skbs by done. exists (- ENOMEM), p, (tick w), V, a, k, s0.
    split_and!; try done; [by eapply rx_inv_world|apply grown_none; by left|constructor]. }
  rewrite decide_False by done.
  rewrite (M_bind_done _ _ _ _ _ (get_skb_done _ q b0 _ (lookup_insert_eq _ _ _))).
  destruct Hmap as [[Em Herr]|(Em & Herr & Hnone)]; rewrite (M_bind_done _ _ _ _ _ Em).
  { unfold dma_mapping_error. rewrite M_bind_ret, Herr.
    destruct (posted_leak _ _ _ _ _ q b0 (ri_posted _ _ _ _ _ _ _ _ _ _ Hinv) Hn) as [H0 Hpost].
    eexists (- EIO), _, _, V, a, k, _. split; [reflexivity|].
    assert (refused q b0) as Href.
    { split; [by split|]. exists (tick w). unfold dma_map_single in Em. injection Em as ->. done. }
    split_and!; try done; [|apply grown_none; right; by exists q, b0|constructor; by exists q, b0].
    apply (rx_inv_world _ _ _ _ _ (tick (tick w))) in Hinv; [|done..].
    assert (booked a (window (v_dst V) k) (<[q := b0]> (dp_skbs p))) as Hbk.
    { eapply rx_inv_booked; [exact Hinv|]. intros x Hx.
      destruct (posted_new _ _ _ _ _ _ (ri_posted _ _ _ _ _ _ _ _ _ _ Hinv) Hx) as [[] _].
      rewrite lookup_insert_ne by congruence. done. }
    by destruct Hinv. }
  unfold dma_mapping_error. rewrite M_bind_ret, Herr.
  set (b := b0 <| sb_cb := sb_cb b0 <| cb_paddr := pa |> |>) in *.
  rewrite (M_bind_done _ _ _ _ _ (set_cb_done _ q b0 _ _ (lookup_insert_eq _ _ _))), insert_insert_eq.
  fold b.
  destruct (enqueue_done id p (tick (tick w)) V a t k r q b s0 m0)
    as (p1 & w1 & V1 & E1 & Hinv1 & Hlock1 & _ & Hkept & Hsame & Hn1 & Hwin & Hst1); try done; [by eapply rx_inv_world|lia|].
  rewrite (M_bind_done _ _ _ _ _ E1), decide_False by (intros H; by apply H).
  destruct (IH p1 w1 V1 _ _ Hinv1 Hlock1)
    as (ret & p' & w' & V' & a' & k' & s0' & E2 & Hinv' & Hlock' & Hkept' & Hsame' & Hn' & Hgr & Hout);
    [lia|].
  exists ret, p', w', V', a', k', s0'. rewrite Hn1 in Hn', Hout.
  rewrite Hwin, Hst1, (same_map _ _ Hsame) in Hgr.
  split_and!; try done; [by etrans| |by eapply grown_one].
  etrans; [|exact Hsame']. etrans; [|by apply same_resources_blocks]. by split.
Qed.

Lemma rx_inv_lock s0 m0 id p w V a t k r l : rx_inv s0 m0 id p w V a t k r →
  rx_inv s0 m0 id (set_lock p l) w V a t k r.
Proof. by intros []. Qed.

Lemma lock_kept p l : dst_kept p (set_lock p l).
Proof. by split. Qed.

(** [wireless_simu_test_dst_post_pipe] as a whole. *)
Lemma post_pipe_done id p w V a t k r s0 m0 :
  rx_inv s0 m0 id p w V a t k r → st_lock (dp_st p) = false →
  ∃ ret p' w' V' a' k' s0', wireless_simu_test_dst_post_pipe mmio_addr p id w = Done ((ret, p'), w') ∧
    rx_inv s0' m0 id p' w' V' a' t k' r ∧ st_lock (dp_st p') = false ∧ dst_kept p p' ∧
    same_blocks w w' ∧ tr_nentries (v_dst V') = tr_nentries (v_dst V) ∧
    grown (window (v_dst V) k) (dp_skbs p) (w_map w) a k
      (window (v_dst V') k') (dp_skbs p') (w_map w') a' k' ∧
    post_outcome (tr_nentries (v_dst V)) s0 ret k' s0'.
Proof.
  intros Hinv Hlock. unfold wireless_simu_test_dst_post_pipe, get_pipe.
  rewrite (ri_pipe _ _ _ _ _ _ _ _ _ _ Hinv), (M_bind_done _ _ _ _ _ eq_refl).
  rewrite (ri_dst _ _ _ _ _ _ _ _ _ _ Hinv), (ri_status _ _ _ _ _ _ _ _ _ _ Hinv).
  unfold lock_acquire. rewrite Hlock, (M_bind_done _ _ w true w) by done.
  destruct (post_loop_done (post_fuel (v_pipe V)) id (set_lock p true) w V a t k r s0 m0)
    as (ret & p' & w' & V' & a' & k' & s0' & E & Hinv' & Hlock' & Hkept & Hsame & Hn & Hgr & Hout).
  { by apply rx_inv_lock. }
  { done. }
  { unfold post_fuel. rewrite (ri_needed _ _ _ _ _ _ _ _ _ _ Hinv). lia. }
  rewrite (M_bind_done _ _ _ _ _ E). unfold lock_release. rewrite Hlock'.
  exists ret, (set_lock p' false), w', V', a', k', s0'. split_and!; try done.
  - by apply rx_inv_lock.
  - trans (set_lock p true); [apply lock_kept|]. trans p'; [done|apply lock_kept].
Qed.
End invariant.
