(* ===== verification/RxTotal.v ===== *)
(** * The receive path's loops end

    The loops of wireless_simu_test_dst_post_pipe and
    wireless_simu_irq_hal_srng_dst_dma_test
    (src/driver/driver_wireless/wireless_hal.c) are modelled with a number of
    rounds.  From any state, sound or not, they end by themselves: with a
    result or with a fault of the code, never because the rounds ran out. *)

From S2P Require Import Prelude Kernel Bits HalTypes Hif HalRing RingProtocol HalSetup HalInit Skb.
From S2P Require Import SrngTest SrngSend PipeLife SrngTestRun DstTest RxRing.

(** [m] does not run out of rounds. *)
Definition ends {A} (m : M A) (w : world) : Prop := m w ≠ Fault OutOfFuel.
Definition total {A} (m : M A) : Prop := ∀ w, ends m w.

Create HintDb total discriminated.

Lemma ends_bind {A B} (m : M A) (k : A → M B) w : ends m w →
  (∀ a w', m w = Done (a, w') → ends (k a) w') → ends (m ≫= k) w.
Proof. unfold ends, mbind, M_bind. intros Hm Hk. destruct (m w) as [[a w']|f]; [by apply Hk|].
  intros E. apply Hm. congruence.
Qed.
Lemma total_bind {A B} (m : M A) (k : A → M B) : total m → (∀ a, total (k a)) → total (m ≫= k).
Proof. intros Hm Hk w. apply ends_bind; [apply Hm|intros; apply Hk]. Qed.
Lemma total_ret {A} (a : A) : total (mret a).
Proof. done. Qed.
Lemma total_fail {A} f : f ≠ OutOfFuel → total (fail (A := A) f).
Proof. intros Hf w. unfold ends, fail. congruence. Qed.
Lemma total_option {A} f (o : option A) : f ≠ OutOfFuel → total (of_option f o).
Proof. intros Hf. destruct o; [apply total_ret|by apply total_fail]. Qed.
Lemma total_assert b f : f ≠ OutOfFuel → total (assert b f).
Proof. intros Hf. destruct b; [apply total_ret|by apply total_fail]. Qed.

(** Close [total] goals by their structure. *)
Ltac total_step :=
  first [ apply total_ret | solve [eauto 2 with total nocore] | apply total_bind; [|intros ?]
        | apply total_fail; done | apply total_option; first [done|by case_decide]
        | apply total_assert; done | progress cbv zeta | progress case_match ].
Ltac total := repeat total_step.

Section primitives.
Context `{K : Kernel} `{SA : SkbApi}.

Lemma total_load32 p : total (load32 p).
Proof. intros w. unfold ends, load32. case_match; [done|by case_decide]. Qed.
Lemma total_store32 p v : total (store32 p v).
Proof. intros w. unfold ends, store32. case_match; [done|by case_decide]. Qed.
Lemma total_store_words vs p : total (store_words p vs).
Proof.
  revert p. induction vs as [|v vs IH]; intros p; [apply total_ret|].
  apply total_bind; [apply total_store32|intros ?; apply IH].
Qed.
Lemma total_unmap a len : total (dma_unmap_single a len).
Proof. intros w. unfold ends, dma_unmap_single. by case_decide. Qed.
Lemma total_alloc store n : total (dev_alloc_skb store n).
Proof. done. Qed.
Lemma total_map a len : total (dma_map_single a len).
Proof. done. Qed.
Lemma total_kfree_skb store p : total (dev_kfree_skb_any store p).
Proof. unfold dev_kfree_skb_any. total. Qed.
Lemma total_get_skb store p : total (get_skb store p).
Proof. unfold get_skb. total. Qed.
Lemma total_get_srng hal id : total (get_srng hal id).
Proof. unfold get_srng. total. Qed.
Lemma total_write a p data : total (wireless_hif_write32 a p data).
Proof. done. Qed.
Lemma total_acquire b : total (lock_acquire b).
Proof. by destruct b. Qed.
Lemma total_release b : total (lock_release b).
Proof. by destruct b. Qed.
Lemma total_jiffies : total jiffies.
Proof. done. Qed.
Lemma total_set_ring_skb r i p : total (set_ring_skb r i p).
Proof. unfold set_ring_skb. total. Qed.
End primitives.

#[export] Hint Resolve total_load32 total_store32 total_store_words total_unmap total_alloc total_map
  total_kfree_skb total_get_skb total_get_srng total_write total_acquire total_release total_jiffies
  total_set_ring_skb : total.

Section receive.
Context `{K : Kernel} `{B : Bits} `{SA : SkbApi} (mmio_addr : Z).

Lemma total_access_begin s : total (wireless_simu_hal_srng_access_begin s).
Proof. unfold wireless_simu_hal_srng_access_begin, lockdep_assert_held. total. Qed.
Lemma total_access_end s : total (wireless_simu_hal_srng_access_end mmio_addr s).
Proof. unfold wireless_simu_hal_srng_access_end, lockdep_assert_held. total. Qed.
Lemma total_udiv a b : total (udiv32 a b).
Proof. unfold udiv32. total. Qed.
Lemma total_umod a b : total (umod32 a b).
Proof. unfold umod32. total. Qed.
#[local] Hint Resolve total_access_begin total_access_end total_udiv total_umod : total.

Lemma total_num_free s b : total (wireless_simu_hal_srng_src_num_free s b).
Proof. unfold wireless_simu_hal_srng_src_num_free, lockdep_assert_held. total. Qed.
Lemma total_src_next s : total (wireless_simu_hal_srng_src_get_next_entry s).
Proof. unfold wireless_simu_hal_srng_src_get_next_entry, lockdep_assert_held. total. Qed.
Lemma total_dst_next s : total (wireless_simu_hal_srng_dst_get_next_entry s).
Proof. unfold wireless_simu_hal_srng_dst_get_next_entry, lockdep_assert_held. total. Qed.
#[local] Hint Resolve total_num_free total_src_next total_dst_next : total.

Lemma total_enqueue p id skb pa : total (wireless_simu_test_dst_enqueue_pipe mmio_addr p id skb pa).
Proof.
  unfold wireless_simu_test_dst_enqueue_pipe, dst_enqueue_locked, lockdep_assert_held, get_pipe. total.
Qed.
Lemma total_recv_next p id : total (wireless_simu_test_dst_recv_next mmio_addr p id).
Proof.
  unfold wireless_simu_test_dst_recv_next, dst_recv_locked, get_pipe,
    wireless_simu_test_dst_get_length. total.
Qed.

#[local] Hint Resolve total_enqueue total_recv_next : total.

(** What a run went through. *)
Ltac run_inv :=
  repeat match goal with
  | H : (_ ≫= _) _ = Done _ |- _ => apply M_bind_inv in H as (? & ? & ? & H)
  | H : (let '(_, _) := ?x in _) _ = Done _ |- _ => destruct x
  | H : (if decide ?P then _ else _) _ = Done _ |- _ => destruct (decide P)
  | H : mret _ _ = Done _ |- _ => injection H as ?; subst
  | H : of_option _ ?o ?w = Done _ |- _ => destruct o eqn:?; [injection H as ?; subst|done]
  end.

(** What one round does to what bounds its loop. *)
Lemma enqueue_inv p id skb pa w p' w' :
  wireless_simu_test_dst_enqueue_pipe mmio_addr p id skb pa w = Done ((0, p'), w') →
  dp_skbs p' = dp_skbs p ∧ ∃ pipe, st_pipes (dp_st p) !! id = Some pipe ∧
    ∀ pipe', st_pipes (dp_st p') !! id = Some pipe' →
      pipe_rx_buf_needed pipe' = u32 (pipe_rx_buf_needed pipe - 1).
Proof.
  unfold wireless_simu_test_dst_enqueue_pipe, get_pipe, dst_enqueue_locked. intros E.
  run_inv; try done. split; [done|]. eexists. split; [done|]. intros pipe'. cbn.
  rewrite list_lookup_insert_eq by by eapply lookup_lt_Some. by intros [= <-].
Qed.

Lemma recv_inv p id w skb n p' w' :
  wireless_simu_test_dst_recv_next mmio_addr p id w = Done ((0, skb, n, p'), w') →
  dp_skbs p' = dp_skbs p ∧ ∃ pipe ring (i : nat), st_pipes (dp_st p) !! id = Some pipe ∧
    pipe_dst_ring pipe = Some ring ∧ tr_skb ring !! i = Some skb ∧
    ∀ pipe', st_pipes (dp_st p') !! id = Some pipe' → ∃ ring', pipe_dst_ring pipe' = Some ring' ∧
      tr_skb ring' = <[i := 0]> (tr_skb ring) ∧ 0 ≤ pipe_rx_buf_needed pipe'.
Proof.
  unfold wireless_simu_test_dst_recv_next, get_pipe, dst_recv_locked, set_ring_skb. intros E.
  run_inv; try done. split; [done|]. do 3 eexists. split_and!; [done..|].
  intros pipe'. cbn. rewrite list_lookup_insert_eq by by eapply lookup_lt_Some. intros [= <-].
  eexists. split_and!; [done..|]. by apply wrap_range.
Qed.

(** The fields of every pipe [id] of [p]; there is at most one. *)
Definition needs (p : dst_priv) (id : nat) (P : srng_test_pipe → Prop) : Prop :=
  ∀ pipe, st_pipes (dp_st p) !! id = Some pipe → P pipe.
Definition counted (pipe : srng_test_pipe) : Prop := 0 ≤ pipe_rx_buf_needed pipe.

Lemma recv_counted p id w r p' w' : needs p id counted →
  wireless_simu_test_dst_recv_next mmio_addr p id w = Done ((r, p'), w') → needs p' id counted.
Proof.
  unfold wireless_simu_test_dst_recv_next, get_pipe, dst_recv_locked, set_ring_skb. intros Hn E pipe'.
  run_inv; try done; cbn; rewrite list_lookup_insert_eq by (by eapply lookup_lt_Some); intros [= <-].
  - by apply Hn.
  - by apply Hn.
  - by apply wrap_range.
Qed.

Lemma get_pipe_inv p id w pipe w' : get_pipe p id w = Done (pipe, w') → st_pipes (dp_st p) !! id = Some pipe.
Proof. unfold get_pipe. intros E. by run_inv. Qed.

Lemma recv_status p id w r w' : wireless_simu_test_dst_recv_next mmio_addr p id w = Done (r, w') →
  needs p id (λ pipe, pipe_status_ring pipe ≠ None).
Proof.
  unfold wireless_simu_test_dst_recv_next, get_pipe. intros E pipe Hp.
  apply M_bind_inv in E as (pipe' & ? & E1 & E). run_inv. congruence.
Qed.

Lemma post_loop_ends fuel : ∀ p id w, needs p id (λ pipe, 0 ≤ pipe_rx_buf_needed pipe ≤ Z.of_nat fuel) →
  ends (dst_post_loop mmio_addr (S fuel) p id) w.
Proof.
  induction fuel as [|fuel IH]; intros p id w Hn; remember (S _) as n eqn:En; rewrite En; cbn [dst_post_loop];
    rewrite <-?En; (apply ends_bind; [apply total_option; done|]; intros pipe w1 Hp%get_pipe_inv;
    specialize (Hn pipe Hp); cbn beta in Hn; case_decide as Hz; [done|]); [lia|subst n].
  apply ends_bind; [apply total_alloc|]. intros [skb store] w2 _. case_decide; [done|].
  apply ends_bind; [apply total_get_skb|]. intros b w3 _. apply ends_bind; [apply total_map|]. intros pa w4 _.
  apply ends_bind; [done|]. intros [] w5 _; [done|].
  apply ends_bind; [unfold set_cb; generalize w5; change (total (set_cb store skb (λ c, c <| cb_paddr := pa |>))); unfold set_cb; total|].
  intros store' w6 _. apply ends_bind; [apply total_enqueue|]. intros [ret p'] w7 E. case_decide as Hr.
  - generalize w7. match goal with |- ∀ w, ends ?m w => change (total m) end. total.
  - assert (ret = 0) as -> by (destruct (decide (ret = 0)); [done|by destruct Hr]).
    apply enqueue_inv in E as (_ & pipe0 & Hp0 & Hp'). apply IH. intros pipe' Hpipe'.
    rewrite (Hp' pipe' Hpipe'). change (st_pipes (dp_st p) !! id = Some pipe0) in Hp0.
    rewrite Hp in Hp0. injection Hp0 as <-.
    pose proof (wrap_range 32 (pipe_rx_buf_needed pipe - 1)). pose proof (Z.mod_le (pipe_rx_buf_needed pipe - 1) (2 ^ 32)).
    unfold wrap in *. lia.
Qed.

Lemma post_pipe_ends p id w : needs p id counted → ends (wireless_simu_test_dst_post_pipe mmio_addr p id) w.
Proof.
  intros Hn. unfold wireless_simu_test_dst_post_pipe.
  apply ends_bind; [apply total_option; done|]. intros pipe w1 Hp%get_pipe_inv.
  destruct (pipe_dst_ring pipe), (pipe_status_ring pipe); try done.
  apply ends_bind; [apply total_acquire|]. intros l w2 _. apply ends_bind.
  - apply post_loop_ends. intros pipe' Hp'. change (st_pipes (dp_st p) !! id = Some pipe') in Hp'.
    specialize (Hn pipe' Hp'). rewrite Hp in Hp'. injection Hp' as <-. unfold counted in Hn. lia.
  - intros [ret p'] w3 _. generalize w3. match goal with |- ∀ w, ends ?m w => change (total m) end. total.
Qed.

(** Ends, and leaves a counter that is not negative. *)
Definition good (id : nat) (m : M (dst_priv * list Z)) (w : world) : Prop :=
  ends m w ∧ ∀ p' q' w', m w = Done ((p', q'), w') → needs p' id counted.

Lemma good_bind {A} id (m : M A) (k : A → M (dst_priv * list Z)) w : total m →
  (∀ a w', m w = Done (a, w') → good id (k a) w') → good id (m ≫= k) w.
Proof.
  intros Hm Hk. split; [apply ends_bind; [apply Hm|intros a w' E; by apply Hk]|].
  intros p' q' w' (a & w1 & E & E')%M_bind_inv. by eapply (Hk a w1 E).
Qed.

(** One round of the receive loop, with [next] the rest. *)
Lemma recv_round fuel (next : dst_priv → list Z → M (dst_priv * list Z)) p id q w :
  dp_skbs p !! 0 = None → needs p id counted →
  needs p id (λ pipe, ∀ ring, pipe_dst_ring pipe = Some ring → (length (live (tr_skb ring)) ≤ fuel)%nat) →
  (∀ p2 q2 w2, (0 < fuel)%nat → dp_skbs p2 !! 0 = None → needs p2 id counted →
     needs p2 id (λ pipe, ∀ ring, pipe_dst_ring pipe = Some ring → (length (live (tr_skb ring)) ≤ pred fuel)%nat) →
     good id (next p2 q2) w2) →
  good id ('(ret, skb, nbytes, p) ← wireless_simu_test_dst_recv_next mmio_addr p id;
    if decide (ret ≠ 0) then mret (p, q)
    else
      b ← get_skb (dp_skbs p) skb;
      let max_nbytes := skb_room b in
      dma_unmap_single (cb_paddr (sb_cb b)) max_nbytes;;
      if decide (max_nbytes < nbytes)
      then store ← dev_kfree_skb_any (dp_skbs p) skb; next (p <| dp_skbs := store |>) q
      else store ← do_skb_put (dp_skbs p) skb nbytes; next (p <| dp_skbs := store |>) (q ++ [skb])) w.
Proof.
  intros H0 Hn Hlive Hnext. apply good_bind; [apply total_recv_next|].
  intros [[[ret skb] nbytes] p1] w1 E. pose proof (recv_counted _ _ _ _ _ _ Hn E) as Hn1. case_decide as Hr.
  { split; [done|]. by intros p' q' w' [= <- _ _]. }
  assert (ret = 0) as -> by (destruct (decide (ret = 0)); [done|by destruct Hr]).
  apply recv_inv in E as (Hsk & pipe & ring & i & Hp & Hd & Hi & Hp1).
  apply good_bind; [apply total_get_skb|]. intros b w2 Hb. rewrite Hsk in *.
  assert (is_Some (dp_skbs p !! skb)) as Hskb
    by (unfold get_skb in Hb; destruct (dp_skbs p !! skb); [done|by case_decide]).
  assert (skb ≠ 0) as Hz by (intros ->; rewrite H0 in Hskb; by destruct Hskb).
  pose proof (Hlive pipe Hp ring Hd) as Hle. rewrite (live_unset _ _ _ Hi Hz) in Hle. cbn in Hle.
  assert (∀ store, store !! 0 = None → ∀ q2 w3, good id (next (p1 <| dp_skbs := store |>) q2) w3) as Hrest.
  { intros store Hs q2 w3. apply Hnext; [lia|done|done|]. intros pipe' Hpipe' ring' Hring'.
    destruct (Hp1 pipe' Hpipe') as (r & Hr1 & Hr2 & _). rewrite Hring' in Hr1. injection Hr1 as <-.
    rewrite Hr2. lia. }
  apply good_bind; [apply total_unmap|]. intros [] w3 _. case_decide.
  - apply good_bind; [apply total_kfree_skb|]. intros store w4 Hst. apply Hrest.
    unfold dev_kfree_skb_any in Hst. run_inv; [|done]. by rewrite lookup_delete_ne.
  - apply good_bind; [unfold do_skb_put; total|]. intros store w4 Hst. apply Hrest.
    unfold do_skb_put in Hst. run_inv. by rewrite lookup_insert_ne.
Qed.

Lemma recv_loop_good fuel : ∀ p id q w, dp_skbs p !! 0 = None → needs p id counted →
  needs p id (λ pipe, ∀ ring, pipe_dst_ring pipe = Some ring → (length (live (tr_skb ring)) ≤ fuel)%nat) →
  good id (dst_recv_loop mmio_addr (S fuel) p id q) w.
Proof.
  induction fuel as [|fuel IH]; intros p id q w H0 Hn Hl;
    apply (recv_round _ (λ p q, dst_recv_loop mmio_addr _ p id q) p id q w H0 Hn Hl);
    intros p2 q2 w2 Hf; [lia|]. intros. by apply IH.
Qed.

Lemma total_consume q : ∀ store, total (dst_consume store q).
Proof. induction q as [|skb q IH]; intros store; cbn [dst_consume]; [done|]. total. Qed.

Lemma live_length l : (length (live l) ≤ length l)%nat.
Proof. apply length_filter. Qed.

(** C17.  The loops of the bottom half end.  Neither the protocol invariant nor
    anything about the memory, the indices and the kernel's answers is assumed,
    but: [wireless_simu_test_dst_post_pipe] returns or commits one of the faults
    of C as soon as the pipe's count of missing buffers is an unsigned number
    ([counted]), and so does [wireless_simu_irq_hal_srng_dst_dma_test] - the loop
    that drains the status ring and the one that posts new buffers come to an end
    by themselves - if moreover no buffer has the address NULL and the
    destination ring has no more slots than the status ring has entries. *)
Theorem receive_loops_end p id w : needs p id counted →
  wireless_simu_test_dst_post_pipe mmio_addr p id w ≠ Fault OutOfFuel ∧
  (dp_skbs p !! 0 = None →
   needs p id (λ pipe, ∀ ring status, pipe_dst_ring pipe = Some ring → pipe_status_ring pipe = Some status →
     Z.of_nat (length (tr_skb ring)) ≤ tr_nentries status) →
   wireless_simu_irq_hal_srng_dst_dma_test mmio_addr p id w ≠ Fault OutOfFuel).
Proof.
  intros Hn. split; [by apply post_pipe_ends|]. intros H0 Hslots.
  unfold wireless_simu_irq_hal_srng_dst_dma_test.
  change (ends (pipe ← get_pipe p id;
    '(p, queue) ← dst_recv_loop mmio_addr (recv_fuel pipe) p id [];
    store ← dst_consume (dp_skbs p) queue;
    '(ret, p) ← wireless_simu_test_dst_post_pipe mmio_addr (p <| dp_skbs := store |>) id;
    if decide (ret ≠ 0 ∧ ret ≠ - ENOSPC) then dst_mod_timer p else mret p) w).
  apply ends_bind; [apply total_option; done|]. intros pipe w1 Hp%get_pipe_inv.
  assert (good id (dst_recv_loop mmio_addr (recv_fuel pipe) p id []) w1) as [Hend Hres].
  { unfold recv_fuel. destruct (pipe_status_ring pipe) as [status|] eqn:Hs.
    - apply recv_loop_good; [done|done|]. intros pipe' Hp' ring Hd. rewrite Hp in Hp'. injection Hp' as <-.
      specialize (Hslots pipe Hp ring status Hd Hs). pose proof (live_length (tr_skb ring)). lia.
    - cbn [dst_recv_loop]. apply good_bind; [apply total_recv_next|].
      intros r w' E. by destruct (recv_status _ _ _ _ _ E pipe Hp). }
  apply ends_bind; [done|]. intros [p1 q1] w2 E. specialize (Hres p1 q1 w2 E).
  apply ends_bind; [apply total_consume|]. intros store w3 _.
  apply ends_bind; [by apply post_pipe_ends|]. intros [ret p2] w4 _.
  case_decide; [|done]. unfold dst_mod_timer.
  match goal with |- ends ?m ?w => assert (total m) as Ht by total; apply Ht end.
Qed.
End receive.
