(* ===== verification/RxRun.v ===== *)
(** * Taking received buffers

    What the receive path does with the entries of the status ring
    (src/driver/driver_wireless/wireless_hal.c,
    [wireless_simu_test_dst_recv_next] and
    [wireless_simu_irq_hal_srng_dst_dma_test]): on a state that satisfies
    [rx_inv], the bottom half takes every reported buffer, unmaps and frees it,
    and posts new ones in its place. *)

From S2P Require Import Prelude Kernel Bits HalTypes Hif HalRing RingProtocol HalSetup HalInit Skb.
From S2P Require Import SrngTest SrngSend PipeLife SrngTestRun DstTest RxRing.

Section status_ring.
Context `{K : Kernel} (mmio_addr : Z).

(** The status ring after lock and begin. *)
Definition dopened (s : hal_srng) (hp : Z) : hal_srng :=
  s <| srng_lock := true |> <| srng_dst := srng_dst s <| dst_cached_hp := hp |> |>.

Lemma status_open s w r : status_ok s w r →
  ∃ hp, srng_spin_lock s w = Done (s <| srng_lock := true |>, w) ∧
    wireless_simu_hal_srng_access_begin (s <| srng_lock := true |>) w = Done (dopened s hp, w) ∧
    dst_wf (dopened s hp) ∧ dst_avail (dopened s hp) = r ∧
    w_mem w !! dst_hp_addr (srng_dst s) = Some hp.
Proof.
  intros [Hg Hd Hf Hl Ht (hp & Hm & He & Hu)]. exists hp. split_and!; try done.
  - unfold srng_spin_lock, lock_acquire. by rewrite Hl.
  - exact (dst_begin_eq (s <| srng_lock := true |>) w hp eq_refl Hd Hm).
  - split; cbn; try done. by destruct Hg; split.
Qed.

(** The register the host's tail pointer is written to. *)
Definition tp_reg (s : hal_srng) : Z :=
  mmio_addr + u32 (ptr_sub (dst_tp_addr (srng_dst s)) mmio_addr).

(** The status ring and the world after end and unlock. *)
Definition dclosed (s : hal_srng) (hp : Z) (w : world) : hal_srng :=
  s <| srng_dst := srng_dst s <| dst_last_hp := hp |> |> <| srng_timestamp := w_jiffies w |>
    <| srng_lock := false |>.
Definition dclosed_world (s : hal_srng) (w : world) : world :=
  w <| w_mmio := w_mmio w ++ [(tp_reg s, u32 (u32 (dst_tp (srng_dst s))))] |>.

Lemma status_close s w hp : srng_lock s = true → srng_ring_dir s = HAL_SRNG_DIR_DST →
  flag_set (srng_flags s) HAL_SRNG_FLAGS_LMAC_RING = false →
  w_mem w !! dst_hp_addr (srng_dst s) = Some hp →
  ∃ s1, wireless_simu_hal_srng_access_end mmio_addr s w = Done (s1, dclosed_world s w) ∧
    srng_spin_unlock s1 (dclosed_world s w) = Done (dclosed s hp w, dclosed_world s w).
Proof.
  intros Hl Hd Hf Hm. eexists. split; [by apply dst_end_eq|].
  unfold srng_spin_unlock, lock_release. cbn. by rewrite Hl.
Qed.

(** The entry the host reads next. *)
Definition next_report (s : hal_srng) : Z := srng_ring_base_vaddr s + 4 * dst_tp (srng_dst s).

(** After an access that took [j] entries ([j] is 0 or 1). *)
Lemma status_kept s w r hp : status_ok s w r → w_mem w !! dst_hp_addr (srng_dst s) = Some hp →
  status_ok (dclosed (dopened s hp) hp w) (dclosed_world (dopened s hp) w) r.
Proof. intros [Hg Hd Hf Hl Ht Hu] Hm. split; try done. by destruct Hg; split. Qed.

Lemma status_taken s w r hp : status_ok s w r → w_mem w !! dst_hp_addr (srng_dst s) = Some hp →
  0 < r →
  status_ok (dclosed (dst_advance (dopened s hp)) hp w)
    (dclosed_world (dst_advance (dopened s hp)) w) (r - 1).
Proof.
  intros Hok Hm Hr. destruct (status_open s w r Hok) as (hp' & _ & _ & Hwf & Hav & Hm').
  assert (hp' = hp) as -> by congruence.
  pose proof (dst_advance_wf _ Hwf) as Hwf2.
  pose proof (dst_advance_avail _ Hwf ltac:(lia)) as Hav2.
  destruct Hok as [Hg Hd Hf Hl Ht (hp2 & Hm2 & He2 & Hu2)]. assert (hp2 = hp) as -> by congruence.
  split; try done; cbn.
  - by destruct Hg; split.
  - exact (dst_wf_tp _ Hwf2).
  - exists hp. split_and!; [done|done|]. rewrite Hav in Hav2. exact Hav2.
Qed.
Lemma reports_head s w r len lens : status_ok s w r → reports s w (len :: lens) →
  w_mem w !! next_report s = Some len ∧ 0 < len < 2 ^ 32.
Proof.
  intros [Hg _ _ _ (i & Hi & Ht) _] Hrep. destruct (Hrep 0%nat len eq_refl) as [Hm Hl].
  split; [|done]. unfold next_report. unfold report_word in Hm. rewrite Ht in Hm |- *.
  pose proof (geo_entry _ Hg). rewrite entry_index_mul, Z.add_0_r, Z.mod_small in Hm by lia. done.
Qed.

Lemma reports_tail s w r len lens hp w1 w2 : status_ok s w r → w_mem w2 = w_mem w →
  reports s w (len :: lens) → reports (dclosed (dst_advance (dopened s hp)) hp w1) w2 lens.
Proof.
  intros [Hg _ _ _ (i & Hi & Ht) _] Hm Hrep j l Hj. specialize (Hrep (S j) l Hj).
  pose proof (geo_entry _ Hg). pose proof (geo_num _ Hg). unfold report_word in *. cbn. rewrite Hm, Ht in *.
  rewrite !entry_index_mul, ?Zplus_mod_idemp_l in * by done. destruct Hrep as [Hrep Hl]. split; [|done].
  rewrite <-Hrep. do 5 f_equal. lia.
Qed.

(** The region after an access that took nothing, and after one that took a
    report. *)
Lemma region_kept s s2 w w1 w2 r hp : status_region s s2 w r → w_mem w2 = w_mem w →
  status_region s (dclosed (dopened s2 hp) hp w1) w2 r.
Proof. intros [H0 H1 H2 H3 H4 (lens & Hn & Hrep)] Hm. split; try done. exists lens.
  split; [done|]. intros j len Hj. rewrite Hm. by apply Hrep. Qed.

Lemma region_taken s s2 w w1 w2 r hp : status_ok s2 w r → 0 < r → status_region s s2 w r →
  w_mem w2 = w_mem w → status_region s (dclosed (dst_advance (dopened s2 hp)) hp w1) w2 (r - 1).
Proof.
  intros Hok Hr [H0 H1 H2 H3 H4 (lens & Hn & Hrep)] Hm. split; try done.
  destruct lens as [|len lens]; [cbn in Hn; lia|]. exists lens. split; [cbn in Hn; lia|].
  by eapply reports_tail.
Qed.
End status_ring.

(* ------------------------------------------------------------------ *)
(** ** One status entry *)

Section receive.
Context `{K : Kernel} `{BO : BitsOk} `{SA : SkbApi} (mmio_addr : Z).

Abbreviation rx_inv := (rx_inv mmio_addr).

(** The locking around the critical section. *)
Lemma recv_run id p w V a t k r s0 m0 ret q n s1 s2 s3 pipe' w1 w2 :
  rx_inv s0 m0 id p w V a t k r → st_lock (dp_st p) = false →
  srng_spin_lock (v_s2 V) w = Done (s1, w) →
  dst_recv_locked s1 (v_pipe V) (v_dst V) w = Done ((ret, q, n, s2, pipe'), w1) →
  (∃ s2', wireless_simu_hal_srng_access_end mmio_addr s2 w1 = Done (s2', w2) ∧
     srng_spin_unlock s2' w2 = Done (s3, w2)) →
  wireless_simu_test_dst_recv_next mmio_addr p id w =
    Done ((ret, q, n, set_lock (set_pipe (set_srng p (tr_hal_ring_id (v_status V)) s3) id pipe') false), w2).
Proof.
  intros [] Hlock El Er (s2' & Ee & Eu). unfold wireless_simu_test_dst_recv_next, get_pipe.
  rewrite ri_pipe, (M_bind_done _ _ _ _ _ eq_refl).
  unfold lock_acquire. rewrite Hlock, (M_bind_done _ _ w true w) by done.
  rewrite ri_dst, (M_bind_done _ _ _ _ _ eq_refl), ri_status, (M_bind_done _ _ _ _ _ eq_refl).
  unfold get_srng. rewrite ri_s2, (M_bind_done _ _ _ _ _ eq_refl), (M_bind_done _ _ _ _ _ El).
  by rewrite (M_bind_done _ _ _ _ _ Er), (M_bind_done _ _ _ _ _ Ee), (M_bind_done _ _ _ _ _ Eu).
Qed.

(** A state that differs by the status ring and the pipe. *)
Lemma rx_inv_status id p w V a t k r s0 m0 s3 pipe' ring' k' r' v p' w' s1 m1 :
  rx_inv s0 m0 id p w V a t k r →
  st_pipes (dp_st p') = <[id := pipe']> (st_pipes (dp_st p)) →
  hal_srng_list (dp_hal p') =
    <[Z.to_nat (tr_hal_ring_id (v_status V)) := s3]> (hal_srng_list (dp_hal p)) →
  w_mem w' = w_mem w → w_mmio w' = w_mmio w ++ [(tp_reg mmio_addr (v_s2 V), v)] →
  srng_num_entries s3 = srng_num_entries (v_s2 V) →
  srng_ring_size s3 = srng_ring_size (v_s2 V) → srng_ring_base_vaddr s3 = srng_ring_base_vaddr (v_s2 V) →
  hal_rdp_vaddr (dp_hal p') = hal_rdp_vaddr (dp_hal p) →
  dst_hp_addr (srng_dst s3) = dst_hp_addr (srng_dst (v_s2 V)) →
  dst_tp_addr (srng_dst s3) = dst_tp_addr (srng_dst (v_s2 V)) →
  status_ok s3 w' r' → status_region (v_s V) s3 w' r' → 0 ≤ r' ≤ k' → Z.of_nat (length a) - Z.of_nat (length t) ≤ k' - r' →
  pipe_dst_ring pipe' = Some ring' → pipe_status_ring pipe' = pipe_status_ring (v_pipe V) →
  pipe_buf_sz pipe' = pipe_buf_sz (v_pipe V) → rx_slots ring' k' →
  pipe_rx_buf_needed pipe' = tr_nentries (v_dst V) - 2 - k' →
  tr_hal_ring_id ring' = tr_hal_ring_id (v_dst V) → tr_nentries ring' = tr_nentries (v_dst V) →
  posted s1 m1 (live (tr_skb ring')) (dp_skbs p') (w_map w') → booked a (window ring' k') (dp_skbs p') →
  rx_inv s1 m1 id p' w' (RxView pipe' ring' (v_status V) (v_s V) s3) a t k' r'.
Proof.
  intros [] Hpipes Hlist Hmem Hmmio Hn Hz Hbase Hrdp Hhp Htp Hok Hreg Hr Hgiven Hd Hs Hb Hslots Hneed Hid Hnn Hpost Hbook.
  destruct ri_shape as (Hl & He & Hn1 & Hn2).
  split; cbn [v_pipe v_dst v_status v_s v_s2]; rewrite ?Hpipes, ?Hlist; try done.
  - apply list_lookup_insert_eq. by eapply lookup_lt_Some.
  - by rewrite Hs.
  - by rewrite Hb.
  - by rewrite Hid, list_lookup_insert_ne.
  - apply list_lookup_insert_eq. by eapply lookup_lt_Some.
  - by rewrite Hid.
  - by rewrite Hn, Hnn.
  - set (w1 := w <| w_mmio := w_mmio w ++ [(tp_reg mmio_addr (v_s2 V), v)] |>).
    apply (Source.inv_world _ _ w1); [done|done|]. by apply Source.inv_mmio.
  - by rewrite Hhp.
  - by rewrite Htp.
  - by rewrite Hnn.
  - by eapply rx_home_shape; [exact ri_home| |apply same_shape_refl|..].
Qed.

(** Nothing to read. *)
Lemma recv_next_none id p w V a t k s0 m0 :
  rx_inv s0 m0 id p w V a t k 0 → st_lock (dp_st p) = false →
  ∃ p' w' V', wireless_simu_test_dst_recv_next mmio_addr p id w = Done ((- EIO, 0, 0, p'), w') ∧
    rx_inv s0 m0 id p' w' V' a t k 0 ∧ st_lock (dp_st p') = false ∧ dst_kept p p' ∧
    same_resources w w' ∧ v_dst V' = v_dst V ∧ dp_skbs p' = dp_skbs p.
Proof.
  intros Hinv Hlock. pose proof (ri_status_ok _ _ _ _ _ _ _ _ _ _ _ Hinv) as Hok.
  destruct (status_open _ _ _ Hok) as (hp & El & Eb & Hwf & Hav & Hm).
  pose proof (status_close mmio_addr (dopened (v_s2 V) hp) w hp eq_refl (so_dir _ _ _ Hok)
    (so_lmac _ _ _ Hok) Hm) as Hclose.
  eexists _, _, _. split; [|split; [|split; [|split; [|split; [|split]]]]].
  - eapply recv_run; [done|done|exact El| |exact Hclose].
    unfold dst_recv_locked. rewrite (M_bind_done _ _ _ _ _ Eb).
    by rewrite (M_bind_done _ _ _ _ _ (dst_next_none _ w Hwf Hav)), decide_True.
  - pose proof Hinv as []. eapply (rx_inv_status id p w V a t k 0 _ _ _ (v_pipe V) (v_dst V) k 0);
      try done; [by apply status_kept|by eapply region_kept].
  - done.
  - etrans; [|apply lock_kept]. by apply (set_kept p id _ (v_pipe V)); [apply Hinv|..].
  - by split.
  - done.
  - done.
Qed.

(** One report: the oldest posted buffer comes back. *)
Lemma recv_next_some id p w V a t k r s0 m0 len :
  rx_inv s0 m0 id p w V a t k r → st_lock (dp_st p) = false → 0 < r →
  w_mem w !! next_report (v_s2 V) = Some len → len ≠ 0 →
  ∃ q p' w' V', wireless_simu_test_dst_recv_next mmio_addr p id w = Done ((0, q, len, p'), w') ∧
    live (tr_skb (v_dst V)) ≡ₚ q :: live (tr_skb (v_dst V')) ∧
    (∀ s1 m1 store m, posted s1 m1 (live (tr_skb (v_dst V'))) store m →
       (∀ x, x ≠ q → store !! x = dp_skbs p !! x) →
       rx_inv s1 m1 id (p' <| dp_skbs := store |>) (w' <| w_map := m |>) V' a t (k - 1) (r - 1)) ∧
    st_lock (dp_st p') = false ∧ dst_kept p p' ∧ same_resources w w' ∧ w_mem w' = w_mem w ∧
    dp_skbs p' = dp_skbs p ∧ tr_nentries (v_dst V') = tr_nentries (v_dst V) ∧
    window (v_dst V) k = q :: window (v_dst V') (k - 1) ∧
    ∃ hp, v_s2 V' = dclosed (dst_advance (dopened (v_s2 V) hp)) hp w.
Proof.
  intros Hinv Hlock Hr Hlen Hz. pose proof (ri_status_ok _ _ _ _ _ _ _ _ _ _ _ Hinv) as Hok.
  destruct (status_open _ _ _ Hok) as (hp & El & Eb & Hwf & Hav & Hm).
  pose proof (status_close mmio_addr (dst_advance (dopened (v_s2 V) hp)) w hp eq_refl (so_dir _ _ _ Hok)
    (so_lmac _ _ _ Hok) Hm) as Hclose.
  destruct (rx_slots_pop (v_dst V) k) as (q & Hq & Hqz & Hslots); [apply Hinv|pose proof Hinv as []; lia|].
  pose proof (live_unset _ _ _ Hq Hqz) as Hlive.
  assert (srng_ring_base_vaddr (dopened (v_s2 V) hp) + 4 * dst_tp (srng_dst (dopened (v_s2 V) hp)) ≠ 0) as Hnz.
  { destruct Hwf as [Hg [i [Hi ->]] _ _]. pose proof (geo_base _ Hg). pose proof (geo_entry _ Hg). nia. }
  set (ring' := v_dst V <| tr_skb := <[Z.to_nat (tr_sw_index (v_dst V)) := 0]> (tr_skb (v_dst V)) |>
    <| tr_sw_index := Z.land (u32 (tr_sw_index (v_dst V) + 1)) (tr_nentries_mask (v_dst V)) |>) in *.
  set (pipe' := v_pipe V <| pipe_dst_ring := Some ring' |>
    <| pipe_rx_buf_needed := u32 (pipe_rx_buf_needed (v_pipe V) + 1) |>).
  eexists q, _, _, (RxView pipe' ring' (v_status V) (v_s V) _).
  pose proof (window_pop (v_dst V) k q (ri_slots _ _ _ _ _ _ _ _ _ _ _ Hinv) ltac:(pose proof Hinv as []; lia) Hq) as Hwin.
  fold ring' in Hwin.
  split; [|split; [exact Hlive|split; [|split; [|split; [|split; [|split; [|split; [|split; [|split; [exact Hwin|]]]]]]]]]].
  - eapply recv_run; [done|done|exact El| |exact Hclose].
    unfold dst_recv_locked. rewrite (M_bind_done _ _ _ _ _ Eb).
    rewrite (M_bind_done _ _ _ _ _ (dst_next_some _ w Hwf ltac:(lia))), decide_False by done.
    unfold wireless_simu_test_dst_get_length.
    rewrite (M_bind_done _ _ _ _ _ (load32_eq _ _ _ Hlen)), decide_False by done.
    rewrite Hq, (M_bind_done _ _ _ _ _ eq_refl). unfold set_ring_skb.
    destruct Hinv as []. destruct ri_slots.
    rewrite decide_True by lia. by rewrite M_bind_ret.
  - intros s1 m1 store m Hpost Hstore. pose proof Hinv as [].
    assert (booked a (window ring' (k - 1)) store) as Hbook.
    { rewrite Hwin in ri_booked. eapply booked_store; [|by eapply booked_pop]. intros x Hx. apply Hstore.
      intros ->. pose proof (posted_nodup _ _ _ _ _ ri_posted) as Hnd.
      rewrite <-(window_live _ _ ri_slots), Hwin in Hnd. by apply NoDup_cons in Hnd as [? _]. }
    eapply (rx_inv_status id p w V a t k r _ _ _ pipe' ring' (k - 1) (r - 1));
      try done; [eapply status_ok_world; [by apply (status_taken mmio_addr)|done]|
        by eapply region_taken|lia|lia|].
    cbn. rewrite ri_needed. destruct ri_slots as [(e & Hee & Hne & _) _ ? _ _ _].
    assert (2 ^ e ≤ 2 ^ 16) by (apply Z.pow_le_mono_r; lia). rewrite wrap_id; lia.
  - done.
  - etrans; [|apply lock_kept]. apply (set_kept p id _ (v_pipe V)); [apply Hinv| |done].
    unfold pipe_owned, held. cbn. by rewrite (ri_dst _ _ _ _ _ _ _ _ _ _ _ Hinv).
  - by split.
  - done.
  - done.
  - done.
  - by exists hp.
Qed.

(* ---------------- the loop ---------------- *)

(** The frames of the local list are in the store [s1], over [s0]. *)
Record queued (s0 : skbs) (queue : list Z) (s1 : skbs) : Prop := {
  qu_nodup : NoDup queue;
  qu_in : ∀ q, q ∈ queue → is_Some (s1 !! q) ∧ s0 !! q = None;
  qu_out : ∀ q, q ∉ queue → s1 !! q = s0 !! q
}.

Lemma queued_nil s0 : queued s0 [] s0.
Proof. split; [constructor| |done]. by intros q ?%not_elem_of_nil. Qed.

Lemma queued_nil_inv s0 s1 : queued s0 [] s1 → s1 = s0.
Proof. intros [_ _ H]. apply map_eq. intros q. apply H, not_elem_of_nil. Qed.

Lemma queued_snoc s0 queue s1 q b : queued s0 queue s1 → s1 !! q = None →
  queued s0 (queue ++ [q]) (<[q := b]> s1).
Proof.
  intros [Hn Hin Hout] Hq. assert (q ∉ queue) as Hnin.
  { intros H. apply Hin in H as [[x Hx] _]. congruence. }
  split.
  - apply NoDup_app. split_and!; [done| |apply NoDup_singleton].
    by intros x Hx ->%list_elem_of_singleton.
  - intros x [Hx| ->%list_elem_of_singleton]%elem_of_app.
    + rewrite lookup_insert_ne by (intros ->; done). by apply Hin.
    + rewrite lookup_insert_eq, <-(Hout q Hnin). by split.
  - intros x Hx. rewrite not_elem_of_app, list_elem_of_singleton in Hx.
    rewrite lookup_insert_ne by naive_solver. apply Hout. tauto.
Qed.

Lemma queued_cons s0 queue s1 q : queued s0 (q :: queue) s1 →
  is_Some (s1 !! q) ∧ queued s0 queue (delete q s1).
Proof.
  intros [Hn Hin Hout]. apply NoDup_cons in Hn as [Hq Hn].
  destruct (Hin q ltac:(by left)) as [Hs Hz]. split; [done|]. split; [done|..].
  - intros x Hx. rewrite lookup_delete_ne by (intros ->; done). apply Hin. by right.
  - intros x Hx. destruct (decide (x = q)) as [->|]; [by rewrite lookup_delete_eq|].
    rewrite lookup_delete_ne by done. apply Hout. rewrite elem_of_cons. naive_solver.
Qed.

(** The second loop frees what the first one queued. *)
Lemma consume_done queue s0 s1 m0 l store m w : queued s0 queue s1 → posted s1 m0 l store m →
  ∃ store', dst_consume store queue w = Done (store', w) ∧ posted s0 m0 l store' m ∧
    ∀ x, x ∉ queue → store' !! x = store !! x.
Proof.
  revert s1 store. induction queue as [|q queue IH]; intros s1 store Hq Hp.
  { apply queued_nil_inv in Hq as ->. by exists store. }
  apply queued_cons in Hq as [[b Hb] Hq].
  pose proof (posted_base _ _ _ _ _ _ _ Hp Hb) as Hs.
  destruct (IH _ _ Hq (posted_unleak _ _ _ _ _ _ _ Hp Hb)) as (store' & E & Hp' & Hx).
  exists store'. split; [|split; [done|]].
  - cbn. rewrite (M_bind_done _ _ _ _ _ (get_skb_done _ _ _ w Hs)).
    by rewrite (M_bind_done _ _ _ _ _ (kfree_skb_done _ _ _ w Hs)).
  - intros x [Hxq Hxs]%not_elem_of_cons. by rewrite Hx, lookup_delete_ne.
Qed.

Context `{SO : !SkbOk}.

(** One round of the first loop, after the buffer came back: it is unmapped,
    and freed or queued. *)
Lemma recv_frame store w q l len m0 s1 s0 queue l' : posted s1 m0 l store (w_map w) →
  l ≡ₚ q :: l' → 0 < len < 2 ^ 32 → queued s0 queue s1 →
  ∃ b store' s1' queue', let m' := delete (cb_paddr (sb_cb b)) (w_map w) in
    get_skb store q w = Done (b, w) ∧ store !! q = Some b ∧
    dma_unmap_single (cb_paddr (sb_cb b)) (skb_room b) w = Done (tt, w <| w_map := m' |>) ∧
    (if decide (skb_room b < len)
     then dev_kfree_skb_any store q (w <| w_map := m' |>) = Done (store', w <| w_map := m' |>) ∧
          queue' = queue
     else do_skb_put store q len (w <| w_map := m' |>) = Done (store', w <| w_map := m' |>) ∧
          queue' = queue ++ [q]) ∧
    posted s1' m0 l' store' m' ∧ queued s0 queue' s1' ∧ ∀ x, x ≠ q → store' !! x = store !! x.
Proof.
  intros Hp Hperm Hlen Hq. destruct (posted_take _ _ _ _ _ q Hp)
    as (b & l1 & Hb & Hm & Hd & Ht & Hz & Hperm1 & Hp1); [rewrite Hperm; by left|].
  assert (l1 ≡ₚ l') as Hl by (apply (Permutation_cons_inv (a := q)); by rewrite <-Hperm1).
  apply (posted_perm _ _ _ _ _ _ Hl) in Hp1.
  exists b. assert (dma_unmap_single (cb_paddr (sb_cb b)) (skb_room b) w =
    Done (tt, w <| w_map := delete (cb_paddr (sb_cb b)) (w_map w) |>)) as Eun
    by (unfold dma_unmap_single; by rewrite decide_True).
  case_decide as Hroom.
  - eexists _, s1, queue. split; [by apply get_skb_done|]. split; [done|]. split; [exact Eun|].
    split; [|split; [exact Hp1|split; [exact Hq|intros x Hx; by rewrite lookup_delete_ne]]].
    split; [by eapply kfree_skb_done|done].
  - assert (0 ≤ len ≤ skb_tailroom (sb_buf b)) as Hput.
    { assert (skb_room b ≤ skb_tailroom (sb_buf b)); [|lia].
      unfold skb_room, skb_len. rewrite Hd. apply Z.mod_le; [exact Ht|lia]. }
    destruct (skb_put_done store q b len (w <| w_map := delete (cb_paddr (sb_cb b)) (w_map w) |>) Hb Hput)
      as (b' & tl & Eput & _).
    destruct (posted_leak _ _ _ _ _ q b' Hp1 (lookup_delete_eq _ _)) as [Hnone Hp2].
    rewrite insert_delete_eq in Hp2.
    eexists _, (<[q := b']> s1), (queue ++ [q]). split; [by apply get_skb_done|]. split; [done|]. split; [exact Eun|].
    split; [by split|]. split; [exact Hp2|]. split; [by apply queued_snoc|]. intros x Hx. by rewrite lookup_insert_ne.
Qed.

(** The address a buffer remembers. *)
Definition paddr_of (s : skbs) (q : Z) : Z :=
  match s !! q with Some b => cb_paddr (sb_cb b) | None => 0 end.

(** The mappings once those of the buffers [l] are removed. *)
Definition unmapped (s : skbs) (l : list Z) (m : gmap Z Z) : gmap Z Z := foldr delete m (paddr_of s <$> l).

Lemma foldr_delete_first {A} (m : gmap Z A) x l : foldr delete (delete x m) l = delete x (foldr delete m l).
Proof. induction l as [|y l IH]; cbn; [done|]. by rewrite IH, delete_delete. Qed.

Lemma unmapped_cons s s' q b l m : s !! q = Some b → q ∉ l → (∀ x, x ≠ q → s' !! x = s !! x) →
  unmapped s' l (delete (cb_paddr (sb_cb b)) m) = unmapped s (q :: l) m.
Proof.
  intros Hq Hl Hs. unfold unmapped. cbn. rewrite foldr_delete_first. unfold paddr_of at 2. rewrite Hq. do 2 f_equal.
  apply list_fmap_ext. intros i x Hx. unfold paddr_of. rewrite Hs; [done|].
  intros ->. apply Hl. by eapply list_elem_of_lookup_2.
Qed.

Lemma recv_loop_done lens fuel id p w V a t k s0 s1 m0 queue :
  rx_inv s1 m0 id p w V a t k (Z.of_nat (length lens)) → st_lock (dp_st p) = false →
  reports (v_s2 V) w lens → (length lens < fuel)%nat → queued s0 queue s1 →
  ∃ p' w' V' s1' queue' taken, dst_recv_loop mmio_addr fuel p id queue w = Done ((p', queue'), w') ∧
    rx_inv s1' m0 id p' w' V' a t (k - Z.of_nat (length lens)) 0 ∧ st_lock (dp_st p') = false ∧
    dst_kept p p' ∧ same_blocks w w' ∧ queued s0 queue' s1' ∧
    tr_nentries (v_dst V') = tr_nentries (v_dst V) ∧
    length taken = length lens ∧
    window (v_dst V) k = taken ++ window (v_dst V') (k - Z.of_nat (length lens)) ∧
    (∀ x, x ∉ taken → dp_skbs p' !! x = dp_skbs p !! x) ∧ (∀ x, x ∈ queue' → x ∈ queue ++ taken) ∧
    w_map w' = unmapped (dp_skbs p) taken (w_map w).
Proof.
  revert fuel p w V k s1 queue. induction lens as [|len lens IH];
    intros fuel p w V k s1 queue Hinv Hlock Hrep Hfuel Hq; (destruct fuel as [|fuel]; [lia|]); cbn [dst_recv_loop].
  { destruct (recv_next_none _ _ _ _ _ _ _ _ _ Hinv Hlock)
      as (p' & w' & V' & E & Hinv' & Hlock' & Hkept & Hsame & Hdst & Hst).
    rewrite (M_bind_done _ _ _ _ _ E), decide_True by done.
    exists p', w', V', s1, queue, []. cbn [length]. rewrite Z.sub_0_r, Hdst, Hst, app_nil_r.
    split_and!; try done; [by apply same_resources_blocks|by rewrite (same_map _ _ Hsame)]. }
  destruct (reports_head _ _ _ _ _ (ri_status_ok _ _ _ _ _ _ _ _ _ _ _ Hinv) Hrep) as [Hw Hlen].
  destruct (recv_next_some id p w V a t k _ s1 m0 len Hinv Hlock) as
    (q & p1 & w1 & V1 & E & Hperm & Hinv1 & Hlock1 & Hkept1 & Hsame1 & Hmem1 & Hst1 & Hn1 & Hwin & hp & Hs2);
    [cbn; lia|done|lia|].
  rewrite (M_bind_done _ _ _ _ _ E), decide_False by (intros H; by apply H).
  pose proof (ri_posted _ _ _ _ _ _ _ _ _ _ _ Hinv) as Hpost. rewrite <-(same_map _ _ Hsame1), <-Hst1 in Hpost.
  destruct (recv_frame (dp_skbs p1) w1 q _ len m0 s1 s0 queue _ Hpost Hperm Hlen Hq)
    as (b & store' & s1' & queue' & Eb & Hb & Eun & Efr & Hpost' & Hq' & Hoth).
  rewrite (M_bind_done _ _ _ _ _ Eb), (M_bind_done _ _ _ _ _ Eun).
  rewrite Hst1 in Hoth, Hb. specialize (Hinv1 _ _ _ _ Hpost' Hoth). set (w2 := w1 <| w_map := _ |>) in *.
  set (p2 := p1 <| dp_skbs := store' |>) in *.
  replace (Z.of_nat (length (len :: lens)) - 1) with (Z.of_nat (length lens)) in Hinv1 by (cbn; lia).
  destruct (IH fuel p2 w2 V1 _ s1' queue' Hinv1 Hlock1) as
    (p' & w' & V' & s1'' & queue'' & taken & E' & Hinv' & Hlock' & Hkept' & Hsame' & Hq'' & Hn' &
     Htk & Hwin' & Hoth' & Hqt & Hmap);
    [|cbn in Hfuel; lia|done|].
  { rewrite Hs2. eapply reports_tail; [apply (ri_status_ok _ _ _ _ _ _ _ _ _ _ _ Hinv)|exact Hmem1|exact Hrep]. }
  assert (q ∉ taken) as Hqn.
  { pose proof (posted_nodup _ _ _ _ _ (ri_posted _ _ _ _ _ _ _ _ _ _ _ Hinv)) as Hnd.
    rewrite <-(window_live _ _ (ri_slots _ _ _ _ _ _ _ _ _ _ _ Hinv)), Hwin, Hwin' in Hnd.
    apply NoDup_cons in Hnd as [Hnd _]. rewrite not_elem_of_app in Hnd. tauto. }
  exists p', w', V', s1'', queue'', (q :: taken). split.
  { case_decide; destruct Efr as [Efr ->]; by rewrite (M_bind_done _ _ _ _ _ Efr). }
  replace (k - Z.of_nat (length (len :: lens))) with (k - 1 - Z.of_nat (length lens)) by (cbn; lia).
  split; [done|]. rewrite Hn1 in Hn'. split_and!; try done.
  - etrans; [exact Hkept1|]. etrans; [|exact Hkept']. by split.
  - etrans; [apply same_resources_blocks, Hsame1|]. etrans; [|exact Hsame']. by split.
  - cbn. by rewrite Htk.
  - by rewrite Hwin, Hwin'.
  - intros x [Hxq Hxt]%not_elem_of_cons. rewrite Hoth' by done. by apply Hoth.
  - intros x Hx. specialize (Hqt x Hx). rewrite elem_of_app, elem_of_cons in *.
    case_decide; destruct Efr as [_ ->]; rewrite ?elem_of_app, ?list_elem_of_singleton in Hqt; naive_solver.
  - rewrite Hmap. cbn [w2 w_map update update_with]. rewrite (same_map _ _ Hsame1). by apply unmapped_cons.
Qed.

Context `{KO : !KernelOk}.

(** How a round of the bottom half, or of the retry timer, leaves the timer:
    untouched with the ring full, or armed again. *)
Inductive refilled (n : Z) (p : dst_priv) (s0 : skbs) (p' : dst_priv) (w' : world) :
    Z → skbs → Prop :=
  | refill_full : st_rx_replenish_retry (dp_st p') = st_rx_replenish_retry (dp_st p) →
      refilled n p s0 p' w' (n - 2) s0
  | refill_retry k s0' : s0' = s0 ∨ leaked s0 s0' →
      st_rx_replenish_retry (dp_st p') =
        Some (u64 (w_jiffies w' + WIRELESS_SIMU_RX_POST_RETRY_JIFFIES)) →
      refilled n p s0 p' w' k s0'.

(** Everything a round keeps; the timer may have been armed. *)
Definition set_timer (p : dst_priv) (tm : option Z) : dst_priv :=
  p <| dp_st := dp_st p <| st_rx_replenish_retry := tm |> |>.
Definition kept_but_timer (p p' : dst_priv) : Prop := ∃ tm, dst_kept (set_timer p tm) p'.

Lemma rx_inv_timer s0 m0 id p w V a t k r tm : rx_inv s0 m0 id p w V a t k r →
  rx_inv s0 m0 id (set_timer p tm) w V a t k r.
Proof. by intros []. Qed.

Lemma kept_timer p p' tm : dst_kept p p' → kept_but_timer p (set_timer p' tm).
Proof. intros []. exists tm. by split. Qed.

Lemma kept_no_timer p p' : dst_kept p p' → kept_but_timer p p'.
Proof. intros []. exists (st_rx_replenish_retry (dp_st p)). by split. Qed.

(** The end of a round of posting: the timer is armed unless the ring is
    full. *)
Lemma refill_done s0 s0' m0 id n p0 p w V a t k r ret :
  rx_inv s0' m0 id p w V a t k r → dst_kept p0 p → post_outcome n s0 ret k s0' →
  ∃ p', (if decide (ret = 0 ∨ ret = - ENOSPC) then mret p else dst_mod_timer p) w = Done (p', w) ∧
    rx_inv s0' m0 id p' w V a t k r ∧ st_lock (dp_st p') = st_lock (dp_st p) ∧
    kept_but_timer p0 p' ∧ refilled n p0 s0 p' w k s0' ∧ dp_skbs p' = dp_skbs p.
Proof.
  intros Hinv Hkept Hout.
  assert (∀ tm, rx_inv s0' m0 id (set_timer p tm) w V a t k r) as Hinv' by (intros; by apply rx_inv_timer).
  assert (s0' = s0 ∨ leaked s0 s0' → ret ≠ 0 ∧ ret ≠ - ENOSPC →
    ∃ p', (if decide (ret = 0 ∨ ret = - ENOSPC) then mret p else dst_mod_timer p) w = Done (p', w) ∧
      rx_inv s0' m0 id p' w V a t k r ∧ st_lock (dp_st p') = st_lock (dp_st p) ∧
      kept_but_timer p0 p' ∧ refilled n p0 s0 p' w k s0' ∧
      dp_skbs p' = dp_skbs p) as Hretry.
  { intros Hs [H1 H2]. rewrite decide_False by naive_solver.
    eexists. split; [reflexivity|]. split_and!; [apply Hinv'|done|by apply kept_timer|by constructor|done]. }
  destruct Hout as [|k|k s0' Hleak].
  - rewrite decide_True by by left. exists p.
    split_and!; [done..|by apply kept_no_timer|constructor; apply Hkept|done].
  - apply Hretry; [by left|done].
  - apply Hretry; [by right|done].
Qed.

(** The bottom half, on any number of reports. *)
Lemma irq_done id p w V a t k lens s0 m0 :
  rx_inv s0 m0 id p w V a t k (Z.of_nat (length lens)) → st_lock (dp_st p) = false →
  reports (v_s2 V) w lens →
  ∃ p' w' V' a' k' s0' taken kept, wireless_simu_irq_hal_srng_dst_dma_test mmio_addr p id w = Done (p', w') ∧
    rx_inv s0' m0 id p' w' V' a' t k' 0 ∧ st_lock (dp_st p') = false ∧
    window (v_dst V) k = taken ++ kept ∧ length taken = length lens ∧
    grown kept (foldr delete (dp_skbs p) taken) (unmapped (dp_skbs p) taken (w_map w)) a (k - Z.of_nat (length lens))
      (window (v_dst V') k') (dp_skbs p') (w_map w') a' k' ∧ kept_but_timer p p' ∧
    same_blocks w w' ∧ refilled (tr_nentries (v_dst V)) p s0 p' w' k' s0'.
Proof.
  intros Hinv Hlock Hrep. unfold wireless_simu_irq_hal_srng_dst_dma_test, get_pipe.
  rewrite (ri_pipe _ _ _ _ _ _ _ _ _ _ _ Hinv), (M_bind_done _ _ _ _ _ eq_refl).
  destruct (recv_loop_done lens (recv_fuel (v_pipe V)) id p w V a t k s0 s0 m0 []) as
    (p1 & w1 & V1 & s1 & queue & taken & E1 & Hinv1 & Hlock1 & Hkept1 & Hsame1 & Hq & Hn1 & Htk & Hwin & Hoth & Hqt & Hmap);
    [done..| |apply queued_nil|].
  { unfold recv_fuel. pose proof Hinv as []. rewrite ri_status.
    destruct ri_status_ok as [Hg _ _ _ _ (hp & _ & _ & Hu)]. pose proof (geo_num _ Hg).
    pose proof (ring_used_range (srng_num_entries (v_s2 V)) ltac:(lia)
      (entry_index (srng_entry_size (v_s2 V)) hp)
      (entry_index (srng_entry_size (v_s2 V)) (dst_tp (srng_dst (v_s2 V))))). lia. }
  rewrite (M_bind_done _ _ _ _ _ E1).
  destruct (consume_done queue s0 s1 m0 _ _ _ w1 Hq (ri_posted _ _ _ _ _ _ _ _ _ _ _ Hinv1))
    as (store' & E2 & Hpost & Hcons).
  rewrite (M_bind_done _ _ _ _ _ E2). set (p2 := p1 <| dp_skbs := store' |>).
  assert (∀ x, x ∈ live (tr_skb (v_dst V1)) → x ∉ taken) as Hdis.
  { intros x Hx Hxt. rewrite <-(window_live _ _ (ri_slots _ _ _ _ _ _ _ _ _ _ _ Hinv1)) in Hx.
    pose proof (posted_nodup _ _ _ _ _ (ri_posted _ _ _ _ _ _ _ _ _ _ _ Hinv)) as Hnd.
    rewrite <-(window_live _ _ (ri_slots _ _ _ _ _ _ _ _ _ _ _ Hinv)), Hwin in Hnd.
    apply NoDup_app in Hnd as (_ & Hnd & _). by apply (Hnd x). }
  assert (rx_inv s0 m0 id p2 w1 V1 a t (k - Z.of_nat (length lens)) 0) as Hinv2.
  { assert (booked a (window (v_dst V1) (k - Z.of_nat (length lens))) store') as Hbook
      by (eapply rx_inv_booked; [exact Hinv1|]; intros x Hx; apply Hcons; intros Hxq;
          by apply Hqt, (Hdis x Hx) in Hxq).
    destruct Hinv1; by split. }
  assert (store' = foldr delete (dp_skbs p) taken) as Hst.
  { apply map_eq. intros x. destruct (decide (x ∈ taken)) as [Hx|Hx].
    - rewrite lookup_foldr_delete by done.
      assert (x ∈ live (tr_skb (v_dst V))) as Hxl.
      { rewrite <-(window_live _ _ (ri_slots _ _ _ _ _ _ _ _ _ _ _ Hinv)), Hwin. apply elem_of_app. by left. }
      destruct (posted_new _ _ _ _ _ _ (ri_posted _ _ _ _ _ _ _ _ _ _ _ Hinv) Hxl) as [_ Hx0].
      rewrite (posted_rest _ _ _ _ _ x Hpost), decide_False in Hx0; [done|]. intros Hx1. by apply (Hdis x Hx1).
    - rewrite lookup_foldr_delete_not_elem_of by done. rewrite <-Hoth by done. apply Hcons.
      intros Hxq. by apply Hqt in Hxq. }
  destruct (post_pipe_done mmio_addr id p2 w1 V1 a t _ 0 s0 m0 Hinv2 Hlock1) as
    (ret & p3 & w3 & V3 & a3 & k3 & s3 & E3 & Hinv3 & Hlock3 & Hkept3 & Hsame3 & Hn3 & Hgr & Hout).
  rewrite (M_bind_done _ _ _ _ _ E3). rewrite Hn1 in Hout.
  assert (dst_kept p p3) as Hkept by (trans p1; [exact Hkept1|trans p2; [by split|exact Hkept3]]).
  destruct (refill_done _ _ _ _ _ _ _ _ _ _ _ _ _ _ Hinv3 Hkept Hout) as (p4 & E4 & ? & Hlock4 & ? & ? & Hsk).
  exists p4, w3, V3, a3, k3, s3, taken, (window (v_dst V1) (k - Z.of_nat (length lens))).
  cbn [p2 dp_skbs update update_with] in Hgr. rewrite Hst, Hmap in Hgr.
  split_and!; try done; [|by rewrite Hlock4|by rewrite Hsk|by etrans].
  rewrite <-E4. do 2 case_decide; try done; lia.
Qed.

(** C12.  The bottom half of the receive interrupt is safe and complete.  From a
    state of the receive path, with any number of reports of positive length
    waiting in the status ring, [wireless_simu_irq_hal_srng_dst_dma_test]
    never faults.  It takes every report; of the posted buffers ([window], the
    oldest first) it unmaps and frees exactly the [length lens] oldest, the
    others stay posted; and it posts new ones until [n - 2] are posted or the
    kernel refuses one - then the retry timer is armed ([refilled]).  Each new
    buffer ([grown], [posts]) is mapped at a new address, remembers it, and its
    descriptor, the next one of the ring, names it; but for a buffer the kernel
    refused to map nothing else is taken.  The state it leaves satisfies the
    same invariant - the descriptors last written are those of the posted
    buffers, in order -, with an empty status ring and the lock free. *)
Theorem irq_drains_and_refills id p w V a t k lens s0 m0 :
  rx_inv s0 m0 id p w V a t k (Z.of_nat (length lens)) → st_lock (dp_st p) = false →
  reports (v_s2 V) w lens →
  ∃ p' w' V' a' k' s0' taken kept, wireless_simu_irq_hal_srng_dst_dma_test mmio_addr p id w = Done (p', w') ∧
    rx_inv s0' m0 id p' w' V' a' t k' 0 ∧ st_lock (dp_st p') = false ∧
    window (v_dst V) k = taken ++ kept ∧ length taken = length lens ∧
    grown kept (foldr delete (dp_skbs p) taken) (unmapped (dp_skbs p) taken (w_map w)) a (k - Z.of_nat (length lens))
      (window (v_dst V') k') (dp_skbs p') (w_map w') a' k' ∧
    test_owned (dp_st p') = test_owned (dp_st p) ∧
    same_blocks w w' ∧ refilled (tr_nentries (v_dst V)) p s0 p' w' k' s0'.
Proof.
  intros Hinv Hlock Hrep.
  destruct (irq_done _ _ _ _ _ _ _ _ _ _ Hinv Hlock Hrep)
    as (p' & w' & V' & a' & k' & s0' & taken & kept & E & Hinv' & Hlock' & Hw & Ht & Hg & [tm Hkept] & Hsame & Href).
  exists p', w', V', a', k', s0', taken, kept. split_and!; try done. apply (dk_owned _ _ Hkept).
Qed.

(** [wireless_simu_test_dst_post_buf] over the only pipe. *)
Lemma post_buf_done p w V a t k r s0 m0 :
  rx_inv s0 m0 0 p w V a t k r → st_lock (dp_st p) = false → st_pipes_count (dp_st p) = 1 →
  ∃ p' w' V' a' k' s0', wireless_simu_test_dst_post_buf mmio_addr p w = Done (p', w') ∧
    rx_inv s0' m0 0 p' w' V' a' t k' r ∧ st_lock (dp_st p') = false ∧
    grown (window (v_dst V) k) (dp_skbs p) (w_map w) a k (window (v_dst V') k') (dp_skbs p') (w_map w') a' k' ∧
    kept_but_timer p p' ∧ same_blocks w w' ∧ tr_nentries (v_dst V') = tr_nentries (v_dst V) ∧
    refilled (tr_nentries (v_dst V)) p s0 p' w' k' s0'.
Proof.
  intros Hinv Hlock Hc. unfold wireless_simu_test_dst_post_buf. rewrite Hc.
  change (seq 0 (Z.to_nat 1)) with [0%nat]. cbn [dst_post_pipes].
  destruct (post_pipe_done mmio_addr 0 p w V a t k r s0 m0 Hinv Hlock) as
    (ret & p3 & w3 & V3 & a3 & k3 & s3 & E3 & Hinv3 & Hlock3 & Hkept3 & Hsame3 & Hn3 & Hgr & Hout).
  rewrite (M_bind_done _ _ _ _ _ E3).
  destruct (refill_done _ _ _ _ _ _ _ _ _ _ _ _ _ _ Hinv3 Hkept3 Hout) as (p4 & E4 & ? & Hlock4 & ? & ? & Hsk).
  exists p4, w3, V3, a3, k3, s3. split_and!; try done; [by rewrite Hlock4|by rewrite Hsk].
Qed.
End receive.
