(* ===== verification/RxLife.v ===== *)
(** * Stopping the receive path

    Source: src/driver/driver_wireless/wireless_hal.c,
    [wireless_simu_hal_srng_dst_test_cleanuprx] and
    [wireless_simu_hal_srng_dst_test_deinit]: removal gives everything back
    from any state that satisfies the invariant of [RxRing], unless a tasklet
    is waiting. *)

From S2P Require Import Prelude Kernel Bits HalTypes Hif HalRing RingProtocol HalSetup HalInit Skb.
From S2P Require Import SrngTest SrngSend PipeLife SrngTestRun DstTest RxRing RxRun.

(* ------------------------------------------------------------------ *)
(** ** Removal *)

Section cleanup.
Context `{K : Kernel} `{SA : SkbApi}.

Lemma live_nil l : (∀ i p, l !! i = Some p → p = 0) → live l = [].
Proof.
  intros H. apply elem_of_nil_inv. intros p [Hp Hin]%list_elem_of_filter.
  apply list_elem_of_lookup in Hin as [i Hi]. by apply Hp, (H i).
Qed.

(** The loop over the slots from [i]: all posted buffers are given back. *)
Lemma cleanup_done n i store ring w s0 m0 :
  (i + n = length (tr_skb ring))%nat →
  (∀ j p, (j < i)%nat → tr_skb ring !! j = Some p → p = 0) →
  posted s0 m0 (live (tr_skb ring)) store (w_map w) →
  ∃ skbs', dst_cleanup_slots store ring i n w =
    Done ((s0, ring <| tr_skb := skbs' |>), w <| w_map := m0 |>).
Proof.
  revert i store ring w. induction n as [|n IH]; intros i store ring w Hlen Hzero Hp; cbn.
  { rewrite live_nil in Hp.
    - apply posted_nil_inv in Hp as [-> <-]. exists (tr_skb ring). by destruct ring, w.
    - intros j p Hj. apply (Hzero j); [|done]. apply lookup_lt_Some in Hj. lia. }
  destruct (lookup_lt_is_Some_2 (tr_skb ring) i) as [q Hq]; [lia|].
  rewrite Hq, (M_bind_done _ _ _ _ _ eq_refl). case_decide as Hqz.
  - apply IH; [lia| |done]. intros j p Hj Hjp.
    destruct (decide (j = i)) as [->|]; [congruence|]. apply (Hzero j); [lia|done].
  - unfold set_ring_skb. rewrite decide_True by lia. rewrite M_bind_ret, Nat2Z.id.
    pose proof (live_unset _ _ _ Hq Hqz) as Hperm.
    destruct (posted_take _ _ _ _ _ q Hp) as (b & l' & Hb & Hm & _ & _ & _ & Hperm' & Hp').
    { rewrite Hperm. by left. }
    rewrite (M_bind_done _ _ _ _ _ (get_skb_done _ _ _ w Hb)).
    assert (dma_unmap_single (cb_paddr (sb_cb b)) (skb_room b) w =
      Done (tt, w <| w_map := delete (cb_paddr (sb_cb b)) (w_map w) |>)) as Eun
      by (unfold dma_unmap_single; by rewrite decide_True).
    rewrite (M_bind_done _ _ _ _ _ Eun), (M_bind_done _ _ _ _ _ (kfree_skb_done _ _ _ _ Hb)).
    set (ring' := ring <| tr_skb := <[i := 0]> (tr_skb ring) |>).
    destruct (IH (S i) (delete q store) ring' (w <| w_map := delete (cb_paddr (sb_cb b)) (w_map w) |>))
      as (skbs' & E).
    + cbn. rewrite length_insert. lia.
    + intros j p Hj Hjp. cbn in Hjp. destruct (decide (j = i)) as [->|].
      * rewrite list_lookup_insert_eq in Hjp by lia. congruence.
      * rewrite list_lookup_insert_ne in Hjp by done. apply (Hzero j); [lia|done].
    + eapply posted_perm; [|exact Hp']. apply (Permutation_cons_inv (a := q)).
      cbn. by rewrite <-Hperm', <-Hperm.
    + exists skbs'. exact E.
Qed.
End cleanup.

(** The receive path between initialisation and removal: [base] is the world
    and [s0] the buffers of before it was started. *)
Record rx_up `{K : Kernel} `{B : Bits} `{SA : SkbApi} (mmio_addr : Z) (base : world) (s0 : skbs)
    (p : dst_priv) (w : world) (V : rx_view) (a t : list (list Z)) (k r : Z) : Prop := {
  ru_inv : rx_inv mmio_addr s0 (w_map base) 0 p w V a t k r;
  ru_pipes : st_pipes (dp_st p) = [v_pipe V] ∧ st_pipes_count (dp_st p) = 1;
  ru_unlocked : st_lock (dp_st p) = false;
  ru_config : st_config_ptr (dp_st p) ≠ 0 ∧ st_config_ptr (dp_st p) ∉ w_heap base;
  ru_owned : owns (test_owned (dp_st p)) (heap_world (st_config_ptr (dp_st p)) base) w
}.

(** The buffers in the slots of the pipe. *)
Definition rx_held `{SA : SkbApi} (p : dst_priv) : list Z :=
  match st_pipes (dp_st p) !! 0%nat ≫= pipe_dst_ring with
  | Some ring => live (tr_skb ring)
  | None => []
  end.

(** What removal does to the socket buffers: exactly the posted ones are freed.
    A retry timer that is armed stays armed. *)
Record rx_stopped `{SA : SkbApi} (p p' : dst_priv) : Prop := {
  sd_store q : dp_skbs p' !! q = if decide (q ∈ rx_held p) then None else dp_skbs p !! q;
  sd_timer : st_rx_replenish_retry (dp_st p') = st_rx_replenish_retry (dp_st p)
}.

Section removal.
Context `{KO : KernelOk} `{BO : BitsOk} `{SA : SkbApi} (mmio_addr : Z).
Abbreviation rx_up := (rx_up mmio_addr).

Lemma for_one f p id w p' w' : f p id w = Done (p', w') →
  dst_for_pipes f p [id] w = Done (p', w').
Proof. intros E. cbn. by rewrite (M_bind_done _ _ _ _ _ E). Qed.

(** What removal relies on: nothing of the rings' contents, only which
    buffers the slots hold, and that no tasklet waits. *)
Record rx_stoppable (base : world) (s0 : skbs) (p : dst_priv) (w : world) : Prop := {
  sp_slots : ∃ pipe dst, st_pipes (dp_st p) = [pipe] ∧ pipe_dst_ring pipe = Some dst ∧
    pipe_intr_tq pipe = false ∧ Z.to_nat (tr_nentries dst) = length (tr_skb dst) ∧
    posted s0 (w_map base) (live (tr_skb dst)) (dp_skbs p) (w_map w);
  sp_count : st_pipes_count (dp_st p) = 1;
  sp_unlocked : st_lock (dp_st p) = false;
  sp_config : st_config_ptr (dp_st p) ≠ 0 ∧ st_config_ptr (dp_st p) ∉ w_heap base;
  sp_owned : owns (test_owned (dp_st p)) (heap_world (st_config_ptr (dp_st p)) base) w
}.

Lemma rx_up_stoppable base s0 p w V a t k r : rx_up base s0 p w V a t k r →
  pipe_intr_tq (v_pipe V) = false → rx_stoppable base s0 p w.
Proof.
  intros [[] [Hpipes Hcount] Hlock Hc Ho] Htq. split; [|done..].
  exists (v_pipe V), (v_dst V). split_and!; try done. destruct ri_slots; lia.
Qed.

(** Work elsewhere that gives back what it takes does not matter. *)
Lemma rx_stoppable_same base s0 p hal w w' : rx_stoppable base s0 p w → same_resources w w' →
  rx_stoppable base s0 (p <| dp_hal := hal |>) w'.
Proof.
  intros [(pipe & dst & ? & ? & ? & ? & Hp) ? ? ? ?] Hs. split; [|done..|by eapply owns_same].
  exists pipe, dst. rewrite (same_map _ _ Hs). by split_and!.
Qed.

(** Removal with the lock taken and no tasklet waiting. *)
Lemma cleanuprx_done base s0 p w : rx_stoppable base s0 p w →
  ∃ pipe', wireless_simu_hal_srng_dst_test_cleanuprx (set_lock p true) 0 w =
      Done (set_pipe (set_lock p true <| dp_skbs := s0 |>) 0 pipe', w <| w_map := w_map base |>) ∧
    pipe_owned <$> st_pipes (dp_st p) = [pipe_owned pipe'].
Proof.
  intros [(pipe & dst & Hpipes & Hdst & _ & Hlen & Hpost) _ _ _ _].
  unfold wireless_simu_hal_srng_dst_test_cleanuprx, get_pipe.
  cbn [dp_st set_lock update update_with st_pipes].
  rewrite Hpipes, (M_bind_done _ _ _ _ _ eq_refl), Hdst.
  destruct (cleanup_done (Z.to_nat (tr_nentries dst)) 0 (dp_skbs p) dst w s0 (w_map base))
    as (skbs' & E); [lia|lia|done|].
  change (dp_skbs _) with (dp_skbs p).
  rewrite (M_bind_done _ _ _ _ _ E). eexists. split; [reflexivity|].
  unfold pipe_owned, held. cbn. by rewrite Hdst.
Qed.

(** Removal gives everything back.  From any state of the receive path with
    no tasklet waiting - whatever buffers are posted and whatever the device
    has still to report - [wireless_simu_hal_srng_dst_test_deinit] does not
    fault, and the heap, the coherent regions, the mapped memory, the
    streaming mappings and the socket buffers are those of before the path was
    started; no ring is left in the pipe, and the lock is free. *)
Lemma stop_done base s0 p w : rx_stoppable base s0 p w →
  ∃ p' w', wireless_simu_hal_srng_dst_test_deinit mmio_addr p w = Done (p', w') ∧
    same_resources base w' ∧ dp_skbs p' = s0 ∧ test_owned (dp_st p') = [] ∧
    st_lock (dp_st p') = false ∧ dp_hal p' = dp_hal p ∧ rx_stopped p p'.
Proof.
  intros Hup. pose proof Hup as [(pipe & dst & Hpipes & Hdst & Htq & _ & Hpost) Hcount Hlock [Hc Hcn] Ho].
  destruct (cleanuprx_done _ _ _ _ Hup) as (pipe' & E & Hown). rewrite Hpipes in Hown. injection Hown as Hown.
  set (p1 := set_pipe (set_lock p true <| dp_skbs := s0 |>) 0 pipe') in *.
  assert (test_owned (dp_st p1) = test_owned (dp_st p)) as Ho1.
  { unfold test_owned. cbn. rewrite Hpipes. cbn. by rewrite Hown. }
  rewrite <-(app_nil_r (test_owned (dp_st p))), <-Ho1 in Ho.
  assert (owns (test_owned (dp_st p1) ++ []) (heap_world (st_config_ptr (dp_st p)) base)
    (w <| w_map := w_map base |>)) as Ho2 by (by eapply owns_blocks).
  destruct (free_pipes_owns _ [] _ _ Ho2) as (w2 & E2 & Ho3 & M2 & _).
  destruct (owns_nil_inv _ _ Ho3) as (Hh & Hd & Hdom).
  eexists _, _. split.
  - unfold wireless_simu_hal_srng_dst_test_deinit, lock_acquire. rewrite Hcount, Hlock.
    rewrite (M_bind_done _ _ w true w) by done.
    change (seq 0 (Z.to_nat 1)) with [0%nat].
    rewrite (M_bind_done _ _ w (set_lock p true) w).
    2: { apply for_one. unfold tasklet_kill, get_pipe. cbn. by rewrite Hpipes, (M_bind_done _ _ _ _ _ eq_refl), Htq. }
    rewrite (M_bind_done _ _ w p1 (w <| w_map := w_map base |>)) by by apply for_one.
    rewrite (M_bind_done _ _ _ _ _ E2), (M_bind_done _ _ _ _ _ (kfree_eq _ w2 Hc ltac:(rewrite Hh; cbn; set_solver))).
    reflexivity.
  - split_and!; [|done| |done|done|].
    3: { split; [|done]. intros q. unfold rx_held. rewrite Hpipes. cbn. rewrite Hdst.
         by apply (posted_rest _ _ _ _ _ q Hpost). }
    + split; cbn; [|done|by rewrite M2|done]. rewrite Hh. cbn. set_solver.
    + unfold test_owned. cbn. by rewrite Hpipes.
Qed.

Lemma deinit_done base s0 p w V a t k r :
  rx_up base s0 p w V a t k r → pipe_intr_tq (v_pipe V) = false →
  ∃ p' w', wireless_simu_hal_srng_dst_test_deinit mmio_addr p w = Done (p', w') ∧
    same_resources base w' ∧ dp_skbs p' = s0 ∧ test_owned (dp_st p') = [] ∧
    st_lock (dp_st p') = false ∧ rx_stopped p p'.
Proof.
  intros Hup Htq. destruct (stop_done _ _ _ _ (rx_up_stoppable _ _ _ _ _ _ _ _ _ Hup Htq))
    as (p' & w' & E & H1 & H2 & H3 & H4 & _ & H5). by exists p', w'.
Qed.

(** The bottom half spins when it is run under the lock. *)
Lemma bottom_half_locked p id pipe status w :
  st_pipes (dp_st p) !! id = Some pipe → pipe_status_ring pipe = Some status → st_lock (dp_st p) = true →
  wireless_simu_irq_hal_srng_dst_dma_test mmio_addr p id w = Fault Deadlock.
Proof.
  intros Hp Hs Hl. unfold wireless_simu_irq_hal_srng_dst_dma_test, get_pipe.
  rewrite Hp, (M_bind_done _ _ w pipe w) by done. unfold recv_fuel. rewrite Hs.
  apply M_bind_fault. cbn [dst_recv_loop]. apply M_bind_fault.
  unfold wireless_simu_test_dst_recv_next, get_pipe. rewrite Hp, (M_bind_done _ _ w pipe w) by done.
  apply M_bind_fault. unfold lock_acquire. by rewrite Hl.
Qed.

(** C40.  Removal with a tasklet waiting hangs: [tasklet_kill] waits for the
    tasklet under [srng_test_lock], and the first thing the tasklet does is
    take that lock. *)
Theorem dst_deinit_tasklet_deadlock base s0 p w V a t k r :
  rx_up base s0 p w V a t k r → pipe_intr_tq (v_pipe V) = true → pipe_num (v_pipe V) = 0 →
  wireless_simu_hal_srng_dst_test_deinit mmio_addr p w = Fault Deadlock.
Proof.
  intros [[] [Hpipes Hcount] Hlock _ _] Htq Hnum.
  unfold wireless_simu_hal_srng_dst_test_deinit, lock_acquire. rewrite Hcount, Hlock.
  rewrite (M_bind_done _ _ w true w) by done. change (seq 0 (Z.to_nat 1)) with [0%nat].
  apply M_bind_fault. cbn [dst_for_pipes]. apply M_bind_fault.
  unfold tasklet_kill, get_pipe.
  assert (st_pipes (dp_st (set_lock p true)) !! 0%nat = Some (v_pipe V)) as H0 by (cbn; by rewrite Hpipes).
  rewrite H0, (M_bind_done _ _ w (v_pipe V) w), Htq by done.
  unfold wireless_simu_hal_srng_dst_tasklet, get_pipe.
  rewrite H0, (M_bind_done _ _ w (v_pipe V) w), Hnum by done.
  apply (bottom_half_locked _ _ (v_pipe V <| pipe_intr_tq := false |>) (v_status V)); [|exact ri_status|done].
  cbn. rewrite Hpipes. reflexivity.
Qed.
End removal.
