(* ===== verification/RxStart.v ===== *)
(** * Starting the receive path

    Source: src/driver/driver_wireless/wireless_hal.c,
    [wireless_simu_hal_srng_dst_test_init]: initialisation establishes the
    invariant of [RxRing] or gives back what it took. *)

From S2P Require Import Prelude Kernel Bits HalTypes Hif HalRing RingProtocol HalSetup HalInit Skb.
From S2P Require Import SrngTest SrngSend PipeLife SrngTestRun DstTest RxRing RxRun RxLife.

(* ------------------------------------------------------------------ *)
(** ** Registering the rings *)

Section start.
Context `{KO : KernelOk} `{BO : BitsOk} `{SO : SkbOk} (big : bool) (mmio_addr : Z).
Abbreviation rx_inv := (rx_inv mmio_addr).

Lemma tp_reg_addr hal t params old : type_dir t = HAL_SRNG_DIR_DST →
  tp_reg mmio_addr (setup_srng big mmio_addr hal t params old) =
    mmio_addr + (0x10000 + 256 * type_ring_id t + 128).
Proof.
  intros Hd. pose proof (setup_srng_pointers big mmio_addr hal t params old) as Hs.
  rewrite Hd in Hs. destruct Hs as (_ & _ & _ & _ & Hreg). unfold tp_reg. rewrite Hreg.
  pose proof (type_bounds t). unfold ptr_sub, HAL_SRNG_REG_GRP_R2.
  rewrite hal_srng_reg_base_add, wrap_sub_l by lia.
  rewrite (wrap_id 32 (_ + 128 * 1)) by lia.
  match goal with |- context [mmio_addr + ?x - mmio_addr] =>
    replace (mmio_addr + x - mmio_addr) with x by lia end.
  rewrite (wrap_id 64), wrap_id by lia. lia.
Qed.

(** A status ring just set up is empty. *)
Lemma setup_status_ok hal params old w w' :
  hal_ready hal w → params_ok hal HAL_TEST_SRNG_DST_STATUS params w →
  w_mem w' = setup_mem hal HAL_TEST_SRNG_DST_STATUS params (w_mem w) →
  status_ok (setup_srng big mmio_addr hal HAL_TEST_SRNG_DST_STATUS params old) w' 0.
Proof.
  intros Hr Hp Hmem. set (t := HAL_TEST_SRNG_DST_STATUS) in *.
  pose proof (setup_geometry big mmio_addr hal t params old w Hp) as Hg.
  destruct (setup_srng_fields big mmio_addr hal t params old)
    as (_ & Hdir & He & Hn & _ & _ & _ & Hl & _).
  pose proof (setup_srng_pointers big mmio_addr hal t params old) as (Htp & _ & _ & Hword & _).
  pose proof (geo_num _ Hg). pose proof (geo_entry _ Hg).
  assert (is_entry (srng_entry_size (setup_srng big mmio_addr hal t params old))
    (srng_num_entries (setup_srng big mmio_addr hal t params old)) 0) as Hz by (exists 0; lia).
  split; try done.
  - pose proof (po_flags _ _ _ _ Hp) as Hf. destruct big; cbn; by rewrite Hf.
  - by rewrite Htp.
  - exists 0. rewrite Hword, Htp, (proj1 (rdp_ptr hal w t Hr)), Hmem. split_and!; [|done|].
    + apply lookup_insert_eq.
    + unfold entry_index, ring_used. by rewrite Zdiv_0_l, Z.sub_0_r, Zmod_0_l.
Qed.

(** The second ring's setup leaves the first one initial. *)
Lemma second_setup_frame hal t t2 params2 s old w log r pa :
  type_ring_id t ≠ type_ring_id t2 → type_dir t = HAL_SRNG_DIR_SRC →
  hal_ready hal w → params_ok hal t2 params2 w → hw_regs mmio_addr (type_ring_id t2) pa r log →
  (∃ params, s = setup_srng big mmio_addr hal t params old) →
  (∀ k, 0 ≤ k < type_entry_size t2 * par_num_entries params2 →
     rdp_word hal t ≠ par_ring_base_vaddr params2 + 4 * k) →
  Source.initial mmio_addr s w →
  Source.initial mmio_addr s (w <| w_mmio := w_mmio w ++ log |>
    <| w_mem := setup_mem hal t2 params2 (w_mem w) |>).
Proof.
  intros Hne Hdir Hr Hp Hregs (params & ->) Hapart Hi.
  pose proof (setup_srng_pointers big mmio_addr hal t params old) as Hs. rewrite Hdir in Hs.
  destruct Hs as (_ & _ & _ & Hword & _). rewrite (proj1 (rdp_ptr hal w t Hr)) in Hword.
  pose proof (type_bounds t). pose proof (type_bounds t2).
  eapply Source.initial_frame; [exact Hi| | |]; cbn [w_mem w_mmio update update_with].
  - apply (same_dom _ _ (setup_same hal t2 params2 w log Hr Hp)).
  - rewrite Hword. unfold setup_mem. rewrite lookup_insert_ne by (unfold rdp_word; lia).
    apply write_words_ne. intros k Hk. rewrite length_replicate in Hk. apply Hapart. lia.
  - rewrite mmio_last_app_list, mmio_last_None; [done|].
    rewrite (hp_reg_addr big mmio_addr hal t params old Hdir). unfold HAL_SRNG_REG_GRP_R2.
    rewrite hal_srng_reg_base_add by lia. change (HAL_SRNG_REG_R_GROUP_OFFSET 0) with 0.
    eapply Forall_impl; [apply (hw_window _ _ _ _ _ Hregs)|]. intros [x v] (k & Hk & Ha).
    cbn in *. lia.
Qed.

(** The slots of a new ring. *)
Lemma new_ring_slots n e size ring w w' : n = 2 ^ e → 1 ≤ e ≤ 16 → new_ring n size ring w w' →
  rx_slots ring 0 ∧ live (tr_skb ring) = [].
Proof.
  intros Hn He Hnew. destruct (nr_entries _ _ _ _ _ Hnew) as [Hnum Hmask].
  destruct (nr_indices _ _ _ _ _ Hnew) as [Hsw Hwi]. pose proof (nr_skb _ _ _ _ _ Hnew) as Hskb.
  assert (2 ≤ n) by (subst n; apply (Z.pow_le_mono_r 2 1); lia).
  split.
  - split; rewrite ?Hnum, ?Hmask, ?Hsw, ?Hwi, ?Hskb; try done; try lia.
    + exists e. rewrite Z.ones_equiv. split_and!; [lia|lia|done|lia].
    + rewrite length_replicate. lia.
    + intros i p Hi. rewrite lookup_replicate. intros [-> _].
      pose proof (Z.mod_pos_bound (i - 0) n). lia.
  - apply live_nil. intros i p. rewrite Hskb, lookup_replicate. by intros [-> _].
Qed.

(** A ring's words were not mapped when it was made, so no shared pointer word
    is among them. *)
Lemma new_ring_apart hal t t2 n ring w w' (j : Z) : hal_ready hal w → 0 < n →
  new_ring n (n * (4 * type_entry_size t2) + 8) ring w w' →
  0 ≤ j < type_entry_size t2 * n →
  rdp_word hal t ≠ tr_base_addr_owner_space ring + 4 * j.
Proof.
  intros Hr Hn Hnew Hj Heq. destruct (rdp_word_mapped _ _ t Hr) as [x Hx].
  rewrite Heq, (db_mem _ _ _ _ (nr_block _ _ _ _ _ Hnew)) in Hx by lia. done.
Qed.

(** What [dst_register_pipes] does with the rings [hal_srng_test_alloc_pipe]
    made: the entries [s] and [s2] of [srng_list] and the memory they start
    on. *)
Record rings_registered (hal hal' : wireless_simu_hal) (d e : srng_test_ring) (s s2 : hal_srng)
    (w wb : world) : Prop := {
  rg_s : ∃ old, s = setup_srng big mmio_addr hal HAL_TEST_SRNG_DST (test_params d) old;
  rg_list : hal_srng_list hal' !! 8%nat = Some s ∧ hal_srng_list hal' !! 1%nat = Some s2;
  rg_ready : hal_ready hal' wb;
  rg_kept : hal_kept hal hal';
  rg_same : same_resources w wb;
  rg_status : ∃ l wa log old, let t := HAL_TEST_SRNG_DST_STATUS in
    let hal1 := hal <| hal_srng_list := l |> in
    s2 = setup_srng big mmio_addr hal1 t (test_params e) old ∧ hal_ready hal1 wa ∧ params_ok hal1 t (test_params e) wa ∧
    hw_regs mmio_addr (type_ring_id t) (hal_rdp_paddr hal1 + 4 * type_ring_id t) s2 log ∧
    Source.initial mmio_addr s wa ∧
    wb = wa <| w_mmio := w_mmio wa ++ log |> <| w_mem := setup_mem hal1 t (test_params e) (w_mem wa) |>
}.

Definition started_dst (d : srng_test_ring) : srng_test_ring :=
  d <| tr_hal_ring_id := 8 |> <| tr_write_index := 0 |> <| tr_sw_index := 0 |>.
Definition started_status (e : srng_test_ring) : srng_test_ring :=
  e <| tr_hal_ring_id := 1 |> <| tr_sw_index := 0 |> <| tr_write_index := 0 |>.
Definition started_pipe (pipe : srng_test_pipe) (d e : srng_test_ring) : srng_test_pipe :=
  pipe <| pipe_dst_ring := Some (started_dst d) |> <| pipe_rx_buf_needed := 30 |>
       <| pipe_status_ring := Some (started_status e) |>.

Lemma dst_register_eq hal st pipe d e w0 w1 w :
  hal_ready hal w0 → st_pipes st = [pipe] →
  pipe_src_ring pipe = None → pipe_dst_ring pipe = Some d → pipe_status_ring pipe = Some e →
  new_ring 32 (32 * (4 * 3) + 8) d w0 w1 → new_ring 32 (32 * (4 * 2) + 8) e w1 w →
  ∃ hal' s s2 wb, dst_register_pipes big mmio_addr hal st pipe_ids w =
      Done ((None, hal', put_pipe st 0 (started_pipe pipe d e)), wb) ∧
    rings_registered hal hal' d e s s2 w wb.
Proof.
  intros Hr0 Hp Hsrc Hdst Hstat Hd He.
  assert (new_ring 32 (32 * (4 * 3) + 8) d w0 w) as Hd'
    by (eapply new_ring_later; [done|apply (nr_others _ _ _ _ _ He)|apply (nr_heap _ _ _ _ _ He)]).
  pose proof (proj2 (new_ring_params hal HAL_TEST_SRNG_DST 32 d w0 w1 Hr0 ltac:(lia) Hd)) as Hr1.
  destruct (init_ring_done big mmio_addr hal HAL_TEST_SRNG_DST 32 d w0 w Hr0 ltac:(lia) Hd')
    as (s & wa & log & E1 & Hsame1 & _ & _ & _ & Hs & Hinit).
  set (hal1 := hal <| hal_srng_list := <[Z.to_nat (type_ring_id HAL_TEST_SRNG_DST) := s]> (hal_srng_list hal) |>) in *.
  assert (8 < length (hal_srng_list hal))%nat as Hlen8
    by (rewrite (hr_list _ _ Hr0); apply Nat.ltb_lt; by vm_compute).
  assert (hal_ready hal1 w1) as Hr1' by by apply hal_ready_list.
  assert (new_ring 32 (32 * (4 * 2) + 8) e w1 wa) as He'.
  { eapply new_ring_later; [done| |by rewrite (same_heap _ _ Hsame1)].
    intros a Ha. apply elem_of_dom. rewrite (same_dom _ _ Hsame1). by apply elem_of_dom. }
  destruct (new_ring_params hal1 HAL_TEST_SRNG_DST_STATUS 32 e w1 wa Hr1' ltac:(lia) He') as [Hpar Hr2].
  destruct (init_ring_done big mmio_addr hal1 HAL_TEST_SRNG_DST_STATUS 32 e w1 wa Hr1' ltac:(lia) He')
    as (s2 & wb & log2 & E2 & Hsame2 & _ & Hregs2 & Hwb & (old2 & Hs2) & _).
  destruct (nr_entries _ _ _ _ _ Hd) as [Hdn _].
  exists (hal1 <| hal_srng_list := <[Z.to_nat (type_ring_id HAL_TEST_SRNG_DST_STATUS) := s2]>
    (hal_srng_list hal1) |>), s, s2, wb. split; [|split].
  - cbn [pipe_ids dst_register_pipes seq SRNG_TEST_PIPE_COUNT_MAX]. rewrite Hp.
    rewrite (M_bind_done _ _ w pipe w), Hsrc, Hdst, Hstat by done.
    rewrite (M_bind_done _ _ _ _ _ E1), (M_bind_done _ _ _ _ _ E2).
    rewrite decide_False by (intros H; by apply H). cbn. rewrite Hdn. by destruct pipe.
  - exact Hs.
  - cbn. split.
    + rewrite list_lookup_insert_ne by done. by apply list_lookup_insert_eq.
    + apply list_lookup_insert_eq. rewrite length_insert. lia.
  - apply hal_ready_list; [by eapply hal_ready_same|]. cbn. rewrite length_insert. cbn. lia.
  - split; [done|]. cbn. by rewrite !length_insert.
  - by etrans.
  - eexists _, wa, log2, old2. cbv zeta. split_and!; try done. by apply Hinit.
Qed.

(** The words of the two rings and their pointer words are all different. *)
Lemma started_region hal hal' d e s s2 w0 w1 w wb :
  hal_ready hal w0 →
  new_ring 32 (32 * (4 * 3) + 8) d w0 w1 → new_ring 32 (32 * (4 * 2) + 8) e w1 w →
  rings_registered hal hal' d e s s2 w wb → status_region s s2 wb 0.
Proof.
  intros Hr0 Hd He [(old & Hs) _ _ _ _ Hst].
  destruct Hst as (l & wa & log & old2 & Hs2 & Hr1 & _).
  set (hal1 := hal <| hal_srng_list := l |>) in *.
  assert (hal_ready hal w1) as Hrw by by apply (new_ring_params hal HAL_TEST_SRNG_DST 32 d w0 w1).
  destruct (nr_entries _ _ _ _ _ Hd) as [Hdn _]. destruct (nr_entries _ _ _ _ _ He) as [Hen _].
  destruct (setup_srng_fields big mmio_addr hal HAL_TEST_SRNG_DST (test_params d) old)
    as (_ & _ & _ & Fn & Fz & Fb & _). rewrite <-Hs in Fn, Fz, Fb.
  destruct (setup_srng_fields big mmio_addr hal1 HAL_TEST_SRNG_DST_STATUS (test_params e) old2)
    as (_ & _ & _ & Gn & Gz & Gb & _). rewrite <-Hs2 in Gn, Gz, Gb.
  assert (srng_ring_size s = 96 ∧ srng_ring_size s2 = 64) as [Hz Hz2]
    by (rewrite Fz, Gz; cbn; by rewrite Hdn, Hen).
  pose proof (setup_srng_pointers big mmio_addr hal HAL_TEST_SRNG_DST (test_params d) old)
    as (_ & _ & _ & Ht & _). rewrite <-Hs, (proj1 (rdp_ptr hal _ _ Hr0)) in Ht.
  pose proof (setup_srng_pointers big mmio_addr hal1 HAL_TEST_SRNG_DST_STATUS (test_params e) old2)
    as (_ & _ & _ & Hh & _). rewrite <-Hs2, (proj1 (rdp_ptr hal1 _ _ Hr1)) in Hh.
  assert (∀ t j, 0 ≤ j < 64 → tr_base_addr_owner_space e + 4 * j ≠ rdp_word hal t) as Hapart.
  { intros t j Hj Heq. symmetry in Heq. revert Heq.
    eapply (new_ring_apart hal t HAL_TEST_SRNG_DST_STATUS 32 e w1); [done|lia|exact He|exact Hj]. }
  split; rewrite ?Hz, ?Hz2, ?Ht, ?Hh, ?Fb, ?Gb; cbn [par_ring_base_vaddr test_params].
  - rewrite Fn, Gn. cbn. by rewrite Hdn, Hen.
  - unfold rdp_word. cbn. lia.
  - intros j Hj. by apply Hapart.
  - intros j Hj. by apply (Hapart HAL_TEST_SRNG_DST_STATUS).
  - intros i j Hi Hj Heq.
    destruct (nr_mapped _ _ _ _ _ Hd 96%nat ltac:(lia) (Z.to_nat i) ltac:(lia)) as [x Hx].
    rewrite Z2Nat.id, <-Heq, (db_mem _ _ _ _ (nr_block _ _ _ _ _ He)) in Hx by lia. done.
  - exists []. split; [done|]. by intros j len.
Qed.

(** They are where [rx_home] says. *)
Lemma started_home hal hal' pipe d e s s2 w0 w1 w wb :
  hal_ready hal w0 →
  new_ring 32 (32 * (4 * 3) + 8) d w0 w1 → new_ring 32 (32 * (4 * 2) + 8) e w1 w →
  rings_registered hal hal' d e s s2 w wb →
  rx_home mmio_addr hal' (RxView (started_pipe pipe d e) (started_dst d) (started_status e) s s2).
Proof.
  intros Hr0 Hd He [(old & Hs) _ _ Hk _ (l & wa & log & old2 & Hs2 & Hr1 & _)].
  set (hal1 := hal <| hal_srng_list := l |>) in *.
  assert (hal_ready hal w1) as Hrw by by apply (new_ring_params hal HAL_TEST_SRNG_DST 32 d w0 w1).
  destruct (nr_entries _ _ _ _ _ Hd) as [Hdn _]. destruct (nr_entries _ _ _ _ _ He) as [Hen _].
  destruct (setup_srng_fields big mmio_addr hal HAL_TEST_SRNG_DST (test_params d) old)
    as (_ & _ & _ & _ & Fz & Fb & _).
  destruct (setup_srng_fields big mmio_addr hal1 HAL_TEST_SRNG_DST_STATUS (test_params e) old2)
    as (_ & _ & _ & _ & Gz & Gb & _).
  pose proof (setup_srng_pointers big mmio_addr hal HAL_TEST_SRNG_DST (test_params d) old)
    as (_ & _ & _ & Ht & _). rewrite (proj1 (rdp_ptr hal _ _ Hr0)) in Ht.
  pose proof (setup_srng_pointers big mmio_addr hal1 HAL_TEST_SRNG_DST_STATUS (test_params e) old2)
    as (_ & _ & _ & Hh & _). rewrite (proj1 (rdp_ptr hal1 _ _ Hr1)) in Hh.
  destruct (hal_kept_fields _ _ Hk) as (_ & _ & Hv & _).
  assert (∀ t, rdp_word hal' t = rdp_word hal t) as Hw by (intros; unfold rdp_word; by rewrite Hv).
  split; cbn [v_dst v_status v_s v_s2]; rewrite ?Hw; subst s s2; rewrite ?Fz, ?Gz, ?Fb, ?Gb;
    try setoid_rewrite Hw; [done|exact Ht|exact Hh|..]; cbn [par_ring_base_vaddr par_num_entries test_params];
    rewrite ?Hdn, ?Hen.
  - intros t j Hj. apply not_eq_sym. by apply (new_ring_apart hal t HAL_TEST_SRNG_DST 32 d w0 w1).
  - intros t j Hj. apply not_eq_sym. by apply (new_ring_apart hal t HAL_TEST_SRNG_DST_STATUS 32 e w1 w).
  - rewrite (hp_reg_addr big mmio_addr hal HAL_TEST_SRNG_DST _ _ eq_refl). unfold HAL_SRNG_REG_GRP_R2.
    rewrite hal_srng_reg_base_add by (cbn; lia). change (HAL_SRNG_REG_R_GROUP_OFFSET 0) with 0. lia.
Qed.

(** The rings of a new pipe start the receive path: nothing is posted and
    nothing is reported. *)
Lemma dst_register_inv hal hal' st pipe d e s s2 store w0 w1 w wb :
  hal_ready hal w0 → st_pipes st = [pipe] → 0 ≤ pipe_buf_sz pipe →
  new_ring 32 (32 * (4 * 3) + 8) d w0 w1 → new_ring 32 (32 * (4 * 2) + 8) e w1 w →
  rings_registered hal hal' d e s s2 w wb →
  let pipe' := started_pipe pipe d e in
  rx_inv store (w_map w) 0 (DstPriv hal' (put_pipe st 0 pipe') store) wb
    (RxView pipe' (started_dst d) (started_status e) s s2) [] [] 0 0.
Proof.
  intros Hr0 Hp Hbuf Hd He Hreg pipe'.
  pose proof (started_region _ _ _ _ _ _ _ _ _ _ Hr0 Hd He Hreg) as Hdev.
  pose proof (started_home _ _ pipe _ _ _ _ _ _ _ _ Hr0 Hd He Hreg) as Hhome.
  destruct Hreg as [(old & Hs) [Hl8 Hl1] _ _ Hsame Hst].
  destruct Hst as (l & wa & log & old2 & Hs2 & Hr1 & Hpar & Hregs & Hinit & Hwb).
  set (hal1 := hal <| hal_srng_list := l |>) in *.
  destruct (nr_entries _ _ _ _ _ Hd) as [Hdn _]. destruct (nr_entries _ _ _ _ _ He) as [Hen _].
  destruct (setup_srng_fields big mmio_addr hal HAL_TEST_SRNG_DST (test_params d) old)
    as (_ & _ & Fe & Fn & Fz & Fb & _ & Fl & _). rewrite <-Hs in Fe, Fn, Fz, Fb, Fl.
  destruct (setup_srng_fields big mmio_addr hal1 HAL_TEST_SRNG_DST_STATUS (test_params e) old2)
    as (_ & _ & _ & Gn & _). rewrite <-Hs2 in Gn.
  destruct (new_ring_slots 32 5 _ _ _ _ eq_refl ltac:(lia) Hd) as [Hslots Hlive].
  split; cbn [dp_st dp_hal dp_skbs v_pipe v_dst v_status v_s v_s2]; try done.
  - cbn. by rewrite Hp.
  - rewrite Fl, Fe, Fn, Gn. cbn. rewrite Hdn, Hen. done.
  - apply Source.initial_inv. rewrite Hwb.
    eapply (second_setup_frame hal1 HAL_TEST_SRNG_DST HAL_TEST_SRNG_DST_STATUS); try done;
      [by exists (test_params d)|].
    intros j Hj. eapply (new_ring_apart hal _ HAL_TEST_SRNG_DST_STATUS 32 e w1); [|lia|exact He|].
    + by apply (new_ring_params hal HAL_TEST_SRNG_DST 32 d w0 w1).
    + cbn in Hj. by rewrite Hen in Hj.
  - rewrite Hs2. by eapply setup_status_ok; [| |rewrite Hwb].
  - intros j Hj.
    pose proof (setup_srng_pointers big mmio_addr hal1 HAL_TEST_SRNG_DST_STATUS (test_params e) old2)
      as (_ & _ & _ & Hword & _). rewrite <-Hs2, (proj1 (rdp_ptr hal1 _ HAL_TEST_SRNG_DST_STATUS Hr1)) in Hword.
    rewrite Hword, Fb. rewrite Fz in Hj. cbn in Hj |- *. rewrite Hdn in Hj.
    eapply (new_ring_apart hal HAL_TEST_SRNG_DST_STATUS HAL_TEST_SRNG_DST 32 d w0); [done|lia|exact Hd|exact Hj].
  - fold (tp_reg mmio_addr s2). rewrite Hs2, tp_reg_addr by done. rewrite Hs.
    rewrite (hp_reg_addr big mmio_addr hal HAL_TEST_SRNG_DST _ _ eq_refl). unfold HAL_SRNG_REG_GRP_R2.
    rewrite hal_srng_reg_base_add by (cbn; lia). change (HAL_SRNG_REG_R_GROUP_OFFSET 0) with 0.
    cbn. lia.
  - destruct (nr_indices _ _ _ _ _ Hd) as [Hsw Hwi]. destruct Hslots as [H1 H2 H3 H4 H5 H6].
    rewrite Hsw in *. rewrite Hwi in *. by split.
  - cbn. by rewrite Hdn.
  - change (tr_skb (started_dst d)) with (tr_skb d).
    rewrite Hlive, (same_map _ _ Hsame). constructor.
  - exists [], []. split; [done|constructor].
Qed.

(** [alloc_pipes] with the receive configuration: no source ring, two rings of
    32 entries. *)
Lemma dst_alloc_done st pipe w : st_pipes st = [pipe] → pipe_emptied pipe = pipe →
  st_config_val st = srng_test_dst_configs →
  ∃ ret pipe' w', alloc_pipes st pipe_ids w = Done ((ret, put_pipe st 0 pipe'), w') ∧
    owns (test_owned (put_pipe st 0 pipe')) w w' ∧ w_map w' = w_map w ∧
    pipe_buf_sz pipe' = 2048 ∧ pipe_intr_tq pipe' = pipe_intr_tq pipe ∧
    (ret = - ENOMEM ∨ ret = 0 ∧ pipe_src_ring pipe' = None ∧ pipe_num pipe' = 0 ∧ ∃ d e w1,
       pipe_dst_ring pipe' = Some d ∧ pipe_status_ring pipe' = Some e ∧
       new_ring 32 (32 * (4 * 3) + 8) d w w1 ∧ new_ring 32 (32 * (4 * 2) + 8) e w1 w').
Proof.
  intros Hp Hempty Hcfg.
  destruct (alloc_pipe_cases st 0 pipe (SrngTestAttr 0 0 2048 32) [] w w)
    as (ret & pipe' & w' & E & Ho & Hm & _ & Hb & Ht & Hr);
    [by rewrite Hp|done|by rewrite Hcfg|by split|apply owns_nil|].
  exists ret, pipe', w'. split_and!; [| |done|done|done|].
  - cbn [pipe_ids alloc_pipes seq SRNG_TEST_PIPE_COUNT_MAX]. rewrite (M_bind_done _ _ _ _ _ E).
    destruct Hr as [->|(-> & _)]; [done|by rewrite decide_False by (intros H; by apply H)].
  - rewrite app_nil_r in Ho. unfold test_owned. cbn. rewrite Hp. cbn. by rewrite app_nil_r.
  - destruct Hr as [->|(-> & _ & _ & Hn & wa & wb & [Ha ->] & (d & Hd & Hnd) & e & He & Hne)];
      [by left|right]. split_and!; try done. by exists d, e, wb.
Qed.

(** The error labels of initialisation. *)
Lemma dst_init_failed_done p ret base w : st_config_ptr (dp_st p) ≠ 0 →
  st_config_ptr (dp_st p) ∉ w_heap base →
  owns (test_owned (dp_st p)) (heap_world (st_config_ptr (dp_st p)) base) w → w_map w = w_map base →
  ∃ w', dst_init_failed p ret w = Done ((ret, p <| dp_st := dp_st p <| st_pipes :=
      pipe_emptied <$> st_pipes (dp_st p) |> |>), w') ∧ same_resources base w'.
Proof.
  intros Hc Hcn Ho Hm. rewrite <-(app_nil_r (test_owned _)) in Ho.
  destruct (free_pipes_owns _ [] _ _ Ho) as (w2 & E2 & Ho2 & M2 & _).
  destruct (owns_nil_inv _ _ Ho2) as (Hh & Hd & Hdom).
  eexists. split.
  - unfold dst_init_failed. rewrite (M_bind_done _ _ _ _ _ E2).
    rewrite (M_bind_done _ _ _ _ _ (kfree_eq _ w2 Hc ltac:(rewrite Hh; cbn; set_solver))). reflexivity.
  - split; cbn; [|done|by rewrite M2|done]. rewrite Hh. cbn. set_solver.
Qed.
End start.

(** The state before the first start: one pipe without rings. *)
Definition rx_down `{SA : SkbApi} (p : dst_priv) : Prop :=
  ∃ pipe, st_pipes (dp_st p) = [pipe] ∧ pipe_emptied pipe = pipe.

Section init.
Context `{KO : KernelOk} `{BO : BitsOk} `{SO : SkbOk} (big : bool) (mmio_addr : Z).

(** A completed start is the state [rx_up]. *)
Lemma rx_up_intro base p0 p w V a k s0 c : kept_but_timer p0 p →
  rx_inv mmio_addr s0 (w_map base) 0 p w V a [] k 0 →
  length (st_pipes (dp_st p0)) = 1%nat → st_pipes_count (dp_st p0) = 1 → st_lock (dp_st p) = false →
  st_config_ptr (dp_st p0) = c → c ≠ 0 → c ∉ w_heap base →
  owns (test_owned (dp_st p0)) (heap_world c base) w →
  rx_up mmio_addr base s0 p w V a [] k 0.
Proof.
  intros [tm [Ho Hc _ Hn Hl _ _ _]] Hinv Hlen Hcount Hlock <- Hc0 Hcn Hown. cbn in *.
  split; [done| |done|rewrite Hc; by split|rewrite Hc, Ho; done].
  split; [|congruence]. pose proof (ri_pipe _ _ _ _ _ _ _ _ _ _ _ Hinv) as Hp.
  rewrite Hlen in Hl. destruct (st_pipes (dp_st p)) as [|x [|]]; [done| |done]. by injection Hp as ->.
Qed.

(** The first filling of the ring ends in [rx_up]. *)
Lemma dst_first_fill p hal' c st pipe1 d e s s2 w wa w1 wb :
  hal_ready (dp_hal p) (heap_world c w) → st_pipes st = [pipe1] → pipe_buf_sz pipe1 = 2048 →
  pipe_dst_ring pipe1 = Some d → pipe_status_ring pipe1 = Some e → pipe_fixed pipe1 = (false, 0) →
  new_ring 32 (32 * (4 * 3) + 8) d (heap_world c w) wa → new_ring 32 (32 * (4 * 2) + 8) e wa w1 →
  rings_registered big mmio_addr (dp_hal p) hal' d e s s2 w1 wb →
  st_lock st = false → st_pipes_count st = 1 → st_config_ptr st = c → c ≠ 0 → c ∉ w_heap w →
  owns (test_owned st) (heap_world c w) w1 → w_map w1 = w_map w →
  ∃ p' w' V a k s0, wireless_simu_test_dst_post_buf mmio_addr
      (p <| dp_hal := hal' |> <| dp_st := put_pipe st 0 (started_pipe pipe1 d e) |>) wb = Done (p', w') ∧
    rx_up mmio_addr w s0 p' w' V a [] k 0 ∧
    pipe_fixed (v_pipe V) = (false, 0) ∧ (s0 = dp_skbs p ∨ leaked (dp_skbs p) s0) ∧
    (k = 30 ∨ is_Some (st_rx_replenish_retry (dp_st p'))) ∧ hal_kept (dp_hal p) (dp_hal p').
Proof.
  intros Hr1 Hp1 Hbuf Hd He Htq Hnd Hne Hreg Hlock Hcount Hcfg Hc Hcn Ho Hm.
  set (p2 := p <| dp_hal := hal' |> <| dp_st := put_pipe st 0 (started_pipe pipe1 d e) |>).
  assert (0 ≤ pipe_buf_sz pipe1) as Hbuf' by lia.
  pose proof (dst_register_inv big mmio_addr _ _ st pipe1 d e s s2 (dp_skbs p) _ wa w1 wb
    Hr1 Hp1 Hbuf' Hnd Hne Hreg) as Hinv. change (DstPriv _ _ _) with p2 in Hinv. cbv zeta in Hinv.
  destruct (post_buf_done mmio_addr p2 wb _ _ _ _ _ _ _ Hinv Hlock Hcount)
    as (p3 & w3 & V & a & k & s0 & E3 & Hinv3 & Hlock3 & _ & Hkept & Hsame3 & _ & Href).
  exists p3, w3, V, a, k, s0. split; [done|].
  assert (test_owned (dp_st p2) = test_owned st) as Hown.
  { eapply put_pipe_owned; [by rewrite Hp1|]. unfold pipe_owned. cbn. by rewrite Hd, He. }
  assert (rx_up mmio_addr w s0 p3 w3 V a [] k 0) as Hup.
  { rewrite Hm in Hinv3. eapply (rx_up_intro w p2); try done; [cbn; by rewrite Hp1|].
    rewrite Hown. eapply owns_blocks; [|exact Hsame3]. eapply owns_same; [done|apply Hreg]. }
  assert (hal_kept (dp_hal p) (dp_hal p3)) as Hhk.
  { destruct Hkept as [tm []]. etrans; [apply Hreg|]. by split. }
  split; [done|]. split; [|destruct Href as [|k s0' []]].
  - destruct Hkept as [tm Hkept]. pose proof (dk_pipes _ _ Hkept) as Ht.
    destruct (ru_pipes _ _ _ _ _ _ _ _ _ _ Hup) as [Hps _]. rewrite Hps in Ht. cbn in Ht.
    rewrite Hp1 in Ht. injection Ht as Ha Hb. unfold pipe_fixed in *. rewrite Ha, Hb. exact Htq.
  - split; [by left|]. split; [|done]. left. cbn. destruct (nr_entries _ _ _ _ _ Hnd). lia.
  - split; [by left|]. split; [|done]. right. by eexists.
  - split; [by right|]. split; [|done]. right. by eexists.
Qed.

(** What a start that ran out of memory leaves: no ring, and the address of
    the configuration it freed. *)
Record rx_dangling (p : dst_priv) (w : world) : Prop := {
  rd_config : st_config_ptr (dp_st p) ≠ 0 ∧ st_config_ptr (dp_st p) ∉ w_heap w;
  rd_lock : st_lock (dp_st p) = false;
  rd_count : st_pipes_count (dp_st p) = 1;
  rd_pipe : ∃ pipe, st_pipes (dp_st p) = [pipe] ∧ pipe_emptied pipe = pipe ∧
    pipe_buf_sz pipe ≠ 0 ∧ pipe_intr_tq pipe = false
}.

Lemma dst_init_cases p w :
  hal_ready (dp_hal p) w → rx_down p →
  ∃ ret p' w', wireless_simu_hal_srng_dst_test_init big mmio_addr p w = Done ((ret, p'), w') ∧
    ((ret = - ENOBUFS ∧ p' = p <| dp_st := dp_st p <| st_config_ptr := 0 |> |> ∨
      ret = - ENOMEM ∧ rx_dangling p' w') ∧
       same_resources w w' ∧ dp_skbs p' = dp_skbs p ∧ dp_hal p' = dp_hal p ∨
     ret = 0 ∧ ∃ V a k s0, rx_up mmio_addr w s0 p' w' V a [] k 0 ∧
       pipe_fixed (v_pipe V) = (false, 0) ∧ (s0 = dp_skbs p ∨ leaked (dp_skbs p) s0) ∧
       (k = 30 ∨ is_Some (st_rx_replenish_retry (dp_st p'))) ∧ hal_kept (dp_hal p) (dp_hal p')).
Proof.
  intros Hr (pipe & Hp & Hempty). unfold wireless_simu_hal_srng_dst_test_init.
  destruct (kmalloc_cases (sizeof_srng_test_attr * Z.of_nat (length srng_test_dst_configs)) w)
    as [E|(c & Hc & Hcn & E)]; rewrite (M_bind_done _ _ _ _ _ E).
  { rewrite decide_True by done. eexists (- ENOBUFS), _, (tick w). split; [done|]. left.
    split_and!; [by left|done..]. }
  rewrite decide_False by done. fold (heap_world c w).
  match goal with |- context [alloc_pipes ?s _] => set (st := s) end.
  destruct (dst_alloc_done st (pipe <| pipe_intr_tq := false |>) (heap_world c w))
    as (ret & pipe1 & w1 & E1 & Ho & Hm & Hbuf & Htq & Hret);
    [cbn; by rewrite Hp|clear -Hempty; destruct pipe; cbn in *; congruence|done|].
  rewrite (M_bind_done _ _ _ _ _ E1).
  destruct Hret as [->|(-> & Hsrc & Hnum & d & e & wa & Hd & He & Hnd & Hne)].
  { rewrite decide_True by done.
    destruct (dst_init_failed_done (p <| dp_st := put_pipe st 0 pipe1 |>) (- ENOMEM) w w1)
      as (w' & E2 & Hsame); [done..|].
    rewrite E2. eexists (- ENOMEM), _, w'. split; [done|]. left. split_and!; [|done..].
    right. split; [done|]. split; cbn; [split; [done|by rewrite (same_heap _ _ Hsame)]|done|done|].
    exists (pipe_emptied pipe1). rewrite Hp. split_and!; [done..| |done].
    cbn. by rewrite Hbuf. }
  rewrite decide_False by (intros H; by apply H).
  assert (hal_ready (dp_hal p) (heap_world c w)) as Hr1
    by (apply (hal_ready_mono (dp_hal p) w); [done|done|]; apply union_subseteq_r).
  assert (st_pipes (put_pipe st 0 pipe1) = [pipe1]) as Hp1 by (cbn; by rewrite Hp).
  destruct (dst_register_eq big mmio_addr (dp_hal p) _ pipe1 d e _ wa w1 Hr1 Hp1 Hsrc Hd He Hnd Hne)
    as (hal' & s & s2 & wb & E2 & Hreg).
  rewrite (M_bind_done _ _ _ _ _ E2).
  destruct (dst_first_fill p hal' c (put_pipe st 0 pipe1) pipe1 d e s s2 w wa w1 wb)
    as (p3 & w3 & V & a & k & s0 & E3 & H); try done;
    [unfold pipe_fixed; by rewrite Htq, Hnum|].
  exists 0, p3, w3. split; [by rewrite (M_bind_done _ _ _ _ _ E3)|right]. split; [done|by exists V, a, k, s0].
Qed.
(** C21.  Starting the receive path succeeds completely or takes nothing.  On a
    ready HAL [wireless_simu_hal_srng_dst_test_init] never faults.  It returns
    -ENOBUFS or -ENOMEM with the heap, the coherent regions, the mapped memory,
    the mappings and the buffers as they were; or 0 with the receive path in
    the state [rx_up], where 30 buffers are posted or the retry timer is armed
    (a buffer whose mapping the kernel refused stays allocated). *)
Theorem dst_init_outcome p w :
  hal_ready (dp_hal p) w → rx_down p →
  ∃ ret p' w', wireless_simu_hal_srng_dst_test_init big mmio_addr p w = Done ((ret, p'), w') ∧
    ((ret = - ENOBUFS ∨ ret = - ENOMEM) ∧ same_resources w w' ∧ dp_skbs p' = dp_skbs p ∨
     ret = 0 ∧ ∃ V a k s0, rx_up mmio_addr w s0 p' w' V a [] k 0 ∧
       pipe_fixed (v_pipe V) = (false, 0) ∧ (s0 = dp_skbs p ∨ leaked (dp_skbs p) s0) ∧
       (k = 30 ∨ is_Some (st_rx_replenish_retry (dp_st p')))).
Proof.
  intros Hr Hdown. destruct (dst_init_cases p w Hr Hdown) as (ret & p' & w' & E & H).
  exists ret, p', w'. split; [done|].
  destruct H as [[H (Hsame & Hs & _)]|[? (V & a & k & s0 & ? & ? & ? & ? & _)]]; [left|right; by split; [|exists V, a, k, s0]].
  split; [|done]. destruct H as [[? _]|[? _]]; [by left|by right].
Qed.

(** C39.  Removal after a start that ran out of memory frees twice: the start
    frees [host_config] and keeps its address, the probe function ignores the
    error, and [wireless_simu_hal_srng_dst_test_deinit] frees it again. *)
Theorem dst_failed_start_double_free p w p' w' :
  hal_ready (dp_hal p) w → rx_down p →
  wireless_simu_hal_srng_dst_test_init big mmio_addr p w = Done ((- ENOMEM, p'), w') →
  wireless_simu_hal_srng_dst_test_deinit mmio_addr p' w' = Fault BadFree.
Proof.
  intros Hr Hdown E. destruct (dst_init_cases p w Hr Hdown) as (ret & p1 & w1 & E1 & H).
  rewrite E in E1. injection E1 as <- <- <-.
  destruct H as [[[[? _]|[_ Hd]] _]|[? _]]; [done| |done].
  destruct Hd as [[Hc Hcn] Hlock Hcount (pipe & Hp & Hempty & Hbuf & Htq)].
  assert (pipe_dst_ring pipe = None) as Hdst by (clear -Hempty; by destruct pipe; injection Hempty).
  unfold wireless_simu_hal_srng_dst_test_deinit, lock_acquire. rewrite Hcount, Hlock.
  rewrite (M_bind_done _ _ w' true w') by done. change (seq 0 (Z.to_nat 1)) with [0%nat].
  rewrite (M_bind_done _ _ w' (set_lock p' true) w').
  2: { apply for_one. unfold tasklet_kill, get_pipe. cbn. by rewrite Hp, (M_bind_done _ _ _ _ _ eq_refl), Htq. }
  rewrite (M_bind_done _ _ w' (set_lock p' true) w').
  2: { apply for_one. unfold wireless_simu_hal_srng_dst_test_cleanuprx, get_pipe. cbn.
    by rewrite Hp, (M_bind_done _ _ _ _ _ eq_refl), Hdst, decide_True. }
  destruct (free_pipes_owns (dp_st (set_lock p' true)) [] w' w') as (w2 & E2 & Ho2 & _).
  { rewrite app_nil_r. unfold test_owned. cbn. rewrite Hp, <-Hempty. apply owns_nil. }
  destruct (owns_nil_inv _ _ Ho2) as (Hh & _).
  rewrite (M_bind_done _ _ _ _ _ E2). apply M_bind_fault.
  unfold kfree. cbn. by rewrite decide_False, decide_False by (rewrite ?Hh; done).
Qed.
End init.
