(* ===== verification/RxTrace.v ===== *)
(** * The receive path in motion

    The receive path from its start to its removal, with the device and the
    kernel acting in any order: the device takes posted buffers and reports
    filled ones, the tasklet and the retry timer run
    (src/driver/driver_wireless/wireless_hal.c,
    [wireless_simu_hal_srng_dst_tasklet] and
    [wireless_simu_test_dst_rx_replenish_retry]). *)

From S2P Require Import Prelude Kernel Bits HalTypes Hif HalRing RingProtocol HalSetup HalInit Skb.
From S2P Require Import SrngTest SrngSend PipeLife SrngTestRun DstTest RxRing RxRun RxLife RxStart.

(** The pipe's two rings in [srng_list]. *)
Definition dst_srng `{SA : SkbApi} (p : dst_priv) : option hal_srng :=
  pipe ← st_pipes (dp_st p) !! 0%nat; ring ← pipe_dst_ring pipe;
  hal_srng_list (dp_hal p) !! Z.to_nat (tr_hal_ring_id ring).
Definition status_srng `{SA : SkbApi} (p : dst_priv) : option hal_srng :=
  pipe ← st_pipes (dp_st p) !! 0%nat; ring ← pipe_status_ring pipe;
  hal_srng_list (dp_hal p) !! Z.to_nat (tr_hal_ring_id ring).

(** The device writes the entry [d] at [hp] and moves its head pointer on. *)
Definition reported (s : hal_srng) (hp : Z) (d : list Z) (w : world) : world :=
  w <| w_mem := <[dst_hp_addr (srng_dst s) := (hp + srng_entry_size s) mod srng_ring_size s]>
         (write_words (srng_ring_base_vaddr s + 4 * hp) d (w_mem w)) |>.

Section trace.
Context `{KO : KernelOk} `{BO : BitsOk} `{SO : SkbOk} (mmio_addr : Z).

(** One step of the system; the number counts the buffers the device has taken
    and not reported. *)
Inductive rx_event : dst_priv * world * Z → dst_priv * world * Z → Prop :=
  | ev_take p w h s hp tp :
      dst_srng p = Some s →
      mmio_last (w_mmio w) (Source.hp_reg mmio_addr s) = Some hp →
      w_mem w !! src_tp_addr (srng_src s) = Some tp → hp ≠ tp →
      rx_event (p, w, h)
        (p, w <| w_mem := <[src_tp_addr (srng_src s) :=
               (tp + srng_entry_size s) mod srng_ring_size s]> (w_mem w) |>, h + 1)
  | ev_report p w h s hp len d :
      status_srng p = Some s → 0 < h → 0 < len < 2 ^ 32 →
      w_mem w !! dst_hp_addr (srng_dst s) = Some hp →
      Z.of_nat (length (len :: d)) = srng_entry_size s →
      mapped (w_mem w) (srng_ring_base_vaddr s + 4 * hp) (length (len :: d)) →
      rx_event (p, w, h) (p, reported s hp (len :: d) w, h - 1)
  | ev_tasklet p w h p' w' :
      wireless_simu_hal_srng_dst_tasklet mmio_addr p 0 w = Done (p', w') →
      rx_event (p, w, h) (p', w', h)
  | ev_timer p w h p' w' :
      is_Some (st_rx_replenish_retry (dp_st p)) →
      wireless_simu_test_dst_rx_replenish_retry mmio_addr p w = Done (p', w') →
      rx_event (p, w, h) (p', w', h).

(** The invariant of the running path; [tq]: is the tasklet scheduled?  At most
    [n] buffers have been left behind since the store was [s]. *)
Record rx_path (tq : bool) (base : world) (s : skbs) (n : nat) (x : dst_priv * world * Z) : Prop := {
  rr_up : ∃ V a t k r s0, rx_up mmio_addr base s0 x.1.1 x.1.2 V a t k r ∧
    bsteps leaked n s s0 ∧ pipe_fixed (v_pipe V) = (tq, 0) ∧
    Z.of_nat (length a) - Z.of_nat (length t) + x.2 ≤ k - r;
  rr_held : 0 ≤ x.2
}.
Definition rx_running (base : world) (s : skbs) (n : nat) (x : dst_priv * world * Z) : Prop :=
  rx_path false base s n x.

Abbreviation rx_inv := (rx_inv mmio_addr).

Lemma views id s0 m0 p w V a t k r : rx_inv s0 m0 0 p w V a t k r → id = 0%nat →
  dst_srng p = Some (v_s V) ∧ status_srng p = Some (v_s2 V).
Proof.
  intros [] ->. unfold dst_srng, status_srng. rewrite ri_pipe. cbn. rewrite ri_dst, ri_status. by split.
Qed.

(** The device takes the oldest buffer. *)
Lemma take_inv s0 m0 p w V a t k r hp tp : rx_inv s0 m0 0 p w V a t k r →
  let s := v_s V in
  mmio_last (w_mmio w) (Source.hp_reg mmio_addr s) = Some hp →
  w_mem w !! src_tp_addr (srng_src s) = Some tp → hp ≠ tp →
  let w' := w <| w_mem := <[src_tp_addr (srng_src s) :=
               (tp + srng_entry_size s) mod srng_ring_size s]> (w_mem w) |> in
  (∃ d, rx_inv s0 m0 0 p w' V a (t ++ [d]) k r) ∧ same_blocks w w'.
Proof.
  intros [] s Hreg Htp Hne w'. pose proof ri_inv as [Hst Hmap (P & C & Hc)]. cbn in Hst, Hmap, Hc.
  assert (∃ i, tp = srng_entry_size s * (i mod srng_num_entries s)) as [i Hi].
  { exists (Z.of_nat (length t)). pose proof (Source.ct_tp _ _ _ _ _ _ _ Hc) as H. fold s in H. congruence. }
  destruct (mapped_read (w_mem w) (Z.to_nat (srng_entry_size s)) (srng_ring_base_vaddr s + 4 * tp)) as [d Hd].
  { rewrite Hi. by apply Source.slot_mapped; [apply (Source.st_geo _ Hst)|]. }
  split.
  - exists d. split; try done.
    + eapply (Source.step_inv mmio_addr); [|exact ri_inv].
      by eapply (Source.step_take mmio_addr _ _ _ _ _ _ d Hreg Htp Hne (load_words_eq _ _ _ _ Hd)).
    + rewrite length_app. cbn. lia.
    + eapply status_ok_world; [done|]. cbn. rewrite lookup_insert_ne; [done|apply ri_device].
    + eapply status_region_frame; [apply same_shape_refl|apply (so_geo _ _ _ ri_status_ok)| |done].
      intros j Hj. cbn. rewrite lookup_insert_ne; [done|]. intros Heq. by eapply (sr_tail _ _ _ _ ri_device).
  - split; try done. cbn. rewrite dom_insert_L. apply subseteq_union_1_L, singleton_subseteq_l, elem_of_dom. eauto.
Qed.

(** Others at work: all that is mapped stays as it is, but for the tail pointer
    of the send test's ring; the register of the destination ring and the
    records of other rings stay too. *)
Lemma rx_inv_undisturbed s0 m0 p hal' w w' V a t k r : rx_inv s0 m0 0 p w V a t k r →
  dom (w_mem w') = dom (w_mem w) → w_map w' = w_map w →
  (∀ x, is_Some (w_mem w !! x) → x ≠ rdp_word (dp_hal p) HAL_TEST_SRNG → w_mem w' !! x = w_mem w !! x) →
  mmio_last (w_mmio w') (Source.hp_reg mmio_addr (v_s V)) =
    mmio_last (w_mmio w) (Source.hp_reg mmio_addr (v_s V)) →
  ring_changed (type_ring_id HAL_TEST_SRNG) (dp_hal p) hal' →
  rx_inv s0 m0 0 (p <| dp_hal := hal' |>) w' V a t k r.
Proof.
  intros [] Hdom Hmap Hm Hreg [Hk Hl]. pose proof ri_home as [[Hid Hid2] Ht Hh Hs Hs2 _].
  destruct (hal_kept_fields _ _ Hk) as (_ & _ & Hv & _).
  assert (∀ j, 0 ≤ j < srng_ring_size (v_s2 V) → is_Some (w_mem w !! (srng_ring_base_vaddr (v_s2 V) + 4 * j)) →
    w_mem w' !! (srng_ring_base_vaddr (v_s2 V) + 4 * j) = w_mem w !! (srng_ring_base_vaddr (v_s2 V) + 4 * j)) as Hslot2
    by (intros j Hj Hx; apply Hm; [done|by apply Hs2]).
  split; try done.
  - cbn. rewrite Hl; [done|]. by rewrite Hid.
  - cbn. rewrite Hl; [done|]. by rewrite Hid2.
  - pose proof ri_inv as [Hst Hmapped (P & C & [])]. cbn in Hst, Hmapped, ct_tp.
    eapply Source.inv_frame; [done|exact Hreg| | |exact ri_inv].
    + apply Hm; [by rewrite ct_tp|]. rewrite Ht. unfold rdp_word. cbn. lia.
    + intros j Hj. apply Hm; [|by apply Hs]. specialize (Hmapped (Z.to_nat j)).
      rewrite Z2Nat.id in Hmapped by lia. apply Hmapped. lia.
  - destruct ri_status_ok as [? ? ? ? ? (hp & Hhp & ?)]. split; try done. exists hp.
    rewrite Hm; [done|by rewrite Hhp|]. rewrite Hh. unfold rdp_word. cbn. lia.
  - destruct ri_device as [H0 H1 H2 H3 H4 (lens & Hn & Hrep)]. split; try done. exists lens.
    split; [done|]. intros j len Hj. destruct (Hrep j len Hj) as [Hw Hlen]. split; [|done].
    destruct (report_word_region (v_s2 V) (Z.of_nat j) (so_geo _ _ _ ri_status_ok)) as (o & Ho & Hor).
    rewrite Ho in Hw |- *. by rewrite Hslot2, Hw.
  - by eapply rx_home_shape; [exact ri_home|done|apply same_shape_refl|..].
  - by rewrite Hmap.
Qed.

(** The head pointer of a status ring is an entry. *)
Lemma status_head s w r hp : status_ok s w r → w_mem w !! dst_hp_addr (srng_dst s) = Some hp →
  ∃ i, 0 ≤ i < srng_num_entries s ∧ hp = srng_entry_size s * i ∧
    ring_used (srng_num_entries s) i (entry_index (srng_entry_size s) (dst_tp (srng_dst s))) = r ∧
    Source.slot s i = srng_ring_base_vaddr s + 4 * hp.
Proof.
  intros [Hg _ _ _ _ (hp' & Hm & (i & Hi & He) & Hu)] Hhp. assert (hp' = hp) as -> by congruence.
  rewrite He, entry_index_mul in Hu by (destruct Hg; lia).
  exists i. split_and!; try done; try lia. unfold Source.slot. rewrite Z.mod_small by lia. by rewrite He.
Qed.

(** A report does not touch what the host has to keep. *)
Lemma reported_other s hp d w x r : status_ok s w r → w_mem w !! dst_hp_addr (srng_dst s) = Some hp →
  Z.of_nat (length d) = srng_entry_size s →
  x ≠ dst_hp_addr (srng_dst s) →
  (∀ j, 0 ≤ j < srng_ring_size s → srng_ring_base_vaddr s + 4 * j ≠ x) →
  w_mem (reported s hp d w) !! x = w_mem w !! x.
Proof.
  intros Hok Hhp Hd Hx Hr. destruct (status_head _ _ _ _ Hok Hhp) as (i & Hi & _ & _ & Hs).
  cbn. rewrite lookup_insert_ne by done. rewrite <-Hs.
  apply push_frame; [apply (so_geo _ _ _ Hok)|done|]. intros j Hj Heq. by apply (Hr j).
Qed.

Lemma reported_status s hp d w r : status_ok s w r → w_mem w !! dst_hp_addr (srng_dst s) = Some hp →
  r + 1 ≤ srng_num_entries s - 1 → status_ok s (reported s hp d w) (r + 1).
Proof.
  intros Hok Hhp Hr. destruct (status_head _ _ _ _ Hok Hhp) as (i & Hi & He & Hu & _).
  pose proof Hok as [Hg Hd Hl Hk Ht _]. split; try done.
  pose proof (geo_entry _ Hg). pose proof (geo_num _ Hg).
  assert ((hp + srng_entry_size s) mod srng_ring_size s =
    srng_entry_size s * ((i + 1) mod srng_num_entries s)) as Hnext.
  { rewrite He, (geo_size _ Hg). replace (srng_entry_size s * i + srng_entry_size s)
      with (srng_entry_size s * (i + 1)) by lia. apply Zmult_mod_distr_l. }
  exists ((hp + srng_entry_size s) mod srng_ring_size s). split_and!.
  - cbn. apply lookup_insert_eq.
  - rewrite Hnext. by apply is_entry_next.
  - rewrite Hnext, entry_index_mul, ring_used_succ by lia. lia.
Qed.

Lemma reported_reports s s2 hp len d w r : status_region s s2 w r → status_ok s2 w r →
  w_mem w !! dst_hp_addr (srng_dst s2) = Some hp → 0 < len < 2 ^ 32 → 0 ≤ r →
  r + 1 ≤ srng_num_entries s2 - 1 → Z.of_nat (length (len :: d)) = srng_entry_size s2 →
  status_region s s2 (reported s2 hp (len :: d) w) (r + 1).
Proof.
  intros [H0 H1 H2 H3 H4 (lens & Hn & Hrep)] Hok Hhp Hlen Hr0 Hr Hd.
  split; try done. exists (lens ++ [len]). split; [rewrite length_app; cbn; lia|].
  pose proof (so_geo _ _ _ Hok) as Hg. pose proof (geo_entry _ Hg). pose proof (geo_num _ Hg).
  destruct (status_head _ _ _ _ Hok Hhp) as (i & Hi & He & Hu & Hs).
  set (t := entry_index (srng_entry_size s2) (dst_tp (srng_dst s2))) in *.
  assert (i = (t + r) mod srng_num_entries s2) as Hit.
  { unfold ring_used in Hu. rewrite <-Hu, Zplus_mod_idemp_r.
    replace (t + (i - t)) with i by lia. by rewrite Z.mod_small. }
  assert (∀ j, report_word s2 j = Source.slot s2 (t + j)) as Hw by done.
  intros j l Hj. cbn [reported w_mem update update_with].
  destruct (report_word_region s2 (Z.of_nat j) Hg) as (o & Ho & Hor).
  rewrite lookup_insert_ne by (rewrite Ho; intros Heq; by eapply H3).
  rewrite <-Hs.
  apply lookup_app_Some in Hj as [Hj|[Hj1 Hj2]].
  - destruct (Hrep j l Hj) as [Hl Hpos]. split; [|done]. rewrite <-Hl, Hw. apply write_words_ne.
    intros k Hk Heq. apply lookup_lt_Some in Hj.
    apply (Source.slots_disjoint s2 (t + Z.of_nat j) (t + r) 0 k Hg); [lia|lia|lia|].
    rewrite Z.add_0_r. rewrite Heq. unfold Source.slot. rewrite Hit, Z.mod_mod by lia. done.
  - apply list_lookup_singleton_Some in Hj2 as [Hz <-]. split; [|done].
    rewrite Hw. replace (t + Z.of_nat j) with (t + r) by lia.
    assert (Source.slot s2 (t + r) = Source.slot s2 i) as ->
      by (unfold Source.slot; rewrite Hit, Z.mod_mod by lia; done).
    cbn. rewrite write_words_ne by (intros; lia). rewrite lookup_insert_eq. f_equal.
    apply wrap_id; lia.
Qed.

(** The device reports a buffer it holds. *)
Lemma report_inv s0 m0 p w V a t k r hp len d : rx_inv s0 m0 0 p w V a t k r →
  let s := v_s2 V in
  Z.of_nat (length a) - Z.of_nat (length t) + 1 ≤ k - r → 0 < len < 2 ^ 32 →
  w_mem w !! dst_hp_addr (srng_dst s) = Some hp →
  Z.of_nat (length (len :: d)) = srng_entry_size s →
  mapped (w_mem w) (srng_ring_base_vaddr s + 4 * hp) (length (len :: d)) →
  rx_inv s0 m0 0 p (reported s hp (len :: d) w) V a t k (r + 1) ∧
  same_blocks w (reported s hp (len :: d) w).
Proof.
  intros Hinv s Hheld Hlen Hhp Hd Hmap. pose proof Hinv as [].
  pose proof (rs_count _ _ ri_slots) as Hk. 
  assert (dom (w_mem (reported s hp (len :: d) w)) = dom (w_mem w)) as Hdom.
  { cbn [reported w_mem update update_with]. rewrite dom_insert_L, dom_write_words by done.
    apply subseteq_union_1_L, singleton_subseteq_l, elem_of_dom. eauto. }
  pose proof ri_shape as (_ & _ & Hn1 & _). pose proof (sr_sizes _ _ _ _ ri_device) as Hsz.
  assert (Z.of_nat (length t) ≤ Z.of_nat (length a)) as Hta.
  { destruct ri_inv as [_ _ (P & C & [])]. cbn in *. lia. }
  assert (r + 1 ≤ srng_num_entries s - 1) as Hr by (subst s; lia).
  split; [|by split]. split; try done.
  - pose proof ri_inv as [Hst _ _]. cbn in Hst.
    eapply Source.inv_frame; [exact Hdom|done|..|exact ri_inv].
    + eapply reported_other; [done..|apply ri_device|]. by apply (sr_tail _ _ _ _ ri_device).
    + intros j Hj. eapply reported_other; [done..| |].
      * intros Heq. by apply (ri_apart j).
      * intros i Hi. by apply (sr_slots _ _ _ _ ri_device).
  - lia.
  - by apply reported_status.
  - lia.
  - by apply reported_reports; [..|lia|lia|].
Qed.

Lemma kept_hal p p' : kept_but_timer p p' → hal_kept (dp_hal p) (dp_hal p').
Proof. by intros [tm []]. Qed.

(** What the handlers and the device keep of [rx_up]. *)
Lemma rx_up_kept base s0 s0' p p' w w' V V' a a' t t' k k' r r' :
  rx_up mmio_addr base s0 p w V a t k r → kept_but_timer p p' →
  rx_inv s0' (w_map base) 0 p' w' V' a' t' k' r' → st_lock (dp_st p') = false → same_blocks w w' →
  rx_up mmio_addr base s0' p' w' V' a' t' k' r' ∧ pipe_fixed (v_pipe V') = pipe_fixed (v_pipe V).
Proof.
  intros [_ [Hps Hcount] _ [Hc Hcn] Ho] [tm [Ho' Hc' _ Hn Hl Ht _ _]] Hinv Hlock Hsame. cbn in *.
  assert (st_pipes (dp_st p') = [v_pipe V']) as Hps'.
  { pose proof (ri_pipe _ _ _ _ _ _ _ _ _ _ _ Hinv) as Hp. rewrite Hps in Hl.
    destruct (st_pipes (dp_st p')) as [|x [|]]; [done| |done]. by injection Hp as ->. }
  split.
  - split; [done|split; congruence|done|by rewrite Hc'|]. rewrite Ho', Hc'. by eapply owns_blocks.
  - rewrite Hps, Hps' in Ht. unfold pipe_fixed in *. injection Ht as Ha Hb. by rewrite Ha, Hb.
Qed.

Lemma refilled_leak n p s0 p' w k s0' : refilled n p s0 p' w k s0' → bsteps leaked 1 s0 s0'.
Proof. intros [|? ? [->|H]]; [constructor|constructor|]. by apply bsteps_once. Qed.

Lemma refilled_more j n p s s0 p' w k s0' : bsteps leaked j s s0 → refilled n p s0 p' w k s0' →
  bsteps leaked (S j) s s0'.
Proof. intros Hj H. rewrite <-Nat.add_1_r. eapply bsteps_trans; [exact Hj|by eapply refilled_leak]. Qed.

(** The tasklet is off the list when its function runs. *)
Lemma tasklet_eq tq p V w : st_pipes (dp_st p) = [v_pipe V] → pipe_fixed (v_pipe V) = (tq, 0) →
  wireless_simu_hal_srng_dst_tasklet mmio_addr p 0 w =
  wireless_simu_irq_hal_srng_dst_dma_test mmio_addr
    (set_pipe p 0 (v_pipe V <| pipe_intr_tq := false |>)) 0 w.
Proof.
  intros Hps Hf. unfold wireless_simu_hal_srng_dst_tasklet, get_pipe. rewrite Hps.
  rewrite (M_bind_done _ _ w (v_pipe V) w) by done. injection Hf as _ Hn. by rewrite Hn.
Qed.

(** Scheduling the tasklet, or taking it off the list. *)
Lemma rx_up_scheduled base s0 p w V a t k r tq :
  rx_up mmio_addr base s0 p w V a t k r →
  let pipe := v_pipe V <| pipe_intr_tq := tq |> in
  rx_up mmio_addr base s0 (set_pipe p 0 pipe) w (RxView pipe (v_dst V) (v_status V) (v_s V) (v_s2 V)) a t k r.
Proof.
  intros [[] [Hps Hcount] Hlock Hc Ho] pipe.
  split; [|split; [cbn; by rewrite Hps|done]|done|done|].
  - split; try done; [cbn; by rewrite Hps|].
    by eapply rx_home_shape; [exact ri_home|done|apply same_shape_refl|..].
  - revert Ho. unfold test_owned. cbn. by rewrite Hps.
Qed.

(** The same for the running path, with the resources as they were. *)
Lemma rx_up_undisturbed base s0 p hal' w w' V a t k r :
  rx_up mmio_addr base s0 p w V a t k r → same_resources w w' →
  (∀ x, is_Some (w_mem w !! x) → x ≠ rdp_word (dp_hal p) HAL_TEST_SRNG → w_mem w' !! x = w_mem w !! x) →
  mmio_last (w_mmio w') (Source.hp_reg mmio_addr (v_s V)) =
    mmio_last (w_mmio w) (Source.hp_reg mmio_addr (v_s V)) →
  ring_changed (type_ring_id HAL_TEST_SRNG) (dp_hal p) hal' →
  rx_up mmio_addr base s0 (p <| dp_hal := hal' |>) w' V a t k r.
Proof.
  intros [Hinv Hp Hl Hc Ho] Hsame Hm Hr Hk. split; [|done..|by eapply owns_same].
  eapply rx_inv_undisturbed; [exact Hinv|apply Hsame|apply Hsame|exact Hm|exact Hr|exact Hk].
Qed.

(** The start of the running path, and how it may stop. *)
Lemma rx_running_intro base s p w V a k s0 : rx_up mmio_addr base s0 p w V a [] k 0 →
  pipe_fixed (v_pipe V) = (false, 0) → s0 = s ∨ leaked s s0 → rx_running base s 1 (p, w, 0).
Proof.
  intros Hup Hf Hleak. split; [|done]. exists V, a, [], k, 0, s0. split_and!; [done| |done|].
  - destruct Hleak as [->|Hl]; [constructor|by apply bsteps_once].
  - pose proof (ri_given _ _ _ _ _ _ _ _ _ _ _ (ru_inv _ _ _ _ _ _ _ _ _ _ Hup)). cbn in *. lia.
Qed.

Lemma rx_running_stoppable base s n p w h : rx_running base s n (p, w, h) →
  ∃ s0, bsteps leaked n s s0 ∧ rx_stoppable base s0 p w.
Proof.
  intros [(V & a & t & k & r & s0 & Hup & Hleak & Hf & _) _]. injection Hf as Htq _.
  exists s0. split; [done|]. by eapply rx_up_stoppable.
Qed.

(** Both handlers keep the path running, and leave at most one buffer. *)
Lemma tasklet_running tq base s n p w h : rx_path tq base s n (p, w, h) →
  ∃ p' w', wireless_simu_hal_srng_dst_tasklet mmio_addr p 0 w = Done (p', w') ∧
    rx_path false base s (S n) (p', w', h) ∧ hal_kept (dp_hal p) (dp_hal p').
Proof.
  intros [(V & a & t & k & r & s0 & Hup & Hleak & Hf & Hgiven) Hh]. cbn in *.
  pose proof Hup as [_ [Hps _] _ _ _]. rewrite (tasklet_eq _ _ _ _ Hps Hf).
  apply (rx_up_scheduled _ _ _ _ _ _ _ _ _ false) in Hup. cbv zeta in Hup. revert Hup.
  injection Hf as _ Hn0. set (V0 := RxView _ _ _ _ _).
  clear Hps. change (dp_hal p) with (dp_hal (set_pipe p 0 (v_pipe V <| pipe_intr_tq := false |>))).
  generalize (set_pipe p 0 (v_pipe V <| pipe_intr_tq := false |>)). clear p. intros p Hup. assert (pipe_fixed (v_pipe V0) = (false, 0)) as Hf by (unfold pipe_fixed; cbn; by rewrite Hn0).
  assert (Z.of_nat (length a) - Z.of_nat (length t) + h ≤ k - r) as Hgiven0 by done.
  clearbody V0. clear Hn0 V. rename V0 into V. pose proof Hup as [Hinv [Hps _] Hlock _ _].
  destruct (sr_reports _ _ _ _ (ri_device _ _ _ _ _ _ _ _ _ _ _ Hinv)) as (lens & <- & Hrep).
  destruct (irq_done _ _ _ _ _ _ _ _ _ _ _ Hinv Hlock Hrep)
    as (p' & w' & V' & a' & k' & s0' & taken & kept & E & Hinv' & Hlock' & _ & _ & Hg & Hkept & Hsame & Href).
  destruct (rx_up_kept _ _ _ _ _ _ _ _ _ _ _ _ _ _ _ _ _ Hup Hkept Hinv' Hlock' Hsame) as [Hup' Hf'].
  exists p', w'. split; [done|]. split; [|by apply kept_hal]. split; [|done].
  exists V', a', t, k', 0, s0'. cbn. split_and!; try done.
  - by eapply refilled_more.
  - by rewrite Hf'.
  - apply grown_counts in Hg. lia.
Qed.

Lemma timer_running tq base s n p w h : rx_path tq base s n (p, w, h) →
  ∃ p' w', wireless_simu_test_dst_rx_replenish_retry mmio_addr p w = Done (p', w') ∧
    rx_path tq base s (S n) (p', w', h) ∧ hal_kept (dp_hal p) (dp_hal p').
Proof.
  intros [(V & a & t & k & r & s0 & Hup & Hleak & Hf & Hgiven) Hh]. cbn in *.
  pose proof Hup as [Hinv [Hps Hcount] Hlock _ _].
  destruct (post_buf_done mmio_addr (set_timer p None) w V a t k r s0 _
    (rx_inv_timer _ _ _ _ _ _ _ _ _ _ _ None Hinv) Hlock Hcount)
    as (p' & w' & V' & a' & k' & s0' & E & Hinv' & Hlock' & Hg & [tm Hkept] & Hsame & _ & Href).
  assert (kept_but_timer p p') as Hkept' by (by exists tm).
  destruct (rx_up_kept _ _ _ _ _ _ _ _ _ _ _ _ _ _ _ _ _ Hup Hkept' Hinv' Hlock' Hsame) as [Hup' Hf'].
  exists p', w'. split; [exact E|]. split; [|by apply kept_hal]. split; [|done].
  exists V', a', t, k', r, s0'. cbn. split_and!; try done.
  - by eapply refilled_more.
  - by rewrite Hf'.
  - apply grown_counts in Hg. lia.
Qed.

Lemma event_path tq base s n x y : rx_event x y → rx_path tq base s n x →
  (rx_path tq base s (S n) y ∨ rx_path false base s (S n) y) ∧ hal_kept (dp_hal x.1.1) (dp_hal y.1.1).
Proof.
  intros He Hr. destruct He as [p w h s1 hp tp Hs Hreg Htp Hne|p w h s1 hp len d Hs Hh Hlen Hhp Hd Hmap
    |p w h p' w' E|p w h p' w' _ E].
  - destruct Hr as [(V & a & t & k & r & s0 & Hup & Hleak & Hf & Hgiven) Hh]. cbn in *.
    pose proof Hup as [Hinv _ Hlock _ _]. destruct (views 0 _ _ _ _ _ _ _ _ _ Hinv eq_refl) as [H1 _].
    rewrite H1 in Hs. injection Hs as <-.
    destruct (take_inv _ _ _ _ _ _ _ _ _ _ _ Hinv Hreg Htp Hne) as [[d Hinv'] Hsame].
    destruct (rx_up_kept _ _ _ _ p _ _ _ _ _ _ _ _ _ _ _ _ Hup (kept_no_timer _ _ ltac:(done)) Hinv' Hlock Hsame) as [Hup' _].
    split; [left|done]. split; [|cbn; lia]. exists V, a, (t ++ [d]), k, r, s0.
    split_and!; [done|by apply bsteps_S|done|]. cbn. rewrite length_app. cbn. lia.
  - destruct Hr as [(V & a & t & k & r & s0 & Hup & Hleak & Hf & Hgiven) _]. cbn in *.
    pose proof Hup as [Hinv _ Hlock _ _]. destruct (views 0 _ _ _ _ _ _ _ _ _ Hinv eq_refl) as [_ H2].
    rewrite H2 in Hs. injection Hs as <-.
    destruct (report_inv _ _ _ _ _ _ _ _ _ hp len d Hinv) as [Hinv' Hsame]; [lia|done..|].
    destruct (rx_up_kept _ _ _ _ p _ _ _ _ _ _ _ _ _ _ _ _ Hup (kept_no_timer _ _ ltac:(done)) Hinv' Hlock Hsame) as [Hup' _].
    split; [left|done]. split; [|cbn; lia]. exists V, a, t, k, (r + 1), s0.
    split_and!; [done|by apply bsteps_S|done|]. cbn. lia.
  - destruct (tasklet_running _ _ _ _ _ _ _ Hr) as (p1 & w1 & E1 & Hr1 & Hk). rewrite E in E1.
    injection E1 as <- <-. split; [by right|done].
  - destruct (timer_running _ _ _ _ _ _ _ Hr) as (p1 & w1 & E1 & Hr1 & Hk). rewrite E in E1.
    injection E1 as <- <-. split; [by left|done].
Qed.

Lemma event_running base s n x y : rx_event x y → rx_running base s n x → rx_running base s (S n) y.
Proof. intros He Hr. by destruct (event_path _ _ _ _ _ _ He Hr) as [[] _]. Qed.
End trace.

Section lifecycle.
Context `{KO : KernelOk} `{BO : BitsOk} `{SO : SkbOk} (big : bool) (mmio_addr : Z).

(** Every state the events lead to is a running path. *)
Lemma trace_running n p w p1 w1 x :
  hal_ready (dp_hal p) w → rx_down p →
  wireless_simu_hal_srng_dst_test_init big mmio_addr p w = Done ((0, p1), w1) →
  nsteps (rx_event mmio_addr) n (p1, w1, 0) x → rx_running mmio_addr w (dp_skbs p) (S n) x.
Proof.
  intros Hr Hdown Einit Hrun.
  assert (rx_running mmio_addr w (dp_skbs p) 1 (p1, w1, 0)) as Hstart.
  { destruct (dst_init_cases big mmio_addr p w Hr Hdown) as (ret & p' & w' & E & H).
    rewrite Einit in E. injection E as <- <- <-.
    destruct H as [[[[? _]|[? _]] _]|(_ & V & a & k & s0 & Hup & Hf & Hleak & _)]; [done..|].
    by eapply rx_running_intro. }
  rewrite <-Nat.add_1_r. revert Hrun Hstart. generalize (p1, w1, 0) 1%nat x. intros y m z Hyz.
  revert m. induction Hyz as [|n y y1 z Hy _ IH]; intros m Hm; [done|]. cbn. rewrite <-Nat.add_succ_r.
  by eapply IH, event_running.
Qed.

(** C4.  The receive path is safe over its whole life.  After a successful
    [wireless_simu_hal_srng_dst_test_init], whatever the device takes and
    reports (any positive length, in any order with the host's work) and
    however often the tasklet and the retry timer run: the next tasklet and
    the next timer run without a fault - no invalid access, no double free, no
    unmapping of what is not mapped, no overrun of a ring or a buffer, no
    deadlock.  [wireless_simu_hal_srng_dst_test_deinit] gives back the heap, the
    coherent regions, the mapped memory and the mappings.  It frees every socket
    buffer in the slots and no other; and compared with the store before the
    start, what is there after [n] events are the old buffers, unchanged, and at
    most [n + 1] others, each a new buffer whose mapping the kernel refused.  A
    retry timer that is armed stays armed. *)
Theorem rx_lifecycle n p w p1 w1 p2 w2 h :
  hal_ready (dp_hal p) w → rx_down p →
  wireless_simu_hal_srng_dst_test_init big mmio_addr p w = Done ((0, p1), w1) →
  nsteps (rx_event mmio_addr) n (p1, w1, 0) (p2, w2, h) →
  (∃ p' w', wireless_simu_hal_srng_dst_tasklet mmio_addr p2 0 w2 = Done (p', w')) ∧
  (∃ p' w', wireless_simu_test_dst_rx_replenish_retry mmio_addr p2 w2 = Done (p', w')) ∧
  ∃ p' w', wireless_simu_hal_srng_dst_test_deinit mmio_addr p2 w2 = Done (p', w') ∧
    same_resources w w' ∧ rx_stopped p2 p' ∧
    dp_skbs p ⊆ dp_skbs p' ∧ (size (dp_skbs p') ≤ size (dp_skbs p) + S n)%nat ∧
    (∀ q b, dp_skbs p' !! q = Some b → dp_skbs p !! q = Some b ∨ refused q b) ∧
    test_owned (dp_st p') = [] ∧ st_lock (dp_st p') = false.
Proof.
  intros Hr Hdown Einit Hrun.
  pose proof (trace_running _ _ _ _ _ _ Hr Hdown Einit Hrun) as Hend.
  split_and!.
  - destruct (tasklet_running _ _ _ _ _ _ _ _ Hend) as (p' & w' & E & _). by exists p', w'.
  - destruct (timer_running _ _ _ _ _ _ _ _ Hend) as (p' & w' & E & _). by exists p', w'.
  - destruct Hend as [(V & a & t & k & r & s0 & Hup & Hleak & Hf & _) _]. cbn in *.
    injection Hf as Htq _.
    destruct (deinit_done mmio_addr _ _ _ _ _ _ _ _ _ Hup Htq)
      as (p' & w' & E & Hsame & Hs & Ho & Hl & Hst).
    destruct (leaked_spec _ _ _ Hleak) as (Hsub & Hsize & Hnew). subst s0.
    exists p', w'. by split_and!.
Qed.
End lifecycle.
