(* ===== verification/Ieee80211.v ===== *)
(** * Constants and predicates of the kernel's 802.11 headers

    The driver includes linux/ieee80211.h, net/mac80211.h and
    uapi/linux/nl80211.h; their constants and inline predicates are parameters
    (class [Ieee80211]), what the driver relies on about them is
    [Ieee80211Ok], and [linux_ieee80211] is an instance. *)

From S2P Require Import Prelude.

Class Ieee80211 := {
  (* cipher suite selectors *)
  WLAN_CIPHER_SUITE_WEP40 : Z;
  WLAN_CIPHER_SUITE_WEP104 : Z;
  WLAN_CIPHER_SUITE_TKIP : Z;
  WLAN_CIPHER_SUITE_CCMP : Z;
  WLAN_CIPHER_SUITE_CCMP_256 : Z;
  WLAN_CIPHER_SUITE_GCMP : Z;
  WLAN_CIPHER_SUITE_GCMP_256 : Z;
  (* lengths of the integrity code *)
  IEEE80211_CCMP_MIC_LEN : Z;
  IEEE80211_CCMP_256_MIC_LEN : Z;
  IEEE80211_GCMP_MIC_LEN : Z;
  (* predicates on the frame control field *)
  ieee80211_has_protected : Z → bool;
  ieee80211_is_mgmt : Z → bool;
  ieee80211_is_action : Z → bool;
  ieee80211_is_deauth : Z → bool;
  ieee80211_is_disassoc : Z → bool;
  ieee80211_is_probe_resp : Z → bool;
  (* flag of ieee80211_tx_info *)
  IEEE80211_TX_CTL_HW_80211_ENCAP : Z;
  (* receive filters *)
  FIF_ALLMULTI : Z;
  FIF_FCSFAIL : Z;
  FIF_PLCPFAIL : Z;
  FIF_BCN_PRBRESP_PROMISC : Z;
  FIF_CONTROL : Z;
  FIF_OTHER_BSS : Z;
  FIF_PSPOLL : Z;
  FIF_PROBE_REQ : Z;
  FIF_MCAST_ACTION : Z;
  (* access categories *)
  IEEE80211_AC_VO : Z;
  IEEE80211_AC_VI : Z;
  IEEE80211_AC_BE : Z;
  IEEE80211_AC_BK : Z;
  (* interface types *)
  NL80211_IFTYPE_STATION : Z;
  NL80211_IFTYPE_AP : Z;
  NL80211_IFTYPE_MONITOR : Z;
  IEEE80211_INVAL_HW_QUEUE : Z;
  sizeof_ieee80211_channel : Z;
}.

Class Ieee80211Ok `{I : Ieee80211} : Prop := {
  suites_distinct : NoDup [WLAN_CIPHER_SUITE_WEP40; WLAN_CIPHER_SUITE_WEP104;
    WLAN_CIPHER_SUITE_TKIP; WLAN_CIPHER_SUITE_CCMP; WLAN_CIPHER_SUITE_CCMP_256;
    WLAN_CIPHER_SUITE_GCMP; WLAN_CIPHER_SUITE_GCMP_256];
  mic_lens : IEEE80211_CCMP_MIC_LEN = 8 ∧ IEEE80211_CCMP_256_MIC_LEN = 16 ∧
    IEEE80211_GCMP_MIC_LEN = 16;
  acs_distinct : NoDup [IEEE80211_AC_VO; IEEE80211_AC_VI; IEEE80211_AC_BE; IEEE80211_AC_BK];
  iftypes_distinct : NoDup [NL80211_IFTYPE_STATION; NL80211_IFTYPE_AP; NL80211_IFTYPE_MONITOR];
  action_is_mgmt fc : ieee80211_is_action fc = true ∨ ieee80211_is_deauth fc = true ∨
    ieee80211_is_disassoc fc = true ∨ ieee80211_is_probe_resp fc = true →
    ieee80211_is_mgmt fc = true;
}.

(** The headers' values: a type/subtype test masks the frame control field. *)
#[local] Instance linux_ieee80211 : Ieee80211 := {
  WLAN_CIPHER_SUITE_WEP40 := 0x000FAC01;
  WLAN_CIPHER_SUITE_WEP104 := 0x000FAC05;
  WLAN_CIPHER_SUITE_TKIP := 0x000FAC02;
  WLAN_CIPHER_SUITE_CCMP := 0x000FAC04;
  WLAN_CIPHER_SUITE_CCMP_256 := 0x000FAC0A;
  WLAN_CIPHER_SUITE_GCMP := 0x000FAC08;
  WLAN_CIPHER_SUITE_GCMP_256 := 0x000FAC09;
  IEEE80211_CCMP_MIC_LEN := 8;
  IEEE80211_CCMP_256_MIC_LEN := 16;
  IEEE80211_GCMP_MIC_LEN := 16;
  ieee80211_has_protected fc := negb (Z.land fc 0x4000 =? 0);
  ieee80211_is_mgmt fc := Z.land fc 0x000c =? 0;
  ieee80211_is_action fc := Z.land fc 0x00fc =? 0x00d0;
  ieee80211_is_deauth fc := Z.land fc 0x00fc =? 0x00c0;
  ieee80211_is_disassoc fc := Z.land fc 0x00fc =? 0x00a0;
  ieee80211_is_probe_resp fc := Z.land fc 0x00fc =? 0x0050;
  IEEE80211_TX_CTL_HW_80211_ENCAP := 0x4000;
  FIF_ALLMULTI := 2;
  FIF_FCSFAIL := 4;
  FIF_PLCPFAIL := 8;
  FIF_BCN_PRBRESP_PROMISC := 16;
  FIF_CONTROL := 32;
  FIF_OTHER_BSS := 64;
  FIF_PSPOLL := 128;
  FIF_PROBE_REQ := 256;
  FIF_MCAST_ACTION := 512;
  IEEE80211_AC_VO := 0;
  IEEE80211_AC_VI := 1;
  IEEE80211_AC_BE := 2;
  IEEE80211_AC_BK := 3;
  NL80211_IFTYPE_STATION := 2;
  NL80211_IFTYPE_AP := 3;
  NL80211_IFTYPE_MONITOR := 6;
  IEEE80211_INVAL_HW_QUEUE := 255;
  sizeof_ieee80211_channel := 64;
}.

Lemma land_fc_mgmt fc k : Z.land k 0x000c = 0 → Z.land fc 0x00fc = k → Z.land fc 0x000c = 0.
Proof.
  intros Hk <-. rewrite <-Z.land_assoc in Hk. exact Hk.
Qed.

#[local] Instance linux_ieee80211_ok : Ieee80211Ok.
Proof.
  split; cbn.
  - apply (bool_decide_unpack _). by vm_compute.
  - done.
  - apply (bool_decide_unpack _). by vm_compute.
  - apply (bool_decide_unpack _). by vm_compute.
  - intros fc H. apply Z.eqb_eq.
    destruct H as [H|[H|[H|H]]]; apply Z.eqb_eq in H; by eapply land_fc_mgmt; [|exact H].
Qed.
