(* ===== verification/Dp.v ===== *)
(** * Encryption types of the data path

    Source: src/driver/driver_wireless/wireless_dptx.c, wireless_dprx.c and
    [enum hal_encrypt_type] of wireless_mac80211.h: from the cipher suite of a
    key to the device's encryption type and to the length of the integrity
    code the driver appends. *)

From S2P Require Import Prelude Ieee80211.

Inductive hal_encrypt_type :=
  | HAL_ENCRYPT_TYPE_WEP_40
  | HAL_ENCRYPT_TYPE_WEP_104
  | HAL_ENCRYPT_TYPE_TKIP_NO_MIC
  | HAL_ENCRYPT_TYPE_WEP_128
  | HAL_ENCRYPT_TYPE_TKIP_MIC
  | HAL_ENCRYPT_TYPE_WAPI
  | HAL_ENCRYPT_TYPE_CCMP_128
  | HAL_ENCRYPT_TYPE_OPEN
  | HAL_ENCRYPT_TYPE_CCMP_256
  | HAL_ENCRYPT_TYPE_GCMP_128
  | HAL_ENCRYPT_TYPE_AES_GCMP_256
  | HAL_ENCRYPT_TYPE_WAPI_GCM_SM4.

#[export] Instance hal_encrypt_type_eq_dec : EqDecision hal_encrypt_type.
Proof. solve_decision. Defined.

Section dp.
Context `{I : Ieee80211}.

Definition wireless_simu_dp_tx_get_encrypt_type (cipher : Z) : hal_encrypt_type :=
  if decide (cipher = WLAN_CIPHER_SUITE_WEP40) then HAL_ENCRYPT_TYPE_WEP_40
  else if decide (cipher = WLAN_CIPHER_SUITE_WEP104) then HAL_ENCRYPT_TYPE_WEP_104
  else if decide (cipher = WLAN_CIPHER_SUITE_TKIP) then HAL_ENCRYPT_TYPE_TKIP_MIC
  else if decide (cipher = WLAN_CIPHER_SUITE_CCMP) then HAL_ENCRYPT_TYPE_CCMP_128
  else if decide (cipher = WLAN_CIPHER_SUITE_CCMP_256) then HAL_ENCRYPT_TYPE_CCMP_256
  else if decide (cipher = WLAN_CIPHER_SUITE_GCMP) then HAL_ENCRYPT_TYPE_GCMP_128
  else if decide (cipher = WLAN_CIPHER_SUITE_GCMP_256) then HAL_ENCRYPT_TYPE_AES_GCMP_256
  else HAL_ENCRYPT_TYPE_OPEN.

Definition wireless_simu_dp_rx_crypto_mic_len (enctype : hal_encrypt_type) : Z :=
  match enctype with
  | HAL_ENCRYPT_TYPE_OPEN | HAL_ENCRYPT_TYPE_TKIP_NO_MIC | HAL_ENCRYPT_TYPE_TKIP_MIC => 0
  | HAL_ENCRYPT_TYPE_CCMP_128 => IEEE80211_CCMP_MIC_LEN
  | HAL_ENCRYPT_TYPE_CCMP_256 => IEEE80211_CCMP_256_MIC_LEN
  | HAL_ENCRYPT_TYPE_GCMP_128 | HAL_ENCRYPT_TYPE_AES_GCMP_256 => IEEE80211_GCMP_MIC_LEN
  | HAL_ENCRYPT_TYPE_WEP_40 | HAL_ENCRYPT_TYPE_WEP_104 | HAL_ENCRYPT_TYPE_WEP_128
  | HAL_ENCRYPT_TYPE_WAPI_GCM_SM4 | HAL_ENCRYPT_TYPE_WAPI => 0
  end.

(** The octets the driver appends for a cipher suite. *)
Definition suite_mic_len (cipher : Z) : Z :=
  wireless_simu_dp_rx_crypto_mic_len (wireless_simu_dp_tx_get_encrypt_type cipher).

(** The suites with an appended integrity code, with their lengths. *)
Definition mic_suites : list (Z * Z) :=
  [(WLAN_CIPHER_SUITE_CCMP, 8); (WLAN_CIPHER_SUITE_CCMP_256, 16);
   (WLAN_CIPHER_SUITE_GCMP, 16); (WLAN_CIPHER_SUITE_GCMP_256, 16)].

Lemma suite_mic_len_range `{IO : !Ieee80211Ok} cipher : 0 ≤ suite_mic_len cipher ≤ 16.
Proof.
  destruct mic_lens as (H1 & H2 & H3). unfold suite_mic_len.
  destruct (wireless_simu_dp_tx_get_encrypt_type cipher); cbn; lia.
Qed.

(** The two tables agree with the standard: composed, they append 8
    octets for CCMP-128, 16 for CCMP-256 and both GCMP suites, and none for any
    other selector. *)
Theorem suite_mic_len_standard `{IO : !Ieee80211Ok} cipher len :
  (suite_mic_len cipher = len ∧ len ≠ 0) ↔ (cipher, len) ∈ mic_suites.
Proof.
  destruct mic_lens as (H1 & H2 & H3). unfold suite_mic_len, mic_suites.
  rewrite !elem_of_cons, elem_of_nil, !pair_equal_spec. split.
  - intros [<- Hne]. revert Hne. unfold wireless_simu_dp_tx_get_encrypt_type.
    repeat case_decide; cbn; rewrite ?H1, ?H2, ?H3; auto 6.
  - pose proof suites_distinct as Hd. rewrite !NoDup_cons, !not_elem_of_cons in Hd.
    decompose [and] Hd. clear Hd. unfold wireless_simu_dp_tx_get_encrypt_type.
    intros [[-> ->]|[[-> ->]|[[-> ->]|[[-> ->]|[]]]]];
      repeat rewrite decide_False by congruence; rewrite decide_True by done; done.
Qed.
End dp.
