(* ===== verification/Wmi.v ===== *)
(** * Commands to the firmware: WMI over HTC

    Source: src/driver/driver_wireless/wireless_wmi.c, wireless_htc.c,
    wireless_ce.c and their headers.  A management frame travels inside a WMI
    command: an HTC header, the command header, the fixed part of the command,
    and the frame's first bytes in a TLV. *)

From S2P Require Import Prelude Kernel Bits HalTypes Hif Skb.

(* ------------------------------------------------------------------ *)
(** ** Layout *)

Definition WMI_MGMT_SEND_DOWNLD_LEN : Z := 64.
Definition WMI_TLV_CMD (grp_id : Z) : Z := Z.lor (grp_id ≪ 12) 1.
Definition WMI_GRP_MGMT : Z := 7.
Definition WMI_BCN_TX_CMDID : Z := WMI_TLV_CMD WMI_GRP_MGMT.
Definition WMI_MGMT_TX_SEND_CMDID : Z := WMI_BCN_TX_CMDID + 7.
Definition WMI_TAG_ARRAY_BYTE : Z := 17.
Definition WMI_TAG_MGMT_TX_SEND_CMD : Z := 422.

Record wireless_simu_htc_hdr := HtcHdr { htc_info : Z; htc_ctrl_info : Z }.
Record wmi_mgmt_send_cmd := WmiMgmtSendCmd {
  wmc_tlv_header : Z;
  wmc_vdev_id : Z;
  wmc_desc_id : Z;
  wmc_chanfreq : Z;
  wmc_paddr_lo : Z;
  wmc_paddr_hi : Z;
  wmc_frame_len : Z;
  wmc_buf_len : Z;
  wmc_tx_params_valid : Z
}.

Definition htc_hdr_words (h : wireless_simu_htc_hdr) : list Z := [htc_info h; htc_ctrl_info h].
Definition mgmt_send_cmd_words (c : wmi_mgmt_send_cmd) : list Z :=
  [wmc_tlv_header c; wmc_vdev_id c; wmc_desc_id c; wmc_chanfreq c; wmc_paddr_lo c;
   wmc_paddr_hi c; wmc_frame_len c; wmc_buf_len c; wmc_tx_params_valid c].

Definition sizeof_htc_hdr : Z := 4 * 2.
Definition sizeof_wmi_cmd_hdr : Z := 4.
Definition WMI_SKB_HEADROOM : Z := sizeof_wmi_cmd_hdr.
Definition sizeof_mgmt_send_cmd : Z := 4 * 9.
Definition TLV_HDR_SIZE : Z := 4.
Definition sizeof_wmi_tlv : Z := 4.

Section masks.
Context `{B : Bits}.
Definition HTC_HDR_ENDPOINTID : Z := GENMASK 7 0.
Definition HTC_HDR_PAYLOADLEN : Z := GENMASK 31 16.
Definition WMI_TLV_LEN : Z := GENMASK 15 0.
Definition WMI_TLV_TAG : Z := GENMASK 31 16.
Definition WMI_CMD_HDR_CMD_ID : Z := GENMASK 23 0.
End masks.

(** The bytes of a structure of [u32] members. *)
Definition words_bytes (big : bool) (ws : list Z) : list Z := ws ≫= word_bytes big.

(* ------------------------------------------------------------------ *)
(** ** State *)

(** The parts of [struct wireless_simu] the command path works on. *)
Record wmi_priv `{SA : SkbApi} := WmiPriv {
  wp_skbs : skbs;
  wp_htc_tx_lock : bool;
  wp_dev_flag : Z
}.
Arguments WmiPriv {_} _ _ _.
#[export] Instance eta_wmi_priv `{SA : SkbApi} : Eta wmi_priv :=
  MkEta (λ p, WmiPriv (wp_skbs p) (wp_htc_tx_lock p) (wp_dev_flag p)).

Definition WIRELESS_SIMU_DEV_FLAG_CRASH_FLUSH : Z := 0.

Section wmi.
Context `{K : Kernel} `{B : Bits} `{SA : SkbApi} (CONFIG_CPU_BIG_ENDIAN : bool).

(* ------------------------------------------------------------------ *)
(** ** HTC and CE *)

Definition wireless_simu_htc_alloc_skb (store : skbs) (size : Z) : M (Z * skbs) :=
  '(skb, store) ← dev_alloc_skb store (u32 (size + sizeof_htc_hdr));
  if decide (skb = 0) then mret (0, store)
  else store ← do_skb_reserve store skb sizeof_htc_hdr; mret (skb, store).

Definition wireless_simu_ce_send (p : wmi_priv) (skb : Z) : M Z := mret 0.

(** [hdr->htc_info]; the endpoint is 0. *)
Definition htc_hdr_info (payload : Z) : Z :=
  u32 (Z.lor (FIELD_PREP HTC_HDR_ENDPOINTID 0) (FIELD_PREP HTC_HDR_PAYLOADLEN payload)).

Definition wireless_simu_htc_send (p : wmi_priv) (skb : Z) : M (Z * wmi_priv) :=
  store ← do_skb_push (wp_skbs p) skb sizeof_htc_hdr;
  b ← get_skb store skb;
  let info := htc_hdr_info (skb_len (sb_buf b) - sizeof_htc_hdr) in
  store ← do_skb_write store skb 0 (replicate (Z.to_nat sizeof_htc_hdr) 0);
  store ← do_skb_write store skb 0 (word_bytes CONFIG_CPU_BIG_ENDIAN info);
  l ← lock_acquire (wp_htc_tx_lock p);
  store ← do_skb_write store skb 4 (word_bytes CONFIG_CPU_BIG_ENDIAN 0);
  l ← lock_release l;
  b ← get_skb store skb;
  paddr ← dma_map_single (k_skb_addr skb (sb_buf b)) (skb_len (sb_buf b));
  store ← set_cb store skb (λ c, c <| cb_paddr := paddr |>);
  let p := p <| wp_skbs := store |> <| wp_htc_tx_lock := l |> in
  err ← dma_mapping_error paddr;
  if (err : bool)
  then store ← do_skb_pull (wp_skbs p) skb sizeof_htc_hdr; mret (- EIO, p <| wp_skbs := store |>)
  else
    ret ← wireless_simu_ce_send p skb;
    if decide (ret ≠ 0)
    then
      b ← get_skb (wp_skbs p) skb;
      dma_unmap_single (cb_paddr (sb_cb b)) (skb_len (sb_buf b));;
      store ← do_skb_pull (wp_skbs p) skb sizeof_htc_hdr;
      mret (ret, p <| wp_skbs := store |>)
    else mret (ret, p).

(* ------------------------------------------------------------------ *)
(** ** WMI *)

Definition wireless_simu_wmi_alloc_skb (store : skbs) (len : Z) : M (Z * skbs) :=
  let round_len := u32 (roundup len 4) in
  '(skb, store) ← wireless_simu_htc_alloc_skb store (WMI_SKB_HEADROOM + round_len);
  if decide (skb = 0) then mret (0, store)
  else
    store ← do_skb_reserve store skb WMI_SKB_HEADROOM;
    store ← do_skb_put store skb round_len;
    store ← do_skb_write store skb 0 (replicate (Z.to_nat round_len) 0);
    mret (skb, store).

(** [skb_push] never returns NULL: when the headroom is short it panics. *)
Definition wireless_simu_wmi_cmd_send_nowait (p : wmi_priv) (skb cmd_id : Z) : M (Z * wmi_priv) :=
  store ← do_skb_push (wp_skbs p) skb sizeof_wmi_cmd_hdr;
  let cmd := u32 (FIELD_PREP WMI_CMD_HDR_CMD_ID cmd_id) in
  store ← do_skb_write store skb 0 (word_bytes CONFIG_CPU_BIG_ENDIAN cmd);
  store ← set_cb store skb (λ _, skb_cb_zero);
  '(ret, p) ← wireless_simu_htc_send (p <| wp_skbs := store |>) skb;
  if decide (ret ≠ 0)
  then store ← do_skb_pull (wp_skbs p) skb sizeof_wmi_cmd_hdr; mret (ret, p <| wp_skbs := store |>)
  else mret (0, p).

(** The condition of [wait_event_timeout]: its value and [ret]. *)
Definition wmi_cmd_send_cond (p : wmi_priv) (skb cmd_id : Z) : M (bool * Z * wmi_priv) :=
  '(ret, p) ← wireless_simu_wmi_cmd_send_nowait p skb cmd_id;
  let ret := if decide (ret ≠ 0 ∧ Z.testbit (wp_dev_flag p) WIRELESS_SIMU_DEV_FLAG_CRASH_FLUSH)
             then - ESHUTDOWN else ret in
  mret (bool_decide (ret ≠ - ENOBUFS), ret, p).

(** [wait_event_timeout] evaluates its condition, and again after each of the
    [wakeups] before the timeout. *)
Fixpoint wireless_simu_wmi_cmd_send (wakeups : nat) (p : wmi_priv) (skb cmd_id : Z)
    : M (Z * wmi_priv) :=
  '(done, ret, p) ← wmi_cmd_send_cond p skb cmd_id;
  if (done : bool) then mret (ret, p)
  else match wakeups with
       | O => mret (ret, p)
       | S n => wireless_simu_wmi_cmd_send n p skb cmd_id
       end.

(** The assignments to [cmd] and [frame_tlv->header]. *)
Definition tlv_header (tag len : Z) : Z :=
  u32 (Z.lor (FIELD_PREP WMI_TLV_TAG tag) (FIELD_PREP WMI_TLV_LEN len)).
Definition mgmt_send_cmd (vif_id buf_id paddr frame_len buf_len : Z) : wmi_mgmt_send_cmd :=
  WmiMgmtSendCmd (tlv_header WMI_TAG_MGMT_TX_SEND_CMD (sizeof_mgmt_send_cmd - TLV_HDR_SIZE))
    (u32 vif_id) (u32 buf_id) 0 (lower_32_bits paddr) (upper_32_bits paddr)
    (u32 frame_len) (u32 buf_len) 0.

Definition wireless_simu_wmi_mgmt_send (wakeups : nat) (p : wmi_priv) (vif_id buf_id frame : Z)
    : M (Z * wmi_priv) :=
  f ← get_skb (wp_skbs p) frame;
  let frame_len := skb_len (sb_buf f) in
  let buf_len := if decide (frame_len < WMI_MGMT_SEND_DOWNLD_LEN) then frame_len
                 else WMI_MGMT_SEND_DOWNLD_LEN in
  let len := sizeof_mgmt_send_cmd + sizeof_wmi_tlv + roundup buf_len 4 in
  '(skb, store) ← wireless_simu_wmi_alloc_skb (wp_skbs p) len;
  if decide (skb = 0) then mret (- ENOMEM, p <| wp_skbs := store |>)
  else
    let cmd := mgmt_send_cmd vif_id buf_id (cb_paddr (sb_cb f)) frame_len buf_len in
    store ← do_skb_write store skb 0 (words_bytes CONFIG_CPU_BIG_ENDIAN (mgmt_send_cmd_words cmd));
    store ← do_skb_write store skb (Z.to_nat sizeof_mgmt_send_cmd)
              (word_bytes CONFIG_CPU_BIG_ENDIAN (tlv_header WMI_TAG_ARRAY_BYTE buf_len));
    store ← do_skb_write store skb (Z.to_nat (sizeof_mgmt_send_cmd + sizeof_wmi_tlv))
              (take (Z.to_nat buf_len) (skb_data (sb_buf f)));
    wireless_simu_wmi_cmd_send wakeups (p <| wp_skbs := store |>) skb WMI_MGMT_TX_SEND_CMDID.
End wmi.
