(* ===== verification/WmiSend.v ===== *)
(** * What a management frame's command looks like to the firmware

    Theorems on [wireless_simu_wmi_mgmt_send]
    (src/driver/driver_wireless/wireless_wmi.c) with the HTC layer below it
    (wireless_htc.c): no run overruns a buffer, and the bytes handed to the
    device parse back to the frame and its addresses. *)

From S2P Require Import Prelude Kernel Bits HalTypes Hif Skb Wmi.

(* ------------------------------------------------------------------ *)
(** ** Reading a message back *)

(** [n] words off the front. *)
Fixpoint read_u32s (big : bool) (n : nat) (bs : list Z) : list Z * list Z :=
  match n with
  | O => ([], bs)
  | S n' => let '(ws, rest) := read_u32s big n' (drop 4 bs) in (bytes_word big (take 4 bs) :: ws, rest)
  end.

Lemma words_bytes_cons big w ws : words_bytes big (w :: ws) = word_bytes big w ++ words_bytes big ws.
Proof. done. Qed.

Lemma words_bytes_app big ws1 ws2 : words_bytes big (ws1 ++ ws2) = words_bytes big ws1 ++ words_bytes big ws2.
Proof. apply bind_app. Qed.

Lemma length_words_bytes big ws : length (words_bytes big ws) = (4 * length ws)%nat.
Proof.
  induction ws as [|w ws IH]; [done|]. rewrite words_bytes_cons, length_app, IH, length_word_bytes. cbn. lia.
Qed.

Lemma read_words_bytes big ws rest : is_words ws →
  read_u32s big (length ws) (words_bytes big ws ++ rest) = (ws, rest).
Proof.
  induction ws as [|w ws IH]; intros Hw; [done|]. apply Forall_cons in Hw as [Hu Hw].
  rewrite words_bytes_cons, <-app_assoc. cbn [length read_u32s].
  rewrite (drop_app_length' _ _ 4), (take_app_length' _ _ 4) by (by rewrite length_word_bytes).
  by rewrite IH, bytes_word_bytes.
Qed.

(** The fields of a management frame's command, from the bytes handed to the
    device. *)
Record mgmt_message := MgmtMessage {
  mm_endpoint : Z;
  mm_payload : Z;            (* bytes behind the HTC header *)
  mm_cmd_id : Z;
  mm_tag : Z;
  mm_len : Z;
  mm_vdev_id : Z;
  mm_desc_id : Z;
  mm_paddr : Z;
  mm_frame_len : Z;
  mm_array_tag : Z;
  mm_array_len : Z;
  mm_frame : list Z
}.

Definition parse_mgmt (big : bool) (bs : list Z) : option mgmt_message :=
  match read_u32s big 13 bs with
  | ([info; _; cmd; hdr; vdev; desc; _; lo; hi; flen; blen; _; arr], rest) =>
      Some (MgmtMessage (get_field 7 0 info) (get_field 31 16 info) (get_field 23 0 cmd)
        (get_field 31 16 hdr) (get_field 15 0 hdr) vdev desc (hi * 2 ^ 32 + lo) flen
        (get_field 31 16 arr) (get_field 15 0 arr) (take (Z.to_nat blen) rest))
  | _ => None
  end.

Section fields.
Context `{BO : BitsOk}.

Lemma tlv_fields tag len : 0 ≤ tag < 2 ^ 16 → 0 ≤ len < 2 ^ 16 →
  get_field 31 16 (tlv_header tag len) = tag ∧ get_field 15 0 (tlv_header tag len) = len.
Proof.
  intros Ht Hl. unfold tlv_header, WMI_TLV_TAG, WMI_TLV_LEN.
  rewrite !get_field_u32, !get_field_lor, !get_field_prep by lia.
  rewrite (get_field_prep_ne 15 0 31 16), (get_field_prep_ne 31 16 15 0) by lia.
  rewrite Z.lor_0_r, Z.lor_0_l, !Z.mod_small by lia. done.
Qed.

Lemma htc_fields payload : 0 ≤ payload < 2 ^ 16 →
  get_field 7 0 (htc_hdr_info payload) = 0 ∧ get_field 31 16 (htc_hdr_info payload) = payload.
Proof.
  intros Hp. unfold htc_hdr_info, HTC_HDR_ENDPOINTID, HTC_HDR_PAYLOADLEN.
  rewrite !get_field_u32, !get_field_lor, !get_field_prep by lia.
  rewrite (get_field_prep_ne 31 16 7 0), (get_field_prep_ne 7 0 31 16) by lia.
  rewrite Z.lor_0_r, Z.lor_0_l, !Z.mod_small by lia. done.
Qed.

Lemma cmd_field id : 0 ≤ id < 2 ^ 24 → get_field 23 0 (u32 (FIELD_PREP WMI_CMD_HDR_CMD_ID id)) = id.
Proof.
  intros Hi. unfold WMI_CMD_HDR_CMD_ID. rewrite get_field_u32, get_field_prep by lia.
  apply Z.mod_small. lia.
Qed.
End fields.

(* ------------------------------------------------------------------ *)
(** ** The message *)

Section message.
Context `{B : Bits} (big : bool).

(** What [wireless_simu_wmi_mgmt_send] puts behind the headers: the command, the
    array header, the first bytes of the frame, padding. *)
Definition mgmt_words (vif_id buf_id paddr frame_len buf_len : Z) : list Z :=
  mgmt_send_cmd_words (mgmt_send_cmd vif_id buf_id paddr frame_len buf_len) ++
  [tlv_header WMI_TAG_ARRAY_BYTE buf_len].
Definition mgmt_body (vif_id buf_id paddr : Z) (frame : list Z) : list Z :=
  let frame_len := Z.of_nat (length frame) in
  let buf_len := Z.min frame_len WMI_MGMT_SEND_DOWNLD_LEN in
  words_bytes big (mgmt_words vif_id buf_id paddr frame_len buf_len) ++
  take (Z.to_nat buf_len) frame ++
  replicate (Z.to_nat ((buf_len + 3) / 4 * 4 - buf_len)) 0.

(** ... and the whole message, with the headers of command [id]. *)
Definition wire (id : Z) (d : list Z) : list Z :=
  words_bytes big [htc_hdr_info (Z.of_nat (length d) + 4); 0; u32 (FIELD_PREP WMI_CMD_HDR_CMD_ID id)] ++ d.
End message.

Lemma length_mgmt_body `{B : Bits} big vif_id buf_id paddr frame :
  Z.of_nat (length (mgmt_body big vif_id buf_id paddr frame)) =
    40 + (Z.min (Z.of_nat (length frame)) 64 + 3) / 4 * 4.
Proof.
  unfold mgmt_body. rewrite !length_app, length_words_bytes, length_take, length_replicate.
  change (length (mgmt_words _ _ _ _ _)) with 10%nat. unfold WMI_MGMT_SEND_DOWNLD_LEN.
  pose proof (Z.div_mod (Z.min (Z.of_nat (length frame)) 64 + 3) 4 ltac:(lia)).
  pose proof (Z.mod_pos_bound (Z.min (Z.of_nat (length frame)) 64 + 3) 4 ltac:(lia)). lia.
Qed.

Lemma parse_wire `{BO : BitsOk} big vif_id buf_id paddr frame :
  0 ≤ vif_id < 2 ^ 32 → 0 ≤ buf_id < 2 ^ 32 → 0 ≤ paddr < 2 ^ 64 → Z.of_nat (length frame) < 2 ^ 32 →
  let body := mgmt_body big vif_id buf_id paddr frame in
  parse_mgmt big (wire big WMI_MGMT_TX_SEND_CMDID body) = Some (MgmtMessage 0 (Z.of_nat (length body) + 4)
    WMI_MGMT_TX_SEND_CMDID WMI_TAG_MGMT_TX_SEND_CMD 32 vif_id buf_id paddr (Z.of_nat (length frame))
    WMI_TAG_ARRAY_BYTE (Z.min (Z.of_nat (length frame)) 64) (take 64 frame)).
Proof.
  intros Hv Hb Hp Hf body. unfold wire, parse_mgmt.
  set (info := htc_hdr_info _). set (cmd := u32 (FIELD_PREP _ _)).
  set (flen := Z.of_nat (length frame)) in *. set (blen := Z.min flen 64).
  assert (0 ≤ blen ≤ 64) as Hbl by lia.
  pose proof (length_mgmt_body big vif_id buf_id paddr frame) as Hlen. fold body in Hlen.
  assert (is_words ([info; 0; cmd] ++ mgmt_words vif_id buf_id paddr flen blen)) as Hw.
  { unfold mgmt_words. cbn. unfold info, cmd, htc_hdr_info, tlv_header.
    rewrite lower_32_bits_spec, upper_32_bits_spec by lia.
    repeat constructor; rewrite ?wrap_wrap; try done.
    - apply wrap_wrap.
    - apply wrap_id. split; [apply Z.div_pos; lia|apply Z.div_lt_upper_bound; lia]. }
  pose proof (read_words_bytes big _ (take (Z.to_nat blen) frame ++
    replicate (Z.to_nat ((blen + 3) / 4 * 4 - blen)) 0) Hw) as Hread.
  change (length ([info; 0; cmd] ++ _)) with 13%nat in Hread.
  rewrite words_bytes_app, <-app_assoc in Hread.
  match type of Hread with read_u32s _ _ (_ ++ ?b) = _ => change b with body in Hread end.
  rewrite Hread. unfold mgmt_words. cbn [app mgmt_send_cmd_words mgmt_send_cmd wmc_tlv_header wmc_vdev_id
    wmc_desc_id wmc_chanfreq wmc_paddr_lo wmc_paddr_hi wmc_frame_len wmc_buf_len wmc_tx_params_valid].
  destruct (htc_fields (Z.of_nat (length body) + 4)) as [H1 H2].
  { rewrite Hlen. fold flen. fold blen. pose proof (Z.div_lt_upper_bound (blen + 3) 4 17 ltac:(lia) ltac:(lia)).
    pose proof (Z.div_pos (blen + 3) 4 ltac:(lia) ltac:(lia)). lia. }
  destruct (tlv_fields WMI_TAG_MGMT_TX_SEND_CMD (sizeof_mgmt_send_cmd - TLV_HDR_SIZE)) as [H3 H4]; [done..|].
  destruct (tlv_fields WMI_TAG_ARRAY_BYTE blen) as [H5 H6]; [done|lia|].
  pose proof (cmd_field WMI_MGMT_TX_SEND_CMDID ltac:(done)) as H7.
  unfold info, cmd. rewrite H1, H2, H3, H4, H5, H6, H7, !(wrap_id 32) by lia.
  rewrite lower_32_bits_spec, upper_32_bits_spec by lia.
  f_equal. f_equal.
  - pose proof (Z.div_mod paddr (2 ^ 32) ltac:(lia)). lia.
  - rewrite take_app_le by (rewrite length_take; lia). rewrite take_take, Nat.min_id.
    destruct (decide (flen ≤ 64)); [by rewrite !take_ge by lia|].
    by replace (Z.to_nat blen) with 64%nat by lia.
Qed.

(* ------------------------------------------------------------------ *)
(** ** Sending *)

Section send.
Context `{KO : KernelOk} `{BO : BitsOk} `{SO : SkbOk} (big : bool).

(** The length in the source's [roundup]. *)
Lemma roundup4 n : 0 ≤ n < 2 ^ 31 → roundup n 4 = (n + 3) / 4 * 4.
Proof. intros Hn. rewrite roundup_spec by lia. by replace (n + 4 - 1) with (n + 3) by lia. Qed.

Lemma htc_alloc_cases store size w : 0 ≤ size < 2 ^ 31 →
  wireless_simu_htc_alloc_skb store size w = Done ((0, store), tick w) ∨
  ∃ q b, q ≠ 0 ∧ store !! q = None ∧
    wireless_simu_htc_alloc_skb store size w = Done ((q, <[q := b]> store), tick w) ∧
    holds b skb_cb_zero [] 8 size.
Proof.
  intros Hs. unfold wireless_simu_htc_alloc_skb. change sizeof_htc_hdr with 8.
  rewrite (wrap_id 32) by lia.
  destruct (dev_alloc_skb_cases store (size + 8) w) as [E|(q & Hq & Hn & E)]; rewrite (M_bind_done _ _ _ _ _ E).
  { left. by rewrite decide_True. }
  right. rewrite decide_False by done.
  destruct (reserve_holds store q _ _ _ _ _ (tick w) (skb_new_holds (size + 8) ltac:(lia)) 8)
    as (b & E2 & Hb); [done|lia|].
  exists q, b. split_and!; [done|done| |by replace size with (size + 8 - 8) by lia].
  by rewrite (M_bind_done _ _ _ _ _ E2).
Qed.

Lemma wmi_alloc_cases store len w : 0 ≤ len < 2 ^ 16 → (4 | len) →
  wireless_simu_wmi_alloc_skb store len w = Done ((0, store), tick w) ∨
  ∃ q b, q ≠ 0 ∧ store !! q = None ∧
    wireless_simu_wmi_alloc_skb store len w = Done ((q, <[q := b]> store), tick w) ∧
    holds b skb_cb_zero (replicate (Z.to_nat len) 0) 12 0.
Proof.
  intros Hl [m Hm]. unfold wireless_simu_wmi_alloc_skb.
  assert (u32 (roundup len 4) = len) as ->.
  { rewrite roundup4 by lia. replace (len + 3) with (3 + m * 4) by lia.
    rewrite Z.div_add by lia. rewrite wrap_id; change (3 / 4) with 0; lia. }
  change WMI_SKB_HEADROOM with 4.
  destruct (htc_alloc_cases store (4 + len) w) as [E|(q & b & Hq & Hn & E & Hb)];
    [lia|by left; rewrite (M_bind_done _ _ _ _ _ E), decide_True|right].
  rewrite (M_bind_done _ _ _ _ _ E), decide_False by done.
  destruct (reserve_holds store q b _ _ _ _ (tick w) Hb 4) as (b1 & E1 & Hb1); [done|lia|].
  destruct (put_holds store q b1 _ _ _ _ (tick w) Hb1 len) as (e & He & b2 & E2 & Hb2); [lia|].
  destruct (write_holds store q b2 _ _ _ _ (tick w) Hb2 0 [] e [] (replicate (Z.to_nat len) 0))
    as (b3 & E3 & Hb3); [by rewrite app_nil_r|done|rewrite length_replicate; lia|].
  rewrite (M_bind_done _ _ _ _ _ E1), (M_bind_done _ _ _ _ _ E2), (M_bind_done _ _ _ _ _ E3).
  exists q, b3. split_and!; try done. cbn [app] in Hb3. rewrite app_nil_r in Hb3.
  destruct Hb3. split; try done; lia.
Qed.

(** A buffer placed in the store of [p]. *)
Definition with_skb (p : wmi_priv) (store : skbs) (q : Z) (b : sk_buff) : wmi_priv :=
  p <| wp_skbs := <[q := b]> store |>.

(** The HTC header over eight pushed bytes [e]. *)
Lemma htc_header_done store q b c d e h t w info : holds b c (e ++ d) h t → length e = 8%nat →
  ∃ b1 b2 b3, do_skb_write (<[q := b]> store) q 0 (replicate (Z.to_nat 8) 0) w = Done (<[q := b1]> store, w) ∧
    do_skb_write (<[q := b1]> store) q 0 (word_bytes big info) w = Done (<[q := b2]> store, w) ∧
    do_skb_write (<[q := b2]> store) q 4 (word_bytes big 0) w = Done (<[q := b3]> store, w) ∧
    holds b3 c (words_bytes big [info; 0] ++ d) h t.
Proof.
  intros Hb He.
  destruct (write_holds store q b _ _ _ _ w Hb 0 [] e d (replicate (Z.to_nat 8) 0))
    as (b2 & E2 & Hb2); [done|done|by rewrite length_replicate|].
  destruct (write_holds store q b2 _ _ _ _ w Hb2 0 [] (replicate 4 0) (replicate 4 0 ++ d) (word_bytes big info))
    as (b3 & E3 & Hb3); [done|done|by rewrite length_word_bytes|].
  destruct (write_holds store q b3 _ _ _ _ w Hb3 4 (word_bytes big info) (replicate 4 0) d (word_bytes big 0))
    as (b4 & E4 & Hb4); [done|by rewrite length_word_bytes|by rewrite length_word_bytes|].
  exists b2, b3, b4. split_and!; try done. by rewrite !words_bytes_cons, <-!app_assoc.
Qed.

(** The HTC header is put in front; when the mapping fails it is taken off
    again. *)
Lemma htc_send_cases p store q b c d h t w : wp_htc_tx_lock p = false →
  holds b c d h t → 8 ≤ h →
  ∃ b' pa, let len := Z.of_nat (length d) + 8 in
    (wireless_simu_htc_send big (with_skb p store q b) q w =
       Done ((- EIO, with_skb p store q b'), tick w) ∧ holds b' (c <| cb_paddr := pa |>) d h t) ∨
    (wireless_simu_htc_send big (with_skb p store q b) q w =
       Done ((0, with_skb p store q b'), tick w <| w_map := <[pa := len]> (w_map w) |>) ∧
     holds b' (c <| cb_paddr := pa |>) (words_bytes big [htc_hdr_info (Z.of_nat (length d)); 0] ++ d)
       (h - 8) t ∧ w_map w !! pa = None).
Proof.
  intros Hl Hb Hh. unfold wireless_simu_htc_send. change sizeof_htc_hdr with 8.
  change (wp_skbs (with_skb p store q b)) with (<[q := b]> store).
  destruct (push_holds store q b _ _ _ _ w Hb 8) as (e & He & b1 & E1 & Hb1); [lia|].
  rewrite (M_bind_done _ _ _ _ _ E1), (M_bind_done _ _ _ _ _ (get_skb_here store q b1 w)).
  assert (skb_len (sb_buf b1) = Z.of_nat (length d) + 8) as ->.
  { unfold skb_len. rewrite (ho_data _ _ _ _ _ Hb1), length_app. lia. }
  replace (Z.of_nat (length d) + 8 - 8) with (Z.of_nat (length d)) by lia. cbv zeta.
  set (info := htc_hdr_info (Z.of_nat (length d))).
  destruct (htc_header_done store q b1 _ _ e _ _ w info Hb1) as (b2 & b3 & b4 & E2 & E3 & E4 & Hb4); [lia|].
  rewrite (M_bind_done _ _ _ _ _ E2), (M_bind_done _ _ _ _ _ E3).
  unfold lock_acquire. change (wp_htc_tx_lock (with_skb p store q b)) with (wp_htc_tx_lock p).
  rewrite Hl, (M_bind_done _ _ w true w) by done.
  rewrite (M_bind_done _ _ _ _ _ E4), (M_bind_done _ _ w false w) by done.
  rewrite (M_bind_done _ _ _ _ _ (get_skb_here store q b4 w)).
  assert (skb_len (sb_buf b4) = Z.of_nat (length d) + 8) as ->.
  { unfold skb_len. rewrite (ho_data _ _ _ _ _ Hb4), length_app, length_words_bytes. cbn. lia. }
  assert (∀ b', with_skb p store q b <| wp_skbs := <[q := b']> store |> <| wp_htc_tx_lock := false |> =
    with_skb p store q b') as Hp by (intros; rewrite <-Hl; by destruct p).
  destruct (dma_map_cases (k_skb_addr q (sb_buf b4)) (Z.of_nat (length d) + 8) w)
    as (pa & [[E5 Herr]|(E5 & Herr & Hnone)]); rewrite (M_bind_done _ _ _ _ _ E5).
  - destruct (set_cb_holds store q b4 _ _ _ _ (tick w) Hb4 (λ c0, c0 <| cb_paddr := pa |>)) as (b5 & E6 & Hb5).
    destruct (pull_holds store q b5 _ _ _ _ (tick w) Hb5 8 _ d eq_refl) as (b6 & E7 & Hb6).
    { by rewrite length_words_bytes. }
    exists b6, pa. left. split; [|by replace h with (h - 8 + 8) by lia].
    rewrite (M_bind_done _ _ _ _ _ E6). unfold dma_mapping_error. rewrite M_bind_ret, Herr, Hp.
    by rewrite (M_bind_done _ _ _ _ _ E7).
  - set (w2 := tick w <| w_map := _ |>).
    destruct (set_cb_holds store q b4 _ _ _ _ w2 Hb4 (λ c0, c0 <| cb_paddr := pa |>)) as (b5 & E6 & Hb5).
    exists b5, pa. right. split; [|done].
    rewrite (M_bind_done _ _ _ _ _ E6). unfold dma_mapping_error. rewrite M_bind_ret, Herr, Hp.
    unfold wireless_simu_ce_send. rewrite M_bind_ret. by rewrite decide_False by (intros H; by apply H).
Qed.

Lemma cmd_send_nowait_cases p store q b c d h t w id : wp_htc_tx_lock p = false →
  holds b c d h t → 12 ≤ h →
  ∃ b' pa, let len := Z.of_nat (length d) + 12 in
    (wireless_simu_wmi_cmd_send_nowait big (with_skb p store q b) q id w =
       Done ((- EIO, with_skb p store q b'), tick w) ∧ holds b' (skb_cb_zero <| cb_paddr := pa |>) d h t) ∨
    (wireless_simu_wmi_cmd_send_nowait big (with_skb p store q b) q id w =
       Done ((0, with_skb p store q b'), tick w <| w_map := <[pa := len]> (w_map w) |>) ∧
     holds b' (skb_cb_zero <| cb_paddr := pa |>) (wire big id d) (h - 12) t ∧ w_map w !! pa = None).
Proof.
  intros Hl Hb Hh. unfold wireless_simu_wmi_cmd_send_nowait. change sizeof_wmi_cmd_hdr with 4.
  change (wp_skbs (with_skb p store q b)) with (<[q := b]> store).
  destruct (push_holds store q b _ _ _ _ w Hb 4) as (e & He & b1 & E1 & Hb1); [lia|].
  set (cmd := u32 (FIELD_PREP WMI_CMD_HDR_CMD_ID id)).
  destruct (write_holds store q b1 _ _ _ _ w Hb1 0 [] e d (word_bytes big cmd)) as (b2 & E2 & Hb2);
    [done|done|rewrite length_word_bytes; lia|].
  destruct (set_cb_holds store q b2 _ _ _ _ w Hb2 (λ _, skb_cb_zero)) as (b3 & E3 & Hb3).
  rewrite (M_bind_done _ _ _ _ _ E1), (M_bind_done _ _ _ _ _ E2), (M_bind_done _ _ _ _ _ E3).
  change (with_skb p store q b <| wp_skbs := <[q := b3]> store |>) with (with_skb p store q b3).
  destruct (htc_send_cases p store q b3 _ _ _ _ w Hl Hb3) as (b4 & pa & H); [lia|].
  assert (Z.of_nat (length ([] ++ word_bytes big cmd ++ d)) = Z.of_nat (length d) + 4) as Hlen
    by (cbn [app]; rewrite length_app, length_word_bytes; lia).
  cbv zeta in H. rewrite Hlen in H. destruct H as [(E4 & Hb4)|(E4 & Hb4 & Hnone)].
  - destruct (pull_holds store q b4 _ _ _ _ (tick w) Hb4 4 (word_bytes big cmd) d) as (b5 & E5 & Hb5);
      [done|by rewrite length_word_bytes|].
    exists b5, pa. left. rewrite (M_bind_done _ _ _ _ _ E4), decide_True by done.
    split; [by rewrite (M_bind_done _ _ _ _ _ E5)|]. by replace h with (h - 4 + 4) by lia.
  - exists b4, pa. right. cbv zeta. replace (Z.of_nat (length d) + 12) with (Z.of_nat (length d) + 4 + 8) by lia.
    rewrite (M_bind_done _ _ _ _ _ E4), decide_False by (intros H; by apply H).
    split_and!; [done| |done]. replace (h - 12) with (h - 4 - 8) by lia.
    unfold wire. fold cmd. rewrite !words_bytes_cons, <-!app_assoc in *. exact Hb4.
Qed.

(** [wait_event_timeout] never waits: the code of a failed send is not
    -ENOBUFS. *)
Lemma cmd_send_once n p q id w ret p' w' :
  wireless_simu_wmi_cmd_send_nowait big p q id w = Done ((ret, p'), w') → ret = 0 ∨ ret = - EIO →
  ∃ ret', wireless_simu_wmi_cmd_send big n p q id w = Done ((ret', p'), w') ∧
    (ret = 0 → ret' = 0) ∧ (ret = - EIO → ret' = - EIO ∨ ret' = - ESHUTDOWN).
Proof.
  intros E Hret.
  assert (∃ ret', wmi_cmd_send_cond big p q id w = Done ((true, ret', p'), w') ∧
    (ret = 0 → ret' = 0) ∧ (ret = - EIO → ret' = - EIO ∨ ret' = - ESHUTDOWN)) as (ret' & Ec & H).
  { unfold wmi_cmd_send_cond. rewrite (M_bind_done _ _ _ _ _ E). cbv zeta.
    destruct Hret as [->| ->]; case_decide as Hd; eexists; (split; [reflexivity|]).
    - by destruct Hd.
    - by split.
    - split; [done|]. by right.
    - split; [done|]. by left. }
  exists ret'. split; [|done]. destruct n; cbn [wireless_simu_wmi_cmd_send];
    by rewrite (M_bind_done _ _ _ _ _ Ec).
Qed.

(** The new buffer filled with the command, the array header and the frame's
    first bytes. *)
Lemma mgmt_fill store q b w f vif_id buf_id : let n := Z.of_nat (length (skb_data (sb_buf f))) in
  let buf_len := Z.min n 64 in let len := 40 + (buf_len + 3) / 4 * 4 in
  let data := skb_data (sb_buf f) in
  holds b skb_cb_zero (replicate (Z.to_nat len) 0) 12 0 →
  ∃ b1 b2 b3,
    do_skb_write (<[q := b]> store) q 0 (words_bytes big (mgmt_send_cmd_words
      (mgmt_send_cmd vif_id buf_id (cb_paddr (sb_cb f)) n buf_len))) w = Done (<[q := b1]> store, w) ∧
    do_skb_write (<[q := b1]> store) q 36 (word_bytes big (tlv_header WMI_TAG_ARRAY_BYTE buf_len)) w =
      Done (<[q := b2]> store, w) ∧
    do_skb_write (<[q := b2]> store) q 40 (take (Z.to_nat buf_len) data) w = Done (<[q := b3]> store, w) ∧
    holds b3 skb_cb_zero (mgmt_body big vif_id buf_id (cb_paddr (sb_cb f)) data) 12 0.
Proof.
  intros n buf_len len data Hb.
  set (ws := words_bytes big (mgmt_send_cmd_words _)).
  assert (length ws = 36%nat) as Hws by (unfold ws; by rewrite length_words_bytes).
  set (hd := word_bytes big _). assert (length hd = 4%nat) as Hhd by apply length_word_bytes.
  set (fr := take (Z.to_nat buf_len) data).
  assert (length fr = Z.to_nat buf_len) as Hfr by (unfold fr; rewrite length_take; unfold data in *; lia).
  set (pad := Z.to_nat ((buf_len + 3) / 4 * 4 - buf_len)).
  assert (replicate (Z.to_nat len) 0 = replicate 36 0 ++ replicate 4 0 ++
    replicate (Z.to_nat buf_len) 0 ++ replicate pad 0) as Hsplit.
  { rewrite <-!replicate_add. f_equal. unfold len, pad.
    pose proof (Z.div_mod (buf_len + 3) 4 ltac:(lia)). pose proof (Z.mod_pos_bound (buf_len + 3) 4 ltac:(lia)). lia. }
  rewrite Hsplit in Hb.
  destruct (write_holds store q b _ _ _ _ w Hb 0 [] (replicate 36 0) (replicate 4 0 ++
    replicate (Z.to_nat buf_len) 0 ++ replicate pad 0) ws) as (b1 & E1 & Hb1); [done|done|by rewrite Hws|].
  destruct (write_holds store q b1 _ _ _ _ w Hb1 36 ws (replicate 4 0)
    (replicate (Z.to_nat buf_len) 0 ++ replicate pad 0) hd) as (b2 & E2 & Hb2); [done|done|by rewrite Hhd|].
  destruct (write_holds store q b2 _ _ _ _ w Hb2 40 (ws ++ hd) (replicate (Z.to_nat buf_len) 0)
    (replicate pad 0) fr) as (b3 & E3 & Hb3);
    [by rewrite <-!app_assoc|by rewrite length_app, Hws, Hhd|by rewrite length_replicate|].
  exists b1, b2, b3. split_and!; try done.
  unfold mgmt_body, mgmt_words. rewrite words_bytes_app.
  rewrite (app_nil_r (word_bytes big _) : words_bytes big [_] = _). exact Hb3.
Qed.

(** Nothing but streaming mappings changed, and those of before are there. *)
Record only_maps (w w' : world) : Prop := {
  om_blocks : same_blocks w w';
  om_mem : w_mem w' = w_mem w;
  om_mmio : w_mmio w' = w_mmio w;
  om_map : w_map w ⊆ w_map w'
}.
#[export] Instance only_maps_refl : Reflexive only_maps.
Proof. by split. Qed.
#[export] Instance only_maps_trans : Transitive only_maps.
Proof. intros w1 w2 w3 [] []. split; [by etrans|congruence|congruence|by etrans]. Qed.

(** How sending can end: out of memory, refused with the command left
    allocated, or handed to the device. *)
Inductive mgmt_sent (p : wmi_priv) (w : world) (vif_id buf_id : Z) (f : sk_buff) :
    Z → wmi_priv → world → Prop :=
  | sent_nomem : mgmt_sent p w vif_id buf_id f (- ENOMEM) p (tick w)
  | sent_refused ret q b : ret = - EIO ∨ ret = - ESHUTDOWN → wp_skbs p !! q = None →
      mgmt_sent p w vif_id buf_id f ret (with_skb p (wp_skbs p) q b) (tick (tick w))
  | sent_done q b : wp_skbs p !! q = None → w_map w !! cb_paddr (sb_cb b) = None →
      skb_data (sb_buf b) = wire big WMI_MGMT_TX_SEND_CMDID
        (mgmt_body big vif_id buf_id (cb_paddr (sb_cb f)) (skb_data (sb_buf f))) →
      mgmt_sent p w vif_id buf_id f 0 (with_skb p (wp_skbs p) q b)
        (tick (tick w) <| w_map := <[cb_paddr (sb_cb b) := skb_len (sb_buf b)]> (w_map w) |>).

Lemma mgmt_send_cases n p w vif_id buf_id frame f : wp_skbs p !! frame = Some f →
  wp_htc_tx_lock p = false →
  ∃ ret p' w', wireless_simu_wmi_mgmt_send big n p vif_id buf_id frame w = Done ((ret, p'), w') ∧
    mgmt_sent p w vif_id buf_id f ret p' w'.
Proof.
  intros Hf Hl. unfold wireless_simu_wmi_mgmt_send.
  rewrite (M_bind_done _ _ _ _ _ (get_skb_done _ _ _ w Hf)). cbv zeta.
  set (flen := skb_len (sb_buf f)).
  assert ((if decide (flen < WMI_MGMT_SEND_DOWNLD_LEN) then flen else WMI_MGMT_SEND_DOWNLD_LEN) =
    Z.min flen 64) as -> by (unfold WMI_MGMT_SEND_DOWNLD_LEN; case_decide; lia).
  set (bl := Z.min flen 64). assert (0 ≤ bl ≤ 64) as Hbl by (unfold bl, flen, skb_len; lia).
  rewrite roundup4 by lia. change (sizeof_mgmt_send_cmd + sizeof_wmi_tlv) with 40.
  assert (0 ≤ (bl + 3) / 4 < 17) as Hq4
    by (split; [apply Z.div_pos; lia|apply Z.div_lt_upper_bound; lia]).
  destruct (wmi_alloc_cases (wp_skbs p) (40 + (bl + 3) / 4 * 4) w) as [E|(q & b & Hq & Hn & E & Hb)];
    [lia|exists (10 + (bl + 3) / 4); lia|..]; rewrite (M_bind_done _ _ _ _ _ E).
  { rewrite decide_True by done. exists (- ENOMEM), p, (tick w). split; [by destruct p|constructor]. }
  rewrite decide_False by done.
  destruct (mgmt_fill (wp_skbs p) q b (tick w) f vif_id buf_id Hb) as (b1 & b2 & b3 & E1 & E2 & E3 & Hb3).
  change (Z.to_nat sizeof_mgmt_send_cmd) with 36%nat. change (Z.to_nat 40) with 40%nat.
  rewrite (M_bind_done _ _ _ _ _ E1), (M_bind_done _ _ _ _ _ E2), (M_bind_done _ _ _ _ _ E3).
  change (p <| wp_skbs := <[q := b3]> (wp_skbs p) |>) with (with_skb p (wp_skbs p) q b3).
  destruct (cmd_send_nowait_cases p (wp_skbs p) q b3 _ _ _ _ (tick w) WMI_MGMT_TX_SEND_CMDID Hl Hb3)
    as (b4 & pa & H); [lia|]. cbv zeta in H. destruct H as [(E4 & Hb4)|(E4 & Hb4 & Hnone)].
  - destruct (cmd_send_once n _ _ _ _ _ _ _ E4) as (ret' & E5 & _ & Hret); [by right|].
    eexists ret', _, _. split; [exact E5|]. apply sent_refused; [by apply Hret|done].
  - destruct (cmd_send_once n _ _ _ _ _ _ _ E4) as (ret' & E5 & Hret & _); [by left|].
    rewrite Hret in E5 by done. change (w_map (tick w)) with (w_map w) in *.
    eexists 0, _, _. split; [exact E5|].
    set (body := mgmt_body _ _ _ _ _) in *.
    assert (skb_len (sb_buf b4) = Z.of_nat (length body) + 12) as Hlen.
    { unfold skb_len. rewrite (ho_data _ _ _ _ _ Hb4). unfold wire.
      rewrite length_app, length_words_bytes. cbn. lia. }
    rewrite <-Hlen.
    assert (cb_paddr (sb_cb b4) = pa) as <- by (by rewrite (ho_cb _ _ _ _ _ Hb4)).
    apply sent_done; [done|done|exact (ho_data _ _ _ _ _ Hb4)].
Qed.

(** What the layers above need to know. *)
Lemma mgmt_sent_summary p w vif_id buf_id f ret p' w' : mgmt_sent p w vif_id buf_id f ret p' w' →
  only_maps w w' ∧ wp_htc_tx_lock p' = wp_htc_tx_lock p ∧
  (∀ q b, wp_skbs p !! q = Some b → wp_skbs p' !! q = Some b) ∧
  (size (wp_skbs p') ≤ S (size (wp_skbs p)))%nat ∧ (size (w_map w') ≤ S (size (w_map w)))%nat ∧
  (ret = 0 ∨ ret ∈ [- EIO; - ENOMEM; - ESHUTDOWN] ∧ w_map w' = w_map w).
Proof.
  intros [|r q b Hr Hq|q b Hq Hm Hd].
  - split_and!; try done; try (cbn; lia). right. split; [|done]. set_solver.
  - split_and!; try done; [|by cbn; rewrite map_size_insert_None|cbn; lia|].
    + intros x y Hx. cbn. by rewrite lookup_insert_ne by congruence.
    + right. split; [|done]. destruct Hr as [->| ->]; set_solver.
  - split_and!; try done; [split; try done; cbn; by apply insert_subseteq| | | |by left].
    + intros x y Hx. cbn. by rewrite lookup_insert_ne by congruence.
    + cbn. by rewrite map_size_insert_None.
    + cbn. by rewrite map_size_insert_None.
Qed.

(** C9.  A management frame arrives as it was given: when
    [wireless_simu_wmi_mgmt_send] returns 0, one new buffer was mapped for the
    device, and its bytes, in the CPU's byte order, parse to endpoint 0, the
    number of bytes behind the HTC header, the command id, the tags and lengths
    of the two TLVs, the interface, the buffer id, the frame's bus address and
    length, and the first 64 bytes of the frame (all of it when shorter). *)
Theorem mgmt_send_roundtrip n p w vif_id buf_id frame f p' w' :
  wp_skbs p !! frame = Some f → wp_htc_tx_lock p = false →
  0 ≤ vif_id < 2 ^ 32 → 0 ≤ buf_id < 2 ^ 32 → 0 ≤ cb_paddr (sb_cb f) < 2 ^ 64 →
  skb_len (sb_buf f) < 2 ^ 32 →
  wireless_simu_wmi_mgmt_send big n p vif_id buf_id frame w = Done ((0, p'), w') →
  ∃ q b, wp_skbs p !! q = None ∧ wp_skbs p' = <[q := b]> (wp_skbs p) ∧
    w_map w !! cb_paddr (sb_cb b) = None ∧
    w_map w' = <[cb_paddr (sb_cb b) := skb_len (sb_buf b)]> (w_map w) ∧
    parse_mgmt big (skb_data (sb_buf b)) = Some (MgmtMessage 0 (skb_len (sb_buf b) - sizeof_htc_hdr)
      WMI_MGMT_TX_SEND_CMDID WMI_TAG_MGMT_TX_SEND_CMD (sizeof_mgmt_send_cmd - TLV_HDR_SIZE)
      vif_id buf_id (cb_paddr (sb_cb f)) (skb_len (sb_buf f))
      WMI_TAG_ARRAY_BYTE (Z.min (skb_len (sb_buf f)) 64) (take 64 (skb_data (sb_buf f)))).
Proof.
  intros Hf Hl Hv Hb Hp Hn E.
  destruct (mgmt_send_cases n p w vif_id buf_id frame f Hf Hl) as (ret & p1 & w1 & E1 & Hs).
  rewrite E in E1. injection E1 as <- <- <-.
  inversion Hs as [| |q b Hq Hm Hd]; subst; [by destruct H as [H|H]|].
  exists q, b. split_and!; try done. rewrite Hd, parse_wire by done. repeat f_equal.
  unfold skb_len. rewrite Hd. unfold wire. rewrite length_app, length_words_bytes.
  change (length [_; _; _]) with 3%nat. unfold sizeof_htc_hdr. lia.
Qed.

(** C28.  Sending a management frame is safe: whatever the kernel answers,
    [wireless_simu_wmi_mgmt_send] does not panic, overrun a buffer, block or
    deadlock; the frame itself is untouched and the lock is free.  A return
    code other than 0 is -ENOMEM with nothing changed, or -EIO or -ESHUTDOWN
    with no mapping made; in the latter case the command's buffer stays
    allocated, which nobody frees. *)
Theorem mgmt_send_safe n p w vif_id buf_id frame f :
  wp_skbs p !! frame = Some f → wp_htc_tx_lock p = false →
  ∃ ret p' w', wireless_simu_wmi_mgmt_send big n p vif_id buf_id frame w = Done ((ret, p'), w') ∧
    wp_skbs p' !! frame = Some f ∧ wp_htc_tx_lock p' = false ∧ same_blocks w w' ∧
    (ret = 0 ∨
     ret = - ENOMEM ∧ p' = p ∧ w_map w' = w_map w ∨
     (ret = - EIO ∨ ret = - ESHUTDOWN) ∧ w_map w' = w_map w ∧
       ∃ q b, wp_skbs p !! q = None ∧ wp_skbs p' = <[q := b]> (wp_skbs p)).
Proof.
  intros Hf Hl. destruct (mgmt_send_cases n p w vif_id buf_id frame f Hf Hl) as (ret & p' & w' & E & Hs).
  exists ret, p', w'. split; [done|]. destruct Hs as [|ret q b Hret Hq|q b Hq Hm Hd].
  - split_and!; try done. right. by left.
  - split_and!; try done; [cbn; by rewrite lookup_insert_ne by congruence|].
    right. right. split_and!; [done..|]. by exists q, b.
  - split_and!; try done; [cbn; by rewrite lookup_insert_ne by congruence|by left].
Qed.
End send.
