(* ===== verification/MacTypes.v ===== *)
(** * Data of the mac80211 side

    Source: src/driver/driver_wireless/wireless_mac80211.h (control block
    flags, interface state, channel and rate tables), wireless_err.h and the
    mac80211 members of [struct wireless_simu] in wireless.h. *)

From S2P Require Import Prelude Kernel Skb Wmi.

(* ------------------------------------------------------------------ *)
(** ** Constants *)

Definition WIRELESS_SIMU_HW_QUEUE : Z := 4.
Definition WIRELESS_MAX_NUM_VIF : nat := 4.
Definition WIRELESS_SIMU_TX_MGMT_NUM_PENDING_MAX : Z := 512.
Definition WIRELESS_SIMU_TX_MGMT_TARGET_MAX_SUPPORT : Z := 64.
Definition WIRELESS_SIMU_PRB_RSP_DROP_THRESHOLD : Z :=
  (WIRELESS_SIMU_TX_MGMT_TARGET_MAX_SUPPORT * 3) ≫ 2.

(** [enum wireless_simu_skb_cb_flags] *)
Definition WIRELESS_SIMU_SKB_HW_80211_ENCAP : Z := 1.
Definition WIRELESS_SIMU_SKB_CIPHER_SET : Z := 2.

(** [enum wireless_simu_err_code] *)
Definition SUCCESS : Z := 0.
Definition MAC80211_ALLOC_ERR : Z := 5.
Definition MAC80211_REGISTER_ERR : Z := 6.

(* ------------------------------------------------------------------ *)
(** ** Interfaces *)

Record wireless_simu_tx_params_arg := TxParamsArg {
  arg_acm : Z;
  arg_aifs : Z;
  arg_cwmin : Z;
  arg_cwmax : Z;
  arg_txop : Z;
  arg_no_ack : Z
}.
#[export] Instance eta_tx_params_arg : Eta wireless_simu_tx_params_arg := MkEta (λ a,
  TxParamsArg (arg_acm a) (arg_aifs a) (arg_cwmin a) (arg_cwmax a) (arg_txop a) (arg_no_ack a)).
Definition tx_params_zero : wireless_simu_tx_params_arg := TxParamsArg 0 0 0 0 0 0.

Record wireless_simu_vif := SimuVif {
  sv_vif_id : Z;
  sv_ac_be : wireless_simu_tx_params_arg;
  sv_ac_bk : wireless_simu_tx_params_arg;
  sv_ac_vi : wireless_simu_tx_params_arg;
  sv_ac_vo : wireless_simu_tx_params_arg
}.
#[export] Instance eta_simu_vif : Eta wireless_simu_vif := MkEta (λ v,
  SimuVif (sv_vif_id v) (sv_ac_be v) (sv_ac_bk v) (sv_ac_vi v) (sv_ac_vo v)).
Definition simu_vif_zero : wireless_simu_vif :=
  SimuVif 0 tx_params_zero tx_params_zero tx_params_zero tx_params_zero.

(** The members of [struct ieee80211_vif] the driver uses. *)
Record ieee80211_vif := Vif {
  vif_type : Z;
  vif_hw_queue : list Z;
  vif_cab_queue : Z;
  vif_drv_priv : wireless_simu_vif
}.
#[export] Instance eta_vif : Eta ieee80211_vif := MkEta (λ v,
  Vif (vif_type v) (vif_hw_queue v) (vif_cab_queue v) (vif_drv_priv v)).

(** The members of [struct ieee80211_tx_queue_params] the driver reads. *)
Record tx_queue_params := TxQueueParams { qp_aifs : Z; qp_cw_min : Z; qp_cw_max : Z; qp_txop : Z }.

(* ------------------------------------------------------------------ *)
(** ** Channels and rates *)

(** [hw_value] and [center_freq]; the other members are the same for all. *)
Record ieee80211_channel := Chan { ch_hw_value : Z; ch_center_freq : Z }.

Definition wireless_simu_2ghz_channels : list ieee80211_channel :=
  [ Chan 1 2412; Chan 2 2417; Chan 3 2422; Chan 4 2427; Chan 5 2432; Chan 6 2437; Chan 7 2442;
    Chan 8 2447; Chan 9 2452; Chan 10 2457; Chan 11 2462; Chan 12 2467; Chan 13 2472; Chan 14 2484 ].

Definition wireless_simu_5ghz_channels : list ieee80211_channel :=
  [ Chan 36 5180; Chan 40 5200; Chan 44 5220; Chan 48 5240; Chan 52 5260; Chan 56 5280;
    Chan 60 5300; Chan 64 5320; Chan 100 5500; Chan 104 5520; Chan 108 5540; Chan 112 5560;
    Chan 116 5580; Chan 120 5600; Chan 124 5620; Chan 128 5640; Chan 132 5660; Chan 136 5680;
    Chan 140 5700; Chan 144 5720; Chan 149 5745; Chan 153 5765; Chan 157 5785; Chan 161 5805;
    Chan 165 5825; Chan 169 5845; Chan 173 5865; Chan 177 5885 ].

Definition wireless_simu_6ghz_channels : list ieee80211_channel :=
  [ Chan 1 5955; Chan 5 5975; Chan 9 5995; Chan 13 6015; Chan 17 6035; Chan 21 6055; Chan 25 6075;
    Chan 29 6095; Chan 33 6115; Chan 37 6135; Chan 41 6155; Chan 45 6175; Chan 49 6195;
    Chan 53 6215; Chan 57 6235; Chan 61 6255; Chan 65 6275; Chan 69 6295; Chan 73 6315;
    Chan 77 6335; Chan 81 6355; Chan 85 6375; Chan 89 6395; Chan 93 6415; Chan 97 6435;
    Chan 101 6455; Chan 105 6475; Chan 109 6495; Chan 113 6515; Chan 117 6535; Chan 121 6555;
    Chan 125 6575; Chan 129 6595; Chan 133 6615; Chan 137 6635; Chan 141 6655; Chan 145 6675;
    Chan 149 6695; Chan 153 6715; Chan 157 6735; Chan 161 6755; Chan 165 6775; Chan 169 6795;
    Chan 173 6815; Chan 177 6835; Chan 181 6855; Chan 185 6875; Chan 189 6895; Chan 193 6915;
    Chan 197 6935; Chan 201 6955; Chan 205 6975; Chan 209 6995; Chan 213 7015; Chan 217 7035;
    Chan 221 7055; Chan 225 7075; Chan 229 7095; Chan 233 7115; Chan 2 5935 ].

(** [enum wireless_simu_hw_rate_cck] and [enum wireless_simu_hw_rate_ofdm] *)
Definition WIRELESS_SIMU_HW_RATE_CCK_LP_11M : Z := 0.
Definition WIRELESS_SIMU_HW_RATE_CCK_LP_5_5M : Z := 1.
Definition WIRELESS_SIMU_HW_RATE_CCK_LP_2M : Z := 2.
Definition WIRELESS_SIMU_HW_RATE_CCK_LP_1M : Z := 3.
Definition WIRELESS_SIMU_HW_RATE_CCK_SP_11M : Z := 4.
Definition WIRELESS_SIMU_HW_RATE_CCK_SP_5_5M : Z := 5.
Definition WIRELESS_SIMU_HW_RATE_CCK_SP_2M : Z := 6.
Definition WIRELESS_SIMU_HW_RATE_OFDM_48M : Z := 0.
Definition WIRELESS_SIMU_HW_RATE_OFDM_24M : Z := 1.
Definition WIRELESS_SIMU_HW_RATE_OFDM_12M : Z := 2.
Definition WIRELESS_SIMU_HW_RATE_OFDM_6M : Z := 3.
Definition WIRELESS_SIMU_HW_RATE_OFDM_54M : Z := 4.
Definition WIRELESS_SIMU_HW_RATE_OFDM_36M : Z := 5.
Definition WIRELESS_SIMU_HW_RATE_OFDM_18M : Z := 6.
Definition WIRELESS_SIMU_HW_RATE_OFDM_9M : Z := 7.

(** [rate_short]: is [IEEE80211_RATE_SHORT_PREAMBLE] among the flags? *)
Record ieee80211_rate := Rate {
  rate_bitrate : Z;                  (* units of 100 kbit/s *)
  rate_hw_value : Z;
  rate_hw_value_short : Z;
  rate_short : bool
}.

Definition wireless_simu_rates : list ieee80211_rate :=
  [ Rate 10 WIRELESS_SIMU_HW_RATE_CCK_LP_1M 0 false;
    Rate 20 WIRELESS_SIMU_HW_RATE_CCK_LP_2M WIRELESS_SIMU_HW_RATE_CCK_SP_2M true;
    Rate 55 WIRELESS_SIMU_HW_RATE_CCK_LP_5_5M WIRELESS_SIMU_HW_RATE_CCK_SP_5_5M true;
    Rate 110 WIRELESS_SIMU_HW_RATE_CCK_LP_11M WIRELESS_SIMU_HW_RATE_CCK_SP_11M true;
    Rate 60 WIRELESS_SIMU_HW_RATE_OFDM_6M 0 false;
    Rate 90 WIRELESS_SIMU_HW_RATE_OFDM_9M 0 false;
    Rate 120 WIRELESS_SIMU_HW_RATE_OFDM_12M 0 false;
    Rate 180 WIRELESS_SIMU_HW_RATE_OFDM_18M 0 false;
    Rate 240 WIRELESS_SIMU_HW_RATE_OFDM_24M 0 false;
    Rate 360 WIRELESS_SIMU_HW_RATE_OFDM_36M 0 false;
    Rate 480 WIRELESS_SIMU_HW_RATE_OFDM_48M 0 false;
    Rate 540 WIRELESS_SIMU_HW_RATE_OFDM_54M 0 false ].

Definition WIRELESS_SIMU_MAC_FIRST_OFDM_RATE_IDX : nat := 4.
Definition wireless_simu_g_rates : list ieee80211_rate := wireless_simu_rates.
Definition wireless_simu_a_rates : list ieee80211_rate :=
  drop WIRELESS_SIMU_MAC_FIRST_OFDM_RATE_IDX wireless_simu_rates.

(* ------------------------------------------------------------------ *)
(** ** The hardware description handed to mac80211 *)

Inductive hw_flag :=
  | RX_INCLUDES_FCS | BEACON_TX_STATUS | REPORTS_TX_ACK_STATUS | AP_LINK_PS | SIGNAL_DBM
  | QUEUE_CONTROL.

Record supported_band := SupportedBand {
  band_channels : Z;                        (* pointer *)
  band_n_channels : Z;
  band_bitrates : list ieee80211_rate;
  band_n_bitrates : Z
}.
Definition supported_band_zero : supported_band := SupportedBand 0 0 [] 0.
#[export] Instance eta_supported_band : Eta supported_band := MkEta (λ b,
  SupportedBand (band_channels b) (band_n_channels b) (band_bitrates b) (band_n_bitrates b)).

(** The members [wireless_mac80211_core_probe] fills that take part in the
    driver's logic. *)
Record ieee80211_hw := Hw {
  hw_flags : list hw_flag;
  hw_extra_tx_headroom : Z;
  hw_queues : Z;
  hw_offchannel_tx_hw_queue : Z;
  hw_interface_modes : Z;
  hw_band_2ghz : option supported_band;
  hw_perm_addr : list Z;
  hw_registered : bool
}.
#[export] Instance eta_hw : Eta ieee80211_hw := MkEta (λ h,
  Hw (hw_flags h) (hw_extra_tx_headroom h) (hw_queues h) (hw_offchannel_tx_hw_queue h)
    (hw_interface_modes h) (hw_band_2ghz h) (hw_perm_addr h) (hw_registered h)).
Definition hw_zero : ieee80211_hw := Hw [] 0 0 0 0 None [] false.

(* ------------------------------------------------------------------ *)
(** ** State *)

Record mac_priv `{SA : SkbApi} := MacPriv {
  mp_wmi : wmi_priv;
  mp_vifs : gmap Z ieee80211_vif;           (* mac80211's interfaces, by pointer *)
  mp_vif : list Z;                          (* priv->vif *)
  mp_mac_conf_mutex : bool;
  mp_filter_flags : Z;
  mp_tx_interrupt_enable : bool;
  mp_rx_interrupt_enable : bool;
  mp_mgmt_tx_queue : list Z;
  mp_num_pending_mgmt_tx : Z;
  mp_mgmt_tx_work : bool;                   (* queued on the workqueue? *)
  mp_txmgmt_idr : gmap Z Z;                 (* id -> buffer *)
  mp_txmgmt_idr_lock : bool;
  mp_hw : Z;                                (* priv->hw *)
  mp_hw_val : ieee80211_hw;                 (* what it points to *)
  mp_band_2GHZ : supported_band;
  mp_band_5GHZ : supported_band;
  mp_band_6GHZ : supported_band;
  mp_mac_addr : list Z
}.
Arguments MacPriv {_} _ _ _ _ _ _ _ _ _ _ _ _ _ _ _ _ _ _.
#[export] Instance eta_mac_priv `{SA : SkbApi} : Eta mac_priv := MkEta (λ p,
  MacPriv (mp_wmi p) (mp_vifs p) (mp_vif p) (mp_mac_conf_mutex p) (mp_filter_flags p)
    (mp_tx_interrupt_enable p) (mp_rx_interrupt_enable p) (mp_mgmt_tx_queue p)
    (mp_num_pending_mgmt_tx p) (mp_mgmt_tx_work p) (mp_txmgmt_idr p) (mp_txmgmt_idr_lock p)
    (mp_hw p) (mp_hw_val p) (mp_band_2GHZ p) (mp_band_5GHZ p) (mp_band_6GHZ p) (mp_mac_addr p)).
