(* ===== verification/Mac80211.v ===== *)
(** * The mac80211 callbacks

    Source: src/driver/driver_wireless/wireless_mac80211.c.  mac80211 calls the
    driver through [struct ieee80211_ops]; management frames are queued by
    [tx] and sent from a work item, interfaces are kept in [priv->vif].  What
    mac80211 and the kernel's idr answer is a parameter, class [Mac80211Api]. *)

From S2P Require Import Prelude Kernel Bits HalTypes Hif Skb Ieee80211 Dp Wmi MacTypes.

Class Mac80211Api := {
  k_idr_alloc : world → gset Z → Z → Z → Z;     (* ids in use, start, end -> id *)
  k_ieee80211_alloc_hw : world → Z;             (* 0 is NULL *)
  k_ieee80211_register_hw : world → Z → Z;      (* hw -> error *)
  k_device_get_mac_address : world → list Z;
  k_is_valid_ether_addr : list Z → bool;
  k_eth_random_addr : world → list Z;
}.

(** linux/idr.h: an unused id in the range, or a negative error;
    net/mac80211.h: a fresh [ieee80211_hw] or NULL. *)
Class Mac80211Ok `{A : Mac80211Api} : Prop := {
  idr_alloc_spec w used start end_ : let id := k_idr_alloc w used start end_ in
    id < 0 ∨ (start ≤ id < end_ ∧ id ∉ used);
  alloc_hw_fresh w : k_ieee80211_alloc_hw w ≠ 0 → k_ieee80211_alloc_hw w ∉ w_heap w;
}.

Section mac80211.
Context `{K : Kernel} `{B : Bits} `{SA : SkbApi} `{I : Ieee80211} `{A : Mac80211Api}.
Variable CONFIG_CPU_BIG_ENDIAN : bool.

(* ------------------------------------------------------------------ *)
(** ** Access to the parts *)

Definition mp_skbs (p : mac_priv) : skbs := wp_skbs (mp_wmi p).
Definition set_skbs (p : mac_priv) (store : skbs) : mac_priv :=
  p <| mp_wmi := mp_wmi p <| wp_skbs := store |> |>.
Definition get_vif (p : mac_priv) (vif : Z) : M ieee80211_vif :=
  of_option (if decide (vif = 0) then NullDeref else Unmapped) (mp_vifs p !! vif).
Definition set_vif (p : mac_priv) (vif : Z) (v : ieee80211_vif) : mac_priv :=
  p <| mp_vifs := <[vif := v]> (mp_vifs p) |>.
Definition mutex_lock (p : mac_priv) : M mac_priv :=
  l ← lock_acquire (mp_mac_conf_mutex p); mret (p <| mp_mac_conf_mutex := l |>).
Definition mutex_unlock (p : mac_priv) : M mac_priv :=
  l ← lock_release (mp_mac_conf_mutex p); mret (p <| mp_mac_conf_mutex := l |>).

(** [hdr->frame_control], the first two bytes of the frame. *)
Definition frame_control (b : sk_buff) : M Z :=
  match skb_data (sb_buf b) with
  | b0 :: b1 :: _ => mret (b0 + 2 ^ 8 * b1)
  | _ => fail OutOfBounds
  end.

(** [ieee80211_free_txskb] *)
Definition ieee80211_free_txskb (p : mac_priv) (skb : Z) : M mac_priv :=
  store ← dev_kfree_skb_any (mp_skbs p) skb; mret (set_skbs p store).

(* ------------------------------------------------------------------ *)
(** ** Management frames *)

(** [atomic_dec_if_positive] stores only a result that is not negative; the
    rest of the function warns or wakes waiters. *)
Definition wireless_simu_mgmt_over_tx_drop (p : mac_priv) (skb : Z) : M mac_priv :=
  p ← ieee80211_free_txskb p skb;
  let num_mgmt := mp_num_pending_mgmt_tx p - 1 in
  mret (if decide (0 ≤ num_mgmt) then p <| mp_num_pending_mgmt_tx := num_mgmt |> else p).

(** The label [err_free_idr]. *)
Definition mgmt_tx_free_idr (p : mac_priv) (buf_id ret : Z) : M (Z * mac_priv) :=
  l ← lock_acquire (mp_txmgmt_idr_lock p);
  let p := p <| mp_txmgmt_idr := delete buf_id (mp_txmgmt_idr p) |> in
  l ← lock_release l;
  mret (ret, p <| mp_txmgmt_idr_lock := l |>).

(** The block that appends room for the integrity code. *)
Definition mgmt_tx_encrypt (p : mac_priv) (skb : Z) : M mac_priv :=
  b ← get_skb (mp_skbs p) skb;
  if flag_set (sb_info_flags b) IEEE80211_TX_CTL_HW_80211_ENCAP then mret p
  else
    fc ← frame_control b;
    if ieee80211_has_protected fc &&
       (ieee80211_is_action fc || ieee80211_is_deauth fc || ieee80211_is_disassoc fc)
    then
      let enctype := wireless_simu_dp_tx_get_encrypt_type (cb_cipher (sb_cb b)) in
      let mic_length := wireless_simu_dp_rx_crypto_mic_len enctype in
      store ← do_skb_put (mp_skbs p) skb mic_length;
      mret (set_skbs p store)
    else mret p.

(** From [skb_cb->paddr = paddr] on.  [vif] is the interface [simu_vif] lies
    in; this is where it is read. *)
Definition mgmt_tx_mapped (wakeups : nat) (p : mac_priv) (vif buf_id skb paddr : Z)
    : M (Z * mac_priv) :=
  store ← set_cb (mp_skbs p) skb (λ c, c <| cb_paddr := paddr |>);
  let p := set_skbs p store in
  v ← get_vif p vif;
  '(ret, wmi) ← wireless_simu_wmi_mgmt_send CONFIG_CPU_BIG_ENDIAN wakeups (mp_wmi p)
                  (sv_vif_id (vif_drv_priv v)) buf_id skb;
  let p := p <| mp_wmi := wmi |> in
  if decide (ret ≠ 0)
  then
    b ← get_skb (mp_skbs p) skb;
    dma_unmap_single paddr (skb_len (sb_buf b));;
    mgmt_tx_free_idr p buf_id ret
  else mret (0, p).

(** The parameter [simu_vif] is the address [vif->drv_priv] inside the
    interface [vif]. *)
Definition wireless_simu_mgmt_tx_wmi (wakeups : nat) (p : mac_priv) (vif skb : Z)
    : M (Z * mac_priv) :=
  l ← lock_acquire (mp_txmgmt_idr_lock p);
  w ← get_world;
  let buf_id := k_idr_alloc w (dom (mp_txmgmt_idr p)) 0 WIRELESS_SIMU_TX_MGMT_NUM_PENDING_MAX in
  let p := if decide (buf_id < 0) then p
           else p <| mp_txmgmt_idr := <[buf_id := skb]> (mp_txmgmt_idr p) |> in
  l ← lock_release l;
  let p := p <| mp_txmgmt_idr_lock := l |> in
  if decide (buf_id < 0) then mret (- ENOSPC, p)
  else
    p ← mgmt_tx_encrypt p skb;
    b ← get_skb (mp_skbs p) skb;
    paddr ← dma_map_single (k_skb_addr skb (sb_buf b)) (skb_len (sb_buf b));
    err ← dma_mapping_error paddr;
    if (err : bool) then mgmt_tx_free_idr p buf_id (- EIO)
    else
      mgmt_tx_mapped wakeups p vif buf_id skb paddr.

(** One iteration of the work item: the buffer is off the queue.  The address
    of [vif->drv_priv] is computed, the interface is not read. *)
Definition mgmt_tx_work_one (wakeups : nat) (p : mac_priv) (skb : Z) : M mac_priv :=
  b ← get_skb (mp_skbs p) skb;
  let vif := cb_vif (sb_cb b) in
  if decide (vif = 0) then wireless_simu_mgmt_over_tx_drop p skb
  else
    p ← mutex_lock p;
    '(ret, p) ← wireless_simu_mgmt_tx_wmi wakeups p vif skb;
    mutex_unlock p.

(** The loop; [queue] is what [skb_dequeue] will still return. *)
Fixpoint mgmt_tx_work_loop (wakeups : nat) (p : mac_priv) (queue : list Z) : M mac_priv :=
  match queue with
  | [] => mret p
  | skb :: queue' =>
      p ← mgmt_tx_work_one wakeups (p <| mp_mgmt_tx_queue := queue' |>) skb;
      mgmt_tx_work_loop wakeups p queue'
  end.

(** The work is no longer queued when its function runs. *)
Definition wireless_simu_mgmt_tx_work_func (wakeups : nat) (p : mac_priv) : M mac_priv :=
  mgmt_tx_work_loop wakeups (p <| mp_mgmt_tx_work := false |>) (mp_mgmt_tx_queue p).

Definition wireless_simu_mac_mgmt_tx (p : mac_priv) (skb : Z) (is_prb_rsp : bool)
    : M (Z * mac_priv) :=
  if decide (is_prb_rsp ∧ WIRELESS_SIMU_PRB_RSP_DROP_THRESHOLD < mp_num_pending_mgmt_tx p)
  then mret (- ENOSPC, p)
  else if decide (WIRELESS_SIMU_TX_MGMT_NUM_PENDING_MAX ≤ Z.of_nat (length (mp_mgmt_tx_queue p)))
  then mret (- ENOSPC, p)
  else mret (0, p <| mp_mgmt_tx_queue := mp_mgmt_tx_queue p ++ [skb] |>
                  <| mp_num_pending_mgmt_tx := s32 (mp_num_pending_mgmt_tx p + 1) |>
                  <| mp_mgmt_tx_work := true |>).

(** [key] is the cipher of [info->control.hw_key], [vif] is
    [info->control.vif]; both are read before the control block, which shares
    their bytes, is cleared. *)
Definition wireless_mac80211_tx (p : mac_priv) (key : option Z) (vif skb : Z) : M mac_priv :=
  b ← get_skb (mp_skbs p) skb;
  let info_flags := sb_info_flags b in
  let cb := skb_cb_zero <| cb_vif := vif |> in
  let cb := match key with
            | None => cb
            | Some cipher => cb <| cb_cipher := cipher |>
                                <| cb_flags := Z.lor (cb_flags cb) WIRELESS_SIMU_SKB_CIPHER_SET |>
            end in
  if flag_set info_flags IEEE80211_TX_CTL_HW_80211_ENCAP
  then
    store ← set_cb (mp_skbs p) skb
              (λ _, cb <| cb_flags := Z.lor (cb_flags cb) WIRELESS_SIMU_SKB_HW_80211_ENCAP |>);
    mret (set_skbs p store)
  else
    store ← set_cb (mp_skbs p) skb (λ _, cb);
    let p := set_skbs p store in
    fc ← frame_control b;
    if ieee80211_is_mgmt fc
    then
      '(ret, p) ← wireless_simu_mac_mgmt_tx p skb (ieee80211_is_probe_resp fc);
      if decide (ret ≠ 0) then ieee80211_free_txskb p skb else mret p
    else mret p.

(* ------------------------------------------------------------------ *)
(** ** Start, stop, interfaces *)

(** [priv->vif[i] = NULL] for all [i]. *)
Definition clear_vifs (p : mac_priv) : mac_priv :=
  p <| mp_vif := replicate WIRELESS_MAX_NUM_VIF 0 |>.

Definition wireless_mac80211_start (p : mac_priv) : M (Z * mac_priv) :=
  mret (0, clear_vifs p <| mp_tx_interrupt_enable := true |> <| mp_rx_interrupt_enable := true |>).

Definition wireless_mac80211_stop (p : mac_priv) : M mac_priv :=
  mret (clear_vifs p <| mp_tx_interrupt_enable := false |> <| mp_rx_interrupt_enable := false |>).

(** The first NULL slot of [priv->vif]: the search loop. *)
Fixpoint free_vif_slot (l : list Z) : option nat :=
  match l with
  | [] => None
  | v :: l' => if decide (v = 0) then Some O else S <$> free_vif_slot l'
  end.

(** [hw_queue[i] = i % (WIRELESS_SIMU_HW_QUEUE - 1)] *)
Definition vif_queues (n : nat) : list Z :=
  (λ i : nat, Z.of_nat i mod (WIRELESS_SIMU_HW_QUEUE - 1)) <$> seq 0 n.

Definition wireless_mac80211_add_interface (p : mac_priv) (vif : Z) : M (Z * mac_priv) :=
  v ← get_vif p vif;
  let p := set_vif p vif (v <| vif_drv_priv := simu_vif_zero |>) in
  p ← mutex_lock p;
  match free_vif_slot (mp_vif p) with
  | None => mret (- EBUSY, p)                     (* the mutex stays locked *)
  | Some vif_id =>
      let v := v <| vif_drv_priv := simu_vif_zero <| sv_vif_id := Z.of_nat vif_id |> |> in
      let p := set_vif (p <| mp_vif := <[vif_id := vif]> (mp_vif p) |>) vif v in
      if decide (vif_type v ≠ NL80211_IFTYPE_STATION ∨ vif_type v ≠ NL80211_IFTYPE_AP ∨
                 vif_type v ≠ NL80211_IFTYPE_MONITOR)
      then p ← mutex_unlock p; mret (- EINVAL, p)
      else
        let v := v <| vif_hw_queue := vif_queues (length (vif_hw_queue v)) |> in
        let v := v <| vif_cab_queue :=
                   if decide (vif_type v = NL80211_IFTYPE_AP)
                   then Z.of_nat vif_id mod (WIRELESS_SIMU_HW_QUEUE - 1)
                   else IEEE80211_INVAL_HW_QUEUE |> in
        p ← mutex_unlock (set_vif p vif v); mret (0, p)
  end.

Definition wireless_mac80211_remove_interface (p : mac_priv) (vif : Z) : M mac_priv :=
  v ← get_vif p vif;
  p ← mutex_lock p;
  let id := sv_vif_id (vif_drv_priv v) in
  assert (bool_decide (0 ≤ id < Z.of_nat (length (mp_vif p)))) OutOfBounds;;
  mutex_unlock (p <| mp_vif := <[Z.to_nat id := 0]> (mp_vif p) |>).

Definition wireless_mac80211_config (changed : Z) : M Z := mret 0.

(* ------------------------------------------------------------------ *)
(** ** Filters and queue parameters *)

Definition SUPPORT_FILTERS : Z :=
  foldl Z.lor 0 [FIF_ALLMULTI; FIF_FCSFAIL; FIF_PLCPFAIL; FIF_BCN_PRBRESP_PROMISC; FIF_CONTROL;
                 FIF_OTHER_BSS; FIF_PSPOLL; FIF_PROBE_REQ; FIF_MCAST_ACTION].

(** Returns the new [*total_flags]. *)
Definition wireless_mac80211_configure_filter (p : mac_priv) (changed_flags total_flags : Z)
    : M (Z * mac_priv) :=
  p ← mutex_lock p;
  let total_flags := Z.land total_flags SUPPORT_FILTERS in
  p ← mutex_unlock (p <| mp_filter_flags := total_flags |>);
  mret (total_flags, p).

(** The parameters of one access category, replaced by [f] of them. *)
Definition conf_ac (ac : Z) (f : wireless_simu_tx_params_arg → wireless_simu_tx_params_arg)
    (s : wireless_simu_vif) : option wireless_simu_vif :=
  if decide (ac = IEEE80211_AC_VO) then Some (s <| sv_ac_vo := f (sv_ac_vo s) |>)
  else if decide (ac = IEEE80211_AC_BE) then Some (s <| sv_ac_be := f (sv_ac_be s) |>)
  else if decide (ac = IEEE80211_AC_BK) then Some (s <| sv_ac_bk := f (sv_ac_bk s) |>)
  else if decide (ac = IEEE80211_AC_VI) then Some (s <| sv_ac_vi := f (sv_ac_vi s) |>)
  else None.

Definition wireless_mac80211_conf_tx (p : mac_priv) (vif link_id ac : Z) (params : tx_queue_params)
    : M (Z * mac_priv) :=
  v ← get_vif p vif;
  p ← mutex_lock p;
  match conf_ac ac (λ arg, arg <| arg_cwmax := qp_cw_max params |> <| arg_cwmin := qp_cw_min params |>
                               <| arg_aifs := qp_aifs params |> <| arg_txop := qp_txop params |>)
                (vif_drv_priv v) with
  | None => p ← mutex_unlock p; mret (- EINVAL, p)
  | Some s =>
      p ← mutex_unlock (set_vif p vif (v <| vif_drv_priv := s |>));
      mret (0, p)
  end.

(* ------------------------------------------------------------------ *)
(** ** Registration *)

Definition ieee80211_alloc_hw : M Z := λ w,
  let hw := k_ieee80211_alloc_hw w in
  Done (hw, if decide (hw = 0) then tick w else (tick w) <| w_heap := {[hw]} ∪ w_heap w |>).
Definition ieee80211_free_hw (hw : Z) : M unit := kfree hw.
Definition ieee80211_register_hw (hw : Z) : M Z := λ w,
  Done (k_ieee80211_register_hw w hw, tick w).
(** Only a registered device may be unregistered; its interfaces are freed. *)
Definition ieee80211_unregister_hw (p : mac_priv) : M mac_priv :=
  assert (hw_registered (mp_hw_val p)) BadFree;;
  mret (p <| mp_hw_val := mp_hw_val p <| hw_registered := false |> |> <| mp_vifs := ∅ |>).

(** The assignments to [priv->band_2GHZ], [priv->hw] and its [wiphy]. *)
Definition core_describe (p : mac_priv) (channels : Z) : mac_priv :=
  let band := SupportedBand channels (Z.of_nat (length wireless_simu_2ghz_channels))
                wireless_simu_g_rates (Z.of_nat (length wireless_simu_g_rates)) in
  let hw := mp_hw_val p
    <| hw_band_2ghz := Some band |>
    <| hw_flags := [RX_INCLUDES_FCS; BEACON_TX_STATUS; REPORTS_TX_ACK_STATUS; AP_LINK_PS;
                    SIGNAL_DBM; QUEUE_CONTROL] |>
    <| hw_extra_tx_headroom := 4 |>
    <| hw_interface_modes := Z.lor (Z.lor (BIT NL80211_IFTYPE_MONITOR) (BIT NL80211_IFTYPE_AP))
                                   (BIT NL80211_IFTYPE_STATION) |>
    <| hw_queues := WIRELESS_SIMU_HW_QUEUE |>
    <| hw_offchannel_tx_hw_queue := WIRELESS_SIMU_HW_QUEUE - 1 |> in
  clear_vifs (p <| mp_band_2GHZ := band |> <| mp_hw_val := hw |>).

Definition core_mac_addr (p : mac_priv) : M mac_priv :=
  w ← get_world;
  let addr := k_device_get_mac_address w in
  let addr := if k_is_valid_ether_addr addr then addr else k_eth_random_addr w in
  mret (p <| mp_mac_addr := addr |> <| mp_hw_val := mp_hw_val p <| hw_perm_addr := addr |> |>).

Definition wireless_mac80211_core_probe (p : mac_priv) : M (Z * mac_priv) :=
  let p := p <| mp_mac_conf_mutex := false |> in
  hw ← ieee80211_alloc_hw;
  if decide (hw = 0) then mret (MAC80211_ALLOC_ERR, p <| mp_hw := 0 |>)
  else
    let p := p <| mp_hw := hw |> <| mp_hw_val := hw_zero |>
               <| mp_mgmt_tx_work := false |> <| mp_mgmt_tx_queue := [] |> in
    channels ← kmalloc (sizeof_ieee80211_channel * Z.of_nat (length wireless_simu_2ghz_channels));
    if decide (channels = 0) then mret (MAC80211_ALLOC_ERR, p)
    else
      p ← core_mac_addr (core_describe p channels);
      let p := p <| mp_txmgmt_idr_lock := false |> <| mp_txmgmt_idr := ∅ |>
                 <| mp_wmi := mp_wmi p <| wp_htc_tx_lock := false |> |> in
      err ← ieee80211_register_hw hw;
      if decide (err ≠ 0)
      then
        kfree (band_channels (mp_band_2GHZ p));;
        kfree (band_channels (mp_band_5GHZ p));;
        kfree (band_channels (mp_band_6GHZ p));;
        ieee80211_free_hw hw;;
        mret (MAC80211_REGISTER_ERR, p <| mp_hw := 0 |>)
      else mret (SUCCESS, p <| mp_hw_val := mp_hw_val p <| hw_registered := true |> |>).

Definition wireless_mac80211_core_remove (p : mac_priv) : M (Z * mac_priv) :=
  let hw := mp_hw p in
  if decide (hw = 0) then mret (0, p)
  else
    p ← ieee80211_unregister_hw p;
    ieee80211_free_hw hw;;
    mret (0, p).
End mac80211.
