(* ===== verification/MacOps.v ===== *)
(** * The table of mac80211 callbacks

    Source: [wireless_mac80211_ops] of src/driver/driver_wireless/wireless_mac80211.c
    with the callbacks that only answer: they return a constant and change
    nothing, neither the driver's state nor what their pointer arguments refer
    to.  The callbacks that work on the driver's state are those of [Mac80211]. *)

From S2P Require Import Prelude Kernel Bits Skb Ieee80211 Dp Wmi MacTypes Mac80211.

(* ------------------------------------------------------------------ *)
(** ** Callbacks that only answer

    Pointers (interfaces, channel contexts, parameter blocks) are addresses. *)

Definition wireless_simu_mac_tx_end (irq : Z) : M unit := mret tt.
Definition wireless_simu_mac_rx (irq : Z) : M unit := mret tt.

Definition wireless_mac80211_bss_info_changed (vif info changed : Z) : M unit := mret tt.
Definition wireless_mac80211_set_antenna (tx_ant rx_ant : Z) : M Z := mret 0.
(** The two words at [tx_ant] and [rx_ant] are not written. *)
Definition wireless_mac80211_get_antenna (tx_ant rx_ant : Z) : M Z := mret 0.
Definition wireless_mac80211_ampdu_action (vif params : Z) : M Z := mret 0.
Definition wireless_mac80211_add_chanctx (ctx : Z) : M Z := mret 0.
Definition wireless_mac80211_remove_chanctx (ctx : Z) : M unit := mret tt.
Definition wireless_mac80211_change_chanctx (ctx changed : Z) : M unit := mret tt.
Definition wireless_mac80211_assign_vif_chanctx (vif link_conf ctx : Z) : M Z := mret 0.
Definition wireless_mac80211_unassign_vif_chanctx (vif link_conf ctx : Z) : M unit := mret tt.
Definition wireless_mac80211_set_rts_threshold (value : Z) : M Z := mret 0.
Definition wireless_mac80211_testmode_cmd (vif data len : Z) : M Z := mret 0.
Definition wireless_mac80211_prepare_multicast (mc_list : Z) : M Z := mret 0.
Definition wireless_mac80211_rfkill_poll : M unit := mret tt.
Definition wireless_mac80211_get_tsf (vif : Z) : M Z := mret 0.
Definition wireless_mac80211_set_tsf (vif tsf : Z) : M unit := mret tt.
Definition wireless_mac80211_reset_tsf (vif : Z) : M unit := mret tt.

(* ------------------------------------------------------------------ *)
(** ** The table *)

Section ops.
Context `{K : Kernel} `{B : Bits} `{SA : SkbApi} `{I : Ieee80211} `{A : Mac80211Api}.

(** The entries the driver sets; [wake_tx_queue] is mac80211's own
    ieee80211_handle_wake_tx_queue and left out. *)
Record ieee80211_ops := Ieee80211Ops {
  op_tx : mac_priv → option Z → Z → Z → M mac_priv;
  op_start : mac_priv → M (Z * mac_priv);
  op_stop : mac_priv → M mac_priv;
  op_config : Z → M Z;
  op_add_interface : mac_priv → Z → M (Z * mac_priv);
  op_remove_interface : mac_priv → Z → M mac_priv;
  op_configure_filter : mac_priv → Z → Z → M (Z * mac_priv);
  op_bss_info_changed : Z → Z → Z → M unit;
  op_conf_tx : mac_priv → Z → Z → Z → tx_queue_params → M (Z * mac_priv);
  op_set_antenna : Z → Z → M Z;
  op_get_antenna : Z → Z → M Z;
  op_ampdu_action : Z → Z → M Z;
  op_add_chanctx : Z → M Z;
  op_remove_chanctx : Z → M unit;
  op_change_chanctx : Z → Z → M unit;
  op_assign_vif_chanctx : Z → Z → Z → M Z;
  op_unassign_vif_chanctx : Z → Z → Z → M unit;
  op_set_rts_threshold : Z → M Z;
  op_testmode_cmd : Z → Z → Z → M Z;
  op_prepare_multicast : Z → M Z;
  op_rfkill_poll : M unit;
  op_get_tsf : Z → M Z;
  op_set_tsf : Z → Z → M unit;
  op_reset_tsf : Z → M unit
}.

Definition wireless_mac80211_ops : ieee80211_ops := {|
  op_tx := wireless_mac80211_tx;
  op_start := wireless_mac80211_start;
  op_stop := wireless_mac80211_stop;
  op_config := wireless_mac80211_config;
  op_add_interface := wireless_mac80211_add_interface;
  op_remove_interface := wireless_mac80211_remove_interface;
  op_configure_filter := wireless_mac80211_configure_filter;
  op_bss_info_changed := wireless_mac80211_bss_info_changed;
  op_conf_tx := wireless_mac80211_conf_tx;
  op_set_antenna := wireless_mac80211_set_antenna;
  op_get_antenna := wireless_mac80211_get_antenna;
  op_ampdu_action := wireless_mac80211_ampdu_action;
  op_add_chanctx := wireless_mac80211_add_chanctx;
  op_remove_chanctx := wireless_mac80211_remove_chanctx;
  op_change_chanctx := wireless_mac80211_change_chanctx;
  op_assign_vif_chanctx := wireless_mac80211_assign_vif_chanctx;
  op_unassign_vif_chanctx := wireless_mac80211_unassign_vif_chanctx;
  op_set_rts_threshold := wireless_mac80211_set_rts_threshold;
  op_testmode_cmd := wireless_mac80211_testmode_cmd;
  op_prepare_multicast := wireless_mac80211_prepare_multicast;
  op_rfkill_poll := wireless_mac80211_rfkill_poll;
  op_get_tsf := wireless_mac80211_get_tsf;
  op_set_tsf := wireless_mac80211_set_tsf;
  op_reset_tsf := wireless_mac80211_reset_tsf
|}.
End ops.

(* ------------------------------------------------------------------ *)
(** ** Calls through the table that only answer *)

Inductive idle_request :=
  | RConfig (changed : Z)
  | RBssInfo (vif info changed : Z)
  | RSetAntenna (tx rx : Z) | RGetAntenna (tx rx : Z)
  | RAmpdu (vif params : Z)
  | RAddCtx (ctx : Z) | RRemoveCtx (ctx : Z) | RChangeCtx (ctx changed : Z)
  | RAssignCtx (vif link ctx : Z) | RUnassignCtx (vif link ctx : Z)
  | RRts (value : Z) | RTestmode (vif data len : Z) | RMulticast (list : Z) | RRfkill
  | RGetTsf (vif : Z) | RSetTsf (vif tsf : Z) | RResetTsf (vif : Z).

Section requests.
Context `{K : Kernel} `{B : Bits} `{SA : SkbApi} `{I : Ieee80211} `{A : Mac80211Api}.

(** The answer of the callback; 0 where it is [void]. *)
Definition idle_call (ops : ieee80211_ops) (r : idle_request) : M Z :=
  match r with
  | RConfig changed => op_config ops changed
  | RBssInfo vif info changed => op_bss_info_changed ops vif info changed;; mret 0
  | RSetAntenna tx rx => op_set_antenna ops tx rx
  | RGetAntenna tx rx => op_get_antenna ops tx rx
  | RAmpdu vif params => op_ampdu_action ops vif params
  | RAddCtx ctx => op_add_chanctx ops ctx
  | RRemoveCtx ctx => op_remove_chanctx ops ctx;; mret 0
  | RChangeCtx ctx changed => op_change_chanctx ops ctx changed;; mret 0
  | RAssignCtx vif link ctx => op_assign_vif_chanctx ops vif link ctx
  | RUnassignCtx vif link ctx => op_unassign_vif_chanctx ops vif link ctx;; mret 0
  | RRts value => op_set_rts_threshold ops value
  | RTestmode vif data len => op_testmode_cmd ops vif data len
  | RMulticast list => op_prepare_multicast ops list
  | RRfkill => op_rfkill_poll ops;; mret 0
  | RGetTsf vif => op_get_tsf ops vif
  | RSetTsf vif tsf => op_set_tsf ops vif tsf;; mret 0
  | RResetTsf vif => op_reset_tsf ops vif;; mret 0
  end.

Lemma idle_call_quiet r w : idle_call wireless_mac80211_ops r w = Done (0, w).
Proof. by destruct r. Qed.
End requests.
