(* ===== verification/MacReg.v ===== *)
(** * Regulatory domain and interface combinations

    Source: the regulatory rules and the interface limits of
    src/driver/driver_wireless/wireless_mac80211.h, which the registration hands
    to cfg80211 ([wiphy_apply_custom_regulatory], [wiphy->iface_combinations]).
    They are data the driver itself never reads; what cfg80211 makes of them is
    not code of the repository, so nothing is proved of them. *)

From S2P Require Import Prelude Bits Ieee80211.

(* ------------------------------------------------------------------ *)
(** ** Data *)

(** [REG_RULE(start, end, bw, gain, eirp, flags)], frequencies in MHz; the only
    flag used is NL80211_RRF_NO_CCK. *)
Record ieee80211_reg_rule := RegRule {
  rr_start : Z;
  rr_end : Z;
  rr_bw : Z;
  rr_gain : Z;
  rr_eirp : Z;
  rr_no_cck : bool
}.

Definition wireless_simu_reg_rules : list ieee80211_reg_rule :=
  [ RegRule (2412 - 10) (2412 + 10) 40 0 20 true;
    RegRule (5160 - 10) (5865 + 10) 80 0 20 false ].

Inductive nl80211_dfs_regions := NL80211_DFS_UNSET | NL80211_DFS_FCC | NL80211_DFS_ETSI | NL80211_DFS_JP.

(** [alpha2] as its characters. *)
Record ieee80211_regdomain := RegDomain {
  rd_n_reg_rules : Z;
  rd_alpha2 : list Z;
  rd_dfs_region : nl80211_dfs_regions;
  rd_reg_rules : list ieee80211_reg_rule
}.

Definition wireless_simu_regd : ieee80211_regdomain :=
  RegDomain (Z.of_nat (length wireless_simu_reg_rules)) [57; 57] NL80211_DFS_ETSI wireless_simu_reg_rules.

Record ieee80211_iface_limit := IfaceLimit { il_max : Z; il_types : Z }.
Record ieee80211_iface_combination := IfaceComb {
  ic_limits : list ieee80211_iface_limit;
  ic_n_limits : Z;
  ic_max_interfaces : Z;
  ic_num_different_channels : Z
}.

Section limits.
Context `{B : Bits} `{I : Ieee80211}.

Definition wireless_simu_if_limits : list ieee80211_iface_limit :=
  [ IfaceLimit 1 (BIT NL80211_IFTYPE_STATION); IfaceLimit 1 (BIT NL80211_IFTYPE_AP) ].

Definition wireless_simu_if_comb : ieee80211_iface_combination :=
  IfaceComb wireless_simu_if_limits (Z.of_nat (length wireless_simu_if_limits)) 2 1.
End limits.
