(* ===== verification/MacIface.v ===== *)
(** * Interfaces, filters and queue parameters

    Theorems on the mac80211 callbacks that configure the driver
    (src/driver/driver_wireless/wireless_mac80211.c): adding and removing
    interfaces, receive filters, the transmit queue parameters, and the
    channel and rate tables. *)

From S2P Require Import Prelude Kernel Bits HalTypes Hif Skb Ieee80211 Dp Wmi MacTypes Mac80211.

Section iface.
Context `{K : Kernel} `{B : Bits} `{SA : SkbApi} `{I : Ieee80211} `{IO : !Ieee80211Ok}.

Lemma mutex_lock_done (p : mac_priv) w : mp_mac_conf_mutex p = false →
  mutex_lock p w = Done (p <| mp_mac_conf_mutex := true |>, w).
Proof. intros H. unfold mutex_lock, lock_acquire. by rewrite H. Qed.

Lemma mutex_lock_held (p : mac_priv) w : mp_mac_conf_mutex p = true →
  mutex_lock p w = Fault Deadlock.
Proof. intros H. unfold mutex_lock, lock_acquire. by rewrite H. Qed.

Lemma get_vif_done (p : mac_priv) vif v w : mp_vifs p !! vif = Some v → get_vif p vif w = Done (v, w).
Proof. intros H. unfold get_vif. by rewrite H. Qed.

(* ------------------------------------------------------------------ *)
(** ** Slots *)

Lemma free_vif_slot_spec l :
  match free_vif_slot l with
  | Some i => l !! i = Some 0 ∧ ∀ j v, (j < i)%nat → l !! j = Some v → v ≠ 0
  | None => ∀ v, v ∈ l → v ≠ 0
  end.
Proof.
  induction l as [|v l IH]; cbn; [by intros v ?%not_elem_of_nil|].
  case_decide as Hv; [by split; [subst|lia]|].
  destruct (free_vif_slot l) as [i|]; cbn.
  - destruct IH as [H0 Hlt]. split; [done|]. intros [|j] u Hj Hu; cbn in *; [congruence|].
    apply (Hlt j); [lia|done].
  - intros u [->|Hu]%elem_of_cons; [done|by apply IH].
Qed.

(** The condition on the interface type holds of every type. *)
Lemma iftype_test_true t : t ≠ NL80211_IFTYPE_STATION ∨ t ≠ NL80211_IFTYPE_AP ∨ t ≠ NL80211_IFTYPE_MONITOR.
Proof.
  pose proof iftypes_distinct as Hd. rewrite !NoDup_cons, !not_elem_of_cons in Hd.
  destruct (decide (t = NL80211_IFTYPE_STATION)) as [->|]; [right; left|by left].
  destruct Hd as [[Hne _] _]. congruence.
Qed.

Lemma add_interface_cases (p : mac_priv) vif v w :
  mp_vifs p !! vif = Some v → mp_mac_conf_mutex p = false →
  ∃ p', dom (mp_vifs p') = dom (mp_vifs p) ∧
  match free_vif_slot (mp_vif p) with
  | Some i => wireless_mac80211_add_interface p vif w = Done ((- EINVAL, p'), w) ∧
      mp_vif p' = <[i := vif]> (mp_vif p) ∧ mp_mac_conf_mutex p' = false ∧
      mp_vifs p' !! vif = Some (v <| vif_drv_priv := simu_vif_zero <| sv_vif_id := Z.of_nat i |> |>)
  | None => wireless_mac80211_add_interface p vif w = Done ((- EBUSY, p'), w) ∧
      mp_vif p' = mp_vif p ∧ mp_mac_conf_mutex p' = true
  end.
Proof.
  intros Hv Hm. assert (vif ∈ dom (mp_vifs p)) as Hin by (apply elem_of_dom; eauto).
  unfold wireless_mac80211_add_interface. rewrite (M_bind_done _ _ _ _ _ (get_vif_done _ _ _ w Hv)).
  cbv zeta. rewrite (M_bind_done _ _ _ _ _ (mutex_lock_done (set_vif p vif _) w Hm)).
  change (mp_vif (set_vif _ _ _ <| _ := _ |>)) with (mp_vif p).
  destruct (free_vif_slot (mp_vif p)) as [i|].
  - rewrite decide_True by apply iftype_test_true.
    eexists. split; [|split; [reflexivity|split; [done|split; [done|]]]].
    + cbn. rewrite !dom_insert_L. set_solver.
    + cbn. apply lookup_insert_eq.
  - eexists. split; [|split; [reflexivity|by split]]. cbn. rewrite dom_insert_L. set_solver.
Qed.

(** What the callbacks that take the mutex do after -EBUSY. *)
Lemma mutex_held_deadlock (p : mac_priv) vif v w : mp_vifs p !! vif = Some v → mp_mac_conf_mutex p = true →
  wireless_mac80211_add_interface p vif w = Fault Deadlock ∧
  wireless_mac80211_remove_interface p vif w = Fault Deadlock ∧
  (∀ changed total, wireless_mac80211_configure_filter p changed total w = Fault Deadlock) ∧
  (∀ link ac params, wireless_mac80211_conf_tx p vif link ac params w = Fault Deadlock).
Proof.
  intros Hv Hm.
  assert (∀ A (f : mac_priv → M A) q, mp_mac_conf_mutex q = true → (mutex_lock q ≫= f) w = Fault Deadlock) as H.
  { intros A f q Hq. apply M_bind_fault. by apply mutex_lock_held. }
  unfold wireless_mac80211_add_interface, wireless_mac80211_remove_interface,
    wireless_mac80211_configure_filter, wireless_mac80211_conf_tx.
  split_and!; intros; rewrite ?(M_bind_done _ _ _ _ _ (get_vif_done _ _ _ w Hv)); by apply H.
Qed.

(** [wireless_mac80211_add_interface] never accepts an interface.  With a
    free slot it enters the interface in [priv->vif] and then refuses it with
    -EINVAL, because the test of its type, three inequalities joined by [||],
    holds of every type; the slot stays taken and the mutex is free.  With no
    free slot it returns -EBUSY and leaves the mutex locked. *)
Theorem add_interface_never_succeeds (p : mac_priv) vif v w :
  mp_vifs p !! vif = Some v → mp_mac_conf_mutex p = false →
  ∃ p', match free_vif_slot (mp_vif p) with
  | Some i => wireless_mac80211_add_interface p vif w = Done ((- EINVAL, p'), w) ∧
      mp_vif p !! i = Some 0 ∧ mp_vif p' = <[i := vif]> (mp_vif p) ∧ mp_mac_conf_mutex p' = false
  | None => wireless_mac80211_add_interface p vif w = Done ((- EBUSY, p'), w) ∧
      (∀ u, u ∈ mp_vif p → u ≠ 0) ∧ mp_vif p' = mp_vif p ∧ mp_mac_conf_mutex p' = true
  end.
Proof.
  intros Hv Hm. pose proof (free_vif_slot_spec (mp_vif p)) as Hslot.
  destruct (add_interface_cases p vif v w Hv Hm) as (p' & _ & H). exists p'.
  destruct (free_vif_slot (mp_vif p)); naive_solver.
Qed.

(** [n] interfaces are added one after the other. *)
Fixpoint add_interfaces (p : mac_priv) (vifs : list Z) : M (list Z * mac_priv) :=
  match vifs with
  | [] => mret ([], p)
  | vif :: vifs' =>
      '(ret, p) ← wireless_mac80211_add_interface p vif;
      '(rets, p) ← add_interfaces p vifs';
      mret (ret :: rets, p)
  end.

(** The slots fill up from the left. *)
Lemma free_slot_app l m : (∀ v, v ∈ l → v ≠ 0) →
  free_vif_slot (l ++ replicate (S m) 0) = Some (length l).
Proof.
  induction l as [|v l IH]; intros H; cbn [app free_vif_slot length]; [done|].
  rewrite decide_False by (apply H; by left). rewrite IH; [done|]. intros u Hu. apply H. by right.
Qed.

Lemma add_all vifs : ∀ (p : mac_priv) taken m w, mp_mac_conf_mutex p = false →
  mp_vif p = taken ++ replicate (length vifs + m) 0 → (∀ v, v ∈ taken ++ vifs → v ≠ 0) →
  (∀ v, v ∈ vifs → v ∈ dom (mp_vifs p)) →
  ∃ p', add_interfaces p vifs w = Done ((replicate (length vifs) (- EINVAL), p'), w) ∧
    mp_vif p' = taken ++ vifs ++ replicate m 0 ∧ mp_mac_conf_mutex p' = false ∧
    dom (mp_vifs p') = dom (mp_vifs p).
Proof.
  induction vifs as [|vif vifs IH]; intros p taken m w Hm Hl Hz Hin.
  { exists p. by rewrite Hl. }
  assert (vif ∈ dom (mp_vifs p)) as [v Hv]%elem_of_dom by (apply Hin; by left).
  destruct (add_interface_cases p vif v w Hv Hm) as (p1 & Hdom & H).
  change (length (vif :: vifs) + m)%nat with (S (length vifs + m)) in Hl.
  rewrite Hl, (free_slot_app taken (length vifs + m)) in H
    by (intros u Hu; apply Hz, elem_of_app; by left).
  destruct H as (E & Hl1 & Hm1 & _).
  replace (length taken) with (length taken + 0)%nat in Hl1 by lia.
  rewrite insert_app_r in Hl1. cbn in Hl1.
  destruct (IH p1 (taken ++ [vif]) m w Hm1) as (p2 & E2 & Hl2 & Hm2 & Hdom2).
  - by rewrite <-app_assoc.
  - intros u Hu. apply Hz. by rewrite <-app_assoc in Hu.
  - intros u Hu. rewrite Hdom. apply Hin. by right.
  - exists p2. split_and!; [|by rewrite <-app_assoc in Hl2|done|by rewrite Hdom2].
    cbn [add_interfaces]. by rewrite (M_bind_done _ _ _ _ _ E), (M_bind_done _ _ _ _ _ E2).
Qed.

Lemma add_interfaces_app vifs vifs' : ∀ (p : mac_priv) w r r' p1 w1 p2 w2,
  add_interfaces p vifs w = Done ((r, p1), w1) → add_interfaces p1 vifs' w1 = Done ((r', p2), w2) →
  add_interfaces p (vifs ++ vifs') w = Done ((r ++ r', p2), w2).
Proof.
  induction vifs as [|v vifs IH]; intros p w r r' p1 w1 p2 w2 E E'; cbn [add_interfaces app] in *.
  { unfold mret, M_ret in E. by simplify_eq. }
  apply M_bind_inv in E as ([x q1] & u1 & E1 & E). apply M_bind_inv in E as ([xs q2] & u2 & E2 & E).
  unfold mret, M_ret in E. simplify_eq.
  by rewrite (M_bind_done _ _ _ _ _ E1), (M_bind_done _ _ _ _ _ (IH _ _ _ _ _ _ _ _ E2 E')).
Qed.

(** C34.  After [wireless_mac80211_start] four interfaces can be offered; the
    fifth call leaves [mac_conf_mutex] locked, and from then on every callback
    that takes the mutex hangs: another interface, the removal of one, the
    receive filter, the queue parameters. *)
Theorem fifth_interface_blocks (p p1 : mac_priv) vifs vif link ac params changed total w :
  wireless_mac80211_start p w = Done ((0, p1), w) → mp_mac_conf_mutex p = false →
  length vifs = WIRELESS_MAX_NUM_VIF → (∀ v, v ∈ vif :: vifs → v ≠ 0 ∧ v ∈ dom (mp_vifs p)) →
  ∃ p2, add_interfaces p1 (vifs ++ [vif]) w =
      Done ((replicate WIRELESS_MAX_NUM_VIF (- EINVAL) ++ [- EBUSY], p2), w) ∧
    wireless_mac80211_add_interface p2 vif w = Fault Deadlock ∧
    wireless_mac80211_remove_interface p2 vif w = Fault Deadlock ∧
    wireless_mac80211_configure_filter p2 changed total w = Fault Deadlock ∧
    wireless_mac80211_conf_tx p2 vif link ac params w = Fault Deadlock.
Proof.
  intros E Hm Hlen Hvifs. injection E as <-.
  match goal with |- context [add_interfaces ?q _] => set (p1 := q) end.
  destruct (add_all vifs p1 [] 0 w Hm) as (p2 & E2 & Hl2 & Hm2 & Hdom2).
  { cbn. by rewrite Hlen. }
  { intros v Hv. apply Hvifs. by right. }
  { intros v Hv. apply Hvifs. by right. }
  assert (vif ∈ dom (mp_vifs p2)) as Hin by (rewrite Hdom2; apply Hvifs; by left).
  apply elem_of_dom in Hin as [v Hv]. cbn in Hl2. rewrite app_nil_r in Hl2.
  destruct (add_interface_cases p2 vif v w Hv Hm2) as (p3 & Hdom3 & H).
  pose proof (free_vif_slot_spec (mp_vif p2)) as Hs.
  destruct (free_vif_slot (mp_vif p2)) as [i|].
  { destruct Hs as [Hs _]. exfalso. rewrite Hl2 in Hs. apply list_elem_of_lookup_2 in Hs.
    by apply (Hvifs 0); [right|]. }
  destruct H as (E3 & _ & Hm3). exists p3. split.
  - rewrite <-Hlen. apply (add_interfaces_app _ _ _ _ _ _ p2 w _ _ E2).
    cbn [add_interfaces]. by rewrite (M_bind_done _ _ _ _ _ E3).
  - assert (vif ∈ dom (mp_vifs p3)) as Hin3 by (rewrite Hdom3; apply elem_of_dom; eauto).
    apply elem_of_dom in Hin3 as [v3 Hv3].
    destruct (mutex_held_deadlock p3 vif v3 w Hv3 Hm3) as (H1 & H2 & H3 & H4). by split_and!.
Qed.

(** C35.  Removing an interface undoes adding it: after a refused
    [wireless_mac80211_add_interface] that entered the interface in slot [i],
    [wireless_mac80211_remove_interface] restores [priv->vif] and leaves the
    mutex free. *)
Theorem remove_undoes_add (p p1 : mac_priv) vif v ret w w1 :
  mp_vifs p !! vif = Some v → mp_mac_conf_mutex p = false → is_Some (free_vif_slot (mp_vif p)) →
  wireless_mac80211_add_interface p vif w = Done ((ret, p1), w1) →
  ∃ p2, wireless_mac80211_remove_interface p1 vif w1 = Done (p2, w1) ∧
    mp_vif p2 = mp_vif p ∧ mp_mac_conf_mutex p2 = false.
Proof.
  intros Hv Hm [i Hi] E. pose proof (free_vif_slot_spec (mp_vif p)) as Hslot.
  destruct (add_interface_cases p vif v w Hv Hm) as (p' & _ & H). rewrite Hi in H, Hslot.
  destruct Hslot as [H0 _]. destruct H as (E' & Hl & Hm1 & Hv1). rewrite E in E'. injection E' as -> -> ->.
  assert (i < length (mp_vif p))%nat as Hlt by by eapply lookup_lt_Some.
  exists (p' <| mp_mac_conf_mutex := true |> <| mp_vif := <[i := 0]> (mp_vif p) |>
             <| mp_mac_conf_mutex := false |>).
  split; [|split; [|reflexivity]].
  - unfold wireless_mac80211_remove_interface. rewrite (M_bind_done _ _ _ _ _ (get_vif_done _ _ _ w Hv1)).
    rewrite (M_bind_done _ _ _ _ _ (mutex_lock_done _ w Hm1)). cbv zeta.
    change (mp_vif (p' <| mp_mac_conf_mutex := true |>)) with (mp_vif p').
    change (sv_vif_id (vif_drv_priv (v <| vif_drv_priv := _ |>))) with (Z.of_nat i).
    rewrite Hl, length_insert. unfold assert. rewrite bool_decide_true by lia.
    rewrite (M_bind_done _ _ w tt w) by done. rewrite Nat2Z.id, list_insert_insert_eq. reflexivity.
  - cbn. by rewrite list_insert_id.
Qed.

(* ------------------------------------------------------------------ *)
(** ** Queue parameters and filters *)

(** The parameters of an access category. *)
Definition ac_params (ac : Z) (s : wireless_simu_vif) : wireless_simu_tx_params_arg :=
  if decide (ac = IEEE80211_AC_VO) then sv_ac_vo s
  else if decide (ac = IEEE80211_AC_BE) then sv_ac_be s
  else if decide (ac = IEEE80211_AC_BK) then sv_ac_bk s
  else sv_ac_vi s.

Lemma conf_ac_spec ac f s s' : conf_ac ac f s = Some s' →
  sv_vif_id s' = sv_vif_id s ∧
  ∀ ac', ac' ∈ [IEEE80211_AC_VO; IEEE80211_AC_VI; IEEE80211_AC_BE; IEEE80211_AC_BK] →
    ac_params ac' s' = if decide (ac' = ac) then f (ac_params ac s) else ac_params ac' s.
Proof.
  pose proof acs_distinct as Hd. rewrite !NoDup_cons, !not_elem_of_cons in Hd.
  unfold conf_ac, ac_params. intros H.
  repeat case_decide; simplify_eq; (split; [done|]); intros ac' Hac';
    rewrite !elem_of_cons, elem_of_nil in Hac'; repeat case_decide; subst; try done; naive_solver.
Qed.

(** [wireless_mac80211_conf_tx] sets the four parameters of the access
    category it is given and of no other, on the interface it is given and on
    no other; another category is refused with -EINVAL and changes nothing.
    The mutex is free in both cases. *)
Theorem conf_tx_sets_one_ac (p : mac_priv) vif v link ac params w :
  mp_vifs p !! vif = Some v → mp_mac_conf_mutex p = false →
  let acs := [IEEE80211_AC_VO; IEEE80211_AC_VI; IEEE80211_AC_BE; IEEE80211_AC_BK] in
  ∃ ret p', wireless_mac80211_conf_tx p vif link ac params w = Done ((ret, p'), w) ∧
    mp_mac_conf_mutex p' = false ∧ (∀ vif', vif' ≠ vif → mp_vifs p' !! vif' = mp_vifs p !! vif') ∧
    if decide (ac ∈ acs)
    then ret = 0 ∧ ∃ s, mp_vifs p' !! vif = Some (v <| vif_drv_priv := s |>) ∧
      ∀ ac', ac' ∈ acs → let arg := ac_params ac' s in let old := ac_params ac' (vif_drv_priv v) in
        if decide (ac' = ac)
        then arg = TxParamsArg (arg_acm old) (qp_aifs params) (qp_cw_min params) (qp_cw_max params)
                     (qp_txop params) (arg_no_ack old)
        else arg = old
    else ret = - EINVAL ∧ mp_vifs p' = mp_vifs p.
Proof.
  intros Hv Hm acs. unfold wireless_mac80211_conf_tx. rewrite (M_bind_done _ _ _ _ _ (get_vif_done _ _ _ w Hv)).
  rewrite (M_bind_done _ _ _ _ _ (mutex_lock_done _ w Hm)).
  match goal with |- context [conf_ac ac ?g _] => set (f := g) end.
  destruct (conf_ac ac f (vif_drv_priv v)) as [s|] eqn:Hc.
  - destruct (conf_ac_spec _ _ _ _ Hc) as [_ Hs].
    eexists 0, _. split; [reflexivity|]. split; [done|]. split; [intros vif' Hne; cbn; by rewrite lookup_insert_ne by congruence|].
    rewrite decide_True.
    2: { unfold conf_ac in Hc. subst acs. rewrite !elem_of_cons. repeat case_decide; simplify_eq; tauto. }
    split; [done|]. exists s. split; [apply lookup_insert_eq|]. intros ac' Hac'.
    rewrite (Hs ac' Hac'). case_decide; [subst|done]. by destruct (ac_params _ _).
  - eexists (- EINVAL), _. split; [reflexivity|]. split; [done|]. split; [done|].
    rewrite decide_False; [done|]. subst acs. rewrite !elem_of_cons, elem_of_nil. unfold conf_ac in Hc.
    repeat case_decide; simplify_eq; tauto.
Qed.
End iface.

(* ------------------------------------------------------------------ *)
(** ** Channels and rates *)

(** The numbering of IEEE 802.11: 2.4 GHz, 5 GHz, 6 GHz. *)
Definition freq_2ghz (n : Z) : Z := if decide (n = 14) then 2484 else 2407 + 5 * n.
Definition freq_5ghz (n : Z) : Z := 5000 + 5 * n.
Definition freq_6ghz (n : Z) : Z := if decide (n = 2) then 5935 else 5950 + 5 * n.

Definition plan_ok (freq : Z → Z) (l : list ieee80211_channel) : Prop :=
  NoDup (ch_hw_value <$> l) ∧ NoDup (ch_center_freq <$> l) ∧
  Forall (λ c, ch_center_freq c = freq (ch_hw_value c)) l.

(** The three channel tables follow the numbering of IEEE 802.11, without
    duplicates; the 5 GHz rates, the tail of the rate table, are the OFDM
    rates in rising order with eight different hardware codes, and every rate
    with a short preamble has a code of its own for it. *)
Theorem tables_well_formed :
  plan_ok freq_2ghz wireless_simu_2ghz_channels ∧ plan_ok freq_5ghz wireless_simu_5ghz_channels ∧
  plan_ok freq_6ghz wireless_simu_6ghz_channels ∧
  rate_bitrate <$> wireless_simu_a_rates = [60; 90; 120; 180; 240; 360; 480; 540] ∧
  NoDup (rate_hw_value <$> wireless_simu_a_rates) ∧
  NoDup (rate_hw_value_short <$> filter (λ r, rate_short r = true) wireless_simu_g_rates) ∧
  Forall (λ r, rate_short r = true → rate_hw_value_short r = rate_hw_value r + 4) wireless_simu_g_rates.
Proof. unfold plan_ok. split_and!; try apply (bool_decide_unpack _); by vm_compute. Qed.
