(* ===== verification/MacFrames.v ===== *)
(** * Management frames from mac80211 to the firmware

    Theorems on [wireless_mac80211_tx], [wireless_simu_mac_mgmt_tx],
    [wireless_simu_mgmt_tx_work_func] and [wireless_simu_mgmt_tx_wmi]
    (src/driver/driver_wireless/wireless_mac80211.c): what happens to a frame
    from the callback to the command handed to the device. *)

From S2P Require Import Prelude Kernel Bits HalTypes Hif Skb Ieee80211 Dp Wmi WmiSend MacTypes Mac80211.
From S2P Require Import MacIface.

Section tx.
Context `{K : Kernel} `{SO : SkbOk} `{I : Ieee80211}.

(** The first two bytes, as the driver reads them. *)
Definition fc_of (b : sk_buff) : Z :=
  match skb_data (sb_buf b) with b0 :: b1 :: _ => b0 + 2 ^ 8 * b1 | _ => 0 end.

Lemma frame_control_done b w : (2 ≤ length (skb_data (sb_buf b)))%nat →
  frame_control b w = Done (fc_of b, w).
Proof.
  unfold frame_control, fc_of. destruct (skb_data (sb_buf b)) as [|b0 [|b1 l]]; cbn; [lia|lia|done].
Qed.

(** The limits of [wireless_simu_mac_mgmt_tx]: 512 queued frames, and 48
    pending ones for probe responses. *)
Definition mgmt_refused (p : mac_priv) (fc : Z) : Prop :=
  512 ≤ Z.of_nat (length (mp_mgmt_tx_queue p)) ∨
  ieee80211_is_probe_resp fc = true ∧ 48 < mp_num_pending_mgmt_tx p.
#[global] Instance mgmt_refused_dec p fc : Decision (mgmt_refused p fc).
Proof. apply _. Defined.

(** The control block the driver writes. *)
Definition tx_cb (key : option Z) (vif : Z) : wireless_simu_skb_cb :=
  SkbCb 0 (match key with Some _ => WIRELESS_SIMU_SKB_CIPHER_SET | None => 0 end)
    (default 0 key) vif.

Lemma mac_mgmt_tx_cases (p : mac_priv) skb fc w :
  wireless_simu_mac_mgmt_tx p skb (ieee80211_is_probe_resp fc) w =
    if decide (mgmt_refused p fc) then Done ((- ENOSPC, p), w)
    else Done ((0, p <| mp_mgmt_tx_queue := mp_mgmt_tx_queue p ++ [skb] |>
                     <| mp_num_pending_mgmt_tx := s32 (mp_num_pending_mgmt_tx p + 1) |>
                     <| mp_mgmt_tx_work := true |>), w).
Proof.
  unfold wireless_simu_mac_mgmt_tx, WIRELESS_SIMU_TX_MGMT_NUM_PENDING_MAX.
  change WIRELESS_SIMU_PRB_RSP_DROP_THRESHOLD with 48.
  destruct (decide (mgmt_refused p fc)) as [H|H]; unfold mgmt_refused in H;
    destruct (ieee80211_is_probe_resp fc); cbn [Is_true]; repeat case_decide; try done; naive_solver.
Qed.

(** What the callback leaves alone, besides the frame and the queue. *)
Definition mac_fixed (p : mac_priv) : Z * ieee80211_hw * list Z * gmap Z ieee80211_vif :=
  (mp_hw p, mp_hw_val p, mp_vif p, mp_vifs p).
Definition mac_locks (p : mac_priv) : bool * bool * bool :=
  (mp_mac_conf_mutex p, mp_txmgmt_idr_lock p, wp_htc_tx_lock (mp_wmi p)).

Lemma tx_cases (p : mac_priv) key vif skb b w :
  mp_skbs p !! skb = Some b → (2 ≤ length (skb_data (sb_buf b)))%nat →
  ∃ p' cb, wireless_mac80211_tx p key vif skb w = Done (p', w) ∧
    mac_fixed p' = mac_fixed p ∧ mac_locks p' = mac_locks p ∧
    let b' := b <| sb_cb := cb |> in
    if decide (flag_set (sb_info_flags b) IEEE80211_TX_CTL_HW_80211_ENCAP = true ∨
               ieee80211_is_mgmt (fc_of b) = false)
    then mp_skbs p' = <[skb := b']> (mp_skbs p) ∧ mp_mgmt_tx_queue p' = mp_mgmt_tx_queue p ∧
         mp_num_pending_mgmt_tx p' = mp_num_pending_mgmt_tx p ∧ mp_mgmt_tx_work p' = mp_mgmt_tx_work p
    else if decide (mgmt_refused p (fc_of b))
    then mp_skbs p' = delete skb (mp_skbs p) ∧ mp_mgmt_tx_queue p' = mp_mgmt_tx_queue p ∧
         mp_num_pending_mgmt_tx p' = mp_num_pending_mgmt_tx p ∧ mp_mgmt_tx_work p' = mp_mgmt_tx_work p
    else cb = tx_cb key vif ∧ mp_skbs p' = <[skb := b']> (mp_skbs p) ∧
         mp_mgmt_tx_queue p' = mp_mgmt_tx_queue p ++ [skb] ∧
         (length (mp_mgmt_tx_queue p') ≤ 512)%nat ∧
         mp_num_pending_mgmt_tx p' = s32 (mp_num_pending_mgmt_tx p + 1) ∧ mp_mgmt_tx_work p' = true.
Proof.
  intros Hb Hlen. unfold wireless_mac80211_tx.
  rewrite (M_bind_done _ _ _ _ _ (get_skb_done _ _ _ w Hb)). cbv zeta.
  assert (match key with None => skb_cb_zero <| cb_vif := vif |>
    | Some cipher => skb_cb_zero <| cb_vif := vif |> <| cb_cipher := cipher |> <| cb_flags :=
        Z.lor (cb_flags (skb_cb_zero <| cb_vif := vif |>)) WIRELESS_SIMU_SKB_CIPHER_SET |> end = tx_cb key vif)
    as -> by by destruct key.
  destruct (flag_set (sb_info_flags b) IEEE80211_TX_CTL_HW_80211_ENCAP).
  { rewrite (M_bind_done _ _ _ _ _ (set_cb_done _ _ _ _ w Hb)).
    eexists _, _. split; [reflexivity|]. do 2 (split; [done|]). rewrite decide_True by by left. done. }
  rewrite (M_bind_done _ _ _ _ _ (set_cb_done _ _ _ _ w Hb)).
  rewrite (M_bind_done _ _ _ _ _ (frame_control_done b w Hlen)).
  destruct (ieee80211_is_mgmt (fc_of b)).
  2: { eexists _, _. split; [reflexivity|]. do 2 (split; [done|]). rewrite decide_True by by right. done. }
  assert (¬ (false = true ∨ true = false)) as Hno by naive_solver.
  set (b' := b <| sb_cb := tx_cb key vif |>). set (p1 := set_skbs p _).
  pose proof (mac_mgmt_tx_cases p1 skb (fc_of b) w) as E.
  change (mgmt_refused p1 (fc_of b)) with (mgmt_refused p (fc_of b)) in E.
  destruct (decide (mgmt_refused p (fc_of b))) as [Hr|Hr]; rewrite (M_bind_done _ _ _ _ _ E).
  - rewrite decide_True by done. unfold ieee80211_free_txskb.
    rewrite (M_bind_done _ _ _ _ _ (kfree_skb_done (mp_skbs p1) skb b' w (lookup_insert_eq _ _ _))).
    eexists _, (sb_cb b). split; [reflexivity|]. do 2 (split; [done|]). rewrite decide_False by done.
    split; [|done]. cbn. apply delete_insert_eq.
  - rewrite decide_False by (intros H; by apply H).
    eexists _, _. split; [reflexivity|]. do 2 (split; [done|]). rewrite decide_False by done. split_and!; try done.
    cbn. rewrite length_app. cbn. unfold mgmt_refused in Hr. cbn in Hr. lia.
Qed.

(** C20.  Every frame mac80211 hands over has one of three fates.
    [wireless_mac80211_tx] never faults on a frame of at least two bytes.  A
    management frame goes to the end of the queue, with its interface and
    cipher noted and the work item scheduled, or is freed; it is freed exactly
    when 512 frames are queued, or when it is a probe response and more than 48
    frames count as pending.  Any other frame is neither queued nor freed: it
    stays allocated, with nothing that refers to it. *)
Theorem tx_frame_fate (p : mac_priv) key vif skb b w :
  mp_skbs p !! skb = Some b → (2 ≤ length (skb_data (sb_buf b)))%nat →
  ∃ p' cb, wireless_mac80211_tx p key vif skb w = Done (p', w) ∧
    let b' := b <| sb_cb := cb |> in
    if decide (flag_set (sb_info_flags b) IEEE80211_TX_CTL_HW_80211_ENCAP = true ∨
               ieee80211_is_mgmt (fc_of b) = false)
    then mp_skbs p' = <[skb := b']> (mp_skbs p) ∧ mp_mgmt_tx_queue p' = mp_mgmt_tx_queue p ∧
         mp_num_pending_mgmt_tx p' = mp_num_pending_mgmt_tx p ∧ mp_mgmt_tx_work p' = mp_mgmt_tx_work p
    else if decide (mgmt_refused p (fc_of b))
    then mp_skbs p' = delete skb (mp_skbs p) ∧ mp_mgmt_tx_queue p' = mp_mgmt_tx_queue p ∧
         mp_num_pending_mgmt_tx p' = mp_num_pending_mgmt_tx p ∧ mp_mgmt_tx_work p' = mp_mgmt_tx_work p
    else cb = tx_cb key vif ∧ mp_skbs p' = <[skb := b']> (mp_skbs p) ∧
         mp_mgmt_tx_queue p' = mp_mgmt_tx_queue p ++ [skb] ∧
         (length (mp_mgmt_tx_queue p') ≤ 512)%nat ∧
         mp_num_pending_mgmt_tx p' = s32 (mp_num_pending_mgmt_tx p + 1) ∧ mp_mgmt_tx_work p' = true.
Proof.
  intros Hb Hlen. destruct (tx_cases p key vif skb b w Hb Hlen) as (p' & cb & E & _ & _ & H).
  by exists p', cb.
Qed.
End tx.

(* ------------------------------------------------------------------ *)
(** ** The work item *)

Section work.
Context `{KO : KernelOk} `{BO : BitsOk} `{SO : SkbOk} `{IO : Ieee80211Ok} `{AO : Mac80211Ok} (big : bool).

(** A queued frame the driver can send: its header, room for the integrity
    code ([IEEE80211_ENCRYPT_TAILROOM], which mac80211 reserves), and its
    interface. *)
Record frame_ready (p : mac_priv) (b : sk_buff) : Prop := {
  fr_header : (2 ≤ length (skb_data (sb_buf b)))%nat;
  fr_tail : 16 ≤ skb_tailroom (sb_buf b);
  fr_vif : cb_vif (sb_cb b) = 0 ∨ is_Some (mp_vifs p !! cb_vif (sb_cb b))
}.

(** The locks the send path takes are free; and the mutex of the work item. *)
Definition tx_unlocked (p : mac_priv) : Prop :=
  mp_txmgmt_idr_lock p = false ∧ wp_htc_tx_lock (mp_wmi p) = false.
Definition unlocked (p : mac_priv) : Prop := mp_mac_conf_mutex p = false ∧ tx_unlocked p.

(** The work on frame [skb] leaves the other buffers alone. *)
Definition others_kept (skb : Z) (s s' : skbs) : Prop :=
  ∀ q b, q ≠ skb → s !! q = Some b → s' !! q = Some b.

Lemma others_kept_trans skb s1 s2 s3 : others_kept skb s1 s2 → others_kept skb s2 s3 → others_kept skb s1 s3.
Proof. unfold others_kept. naive_solver. Qed.

(** Room for the integrity code is put at the end. *)
Lemma tx_encrypt_done (p : mac_priv) skb b w : mp_skbs p !! skb = Some b →
  (2 ≤ length (skb_data (sb_buf b)))%nat → 16 ≤ skb_tailroom (sb_buf b) →
  ∃ b', mgmt_tx_encrypt p skb w = Done (set_skbs p (<[skb := b']> (mp_skbs p)), w) ∧ sb_cb b' = sb_cb b.
Proof.
  intros Hb Hlen Ht. unfold mgmt_tx_encrypt. rewrite (M_bind_done _ _ _ _ _ (get_skb_done _ _ _ w Hb)).
  assert (p = set_skbs p (<[skb := b]> (mp_skbs p))) as Hp.
  { rewrite insert_id by done. destruct p as [[]]. reflexivity. }
  destruct (flag_set _ _); [exists b; by rewrite <-Hp|].
  rewrite (M_bind_done _ _ _ _ _ (frame_control_done b w Hlen)).
  destruct (_ && _); [|exists b; by rewrite <-Hp]. cbv zeta.
  fold (suite_mic_len (cb_cipher (sb_cb b))).
  pose proof (suite_mic_len_range (cb_cipher (sb_cb b))).
  destruct (skb_put_done (mp_skbs p) skb b (suite_mic_len (cb_cipher (sb_cb b))) w Hb)
    as (b' & t & E & Hcb & _); [lia|].
  exists b'. by rewrite (M_bind_done _ _ _ _ _ E).
Qed.

(** One frame: sent under a fresh id, or not sent and no id taken. *)
Inductive tx_result (p : mac_priv) (skb : Z) (w w' : world) : Z → gmap Z Z → Prop :=
  | tx_sent id : 0 ≤ id < WIRELESS_SIMU_TX_MGMT_NUM_PENDING_MAX → mp_txmgmt_idr p !! id = None →
      tx_result p skb w w' 0 (<[id := skb]> (mp_txmgmt_idr p))
  | tx_failed ret : ret ∈ [- ENOSPC; - EIO; - ENOMEM; - ESHUTDOWN] → w_map w' = w_map w →
      tx_result p skb w w' ret (mp_txmgmt_idr p).

Definition tx_after (p : mac_priv) (wmi : wmi_priv) (idr : gmap Z Z) : mac_priv :=
  p <| mp_wmi := wmi |> <| mp_txmgmt_idr := idr |>.

Lemma free_idr_done (p : mac_priv) wmi id skb ret w : mp_txmgmt_idr_lock p = false →
  mp_txmgmt_idr p !! id = None →
  mgmt_tx_free_idr (tx_after p wmi (<[id := skb]> (mp_txmgmt_idr p))) id ret w =
    Done ((ret, tx_after p wmi (mp_txmgmt_idr p)), w).
Proof.
  intros Hl Hid. unfold mgmt_tx_free_idr, lock_acquire, tx_after. cbn [mp_txmgmt_idr_lock update update_with].
  rewrite Hl, (M_bind_done _ _ w true w), (M_bind_done _ _ w false w) by done. cbn.
  rewrite delete_insert_id by done. by destruct p; cbn in *; subst.
Qed.

(** What sending frame [skb] does to the buffers: the frame stays, the others
    are left alone, at most one is new; and at most one mapping is. *)
Record tx_grown (p : mac_priv) (skb : Z) (w w' : world) (wmi' : wmi_priv) : Prop := {
  tg_others : others_kept skb (mp_skbs p) (wp_skbs wmi');
  tg_frame : is_Some (wp_skbs wmi' !! skb);
  tg_size : (size (wp_skbs wmi') ≤ S (size (mp_skbs p)))%nat;
  tg_maps : (size (w_map w') ≤ S (size (w_map w)))%nat
}.

(** The frame at [pa]: handed to the command path, or unmapped again. *)
Lemma tx_mapped_cases n (p : mac_priv) vif v id skb b w m pa : tx_unlocked p →
  mp_vifs p !! vif = Some v → is_Some (mp_skbs p !! skb) →
  mp_txmgmt_idr p !! id = None → 0 ≤ id < WIRELESS_SIMU_TX_MGMT_NUM_PENDING_MAX →
  m !! pa = None → w_map w = <[pa := skb_len (sb_buf b)]> m →
  ∃ ret wmi' idr' w', mgmt_tx_mapped big n (tx_after p (mp_wmi p <| wp_skbs := <[skb := b]> (mp_skbs p) |>)
      (<[id := skb]> (mp_txmgmt_idr p))) vif id skb pa w = Done ((ret, tx_after p wmi' idr'), w') ∧
    tx_result p skb (w <| w_map := m |>) w' ret idr' ∧ only_maps (w <| w_map := m |>) w' ∧ wp_htc_tx_lock wmi' = false ∧
    tx_grown p skb w w' wmi'.
Proof.
  intros (Hl & Hh) Hv Hskb Hfresh Hid Hnone Hmap. unfold mgmt_tx_mapped.
  set (q := tx_after p _ _).
  rewrite (M_bind_done _ _ _ _ _ (set_cb_done (mp_skbs q) skb b _ w (lookup_insert_eq _ _ _))).
  change (mp_skbs q) with (<[skb := b]> (mp_skbs p)). rewrite insert_insert_eq.
  set (b2 := b <| sb_cb := _ |>). set (wmi2 := mp_wmi p <| wp_skbs := <[skb := b2]> (mp_skbs p) |>).
  assert (size (wp_skbs wmi2) = size (mp_skbs p)) as Hsz2
    by (cbn; by apply map_size_insert_Some).
  cbv zeta. rewrite (M_bind_done _ _ w v w) by (unfold get_vif; cbn; by rewrite Hv).
  change (mp_wmi (set_skbs q _)) with wmi2. set (vif_id := sv_vif_id (vif_drv_priv v)).
  destruct (mgmt_send_cases big n wmi2 w vif_id id skb b2 (lookup_insert_eq _ _ _) Hh)
    as (ret & wmi3 & w3 & E & Hsent).
  destruct (mgmt_sent_summary _ _ _ _ _ _ _ _ _ Hsent) as (Hsame & Hlock & Hkept & Hs3 & Hm3' & Hret).
  rewrite (M_bind_done _ _ _ _ _ E).
  change (set_skbs q (<[skb := b2]> (mp_skbs p)) <| mp_wmi := wmi3 |>)
    with (tx_after p wmi3 (<[id := skb]> (mp_txmgmt_idr p))).
  assert (wp_skbs wmi3 !! skb = Some b2) as Hb3 by apply Hkept, lookup_insert_eq.
  assert (others_kept skb (mp_skbs p) (wp_skbs wmi3)) as Hoth
    by (intros x y Hx Hy; apply Hkept; cbn; by rewrite lookup_insert_ne).
  destruct Hret as [->|[Hret Hm3]].
  { rewrite decide_False by (intros H; by apply H). eexists 0, wmi3, _, w3. split; [done|].
    split; [by constructor|].
    split_and!; [|by rewrite Hlock|split; [done|by rewrite Hb3|by rewrite <-Hsz2|done]].
    destruct Hsame as [[] ? ? Hsub]. split; [by split|done|done|]. cbn. etrans; [|exact Hsub].
    rewrite Hmap. by apply insert_subseteq. }
  rewrite decide_True by (intros ->; revert Hret; by rewrite !elem_of_cons, elem_of_nil; unfold ENOSPC, EIO, ENOMEM, ESHUTDOWN; intros; lia).
  rewrite (M_bind_done _ _ _ _ _ (get_skb_done (mp_skbs (tx_after p wmi3 _)) skb b2 w3 Hb3)).
  assert (dma_unmap_single pa (skb_len (sb_buf b2)) w3 = Done (tt, w3 <| w_map := m |>)) as E4.
  { unfold dma_unmap_single. rewrite Hm3, Hmap, decide_True by apply lookup_insert_eq.
    by rewrite delete_insert_id. }
  rewrite (M_bind_done _ _ _ _ _ E4), (free_idr_done p wmi3 id skb) by done.
  eexists ret, wmi3, _, _. split; [reflexivity|]. split; [constructor; [set_solver|done]|].
  split_and!; [by destruct Hsame as [[]]|by rewrite Hlock|].
  split; [done|by rewrite Hb3|by rewrite <-Hsz2|].
  cbn. rewrite Hmap, map_size_insert_None by done. lia.
Qed.

Lemma mgmt_tx_wmi_cases n (p : mac_priv) vif v skb b w : mp_skbs p !! skb = Some b →
  mp_vifs p !! vif = Some v →
  (2 ≤ length (skb_data (sb_buf b)))%nat → 16 ≤ skb_tailroom (sb_buf b) → tx_unlocked p →
  ∃ ret wmi' idr' w', wireless_simu_mgmt_tx_wmi big n p vif skb w =
      Done ((ret, tx_after p wmi' idr'), w') ∧
    tx_result p skb w w' ret idr' ∧ only_maps w w' ∧ wp_htc_tx_lock wmi' = false ∧
    others_kept skb (mp_skbs p) (wp_skbs wmi') ∧ is_Some (wp_skbs wmi' !! skb) ∧
    (size (wp_skbs wmi') ≤ S (size (mp_skbs p)))%nat ∧ (size (w_map w') ≤ size (w_map w) + 2)%nat.
Proof.
  intros Hb Hv Hlen Ht Hu. pose proof Hu as (Hl & Hh).
  unfold wireless_simu_mgmt_tx_wmi, lock_acquire, get_world.
  rewrite Hl, (M_bind_done _ _ w true w), (M_bind_done _ _ w w w) by done. cbv zeta.
  rewrite (M_bind_done _ _ w false w) by done.
  pose proof (idr_alloc_spec w (dom (mp_txmgmt_idr p)) 0 WIRELESS_SIMU_TX_MGMT_NUM_PENDING_MAX) as Hid.
  cbv zeta in Hid. set (id := k_idr_alloc _ _ _ _) in *.
  case_decide as Hneg.
  { exists (- ENOSPC), (mp_wmi p), (mp_txmgmt_idr p), w.
    split; [by destruct p; cbn in *; subst|]. split; [by constructor; [set_solver|]|].
    split_and!; [done|done|by intros q x|by exists b|apply Nat.le_succ_diag_r|lia]. }
  destruct Hid as [?|[Hid Hfresh]]; [done|]. apply not_elem_of_dom in Hfresh.
  set (idr1 := <[id := skb]> (mp_txmgmt_idr p)).
  assert (p <| mp_txmgmt_idr := idr1 |> <| mp_txmgmt_idr_lock := false |> = tx_after p (mp_wmi p) idr1)
    as -> by (by destruct p; cbn in *; subst).
  destruct (tx_encrypt_done (tx_after p (mp_wmi p) idr1) skb b w Hb Hlen Ht) as (b1 & E1 & Hcb1).
  rewrite (M_bind_done _ _ _ _ _ E1).
  set (q1 := tx_after p (mp_wmi p <| wp_skbs := <[skb := b1]> (mp_skbs p) |>) idr1).
  change (set_skbs _ _) with q1.
  rewrite (M_bind_done _ _ _ _ _ (get_skb_done (mp_skbs q1) skb b1 w (lookup_insert_eq _ _ _))).
  destruct (dma_map_cases (k_skb_addr skb (sb_buf b1)) (skb_len (sb_buf b1)) w)
    as (pa & [[E2 Herr]|(E2 & Herr & Hnone)]); rewrite (M_bind_done _ _ _ _ _ E2);
    unfold dma_mapping_error; rewrite M_bind_ret, Herr.
  - subst q1 idr1. rewrite (free_idr_done p _ id skb) by done.
    eexists (- EIO), _, _, _. split; [reflexivity|]. split; [by constructor; [set_solver|]|].
    split_and!; [done|done| |cbn; by rewrite lookup_insert_eq|
      cbn; rewrite map_size_insert_Some by (by exists b); lia|cbn; lia].
    intros q x Hq Hx. cbn. by rewrite lookup_insert_ne.
  - set (w1 := (tick w) <| w_map := _ |>).
    assert (w_map w1 = <[pa := skb_len (sb_buf b1)]> (w_map w)) as Hm1 by reflexivity.
    destruct (tx_mapped_cases n p vif v id skb b1 w1 (w_map w) pa Hu Hv (mk_is_Some _ _ Hb) Hfresh Hid Hnone Hm1)
      as (ret & wmi' & idr' & w' & E & Hres & Hsame & Hlock & [Hoth Hfr Hsz Hmsz]).
    exists ret, wmi', idr', w'. split; [exact E|]. split_and!; [| |done..|].
    + destruct Hres as [|? ? Hm]; by constructor.
    + etrans; [|exact Hsame]. by split.
    + rewrite Hm1, map_size_insert_None in Hmsz by done. lia.
Qed.

(** With the interface gone, sending reads freed memory - unless it ended before,
    for want of an id or of a mapping. *)
Lemma mgmt_tx_wmi_freed n (p : mac_priv) vif skb b w : mp_skbs p !! skb = Some b →
  (2 ≤ length (skb_data (sb_buf b)))%nat → 16 ≤ skb_tailroom (sb_buf b) → tx_unlocked p →
  vif ≠ 0 → mp_vifs p !! vif = None →
  0 ≤ k_idr_alloc w (dom (mp_txmgmt_idr p)) 0 WIRELESS_SIMU_TX_MGMT_NUM_PENDING_MAX →
  (∀ a len, k_dma_mapping_error (k_dma_map w a len) = false) →
  wireless_simu_mgmt_tx_wmi big n p vif skb w = Fault Unmapped.
Proof.
  intros Hb Hlen Ht (Hl & Hh) Hvz Hv Hid Hmap. unfold wireless_simu_mgmt_tx_wmi, lock_acquire, get_world.
  rewrite Hl, (M_bind_done _ _ w true w), (M_bind_done _ _ w w w) by done. cbv zeta.
  rewrite (M_bind_done _ _ w false w), !decide_False by (done || lia).
  set (id := k_idr_alloc _ _ _ _) in *.
  set (p1 := p <| mp_txmgmt_idr := _ |> <| mp_txmgmt_idr_lock := _ |>).
  destruct (tx_encrypt_done p1 skb b w Hb Hlen Ht) as (b1 & E1 & Hcb1).
  rewrite (M_bind_done _ _ _ _ _ E1).
  set (p2 := set_skbs p1 _).
  rewrite (M_bind_done _ _ _ _ _ (get_skb_done (mp_skbs p2) skb b1 w (lookup_insert_eq _ _ _))).
  destruct (dma_map_cases (k_skb_addr skb (sb_buf b1)) (skb_len (sb_buf b1)) w)
    as (pa & [[E2 Herr]|(E2 & Herr & Hnone)]).
  { unfold dma_map_single in E2. injection E2 as E2 _. rewrite <-E2, Hmap in Herr. done. }
  rewrite (M_bind_done _ _ _ _ _ E2). unfold dma_mapping_error. rewrite M_bind_ret, Herr.
  unfold mgmt_tx_mapped.
  rewrite (M_bind_done _ _ _ _ _ (set_cb_done (mp_skbs p2) skb b1 _ _ (lookup_insert_eq _ _ _))).
  cbv zeta. apply M_bind_fault. unfold get_vif. cbn. by rewrite Hv, decide_False.
Qed.

(** What the pending counter becomes: only frames without an interface count
    down, and never below 0. *)
Definition pending_step (s : skbs) (n skb : Z) : Z :=
  match s !! skb with
  | Some b => if decide (cb_vif (sb_cb b) = 0 ∧ 0 < n) then n - 1 else n
  | None => n
  end.

Lemma pending_agree (s s' : skbs) fs n : (∀ q b, q ∈ fs → s !! q = Some b → s' !! q = Some b) →
  (∀ q, q ∈ fs → is_Some (s !! q)) → foldl (pending_step s') n fs = foldl (pending_step s) n fs.
Proof.
  revert n. induction fs as [|q fs IH]; intros n Hk Hs; [done|]. cbn.
  assert (pending_step s' n q = pending_step s n q) as ->.
  { destruct (Hs q (list_elem_of_here _ _)) as [b Hb]. unfold pending_step.
    by rewrite (Hk q b (list_elem_of_here _ _) Hb), Hb. }
  apply IH; set_solver.
Qed.

(** What the frames [fs] leave behind. *)
Record worked (p : mac_priv) (w : world) (fs : list Z) (p' : mac_priv) (w' : world) : Prop := {
  wk_locks : mac_locks p' = mac_locks p;
  wk_maps : only_maps w w';
  wk_fixed : mac_fixed p' = mac_fixed p;
  wk_idr : mp_txmgmt_idr p ⊆ mp_txmgmt_idr p';
  wk_new id q : mp_txmgmt_idr p' !! id = Some q → mp_txmgmt_idr p !! id = Some q ∨
    0 ≤ id < WIRELESS_SIMU_TX_MGMT_NUM_PENDING_MAX ∧ q ∈ fs;
  wk_others q b : q ∉ fs → mp_skbs p !! q = Some b → mp_skbs p' !! q = Some b;
  wk_frames q b : q ∈ fs → mp_skbs p !! q = Some b → cb_vif (sb_cb b) ≠ 0 → is_Some (mp_skbs p' !! q);
  wk_pending : mp_num_pending_mgmt_tx p' = foldl (pending_step (mp_skbs p)) (mp_num_pending_mgmt_tx p) fs;
  wk_size : (size (mp_skbs p') ≤ size (mp_skbs p) + length fs)%nat;
  wk_mapped : (size (w_map w') ≤ size (w_map w) + 2 * length fs)%nat
}.

Lemma worked_nil p w : worked p w [] p w.
Proof. split; try done; try (by left); try (cbn; lia); set_solver. Qed.

Lemma locks_unlocked (p p' : mac_priv) : mac_locks p' = mac_locks p → tx_unlocked p → tx_unlocked p'.
Proof. intros H [H1 H2]. injection H as _ E1 E2. split; congruence. Qed.
Lemma locks_mutex (p p' : mac_priv) : mac_locks p' = mac_locks p → mp_mac_conf_mutex p' = mp_mac_conf_mutex p.
Proof. by intros [=]. Qed.

Lemma worked_cons p w q fs p1 w1 p2 w2 : q ∉ fs → (∀ x, x ∈ fs → is_Some (mp_skbs p !! x)) →
  worked p w [q] p1 w1 → worked p1 w1 fs p2 w2 → worked p w (q :: fs) p2 w2.
Proof.
  intros Hq Hs [Hl1 Hb1 Hv1 Hi1 Hn1 Ho1 Hf1 Hp1 Hz1 Hm1] [Hl2 Hb2 Hv2 Hi2 Hn2 Ho2 Hf2 Hp2 Hz2 Hm2].
  cbn [length] in Hz1, Hm1. split; [congruence|by etrans| | | | | | |cbn; lia|cbn; lia].
  - congruence.
  - by etrans.
  - intros id x Hx. destruct (Hn2 id x Hx) as [Hx1|[? ?]]; [|set_solver].
    destruct (Hn1 id x Hx1) as [?|[? ?]]; [by left|]. set_solver.
  - intros x b Hx Hb. apply Ho2; [set_solver|]. apply Ho1; [set_solver|done].
  - intros x b Hx Hb Hc. destruct (decide (x = q)) as [->|Hne].
    + destruct (Hf1 q b) as [b' Hb']; [set_solver|done..|]. exists b'. by apply Ho2.
    + apply (Hf2 x b); [set_solver| |done]. apply Ho1; [set_solver|done].
  - rewrite Hp2, Hp1. cbn. apply pending_agree; [|done].
    intros x b Hx Hb. apply Ho1; [set_solver|done].
Qed.

(** One frame: the mutex is needed only for a frame with an interface. *)
Lemma work_one_done n (p : mac_priv) skb b w : mp_skbs p !! skb = Some b → frame_ready p b →
  tx_unlocked p → mp_mac_conf_mutex p = false ∨ cb_vif (sb_cb b) = 0 →
  ∃ p' w', mgmt_tx_work_one big n p skb w = Done (p', w') ∧
    worked p w [skb] p' w' ∧ mp_mgmt_tx_queue p' = mp_mgmt_tx_queue p.
Proof.
  intros Hb [Hlen Ht Hv] Hu Hm. unfold mgmt_tx_work_one.
  rewrite (M_bind_done _ _ _ _ _ (get_skb_done _ _ _ w Hb)). cbv zeta. case_decide as Hc.
  { unfold wireless_simu_mgmt_over_tx_drop.
    assert (ieee80211_free_txskb p skb w = Done (set_skbs p (delete skb (mp_skbs p)), w)) as Ef.
    { unfold ieee80211_free_txskb. by rewrite (M_bind_done _ _ _ _ _ (kfree_skb_done (mp_skbs p) skb b w Hb)). }
    rewrite (M_bind_done _ _ _ _ _ Ef).
    eexists _, w. split; [reflexivity|]. cbv zeta. set (p1 := set_skbs p _).
    assert (∀ x : Z, worked p w [skb] (p1 <| mp_num_pending_mgmt_tx := x |>) w ↔
      x = pending_step (mp_skbs p) (mp_num_pending_mgmt_tx p) skb) as Hw.
    { intros x. split; [intros H; exact (wk_pending _ _ _ _ _ H)|]. intros Hx.
      split; try done; [by left| | |cbn; rewrite map_size_delete_Some by (by exists b); lia|cbn; lia].
      - intros q y Hq Hy. cbn. by rewrite lookup_delete_ne by set_solver.
      - set_solver. }
    assert (p1 = p1 <| mp_num_pending_mgmt_tx := mp_num_pending_mgmt_tx p |>) as Hid by by destruct p.
    split; [|by case_decide].
    case_decide; [|rewrite Hid]; apply Hw; unfold pending_step; rewrite Hb; repeat case_decide; cbn in *; lia. }
  destruct Hm as [Hm|]; [|done].
  destruct Hv as [?|[v Hv]]; [done|]. rewrite (M_bind_done _ _ _ _ _ (mutex_lock_done p w Hm)).
  set (p1 := p <| mp_mac_conf_mutex := true |>).
  destruct (mgmt_tx_wmi_cases n p1 (cb_vif (sb_cb b)) v skb b w Hb Hv Hlen Ht)
    as (ret & wmi' & idr' & w' & E & Hres & Hsame & Hlock & Hk & Hs & Hsz & Hmsz); [exact Hu|].
  rewrite (M_bind_done _ _ _ _ _ E). eexists _, w'. split; [reflexivity|].
  assert (mp_txmgmt_idr p ⊆ idr' ∧ ∀ id q, idr' !! id = Some q → mp_txmgmt_idr p !! id = Some q ∨
    0 ≤ id < WIRELESS_SIMU_TX_MGMT_NUM_PENDING_MAX ∧ q ∈ [skb]) as [Hsub Hnew].
  { destruct Hres as [id Hid Hf|ret Hr]; [|split; [done|by left]].
    split; [by apply insert_subseteq|]. intros x q [[<- <-]|[_ ?]]%lookup_insert_Some; [right|by left].
    split; [done|]. set_solver. }
  split; [|done]. split; try done.
  - unfold mac_locks. cbn. by rewrite Hm, Hlock, (proj2 Hu).
  - intros q x Hq. apply Hk. set_solver.
  - intros q x ->%list_elem_of_singleton _ _. done.
  - cbn. unfold pending_step. rewrite Hb, decide_False by naive_solver. done.
  - change (mp_skbs p) with (mp_skbs p1). cbn [length]. change (mp_skbs _) with (wp_skbs wmi') at 1. lia.
Qed.

Lemma work_loop_done n fs : ∀ (p : mac_priv) w, NoDup fs → mp_mgmt_tx_queue p = fs →
  (∀ q, q ∈ fs → ∃ b, mp_skbs p !! q = Some b ∧ frame_ready p b ∧
     (mp_mac_conf_mutex p = false ∨ cb_vif (sb_cb b) = 0)) → tx_unlocked p →
  ∃ p' w', mgmt_tx_work_loop big n p fs w = Done (p', w') ∧ worked p w fs p' w' ∧ mp_mgmt_tx_queue p' = [].
Proof.
  induction fs as [|q fs IH]; intros p w Hnd Hq Hs Hu.
  { exists p, w. split_and!; [done|by apply worked_nil|done]. }
  apply NoDup_cons in Hnd as [Hnq Hnd].
  destruct (Hs q (list_elem_of_here _ _)) as (b & Hb & Hr & Hm). cbn [mgmt_tx_work_loop].
  set (p0 := p <| mp_mgmt_tx_queue := fs |>).
  destruct (work_one_done n p0 q b w Hb) as (p1 & w1 & E1 & H1 & Hq1); [by destruct Hr|done|done|].
  rewrite (M_bind_done _ _ _ _ _ E1).
  destruct (IH p1 w1 Hnd) as (p2 & w2 & E2 & H2 & Hq2); [by rewrite Hq1| | |].
  { intros x Hx. destruct (Hs x) as (c & Hc & [? ? Hv] & Hmx); [by right|]. exists c.
    split; [apply (wk_others _ _ _ _ _ H1); [set_solver|done]|].
    pose proof (wk_fixed _ _ _ _ _ H1) as Hf. injection Hf as _ _ _ Hf.
    split; [split; [done..|by rewrite Hf]|]. by rewrite (locks_mutex _ _ (wk_locks _ _ _ _ _ H1)). }
  { by apply (locks_unlocked p0); [apply H1|]. }
  exists p2, w2. split; [done|]. split; [|done].
  assert (worked p w [q] p1 w1) as H1' by by destruct H1.
  apply (worked_cons p w q fs p1 w1); try done. intros x Hx.
  destruct (Hs x) as (c & Hc & _); [by right|]. by exists c.
Qed.

(** With the mutex held by nobody who will give it back, the work item ends only
    when no frame has an interface. *)
Lemma work_loop_locked n fs : ∀ (p : mac_priv) w p' w', NoDup fs → mp_mac_conf_mutex p = true →
  mgmt_tx_work_loop big n p fs w = Done (p', w') →
  ∀ q b, q ∈ fs → mp_skbs p !! q = Some b → cb_vif (sb_cb b) = 0.
Proof.
  induction fs as [|q fs IH]; intros p w p' w' Hnd Hm E x b Hx Hb; [by apply not_elem_of_nil in Hx|].
  apply NoDup_cons in Hnd as [Hq Hnd]. cbn [mgmt_tx_work_loop] in E.
  apply M_bind_inv in E as (p1 & w1 & E1 & E). unfold mgmt_tx_work_one in E1.
  apply M_bind_inv in E1 as (b0 & w0 & E0 & E1). cbv zeta in E1.
  assert (mp_skbs p !! q = Some b0) as Hb0.
  { unfold get_skb in E0. change (mp_skbs (p <| mp_mgmt_tx_queue := fs |>)) with (mp_skbs p) in E0.
    destruct (mp_skbs p !! q) as [y|]; [by injection E0 as -> _|by case_decide]. }
  destruct (decide (cb_vif (sb_cb b0) = 0)) as [Hz|Hz].
  2: { apply M_bind_inv in E1 as (p2 & w2 & E1 & _). rewrite mutex_lock_held in E1 by exact Hm. done. }
  apply elem_of_cons in Hx as [->|Hx]; [congruence|].
  unfold wireless_simu_mgmt_over_tx_drop, ieee80211_free_txskb in E1.
  apply M_bind_inv in E1 as (p2 & w2 & E2 & E1). apply M_bind_inv in E2 as (st & w3 & E2 & E3).
  change (mp_skbs (p <| mp_mgmt_tx_queue := fs |>)) with (mp_skbs p) in E2.
  rewrite (kfree_skb_done _ _ _ _ Hb0) in E2. injection E2 as <- <-. injection E3 as <- <-.
  assert (mp_mac_conf_mutex p1 = true ∧ mp_skbs p1 = delete q (mp_skbs p)) as [Hm1 Hs1]
    by (injection E1 as <- _; by case_decide).
  apply (IH p1 w1 p' w' Hnd Hm1 E x b Hx). rewrite Hs1, lookup_delete_ne by (intros ->; done). done.
Qed.

(** C19.  The work item empties the queue.  [wireless_simu_mgmt_tx_work_func],
    run on a queue of distinct frames that are ready, with the locks free, ends
    with an empty queue and the locks free, and allocates no block.  Ids only
    get taken, each new one in [0, 512) and for a queued frame: no outcome of a
    send gives back the id of an earlier frame.  A frame without an interface
    counts the pending counter down, a frame with one never does, whatever the
    send returned, and it stays allocated. *)
Theorem work_func_drains n (p : mac_priv) w : NoDup (mp_mgmt_tx_queue p) → unlocked p →
  (∀ q, q ∈ mp_mgmt_tx_queue p → ∃ b, mp_skbs p !! q = Some b ∧ frame_ready p b) →
  ∃ p' w', wireless_simu_mgmt_tx_work_func big n p w = Done (p', w') ∧
    mp_mgmt_tx_queue p' = [] ∧ unlocked p' ∧ same_blocks w w' ∧
    mp_txmgmt_idr p ⊆ mp_txmgmt_idr p' ∧
    (∀ id q, mp_txmgmt_idr p' !! id = Some q → mp_txmgmt_idr p !! id = Some q ∨
       0 ≤ id < 512 ∧ q ∈ mp_mgmt_tx_queue p) ∧
    (∀ q b, q ∈ mp_mgmt_tx_queue p → mp_skbs p !! q = Some b → cb_vif (sb_cb b) ≠ 0 →
       is_Some (mp_skbs p' !! q)) ∧
    mp_num_pending_mgmt_tx p' =
      foldl (pending_step (mp_skbs p)) (mp_num_pending_mgmt_tx p) (mp_mgmt_tx_queue p).
Proof.
  intros Hnd Hu Hs. set (p0 := p <| mp_mgmt_tx_work := false |>).
  destruct (work_loop_done n (mp_mgmt_tx_queue p) p0 w Hnd eq_refl) as (p' & w' & E & [] & Hq).
  - intros q Hq. destruct (Hs q Hq) as (b & Hb & []). exists b. split_and!; [done|by split|left; apply Hu].
  - apply Hu.
  - exists p', w'. split_and!; try done; [|by destruct wk_maps0]. destruct Hu as [Hm Hu].
    split; [by rewrite (locks_mutex _ _ wk_locks0)|by apply (locks_unlocked p0)].
Qed.

(** C33.  The ids run out.  Once 512 frames have been sent, all ids are in use
    and [wireless_simu_mgmt_tx_wmi] returns -ENOSPC for every further frame,
    without touching the frame, the firmware or the world: nothing in the driver
    returns an id, so management transmission stops for good. *)
Theorem ids_exhausted n (p : mac_priv) vif skb w :
  (∀ id, 0 ≤ id < 512 → is_Some (mp_txmgmt_idr p !! id)) → tx_unlocked p →
  wireless_simu_mgmt_tx_wmi big n p vif skb w = Done ((- ENOSPC, p), w).
Proof.
  intros Hall (Hl & _). unfold wireless_simu_mgmt_tx_wmi, lock_acquire, get_world.
  rewrite Hl, (M_bind_done _ _ w true w), (M_bind_done _ _ w w w) by done. cbv zeta.
  rewrite (M_bind_done _ _ w false w) by done.
  destruct (idr_alloc_spec w (dom (mp_txmgmt_idr p)) 0 WIRELESS_SIMU_TX_MGMT_NUM_PENDING_MAX)
    as [Hneg|[Hid Hfresh]].
  - rewrite !decide_True by done. by destruct p; cbn in *; subst.
  - destruct Hfresh. apply elem_of_dom, Hall. exact Hid.
Qed.

End work.
