(* ===== verification/MacProbe.v ===== *)
(** * Registration with mac80211 and its removal

    Theorems on [wireless_mac80211_core_probe] and
    [wireless_mac80211_core_remove]
    (src/driver/driver_wireless/wireless_mac80211.c): which blocks each outcome
    of the probe holds, and what removal does with them. *)

From S2P Require Import Prelude Kernel Bits HalTypes Hif Skb Ieee80211 Dp Wmi MacTypes Mac80211.

Section probe.
Context `{KO : KernelOk} `{B : Bits} `{SA : SkbApi} `{I : Ieee80211} `{AO : Mac80211Ok}.

(** Before the first probe: no channel tables. *)
Definition no_bands (p : mac_priv) : Prop :=
  band_channels (mp_band_5GHZ p) = 0 ∧ band_channels (mp_band_6GHZ p) = 0.

(** The outcomes, by what they hold: nothing; the [ieee80211_hw] without
    registration; both blocks and the registration. *)
Inductive probe_outcome (w : world) : Z → Z → bool → gset Z → Prop :=
  | probe_nothing ret stale : ret = MAC80211_ALLOC_ERR ∨ ret = MAC80211_REGISTER_ERR →
      probe_outcome w ret 0 stale (w_heap w)
  | probe_half hw : hw ≠ 0 → hw ∉ w_heap w →
      probe_outcome w MAC80211_ALLOC_ERR hw false ({[hw]} ∪ w_heap w)
  | probe_full hw ch : hw ≠ 0 → hw ∉ w_heap w → ch ≠ hw → ch ∉ w_heap w →
      probe_outcome w SUCCESS hw true ({[ch; hw]} ∪ w_heap w).

Lemma alloc_hw_cases w : (ieee80211_alloc_hw w = Done (0, tick w)) ∨
  ∃ hw, hw ≠ 0 ∧ hw ∉ w_heap w ∧
    ieee80211_alloc_hw w = Done (hw, (tick w) <| w_heap := {[hw]} ∪ w_heap w |>).
Proof.
  unfold ieee80211_alloc_hw. destruct (decide (k_ieee80211_alloc_hw w = 0)) as [->|H]; [by left|right].
  exists (k_ieee80211_alloc_hw w). split_and!; [done|by apply alloc_hw_fresh|done].
Qed.

(** The members a registration starts from. *)
Record mac_fresh (p p' : mac_priv) : Prop := {
  mf_band : hw_band_2ghz (mp_hw_val p') = Some (mp_band_2GHZ p');
  mf_idr : mp_txmgmt_idr p' = ∅ ∧ mp_txmgmt_idr_lock p' = false;
  mf_queue : mp_mgmt_tx_queue p' = [] ∧ mp_mgmt_tx_work p' = false;
  mf_vif : mp_vif p' = replicate WIRELESS_MAX_NUM_VIF 0 ∧ mp_vifs p' = mp_vifs p;
  mf_wmi : wp_htc_tx_lock (mp_wmi p') = false
}.

Lemma core_probe_cases p w : no_bands p →
  ∃ ret p' w', wireless_mac80211_core_probe p w = Done ((ret, p'), w') ∧
    probe_outcome w ret (mp_hw p') (hw_registered (mp_hw_val p')) (w_heap w') ∧
    mp_mac_conf_mutex p' = false ∧ mp_skbs p' = mp_skbs p ∧
    (w_dma w' = w_dma w ∧ w_map w' = w_map w ∧ w_mem w' = w_mem w ∧ w_mmio w' = w_mmio w) ∧
    (ret = SUCCESS → mac_fresh p p') ∧
    (mp_mgmt_tx_work p = false → mp_mgmt_tx_work p' = false).
Proof.
  intros [H5 H6]. unfold wireless_mac80211_core_probe. cbv zeta.
  destruct (alloc_hw_cases w) as [E|(hw & Hn & Hf & E)]; rewrite (M_bind_done _ _ _ _ _ E).
  { rewrite decide_True by done. eexists _, _, (tick w). split; [done|].
    split_and!; try done. exact (probe_nothing w _ _ (or_introl eq_refl)). }
  rewrite decide_False by done. set (w1 := (tick w) <| w_heap := _ |>). set (p1 := _ <| mp_mgmt_tx_queue := [] |>).
  set (size := sizeof_ieee80211_channel * _).
  destruct (kmalloc_cases size w1) as [E2|(ch & Hcn & Hcf & E2)]; rewrite (M_bind_done _ _ _ _ _ E2).
  { rewrite decide_True by done. eexists _, p1, (tick w1). split; [done|].
    split_and!; try done. exact (probe_half w hw Hn Hf). }
  rewrite decide_False by done. set (w2 := tick _ <| w_heap := _ |>).
  assert (∃ a, core_mac_addr (core_describe p1 ch) w2 = Done (core_describe p1 ch <| mp_mac_addr := a |>
    <| mp_hw_val := mp_hw_val (core_describe p1 ch) <| hw_perm_addr := a |> |>, w2)) as [a E3]
    by (eexists; unfold core_mac_addr, get_world, mbind, M_bind; reflexivity).
  rewrite (M_bind_done _ _ _ _ _ E3). set (p2 := _ <| mp_hw_val := _ |>). set (p3 := p2 <| mp_txmgmt_idr_lock := false |> <| mp_txmgmt_idr := ∅ |>
      <| mp_wmi := mp_wmi p2 <| wp_htc_tx_lock := false |> |>).
  rewrite (M_bind_done _ _ w2 (k_ieee80211_register_hw w2 hw) (tick w2)) by done.
  change (w_heap w1) with ({[hw]} ∪ w_heap w) in Hcf. case_decide.
  - assert (kfree ch (tick w2) = Done (tt, (tick w2) <| w_heap := {[hw]} ∪ w_heap w |>)) as E4.
    { rewrite kfree_eq by (set_solver). do 3 f_equal. cbn. set_solver. }
    rewrite (M_bind_done _ _ _ _ _ E4).
    assert (∀ q w, q = 0 → kfree q w = Done (tt, w)) as H0 by by intros ?? ->.
    rewrite (M_bind_done _ _ _ _ _ (H0 (band_channels (mp_band_5GHZ p3)) _ H5)).
    rewrite (M_bind_done _ _ _ _ _ (H0 (band_channels (mp_band_6GHZ p3)) _ H6)).
    set (w3 := (tick w2) <| w_heap := _ |>).
    assert (ieee80211_free_hw hw w3 = Done (tt, w3 <| w_heap := w_heap w |>)) as E5.
    { unfold ieee80211_free_hw. rewrite kfree_eq by set_solver. do 3 f_equal. cbn. set_solver. }
    rewrite (M_bind_done _ _ _ _ _ E5). eexists _, _, _. split; [done|].
    split_and!; try done. exact (probe_nothing w _ _ (or_intror eq_refl)).
  - eexists _, _, _. split; [done|]. split_and!; try done. cbn.
    replace ({[ch]} ∪ ({[hw]} ∪ w_heap w)) with ({[ch; hw]} ∪ w_heap w) by set_solver.
    constructor; set_solver.
Qed.

(** C26.  The outcomes of the probe.  With no 5 and 6 GHz tables,
    [wireless_mac80211_core_probe] always returns: SUCCESS with the device
    registered, its band described, no ids in use, no queued frame and no
    interface, holding two blocks, the [ieee80211_hw] and the channel table; or
    an error that holds nothing and leaves [priv->hw] NULL; or, when the channel
    table cannot be allocated, an error that keeps the [ieee80211_hw] in
    [priv->hw].  It maps nothing, and writes no register. *)
Theorem core_probe_outcome p w : no_bands p →
  ∃ ret p' w', wireless_mac80211_core_probe p w = Done ((ret, p'), w') ∧
    probe_outcome w ret (mp_hw p') (hw_registered (mp_hw_val p')) (w_heap w') ∧
    mp_mac_conf_mutex p' = false ∧ mp_skbs p' = mp_skbs p ∧
    (w_dma w' = w_dma w ∧ w_map w' = w_map w ∧ w_mem w' = w_mem w ∧ w_mmio w' = w_mmio w) ∧
    (ret = SUCCESS → hw_band_2ghz (mp_hw_val p') = Some (mp_band_2GHZ p') ∧ mp_txmgmt_idr p' = ∅ ∧
       mp_mgmt_tx_queue p' = [] ∧ mp_vif p' = replicate WIRELESS_MAX_NUM_VIF 0).
Proof.
  intros Hb. destruct (core_probe_cases p w Hb) as (ret & p' & w' & E & H1 & H2 & H3 & H4 & H5 & _).
  exists ret, p', w'. do 5 (split; [done|]). intros Hret. by destruct (H5 Hret) as [? [] [] [] _].
Qed.

(** What a registered device becomes. *)
Definition unregistered (p : mac_priv) : mac_priv :=
  p <| mp_hw_val := mp_hw_val p <| hw_registered := false |> |> <| mp_vifs := ∅ |>.

Lemma core_remove_registered p w : mp_hw p ≠ 0 → hw_registered (mp_hw_val p) = true → mp_hw p ∈ w_heap w →
  wireless_mac80211_core_remove p w =
    Done ((0, unregistered p), w <| w_heap := w_heap w ∖ {[mp_hw p]} |>).
Proof.
  intros Hz Hr Hin. unfold wireless_mac80211_core_remove. cbv zeta. rewrite decide_False by done.
  rewrite (M_bind_done _ _ w (unregistered p) w) by (unfold ieee80211_unregister_hw; by rewrite Hr).
  by rewrite (M_bind_done _ _ _ _ _ (kfree_eq (mp_hw p) w Hz Hin)).
Qed.

(** Removal right after an outcome. *)
Lemma core_remove_cases w ret p w1 :
  probe_outcome w ret (mp_hw p) (hw_registered (mp_hw_val p)) (w_heap w1) →
  (mp_hw p = 0 ∧ w_heap w1 = w_heap w ∧ wireless_mac80211_core_remove p w1 = Done ((0, p), w1)) ∨
  (mp_hw p ≠ 0 ∧ ret = MAC80211_ALLOC_ERR ∧ wireless_mac80211_core_remove p w1 = Fault BadFree) ∨
  (ret = SUCCESS ∧ ∃ p' ch, ch ∉ w_heap w ∧
    (mp_skbs p' = mp_skbs p ∧ mp_mgmt_tx_work p' = mp_mgmt_tx_work p) ∧
    wireless_mac80211_core_remove p w1 = Done ((0, p'), w1 <| w_heap := {[ch]} ∪ w_heap w |>)).
Proof.
  unfold wireless_mac80211_core_remove. cbv zeta.
  inversion 1; clear H.
  - left. by rewrite decide_True by congruence.
  - right; left. rewrite decide_False by congruence. split_and!; [congruence|done|].
    unfold ieee80211_unregister_hw. assert (hw_registered (mp_hw_val p) = false) as -> by congruence. done.
  - right; right. split; [done|]. exists (unregistered p), ch. split; [done|]. split; [done|].
    pose proof (core_remove_registered p w1) as E. unfold wireless_mac80211_core_remove in E. cbv zeta in E.
    rewrite E by (done || set_solver). do 3 f_equal. set_solver.
Qed.

(** C31.  Teardown after each outcome.  [wireless_mac80211_core_remove] run on
    what the probe leaves: after success it unregisters and frees the
    [ieee80211_hw] but not the channel table, which leaks; after an error that
    holds nothing it does nothing; after the error for the channel table it
    unregisters a device that was never registered. *)
Theorem core_probe_remove p w : no_bands p →
  ∃ ret p' w', wireless_mac80211_core_probe p w = Done ((ret, p'), w') ∧
   ((mp_hw p' = 0 ∧ w_heap w' = w_heap w ∧ wireless_mac80211_core_remove p' w' = Done ((0, p'), w')) ∨
    (mp_hw p' ≠ 0 ∧ ret = MAC80211_ALLOC_ERR ∧ wireless_mac80211_core_remove p' w' = Fault BadFree) ∨
    (ret = SUCCESS ∧ ∃ p2 ch, ch ∉ w_heap w ∧
       wireless_mac80211_core_remove p' w' = Done ((0, p2), w' <| w_heap := {[ch]} ∪ w_heap w |>))).
Proof.
  intros Hb. destruct (core_probe_cases p w Hb) as (ret & p' & w' & E & H & _).
  exists ret, p', w'. split; [done|].
  destruct (core_remove_cases w ret p' w' H) as [?|[?|(? & p2 & ch & ? & _ & ?)]]; [by left|by right; left|].
  right; right. split; [done|]. by exists p2, ch.
Qed.
End probe.
