(* ===== verification/Pci.v ===== *)
(** * The PCI driver: probing, interrupts, removal

    Source: src/driver/driver_wireless/wireless.c and wireless_irq.c, with
    [struct wireless_simu] of wireless.h.  The PCI core's answers are
    parameters (class [PciApi]); what it hands out is kept in a [pci_state],
    and giving back what is not held is a [BadFree]. *)

From S2P Require Import Prelude Kernel Bits HalTypes Hif HalRing RingProtocol HalSetup HalInit Skb.
From S2P Require Import SrngTest DstTest Ieee80211 Dp Wmi MacTypes Mac80211.

(* ------------------------------------------------------------------ *)
(** ** The PCI core *)

Class PciApi := {
  k_pci_assign_resource : world → Z;            (* errors: 0 is success *)
  k_pci_enable_device : world → Z;
  k_pci_request_regions : world → Z;
  k_dma_set_mask_and_coherent : world → Z;
  k_pci_iomap : world → Z;                      (* 0 is NULL *)
  k_pci_alloc_irq_vectors : world → bool → Z;   (* MSI only? -> number or error *)
  k_irq_get_msi_desc : world → Z;               (* 0 is NULL *)
  k_pci_irq_vector : world → Z;
  k_request_irq : world → Z;
  k_create_workqueue : world → Z;               (* 0 is NULL *)
  sizeof_wireless_simu : Z;                     (* its members include kernel structures *)
}.

Record pci_state := PciState {
  pci_enabled : bool;
  pci_regions : bool;
  pci_master : bool;
  pci_iomap_addr : Z;                           (* mapped BAR 0, 0 if not *)
  pci_vectors : bool;
  pci_irq_handler : option Z;                   (* line the handler is on *)
  pci_workqueue : Z                             (* live workqueue, 0 if none *)
}.
#[export] Instance eta_pci_state : Eta pci_state := MkEta (λ s,
  PciState (pci_enabled s) (pci_regions s) (pci_master s) (pci_iomap_addr s) (pci_vectors s)
    (pci_irq_handler s) (pci_workqueue s)).
(** The device as the PCI core hands it over. *)
Definition pci_idle : pci_state := PciState false false false 0 false None 0.

Definition WIRELESS_REG_IRQ_ENABLE : Z := 0xF0.
Definition WIRELESS_SIMU_IRQ_STATU_SRNG_DST_DMA_TEST_RING_0 : Z := 1.

(** [struct wireless_simu]; [ws_ptr] is its kmalloc block.  [ws_mac] holds the
    mac80211 members; the buffer store is [ws_skbs] for all parts. *)
Record wireless_simu `{SA : SkbApi} := WirelessSimu {
  ws_ptr : Z;
  ws_stop : bool;
  ws_pci : pci_state;                           (* priv->pci_dev *)
  ws_mmio_addr : Z;
  ws_msi_enable : bool;
  ws_msi_desc : Z;
  ws_irq_vectors_num : Z;
  ws_hal : wireless_simu_hal;
  ws_st_dst : srng_test;
  ws_skbs : skbs;
  ws_workqueue_aux : Z;
  ws_tx_list : Z;                               (* priv->tx_ring.tx_list *)
  ws_mac : mac_priv
}.
Arguments WirelessSimu {_} _ _ _ _ _ _ _ _ _ _ _ _ _.
#[export] Instance eta_wireless_simu `{SA : SkbApi} : Eta wireless_simu := MkEta (λ s,
  WirelessSimu (ws_ptr s) (ws_stop s) (ws_pci s) (ws_mmio_addr s) (ws_msi_enable s) (ws_msi_desc s)
    (ws_irq_vectors_num s) (ws_hal s) (ws_st_dst s) (ws_skbs s) (ws_workqueue_aux s)
    (ws_tx_list s) (ws_mac s)).

Section pci.
Context `{K : Kernel} `{B : Bits} `{SA : SkbApi} `{I : Ieee80211} `{A : Mac80211Api} `{P : PciApi}.
Variable CONFIG_CPU_BIG_ENDIAN : bool.
Variable wakeups : nat.   (* of the waiting work item, before its timeout *)

(** Ask the kernel; one tick. *)
Definition ask (f : world → Z) : M Z := λ w, Done (f w, tick w).

Definition pci_release_regions (s : pci_state) : M pci_state :=
  assert (pci_regions s) BadFree;; mret (s <| pci_regions := false |>).
Definition pci_disable_device (s : pci_state) : M pci_state :=
  assert (pci_enabled s) BadFree;; mret (s <| pci_enabled := false |> <| pci_master := false |>).
Definition pci_free_irq_vectors (s : pci_state) : M pci_state :=
  mret (s <| pci_vectors := false |>).
Definition free_irq (s : pci_state) (irq : Z) : M pci_state :=
  assert (bool_decide (pci_irq_handler s = Some irq)) BadFree;;
  mret (s <| pci_irq_handler := None |>).
Definition destroy_workqueue (s : pci_state) (wq : Z) : M pci_state :=
  assert (bool_decide (pci_workqueue s = wq ∧ wq ≠ 0)) BadFree;;
  mret (s <| pci_workqueue := 0 |>).
Definition pci_iounmap (s : pci_state) (addr : Z) : M pci_state :=
  assert (bool_decide (pci_iomap_addr s = addr)) BadFree;;
  mret (s <| pci_iomap_addr := 0 |>).

(* ------------------------------------------------------------------ *)
(** ** wireless_simu_pci_claim and wireless_simu_pci_irq_init *)

(** The labels [RELEASE_REGIONS] and [DISABLE_PCI]. *)
Definition claim_release (s : pci_state) (ret : Z) : M (Z * pci_state * Z) :=
  s ← pci_release_regions s; s ← pci_disable_device s; mret (ret, s, 0).

(** Returns the error, the device and the new [priv->mmio_addr]. *)
Definition wireless_simu_pci_claim (s : pci_state) : M (Z * pci_state * Z) :=
  ret ← ask k_pci_assign_resource;
  if decide (ret ≠ 0) then mret (ret, s, 0)
  else
    ret ← ask k_pci_enable_device;
    if decide (ret ≠ 0) then mret (ret, s, 0)
    else
      let s := s <| pci_enabled := true |> in
      ret ← ask k_pci_request_regions;
      if decide (ret ≠ 0) then s ← pci_disable_device s; mret (ret, s, 0)
      else
        let s := s <| pci_regions := true |> in
        ret ← ask k_dma_set_mask_and_coherent;
        if decide (ret ≠ 0) then claim_release s ret
        else
          let s := s <| pci_master := true |> in
          mmio_addr ← ask k_pci_iomap;
          if decide (mmio_addr = 0) then claim_release s (- EIO)
          else mret (0, s <| pci_iomap_addr := mmio_addr |>, mmio_addr).

(** What the function leaves in [priv]: [msi_enable], [msi_desc], [irq]. *)
Definition wireless_simu_pci_irq_init (s : pci_state) : M (Z * pci_state * (bool * Z * Z)) :=
  num_vectors ← ask (λ w, k_pci_alloc_irq_vectors w true);
  let msi_enable := bool_decide (0 ≤ num_vectors) in
  num_vectors ← (if msi_enable then mret num_vectors
                 else ask (λ w, k_pci_alloc_irq_vectors w false));
  if decide (num_vectors < 0)
  then
    s ← pci_release_regions s; s ← pci_disable_device s;
    mret (num_vectors, s, (msi_enable, 0, 0))
  else
    let s := s <| pci_vectors := true |> in
    msi_desc ← (if msi_enable then ask k_irq_get_msi_desc else mret 0);
    if decide (msi_enable ∧ msi_desc = 0)
    then
      s ← pci_free_irq_vectors s; s ← pci_release_regions s; s ← pci_disable_device s;
      mret (-1, s, (msi_enable, 0, 0))
    else
      irq ← ask k_pci_irq_vector;
      ret ← ask k_request_irq;
      let s := if decide (ret = 0) then s <| pci_irq_handler := Some irq |> else s in
      mret (0, s, (msi_enable, msi_desc, irq)).

(* ------------------------------------------------------------------ *)
(** ** The interrupt handler *)

(** [tasklet_schedule(&priv->st_dst.pipes[id].intr_tq)] *)
Definition tasklet_schedule (st : srng_test) (id : nat) : M srng_test :=
  pipe ← of_option OutOfBounds (st_pipes st !! id);
  mret (put_pipe st id (pipe <| pipe_intr_tq := true |>)).

(** [priv] is what [pci_get_drvdata] returns. *)
Definition wireless_simu_irq_handler (priv : option wireless_simu) : M (option wireless_simu) :=
  ws ← of_option NullDeref priv;
  irq_status ← wireless_hif_read32 (ws_mmio_addr ws) (HAL_BASIC_REG WIRELESS_REG_BASIC_IRQ_STATUS);
  st ← (if decide (irq_status = WIRELESS_SIMU_IRQ_STATU_SRNG_DST_DMA_TEST_RING_0)
        then tasklet_schedule (ws_st_dst ws) 0 else mret (ws_st_dst ws));
  wireless_hif_write32 (ws_mmio_addr ws) (HAL_BASIC_REG WIRELESS_REG_BASIC_IRQ_STATUS) 0;;
  mret (Some (ws <| ws_st_dst := st |>)).

(* ------------------------------------------------------------------ *)
(** ** Probing *)

(** Calls of the other parts on [priv]. *)
Definition on_dst {R} (f : dst_priv → M (R * dst_priv)) (ws : wireless_simu) : M (R * wireless_simu) :=
  '(r, p) ← f (DstPriv (ws_hal ws) (ws_st_dst ws) (ws_skbs ws));
  mret (r, ws <| ws_hal := dp_hal p |> <| ws_st_dst := dp_st p |> <| ws_skbs := dp_skbs p |>).
Definition on_mac {R} (f : mac_priv → M (R * mac_priv)) (ws : wireless_simu) : M (R * wireless_simu) :=
  '(r, p) ← f (set_skbs (ws_mac ws) (ws_skbs ws));
  mret (r, ws <| ws_mac := p |> <| ws_skbs := mp_skbs p |>).

Definition mac_priv_zero : mac_priv :=
  MacPriv (WmiPriv ∅ false 0) ∅ (replicate WIRELESS_MAX_NUM_VIF 0) false 0 false false [] 0 false ∅
    false 0 hw_zero supported_band_zero supported_band_zero supported_band_zero (replicate 6 0).

(** [kzalloc]: everything zero; [store] are the buffers that exist. *)
Definition wireless_simu_zero (ptr : Z) (s : pci_state) (store : skbs) : wireless_simu :=
  WirelessSimu ptr false s 0 false 0 0
    wireless_simu_hal_zero srng_test_zero store 0 0 mac_priv_zero.

(** From [wireless_simu_hal_srng_init] on.  The results of
    [wireless_simu_hal_srng_dst_test_init] and [wireless_mac80211_core_probe]
    are not looked at. *)
Definition probe_rings (ws : wireless_simu) : M (Z * wireless_simu) :=
  '(ret, hal) ← wireless_simu_hal_srng_init;
  let ws := ws <| ws_hal := hal |> in
  if decide (ret ≠ 0) then mret (ret, ws)
  else
    '(_, ws) ← on_dst (wireless_simu_hal_srng_dst_test_init CONFIG_CPU_BIG_ENDIAN (ws_mmio_addr ws)) ws;
    '(hal, store) ← wireless_simu_hal_srng_test CONFIG_CPU_BIG_ENDIAN (ws_mmio_addr ws)
                      (ws_hal ws) (ws_skbs ws);
    wq ← ask k_create_workqueue;
    let ws := ws <| ws_hal := hal |> <| ws_skbs := store |> <| ws_workqueue_aux := wq |>
                 <| ws_pci := ws_pci ws <| pci_workqueue := wq |> |> in
    if decide (wq = 0) then mret (-1, ws)
    else '(_, ws) ← on_mac wireless_mac80211_core_probe ws; mret (0, ws).

(** Returns the error, [priv] and whether it is the device's driver data. *)
Definition wireless_simu_pci_probe (s : pci_state) (store : skbs) : M (Z * wireless_simu * bool) :=
  ptr ← kmalloc sizeof_wireless_simu;
  if decide (ptr = 0) then fail NullDeref
  else
    let ws := wireless_simu_zero ptr s store in
    '(ret, s, mmio_addr) ← wireless_simu_pci_claim (ws_pci ws);
    let ws := ws <| ws_pci := s |> <| ws_mmio_addr := mmio_addr |> in
    if decide (ret ≠ 0) then mret (ret, ws, false)
    else
      '(ret, s, (msi_enable, msi_desc, irq)) ← wireless_simu_pci_irq_init (ws_pci ws);
      let ws := ws <| ws_pci := s |> <| ws_msi_enable := msi_enable |> <| ws_msi_desc := msi_desc |>
                   <| ws_irq_vectors_num := irq |> in
      if decide (ret ≠ 0) then mret (ret, ws, false)
      else
        wireless_hif_write32 (ws_mmio_addr ws) (HAL_BASIC_REG WIRELESS_REG_BASIC_IRQ_ENABLE) 1;;
        val ← ioread32 (ws_mmio_addr ws + WIRELESS_REG_IRQ_ENABLE);
        '(ret, ws) ← probe_rings ws;
        mret (ret, ws, true).

(* ------------------------------------------------------------------ *)
(** ** Removal *)

Definition on_pci (f : pci_state → M pci_state) (ws : wireless_simu) : M wireless_simu :=
  s ← f (ws_pci ws); mret (ws <| ws_pci := s |>).

(** From [wireless_simu_hal_srng_dst_test_deinit] on: the rings, the device,
    the blocks. *)
Definition remove_rings (ws : wireless_simu) : M wireless_simu :=
  '(_, ws) ← on_dst (λ p, p ← wireless_simu_hal_srng_dst_test_deinit (ws_mmio_addr ws) p;
                          mret (tt, p)) ws;
  hal ← wireless_simu_hal_srng_deinit (ws_hal ws);
  let ws := ws <| ws_hal := hal |> in
  ws ← on_pci (λ s, pci_iounmap s (ws_mmio_addr ws)) ws;
  ws ← on_pci pci_release_regions ws;
  ws ← on_pci pci_disable_device ws;
  kfree (ws_tx_list ws);;
  kfree (ws_ptr ws);;
  mret ws.

(** [destroy_workqueue] first lets the queued work run. *)
Definition drain_workqueue (ws : wireless_simu) : M wireless_simu :=
  if mp_mgmt_tx_work (ws_mac ws) then
    '(_, ws) ← on_mac (λ p, p ← wireless_simu_mgmt_tx_work_func CONFIG_CPU_BIG_ENDIAN wakeups p;
                            mret (tt, p)) ws;
    mret ws
  else mret ws.

(** Removal of a device that has driver data. *)
Definition remove_priv (ws : wireless_simu) : M wireless_simu :=
  let ws := ws <| ws_stop := true |> in
  '(_, ws) ← on_mac wireless_mac80211_core_remove ws;
  ws ← on_pci (λ s, free_irq s (ws_irq_vectors_num ws)) ws;
  ws ← on_pci pci_free_irq_vectors ws;
  wireless_hif_write32 (ws_mmio_addr ws) (HAL_BASIC_REG WIRELESS_REG_BASIC_IRQ_ENABLE) 0;;
  ws ← drain_workqueue ws;
  ws ← on_pci (λ s, destroy_workqueue s (ws_workqueue_aux ws)) ws;
  remove_rings ws.

(** [priv] is what [pci_get_drvdata] returns. *)
Definition wireless_simu_pci_remove (priv : option wireless_simu) : M (option wireless_simu) :=
  match priv with
  | None => mret None
  | Some ws => ws ← remove_priv ws; mret (Some ws)
  end.

(** [wireless_simu_shutdown] is removal. *)
Definition wireless_simu_shutdown (priv : option wireless_simu) : M (option wireless_simu) :=
  wireless_simu_pci_remove priv.
End pci.
