(* ===== verification/PciLife.v ===== *)
(** * The driver from probe to removal

    Theorems on src/driver/driver_wireless/wireless.c and wireless_irq.c: what
    claiming the device and setting up its interrupt hold on each outcome, what
    the interrupt handler does, and that removal after a complete probe gives
    back everything but the channel table. *)

From S2P Require Import Prelude Kernel Bits HalTypes Hif HalRing RingProtocol HalSetup HalInit Skb.
From S2P Require Import SrngTest SrngSend PipeLife SrngTestRun DstTest RxRing RxRun RxLife RxStart RxTrace.
From S2P Require Import Ieee80211 Dp Wmi MacTypes Mac80211 MacProbe Pci.

(* ------------------------------------------------------------------ *)
(** ** What the HAL holds *)

Section hal_held.
Context `{KO : KernelOk}.

(** [w] has what [wireless_simu_hal_srng_init] took in [w0], and no more. *)
Record hal_held (hal : wireless_simu_hal) (w0 w : world) : Prop := {
  hh_ptr : hal_config_ptr hal ≠ 0 ∧ hal_config_ptr hal ∉ w_heap w0;
  hh_heap : w_heap w = {[hal_config_ptr hal]} ∪ w_heap w0;
  hh_regions : hal_rdp_vaddr hal ≠ 0 ∧ hal_wrp_vaddr hal ≠ 0 ∧ hal_rdp_vaddr hal ≠ hal_wrp_vaddr hal;
  hh_new : w_dma w0 !! hal_rdp_vaddr hal = None ∧ w_dma w0 !! hal_wrp_vaddr hal = None;
  hh_dma : w_dma w = <[hal_wrp_vaddr hal := (sizeof_wrp, hal_wrp_paddr hal)]>
    (<[hal_rdp_vaddr hal := (sizeof_rdp, hal_rdp_paddr hal)]> (w_dma w0));
  hh_map : w_map w = w_map w0;
  hh_mem : dom (unmap_region (hal_wrp_vaddr hal) sizeof_wrp
    (unmap_region (hal_rdp_vaddr hal) sizeof_rdp (w_mem w))) = dom (w_mem w0)
}.

Lemma delete_two {A} (m : gmap Z A) i j x y : i ≠ j → m !! i = None → m !! j = None →
  delete j (delete i (<[j := y]> (<[i := x]> m))) = m.
Proof.
  intros Hij Hi Hj. rewrite delete_insert_ne by congruence. rewrite (delete_insert_id m) by done.
  by rewrite delete_insert_id.
Qed.

Lemma srng_init_held w hal w1 : wireless_simu_hal_srng_init w = Done ((0, hal), w1) →
  hal_held hal w w1 ∧ hal_ready hal w1.
Proof.
  intros Hi. destruct (init_cases w) as [[h E]|[(c & h & Hc & Hn & <- & [E|E])|
    (c & v1 & p1 & v2 & p2 & Hc & Hn & Hv1 & Hv2 & Hb1 & Hb2 & E)]];
    rewrite E in Hi; simplify_eq.
  split; [|by apply init_hal_ready]. destruct Hb1 as [_ _ Hd1 Hm1], Hb2 as [_ _ Hd2 Hm2].
  cbn -[map_region sizeof_rdp sizeof_wrp] in Hd1, Hd2, Hm1, Hm2.
  assert (v1 ≠ v2) as Hne by (intros ->; by rewrite lookup_insert_eq in Hd2).
  rewrite lookup_insert_ne in Hd2 by done. split; try done.
  cbn -[map_region unmap_region sizeof_rdp sizeof_wrp].
  rewrite unmap_map_map_region, unmap_map_region; [done| |done|done].
  intros a Ha. specialize (Hm2 a Ha). rewrite lookup_map_region in Hm2. by case_decide.
Qed.

Lemma hal_held_later hal hal' w0 w w' : hal_held hal w0 w → hal_kept hal hal' → same_resources w w' →
  hal_held hal' w0 w'.
Proof.
  intros [] Hk [Hh Hd Hm Hdom]. destruct (hal_kept_fields _ _ Hk) as (E1 & E2 & E3 & E4 & E5 & E6).
  split; rewrite ?E1, ?E3, ?E4, ?E5, ?E6, ?Hh, ?Hd, ?Hm; try done.
  by rewrite !dom_unmap_region, Hdom, <-!dom_unmap_region.
Qed.

(** Freeing one of the two regions. *)
Lemma freed_region base size w w' :
  w' = w <| w_dma := delete base (w_dma w) |> <| w_mem := unmap_region base size (w_mem w) |> →
  w_heap w' = w_heap w ∧ w_dma w' = delete base (w_dma w) ∧ w_map w' = w_map w ∧
  w_mem w' = unmap_region base size (w_mem w).
Proof. by intros ->. Qed.

Lemma unregister_fields hal : ∃ h1, hal_unregister_srng_key hal = h1 ∧
  hal_config_ptr h1 = hal_config_ptr hal ∧ hal_rdp_vaddr h1 = hal_rdp_vaddr hal ∧
  hal_rdp_paddr h1 = hal_rdp_paddr hal ∧ hal_wrp_vaddr h1 = hal_wrp_vaddr hal ∧
  hal_wrp_paddr h1 = hal_wrp_paddr hal.
Proof. unfold hal_unregister_srng_key. rewrite foldl_key_removed. by eexists. Qed.

Lemma srng_deinit_held hal w0 w : hal_held hal w0 w →
  ∃ hal' w', wireless_simu_hal_srng_deinit hal w = Done (hal', w') ∧ same_resources w0 w'.
Proof.
  intros [[Hc Hcn] Hh (H1 & H2 & H3) [Hn1 Hn2] Hd Hm Hdom].
  destruct (unregister_fields hal) as (h1 & Eh & E1 & E3 & E4 & E5 & E6).
  unfold wireless_simu_hal_srng_deinit. rewrite Eh. cbv zeta. clear Eh.
  assert (w_dma w !! hal_rdp_vaddr h1 = Some (sizeof_rdp, hal_rdp_paddr h1)) as Hrdp
    by (rewrite E3, E4, Hd, lookup_insert_ne by congruence; apply lookup_insert_eq).
  rewrite <-E3 in H1. rewrite <-E5 in H2. rewrite (M_bind_done _ _ _ _ _ (free_rdp_eq h1 w H1 Hrdp)).
  destruct (freed_region (hal_rdp_vaddr h1) sizeof_rdp w _ eq_refl) as (Hh1 & Hd1 & Hm1 & Hmem1).
  revert Hh1 Hd1 Hm1 Hmem1. generalize (w <| w_dma := delete (hal_rdp_vaddr h1) (w_dma w) |>
    <| w_mem := unmap_region (hal_rdp_vaddr h1) sizeof_rdp (w_mem w) |>) as w1. intros w1 Hh1 Hd1 Hm1 Hmem1.
  set (h2 := h1 <| hal_rdp_vaddr := 0 |>).
  assert (w_dma w1 !! hal_wrp_vaddr h2 = Some (sizeof_wrp, hal_wrp_paddr h2)) as Hwrp.
  { change (hal_wrp_vaddr h2) with (hal_wrp_vaddr h1). change (hal_wrp_paddr h2) with (hal_wrp_paddr h1).
    rewrite Hd1, E3, E5, E6, Hd, lookup_delete_ne by congruence. apply lookup_insert_eq. }
  rewrite (M_bind_done _ _ _ _ _ (free_wrp_eq h2 w1 H2 Hwrp)).
  destruct (freed_region (hal_wrp_vaddr h2) sizeof_wrp w1 _ eq_refl) as (Hh2 & Hd2 & Hm2 & Hmem2).
  revert Hh2 Hd2 Hm2 Hmem2. generalize (w1 <| w_dma := delete (hal_wrp_vaddr h2) (w_dma w1) |>
    <| w_mem := unmap_region (hal_wrp_vaddr h2) sizeof_wrp (w_mem w1) |>) as w2. intros w2 Hh2 Hd2 Hm2 Hmem2.
  set (h3 := h2 <| hal_wrp_vaddr := 0 |>). change (hal_wrp_vaddr h2) with (hal_wrp_vaddr h1) in *.
  assert (kfree (hal_config_ptr h3) w2 = Done (tt, w2 <| w_heap := w_heap w0 |>)) as E.
  { change (hal_config_ptr h3) with (hal_config_ptr h1). rewrite Hh1, Hh in Hh2.
    rewrite E1, kfree_eq; [|done|rewrite Hh2; by apply elem_of_union_l, elem_of_singleton].
    do 3 f_equal. rewrite Hh2. clear -Hcn. set_solver. }
  rewrite (M_bind_done _ _ _ _ _ E). exists h3, (w2 <| w_heap := w_heap w0 |>). split; [done|].
  split; [done|..]; cbn [w_dma w_map w_mem update update_with].
  - rewrite Hd2, Hd1, E3, E5, Hd. by apply delete_two.
  - congruence.
  - by rewrite Hmem2, Hmem1, E3, E5.
Qed.
End hal_held.

(* ------------------------------------------------------------------ *)
(** ** Claiming the device *)

Section claim.
Context `{K : Kernel} `{PA : PciApi}.

(** The device claimed, its BAR mapped at [mmio]; and with its interrupt. *)
Definition pci_claimed (mmio : Z) : pci_state := PciState true true true mmio false None 0.
Definition pci_running (mmio : Z) (h : option Z) : pci_state := PciState true true true mmio true h 0.
(** Given back but for the mapping of the BAR. *)
Definition pci_mapped_only (mmio : Z) : pci_state := PciState false false false mmio false None 0.

(** Only the clock moves. *)
Definition asked (w w' : world) : Prop := ∃ n, w' = w <| w_tick := n |>.

Lemma asked_tick w : asked w (tick w).
Proof. by eexists. Qed.
#[local] Instance asked_refl : Reflexive asked.
Proof. intros w. exists (w_tick w). by destruct w. Qed.
#[local] Instance asked_trans : Transitive asked.
Proof. intros w1 w2 w3 [n ->] [m ->]. by exists m. Qed.
Lemma asked_same w w' : asked w w' → same_resources w w' ∧ w_mmio w' = w_mmio w ∧ w_mem w' = w_mem w.
Proof. by intros [n ->]. Qed.

Lemma ask_done f w : ask f w = Done (f w, tick w).
Proof. done. Qed.

Lemma claim_cases w : ∃ ret s mmio w', wireless_simu_pci_claim pci_idle w = Done ((ret, s, mmio), w') ∧
  asked w w' ∧ (ret = 0 ∧ mmio ≠ 0 ∧ s = pci_claimed mmio ∨ ret ≠ 0 ∧ mmio = 0 ∧ s = pci_idle).
Proof.
  unfold wireless_simu_pci_claim. cbv zeta.
  do 5 (rewrite (M_bind_done _ _ _ _ _ (ask_done _ _)); case_decide;
    [eexists _, _, _, _; split; [reflexivity|]; split; [by eexists|first [by left|by right]]|]).
  eexists _, _, _, _. split; [reflexivity|]. split; [by eexists|]. left. split_and!; [done|done|].
  unfold pci_claimed. cbn. f_equal.
Qed.

(** Claiming the device is all or nothing.  [wireless_simu_pci_claim] on
    an idle device never faults, whatever the PCI core answers: it returns 0
    with the device enabled, its regions requested, bus mastering on and the
    BAR mapped at a non-NULL address, or an error with the device idle again. *)
Theorem pci_claim_all_or_nothing w :
  ∃ ret s mmio w', wireless_simu_pci_claim pci_idle w = Done ((ret, s, mmio), w') ∧
    same_resources w w' ∧ w_mmio w' = w_mmio w ∧
    (ret = 0 ∧ mmio ≠ 0 ∧ s = pci_claimed mmio ∨ ret ≠ 0 ∧ mmio = 0 ∧ s = pci_idle).
Proof.
  destruct (claim_cases w) as (ret & s & mmio & w' & E & Hw & H). exists ret, s, mmio, w'.
  destruct (asked_same _ _ Hw) as (? & ? & _). by split_and!.
Qed.

Lemma irq_init_cases mmio w : ∃ ret s info w',
  wireless_simu_pci_irq_init (pci_claimed mmio) w = Done ((ret, s, info), w') ∧ asked w w' ∧
  (ret = 0 ∧ (∃ h, s = pci_running mmio h ∧ (h = None ∨ h = Some info.2)) ∨
   ret ≠ 0 ∧ s = pci_mapped_only mmio).
Proof.
  assert (∀ (msi_enable : bool) (msi_desc : Z) w1, asked w w1 →
    ∃ ret s info w', (irq ← ask k_pci_irq_vector; ret ← ask k_request_irq;
      mret (0, if decide (ret = 0) then pci_claimed mmio <| pci_vectors := true |> <| pci_irq_handler := Some irq |>
               else pci_claimed mmio <| pci_vectors := true |>, (msi_enable, msi_desc, irq))) w1 =
        Done ((ret, s, info), w') ∧ asked w w' ∧
    (ret = 0 ∧ (∃ h, s = pci_running mmio h ∧ (h = None ∨ h = Some info.2)) ∨
     ret ≠ 0 ∧ s = pci_mapped_only mmio)) as Hrest.
  { intros msi_enable msi_desc w1 [n ->]. do 2 rewrite (M_bind_done _ _ _ _ _ (ask_done _ _)).
    eexists _, _, _, _. split; [reflexivity|]. split; [by eexists|]. left. split; [done|].
    case_decide; eexists; (split; [reflexivity|by auto]). }
  unfold wireless_simu_pci_irq_init. cbv zeta. rewrite (M_bind_done _ _ _ _ _ (ask_done _ _)).
  destruct (bool_decide_reflect (0 ≤ k_pci_alloc_irq_vectors w true)).
  - rewrite M_bind_ret, decide_False by lia. rewrite (M_bind_done _ _ _ _ _ (ask_done _ _)). case_decide.
    + eexists _, _, _, _. split; [reflexivity|]. split; [by eexists|by right].
    + apply Hrest. by eexists.
  - rewrite (M_bind_done _ _ _ _ _ (ask_done _ _)). case_decide.
    + eexists _, _, _, _. split; [reflexivity|]. split; [by eexists|]. right. split; [lia|done].
    + rewrite M_bind_ret, decide_False by naive_solver. apply Hrest. by eexists.
Qed.

(** Setting up the interrupt is not all or nothing.
    [wireless_simu_pci_irq_init] on a claimed device never faults; it returns 0
    with vectors allocated, even when [request_irq] refused and no handler is
    installed; or an error, after which the device is disabled and its regions
    are released but the BAR stays mapped. *)
Theorem pci_irq_init_outcome mmio w : ∃ ret s info w',
  wireless_simu_pci_irq_init (pci_claimed mmio) w = Done ((ret, s, info), w') ∧
  same_resources w w' ∧ w_mmio w' = w_mmio w ∧
  (ret = 0 ∧ (∃ h, s = pci_running mmio h ∧ (h = None ∨ h = Some info.2)) ∨
   ret ≠ 0 ∧ s = pci_mapped_only mmio).
Proof.
  destruct (irq_init_cases mmio w) as (ret & s & info & w' & E & Hw & H). exists ret, s, info, w'.
  destruct (asked_same _ _ Hw) as (? & ? & _). by split_and!.
Qed.
End claim.

(* ------------------------------------------------------------------ *)
(** ** The interrupt handler *)

Section handler.
Context `{K : Kernel} `{B : Bits} `{SA : SkbApi}.

Lemma irq_handler_done ws pipe w : st_pipes (ws_st_dst ws) !! 0%nat = Some pipe →
  let status := u32 (k_ioread32 w (ws_mmio_addr ws + HAL_BASIC_REG WIRELESS_REG_BASIC_IRQ_STATUS)) in
  wireless_simu_irq_handler (Some ws) w =
    Done (Some (if decide (status = 1)
                then ws <| ws_st_dst := put_pipe (ws_st_dst ws) 0 (pipe <| pipe_intr_tq := true |>) |> else ws),
          (tick w) <| w_mmio := w_mmio w ++
            [(ws_mmio_addr ws + HAL_BASIC_REG WIRELESS_REG_BASIC_IRQ_STATUS, 0)] |>).
Proof.
  intros Hp status. unfold wireless_simu_irq_handler. rewrite (M_bind_done _ _ w ws w) by done.
  rewrite (M_bind_done _ _ w status (tick w)) by done.
  change WIRELESS_SIMU_IRQ_STATU_SRNG_DST_DMA_TEST_RING_0 with 1. case_decide.
  - rewrite (M_bind_done _ _ (tick w) (put_pipe (ws_st_dst ws) 0 (pipe <| pipe_intr_tq := true |>)) (tick w));
      [reflexivity|]. unfold tasklet_schedule. by rewrite Hp.
  - rewrite M_bind_ret. by destruct ws.
Qed.

(** C30.  The interrupt handler.  It reads the status, clears it, and schedules
    the receive tasklet exactly when the status word is 1: any other word,
    also one with further bits set, is cleared without being served.  Nothing
    else of the driver changes.  Before [pci_set_drvdata] - the probe function
    requests the line first - it dereferences NULL. *)
Theorem irq_handler_spec ws pipe w : st_pipes (ws_st_dst ws) !! 0%nat = Some pipe →
  wireless_simu_irq_handler None w = Fault NullDeref ∧
  ∃ ws' w', wireless_simu_irq_handler (Some ws) w = Done (Some ws', w') ∧
    let status := u32 (k_ioread32 w (ws_mmio_addr ws + HAL_BASIC_REG WIRELESS_REG_BASIC_IRQ_STATUS)) in
    w_mmio w' = w_mmio w ++ [(ws_mmio_addr ws + HAL_BASIC_REG WIRELESS_REG_BASIC_IRQ_STATUS, 0)] ∧
    same_resources w w' ∧ w_mem w' = w_mem w ∧
    (if decide (status = 1)
     then st_pipes (ws_st_dst ws') = <[0%nat := pipe <| pipe_intr_tq := true |>]> (st_pipes (ws_st_dst ws))
     else ws' = ws) ∧
    ws_hal ws' = ws_hal ws ∧ ws_mac ws' = ws_mac ws ∧ ws_skbs ws' = ws_skbs ws.
Proof.
  intros Hp. split; [done|]. eexists _, _. split; [by apply irq_handler_done|].
  cbv zeta. split; [done|]. split; [done|]. split; [done|]. by case_decide.
Qed.
End handler.

(* ------------------------------------------------------------------ *)
(** ** Blocks allocated above a part's base *)

Section above.
Context `{K : Kernel} `{B : Bits} `{SA : SkbApi}.

(** The world with the heap blocks [c] on top. *)
Definition heap_above (c : gset Z) (w : world) : world := w <| w_heap := c ∪ w_heap w |>.

Lemma heap_above_same c w w' : same_resources w w' → same_resources (heap_above c w) (heap_above c w').
Proof. intros []. split; cbn; congruence. Qed.

Lemma owns_above c l w0 w : owns l w0 w → c ## w_heap w → owns l (heap_above c w0) (heap_above c w).
Proof.
  intros [H1 H2 H3 H4 H5 H6] Hc. split; cbn; try done.
  - intros x Hx. destruct (H3 x Hx) as [(Hz & Hin & Hout) Hd Hn Hm].
    split; cbn; try done. clear -Hc Hz Hin Hout. split_and!; [done|set_solver|set_solver].
  - intros p Hp. by rewrite !elem_of_union, H4.
Qed.

(** The same with a configuration block [x] besides the rings. *)
Lemma config_above c x l base w : x ∉ w_heap base → owns l (heap_world x base) w → c ## w_heap w →
  x ∉ w_heap (heap_above c base) ∧ owns l (heap_world x (heap_above c base)) (heap_above c w).
Proof.
  intros Hcn Ho Hd. assert (x ∈ w_heap w) as Hcw.
  { apply (ow_heap _ _ _ Ho x); [|cbn; by apply elem_of_union_l, elem_of_singleton]. intros y Hy Heq.
    destruct (ow_rings _ _ _ Ho y Hy) as [(_ & _ & Hout) _ _ _]. apply Hout. cbn. rewrite <-Heq. by apply elem_of_union_l, elem_of_singleton. }
  split.
  - cbn. clear -Hcn Hd Hcw. set_solver.
  - assert (heap_above c (heap_world x base) = heap_world x (heap_above c base)) as <- by
      (unfold heap_above, heap_world; cbn; f_equal; clear; set_solver).
    by apply owns_above.
Qed.

Lemma stoppable_above c base s0 p w : rx_stoppable base s0 p w → c ## w_heap w →
  rx_stoppable (heap_above c base) s0 p (heap_above c w).
Proof.
  intros [Hs Hn Hl [Hc Hcn] Ho] Hd. destruct (config_above _ _ _ _ _ Hcn Ho Hd). by split.
Qed.

Lemma held_above c hal w0 w : hal_held hal w0 w → c ## w_heap w →
  hal_held hal (heap_above c w0) (heap_above c w).
Proof.
  intros [[H1 H2] Hh ? ? ? ? ?] Hd. split; cbn; try done.
  - split; [done|]. clear -H2 Hh Hd. set_solver.
  - rewrite Hh. clear. set_solver.
Qed.
End above.

(* ------------------------------------------------------------------ *)
(** ** Probe and removal *)

Section life.
Context `{KO : KernelOk} `{BO : BitsOk} `{SO : SkbOk} `{I : Ieee80211} `{AO : Mac80211Ok} `{PA : PciApi}.
Context (big : bool) (wakeups : nat).

(** The members the receive path works on. *)
Definition ws_dst (ws : wireless_simu) : dst_priv := DstPriv (ws_hal ws) (ws_st_dst ws) (ws_skbs ws).

(** No receive path: the structure as [kzalloc] gave it. *)
Record rx_none (p : dst_priv) : Prop := {
  rn_config : st_config_ptr (dp_st p) = 0;
  rn_count : st_pipes_count (dp_st p) = 0;
  rn_lock : st_lock (dp_st p) = false;
  rn_down : rx_down p
}.

(** After [wireless_simu_hal_srng_dst_test_init], from the world [w0] the HAL
    was initialised in: the receive path runs, or there is none, or the failed
    start left a dangling configuration.  At most [n] buffers were left behind. *)
Inductive rings_set (mmio : Z) (w0 : world) (store : skbs) (n : nat) (p : dst_priv) (w : world) : Prop :=
  | rings_running w1 h : hal_held (dp_hal p) w0 w1 → rx_running mmio w1 store n (p, w, h) →
      rings_set mmio w0 store n p w
  | rings_none : hal_held (dp_hal p) w0 w → dp_skbs p = store → rx_none p → rings_set mmio w0 store n p w
  | rings_dangling : hal_held (dp_hal p) w0 w → dp_skbs p = store → rx_dangling p w →
      rings_set mmio w0 store n p w.

Lemma owns_heap l w0 w : owns l w0 w → w_heap w0 ⊆ w_heap w.
Proof.
  intros Ho x Hx. apply (ow_heap _ _ _ Ho); [|done].
  intros y Hy ->. by destruct (ow_rings _ _ _ Ho y Hy) as [(_ & _ & Hout) _ _ _].
Qed.

Lemma stoppable_heap base s0 p w : rx_stoppable base s0 p w → w_heap base ⊆ w_heap w.
Proof. intros Hs. etrans; [|apply (owns_heap _ _ _ (sp_owned _ _ _ _ Hs))]. apply union_subseteq_r. Qed.

Lemma rings_set_heap mmio w0 store n p w : rings_set mmio w0 store n p w → w_heap w0 ⊆ w_heap w.
Proof.
  intros [w1 h [_ Hh _ _ _ _ _] Hr|[_ Hh _ _ _ _ _] _ _|[_ Hh _ _ _ _ _] _ _];
    [|rewrite Hh; apply union_subseteq_r..].
  destruct (rx_running_stoppable _ _ _ _ _ _ _ Hr) as (s0 & _ & Hs).
  etrans; [|by eapply stoppable_heap]. rewrite Hh. apply union_subseteq_r.
Qed.

(** The send test in between: it gives back what it takes and keeps to its own
    words, register and record. *)
Lemma rings_set_later mmio w0 store n p hal w w' : rings_set mmio w0 store n p w →
  ring_changed (type_ring_id HAL_TEST_SRNG) (dp_hal p) hal → same_resources w w' →
  (∀ x, is_Some (w_mem w !! x) → x ≠ rdp_word (dp_hal p) HAL_TEST_SRNG → w_mem w' !! x = w_mem w !! x) →
  (∀ r, ¬ 0 ≤ r - (mmio + 0x10000 + 256 * type_ring_id HAL_TEST_SRNG) < 256 →
     mmio_last (w_mmio w') r = mmio_last (w_mmio w) r) →
  rings_set mmio w0 store n (p <| dp_hal := hal |>) w'.
Proof.
  intros Hset Hch Hsame Hm Hq. pose proof (rc_kept _ _ _ Hch) as Hk.
  destruct Hset as [w1 h Hh Hr|Hh Hst [? ? ? (pipe & ? & ?)]|Hh Hst [[? ?] ? ? ?]].
  - apply (rings_running _ _ _ _ _ _ w1 h); [by eapply hal_held_later|].
    destruct Hr as [(V & a & t & k & r & s0 & Hup & Hrest) ?]. split; [|done].
    exists V, a, t, k, r, s0. split; [|done]. eapply rx_up_undisturbed; try done. apply Hq.
    pose proof (rh_reg _ _ _ (ri_home _ _ _ _ _ _ _ _ _ _ _ (ru_inv _ _ _ _ _ _ _ _ _ _ Hup))). cbn in *. lia.
  - apply rings_none; [by eapply hal_held_later|done|]. split; try done. by exists pipe.
  - apply rings_dangling; [by eapply hal_held_later|done|]. split; try done.
    by rewrite (same_heap _ _ Hsame).
Qed.

Lemma stop_none_done mmio p w : rx_none p →
  ∃ p' w', wireless_simu_hal_srng_dst_test_deinit mmio p w = Done (p', w') ∧
    same_resources w w' ∧ dp_skbs p' = dp_skbs p ∧ dp_hal p' = dp_hal p ∧ rx_stopped p p'.
Proof.
  intros [Hc Hn Hl (pipe & Hp & He)].
  assert (pipe_dst_ring pipe = None) as Hdst by (clear -He; by destruct pipe; injection He). unfold wireless_simu_hal_srng_dst_test_deinit, lock_acquire.
  rewrite Hn, Hl, (M_bind_done _ _ w true w) by done. cbn [seq Z.to_nat dst_for_pipes].
  rewrite (M_bind_done _ _ w (set_lock p true) w), (M_bind_done _ _ w (set_lock p true) w) by done.
  destruct (free_pipes_owns (dp_st (set_lock p true)) [] w w) as (w2 & E2 & Ho & Hm & _).
  { rewrite app_nil_r. unfold test_owned. cbn. rewrite Hp, <-He. apply owns_nil. }
  rewrite (M_bind_done _ _ _ _ _ E2). unfold kfree. cbn [st_config_ptr].
  destruct (owns_nil_inv _ _ Ho) as (? & ? & ?).
  rewrite (M_bind_done _ _ w2 tt w2) by by (cbn; rewrite Hc).
  eexists _, w2. split; [reflexivity|]. split_and!; [done..|]. split; [|done]. intros q.
  unfold rx_held. rewrite Hp. cbn. rewrite Hdst, decide_False by apply not_elem_of_nil. done.
Qed.

(** Removal of the receive path and of the HAL, with blocks [c] of others on
    the heap: all is as in [w0]. *)
Lemma rings_removed mmio w0 store n p w wc c : rings_set mmio w0 store n p w → (∀ x, ¬ rx_dangling p x) →
  c ## w_heap w → same_resources (heap_above c w) wc →
  ∃ p' hal' w1 w2, wireless_simu_hal_srng_dst_test_deinit mmio p wc = Done (p', w1) ∧
    wireless_simu_hal_srng_deinit (dp_hal p') w1 = Done (hal', w2) ∧
    same_resources (heap_above c w0) w2 ∧ rtc leaked store (dp_skbs p') ∧ rx_stopped p p'.
Proof.
  intros Hset Hnd Hc Hwc. destruct Hset as [w1 h Hh Hrun|Hh Hst Hn|Hh Hst Hd]; [| |by destruct (Hnd w)].
  - destruct (rx_running_stoppable _ _ _ _ _ _ _ Hrun) as (s0 & Hl & Hs).
    pose proof (rx_stoppable_same _ _ _ (dp_hal p) _ _ (stoppable_above c _ _ _ _ Hs Hc) Hwc) as Hs2.
    replace (p <| dp_hal := dp_hal p |>) with p in Hs2 by by destruct p.
    destruct (stop_done mmio _ _ _ _ Hs2) as (p' & w2 & E & Hsame & Hsk & _ & _ & Hhal & Hst).
    assert (c ## w_heap w1) as Hc1.
    { intros x Hx Hx1. apply (Hc x Hx). by apply (stoppable_heap _ _ _ _ Hs). }
    destruct (srng_deinit_held (dp_hal p') (heap_above c w0) w2) as (hal' & w3 & E2 & H2).
    { rewrite Hhal. apply (hal_held_later (dp_hal p) _ _ (heap_above c w1)); [by apply held_above|done|done]. }
    exists p', hal', w2, w3. split_and!; [done|done|done|rewrite Hsk; by eapply rtc_bsteps_2|done].
  - destruct (stop_none_done mmio p wc Hn) as (p' & w2 & E & Hsame & Hsk & Hhal & Hstop).
    destruct (srng_deinit_held (dp_hal p') (heap_above c w0) w2) as (hal' & w3 & E2 & H2).
    { rewrite Hhal. apply (hal_held_later (dp_hal p) _ _ (heap_above c w)); [by apply held_above|done|by etrans]. }
    exists p', hal', w2, w3. split_and!; [done|done|done|by rewrite Hsk, Hst|done].
Qed.

(** The device claimed and interrupting; the workqueue may be made. *)
Record wired (mmio : Z) (h : option Z) (ws : wireless_simu) : Prop := {
  wd_pci : ws_pci ws = pci_running mmio h <| pci_workqueue := ws_workqueue_aux ws |>;
  wd_mmio : ws_mmio_addr ws = mmio;
  wd_list : ws_tx_list ws = 0
}.

(** All parts of the driver set up over [w0]. *)
Record driver_up (w0 : world) (store : skbs) (ws : wireless_simu) (w : world) : Prop := {
  du_wq : ws_workqueue_aux ws ≠ 0;
  du_parts : ∃ w4 r, rings_set (ws_mmio_addr ws) w0 store 1 (ws_dst ws) w4 ∧
    probe_outcome w4 r (mp_hw (ws_mac ws)) (hw_registered (mp_hw_val (ws_mac ws))) (w_heap w) ∧
    w_dma w = w_dma w4 ∧ w_map w = w_map w4 ∧ w_mem w = w_mem w4 ∧
    w_mmio w = w_mmio w4;
  du_idle : mp_mgmt_tx_work (ws_mac ws) = false;
  du_mac : mp_hw (ws_mac ws) ≠ 0 → hw_registered (mp_hw_val (ws_mac ws)) = true →
    mp_mac_conf_mutex (ws_mac ws) = false ∧ ∃ q, mp_vifs q = ∅ ∧ mac_fresh q (ws_mac ws)
}.

Lemma stoppable_mem base s0 p w a : rx_stoppable base s0 p w → is_Some (w_mem base !! a) → is_Some (w_mem w !! a).
Proof.
  intros Hs Ha. pose proof (sp_owned _ _ _ _ Hs) as Ho. apply elem_of_dom, (ow_mem _ _ _ Ho).
  - intros x Hx Hax. pose proof (ro_mem _ _ _ (ow_rings _ _ _ Ho x Hx) a Hax) as Hnone.
    change (w_mem base !! a = None) in Hnone. rewrite Hnone in Ha. by destruct Ha.
  - by apply elem_of_dom.
Qed.

(** Starting the receive path on a HAL just initialised. *)
Lemma dst_start mmio w0 w1 p : wireless_simu_hal_srng_init w0 = Done ((0, dp_hal p), w1) → rx_none p →
  ∃ r p2 w2, wireless_simu_hal_srng_dst_test_init big mmio p w1 = Done ((r, p2), w2) ∧
    rings_set mmio w0 (dp_skbs p) 1 p2 w2 ∧ hal_ready (dp_hal p2) w2.
Proof.
  intros Ei [Hc Hn Hl Hd]. destruct (srng_init_held _ _ _ Ei) as [Hheld Hready].
  destruct (dst_init_cases big mmio p w1 Hready Hd) as (r & p2 & w2 & E & H).
  exists r, p2, w2. split; [done|].
  destruct H as [(Hr & Hsame & Hsk & Hhal)|(-> & V & a & k & s0 & Hup & Hf & Hleak & _ & Hk)].
  - rewrite Hhal. split; [|by eapply hal_ready_same].
    assert (hal_held (dp_hal p2) w0 w2) as Hh2
      by (rewrite Hhal; by apply (hal_held_later (dp_hal p) _ _ w1)).
    destruct Hr as [[_ ->]|[_ Hdang]]; [apply rings_none|by apply rings_dangling]; try done.
  - pose proof (rx_running_intro mmio _ _ _ _ _ _ _ _ Hup Hf Hleak) as Hrun.
    destruct (rx_running_stoppable _ _ _ _ _ _ _ Hrun) as (s1 & _ & Hs). split.
    + apply (rings_running _ _ _ _ _ _ w1 0); [by apply (hal_held_later (dp_hal p) _ _ w1)|done].
    + apply (hal_ready_kept (dp_hal p)); [|done]. apply (hal_ready_mono _ w1); [done| |].
      * intros x. by apply (stoppable_mem _ _ _ _ x Hs).
      * by apply (stoppable_heap _ _ _ _ Hs).
Qed.

Lemma probe_rings_cases ws w0 mmio h : rx_none (ws_dst ws) → no_bands (ws_mac ws) →
  mp_vifs (ws_mac ws) = ∅ → mp_mgmt_tx_work (ws_mac ws) = false →
  wired mmio h ws → ws_workqueue_aux ws = 0 →
  ∃ ret ws' w', probe_rings big ws w0 = Done ((ret, ws'), w') ∧
    wired mmio h ws' ∧ ws_ptr ws' = ws_ptr ws ∧ ws_irq_vectors_num ws' = ws_irq_vectors_num ws ∧
    w_heap w0 ⊆ w_heap w' ∧ (ret = 0 → driver_up w0 (ws_skbs ws) ws' w').
Proof.
  intros Hn Hb Hv Hidle Hw Hwq. unfold probe_rings.
  destruct (init_cases w0) as [[hal E]|[(c & hal & _ & _ & _ & [E|E])|(c & v1 & p1 & v2 & p2 & _ & _ & _ & _ & _ & _ & E)]];
    rewrite (M_bind_done _ _ _ _ _ E);
    try (rewrite decide_True by done; eexists _, _, _; split; [reflexivity|];
         destruct Hw as [H1 H2 H3]; split_and!; try done; apply union_subseteq_r).
  rewrite decide_False by (intros H; by apply H).
  revert E. generalize (init_hal c v1 p1 v2 p2) as hal.
  generalize (dma_world v2 p2 sizeof_wrp (dma_world v1 p1 sizeof_rdp (config_world c w0))) as w1.
  intros w1 hal E. clear dependent c v1 p1 v2 p2. set (ws1 := ws <| ws_hal := hal |>).
  destruct (dst_start (ws_mmio_addr ws1) w0 w1 (ws_dst ws1) E) as (r & p2 & w2 & E2 & Hset & Hready);
    [by destruct Hn|].
  set (ws2 := ws1 <| ws_hal := dp_hal p2 |> <| ws_st_dst := dp_st p2 |> <| ws_skbs := dp_skbs p2 |>).
  rewrite (M_bind_done _ _ w1 (r, ws2) w2).
  2: { unfold on_dst. change (DstPriv _ _ _) with (ws_dst ws1). by rewrite (M_bind_done _ _ _ _ _ E2). }
  destruct (srng_test_done big (ws_mmio_addr ws2)
    (λ x, is_Some (w_mem w2 !! x) ∧ x ≠ rdp_word (ws_hal ws2) HAL_TEST_SRNG)
    (λ r, ¬ 0 ≤ r - (ws_mmio_addr ws2 + 0x10000 + 256 * type_ring_id HAL_TEST_SRNG) < 256)
    (ws_hal ws2) (ws_skbs ws2) w2 Hready) as (hal' & w3 & E3 & Hsame & Hk & [Hkm Hkq]);
    [split; naive_solver|].
  rewrite (M_bind_done _ _ _ _ _ E3), (M_bind_done _ _ _ _ _ (ask_done _ _)).
  set (wq := k_create_workqueue w3). set (ws3 := ws2 <| ws_hal := hal' |> <| ws_skbs := ws_skbs ws2 |>
    <| ws_workqueue_aux := wq |> <| ws_pci := ws_pci ws2 <| pci_workqueue := wq |> |>).
  assert (wired mmio h ws3) as Hw3.
  { destruct Hw as [H1 H2 H3]. split; try done. cbn. rewrite H1, Hwq. done. }
  assert (rings_set (ws_mmio_addr ws) w0 (ws_skbs ws) 1 (ws_dst ws3) (tick w3)) as Hset3.
  { apply (rings_set_later _ _ _ _ _ hal' w2 (tick w3) Hset Hk);
      [by destruct Hsame|intros x Hx Hn2; by apply Hkm|intros x Hx; by apply Hkq]. }
  pose proof (rings_set_heap _ _ _ _ _ _ Hset3) as Hheap. case_decide as Hz.
  { eexists _, ws3, _. split; [reflexivity|]. split_and!; try done. }
  destruct (core_probe_cases (set_skbs (ws_mac ws3) (ws_skbs ws3)) (tick w3) Hb)
    as (r3 & p3 & w4 & E4 & Ho & Hmut & Hsk & (Hd4 & Hm4 & Hmem4 & Hmm4) & Hfresh & Hwork).
  set (ws4 := ws3 <| ws_mac := p3 |> <| ws_skbs := mp_skbs p3 |>).
  rewrite (M_bind_done _ _ (tick w3) (r3, ws4) w4).
  2: { unfold on_mac. by rewrite (M_bind_done _ _ _ _ _ E4). }
  exists 0, ws4, w4. split; [reflexivity|]. split_and!; [by destruct Hw3|done|done| |intros _].
  - etrans; [exact Hheap|]. destruct Ho; [done|apply union_subseteq_r..].
  - split; [done| |by apply Hwork|].
    + exists (tick w3), r3. split_and!; try done.
      assert (ws_dst ws4 = ws_dst ws3) as ->; [|done]. unfold ws_dst. cbn. by rewrite Hsk.
    + intros Hhw Hreg. split; [done|]. exists (set_skbs (ws_mac ws3) (ws_skbs ws3)). split; [exact Hv|]. apply Hfresh.
      change (ws_mac ws4) with p3 in *. destruct Ho; [done|congruence|done].
Qed.

(** How probing ends, with [ptr] the block of [struct wireless_simu]. *)
Inductive probed (w : world) (store : skbs) (ptr : Z) : Z → wireless_simu → bool → world → Prop :=
  | probed_early ret ws w' : ret ≠ 0 →
      ws_pci ws = pci_idle ∨ (∃ mmio, mmio ≠ 0 ∧ ws_pci ws = pci_mapped_only mmio) →
      ws_ptr ws = ptr → same_resources (heap_above {[ptr]} w) w' → probed w store ptr ret ws false w'
  | probed_late ret mmio h ws w' : ret ≠ 0 → wired mmio h ws → ws_ptr ws = ptr →
      {[ptr]} ∪ w_heap w ⊆ w_heap w' → probed w store ptr ret ws true w'
  | probed_up mmio h ws w0 w' : wired mmio h ws → h = None ∨ h = Some (ws_irq_vectors_num ws) →
      ws_ptr ws = ptr → same_resources (heap_above {[ptr]} w) w0 →
      driver_up w0 store ws w' → probed w store ptr 0 ws true w'.

Lemma probe_cases store w : k_kmalloc w sizeof_wireless_simu ≠ 0 →
  ∃ ret ws ok w', wireless_simu_pci_probe big pci_idle store w = Done ((ret, ws, ok), w') ∧
    probed w store (k_kmalloc w sizeof_wireless_simu) ret ws ok w'.
Proof.
  intros Hptr. unfold wireless_simu_pci_probe. set (ptr := k_kmalloc w sizeof_wireless_simu) in *.
  set (w1 := heap_above {[ptr]} (tick w)).
  assert (kmalloc sizeof_wireless_simu w = Done (ptr, w1)) as E.
  { unfold kmalloc. fold ptr. by rewrite decide_False. }
  rewrite (M_bind_done _ _ _ _ _ E), decide_False by done.
  set (ws0 := wireless_simu_zero ptr pci_idle store). change (ws_pci ws0) with pci_idle. cbv zeta.
  assert (same_resources (heap_above {[ptr]} w) w1) as Hw1 by done.
  destruct (claim_cases w1) as (ret & s & mmio & w2 & E2 & Hw2 & H); rewrite (M_bind_done _ _ _ _ _ E2).
  apply asked_same in Hw2 as [Hw2 _]. destruct H as [(-> & Hm & ->)|(Hret & -> & ->)].
  2: { rewrite decide_True by done. eexists _, _, _, _. split; [reflexivity|].
       apply probed_early; [done|by left|done|by etrans]. }
  rewrite decide_False by (intros H; by apply H). set (ws1 := ws0 <| ws_pci := _ |> <| ws_mmio_addr := _ |>).
  change (ws_pci ws1) with (pci_claimed mmio).
  destruct (irq_init_cases mmio w2) as (ret & s & [[en desc] irq] & w3 & E3 & Hw3 & H);
    rewrite (M_bind_done _ _ _ _ _ E3).
  apply asked_same in Hw3 as [Hw3 _]. destruct H as [(-> & h & -> & Hh)|(Hret & ->)].
  2: { rewrite decide_True by done. eexists _, _, _, _. split; [reflexivity|].
       apply probed_early; [done|right; by exists mmio|done|by do 2 (etrans; [|done])]. }
  rewrite decide_False by (intros H; by apply H).
  set (ws2 := ws1 <| ws_pci := _ |> <| ws_msi_enable := _ |> <| ws_msi_desc := _ |> <| ws_irq_vectors_num := _ |>).
  set (w4 := w3 <| w_mmio := w_mmio w3 ++ [(ws_mmio_addr ws2 + 4, 1)] |>).
  rewrite (M_bind_done _ _ w3 tt w4) by done.
  set (w5 := tick w4). rewrite (M_bind_done _ _ w4 (u32 (k_ioread32 w4 (ws_mmio_addr ws2 + WIRELESS_REG_IRQ_ENABLE))) w5) by done.
  assert (same_resources (heap_above {[ptr]} w) w5) as Hw5.
  { etrans; [exact Hw1|]. etrans; [exact Hw2|]. etrans; [exact Hw3|]. done. }
  destruct (probe_rings_cases ws2 w5 mmio h) as (ret & ws' & w' & E6 & Hwd & Hp & Hv & Hheap & Hup); try done.
  { split; try done. by eexists. }
  rewrite (M_bind_done _ _ _ _ _ E6). exists ret, ws', true, w'. split; [done|].
  destruct (decide (ret = 0)) as [->|Hret].
  - apply (probed_up _ _ _ mmio h _ w5); [done|by rewrite Hv|done|done|by apply Hup].
  - apply (probed_late _ _ _ _ mmio h); [done..|]. by rewrite (same_heap _ _ Hw5) in Hheap.
Qed.

(** C18.  Probing, on every branch.  Given the block of [struct wireless_simu]
    (the result of [kzalloc] is not checked: NULL is dereferenced),
    [wireless_simu_pci_probe] never faults, whatever the kernel and the PCI core
    answer.  An error from the PCI set-up leaves the device idle or its BAR
    mapped and the block allocated; a later error leaves the device running and
    the block allocated; 0 means the ring subsystem, the receive path, the
    workqueue and mac80211 have been set up one on top of the other - except
    that a refused interrupt line, a failed receive path and a failed
    registration are not noticed. *)
Theorem probe_every_branch store w :
  (k_kmalloc w sizeof_wireless_simu = 0 →
     wireless_simu_pci_probe big pci_idle store w = Fault NullDeref) ∧
  (k_kmalloc w sizeof_wireless_simu ≠ 0 →
     ∃ ret ws ok w', wireless_simu_pci_probe big pci_idle store w = Done ((ret, ws, ok), w') ∧
       probed w store (k_kmalloc w sizeof_wireless_simu) ret ws ok w').
Proof.
  split; [|apply probe_cases]. intros H. unfold wireless_simu_pci_probe.
  assert (kmalloc sizeof_wireless_simu w = Done (0, tick w)) as E by (unfold kmalloc; by rewrite H).
  by rewrite (M_bind_done _ _ _ _ _ E), decide_True.
Qed.

(** A probe that returned 0. *)
Lemma probe_up_inv store w ws w1 :
  wireless_simu_pci_probe big pci_idle store w = Done ((0, ws, true), w1) →
  ∃ mmio h w0, wired mmio h ws ∧ (h = None ∨ h = Some (ws_irq_vectors_num ws)) ∧
    ws_ptr ws = k_kmalloc w sizeof_wireless_simu ∧ ws_ptr ws ∉ w_heap w ∧ ws_ptr ws ≠ 0 ∧
    same_resources (heap_above {[ws_ptr ws]} w) w0 ∧ driver_up w0 store ws w1.
Proof.
  intros E. assert (k_kmalloc w sizeof_wireless_simu ≠ 0) as Hptr.
  { intros H. unfold wireless_simu_pci_probe in E.
    rewrite (M_bind_done _ _ _ _ _ (eq_refl : kmalloc _ w = _)), H, decide_True in E by done. done. }
  destruct (probe_cases store w Hptr) as (ret & ws' & ok & w' & E1 & Hpr). rewrite E in E1. injection E1 as <- <- <- <-.
  inversion Hpr as [| |mmio h ? w0 ? Hw Hh Hp Hsame Hup]; [done|]. subst. clear Hpr E.
  assert (ws_ptr ws ∉ w_heap w) as Hpn by (rewrite Hp; by apply kmalloc_fresh).
  exists mmio, h, w0. rewrite <-Hp in Hsame, Hptr. by split_and!.
Qed.

(** No result the probe ignores was an error. *)
Record complete (ws : wireless_simu) : Prop := {
  cp_irq : pci_irq_handler (ws_pci ws) ≠ None;
  cp_rx : st_config_ptr (ws_st_dst ws) = 0 ∨
    ∃ pipe, st_pipes (ws_st_dst ws) = [pipe] ∧ is_Some (pipe_dst_ring pipe);
  cp_mac : mp_hw (ws_mac ws) = 0 ∨ hw_registered (mp_hw_val (ws_mac ws)) = true
}.

Lemma complete_not_dangling ws w : complete ws → ¬ rx_dangling (ws_dst ws) w.
Proof.
  intros [_ [Hc|(pipe & Hp & [d Hd])] _] [[Hn _] _ _ (pipe' & Hp' & He & _)]; [done|].
  change (st_pipes (dp_st (ws_dst ws))) with (st_pipes (ws_st_dst ws)) in Hp'.
  rewrite Hp in Hp'. injection Hp' as <-. rewrite <-He in Hd. done.
Qed.

(** Removal of mac80211: the blocks [c] that stay. *)
Lemma remove_mac_done ws w4 r w1 :
  probe_outcome w4 r (mp_hw (ws_mac ws)) (hw_registered (mp_hw_val (ws_mac ws))) (w_heap w1) →
  mp_hw (ws_mac ws) = 0 ∨ hw_registered (mp_hw_val (ws_mac ws)) = true →
  ∃ mac c, on_mac wireless_mac80211_core_remove ws w1 =
      Done ((0, ws <| ws_mac := mac |>), w1 <| w_heap := c ∪ w_heap w4 |>) ∧
    c ## w_heap w4 ∧ (size c ≤ 1)%nat ∧ mp_mgmt_tx_work mac = mp_mgmt_tx_work (ws_mac ws).
Proof.
  intros Ho Hreg. set (p := set_skbs (ws_mac ws) (ws_skbs ws)).
  assert (∀ q, mp_skbs q = ws_skbs ws → ws <| ws_mac := q |> <| ws_skbs := mp_skbs q |> = ws <| ws_mac := q |>)
    as Hid by (intros q ->; by destruct ws).
  unfold on_mac. fold p.
  destruct (core_remove_cases w4 r p w1 Ho) as [(_ & Hh & E)|[(Hn & -> & _)|(_ & p' & ch & Hch & [Hsk Hwk] & E)]].
  - exists p, ∅. rewrite (M_bind_done _ _ _ _ _ E), Hid by done. split_and!; [|set_solver|by rewrite size_empty; lia|done].
    rewrite union_empty_l_L, <-Hh. by destruct w1.
  - exfalso. change (mp_hw p) with (mp_hw (ws_mac ws)) in Hn. destruct Hreg as [?|Hreg]; [done|].
    rewrite Hreg in Ho. inversion Ho; congruence.
  - exists p', {[ch]}. rewrite (M_bind_done _ _ _ _ _ E), Hid by done.
    split_and!; [done|set_solver|by rewrite size_singleton|done].
Qed.

Lemma on_pci_done f ws s w : f (ws_pci ws) w = Done (s, w) →
  on_pci f ws w = Done (ws <| ws_pci := s |>, w).
Proof. intros E. unfold on_pci. by rewrite (M_bind_done _ _ _ _ _ E). Qed.

(** Silencing the device: interrupt, vectors, workqueue. *)
Lemma remove_irq_off {R} (k : wireless_simu → M R) ws w mmio :
  wired mmio (Some (ws_irq_vectors_num ws)) ws →
  (ws1 ← on_pci (λ s, free_irq s (ws_irq_vectors_num ws)) ws;
   ws1 ← on_pci pci_free_irq_vectors ws1;
   wireless_hif_write32 (ws_mmio_addr ws1) (HAL_BASIC_REG WIRELESS_REG_BASIC_IRQ_ENABLE) 0;;
   k ws1) w =
  k (ws <| ws_pci := pci_claimed mmio <| pci_workqueue := ws_workqueue_aux ws |> |>)
    (w <| w_mmio := w_mmio w ++ [(ws_mmio_addr ws + 4, 0)] |>).
Proof.
  intros [Hpci _ _]. set (s1 := pci_running mmio None <| pci_workqueue := ws_workqueue_aux ws |>).
  rewrite (M_bind_done _ _ w (ws <| ws_pci := s1 |>) w); [reflexivity|].
  apply on_pci_done. rewrite Hpci. unfold free_irq. by rewrite bool_decide_eq_true_2.
Qed.

Lemma remove_quiet {R} (k : wireless_simu → M R) ws w mmio :
  wired mmio (Some (ws_irq_vectors_num ws)) ws → ws_workqueue_aux ws ≠ 0 →
  mp_mgmt_tx_work (ws_mac ws) = false →
  ∃ w', same_resources w w' ∧
    (ws1 ← on_pci (λ s, free_irq s (ws_irq_vectors_num ws)) ws;
     ws1 ← on_pci pci_free_irq_vectors ws1;
     wireless_hif_write32 (ws_mmio_addr ws1) (HAL_BASIC_REG WIRELESS_REG_BASIC_IRQ_ENABLE) 0;;
     ws1 ← drain_workqueue big wakeups ws1;
     ws1 ← on_pci (λ s, destroy_workqueue s (ws_workqueue_aux ws1)) ws1;
     k ws1) w = k (ws <| ws_pci := pci_claimed mmio |>) w'.
Proof.
  intros Hw Hwq Hidle. set (s2 := pci_claimed mmio <| pci_workqueue := ws_workqueue_aux ws |>).
  set (w1 := w <| w_mmio := w_mmio w ++ [(ws_mmio_addr ws + 4, 0)] |>).
  pose proof (remove_irq_off (λ ws1, ws1 ← drain_workqueue big wakeups ws1;
    ws1 ← on_pci (λ s, destroy_workqueue s (ws_workqueue_aux ws1)) ws1; k ws1) ws w mmio Hw) as E.
  cbv beta in E. rewrite E. clear E. fold s2 w1.
  rewrite (M_bind_done _ _ w1 (ws <| ws_pci := s2 |>) w1) by (unfold drain_workqueue; cbn; by rewrite Hidle).
  rewrite (M_bind_done _ _ w1 (ws <| ws_pci := pci_claimed mmio |>) w1).
  2: { unfold on_pci, destroy_workqueue. by rewrite bool_decide_eq_true_2. }
  by exists w1.
Qed.

(** Giving the device and the block back. *)
Lemma remove_release ws w ptr mmio : ws_pci ws = pci_claimed mmio → ws_mmio_addr ws = mmio →
  ws_tx_list ws = 0 → ws_ptr ws = ptr → ptr ≠ 0 → ptr ∈ w_heap w →
  (ws1 ← on_pci (λ s, pci_iounmap s (ws_mmio_addr ws)) ws;
   ws1 ← on_pci pci_release_regions ws1;
   ws1 ← on_pci pci_disable_device ws1;
   kfree (ws_tx_list ws1);; kfree (ws_ptr ws1);; mret ws1) w =
  Done (ws <| ws_pci := pci_idle |>, w <| w_heap := w_heap w ∖ {[ptr]} |>).
Proof.
  intros Hp Hm Hl <- Hz Hin. rewrite (M_bind_done _ _ w (ws <| ws_pci := PciState true true true 0 false None 0 |>) w).
  2: { apply on_pci_done. rewrite Hp. unfold pci_iounmap. rewrite bool_decide_eq_true_2; [done|by rewrite Hm]. }
  rewrite (M_bind_done _ _ w (ws <| ws_pci := PciState true false true 0 false None 0 |>) w) by done.
  rewrite (M_bind_done _ _ w (ws <| ws_pci := pci_idle |>) w) by done.
  rewrite (M_bind_done _ _ w tt w) by (unfold kfree; cbn; by rewrite Hl).
  by rewrite (M_bind_done _ _ _ _ _ (kfree_eq (ws_ptr ws) w Hz Hin)).
Qed.

(** C32.  The ignored errors show at removal.  When the probe returned 0
    although the interrupt line was refused, or although mac80211 could not be
    set up half way, [wireless_simu_pci_remove] frees an interrupt nobody
    requested, or unregisters a device that was never registered. *)
Theorem probe_ignored_errors store w ws w1 :
  wireless_simu_pci_probe big pci_idle store w = Done ((0, ws, true), w1) →
  pci_irq_handler (ws_pci ws) = None ∨
  (mp_hw (ws_mac ws) ≠ 0 ∧ hw_registered (mp_hw_val (ws_mac ws)) = false) →
  wireless_simu_pci_remove big wakeups (Some ws) w1 = Fault BadFree.
Proof.
  intros E Hbad. apply M_bind_fault. destruct (probe_up_inv _ _ _ _ E) as (mmio & h & w0 & Hw & Hh & Hp & Hpn & Hz & Hsame & Hup).
  destruct Hup as [Hwq (w4 & r & Hset & Hmac & _) _ _]. set (ws0 := ws <| ws_stop := true |>).
  unfold remove_priv. fold ws0. cbv zeta.
  destruct (decide (mp_hw (ws_mac ws) = 0 ∨ hw_registered (mp_hw_val (ws_mac ws)) = true)) as [Hreg|Hreg].
  - destruct (remove_mac_done ws0 w4 r w1 Hmac Hreg) as (mac & c & E2 & _).
    rewrite (M_bind_done _ _ _ _ _ E2). apply M_bind_fault. unfold on_pci. apply M_bind_fault.
    unfold free_irq. change (ws_pci (ws0 <| ws_mac := mac |>)) with (ws_pci ws).
    destruct Hbad as [->|[? Hno]]; [done|]. destruct Hreg; congruence.
  - apply M_bind_fault. unfold on_mac. apply M_bind_fault.
    destruct (core_remove_cases w4 r (set_skbs (ws_mac ws) (ws_skbs ws)) w1 Hmac)
      as [(Hn & _)|[(_ & _ & E2)|(-> & _)]]; [by destruct Hreg; left|done|].
    destruct Hreg. right. inversion Hmac; [|done..]. naive_solver.
Qed.

(** From the receive path on, removal gives back the rings, the device and
    [priv]. *)
Lemma remove_rings_done ws mmio w0 store n w4 wd c :
  ws_pci ws = pci_claimed mmio → ws_mmio_addr ws = mmio → ws_tx_list ws = 0 →
  ws_ptr ws ≠ 0 → ws_ptr ws ∈ w_heap w0 →
  rings_set mmio w0 store n (ws_dst ws) w4 → (∀ x, ¬ rx_dangling (ws_dst ws) x) → c ## w_heap w4 →
  same_resources (heap_above c w4) wd →
  ∃ ws2 wf, remove_rings ws wd = Done (ws2, wf <| w_heap := w_heap wf ∖ {[ws_ptr ws]} |>) ∧
    ws_pci ws2 = pci_idle ∧ same_resources (heap_above c w0) wf ∧ rtc leaked store (ws_skbs ws2) ∧
    rx_stopped (ws_dst ws) (ws_dst ws2) ∧ ws_ptr ws2 = ws_ptr ws.
Proof.
  intros Hpci <- Htx Hp0 Hp Hset Hdang Hc Hwd.
  destruct (rings_removed (ws_mmio_addr ws) w0 store n (ws_dst ws) w4 wd c Hset Hdang Hc Hwd)
    as (p' & hal' & we & wf & E3 & E4 & Hwf & Hleak & [Hst Htm]).
  set (ws4 := ws <| ws_hal := dp_hal p' |> <| ws_st_dst := dp_st p' |> <| ws_skbs := dp_skbs p' |>).
  assert (on_dst (λ p, p ← wireless_simu_hal_srng_dst_test_deinit (ws_mmio_addr ws) p; mret (tt, p)) ws wd =
    Done ((tt, ws4), we)) as Edst.
  { unfold on_dst. change (DstPriv _ _ _) with (ws_dst ws).
    rewrite (M_bind_done _ _ wd (tt, p') we); [done|]. by rewrite (M_bind_done _ _ _ _ _ E3). }
  exists (ws4 <| ws_hal := hal' |> <| ws_pci := pci_idle |>), wf. split; [|by split_and!].
  unfold remove_rings. rewrite (M_bind_done _ _ _ _ _ Edst). cbv beta iota.
  rewrite (M_bind_done _ _ _ _ _ E4). cbv zeta.
  rewrite (remove_release (ws4 <| ws_hal := hal' |>) wf (ws_ptr ws) (ws_mmio_addr ws)); try done.
  rewrite (same_heap _ _ Hwf). cbn. clear -Hp. set_solver.
Qed.

(** Removal, from whatever state the parts are in that were set up over [w]. *)
Lemma remove_done store n w ws w0 w4 r w1 :
  wired (ws_mmio_addr ws) (Some (ws_irq_vectors_num ws)) ws → ws_workqueue_aux ws ≠ 0 →
  ws_ptr ws ≠ 0 → ws_ptr ws ∉ w_heap w → same_resources (heap_above {[ws_ptr ws]} w) w0 →
  rings_set (ws_mmio_addr ws) w0 store n (ws_dst ws) w4 → (∀ x, ¬ rx_dangling (ws_dst ws) x) →
  probe_outcome w4 r (mp_hw (ws_mac ws)) (hw_registered (mp_hw_val (ws_mac ws))) (w_heap w1) →
  mp_hw (ws_mac ws) = 0 ∨ hw_registered (mp_hw_val (ws_mac ws)) = true →
  mp_mgmt_tx_work (ws_mac ws) = false →
  w_dma w1 = w_dma w4 → w_map w1 = w_map w4 → w_mem w1 = w_mem w4 →
  ∃ ws2 w2 c, wireless_simu_pci_remove big wakeups (Some ws) w1 = Done (Some ws2, w2) ∧
    ws_pci ws2 = pci_idle ∧ same_resources (heap_above c w) w2 ∧ c ## w_heap w ∧ (size c ≤ 1)%nat ∧
    rtc leaked store (ws_skbs ws2) ∧ rx_stopped (ws_dst ws) (ws_dst ws2) ∧
    ws_ptr ws2 = ws_ptr ws ∧ ws_ptr ws ∉ w_heap w2.
Proof.
  intros Hw Hwq Hptr Hpn Hsame Hset Hdang Hmac Hreg Hidle Hd Hm Hmem.
  set (ws0 := ws <| ws_stop := true |>). set (mmio := ws_mmio_addr ws) in *.
  destruct (remove_mac_done ws0 w4 r w1 Hmac Hreg) as (mac & c & E2 & Hc & Hsize & Hwk).
  set (wc := w1 <| w_heap := c ∪ w_heap w4 |>) in *.
  destruct (remove_quiet remove_rings (ws0 <| ws_mac := mac |>) wc mmio) as (wd & Hwd & Equiet);
    [by destruct Hw|done|by cbn; rewrite Hwk|].
  set (ws3 := ws0 <| ws_mac := mac |> <| ws_pci := pci_claimed mmio |>) in Equiet.
  assert (same_resources (heap_above c w4) wd) as Hwd4.
  { etrans; [|exact Hwd]. split; cbn; [done|done|done|]. by rewrite Hmem. }
  assert (w_heap w0 = {[ws_ptr ws]} ∪ w_heap w) as Hw0 by by rewrite (same_heap _ _ Hsame).
  destruct (remove_rings_done ws3 mmio w0 store n w4 wd c) as (ws2 & wf & E3 & Hi & Hwf & Hleak & Hstop & Hptr2); try done.
  1: by destruct Hw.
  1: { rewrite Hw0. clear. set_solver. }
  assert (c ## {[ws_ptr ws]} ∪ w_heap w) as Hcw.
  { rewrite <-Hw0. intros x Hx Hx2. apply (Hc x Hx). by apply (rings_set_heap _ _ _ _ _ _ Hset). }
  exists ws2, (wf <| w_heap := w_heap wf ∖ {[ws_ptr ws]} |>), c.
  split; [|split_and!; try done].
  - unfold wireless_simu_pci_remove, remove_priv. fold ws0. cbv zeta.
    rewrite (M_bind_done _ _ w1 ws2 (wf <| w_heap := w_heap wf ∖ {[ws_ptr ws]} |>)); [done|].
    rewrite (M_bind_done _ _ _ _ _ E2). cbv beta iota. rewrite Equiet. exact E3.
  - destruct Hwf as [Hh1 Hd1 Hm1 Hdom1], Hsame as [Hh2 Hd2 Hm2 Hdom2]. split; cbn in *; try congruence.
    rewrite Hh1, Hh2. clear -Hcw Hpn. set_solver.
  - clear -Hcw. set_solver.
  - cbn. clear. set_solver.
Qed.

(** Removal undoes a complete probe.  When
    [wireless_simu_pci_probe] returned 0 and no error was ignored,
    [wireless_simu_pci_remove] does not fault, and afterwards the device is idle
    (no interrupt handler, no vectors, no mapping, no workqueue), the coherent
    regions, the streaming mappings and the mapped memory are those of before the
    probe, and so is the heap but for at most one block, the channel table; the
    socket buffers differ by ones whose mapping was refused. *)
Theorem probe_remove_balanced store w ws w1 :
  wireless_simu_pci_probe big pci_idle store w = Done ((0, ws, true), w1) → complete ws →
  ∃ ws2 w2 c, wireless_simu_pci_remove big wakeups (Some ws) w1 = Done (Some ws2, w2) ∧
    ws_pci ws2 = pci_idle ∧ same_resources (heap_above c w) w2 ∧ c ## w_heap w ∧ (size c ≤ 1)%nat ∧
    rtc leaked store (ws_skbs ws2).
Proof.
  intros E Hcomp.
  destruct (probe_up_inv _ _ _ _ E) as (mmio & h & w0 & Hw & Hh & Hp & Hpn & Hptr & Hsame & Hup).
  destruct Hup as [Hwq (w4 & r & Hset & Hmac & Hd & Hm & Hmem & _) Hidle _].
  pose proof (wd_mmio _ _ _ Hw) as <-. assert (h = Some (ws_irq_vectors_num ws)) as ->.
  { pose proof (cp_irq _ Hcomp) as Hirq. rewrite (wd_pci _ _ _ Hw) in Hirq. by destruct Hh. }
  destruct (remove_done store 1 w ws w0 w4 r w1) as (ws2 & w2 & c & H1 & H2 & H3 & H4 & H5 & H6 & _);
    try done; [exact (λ x, complete_not_dangling ws x Hcomp)|apply Hcomp|].
  by exists ws2, w2, c.
Qed.
End life.
