(* ===== verification/DriverRun.v ===== *)
(** * The driver at work

    From a complete probe on, with everything interleaved: the device takes and
    reports receive buffers and interrupts, the tasklet and the retry timer run,
    mac80211 hands over frames and configures the interface, the work item sends
    (src/driver/driver_wireless/wireless.c, wireless_irq.c, wireless_hal.c,
    wireless_mac80211.c).  The parts share the buffer store, the streaming
    mappings and the registers; the theorem is that they do not disturb each
    other. *)

From S2P Require Import Prelude Kernel Bits HalTypes Hif HalRing RingProtocol HalSetup HalInit Skb.
From S2P Require Import SrngTest SrngSend PipeLife SrngTestRun DstTest RxRing RxRun RxLife RxStart RxTrace.
From S2P Require Import Ieee80211 Dp Wmi WmiSend MacTypes Mac80211 MacOps MacIface MacFrames MacProbe Pci PciLife.

(* ------------------------------------------------------------------ *)
(** ** The receive path next to the other parts *)

(** The world without the heap blocks [c]. *)
Definition heap_below (c : gset Z) (w : world) : world := w <| w_heap := w_heap w ∖ c |>.
(** The world with the mappings [m]. *)
Definition with_map (m : gmap Z Z) (w : world) : world := w <| w_map := m |>.

Lemma owns_below c l w0 w : owns l w0 w → c ⊆ w_heap w0 → owns l (heap_below c w0) (heap_below c w).
Proof.
  intros [H1 H2 H3 H4 H5 H6] Hc. split; cbn; try done.
  - intros x Hx. destruct (H3 x Hx) as [(Hz & Hin & Hout) Hd Hn Hm].
    split; cbn; try done. clear -Hc Hz Hin Hout. split_and!; [done|set_solver|set_solver].
  - intros p Hp. by rewrite !elem_of_difference, H4.
Qed.

Lemma config_below c x l base w : x ∉ w_heap base → owns l (heap_world x base) w → c ⊆ w_heap base →
  x ∉ w_heap (heap_below c base) ∧ owns l (heap_world x (heap_below c base)) (heap_below c w).
Proof.
  intros Hcn Ho Hc. split.
  - cbn. clear -Hcn. set_solver.
  - assert (heap_below c (heap_world x base) = heap_world x (heap_below c base)) as <- by
      (unfold heap_below, heap_world; cbn; f_equal; clear -Hcn Hc; set_solver).
    apply owns_below; [done|]. cbn. clear -Hc. set_solver.
Qed.

Lemma owns_map m l w0 w : owns l w0 w → owns l (with_map m w0) w.
Proof. intros [? ? H ? ? ?]. split; try done. intros x Hx. by destruct (H x Hx). Qed.

Section path.
Context `{KO : KernelOk} `{BO : BitsOk} `{SO : SkbOk} (mmio : Z).
Abbreviation rx_path := (rx_path mmio).
Abbreviation rx_inv := (rx_inv mmio).
Abbreviation rx_up := (rx_up mmio).

Lemma held_below c hal w0 w : hal_held hal w0 w → c ⊆ w_heap w0 →
  hal_held hal (heap_below c w0) (heap_below c w).
Proof.
  intros [[H1 H2] Hh ? ? ? ? ?] Hc. split; cbn; try done.
  - split; [done|]. clear -H2. set_solver.
  - rewrite Hh. clear -H2 Hc. set_solver.
Qed.

Lemma held_map m hal w0 w : hal_held hal w0 w → hal_held hal (with_map m w0) (with_map m w).
Proof. by intros []. Qed.

(** Moving a running path onto, or off, blocks of others. *)
Lemma path_moved tq base s n p w h base' w' : rx_path tq base s n (p, w, h) →
  w_map base' = w_map base → w_map w' = w_map w → w_mem w' = w_mem w → w_mmio w' = w_mmio w →
  (∀ x l, x ∉ w_heap base → owns l (heap_world x base) w →
     x ∉ w_heap base' ∧ owns l (heap_world x base') w') →
  rx_path tq base' s n (p, w', h).
Proof.
  intros [(V & a & t & k & r & s0 & [Hinv Hp Hl [Hc Hcn] Ho] & Hrest) Hh] Hmb Hm Hmem Hmmio Hown. cbn in *.
  split; [|done]. exists V, a, t, k, r, s0. split; [|done]. destruct (Hown _ _ Hcn Ho) as [Hcn' Ho'].
  split; try done. cbn. rewrite Hmb. destruct Hinv. split; try done; rewrite ?Hm; try done.
  - eapply Source.inv_frame; [..|exact ri_inv]; intros; by rewrite ?Hmem, ?Hmmio.
  - eapply status_ok_world; [done|]. by rewrite Hmem.
  - eapply status_region_frame; [apply same_shape_refl|apply (so_geo _ _ _ ri_status_ok)| |done].
    intros. by rewrite Hmem.
Qed.

Lemma path_above c tq base s n p w h : rx_path tq base s n (p, w, h) → c ## w_heap w →
  rx_path tq (heap_above c base) s n (p, heap_above c w, h).
Proof. intros Hr Hc. eapply path_moved; [exact Hr|done..|]. intros. by apply config_above. Qed.

Lemma path_below c tq base s n p w h : rx_path tq base s n (p, w, h) → c ⊆ w_heap base →
  rx_path tq (heap_below c base) s n (p, heap_below c w, h).
Proof. intros Hr Hc. eapply path_moved; [exact Hr|done..|]. intros. by apply config_below. Qed.

Lemma path_same tq base s n p w h w' : rx_path tq base s n (p, w, h) → same_resources w w' →
  w_mem w' = w_mem w → w_mmio w' = w_mmio w → rx_path tq base s n (p, w', h).
Proof.
  intros Hr Hs Hm Hq. eapply path_moved; [exact Hr|done|apply Hs|done..|].
  intros x l Hx Ho. split; [done|]. by eapply owns_same.
Qed.

(** Other parts at work: they map what was not mapped, and touch only buffers
    [F] that the receive path has not posted: buffers of theirs, in the store
    [s] the path started from, or new ones.  The path goes on from what they
    leave; the posted buffers and mappings are the difference. *)
Lemma path_others tq base s n p w h store' w' (F : Z → Prop) : rx_path tq base s n (p, w, h) →
  only_maps w w' → (∀ q b, ¬ F q → dp_skbs p !! q = Some b → store' !! q = Some b) →
  (∀ q, F q → is_Some (s !! q) ∨ dp_skbs p !! q = None) →
  ∃ m s', rx_path tq (with_map m base) s' 0 (p <| dp_skbs := store' |>, w', h) ∧ w_map base ⊆ m ∧
    (∀ q, is_Some (s !! q) ∨ dp_skbs p !! q = None → s' !! q = store' !! q) ∧
    (size s' + size (dp_skbs p) ≤ size store' + size s + n)%nat ∧
    (size m + size (w_map w) = size (w_map w') + size (w_map base))%nat.
Proof.
  intros [(V & a & t & k & r & s0 & [Hinv Hp Hl Hc Ho] & Hleak & Hf & Hg) Hh] [Hb Hmem Hmmio Hsub] Hk HF. cbn in *.
  destruct (leaked_spec _ _ _ Hleak) as (Hs0 & Hs0n & _). set (l := live (tr_skb (v_dst V))).
  pose proof (ri_posted _ _ _ _ _ _ _ _ _ _ _ Hinv) as Hpost. fold l in Hpost.
  assert (∀ q, q ∈ l → s !! q = None ∧ is_Some (dp_skbs p !! q)) as Hlive.
  { intros q Hq. destruct (posted_new _ _ _ _ _ _ Hpost Hq) as [Hsome Hnone]. split; [|done].
    by eapply lookup_weaken_None. }
  assert (∀ q, is_Some (s !! q) ∨ dp_skbs p !! q = None → q ∉ l) as Hapart.
  { intros q [[b Hq]|Hq] Hin; destruct (Hlive q Hin) as [H1 [b' H2]]; congruence. }
  assert (∀ q, q ∈ l → store' !! q = dp_skbs p !! q) as Hlq.
  { intros q Hin. destruct (Hlive q Hin) as [_ [b Hqb]]. rewrite Hqb. apply Hk; [|done].
    intros Hq. by apply (Hapart q); [apply HF|]. }
  pose proof (rx_inv_booked _ _ _ _ _ _ _ _ _ _ _ _ Hinv Hlq) as Hbook.
  destruct (posted_change _ _ _ _ _ Hpost store' (w_map w') Hsub Hlq) as (s0' & m & Hpost' & Hm & Hrest).
  destruct (posted_size _ _ _ _ _ Hpost) as (Hz1 & Hz2 & _).
  destruct (posted_size _ _ _ _ _ Hpost') as (Hz3 & Hz4 & _).
  exists m, s0'. split; [|split_and!; [done|intros q Hq; exact (Hrest q (Hapart q Hq))|lia|lia]].
  split; [|done]. exists V, a, t, k, r, s0'. cbn. split; [|split; [constructor|done]].
  split; try done; [|apply (owns_map m _ (heap_world _ base)); by eapply owns_blocks].
  destruct Hinv. split; try done.
  - eapply Source.inv_frame; [..|exact ri_inv]; intros; by rewrite ?Hmem, ?Hmmio.
  - eapply status_ok_world; [done|]. by rewrite Hmem.
  - eapply status_region_frame; [apply same_shape_refl|apply (so_geo _ _ _ ri_status_ok)| |done].
    intros. by rewrite Hmem.
Qed.

(** The interrupt handler's part: it may schedule the tasklet, and writes a
    register outside the ring's. *)
Lemma path_irq tq tq' base s n p w h pipe reg val : rx_path tq base s n (p, w, h) →
  st_pipes (dp_st p) !! 0%nat = Some pipe → ¬ 0x10000 ≤ reg - mmio →
  rx_path tq' base s n (set_pipe p 0 (pipe <| pipe_intr_tq := tq' |>),
    (tick w) <| w_mmio := w_mmio w ++ [(reg, val)] |>, h).
Proof.
  intros [(V & a & t & k & r & s0 & Hup & Hleak & Hf & Hg) Hh] Hp Hreg. cbn in *.
  assert (pipe = v_pipe V) as ->.
  { destruct (ru_pipes _ _ _ _ _ _ _ _ _ _ Hup) as [Hps _]. rewrite Hps in Hp. by injection Hp. }
  apply (rx_up_scheduled _ _ _ _ _ _ _ _ _ _ tq') in Hup. cbv zeta in Hup.
  set (p' := set_pipe _ _ _) in *. set (V' := RxView _ _ _ _ _) in *.
  set (w' := (tick w) <| w_mmio := w_mmio w ++ [(reg, val)] |>).
  assert (rx_up base s0 (p' <| dp_hal := dp_hal p' |>) w' V' a t k r) as Hup'.
  { eapply rx_up_undisturbed; [exact Hup|done|done| |by split]. apply mmio_last_app_ne.
    pose proof (rh_reg _ _ _ (ri_home _ _ _ _ _ _ _ _ _ _ _ (ru_inv _ _ _ _ _ _ _ _ _ _ Hup))) as Hr.
    intros ->. assert (0 ≤ type_ring_id HAL_TEST_SRNG_DST) by by vm_compute. lia. }
  replace (p' <| dp_hal := dp_hal p' |>) with p' in Hup' by by destruct p'.
  split; [|done]. exists V', a, t, k, r, s0. split; [exact Hup'|]. split; [done|]. split; [|done].
  injection Hf as _ Hn. unfold pipe_fixed. cbn. by rewrite Hn.
Qed.

(** What removal will find. *)
Lemma path_end tq base s n p w h : rx_path tq base s n (p, w, h) →
  s ⊆ dp_skbs p ∧ w_map base ⊆ w_map w ∧ ∃ s0, s ⊆ s0 ∧ (size s0 ≤ size s + n)%nat ∧
    ∀ q, s0 !! q = if decide (q ∈ rx_held p) then None else dp_skbs p !! q.
Proof.
  intros [(V & a & t & k & r & s0 & [Hinv [Hps _] _ _ _] & Hleak & _) _]. cbn in *.
  destruct (leaked_spec _ _ _ Hleak) as (Hs0 & Hsize & _).
  pose proof (ri_posted _ _ _ _ _ _ _ _ _ _ _ Hinv) as Hpost.
  destruct (posted_size _ _ _ _ _ Hpost) as (_ & _ & Hm).
  split_and!; [|done|].
  - etrans; [exact Hs0|]. apply map_subseteq_spec. intros q b. apply (posted_base _ _ _ _ _ _ _ Hpost).
  - exists s0. split_and!; [done|done|]. intros q. unfold rx_held. rewrite Hps. cbn.
    rewrite (ri_dst _ _ _ _ _ _ _ _ _ _ _ Hinv). by apply (posted_rest _ _ _ _ _ q Hpost).
Qed.
End path.

(* ------------------------------------------------------------------ *)
(** ** The calls of mac80211 and the work item *)

Section calls.
Context `{KO : KernelOk} `{BO : BitsOk} `{SO : SkbOk} `{IO : Ieee80211Ok} `{AO : Mac80211Ok} (big : bool).

(** One call into wireless_mac80211.c, through its table or of the work item,
    that returns.  Frames are new buffers with a header, room for the integrity
    code, and an interface mac80211 has made known or none; interfaces are
    offered whether or not a slot is free; the work item runs when it is queued,
    with any number of wake-ups. *)
Inductive mac_call : mac_priv * world → mac_priv * world → Prop :=
  | call_start p w r p' w' : op_start wireless_mac80211_ops p w = Done ((r, p'), w') → mac_call (p, w) (p', w')
  | call_stop p w p' w' : op_stop wireless_mac80211_ops p w = Done (p', w') → mac_call (p, w) (p', w')
  | call_filter p w changed total r p' w' :
      op_configure_filter wireless_mac80211_ops p changed total w = Done ((r, p'), w') → mac_call (p, w) (p', w')
  | call_conf_tx p w vif link ac params r p' w' : is_Some (mp_vifs p !! vif) →
      op_conf_tx wireless_mac80211_ops p vif link ac params w = Done ((r, p'), w') → mac_call (p, w) (p', w')
  | call_add p w vif v r p' w' : mp_vifs p !! vif = None →
      op_add_interface wireless_mac80211_ops (set_vif p vif v) vif w = Done ((r, p'), w') →
      mac_call (p, w) (p', w')
  | call_remove p w vif p' w' : is_Some (mp_vifs p !! vif) →
      op_remove_interface wireless_mac80211_ops p vif w = Done (p', w') → mac_call (p, w) (p', w')
  | call_tx p w skb b key vif p' w' : mp_skbs p !! skb = None →
      frame_ready p (b <| sb_cb := tx_cb key vif |>) →
      op_tx wireless_mac80211_ops (set_skbs p (<[skb := b]> (mp_skbs p))) key vif skb w = Done (p', w') →
      mac_call (p, w) (p', w')
  | call_work p w n p' w' : mp_mgmt_tx_work p = true →
      wireless_simu_mgmt_tx_work_func big n p w = Done (p', w') → mac_call (p, w) (p', w')
  | call_idle p w q r w' : idle_call wireless_mac80211_ops q w = Done (r, w') → mac_call (p, w) (p, w').

(** Between two calls: the locks but the mutex are free, the queued frames are
    different buffers, in [s] and ready to be sent, and the interfaces have
    ids. *)
Record mac_ok (s : skbs) (p : mac_priv) : Prop := {
  mo_unlocked : tx_unlocked p;
  mo_distinct : NoDup (mp_mgmt_tx_queue p);
  mo_frames q : q ∈ mp_mgmt_tx_queue p → ∃ b, s !! q = Some b ∧ frame_ready p b;
  mo_ids vif v : mp_vifs p !! vif = Some v → 0 ≤ sv_vif_id (vif_drv_priv v) < Z.of_nat WIRELESS_MAX_NUM_VIF;
  mo_slots : length (mp_vif p) = WIRELESS_MAX_NUM_VIF
}.

(** What a call may do to the rest of the driver, with [s] the buffers that are
    not the receive path's: it works on queued frames, or new ones, only; and
    with the queued frames counted, at most two buffers and two mappings are
    new.  The mutex is as before, or there was no slot left. *)
Record called (s : skbs) (p : mac_priv) (w : world) (p' : mac_priv) (w' : world) : Prop := {
  ca_maps : only_maps w w';
  ca_hw : mp_hw p' = mp_hw p ∧ mp_hw_val p' = mp_hw_val p;
  ca_store q b : q ∉ mp_mgmt_tx_queue p → mp_skbs p !! q = Some b → mp_skbs p' !! q = Some b;
  ca_queue q : q ∈ mp_mgmt_tx_queue p' → q ∈ mp_mgmt_tx_queue p ∨ mp_skbs p !! q = None;
  ca_size : (size (mp_skbs p') + length (mp_mgmt_tx_queue p') ≤
    size (mp_skbs p) + length (mp_mgmt_tx_queue p) + 2)%nat;
  ca_mapped : (size (w_map w') + 2 * length (mp_mgmt_tx_queue p') ≤
    size (w_map w) + 2 * length (mp_mgmt_tx_queue p) + 2)%nat;
  ca_mutex : mp_mac_conf_mutex p' = mp_mac_conf_mutex p ∨ free_vif_slot (mp_vif p) = None;
  ca_ok s' : (∀ q, is_Some (s !! q) ∨ mp_skbs p !! q = None → s' !! q = mp_skbs p' !! q) → mac_ok s' p'
}.

Lemma frame_ready_vifs (p p' : mac_priv) b : dom (mp_vifs p) ⊆ dom (mp_vifs p') →
  frame_ready p b → frame_ready p' b.
Proof.
  intros Hd [? ? Hv]. split; [done..|]. destruct Hv as [?|Hv]; [by left|right].
  apply elem_of_dom, Hd. by apply elem_of_dom.
Qed.

(** A call that leaves queue and buffers alone. *)
Lemma called_config s (p p' : mac_priv) w : mac_ok s p → s ⊆ mp_skbs p → tx_unlocked p' →
  mp_mac_conf_mutex p' = mp_mac_conf_mutex p ∨ free_vif_slot (mp_vif p) = None →
  mp_mgmt_tx_queue p' = mp_mgmt_tx_queue p → mp_skbs p' = mp_skbs p →
  mp_hw p' = mp_hw p → mp_hw_val p' = mp_hw_val p → dom (mp_vifs p) ⊆ dom (mp_vifs p') →
  (∀ vif v, mp_vifs p' !! vif = Some v → 0 ≤ sv_vif_id (vif_drv_priv v) < Z.of_nat WIRELESS_MAX_NUM_VIF) →
  length (mp_vif p') = WIRELESS_MAX_NUM_VIF → called s p w p' w.
Proof.
  intros [Hu Hn Hf _ _] Hs Hu' Hm' Hq Hst H1 H2 Hd Hi Hl. split; rewrite ?Hq, ?Hst; try done; [by left|lia|lia|].
  intros s' Hs'. split; rewrite ?Hq; try done. intros q Hin. destruct (Hf q Hin) as (b & Hb & Hr).
  exists b. split; [|by eapply frame_ready_vifs]. rewrite Hs' by (left; by exists b).
  by eapply lookup_weaken.
Qed.

Lemma mac_ok_store s (p : mac_priv) store : mac_ok s p → mac_ok s (set_skbs p store).
Proof.
  intros [Hu Hn Hf Hi Hl]. split; try done. intros q Hq. destruct (Hf q Hq) as (b & Hb & []).
  exists b. split; [done|]. by split.
Qed.

Lemma work_called s n (p : mac_priv) w : mac_ok s p → s ⊆ mp_skbs p →
  mp_mac_conf_mutex p = false ∨
    (∀ q b, q ∈ mp_mgmt_tx_queue p → mp_skbs p !! q = Some b → cb_vif (sb_cb b) = 0) →
  ∃ p' w', wireless_simu_mgmt_tx_work_func big n p w = Done (p', w') ∧ called s p w p' w'.
Proof.
  intros [Hu Hn Hf Hi Hl] Hs Hm. set (p0 := p <| mp_mgmt_tx_work := false |>).
  destruct (work_loop_done big n (mp_mgmt_tx_queue p) p0 w Hn eq_refl) as (p' & w' & E & Hw & Hq).
  - intros q Hq. destruct (Hf q Hq) as (b & Hb & []). exists b.
    assert (mp_skbs p !! q = Some b) as Hpb by by eapply lookup_weaken.
    split_and!; [done|by split|]. destruct Hm as [Hm|Hm]; [by left|right; by apply (Hm q)].
  - done.
  - exists p', w'. split; [exact E|]. destruct Hw as [Hlk Hmp Hfix _ _ Hk _ _ Hsz Hms]. injection Hfix as H1 H2 H3 H4.
    split; rewrite ?Hq; [done|done|done|by intros q ?%not_elem_of_nil|..].
    + cbn [length]. change (mp_skbs p0) with (mp_skbs p) in Hsz. lia.
    + cbn [length]. lia.
    + left. apply (locks_mutex _ _ Hlk).
    + intros s' _. split; rewrite ?Hq, ?H3, ?H4; try done;
        [by apply (locks_unlocked p0)|constructor|]. by intros q ?%not_elem_of_nil.
Qed.

(** The work item that ends, with the mutex locked or not. *)
Lemma work_ended s n (p : mac_priv) w p' w' : mac_ok s p → s ⊆ mp_skbs p →
  wireless_simu_mgmt_tx_work_func big n p w = Done (p', w') → called s p w p' w'.
Proof.
  intros Hok Hs E. destruct (work_called s n p w Hok Hs) as (p1 & w1 & E1 & H1);
    [|rewrite E in E1; by injection E1 as -> ->].
  destruct (mp_mac_conf_mutex p) eqn:Hm; [right|by left].
  exact (work_loop_locked big n _ (p <| mp_mgmt_tx_work := false |>) _ _ _ (mo_distinct _ _ Hok) Hm E).
Qed.

(** Handing over a new frame. *)
Lemma tx_called s (p : mac_priv) key vif skb b w : mac_ok s p → s ⊆ mp_skbs p →
  mp_skbs p !! skb = None → frame_ready p (b <| sb_cb := tx_cb key vif |>) →
  ∃ p', wireless_mac80211_tx (set_skbs p (<[skb := b]> (mp_skbs p))) key vif skb w = Done (p', w) ∧
    called s p w p' w.
Proof.
  intros [Hu Hn Hf Hi Hl] Hs Hnone Hready. set (p0 := set_skbs p _).
  destruct (tx_cases p0 key vif skb b w) as (p' & cb & E & Hfix & Hlocks & H);
    [apply lookup_insert_eq|apply Hready|].
  exists p'. split; [exact E|]. injection Hfix as H1 H2 H3 H4.
  assert (∀ q b, q ≠ skb → mp_skbs p !! q = Some b → mp_skbs p' !! q = Some b) as Hk.
  { intros q b' Hne Hb'. repeat case_decide; [destruct H as (-> & _)|destruct H as (-> & _)|destruct H as (_ & -> & _)];
      cbn; rewrite ?lookup_insert_ne, ?lookup_delete_ne by done; by rewrite ?lookup_insert_ne by done. }
  assert (tx_unlocked p') as Hu' by (by apply (locks_unlocked p0)).
  assert (size (mp_skbs p0) = S (size (mp_skbs p))) as Hsz0 by (cbn; by apply map_size_insert_None).
  assert (size (mp_skbs p') ≤ size (mp_skbs p0))%nat as Hsz.
  { assert (is_Some (mp_skbs p0 !! skb)) as Hin by (eexists; apply lookup_insert_eq).
    repeat case_decide; [destruct H as (-> & _)|destruct H as (-> & _)|destruct H as (_ & -> & _)];
      rewrite ?map_size_insert_Some, ?map_size_delete_Some by done; lia. }
  assert (∀ q, q ∈ mp_mgmt_tx_queue p → q ≠ skb) as Hnew.
  { intros q Hq ->. destruct (Hf skb Hq) as (b' & Hb' & _). pose proof (lookup_weaken _ _ _ _ Hb' Hs). congruence. }
  assert (mp_mgmt_tx_queue p' = mp_mgmt_tx_queue p ∨
    mp_mgmt_tx_queue p' = mp_mgmt_tx_queue p ++ [skb] ∧
    mp_skbs p' !! skb = Some (b <| sb_cb := tx_cb key vif |>) ∧ skb ∉ mp_mgmt_tx_queue p) as Hq.
  { repeat case_decide; [left; apply H|left; apply H|right].
    destruct H as (-> & -> & -> & _). split_and!; [done|apply lookup_insert_eq|]. intros Hq. by apply (Hnew skb). }
  split; [done|done| | | | |left; apply (locks_mutex _ _ Hlocks)|].
  - intros q b' Hnq Hb'. apply Hk; [intros ->; congruence|done].
  - intros q Hin. destruct Hq as [Hq|[Hq _]]; rewrite Hq in Hin; [by left|].
    apply elem_of_app in Hin as [?|Heq%list_elem_of_singleton]; [by left|right; by subst].
  - destruct Hq as [->|[-> _]]; rewrite ?length_app; cbn [length]; lia.
  - destruct Hq as [->|[-> _]]; rewrite ?length_app; cbn [length]; lia.
  - intros s' Hs'. assert (∀ q, q ∈ mp_mgmt_tx_queue p → ∃ b, s' !! q = Some b ∧ frame_ready p' b) as Hold.
    { intros q Hqin. destruct (Hf q Hqin) as (b' & Hb' & Hr'). exists b'.
      rewrite Hs' by (left; by exists b').
      split; [apply Hk; [by apply Hnew|by eapply lookup_weaken]|].
      apply (frame_ready_vifs p); [by rewrite H4|done]. }
    destruct Hq as [Hq|(Hq & Hskb & Hnin)]; (split; rewrite ?Hq, ?H3, ?H4; [done|..|done|done]);
      [done|exact Hold|..].
    + apply NoDup_app. split_and!; [done| |apply NoDup_singleton].
      by intros q Hin ->%list_elem_of_singleton.
    + intros q [Hin| ->%list_elem_of_singleton]%elem_of_app; [apply (Hold q Hin)|].
      exists (b <| sb_cb := tx_cb key vif |>). rewrite Hs' by by right. split; [done|].
      apply (frame_ready_vifs p); [by rewrite H4|done].
Qed.

(** The configuration calls.  With the mutex locked they do not return. *)
Ltac mutex_free Hm E :=
  match type of E with
  | (mutex_lock ?q ≫= _) ?w = _ =>
      destruct (mp_mac_conf_mutex q) eqn:Hm;
      [by rewrite (M_bind_fault _ _ _ _ (mutex_lock_held q w Hm)) in E|
       rewrite (M_bind_done _ _ _ _ _ (mutex_lock_done q w Hm)) in E]
  end.

Lemma filter_called s (p : mac_priv) changed total r p' w w' : mac_ok s p → s ⊆ mp_skbs p →
  wireless_mac80211_configure_filter p changed total w = Done ((r, p'), w') → called s p w p' w'.
Proof.
  intros Hok Hs E. pose proof Hok as [Hu _ _ Hi Hl]. unfold wireless_mac80211_configure_filter in E.
  mutex_free Hm E. injection E as <- <- <-. apply called_config; try done. by left.
Qed.

Lemma conf_tx_called s (p : mac_priv) vif link ac params r p' w w' : mac_ok s p → s ⊆ mp_skbs p →
  is_Some (mp_vifs p !! vif) → wireless_mac80211_conf_tx p vif link ac params w = Done ((r, p'), w') →
  called s p w p' w'.
Proof.
  intros Hok Hs [v Hv] E. pose proof Hok as [Hu _ _ Hi Hl].
  unfold wireless_mac80211_conf_tx in E. rewrite (M_bind_done _ _ _ _ _ (get_vif_done _ _ _ w Hv)) in E.
  mutex_free Hm E.
  destruct (conf_ac ac _ (vif_drv_priv v)) as [sv|] eqn:Hc; injection E as <- <- <-;
    apply called_config; try done; try (by left); cbn.
  - rewrite dom_insert_L. apply union_subseteq_r.
  - intros vif' v' [[<- <-]|[_ Hv']]%lookup_insert_Some; [|by eapply Hi]. cbn.
    destruct (conf_ac_spec _ _ _ _ Hc) as [-> _]. by eapply Hi.
Qed.

(** Offering an interface; with no slot left it is refused and the mutex stays
    locked. *)
Lemma add_called s (p : mac_priv) vif v r p' w w' : mac_ok s p → s ⊆ mp_skbs p →
  mp_vifs p !! vif = None →
  wireless_mac80211_add_interface (set_vif p vif v) vif w = Done ((r, p'), w') → called s p w p' w'.
Proof.
  intros Hok Hs Hnone E. pose proof Hok as [Hu _ _ Hi Hl].
  unfold wireless_mac80211_add_interface in E.
  rewrite (M_bind_done _ _ _ _ _ (get_vif_done (set_vif p vif v) vif v w (lookup_insert_eq _ _ _))) in E.
  cbv zeta in E. mutex_free Hm E.
  change (mp_vif (set_vif _ _ _ <| _ := _ |>)) with (mp_vif p) in E.
  pose proof (free_vif_slot_spec (mp_vif p)) as Hsp.
  destruct (free_vif_slot (mp_vif p)) as [i|] eqn:Hslot.
  - destruct Hsp as [Hz _]. pose proof (lookup_lt_Some _ _ _ Hz) as Hlt.
    rewrite decide_True in E by apply iftype_test_true. injection E as <- <- <-.
    apply called_config; try done; [by left|..]; cbn.
    + rewrite !dom_insert_L. clear. set_solver.
    + intros vif' v' [[<- <-]|[Hne H]]%lookup_insert_Some; [cbn; lia|].
      rewrite !lookup_insert_ne in H by done. by eapply Hi.
    + by rewrite length_insert.
  - injection E as <- <- <-. apply called_config; try done; [by right|..]; cbn.
    + rewrite !dom_insert_L. clear. set_solver.
    + intros vif' v' [[<- <-]|[Hne H]]%lookup_insert_Some; [cbn; unfold WIRELESS_MAX_NUM_VIF; lia|].
      rewrite !lookup_insert_ne in H by done. by eapply Hi.
Qed.

Lemma remove_called s (p : mac_priv) vif p' w w' : mac_ok s p → s ⊆ mp_skbs p → is_Some (mp_vifs p !! vif) →
  wireless_mac80211_remove_interface p vif w = Done (p', w') → called s p w p' w'.
Proof.
  intros Hok Hs [v Hv] E. pose proof Hok as [Hu _ _ Hi Hl]. pose proof (Hi _ _ Hv) as Hid.
  unfold wireless_mac80211_remove_interface in E. rewrite (M_bind_done _ _ _ _ _ (get_vif_done _ _ _ w Hv)) in E.
  mutex_free Hm E. cbv zeta in E.
  change (mp_vif (p <| mp_mac_conf_mutex := true |>)) with (mp_vif p) in E.
  unfold assert in E. rewrite bool_decide_true in E by lia. rewrite (M_bind_done _ _ w tt w) in E by done.
  injection E as <- <-. apply called_config; try done; [by left|]. cbn. by rewrite length_insert.
Qed.

Lemma call_called s p w p' w' : mac_call (p, w) (p', w') → mac_ok s p → s ⊆ mp_skbs p →
  called s p w p' w'.
Proof.
  intros Hc Hok Hs. pose proof Hok as [Hu _ _ Hi Hl].
  inversion Hc as [? ? r ? ? E|? ? ? ? E|? ? changed total r ? ? E|? ? vif link ac params r ? ? Hv E
    |? ? vif v r ? ? Hv E|? ? vif ? ? Hv E|? ? skb b key vif ? ? Hn Hr E|? ? n ? ? _ E
    |? ? q r ? E]; subst;
    cbn [op_tx op_start op_stop op_configure_filter op_conf_tx op_add_interface op_remove_interface
      wireless_mac80211_ops] in E.
  - injection E as <- <- <-. apply called_config; try done. by left.
  - injection E as <- <-. apply called_config; try done. by left.
  - by eapply filter_called.
  - by eapply conf_tx_called.
  - by eapply add_called.
  - by eapply remove_called.
  - destruct (tx_called s p key vif skb b w Hok Hs Hn Hr) as (p1 & E1 & H1).
    rewrite E in E1. injection E1 as -> ->. exact H1.
  - by eapply work_ended.
  - rewrite idle_call_quiet in E. injection E as <- <-. apply called_config; try done. by left.
Qed.

(** The callbacks that take the mutex, and the work item: they return while it
    is free. *)
Record configurable (p : mac_priv) (w : world) : Prop := {
  cf_work n : ∃ p' w', wireless_simu_mgmt_tx_work_func big n p w = Done (p', w');
  cf_filter changed total : ∃ r p', op_configure_filter wireless_mac80211_ops p changed total w = Done ((r, p'), w);
  cf_conf_tx vif link ac params : is_Some (mp_vifs p !! vif) →
    ∃ r p', op_conf_tx wireless_mac80211_ops p vif link ac params w = Done ((r, p'), w);
  cf_add vif v : mp_vifs p !! vif = None →
    ∃ r p', op_add_interface wireless_mac80211_ops (set_vif p vif v) vif w = Done ((r, p'), w);
  cf_remove vif : is_Some (mp_vifs p !! vif) →
    ∃ p', op_remove_interface wireless_mac80211_ops p vif w = Done (p', w)
}.

Lemma mac_ok_configurable s p w : mac_ok s p → s ⊆ mp_skbs p → mp_mac_conf_mutex p = false →
  configurable p w.
Proof.
  intros Hok Hs Hm. pose proof Hok as [Hu _ _ Hi Hl].
  split; cbn [op_configure_filter op_conf_tx op_add_interface op_remove_interface wireless_mac80211_ops].
  - intros n. destruct (work_called s n p w Hok Hs (or_introl Hm)) as (p' & w' & E & _). by exists p', w'.
  - intros changed total. unfold wireless_mac80211_configure_filter.
    rewrite (M_bind_done _ _ _ _ _ (mutex_lock_done p w Hm)). by eexists _, _.
  - intros vif link ac params [v Hv]. unfold wireless_mac80211_conf_tx.
    rewrite (M_bind_done _ _ _ _ _ (get_vif_done _ _ _ w Hv)), (M_bind_done _ _ _ _ _ (mutex_lock_done p w Hm)).
    case_match; by eexists _, _.
  - intros vif v Hv. destruct (add_interface_cases (set_vif p vif v) vif v w (lookup_insert_eq _ _ _) Hm)
      as (p' & _ & H). case_match; destruct H as [E _]; by eexists _, p'.
  - intros vif [v Hv]. pose proof (Hi _ _ Hv) as Hid. unfold wireless_mac80211_remove_interface.
    rewrite (M_bind_done _ _ _ _ _ (get_vif_done _ _ _ w Hv)), (M_bind_done _ _ _ _ _ (mutex_lock_done p w Hm)).
    cbv zeta. change (mp_vif (p <| mp_mac_conf_mutex := true |>)) with (mp_vif p).
    unfold assert. rewrite bool_decide_true by lia. by eexists.
Qed.
End calls.

(* ------------------------------------------------------------------ *)
(** ** The whole driver *)

Section driver.
Context `{KO : KernelOk} `{BO : BitsOk} `{SO : SkbOk} `{IO : Ieee80211Ok} `{AO : Mac80211Ok} `{PA : PciApi}.
Context (big : bool).

(** What [on_dst] and [on_mac] store back. *)
Definition with_dst (ws : wireless_simu) (p : dst_priv) : wireless_simu :=
  ws <| ws_hal := dp_hal p |> <| ws_st_dst := dp_st p |> <| ws_skbs := dp_skbs p |>.
Definition with_mac (ws : wireless_simu) (p : mac_priv) : wireless_simu :=
  ws <| ws_mac := p |> <| ws_skbs := mp_skbs p |>.
(** The members the mac80211 side works on. *)
Definition ws_mac80211 (ws : wireless_simu) : mac_priv := set_skbs (ws_mac ws) (ws_skbs ws).

(** One step of the system: of the device, the tasklet or the timer; the
    interrupt handler; a call of mac80211 or the work item.  The number counts
    the receive buffers the device has taken and not reported. *)
Inductive driver_step : wireless_simu * world * Z → wireless_simu * world * Z → Prop :=
  | step_rx ws w h p w' h' :
      rx_event (ws_mmio_addr ws) (ws_dst ws, w, h) (p, w', h') →
      driver_step (ws, w, h) (with_dst ws p, w', h')
  | step_irq ws w h ws' w' :
      wireless_simu_irq_handler (Some ws) w = Done (Some ws', w') →
      driver_step (ws, w, h) (ws', w', h)
  | step_mac ws w h p w' :
      mac_call big (ws_mac80211 ws, w) (p, w') →
      driver_step (ws, w, h) (with_mac ws p, w', h).

(** The invariant, over the world [w0] and the buffers [st0] of before the
    probe: the receive path runs over a world [base] in which the HAL and the
    two blocks of mac80211 were set up; [m] are the mappings that are not the
    receive path's, [s] the buffers, of which those in [st0] are untouched.  No
    more than [n] buffers or mappings are new, the queued frames counted. *)
Record driver_ok (w0 : world) (st0 : skbs) (n : nat) (tq : bool) (x : wireless_simu * world * Z) : Prop := {
  do_wired : wired (ws_mmio_addr x.1.1) (Some (ws_irq_vectors_num x.1.1)) x.1.1;
  do_wq : ws_workqueue_aux x.1.1 ≠ 0;
  do_ptr : ws_ptr x.1.1 ≠ 0 ∧ ws_ptr x.1.1 ∉ w_heap w0;
  do_hw : mp_hw (ws_mac x.1.1) ≠ 0 ∧ hw_registered (mp_hw_val (ws_mac x.1.1)) = true;
  do_own q : q ∈ mp_mgmt_tx_queue (ws_mac x.1.1) → st0 !! q = None;
  do_parts : ∃ m w1 ch base s j, let c := {[ch; mp_hw (ws_mac x.1.1)]} in
    let queued := length (mp_mgmt_tx_queue (ws_mac x.1.1)) in
    same_resources (heap_above {[ws_ptr x.1.1]} (with_map m w0)) w1 ∧ w_map w0 ⊆ m ∧
    ch ≠ mp_hw (ws_mac x.1.1) ∧ c ## w_heap w1 ∧
    hal_held (ws_hal x.1.1) (heap_above c w1) base ∧
    rx_path (ws_mmio_addr x.1.1) tq base s j (ws_dst x.1.1, x.1.2, x.2) ∧
    mac_ok s (ws_mac80211 x.1.1) ∧ st0 ⊆ s ∧
    (size s + queued + j ≤ size st0 + n)%nat ∧ (size m + 2 * queued ≤ size (w_map w0) + n)%nat
}.

Lemma path_store tq mmio base s n p w h : rx_path mmio tq base s n (p, w, h) → s ⊆ dp_skbs p.
Proof. intros Hrx. apply (path_end mmio _ _ _ _ _ _ _ Hrx). Qed.

Lemma rx_step_ok w0 st0 n tq ws w h p w' h' : driver_ok w0 st0 n tq (ws, w, h) →
  rx_event (ws_mmio_addr ws) (ws_dst ws, w, h) (p, w', h') →
  ∃ tq', driver_ok w0 st0 (n + 2) tq' (with_dst ws p, w', h').
Proof.
  intros [Hw Hwq Hp Hhw Hown (m & w1 & ch & base & s & j & Hs & Hm & Hne & Hc & Hheld & Hrx & Hmac & Hst & Hz1 & Hz2)] He.
  cbn in *. destruct (event_path _ _ _ _ _ _ _ He Hrx) as [Hrx' Hk]. cbn in Hk.
  assert (∃ tq', rx_path (ws_mmio_addr ws) tq' base s (S j) (p, w', h')) as [tq' Hrx2]
    by (destruct Hrx'; eauto).
  exists tq'. split; try done; [by destruct Hw|]. cbn. exists m, w1, ch, base, s, (S j).
  split_and!; try done; try lia.
  - by apply (hal_held_later (ws_hal ws) _ _ base).
  - by destruct p.
  - by apply (mac_ok_store s (ws_mac80211 ws) (dp_skbs p)).
Qed.

Lemma irq_step_ok w0 st0 n tq ws w h ws' w' : driver_ok w0 st0 n tq (ws, w, h) →
  wireless_simu_irq_handler (Some ws) w = Done (Some ws', w') →
  ∃ tq', driver_ok w0 st0 (n + 2) tq' (ws', w', h).
Proof.
  intros [Hw Hwq Hp Hhw Hown (m & w1 & ch & base & s & j & Hs & Hm & Hne & Hc & Hheld & Hrx & Hmac & Hst & Hz1 & Hz2)] E.
  cbn -[wireless_simu_irq_handler] in *.
  destruct (rr_up _ _ _ _ _ _ Hrx) as (V & a & t & k & r & s0 & Hup & _ & Hf & _).
  destruct (ru_pipes _ _ _ _ _ _ _ _ _ _ Hup) as [Hps _]. cbn in Hps, Hf.
  assert (st_pipes (ws_st_dst ws) !! 0%nat = Some (v_pipe V)) as Hpipe by by rewrite Hps.
  pose proof (irq_handler_done ws _ w Hpipe) as E2. cbv zeta in E2. rewrite E in E2. injection E2 as -> ->.
  assert (∀ b, rx_path (ws_mmio_addr ws) b base s j (set_pipe (ws_dst ws) 0 (v_pipe V <| pipe_intr_tq := b |>),
    (tick w) <| w_mmio := w_mmio w ++ [(ws_mmio_addr ws + HAL_BASIC_REG WIRELESS_REG_BASIC_IRQ_STATUS, 0)] |>, h)) as Hpath.
  { intros b. eapply path_irq; [done|done|]. assert (HAL_BASIC_REG WIRELESS_REG_BASIC_IRQ_STATUS < 0x10000) by by vm_compute. lia. }
  case_decide.
  - exists true. split; try done; [by destruct Hw|]. exists m, w1, ch, base, s, j.
    split_and!; try apply (Hpath true); try done; cbn; lia.
  - exists tq. split; try done. exists m, w1, ch, base, s, j. split_and!; try done; try (cbn; lia). cbn.
    specialize (Hpath tq). replace (set_pipe (ws_dst ws) 0 _) with (ws_dst ws) in Hpath; [done|].
    injection Hf as Htq _. unfold set_pipe, put_pipe, ws_dst. cbn. rewrite Hps. cbn. f_equal.
    destruct (ws_st_dst ws); cbn in *. subst. by destruct (v_pipe V).
Qed.

Lemma mac_step_ok w0 st0 n tq ws w h p w' : driver_ok w0 st0 n tq (ws, w, h) →
  mac_call big (ws_mac80211 ws, w) (p, w') → driver_ok w0 st0 (n + 2) tq (with_mac ws p, w', h).
Proof.
  intros [Hw Hwq Hp Hhw Hown (m & w1 & ch & base & s & j & Hs & Hm & Hne & Hc & Hheld & Hrx & Hmac & Hst & Hz1 & Hz2)] E.
  cbn -[ws_mac80211 ws_dst] in *.
  pose proof (path_store _ _ _ _ _ _ _ _ Hrx) as Hsub.
  destruct (call_called big s _ _ _ _ E Hmac Hsub) as [Hmaps [Hhw1 Hhw2] Hstore Hqueue Hsize Hmapped _ Hok].
  assert (∀ q, q ∈ mp_mgmt_tx_queue (ws_mac80211 ws) → is_Some (s !! q)) as Hqs.
  { intros q Hq. destruct (mo_frames _ _ Hmac q Hq) as (b & Hb & _). by exists b. }
  destruct (path_others _ _ _ _ _ _ _ _ (mp_skbs p) w' (λ q, q ∈ mp_mgmt_tx_queue (ws_mac80211 ws)) Hrx Hmaps Hstore)
    as (m' & s' & Hrx' & Hm' & Hs' & Hz3 & Hz4); [by left; apply Hqs|].
  change (mp_hw (ws_mac80211 ws)) with (mp_hw (ws_mac ws)) in Hhw1.
  change (mp_hw_val (ws_mac80211 ws)) with (mp_hw_val (ws_mac ws)) in Hhw2.
  change (mp_mgmt_tx_queue (ws_mac80211 ws)) with (mp_mgmt_tx_queue (ws_mac ws)) in *.
  change (mp_skbs (ws_mac80211 ws)) with (dp_skbs (ws_dst ws)) in *.
  assert (w_map base = m) as Hbm.
  { rewrite (hh_map _ _ _ Hheld). cbn. by rewrite (same_map _ _ Hs). }
  rewrite Hbm in Hm', Hz4.
  split; cbn -[ws_mac80211 ws_dst]; try done; [by destruct Hw|by rewrite Hhw1, Hhw2| |].
  { intros q [Hq|Hq]%Hqueue; [by apply Hown|]. eapply lookup_weaken_None; [exact Hq|]. by etrans. }
  rewrite Hhw1. exists m', (with_map m' w1), ch, (with_map m' base), s', 0%nat. split_and!; try done; try lia.
  - destruct Hs as [H1 H2 H3 H4]. by split.
  - by etrans.
  - by apply (held_map m' _ (heap_above _ w1)).
  - pose proof (Hok s' Hs') as Hok'. by destruct p as [[]].
  - apply map_subseteq_spec. intros q b Hq. pose proof (lookup_weaken _ _ _ _ Hq Hst) as Hsq.
    rewrite Hs' by (left; by exists b). apply Hstore; [|by eapply lookup_weaken].
    intros Hin. pose proof (Hown q Hin). congruence.
Qed.

Lemma step_ok w0 st0 n tq x y : driver_step x y → driver_ok w0 st0 n tq x →
  ∃ tq', driver_ok w0 st0 (n + 2) tq' y.
Proof.
  intros [] Hok.
  - by eapply rx_step_ok.
  - by eapply irq_step_ok.
  - exists tq. by eapply mac_step_ok.
Qed.

Lemma run_ok k w0 st0 n tq x y : nsteps driver_step k x y → driver_ok w0 st0 n tq x →
  ∃ tq', driver_ok w0 st0 (n + 2 * k) tq' y.
Proof.
  intros Hrun. revert n tq. induction Hrun as [x|k x y z Hxy _ IH]; intros n tq Hx.
  { exists tq. by rewrite Nat.add_0_r. }
  destruct (step_ok _ _ _ _ _ _ Hxy Hx) as [tq' Hy]. destruct (IH _ _ Hy) as [tq2 Hz]. exists tq2.
  by replace (n + 2 * S k)%nat with (n + 2 + 2 * k)%nat by lia.
Qed.

(** A probe whose parts are all there starts the system. *)
Record running (ws : wireless_simu) : Prop := {
  ru_complete : complete ws;
  ru_rx : st_config_ptr (ws_st_dst ws) ≠ 0;
  ru_mac : mp_hw (ws_mac ws) ≠ 0
}.

Lemma path_idle tq mmio base s n p w h : rx_path mmio tq base s n (p, w, h) → rx_path mmio tq base s n (p, w, 0).
Proof.
  intros [(V & a & t & k & r & s0 & H1 & H2 & H3 & H4) Hh]. cbn in *. split; [|done].
  exists V, a, t, k, r, s0. split_and!; try done. cbn. lia.
Qed.

Lemma path_heap tq mmio base s n p w h : rx_path mmio tq base s n (p, w, h) → w_heap base ⊆ w_heap w.
Proof.
  intros [(V & a & t & k & r & s0 & [_ _ _ _ Ho] & _) _]. etrans; [|by eapply owns_heap].
  apply union_subseteq_r.
Qed.

Lemma mac_fresh_ok s q (p : mac_priv) : mp_vifs q = ∅ → mac_fresh q p → mac_ok s p.
Proof.
  intros Hv [_ [_ Hl] [Hq _] [Hvif Hvs] Hw]. split; rewrite ?Hq, ?Hvif, ?Hvs, ?Hv; try done; [constructor|].
  by intros x ?%not_elem_of_nil.
Qed.

Lemma probe_running store w ws w1 :
  wireless_simu_pci_probe big pci_idle store w = Done ((0, ws, true), w1) → running ws →
  driver_ok w store 1 false (ws, w1, 0) ∧ mp_mac_conf_mutex (ws_mac ws) = false.
Proof.
  intros E [Hcomp Hrx Hmac].
  destruct (probe_up_inv _ _ _ _ _ E) as (mmio & h & w0 & Hw & Hh & Hp & Hpn & Hptr & Hsame & Hup).
  destruct Hup as [Hwq (w4 & r & Hset & Ho & Hd & Hm & Hmem & Hmm) Hidle Hfresh].
  pose proof (wd_mmio _ _ _ Hw) as <-. assert (h = Some (ws_irq_vectors_num ws)) as ->.
  { pose proof (cp_irq _ Hcomp) as Hirq. rewrite (wd_pci _ _ _ Hw) in Hirq. by destruct Hh. }
  assert (hw_registered (mp_hw_val (ws_mac ws)) = true) as Hreg by by destruct (cp_mac _ Hcomp).
  destruct (Hfresh Hmac Hreg) as (Hmut & q & Hq & Hmf).
  destruct Hset as [base hh Hheld Hrun|_ _ [Hc _ _ _]|_ _ Hdang];
    [|by destruct Hrx|by destruct (complete_not_dangling _ _ Hcomp Hdang)].
  apply path_idle in Hrun. pose proof (path_heap _ _ _ _ _ _ _ _ Hrun) as Hbase.
  assert (∃ ch, ch ≠ mp_hw (ws_mac ws) ∧ {[ch; mp_hw (ws_mac ws)]} ## w_heap w4 ∧
    w_heap w1 = {[ch; mp_hw (ws_mac ws)]} ∪ w_heap w4) as (ch & Hne & Hc & Hheap).
  { inversion Ho as [|hw Hz Hn|hw ch Hz Hn Hne Hcn]; [congruence|congruence|]. exists ch.
    split; [done|]. split; [|done]. clear -Hn Hcn. set_solver. }
  pose proof (mf_queue _ _ Hmf) as [Hqe _].
  split; [|done]. split; [done|done|done|done| |]; cbn -[ws_dst ws_mac80211].
  { intros x. rewrite Hqe. by intros ?%not_elem_of_nil. }
  exists (w_map w), w0, ch, (heap_above {[ch; mp_hw (ws_mac ws)]} base), store, 1%nat.
  assert (w_heap w0 ⊆ w_heap base) as Hw0 by (rewrite (hh_heap _ _ _ Hheld); apply union_subseteq_r).
  rewrite Hqe. split_and!; try done; try (cbn; lia).
  - clear -Hc Hw0 Hbase. set_solver.
  - apply held_above; [done|]. clear -Hc Hbase. set_solver.
  - apply (path_same _ _ _ _ _ _ (heap_above {[ch; mp_hw (ws_mac ws)]} w4)); [by apply path_above| |done|done].
    split; cbn; try done. by rewrite Hmem.
  - by apply mac_ok_store, (mac_fresh_ok _ q).
Qed.

(** What removal makes of the driver [ws] and its world, into [ws'] and [w'],
    compared with the world [w0] and the buffers [st0] of before the probe: the
    device is idle; of the heap, at most the channel table is left, no coherent
    region and no memory; the mappings are those of [w0] and at most [n] others;
    of the socket buffers, exactly those in the slots of the receive ring are
    freed, so that the ones of [st0], untouched, and at most [n] others are
    left; the driver's structure is freed, and its retry timer is armed if it
    was. *)
Record removed (w0 : world) (st0 : skbs) (n : nat) (ws ws' : wireless_simu) (w' : world) : Prop := {
  rm_device : ws_pci ws' = pci_idle;
  rm_world : ∃ m c, same_resources (heap_above c (with_map m w0)) w' ∧
    c ## w_heap w0 ∧ (size c ≤ 1)%nat ∧ w_map w0 ⊆ m ∧ (size m ≤ size (w_map w0) + n)%nat;
  rm_rx : rx_stopped (ws_dst ws) (ws_dst ws');
  rm_kept : st0 ⊆ ws_skbs ws';
  rm_left : (size (ws_skbs ws') ≤ size st0 + n)%nat;
  rm_priv : ws_ptr ws' = ws_ptr ws ∧ ws_ptr ws ∉ w_heap w'
}.

(** Removal at any time without work waiting. *)
Lemma running_removed k w0 st0 n ws w h : driver_ok w0 st0 n false (ws, w, h) →
  mp_mgmt_tx_work (ws_mac ws) = false →
  ∃ ws2 w2, wireless_simu_pci_remove big k (Some ws) w = Done (Some ws2, w2) ∧ removed w0 st0 n ws ws2 w2.
Proof.
  intros [Hw Hwq [Hp Hpn] [Hhw Hreg] _ (m & w1 & ch & base & s & j & Hs & Hm & Hne & Hc & Hheld & Hrx & Hmac & Hst & Hz1 & Hz2)] Hidle.
  cbn -[ws_dst ws_mac80211 heap_above heap_below with_map] in *. set (c := {[ch; mp_hw (ws_mac ws)]}) in *.
  assert (heap_below c (heap_above c w1) = w1) as Hw1.
  { destruct w1. unfold heap_below, heap_above. cbn in *. f_equal. clear -Hc. set_solver. }
  assert (c ⊆ w_heap base) as Hcb by (rewrite (hh_heap _ _ _ Hheld); cbn; clear; set_solver).
  assert (c ⊆ w_heap (heap_above c w1)) as Hc1 by (cbn; clear; set_solver).
  pose proof (path_heap _ _ _ _ _ _ _ _ Hrx) as Hbw.
  assert (c ∪ w_heap (heap_below c w) = w_heap w) as Hcw
    by (symmetry; apply union_difference_L; exact (transitivity Hcb Hbw)).
  pose proof (held_below _ _ _ _ Hheld Hc1) as Hheld'. rewrite Hw1 in Hheld'.
  pose proof (path_below _ c _ _ _ _ _ _ _ Hrx Hcb) as Hrx'.
  destruct (remove_done big k s j (with_map m w0) ws w1 (heap_below c w) SUCCESS w)
    as (ws2 & w2 & c2 & E & Hi & H2 & Hcc & Hsz & _ & Hstop & Hptr); try done.
  - by apply (rings_running _ _ _ _ _ _ (heap_below c base) h).
  - intros x [[Hn _] _ _ (pipe & Hps & He & _)].
    destruct (rr_up _ _ _ _ _ _ Hrx) as (V & a & t & b & r & s0 & Hup & _).
    destruct (ru_pipes _ _ _ _ _ _ _ _ _ _ Hup) as [Hps' _]. cbn [fst snd] in Hps'. rewrite Hps' in Hps.
    injection Hps as <-. pose proof (ri_dst _ _ _ _ _ _ _ _ _ _ _ (ru_inv _ _ _ _ _ _ _ _ _ _ Hup)) as Hdst.
    by rewrite <-He in Hdst.
  - rewrite Hreg, <-Hcw. apply probe_full; [done| |done|]; cbn; subst c; clear; set_solver.
  - by right.
  - exists ws2, w2. split; [done|].
    destruct (path_end _ _ _ _ _ _ _ _ Hrx) as (_ & _ & s0 & Hs0 & Hs0n & Hs0q).
    assert (ws_skbs ws2 = s0) as Hend.
    { apply map_eq. intros q. rewrite Hs0q. exact (sd_store _ _ Hstop q). }
    split; try done; [exists m, c2; split_and!; try done; lia| |]; rewrite Hend; [by etrans|lia].
Qed.

(** The handlers and the callbacks run without a fault; those that take the
    mutex while it is free.  As long as a slot for an interface is left, no step
    changes the mutex. *)
Record serving (ws : wireless_simu) (w : world) : Prop := {
  sv_irq : ∃ ws' w', wireless_simu_irq_handler (Some ws) w = Done (Some ws', w');
  sv_tasklet : ∃ p' w',
    wireless_simu_hal_srng_dst_tasklet (ws_mmio_addr ws) (ws_dst ws) 0 w = Done (p', w');
  sv_timer : ∃ p' w',
    wireless_simu_test_dst_rx_replenish_retry (ws_mmio_addr ws) (ws_dst ws) w = Done (p', w');
  sv_tx key vif skb b : ws_skbs ws !! skb = None →
    frame_ready (ws_mac ws) (b <| sb_cb := tx_cb key vif |>) →
    ∃ p', op_tx wireless_mac80211_ops (set_skbs (ws_mac ws) (<[skb := b]> (ws_skbs ws))) key vif skb w = Done (p', w);
  sv_start : ∃ p', op_start wireless_mac80211_ops (ws_mac80211 ws) w = Done ((0, p'), w);
  sv_stop : ∃ p', op_stop wireless_mac80211_ops (ws_mac80211 ws) w = Done (p', w);
  sv_idle q : idle_call wireless_mac80211_ops q w = Done (0, w);
  sv_config : mp_mac_conf_mutex (ws_mac ws) = false → configurable big (ws_mac80211 ws) w;
  sv_mutex h y : driver_step (ws, w, h) y →
    mp_mac_conf_mutex (ws_mac y.1.1) = mp_mac_conf_mutex (ws_mac ws) ∨
    free_vif_slot (mp_vif (ws_mac ws)) = None
}.

Lemma driver_ok_serving w0 st0 n tq ws w h : driver_ok w0 st0 n tq (ws, w, h) → serving ws w.
Proof.
  intros [_ _ _ _ _ (m & w1 & ch & base & s & j & _ & _ & _ & _ & _ & Hrx & Hmac & _)]. cbn -[ws_dst ws_mac80211] in *.
  pose proof (path_store _ _ _ _ _ _ _ _ Hrx) as Hsub.
  assert (∃ pipe, st_pipes (ws_st_dst ws) !! 0%nat = Some pipe) as [pipe Hp].
  { destruct (rr_up _ _ _ _ _ _ Hrx) as (V & a & t & k & r & s0 & Hup & _).
    exists (v_pipe V). exact (ri_pipe _ _ _ _ _ _ _ _ _ _ _ (ru_inv _ _ _ _ _ _ _ _ _ _ Hup)). }
  split.
  - rewrite (irq_handler_done _ _ w Hp). by eexists _, _.
  - destruct (tasklet_running _ _ _ _ _ _ _ _ Hrx) as (p' & w' & E & _). by exists p', w'.
  - destruct (timer_running _ _ _ _ _ _ _ _ Hrx) as (p' & w' & E & _). by exists p', w'.
  - intros key vif skb b Hn Hr. destruct (tx_called s (ws_mac80211 ws) key vif skb b w Hmac Hsub Hn) as (p' & E & _).
    { destruct Hr. by split. }
    by exists p'.
  - by eexists.
  - by eexists.
  - intros q. apply idle_call_quiet.
  - intros Hm. by apply (mac_ok_configurable big s).
  - intros h' y Hy. inversion Hy as [? ? ? p w' ? _|? ? ? ws' w' E|? ? ? p w' E]; subst; cbn [fst snd].
    + by left.
    + left. rewrite (irq_handler_done _ _ w Hp) in E. injection E as <- _. by case_decide.
    + exact (ca_mutex _ _ _ _ _ (call_called big s _ _ _ _ E Hmac Hsub)).
Qed.

Lemma driver_ok_quiet w0 st0 n tq ws w h : driver_ok w0 st0 n tq (ws, w, h) →
  pipe_intr_tq <$> st_pipes (ws_st_dst ws) = [false] → tq = false.
Proof.
  intros [_ _ _ _ _ (m & w1 & ch & base & s & j & _ & _ & _ & _ & _ & Hrx & _)] Htq.
  destruct (rr_up _ _ _ _ _ _ Hrx) as (V & a & t & k & r & s0 & Hup & _ & Hf & _). injection Hf as <- _.
  destruct (ru_pipes _ _ _ _ _ _ _ _ _ _ Hup) as [Hps _]. cbn [fst snd] in Hps.
  change (st_pipes (dp_st (ws_dst ws))) with (st_pipes (ws_st_dst ws)) in Hps. rewrite Hps in Htq.
  by injection Htq.
Qed.

(** A run from the probe, as a whole. *)
Lemma probe_run_ok n store w ws w1 x :
  wireless_simu_pci_probe big pci_idle store w = Done ((0, ws, true), w1) → running ws →
  nsteps driver_step n (ws, w1, 0) x → ∃ tq, driver_ok w store (1 + 2 * n) tq x.
Proof.
  intros E Hrun Hsteps. destruct (probe_running _ _ _ _ E Hrun) as [Hok _]. by eapply run_ok.
Qed.

(** C1.  The whole driver is safe.  From a complete probe, let the device, the
    interrupt line, the tasklet, the retry timer, mac80211 and the work item act
    in any order, [n] steps in all, with the kernel answering as it likes.
    Frames are new buffers with a header, room for the integrity code and a
    known interface or none; interfaces may be offered with or without a slot
    left.  Then the next interrupt, tasklet, timer, frame, start, stop and idle
    callback is served without a fault, and so is the work item and every
    callback that takes [mac_conf_mutex] while that is free; and no step changes
    the mutex as long as a slot is left.  And once neither
    the tasklet nor the work item is waiting, [wireless_simu_pci_remove] does
    not fault and gives back what the driver took ([removed]): of heap blocks at
    most the channel table stays, of coherent regions and mapped memory nothing,
    of mappings and socket buffers at most [2 n + 1] - each step hands over one
    frame, which may be sent in one more buffer and two mappings, or leaves one
    receive buffer the kernel refused to map; exactly the posted receive buffers
    are freed, and what was there before the probe is untouched. *)
Theorem driver_run_safe n store w ws w1 ws2 w2 h :
  wireless_simu_pci_probe big pci_idle store w = Done ((0, ws, true), w1) → running ws →
  nsteps driver_step n (ws, w1, 0) (ws2, w2, h) →
  serving ws2 w2 ∧
  (pipe_intr_tq <$> st_pipes (ws_st_dst ws2) = [false] → mp_mgmt_tx_work (ws_mac ws2) = false →
   ∀ k, ∃ ws3 w3, wireless_simu_pci_remove big k (Some ws2) w2 = Done (Some ws3, w3) ∧
     removed w store (1 + 2 * n) ws2 ws3 w3).
Proof.
  intros E Hrun Hsteps. destruct (probe_run_ok _ _ _ _ _ _ E Hrun Hsteps) as [tq Hok].
  split; [by eapply driver_ok_serving|]. intros Htq Hidle k.
  assert (tq = false) as -> by by eapply driver_ok_quiet. by eapply running_removed.
Qed.

(** C38.  The retry timer outlives the driver.  When the timer is armed at
    removal - the kernel had refused a receive buffer - and nothing else is
    waiting, [wireless_simu_pci_remove] succeeds, the timer is still armed, and
    the structure that holds it has been freed: when the timer expires, it runs
    on freed memory. *)
Theorem timer_outlives_driver n k store w ws w1 ws2 w2 h t :
  wireless_simu_pci_probe big pci_idle store w = Done ((0, ws, true), w1) → running ws →
  nsteps driver_step n (ws, w1, 0) (ws2, w2, h) →
  pipe_intr_tq <$> st_pipes (ws_st_dst ws2) = [false] → mp_mgmt_tx_work (ws_mac ws2) = false →
  st_rx_replenish_retry (ws_st_dst ws2) = Some t →
  ws_ptr ws2 ∈ w_heap w2 ∧
  ∃ ws3 w3, wireless_simu_pci_remove big k (Some ws2) w2 = Done (Some ws3, w3) ∧
    st_rx_replenish_retry (ws_st_dst ws3) = Some t ∧ ws_ptr ws3 = ws_ptr ws2 ∧ ws_ptr ws2 ∉ w_heap w3.
Proof.
  intros E Hrun Hsteps Htq Hidle Ht. destruct (probe_run_ok _ _ _ _ _ _ E Hrun Hsteps) as [tq Hok].
  assert (tq = false) as -> by by eapply driver_ok_quiet.
  destruct (running_removed k _ _ _ _ _ _ Hok Hidle) as (ws3 & w3 & E3 & [_ _ [_ Htm] _ _ [Hp1 Hp2]]).
  split; [|by exists ws3, w3; split_and!; [..|by rewrite <-Ht|done|done]].
  destruct Hok as [_ _ _ _ _ (m & w0 & ch & base & s & j & Hs & _ & _ & _ & Hheld & Hrx & _)].
  cbn -[ws_dst ws_mac80211 heap_above with_map] in *. apply (path_heap _ _ _ _ _ _ _ _ Hrx).
  rewrite (hh_heap _ _ _ Hheld). cbn. rewrite (same_heap _ _ Hs). cbn. clear. set_solver.
Qed.

(** The world in which removal runs the work item: mac80211 has freed the
    device and the interrupts are off. *)
Definition drain_world (ws : wireless_simu) (w : world) : world :=
  w <| w_heap := w_heap w ∖ {[mp_hw (ws_mac ws)]} |>
    <| w_mmio := w_mmio w ++ [(ws_mmio_addr ws + HAL_BASIC_REG WIRELESS_REG_BASIC_IRQ_ENABLE, 0)] |>.

(** C5.  Removal frees the interfaces before it drains the queue.  When the
    oldest queued frame has an interface, the mutex is free, an id is left for
    the frame and the kernel maps it, [wireless_simu_pci_remove] faults:
    [destroy_workqueue] runs the work item after [ieee80211_unregister_hw] has
    freed the interfaces, and sending reads the frame's interface. *)
Theorem removal_drains_late n k store w ws w1 ws2 w2 h q fs b :
  wireless_simu_pci_probe big pci_idle store w = Done ((0, ws, true), w1) → running ws →
  nsteps driver_step n (ws, w1, 0) (ws2, w2, h) →
  mp_mgmt_tx_work (ws_mac ws2) = true → mp_mgmt_tx_queue (ws_mac ws2) = q :: fs →
  ws_skbs ws2 !! q = Some b → cb_vif (sb_cb b) ≠ 0 → mp_mac_conf_mutex (ws_mac ws2) = false →
  0 ≤ k_idr_alloc (drain_world ws2 w2) (dom (mp_txmgmt_idr (ws_mac ws2))) 0 WIRELESS_SIMU_TX_MGMT_NUM_PENDING_MAX →
  (∀ a len, k_dma_mapping_error (k_dma_map (drain_world ws2 w2) a len) = false) →
  wireless_simu_pci_remove big k (Some ws2) w2 = Fault Unmapped.
Proof.
  intros E Hrun Hsteps Hwork Hq Hb Hv Hm Hid Hmap.
  destruct (probe_run_ok _ _ _ _ _ _ E Hrun Hsteps) as [tq Hok].
  destruct Hok as [Hw _ _ [Hz Hreg] _ (m & w0 & ch & base & s & j & _ & _ & _ & _ & Hheld & Hrx & Hmac & _)].
  cbn -[ws_dst ws_mac80211 heap_above with_map] in *.
  assert (mp_hw (ws_mac ws2) ∈ w_heap w2) as Hin.
  { apply (path_heap _ _ _ _ _ _ _ _ Hrx). rewrite (hh_heap _ _ _ Hheld). cbn. clear. set_solver. }
  destruct (mo_frames _ _ Hmac q) as (b' & Hb' & [Hlen Htail _]).
  { change (mp_mgmt_tx_queue (ws_mac80211 ws2)) with (mp_mgmt_tx_queue (ws_mac ws2)). rewrite Hq. by left. }
  assert (b' = b) as ->.
  { pose proof (lookup_weaken _ _ _ _ Hb' (path_store _ _ _ _ _ _ _ _ Hrx)) as H.
    change (dp_skbs (ws_dst ws2)) with (ws_skbs ws2) in H. congruence. }
  apply M_bind_fault. unfold remove_priv. cbv zeta. set (ws0 := ws2 <| ws_stop := true |>).
  pose proof (core_remove_registered (ws_mac80211 ws2) w2 Hz Hreg Hin) as Ec.
  set (w3 := w2 <| w_heap := _ |>) in Ec. set (p := unregistered (ws_mac80211 ws2)) in *.
  rewrite (M_bind_done _ _ w2 (0, with_mac ws0 p) w3).
  2: { unfold on_mac. change (set_skbs (ws_mac ws0) (ws_skbs ws0)) with (ws_mac80211 ws2).
       by rewrite (M_bind_done _ _ _ _ _ Ec). }
  cbv beta iota. set (f := λ ws1, ws1 ← drain_workqueue big k ws1;
    ws1 ← on_pci (λ s, destroy_workqueue s (ws_workqueue_aux ws1)) ws1; remove_rings ws1).
  pose proof (remove_irq_off f (with_mac ws0 p) w3 (ws_mmio_addr ws2)) as Ek. unfold f in Ek. cbv beta in Ek.
  rewrite Ek by by destruct Hw. clear Ek. apply M_bind_fault. unfold drain_workqueue.
  set (ws3 := with_mac ws0 p <| ws_pci := _ |>). change (mp_mgmt_tx_work (ws_mac ws3)) with (mp_mgmt_tx_work (ws_mac ws2)).
  rewrite Hwork. apply M_bind_fault. unfold on_mac. do 2 apply M_bind_fault.
  unfold wireless_simu_mgmt_tx_work_func.
  change (mp_mgmt_tx_queue (set_skbs (ws_mac ws3) (ws_skbs ws3))) with (mp_mgmt_tx_queue (ws_mac ws2)).
  rewrite Hq. cbn [mgmt_tx_work_loop]. apply M_bind_fault. unfold mgmt_tx_work_one.
  set (p1 := set_skbs _ _ <| mp_mgmt_tx_work := _ |> <| mp_mgmt_tx_queue := _ |>).
  change (w3 <| w_mmio := _ |>) with (drain_world ws2 w2). set (w4 := drain_world ws2 w2) in *.
  rewrite (M_bind_done _ _ _ _ _ (get_skb_done (mp_skbs p1) q b w4 Hb)). cbv zeta.
  rewrite decide_False by done.
  rewrite (M_bind_done _ _ _ _ _ (mutex_lock_done p1 w4 Hm)). apply M_bind_fault.
  apply (mgmt_tx_wmi_freed big k (p1 <| mp_mac_conf_mutex := true |>) (cb_vif (sb_cb b)) q b w4); try done.
  apply (mo_unlocked _ _ Hmac).
Qed.
End driver.
