(* ===== verification/DriverModule.v ===== *)
(** * The module, from loading to unloading

    Source: the end of src/driver/driver_wireless/wireless.c.  Loading registers
    the driver with the PCI core, unloading unregisters it; in between the core
    binds the device (probe) and unbinds it (remove), as often as it likes.
    The theorem follows the driver through all its lives, with the socket
    buffers each of them leaves to the next. *)

From S2P Require Import Prelude Kernel Bits HalTypes Hif HalRing RingProtocol HalSetup HalInit Skb.
From S2P Require Import SrngTest DstTest RxRing Ieee80211 Dp Wmi MacTypes Mac80211 MacProbe Pci PciLife DriverRun.

(** [struct pci_driver] *)
Record pci_driver `{SA : SkbApi} := PciDriver {
  pd_probe : pci_state → skbs → M (Z * wireless_simu * bool);
  pd_remove : option wireless_simu → M (option wireless_simu);
  pd_shutdown : option wireless_simu → M (option wireless_simu)
}.

(** What the PCI core knows: the driver registered with it, and the driver data
    of the device while it is bound; and the socket buffers there are while it
    is not (a bound driver has them in its [ws_skbs]). *)
Record pci_core `{SA : SkbApi} := PciCore {
  pc_driver : option pci_driver;
  pc_bound : option wireless_simu;
  pc_skbs : skbs
}.
Arguments PciDriver {_} _ _ _.
Arguments PciCore {_} _ _ _.
#[export] Instance eta_pci_core `{SA : SkbApi} : Eta pci_core := MkEta (λ c,
  PciCore (pc_driver c) (pc_bound c) (pc_skbs c)).
Definition unloaded `{SA : SkbApi} (store : skbs) : pci_core := PciCore None None store.

Section module.
Context `{K : Kernel} `{B : Bits} `{SA : SkbApi} `{I : Ieee80211} `{A : Mac80211Api} `{P : PciApi}.
Variable big : bool.
Variable k_pci_register_driver : world → Z.

(** [wakeups] as in removal. *)
Definition wireless_simu_driver (wakeups : nat) : pci_driver := {|
  pd_probe := wireless_simu_pci_probe big;
  pd_remove := wireless_simu_pci_remove big wakeups;
  pd_shutdown := wireless_simu_shutdown big wakeups
|}.

(** The PCI core: unregistering removes the driver from a bound device first
    (Documentation/PCI/pci.rst). *)
Definition pci_register_driver (d : pci_driver) (c : pci_core) : M (Z * pci_core) :=
  err ← ask k_pci_register_driver;
  mret (err, if decide (err = 0) then c <| pc_driver := Some d |> else c).
Definition pci_unregister_driver (c : pci_core) : M pci_core :=
  d ← of_option BadFree (pc_driver c);
  match pc_bound c with
  | None => mret (unloaded (pc_skbs c))
  | Some ws =>
      ws' ← pd_remove d (Some ws);
      mret (unloaded (default (pc_skbs c) (ws_skbs <$> ws')))
  end.

Definition wireless_simu_init (wakeups : nat) (c : pci_core) : M (Z * pci_core) :=
  '(err, c) ← pci_register_driver (wireless_simu_driver wakeups) c; mret (err, c).
Definition wireless_simu_exit (c : pci_core) : M pci_core := pci_unregister_driver c.
End module.

(* ------------------------------------------------------------------ *)
(** ** Lives *)

Section lives.
Context `{KO : KernelOk} `{BO : BitsOk} `{SO : SkbOk} `{IO : Ieee80211Ok} `{AO : Mac80211Ok} `{PA : PciApi}.
Context (big : bool) (k_pci_register_driver : world → Z).

(** Neither the tasklet, the work item nor the retry timer is waiting. *)
Record at_rest (ws : wireless_simu) : Prop := {
  qu_tasklet : pipe_intr_tq <$> st_pipes (ws_st_dst ws) = [false];
  qu_work : mp_mgmt_tx_work (ws_mac ws) = false;
  qu_timer : st_rx_replenish_retry (ws_st_dst ws) = None
}.

(** The core, the world, the receive buffers the device holds, and the number
    of times the device was bound. *)
Definition life : Type := pci_core * world * Z * nat.

(** Every binding starts from the socket buffers the one before has left. *)
Inductive life_step : life → life → Prop :=
  | life_load n c w r c' w' k : pc_driver c = None →
      wireless_simu_init big k_pci_register_driver n c w = Done ((r, c'), w') →
      life_step (c, w, 0, k) (c', w', 0, k)
  | life_bind d c w ws w' k : pc_driver c = Some d → pc_bound c = None →
      pd_probe d pci_idle (pc_skbs c) w = Done ((0, ws, true), w') → running ws →
      life_step (c, w, 0, k) (c <| pc_bound := Some ws |>, w', 0, S k)
  | life_run c ws w h ws' w' h' k : pc_bound c = Some ws →
      driver_step big (ws, w, h) (ws', w', h') →
      life_step (c, w, h, k) (c <| pc_bound := Some ws' |>, w', h', k)
  | life_unbind d c ws w h ws' w' k : pc_driver c = Some d → pc_bound c = Some ws → at_rest ws →
      pd_remove d (Some ws) w = Done (Some ws', w') →
      life_step (c, w, h, k) (c <| pc_bound := None |> <| pc_skbs := ws_skbs ws' |>, w', 0, k)
  | life_unload c w h c' w' k : (∀ ws, pc_bound c = Some ws → at_rest ws) →
      wireless_simu_exit c w = Done (c', w') →
      life_step (c, w, h, k) (c', w', 0, k).

(** What [k] lives may leave behind in the world [w0] and among the buffers
    [st0]: a channel table each, and [n] mappings and [n] socket buffers. *)
Definition remains (w0 : world) (st0 : skbs) (k n : nat) (w : world) (st : skbs) : Prop :=
  ∃ m c, same_resources (heap_above c (with_map m w0)) w ∧ c ## w_heap w0 ∧ (size c ≤ k)%nat ∧
    w_map w0 ⊆ m ∧ (size m ≤ size (w_map w0) + n)%nat ∧ st0 ⊆ st ∧ (size st ≤ size st0 + n)%nat.

(** The registered driver is this one. *)
Definition this_driver (c : pci_core) : Prop :=
  match pc_driver c with
  | None => pc_bound c = None
  | Some d => ∃ n, d = wireless_simu_driver big n
  end.

(** After [n] steps. *)
Definition life_ok (w0 : world) (st0 : skbs) (n : nat) (x : life) : Prop :=
  let '(c, w, h, k) := x in
  this_driver c ∧
  match pc_bound c with
  | None => remains w0 st0 k (2 * n) w (pc_skbs c)
  | Some ws => ∃ wb stb tq k' nb nd, k = S k' ∧ remains w0 st0 k' nb wb stb ∧
      driver_ok wb stb nd tq (ws, w, h) ∧ (nb + nd ≤ 2 * n)%nat
  end.

Lemma remains_refl w st : remains w st 0 0 w st.
Proof.
  exists (w_map w), ∅. split_and!; [|clear; set_solver|by rewrite size_empty|done|lia|done|lia].
  split; cbn; try done. clear. set_solver.
Qed.

Lemma remains_same w0 st0 k n w st n' w' : remains w0 st0 k n w st → same_resources w w' → (n ≤ n')%nat →
  remains w0 st0 k n' w' st.
Proof.
  intros (m & c & H & H1 & H2 & H3 & H4 & H5 & H6) Hs Hn. exists m, c.
  split_and!; [by etrans|done|done|done|lia|done|lia].
Qed.

(** One more life. *)
Lemma remains_more w0 st0 k nb wb stb nd n ws ws' w' : remains w0 st0 k nb wb stb →
  removed wb stb nd ws ws' w' → (nb + nd ≤ n)%nat → remains w0 st0 (S k) n w' (ws_skbs ws').
Proof.
  intros (m0 & c0 & [H1 H2 H3 H4] & Hd & Hsz & Hm0 & Hmn & Hst & Hstn)
    [_ (m & c & [E1 E2 E3 E4] & Hc & Hsz1 & Hm & Hmn1) _ Hst1 Hstn1 _] Hn. cbn in *.
  exists m, (c ∪ c0). rewrite H3 in *. split_and!; [|..|by etrans|lia|by etrans|lia].
  - split; cbn; [rewrite E1, H1; clear; set_solver|congruence|done|congruence].
  - rewrite H1 in Hc. clear -Hd Hc. set_solver.
  - pose proof (size_union_alt c c0). pose proof (subseteq_size (c0 ∖ c) c0 ltac:(clear; set_solver)). lia.
Qed.

(** A bound device that is at rest can be unbound. *)
Lemma life_removed j n w0 st0 k nb wb stb nd ws w h tq : remains w0 st0 k nb wb stb →
  driver_ok wb stb nd tq (ws, w, h) → (nb + nd ≤ n)%nat → at_rest ws →
  ∃ ws' w', wireless_simu_pci_remove big j (Some ws) w = Done (Some ws', w') ∧
    remains w0 st0 (S k) n w' (ws_skbs ws').
Proof.
  intros Hr Hok Hn [Htq Hwork _]. assert (tq = false) as -> by by eapply driver_ok_quiet.
  destruct (running_removed big j _ _ _ _ _ _ Hok Hwork) as (ws' & w' & E & Hrm).
  exists ws', w'. split; [done|]. by eapply remains_more.
Qed.

(** Unloading. *)
Lemma life_exit w0 st0 n c w h k : life_ok w0 st0 n (c, w, h, k) → pc_driver c ≠ None →
  (∀ ws, pc_bound c = Some ws → at_rest ws) →
  ∃ st w', wireless_simu_exit c w = Done (unloaded st, w') ∧ remains w0 st0 k (2 * n) w' st.
Proof.
  intros [Hd Hok] Hreg Hq. unfold wireless_simu_exit, pci_unregister_driver, this_driver in *.
  destruct (pc_driver c) as [d|]; [|done]. destruct Hd as [j ->].
  rewrite (M_bind_done (of_option BadFree (Some (wireless_simu_driver big j))) _ w _ w eq_refl).
  destruct (pc_bound c) as [ws|]; [|by exists (pc_skbs c), w].
  destruct Hok as (wb & stb & tq & k' & nb & nd & -> & Hr & Hok & Hn).
  destruct (life_removed j _ _ _ _ _ _ _ _ _ _ _ _ Hr Hok Hn (Hq _ eq_refl)) as (ws' & w' & E & Hr').
  exists (ws_skbs ws'), w'. split; [|done]. exact (M_bind_done _ _ _ _ _ E).
Qed.

Lemma life_step_ok w0 st0 n x y : life_step x y → life_ok w0 st0 n x → life_ok w0 st0 (S n) y.
Proof.
  intros Hs Hx. inversion Hs as [j c w r c' w' k Hn E|d c w ws w' k Hdr Hb E Hrun|
    c ws w h ws' w' h' k Hb Hst|d c ws w h ws' w' k Hdr Hb Hq E|c w h c' w' k Hq E]; subst;
    destruct Hx as [Hd Hok].
  - unfold wireless_simu_init, pci_register_driver in E. mcbn in E. injection E as <- <- <-.
    unfold this_driver in Hd. rewrite Hn in Hd. cbn -[Nat.mul] in Hok. rewrite Hd in Hok.
    destruct (decide _).
    + split; [by exists j|]. cbn -[Nat.mul]. rewrite Hd. eapply remains_same; [done|done|lia].
    + split; [unfold this_driver; by rewrite Hn|]. rewrite Hd. eapply remains_same; [done|done|lia].
  - unfold this_driver in Hd. rewrite Hdr in Hd. destruct Hd as [j ->]. cbn -[Nat.mul] in Hok. rewrite Hb in Hok.
    split; [unfold this_driver; cbn; rewrite Hdr; by exists j|].
    exists w, (pc_skbs c), false, k, (2 * n)%nat, 1%nat.
    cbn [pd_probe wireless_simu_driver] in E. destruct (probe_running big _ _ _ _ E Hrun) as [Hnew _].
    split_and!; [done|done|exact Hnew|lia].
  - cbn -[Nat.mul] in Hok. rewrite Hb in Hok. destruct Hok as (wb & stb & tq & k' & nb & nd & -> & Hr & Hok & Hn).
    destruct (step_ok _ _ _ _ _ _ _ Hst Hok) as [tq' Hok'].
    split; [|exists wb, stb, tq', k', nb, (nd + 2)%nat; split_and!; [done..|lia]].
    unfold this_driver in *. cbn. destruct (pc_driver c); [done|congruence].
  - unfold this_driver in Hd. rewrite Hdr in Hd. destruct Hd as [j ->]. cbn -[Nat.mul] in Hok. rewrite Hb in Hok.
    destruct Hok as (wb & stb & tq & k' & nb & nd & -> & Hr & Hok & Hn).
    destruct (life_removed j (2 * S n)%nat _ _ _ _ _ _ _ _ _ _ _ Hr Hok ltac:(lia) Hq) as (ws2 & w2 & E2 & Hr2).
    cbn [pd_remove wireless_simu_driver] in E. rewrite E in E2. injection E2 as <- <-.
    split; [|done]. unfold this_driver. cbn. rewrite Hdr. by exists j.
  - assert (pc_driver c ≠ None) as Hreg.
    { intros Hn. unfold wireless_simu_exit, pci_unregister_driver in E. by rewrite Hn in E. }
    destruct (life_exit _ _ _ _ _ _ _ (conj Hd Hok) Hreg Hq) as (st & w2 & E2 & Hr). rewrite E in E2.
    injection E2 as -> ->. split; [done|]. eapply remains_same; [exact Hr|done|lia].
Qed.

Lemma life_run_ok i w0 st0 n x y : nsteps life_step i x y → life_ok w0 st0 n x → life_ok w0 st0 (i + n) y.
Proof.
  intros H. revert n. induction H as [x|i x y z Hxy _ IH]; [done|]. intros n Hx.
  replace (S i + n)%nat with (i + S n)%nat by lia. by eapply IH, life_step_ok.
Qed.

(** Runs of the bound driver are parts of a life. *)
Lemma life_runs i d st k x y : nsteps (driver_step big) i x y →
  nsteps life_step i (PciCore d (Some x.1.1) st, x.1.2, x.2, k) (PciCore d (Some y.1.1) st, y.1.2, y.2, k).
Proof.
  induction 1 as [x|i [[ws w] h] [[ws' w'] h'] z Hxy _ IH]; [constructor|]. eapply nsteps_l; [|exact IH].
  by apply (life_run (PciCore d (Some ws) st) ws).
Qed.

(** C2.  The driver through all its lives.  Start with the module not loaded
    and let it be loaded, bound to the device by complete probes, run, unbound
    and unloaded, in any order, [i] steps in all, each binding with the socket
    buffers the one before has left.  While the device is bound, it serves its
    events as [serving] says.  At any time at which nothing is waiting - not the
    tasklet, not the work item, not the retry timer, which removal would leave
    armed - unloading does not fault.  What [k] bindings have then left in the
    world and among the socket buffers of the start is at most [k] channel
    tables, [2 i] mappings and [2 i] socket buffers; no coherent region, no
    mapped memory, and nothing that was there before is missing. *)
Theorem module_lifetimes i w0 st0 c w h k : nsteps life_step i (unloaded st0, w0, 0, O) (c, w, h, k) →
  (∀ ws, pc_bound c = Some ws → serving big ws w) ∧
  (pc_bound c = None → remains w0 st0 k (2 * i) w (pc_skbs c)) ∧
  (pc_driver c ≠ None → (∀ ws, pc_bound c = Some ws → at_rest ws) →
   ∃ st w', wireless_simu_exit c w = Done (unloaded st, w') ∧ remains w0 st0 k (2 * i) w' st).
Proof.
  intros Hrun. assert (life_ok w0 st0 (i + 0) (c, w, h, k)) as Hok.
  { eapply life_run_ok; [exact Hrun|]. split; [done|apply remains_refl]. }
  rewrite Nat.add_0_r in Hok. pose proof Hok as [_ Hc]. split_and!.
  - intros ws Hb. rewrite Hb in Hc. destruct Hc as (wb & stb & tq & k' & nb & nd & _ & _ & Hd & _).
    by eapply driver_ok_serving.
  - intros Hb. by rewrite Hb in Hc.
  - by eapply life_exit.
Qed.
End lives.
