(* ===== verification/DmaEngine.v ===== *)
(** * The DMA engine of the first version of the device

    Source: src/driver/driver_wireless/wireless_dma.c with the structures and
    registers of wireless.h.  The file is part of the build and of the
    repository's Makefile, but its text is disabled by the macro
    WIRELESS_SIMU_DMA_NOUSE of wireless_dma.h: what is modelled here is the
    code as it stands, not something the present driver runs.  A transmit
    descriptor has a slot in [tx_list], an array of ten in a kmalloc block; the
    two receive buffers are coherent regions whose addresses the device is
    told once. *)

From S2P Require Import Prelude Kernel Bits Hif HalTypes HalInit Pci.

(* ------------------------------------------------------------------ *)
(** ** Data *)

Definition WIRELESS_TX_RING_SIZE : Z := 10.
Definition WIRELESS_RX_RING_SIZE : Z := 2.
Definition WIRELESS_RX_BUFF_MAX_SIZE : Z := 2048.

Definition WIRELESS_REG_EVENT : Z := 0x10.
Definition WIRELESS_REG_DMA_IN_HOSTADDR : Z := 0x20.
Definition WIRELESS_REG_DMA_IN_LENGTH : Z := 0x30.
Definition WIRELESS_REG_DMA_IN_BUFF_ID : Z := 0x40.
Definition WIRELESS_REG_DMA_IN_FLAG : Z := 0xA0.
Definition WIRELESS_REG_DMA_RX_RING_BUF_ID : Z := 0xB0.
Definition WIRELESS_REG_DMA_RX_RING_HOSTADDR : Z := 0xC0.
Definition WIRELESS_REG_DMA_RX_RING_LENGTH : Z := 0xD0.
Definition WIRELESS_REG_DMA_RX_RING_FLAG : Z := 0xE0.

Definition WIRELESS_EVENT_DMA : Z := 1.

Definition WIRELESS_BITCHECK (num n : Z) : Z := Z.land (num ≫ n) 1.
Definition WIRELESS_BITSET (num n : Z) : Z := Z.lor num (1 ≪ n).
Definition WIRELESS_BITCLR (num n : Z) : Z := Z.land num (Z.lnot (1 ≪ n)).

Definition WIRELESS_RX_RING_BUF_INIT_END : Z := 1.
Definition WIRELESS_TX_RING_BUF_IS_USING : Z := 0.

(** [enum wireless_simu_err_code] *)
Definition ERR_SUCCESS : Z := 0.
Definition STOP : Z := 1.
Definition TX_RING_INIT_MALLOC_ERR : Z := 2.
Definition TX_RING_FULL : Z := 3.
Definition RX_RING_INIT_MALLOC_ERR : Z := 4.

Record Wireless_DMA_Buf := DmaBuf {
  db_dma_addr : Z;
  db_flag : Z;
  db_data : Z;
  db_data_length : Z
}.
#[export] Instance eta_dma_buf : Eta Wireless_DMA_Buf := MkEta (λ b,
  DmaBuf (db_dma_addr b) (db_flag b) (db_data b) (db_data_length b)).
Definition dma_buf_zero : Wireless_DMA_Buf := DmaBuf 0 0 0 0.
Definition sizeof_Wireless_DMA_Buf : Z := 32.

(** [tx_bufs] is the array [tx_list] points to. *)
Record Wireless_Tx_Ring := DmaTxRing {
  tx_list : Z;
  tx_bufs : list Wireless_DMA_Buf;
  tx_ring_mutex : bool;
  tx_list_size : Z
}.
#[export] Instance eta_dma_tx_ring : Eta Wireless_Tx_Ring := MkEta (λ r,
  DmaTxRing (tx_list r) (tx_bufs r) (tx_ring_mutex r) (tx_list_size r)).

Record Wireless_Rx_Ring := DmaRxRing {
  rx_list : list Wireless_DMA_Buf;
  rx_list_size : Z
}.
#[export] Instance eta_dma_rx_ring : Eta Wireless_Rx_Ring := MkEta (λ r,
  DmaRxRing (rx_list r) (rx_list_size r)).

(** The receive ring in a [struct wireless_simu] fresh from [kzalloc]. *)
Definition dma_rx_ring_zero : Wireless_Rx_Ring :=
  DmaRxRing (replicate (Z.to_nat WIRELESS_RX_RING_SIZE) dma_buf_zero) 0.

Section dma.
Context `{K : Kernel}.
Variable mmio_addr : Z.

(** Writing a register and reading one, as the code does all along. *)
Definition write_reg (reg v : Z) : M unit := iowrite32 v (mmio_addr + reg).
Definition read_reg (reg : Z) : M Z := ioread32 (mmio_addr + reg).

(* ------------------------------------------------------------------ *)
(** ** The receive ring *)

(** The loop of [wireless_simu_rx_ring_init], from index [i] on. *)
Fixpoint rx_init_bufs (i : Z) (bufs : list Wireless_DMA_Buf) : M (Z * list Wireless_DMA_Buf) :=
  match bufs with
  | [] => mret (ERR_SUCCESS, [])
  | buf :: bufs' =>
      let buf := buf <| db_flag := 0 |> <| db_data_length := WIRELESS_RX_BUFF_MAX_SIZE |> in
      '(data, dma_addr) ← dma_alloc_coherent WIRELESS_RX_BUFF_MAX_SIZE;
      let buf := buf <| db_data := data |> in
      if decide (data = 0) then mret (RX_RING_INIT_MALLOC_ERR, buf :: bufs')
      else
        let buf := buf <| db_dma_addr := dma_addr |>
                       <| db_flag := WIRELESS_BITSET (db_flag buf) WIRELESS_RX_RING_BUF_INIT_END |> in
        write_reg WIRELESS_REG_DMA_RX_RING_BUF_ID i;;
        read_reg WIRELESS_REG_DMA_RX_RING_BUF_ID;;
        write_reg WIRELESS_REG_DMA_RX_RING_HOSTADDR (db_dma_addr buf);;
        read_reg WIRELESS_REG_DMA_RX_RING_HOSTADDR;;
        write_reg WIRELESS_REG_DMA_RX_RING_LENGTH (db_data_length buf);;
        read_reg WIRELESS_REG_DMA_RX_RING_LENGTH;;
        write_reg WIRELESS_REG_DMA_RX_RING_FLAG (db_flag buf);;
        read_reg WIRELESS_REG_DMA_RX_RING_FLAG;;
        '(ret, bufs') ← rx_init_bufs (i + 1) bufs';
        mret (ret, buf :: bufs')
  end.

(** The first [n] buffers go through [f], the rest stays. *)
Definition on_first {R} (n : Z) (l : list Wireless_DMA_Buf)
    (f : list Wireless_DMA_Buf → M (R * list Wireless_DMA_Buf)) : M (R * list Wireless_DMA_Buf) :=
  '(r, done) ← f (take (Z.to_nat n) l); mret (r, done ++ drop (Z.to_nat n) l).

Definition wireless_simu_rx_ring_init (r : Wireless_Rx_Ring) : M (Z * Wireless_Rx_Ring) :=
  let r := r <| rx_list_size := WIRELESS_RX_RING_SIZE |> in
  '(ret, bufs) ← on_first (rx_list_size r) (rx_list r) (rx_init_bufs 0);
  mret (ret, r <| rx_list := bufs |>).

(** The loop of [wireless_rx_ring_exit]; it reads the id register back after
    every write. *)
Fixpoint rx_exit_bufs (i : Z) (bufs : list Wireless_DMA_Buf) : M (unit * list Wireless_DMA_Buf) :=
  match bufs with
  | [] => mret (tt, [])
  | buf :: bufs' =>
      write_reg WIRELESS_REG_DMA_RX_RING_BUF_ID i;;
      read_reg WIRELESS_REG_DMA_RX_RING_BUF_ID;;
      let buf := buf <| db_flag := WIRELESS_BITCLR (db_flag buf) WIRELESS_RX_RING_BUF_INIT_END |> in
      write_reg WIRELESS_REG_DMA_RX_RING_FLAG 0;;
      read_reg WIRELESS_REG_DMA_RX_RING_BUF_ID;;
      buf ← (if decide (db_dma_addr buf ≠ 0)
             then
               write_reg WIRELESS_REG_DMA_RX_RING_HOSTADDR 0;;
               read_reg WIRELESS_REG_DMA_RX_RING_BUF_ID;;
               write_reg WIRELESS_REG_DMA_RX_RING_LENGTH 0;;
               read_reg WIRELESS_REG_DMA_RX_RING_BUF_ID;;
               dma_free_coherent (db_data_length buf) (db_data buf) (db_dma_addr buf);;
               mret (buf <| db_dma_addr := 0 |> <| db_data := 0 |>)
             else mret buf);
      '(u, bufs') ← rx_exit_bufs (i + 1) bufs';
      mret (u, buf :: bufs')
  end.

Definition wireless_rx_ring_exit (r : Wireless_Rx_Ring) : M Wireless_Rx_Ring :=
  '(_, bufs) ← on_first (rx_list_size r) (rx_list r) (rx_exit_bufs 0);
  mret (r <| rx_list := bufs |>).

(* ------------------------------------------------------------------ *)
(** ** The transmit ring *)

Definition wireless_simu_tx_ring_init (r : Wireless_Tx_Ring) : M (Z * Wireless_Tx_Ring) :=
  let r := r <| tx_list_size := WIRELESS_TX_RING_SIZE |> in
  if decide (tx_list r = 0)
  then
    p ← kmalloc (tx_list_size r * sizeof_Wireless_DMA_Buf);
    let r := r <| tx_list := p |> in
    if decide (p = 0) then mret (TX_RING_INIT_MALLOC_ERR, r)
    else mret (ERR_SUCCESS, r <| tx_bufs := replicate (Z.to_nat (tx_list_size r)) dma_buf_zero |>
                              <| tx_ring_mutex := false |>)
  else mret (ERR_SUCCESS, r <| tx_ring_mutex := false |>).

Definition wireless_tx_ring_exit (r : Wireless_Tx_Ring) : M Wireless_Tx_Ring :=
  l ← lock_acquire (tx_ring_mutex r);
  kfree (tx_list r);;
  l ← lock_release l;
  mret (r <| tx_ring_mutex := l |> <| tx_list := 0 |> <| tx_bufs := [] |>).

(** The search loop: the first slot that is not in use, or the number of
    slots. *)
Fixpoint tx_free_slot (bufs : list Wireless_DMA_Buf) : nat :=
  match bufs with
  | [] => O
  | buf :: bufs' =>
      if decide (WIRELESS_BITCHECK (db_flag buf) WIRELESS_TX_RING_BUF_IS_USING = 0) then O
      else S (tx_free_slot bufs')
  end.

(** The label [END]. *)
Definition dma_tx_end (r : Wireless_Tx_Ring) (ret : Z) : M (Z * Wireless_Tx_Ring) :=
  l ← lock_release (tx_ring_mutex r); mret (ret, r <| tx_ring_mutex := l |>).

(** From [WIRELESS_BITSET(tx_list[tx_ring_id].flag, ...)] on: slot [id] is
    filled and announced. *)
Definition dma_tx_slot (r : Wireless_Tx_Ring) (id : nat) (data length dma_addr : Z)
    : M (Z * Wireless_Tx_Ring) :=
  buf ← of_option OutOfBounds (tx_bufs r !! id);
  let buf := buf <| db_flag := WIRELESS_BITSET (db_flag buf) WIRELESS_TX_RING_BUF_IS_USING |> in
  write_reg WIRELESS_REG_DMA_IN_BUFF_ID (Z.of_nat id);;
  read_reg WIRELESS_REG_DMA_IN_BUFF_ID;;
  write_reg WIRELESS_REG_DMA_IN_HOSTADDR (u32 dma_addr);;
  val ← read_reg WIRELESS_REG_DMA_IN_HOSTADDR;
  let buf := buf <| db_dma_addr := val |> in
  write_reg WIRELESS_REG_DMA_IN_LENGTH length;;
  val ← read_reg WIRELESS_REG_DMA_IN_LENGTH;
  let buf := buf <| db_data_length := val |> in
  write_reg WIRELESS_REG_DMA_IN_FLAG (db_flag buf);;
  write_reg WIRELESS_REG_EVENT WIRELESS_EVENT_DMA;;
  let buf := buf <| db_data := data |> in
  l ← lock_release (tx_ring_mutex r);
  mret (ERR_SUCCESS, r <| tx_bufs := <[id := buf]> (tx_bufs r) |> <| tx_ring_mutex := l |>).

(** [tx_list], read at the start, is not read again after the ring has been
    initialised: the slots are then reached through NULL. *)
Definition wireless_simu_dma_tx (stop : bool) (r : Wireless_Tx_Ring) (data length : Z)
    : M (Z * Wireless_Tx_Ring) :=
  let list := tx_list r in
  if stop then mret (STOP, r)
  else
    '(ret, r) ← (if decide (list = 0) then wireless_simu_tx_ring_init r else mret (ERR_SUCCESS, r));
    if decide (ret ≠ 0) then dma_tx_end r ret
    else
      l ← lock_acquire (tx_ring_mutex r);
      let r := r <| tx_ring_mutex := l |> in
      dma_addr ← dma_map_single data length;
      err ← dma_mapping_error dma_addr;
      if (err : bool) then dma_tx_end r ret
      else if decide (list = 0 ∧ 0 < tx_list_size r) then fail NullDeref
      else
        let id := tx_free_slot (take (Z.to_nat (tx_list_size r)) (tx_bufs r)) in
        if decide (Z.of_nat id = tx_list_size r)
        then dma_unmap_single dma_addr length;; dma_tx_end r TX_RING_FULL
        else dma_tx_slot r id data length dma_addr.

(** The block's contents, a test text, are not modelled; the result of the
    transmission is not looked at, and the block is not freed. *)
Definition wireless_simu_dma_test (stop : bool) (r : Wireless_Tx_Ring) : M Wireless_Tx_Ring :=
  data ← kmalloc 1024;
  if decide (data = 0) then mret r
  else '(_, r) ← wireless_simu_dma_tx stop r data 1024; mret r.
End dma.

(* ------------------------------------------------------------------ *)
(** ** Coherent blocks in hand *)

(** The world once the block of [b] is given back. *)
Definition free_block (b : Wireless_DMA_Buf) (w : world) : world :=
  w <| w_dma := delete (db_data b) (w_dma w) |>
    <| w_mem := unmap_region (db_data b) (db_data_length b) (w_mem w) |>.

(** Giving back, in order, the blocks of the buffers leads from [w] to the
    resources of [w0]: the blocks are what [w] has more than [w0]. *)
Fixpoint bufs_held (bufs : list Wireless_DMA_Buf) (w0 w : world) : Prop :=
  match bufs with
  | [] => same_resources w0 w
  | b :: bufs' => w_dma w !! db_data b = Some (db_data_length b, db_dma_addr b) ∧
                  bufs_held bufs' w0 (free_block b w)
  end.

Lemma free_block_same b w w' : same_resources w w' →
  same_resources (free_block b w) (free_block b w').
Proof.
  intros [Hh Hd Hm Hdom]. split; cbn -[unmap_region]; [done|by rewrite Hd|done|].
  by rewrite !dom_unmap_region, Hdom.
Qed.

Lemma free_block_comm b b' w : free_block b (free_block b' w) = free_block b' (free_block b w).
Proof.
  unfold free_block. cbn -[unmap_region]. destruct w; cbn -[unmap_region]. f_equal; [|apply delete_delete].
  apply map_eq. intros a. rewrite !lookup_unmap_region. by repeat case_decide.
Qed.

Lemma bufs_held_same bufs w0 w w' : same_resources w w' → bufs_held bufs w0 w → bufs_held bufs w0 w'.
Proof.
  revert w w'. induction bufs as [|b bufs IH]; cbn; intros w w' Hs; [intros; by etrans|].
  intros [Hl Hb]. split; [by rewrite (same_dma _ _ Hs)|].
  eapply IH; [|exact Hb]. by apply free_block_same.
Qed.

(** The order does not matter. *)
Lemma bufs_held_swap b b' bufs w0 w : bufs_held (b :: b' :: bufs) w0 w → bufs_held (b' :: b :: bufs) w0 w.
Proof.
  cbn [bufs_held]. intros (Hb & Hb' & H). rewrite free_block_comm in H.
  cbn -[free_block] in *. unfold free_block in Hb' |- * at 1. cbn in Hb' |- *.
  assert (db_data b' ≠ db_data b) as Hne by (intros E; by rewrite E, lookup_delete_eq in Hb').
  rewrite lookup_delete_ne in Hb' |- * by done. done.
Qed.

Lemma bufs_held_middle l1 b l2 w0 w : bufs_held (l1 ++ b :: l2) w0 w → bufs_held (b :: l1 ++ l2) w0 w.
Proof.
  revert w. induction l1 as [|x l1 IH]; intros w H; [done|]. apply bufs_held_swap.
  destruct H as [Hx H]. by split; [|apply IH].
Qed.

(** A block taken before the others can be given back before them. *)
Lemma bufs_held_below `{K : Kernel} b bufs w0 w1 w :
  dma_block w0 (db_data b) (db_dma_addr b) (db_data_length b) →
  same_resources (dma_world (db_data b) (db_dma_addr b) (db_data_length b) w0) w1 →
  bufs_held bufs w1 w → bufs_held (b :: bufs) w0 w.
Proof.
  intros [_ _ Hd Hm] Hs. revert w. induction bufs as [|b' bufs IH]; intros w H.
  - cbn in H. pose proof (same_resources_trans _ _ _ Hs H) as [Eh Ed Em Edom]. clear H Hs.
    cbn -[map_region unmap_region] in *. split; [rewrite Ed; apply lookup_insert_eq|].
    split; cbn -[unmap_region]; [done| |done|].
    + by rewrite Ed, delete_insert_id.
    + by rewrite dom_unmap_region, Edom, <-dom_unmap_region, unmap_map_region.
  - apply bufs_held_swap. destruct H as [Hl H]. by split; [|apply IH].
Qed.

(* ------------------------------------------------------------------ *)
(** ** Registers *)

Section registers.
Context `{K : Kernel}.
Variable mmio_addr : Z.

(** The world after the register writes [l] and [n] reads. *)
Definition told (l : list (Z * Z)) (w w' : world) : Prop :=
  ∃ n, w' = w <| w_mmio := w_mmio w ++ ((λ rv, (mmio_addr + rv.1, u32 rv.2)) <$> l) |>
              <| w_tick := n |>.

Lemma told_refl w : told [] w w.
Proof. exists (w_tick w). destruct w. cbn. by rewrite app_nil_r. Qed.

Lemma told_trans l1 l2 w1 w2 w3 : told l1 w1 w2 → told l2 w2 w3 → told (l1 ++ l2) w1 w3.
Proof. intros [n ->] [m ->]. exists m. cbn. by rewrite fmap_app, app_assoc. Qed.

Lemma told_write reg v w : ∃ w', write_reg mmio_addr reg v w = Done (tt, w') ∧ told [(reg, v)] w w'.
Proof. eexists. split; [done|]. exists (w_tick w). by destruct w. Qed.

Lemma told_read reg w : ∃ x w', read_reg mmio_addr reg w = Done (x, w') ∧ told [] w w'.
Proof. do 2 eexists. split; [done|]. exists (w_tick w + 1). destruct w. cbn. by rewrite app_nil_r. Qed.

Lemma told_same l w w' : told l w w' → same_resources w w' ∧ w_mem w' = w_mem w.
Proof. by intros [n ->]. Qed.

Lemma told_mmio l w w' : told l w w' →
  w_mmio w' = w_mmio w ++ ((λ rv, (mmio_addr + rv.1, u32 rv.2)) <$> l).
Proof. by intros [n ->]. Qed.
End registers.

(** Step over register accesses, composing what the device was told. *)
Ltac told_step :=
  match goal with
  | H0 : told ?b ?l ?w0 ?w |- context [(write_reg ?b ?reg ?v ≫= ?k) ?w] =>
      let w' := fresh "w" in let E := fresh in let H := fresh in
      destruct (told_write b reg v w) as (w' & E & H);
      rewrite (M_bind_done _ _ _ _ _ E); clear E;
      pose proof (told_trans _ _ _ _ _ _ H0 H); clear H H0; try clear w
  | H0 : told ?b ?l ?w0 ?w |- context [(read_reg ?b ?reg ≫= ?k) ?w] =>
      let w' := fresh "w" in let x := fresh "val" in let E := fresh in let H := fresh in
      destruct (told_read b reg w) as (x & w' & E & H);
      rewrite (M_bind_done _ _ _ _ _ E); clear E;
      pose proof (told_trans _ _ _ _ _ _ H0 H); clear H H0; try clear w
  end.

(* ------------------------------------------------------------------ *)
(** ** Setting the receive ring up and giving it back *)

Section rx_ring.
Context `{KO : KernelOk}.
Variable mmio_addr : Z.

(** What the device is told of buffer [i]. *)
Definition rx_announced (i addr : Z) : list (Z * Z) :=
  [(WIRELESS_REG_DMA_RX_RING_BUF_ID, i);
   (WIRELESS_REG_DMA_RX_RING_HOSTADDR, addr);
   (WIRELESS_REG_DMA_RX_RING_LENGTH, WIRELESS_RX_BUFF_MAX_SIZE);
   (WIRELESS_REG_DMA_RX_RING_FLAG, 2)].

Definition rx_announced_from (i : Z) (bufs : list Wireless_DMA_Buf) : list (Z * Z) :=
  mjoin (imap (λ k b, rx_announced (i + Z.of_nat k) (db_dma_addr b)) bufs).

(** The buffer has a block. *)
Definition has_block (b : Wireless_DMA_Buf) : Prop := db_data b ≠ 0.
#[export] Instance has_block_dec b : Decision (has_block b).
Proof. unfold has_block. apply _. Defined.

(** A buffer the device may fill. *)
Definition rx_posted (b : Wireless_DMA_Buf) : Prop :=
  db_data b ≠ 0 ∧ db_data_length b = WIRELESS_RX_BUFF_MAX_SIZE ∧ db_flag b = 2.

(** The bus address of the block is zero, which the code takes for no block. *)
Definition at_zero (b : Wireless_DMA_Buf) : Prop := db_dma_addr b = 0.
#[export] Instance at_zero_dec b : Decision (at_zero b).
Proof. unfold at_zero. apply _. Defined.

(** A buffer without a block. *)
Definition buf_idle (b : Wireless_DMA_Buf) : Prop := db_data b = 0 ∧ db_dma_addr b = 0.

Lemma idle_no_blocks bufs : Forall buf_idle bufs → filter has_block bufs = [].
Proof.
  induction 1 as [|b bufs [Hb _] _ IH]; [done|]. rewrite filter_cons_False; [done|]. intros Hx. by apply Hx.
Qed.

(** The loop of the initialisation: the first buffers are posted and announced;
    it ends at the first allocation that fails. *)
Lemma rx_init_bufs_cases bufs i w0 : Forall buf_idle bufs →
  ∃ ret done rest w,
    rx_init_bufs mmio_addr i bufs w0 = Done ((ret, done ++ rest), w) ∧
    length (done ++ rest) = length bufs ∧ Forall rx_posted done ∧ Forall buf_idle rest ∧
    (ret = ERR_SUCCESS ∧ rest = [] ∨ ret = RX_RING_INIT_MALLOC_ERR ∧ rest ≠ []) ∧
    w_mmio w = w_mmio w0 ++ ((λ rv, (mmio_addr + rv.1, u32 rv.2)) <$> rx_announced_from i done) ∧
    bufs_held done w0 w.
Proof.
  intros Hz. revert i w0. induction Hz as [|b bufs [Hb1 Hb2] Hz IH]; intros i w0; cbn [rx_init_bufs].
  { exists ERR_SUCCESS, [], [], w0. split_and!; try done; [by left|]. cbn. by rewrite app_nil_r. }
  cbv zeta. destruct (dma_alloc_cases WIRELESS_RX_BUFF_MAX_SIZE w0) as [(p & E)|(v & p & Hv & Hblk & E)];
    rewrite (M_bind_done _ _ _ _ _ E); cbn [fst snd]; clear E.
  { rewrite decide_True by done.
    exists RX_RING_INIT_MALLOC_ERR, [], (DmaBuf (db_dma_addr b) 0 0 WIRELESS_RX_BUFF_MAX_SIZE :: bufs), (tick w0).
    split_and!; try done; [by constructor|by right|]. cbn. by rewrite app_nil_r. }
  rewrite decide_False by done.
  pose proof (told_refl mmio_addr (dma_world v p WIRELESS_RX_BUFF_MAX_SIZE w0)) as H.
  repeat told_step.
  match type of H with told _ _ _ ?w => rename w into w1 end.
  change (told mmio_addr (rx_announced i p) (dma_world v p WIRELESS_RX_BUFF_MAX_SIZE w0) w1) in H.
  pose proof (told_same _ _ _ _ H) as [Hs _]. pose proof (told_mmio _ _ _ _ H) as Hmmio.
  destruct (IH (i + 1) w1) as (ret & dn & rest & w & E & Hlen & Hp & Hi & Hret & Hm & Hheld).
  rewrite (M_bind_done _ _ _ _ _ E). exists ret, (DmaBuf p 2 v WIRELESS_RX_BUFF_MAX_SIZE :: dn), rest, w.
  split; [done|]. split_and!; [by cbn; rewrite Hlen|by constructor|done|done| |].
  - rewrite Hm, Hmmio, <-app_assoc, <-fmap_app. do 2 f_equal.
    unfold rx_announced_from. rewrite imap_cons. cbn [mjoin list_join]. f_equal; [by rewrite Z.add_0_r|].
    f_equal. apply imap_ext. intros k b' _. cbn. f_equal. lia.
  - by eapply (bufs_held_below (DmaBuf p 2 v WIRELESS_RX_BUFF_MAX_SIZE)).
Qed.

(** The loop of [wireless_rx_ring_exit] gives back the blocks of the buffers
    with a bus address that is not zero, and forgets them.  [kept] are blocks
    held besides. *)
Lemma rx_exit_bufs_held bufs kept i w0 w :
  Forall (λ b, has_block b ∨ buf_idle b) bufs → bufs_held (kept ++ filter has_block bufs) w0 w →
  ∃ bufs' w', rx_exit_bufs mmio_addr i bufs w = Done ((tt, bufs'), w') ∧
    bufs_held (kept ++ filter at_zero (filter has_block bufs)) w0 w' ∧
    length bufs' = length bufs ∧ Forall at_zero bufs' ∧
    db_data <$> filter has_block bufs' = db_data <$> filter at_zero (filter has_block bufs).
Proof.
  intros Hb. revert i w kept. induction Hb as [|b bufs Hb Hbs IH]; intros i w kept H; cbn [rx_exit_bufs] in *.
  { by exists [], w. }
  cbv zeta. pose proof (told_refl mmio_addr w) as Ht. repeat told_step.
  match goal with H' : told _ _ _ ?w' |- _ => rename H' into H1; rename w' into w1 end.
  change (db_dma_addr (b <| db_flag := _ |>)) with (db_dma_addr b).
  pose proof (told_same _ _ _ _ H1) as [Hs _]. set (b1 := b <| db_flag := _ |>).
  rewrite (filter_cons has_block b bufs) in *.
  destruct (decide (db_dma_addr b = 0)) as [Ha|Ha]; [rewrite decide_False by tauto|rewrite decide_True by done].
  - rewrite M_bind_ret. destruct (decide (has_block b)) as [Hh|Hh].
    + rewrite (cons_middle b kept), (app_assoc kept) in H.
      destruct (IH (i + 1) w1 (kept ++ [b]) (bufs_held_same _ _ _ _ Hs H)) as (bufs' & w' & E & Hw & Hlen & Hz & Hd).
      rewrite (M_bind_done _ _ _ _ _ E). exists (b1 :: bufs'), w'. split; [done|].
      rewrite filter_cons_True, (cons_middle b kept), (app_assoc kept) by done.
      split_and!; [done|by cbn; rewrite Hlen|by constructor|]. rewrite filter_cons_True by done. cbn. by rewrite Hd.
    + destruct (IH (i + 1) w1 kept (bufs_held_same _ _ _ _ Hs H)) as (bufs' & w' & E & Hw & Hlen & Hz & Hd).
      rewrite (M_bind_done _ _ _ _ _ E). exists (b1 :: bufs'), w'. split; [done|].
      split_and!; [done|by cbn; rewrite Hlen|by constructor|]. by rewrite filter_cons_False.
  - assert (has_block b) as Hh by (by destruct Hb as [|[_ ?]]). rewrite decide_True in H |- * by done.
    apply (bufs_held_same _ _ _ w1) in H; [|done]. apply bufs_held_middle in H as [Hd H].
    clear H1 Hs. pose proof (told_refl mmio_addr w1) as H1. do 4 (rewrite M_bind_assoc; told_step).
    match goal with H' : told _ _ _ ?w' |- _ => pose proof (told_same _ _ _ _ H') as [Hs _]; clear H'; rename w' into w2 end.
    rewrite M_bind_assoc.
    rewrite (M_bind_done _ _ _ _ _ (dma_free_eq (db_data_length b) (db_data b) (db_dma_addr b) _
      ltac:(by rewrite (same_dma _ _ Hs)))), M_bind_ret.
    destruct (IH (i + 1) (free_block b w2) kept) as (bufs' & w' & E & Hw & Hlen & Hz & Hdd);
      [eapply bufs_held_same; [by apply free_block_same, Hs|done]|].
    unfold free_block in E. rewrite (M_bind_done _ _ _ _ _ E). do 2 eexists. split; [done|].
    rewrite (filter_cons_False at_zero) by done.
    split_and!; [done|by cbn; rewrite Hlen|by constructor|]. by rewrite filter_cons_False by (intros Hx; by apply Hx).
Qed.

(** The ring before its initialisation. *)
Definition rx_idle (r : Wireless_Rx_Ring) : Prop :=
  Z.of_nat (length (rx_list r)) = WIRELESS_RX_RING_SIZE ∧ Forall buf_idle (rx_list r).

Lemma on_first_all {R} n l (f : list Wireless_DMA_Buf → M (R * list Wireless_DMA_Buf)) w r l' w' :
  Z.of_nat (length l) = n → f l w = Done ((r, l'), w') → on_first n l f w = Done ((r, l'), w').
Proof.
  intros <- E. unfold on_first. rewrite Nat2Z.id, firstn_all, drop_all.
  rewrite (M_bind_done _ _ _ _ _ E). by rewrite app_nil_r.
Qed.

(** C7. The receive ring of the DMA engine.  Initialising an idle ring never
    faults.  The first buffers - all of them with SUCCESS, fewer with
    RX_RING_INIT_MALLOC_ERR - are blocks of 2048 bytes with their flag set, the
    device has been told of each in turn its id, address, length and flag, and
    they are all that was taken.  In both cases wireless_rx_ring_exit does not
    fault, and what it leaves taken are exactly the blocks whose bus address is
    zero, which the code takes for no block and whose pointers stay in the ring.
    So if the bus gave out no address zero, everything is given back and the
    ring can be initialised again. *)
Theorem rx_ring_balanced r w : rx_idle r →
  ∃ ret posted rest r1 w1, wireless_simu_rx_ring_init mmio_addr r w = Done ((ret, r1), w1) ∧
    rx_list r1 = posted ++ rest ∧ Forall rx_posted posted ∧ Forall buf_idle rest ∧
    (ret = ERR_SUCCESS ∧ rest = [] ∨ ret = RX_RING_INIT_MALLOC_ERR ∧ rest ≠ []) ∧
    w_mmio w1 = w_mmio w ++ ((λ rv, (mmio_addr + rv.1, u32 rv.2)) <$> rx_announced_from 0 posted) ∧
    bufs_held posted w w1 ∧
    ∃ r2 w2, wireless_rx_ring_exit mmio_addr r1 w1 = Done (r2, w2) ∧
      bufs_held (filter at_zero posted) w w2 ∧
      db_data <$> filter has_block (rx_list r2) = db_data <$> filter at_zero posted ∧
      (filter at_zero posted = [] → same_resources w w2 ∧ rx_idle r2).
Proof.
  intros [Hlen Hz]. destruct (rx_init_bufs_cases (rx_list r) 0 w Hz)
    as (ret & posted & rest & w1 & E & Hl & Hp & Hi & Hret & Hmm & Hheld).
  exists ret, posted, rest, (r <| rx_list_size := WIRELESS_RX_RING_SIZE |> <| rx_list := posted ++ rest |>), w1.
  split_and!; try done.
  { unfold wireless_simu_rx_ring_init. cbv zeta.
    by rewrite (M_bind_done _ _ _ _ _ (on_first_all WIRELESS_RX_RING_SIZE (rx_list r) _ _ _ _ _ Hlen E)). }
  assert (filter has_block (posted ++ rest) = posted) as Hf.
  { rewrite filter_app, (idle_no_blocks rest Hi), app_nil_r. clear -Hp. induction Hp as [|b l [Hb _] _ IH]; [done|].
    rewrite filter_cons_True by done. by rewrite IH. }
  destruct (rx_exit_bufs_held (posted ++ rest) [] 0 w w1) as (bufs2 & w2 & E2 & Hh2 & Hl2 & Hz2 & Hd2).
  { apply Forall_app. split; [|by eapply Forall_impl; [exact Hi|]; by right].
    eapply Forall_impl; [exact Hp|]. intros b [Hb _]. by left. }
  { by rewrite Hf. }
  rewrite Hf in Hh2, Hd2. cbn [app] in Hh2.
  assert (Z.of_nat (length (posted ++ rest)) = WIRELESS_RX_RING_SIZE) as Hlen1 by by rewrite Hl.
  unfold wireless_rx_ring_exit.
  rewrite (M_bind_done _ _ _ _ _ (on_first_all WIRELESS_RX_RING_SIZE (posted ++ rest) _ _ _ _ _ Hlen1 E2)).
  do 2 eexists. split_and!; [done..|]. cbn [rx_list update update_with]. intros H0.
  rewrite H0 in Hh2, Hd2. split; [done|]. split; [cbn; by rewrite Hl2|]. cbn.
  apply Forall_forall. intros b Hin. split; [|by eapply Forall_forall in Hz2].
  destruct (decide (db_data b = 0)) as [|Hne]; [done|].
  assert (b ∈ filter has_block bufs2) as Hin2 by by apply list_elem_of_filter.
  apply (list_elem_of_fmap_2 db_data) in Hin2. rewrite Hd2 in Hin2. by apply not_elem_of_nil in Hin2.
Qed.
End rx_ring.

(* ------------------------------------------------------------------ *)
(** ** Transmitting *)

(** The slot is in use, the test of the search loop. *)
Definition slot_used (b : Wireless_DMA_Buf) : Prop :=
  WIRELESS_BITCHECK (db_flag b) WIRELESS_TX_RING_BUF_IS_USING ≠ 0.
#[export] Instance slot_used_dec b : Decision (slot_used b).
Proof. unfold slot_used. apply _. Defined.

Definition slots_used (bufs : list Wireless_DMA_Buf) : nat := length (filter slot_used bufs).

Lemma slots_used_app l1 l2 : slots_used (l1 ++ l2) = (slots_used l1 + slots_used l2)%nat.
Proof. unfold slots_used. by rewrite filter_app, length_app. Qed.

Lemma slots_used_cons b l : slots_used (b :: l) = ((if decide (slot_used b) then 1 else 0) + slots_used l)%nat.
Proof. unfold slots_used. rewrite filter_cons. by case_decide. Qed.

Lemma slots_used_le l : (slots_used l ≤ length l)%nat.
Proof. apply length_filter. Qed.

(** Taking a slot sets its bit. *)
Lemma slot_taken f : WIRELESS_BITCHECK (WIRELESS_BITSET f WIRELESS_TX_RING_BUF_IS_USING)
  WIRELESS_TX_RING_BUF_IS_USING = 1.
Proof.
  unfold WIRELESS_BITCHECK, WIRELESS_BITSET, WIRELESS_TX_RING_BUF_IS_USING.
  rewrite Z.shiftr_0_r. change (1 ≪ 0) with 1. apply Z.bits_inj'. intros n Hn.
  rewrite Z.land_spec, Z.lor_spec. by destruct (Z.testbit 1 n); rewrite ?orb_true_r, ?andb_false_r.
Qed.

(** The search finds the first free slot, or there is none. *)
Lemma tx_free_slot_cases bufs :
  (tx_free_slot bufs = length bufs ∧ slots_used bufs = length bufs) ∨
  ∃ l1 b l2, bufs = l1 ++ b :: l2 ∧ tx_free_slot bufs = length l1 ∧ ¬ slot_used b ∧ Forall slot_used l1.
Proof.
  induction bufs as [|b bufs IH]; cbn [tx_free_slot]; [by left|].
  rewrite slots_used_cons. unfold slot_used at 1 2. case_decide as Hb.
  - right. exists [], b, bufs. split_and!; try done. by intros ?.
  - rewrite decide_True by done. destruct IH as [[E Hu]|(l1 & b' & l2 & -> & E & Hf & Hl)].
    + left. cbn. by rewrite E, Hu.
    + right. exists (b :: l1), b', l2. split_and!; [done|by cbn; rewrite E|done|by constructor].
Qed.

Section transmit.
Context `{KO : KernelOk}.
Variable mmio_addr : Z.

(** An initialised ring nobody holds. *)
Record tx_ready (r : Wireless_Tx_Ring) : Prop := {
  tr_list : tx_list r ≠ 0;
  tr_free : tx_ring_mutex r = false;
  tr_size : tx_list_size r = WIRELESS_TX_RING_SIZE;
  tr_bufs : Z.of_nat (length (tx_bufs r)) = WIRELESS_TX_RING_SIZE
}.

(** What the device is told of a frame; the last write starts the transfer. *)
Definition tx_announced (id : nat) (addr length flag : Z) : list (Z * Z) :=
  [(WIRELESS_REG_DMA_IN_BUFF_ID, Z.of_nat id);
   (WIRELESS_REG_DMA_IN_HOSTADDR, u32 addr);
   (WIRELESS_REG_DMA_IN_LENGTH, length);
   (WIRELESS_REG_DMA_IN_FLAG, flag);
   (WIRELESS_REG_EVENT, WIRELESS_EVENT_DMA)].

(** The frame [data] went out through slot [id]. *)
Record tx_sent (data length : Z) (r r' : Wireless_Tx_Ring) (w w' : world) (id : nat)
    (b : Wireless_DMA_Buf) (addr : Z) : Prop := {
  ts_slot : tx_bufs r' = <[id := b]> (tx_bufs r);
  ts_count : slots_used (tx_bufs r') = S (slots_used (tx_bufs r));
  ts_data : db_data b = data;
  ts_used : slot_used b;
  ts_flag b0 : tx_bufs r !! id = Some b0 →
    db_flag b = WIRELESS_BITSET (db_flag b0) WIRELESS_TX_RING_BUF_IS_USING;
  ts_fresh : w_map w !! addr = None;
  ts_map : w_map w' = <[addr := length]> (w_map w);
  ts_blocks : same_blocks w w';
  ts_mmio : w_mmio w' = w_mmio w ++
    ((λ rv, (mmio_addr + rv.1, u32 rv.2)) <$> tx_announced id addr length (db_flag b))
}.

(** Slot [id], free, is filled. *)
Lemma dma_tx_slot_sent r l1 b l2 data len addr w0 : tx_ready (r <| tx_ring_mutex := false |>) →
  tx_ring_mutex r = true → tx_bufs r = l1 ++ b :: l2 → ¬ slot_used b →
  w_map w0 !! addr = None →
  ∃ r' w' b',
    dma_tx_slot mmio_addr r (length l1) data len addr ((tick w0) <| w_map := <[addr := len]> (w_map w0) |>) =
      Done ((ERR_SUCCESS, r'), w') ∧
    tx_ready r' ∧ tx_sent data len r r' w0 w' (length l1) b' addr.
Proof.
  intros Hr Hl Hb Hf Hfr. unfold dma_tx_slot.
  rewrite (M_bind_done _ _ _ b ((tick w0) <| w_map := <[addr := len]> (w_map w0) |>));
    [|by rewrite Hb, list_lookup_middle].
  cbv zeta.
  pose proof (told_refl mmio_addr ((tick w0) <| w_map := <[addr := len]> (w_map w0) |>)) as Ht.
  repeat told_step.
  match type of H0 with told _ ?l _ ?w1 =>
    change (told mmio_addr (tx_announced (length l1) addr len
      (WIRELESS_BITSET (db_flag b) WIRELESS_TX_RING_BUF_IS_USING))
      ((tick w0) <| w_map := <[addr := len]> (w_map w0) |>) w1) in H0 end.
  pose proof (told_same _ _ _ _ H0) as [[Eh Ed Em Edom] _]. pose proof (told_mmio _ _ _ _ H0) as Hmm.
  rewrite Hl. do 3 eexists. split; [done|]. destruct Hr as [H1 H2 H3 H4]. split; split; try done;
    cbn [tx_list tx_bufs tx_ring_mutex tx_list_size update update_with] in *.
  - by rewrite length_insert.
  - rewrite Hb, insert_app_r_alt, Nat.sub_diag by done. cbn [list_insert insert].
    rewrite !slots_used_app, !slots_used_cons. rewrite (decide_False (P := slot_used b)) by done.
    rewrite decide_True; [lia|]. unfold slot_used. cbn. by rewrite slot_taken.
  - unfold slot_used. cbn. by rewrite slot_taken.
  - intros b0. rewrite Hb, list_lookup_middle by done. by intros [= <-].
Qed.

(** Every outcome on an initialised ring. *)
Lemma dma_tx_cases r data len w : tx_ready r →
  ∃ ret r' w', wireless_simu_dma_tx mmio_addr false r data len w = Done ((ret, r'), w') ∧ tx_ready r' ∧
    (ret = ERR_SUCCESS ∧ r' = r ∧ same_resources w w' ∧ w_mmio w' = w_mmio w ∧
       k_dma_mapping_error (k_dma_map w data len) = true
     ∨ ret = TX_RING_FULL ∧ r' = r ∧ same_resources w w' ∧ w_mmio w' = w_mmio w ∧
       slots_used (tx_bufs r) = 10%nat
     ∨ ret = ERR_SUCCESS ∧ ∃ l1 b l2 b' addr,
       tx_bufs r = l1 ++ b :: l2 ∧ ¬ slot_used b ∧ Forall slot_used l1 ∧
       tx_sent data len r r' w w' (length l1) b' addr).
Proof.
  intros Hr. pose proof Hr as [H1 H2 H3 H4]. unfold wireless_simu_dma_tx. cbv zeta.
  rewrite (decide_False (P := tx_list r = 0)) by done. rewrite M_bind_ret. cbv beta iota.
  rewrite decide_False by (intros Hx; by apply Hx). rewrite H2.
  rewrite (M_bind_done (lock_acquire false) _ w true w eq_refl).
  set (r1 := r <| tx_ring_mutex := true |>).
  assert (r1 <| tx_ring_mutex := false |> = r) as Hback by (subst r1; clear -H2; destruct r; by cbn in *; subst).
  assert (∀ ret w1, dma_tx_end r1 ret w1 = Done ((ret, r), w1)) as Hend.
  { intros ret w1. unfold dma_tx_end. rewrite (M_bind_done (lock_release true) _ w1 false w1 eq_refl).
    by rewrite Hback. }
  set (pa := k_dma_map w data len). destruct (k_dma_mapping_error pa) eqn:Hm.
  - rewrite (M_bind_done (dma_map_single data len) _ w pa (tick w));
      [|unfold dma_map_single; fold pa; by rewrite Hm].
    unfold dma_mapping_error. rewrite M_bind_ret, Hm, Hend. do 3 eexists. split_and!; [done|done|].
    left. by split_and!.
  - assert (w_map w !! pa = None) as Hfr by by apply dma_map_fresh.
    rewrite (M_bind_done (dma_map_single data len) _ w pa ((tick w) <| w_map := <[pa := len]> (w_map w) |>));
      [|unfold dma_map_single; fold pa; by rewrite Hm].
    unfold dma_mapping_error. rewrite M_bind_ret, Hm, decide_False by tauto.
    change (tx_list_size r1) with (tx_list_size r). change (tx_bufs r1) with (tx_bufs r).
    rewrite H3. rewrite <-H4, Nat2Z.id, firstn_all.
    destruct (tx_free_slot_cases (tx_bufs r)) as [[E Hu]|(l1 & b & l2 & E & Ei & Hf & Hl)].
    + rewrite E, decide_True by done.
      rewrite (M_bind_done (dma_unmap_single pa len) _ _ tt (tick w)).
      2: { unfold dma_unmap_single. cbn. rewrite decide_True by apply lookup_insert_eq.
           rewrite delete_insert_id by done. by destruct w. }
      rewrite Hend. do 3 eexists. split_and!; [done|done|]. right. left.
      split_and!; try done. apply Nat2Z.inj. by rewrite Hu, H4.
    + rewrite Ei. rewrite decide_False by (rewrite E, length_app; cbn; lia).
      destruct (dma_tx_slot_sent r1 l1 b l2 data len pa w) as (r' & w' & b' & Es & Hr' & Hsent);
        [by rewrite Hback|done..|].
      rewrite Es. do 3 eexists. split_and!; [done|done|]. right. right. split; [done|].
      exists l1, b, l2, b', pa. split_and!; try done. destruct Hsent. by split.
Qed.

(** Sending a list of frames one after the other. *)
Fixpoint dma_tx_all (frames : list (Z * Z)) (r : Wireless_Tx_Ring) : M (list Z * Wireless_Tx_Ring) :=
  match frames with
  | [] => mret ([], r)
  | (data, len) :: frames' =>
      '(ret, r) ← wireless_simu_dma_tx mmio_addr false r data len;
      '(rets, r) ← dma_tx_all frames' r;
      mret (ret :: rets, r)
  end.

(** The slots not in use, in order, of an array that starts at index [i]. *)
Fixpoint free_slots (i : nat) (bufs : list Wireless_DMA_Buf) : list nat :=
  match bufs with
  | [] => []
  | b :: bufs' => if decide (slot_used b) then free_slots (S i) bufs' else i :: free_slots (S i) bufs'
  end.

Lemma free_slots_in id i bufs : id ∈ free_slots i bufs →
  ∃ k b, id = (i + k)%nat ∧ bufs !! k = Some b ∧ ¬ slot_used b.
Proof.
  revert i. induction bufs as [|b bufs IH]; cbn; intros i H; [by apply not_elem_of_nil in H|].
  assert (id ∈ free_slots (S i) bufs → ∃ k b0, id = (i + k)%nat ∧ (b :: bufs) !! k = Some b0 ∧ ¬ slot_used b0) as Hr.
  { intros (k & b0 & -> & ? & ?)%IH. exists (S k), b0. split; [lia|done]. }
  case_decide as Hu; [by apply Hr|]. apply elem_of_cons in H as [->|H]; [|by apply Hr].
  exists O, b. split; [lia|done].
Qed.

(** Taking the first free slot. *)
Lemma free_slots_taken i l1 b b' l2 : Forall slot_used l1 → ¬ slot_used b → slot_used b' →
  free_slots i (l1 ++ b :: l2) = (i + length l1)%nat :: free_slots i (l1 ++ b' :: l2).
Proof.
  intros Hl Hb Hb'. revert i. induction Hl as [|x l1 Hx _ IH]; cbn; intros i.
  - rewrite decide_False, decide_True by done. by rewrite Nat.add_0_r.
  - rewrite !(decide_True (P := slot_used x)) by done. rewrite IH. f_equal. lia.
Qed.

(** The answers while [k] slots are free and no mapping fails. *)
Definition tx_answers (n k : nat) : list Z :=
  replicate (Nat.min n k) ERR_SUCCESS ++ replicate (n - k) TX_RING_FULL.

(** What became of a frame: announced with this slot, address and flag; turned
    away for want of a slot; or dropped because it could not be mapped. *)
Inductive tx_fate : Type :=
  | TxSent (id : nat) (addr flag : Z)
  | TxFull
  | TxUnmapped.

Definition fate_answer (x : tx_fate) : Z := match x with TxFull => TX_RING_FULL | _ => ERR_SUCCESS end.
Definition sent_slot (x : tx_fate) : option nat := match x with TxSent id _ _ => Some id | _ => None end.
Definition sent_slots (fates : list tx_fate) : list nat := omap sent_slot fates.
(** What the device is told of the frame. *)
Definition fate_told (frame : Z * Z) (x : tx_fate) : list (Z * Z) :=
  match x with TxSent id addr flag => tx_announced id addr frame.2 flag | _ => [] end.

(** The fate of one frame, between the ring and world [r], [w] before all of
    them and [r'], [w'] after: its slot was free and now holds its data, marked
    in use; its address is a mapping made for it, of its length. *)
Definition fate_ok (r r' : Wireless_Tx_Ring) (w w' : world) (frame : Z * Z) (x : tx_fate) : Prop :=
  match x with
  | TxSent id addr flag => ∃ b b', tx_bufs r !! id = Some b ∧ ¬ slot_used b ∧
      tx_bufs r' !! id = Some b' ∧ db_data b' = frame.1 ∧ db_flag b' = flag ∧
      flag = WIRELESS_BITSET (db_flag b) WIRELESS_TX_RING_BUF_IS_USING ∧
      w_map w !! addr = None ∧ w_map w' !! addr = Some frame.2
  | TxFull => slots_used (tx_bufs r') = 10%nat
  | TxUnmapped => ∃ w0, k_dma_mapping_error (k_dma_map w0 frame.1 frame.2) = true
  end.

(** What sending [frames] has done.  The frames that were sent took the free
    slots one after the other from the first on; no other slot changed; the
    mappings gained are one for each; and the device was told of them, in their
    order, and of nothing else. *)
Record tx_progress (frames : list (Z * Z)) (fates : list tx_fate) (r r' : Wireless_Tx_Ring) (w w' : world)
    : Prop := {
  tp_ready : tx_ready r';
  tp_blocks : same_blocks w w';
  tp_each : Forall2 (fate_ok r r' w w') frames fates;
  tp_slots : sent_slots fates = take (length (sent_slots fates)) (free_slots 0 (tx_bufs r));
  tp_kept id : id ∉ sent_slots fates → tx_bufs r' !! id = tx_bufs r !! id;
  tp_used : slots_used (tx_bufs r') = (slots_used (tx_bufs r) + length (sent_slots fates))%nat;
  tp_map : w_map w ⊆ w_map w';
  tp_size : size (w_map w') = (size (w_map w) + length (sent_slots fates))%nat;
  tp_mmio : w_mmio w' = w_mmio w ++
    ((λ rv, (mmio_addr + rv.1, u32 rv.2)) <$> mjoin (zip_with fate_told frames fates))
}.

Lemma tx_progress_nil r w : tx_ready r → tx_progress [] [] r r w w.
Proof.
  intros Hr. split; cbn; rewrite ?Nat.add_0_r, ?app_nil_r; done.
Qed.

Lemma slots_at_most_ten r : tx_ready r → (slots_used (tx_bufs r) ≤ 10)%nat.
Proof.
  intros [_ _ _ E]. pose proof (slots_used_le (tx_bufs r)). unfold WIRELESS_TX_RING_SIZE in E. lia.
Qed.

(** A frame that was not sent. *)
Lemma tx_progress_idle frame x frames fates r r' w w1 w' : sent_slot x = None → fate_told frame x = [] →
  fate_ok r r' w w' frame x → same_resources w w1 → w_mmio w1 = w_mmio w →
  tx_progress frames fates r r' w1 w' → tx_progress (frame :: frames) (x :: fates) r r' w w'.
Proof.
  intros Hx Ht Hok [Hh Hd Hm Hdom] Hmm [? [] He ? ? ? ? ? ?]. assert (sent_slots (x :: fates) = sent_slots fates) as Hs
    by (unfold sent_slots; cbn; by rewrite Hx).
  split; rewrite ?Hs; try done; [split; congruence| |by rewrite <-Hm|by rewrite <-Hm|].
  - constructor; [done|]. eapply Forall2_impl; [exact He|]. intros f y Hy. destruct y; cbn in *; [|done..].
    by rewrite <-Hm.
  - cbn. by rewrite Ht, <-Hmm.
Qed.

(** A frame that was. *)
Lemma tx_progress_sent data len frames fates r r1 r' w w1 w' l1 b l2 b' addr :
  tx_bufs r = l1 ++ b :: l2 → ¬ slot_used b → Forall slot_used l1 →
  tx_sent data len r r1 w w1 (length l1) b' addr → tx_progress frames fates r1 r' w1 w' →
  tx_progress ((data, len) :: frames) (TxSent (length l1) addr (db_flag b') :: fates) r r' w w'.
Proof.
  intros E Hb Hl [Hslot Hcount Hdata Hused Hflag Hfresh Hmap Hblocks Hmm] [Hr' Hbl He Hsl Hk Hu Hm Hsz Hmmio].
  assert (tx_bufs r1 = l1 ++ b' :: l2) as E1
    by by rewrite Hslot, E, insert_app_r_alt, Nat.sub_diag by done.
  pose proof (free_slots_taken 0 l1 b b' l2 Hl Hb Hused) as Hfree. rewrite <-E, <-E1 in Hfree.
  assert (∀ id, id ∈ sent_slots fates → ∃ b0, tx_bufs r1 !! id = Some b0 ∧ ¬ slot_used b0) as Hin.
  { intros id Hid. rewrite Hsl in Hid. apply subseteq_take, free_slots_in in Hid as (k & b0 & -> & H & H').
    by exists b0. }
  assert (tx_bufs r1 !! length l1 = Some b') as Hb'1 by by rewrite E1, list_lookup_middle.
  assert (tx_bufs r !! length l1 = Some b) as Hb1 by by rewrite E, list_lookup_middle.
  assert (length l1 ∉ sent_slots fates) as Hnin by (intros (b0 & ? & ?)%Hin; naive_solver).
  assert (∀ id, id ≠ length l1 → tx_bufs r1 !! id = tx_bufs r !! id) as Hother
    by (intros id Hid; by rewrite Hslot, list_lookup_insert_ne by done).
  assert (sent_slots (TxSent (length l1) addr (db_flag b') :: fates) = length l1 :: sent_slots fates) as Hcons by done.
  split; rewrite ?Hcons; cbn [length]; [done|by etrans|..].
  - constructor; [|eapply Forall2_impl; [exact He|]].
    + exists b, b'. split_and!; try done; [by rewrite Hk|by apply Hflag|].
      cbn. eapply lookup_weaken; [|exact Hm]. rewrite Hmap. apply lookup_insert_eq.
    + intros f y Hy. destruct y as [id a fl| |]; [|done..]. destruct Hy as (b0 & b1 & H1 & H2 & H3 & H4 & H5 & H6 & H7 & H8).
      exists b0, b1. split_and!; try done.
      * rewrite <-Hother; [done|]. intros ->. naive_solver.
      * rewrite Hmap in H7. by apply lookup_insert_None in H7 as [? _].
  - rewrite Hfree. cbn. by f_equal.
  - intros id [Hid1 Hid2]%not_elem_of_cons. by rewrite Hk, Hother.
  - rewrite Hu, Hcount. lia.
  - etrans; [|exact Hm]. rewrite Hmap. by apply insert_subseteq.
  - rewrite Hsz, Hmap, map_size_insert_None by done. lia.
  - rewrite Hmmio, Hmm, <-app_assoc, <-fmap_app. done.
Qed.

Lemma tx_answers_sent n k : (0 < k)%nat → ERR_SUCCESS :: tx_answers n (k - 1) = tx_answers (S n) k.
Proof.
  intros Hk. unfold tx_answers. destruct k as [|k]; [lia|]. cbn. by rewrite Nat.sub_0_r.
Qed.

Lemma tx_answers_full n : TX_RING_FULL :: tx_answers n 0 = tx_answers (S n) 0.
Proof. unfold tx_answers. by rewrite !Nat.min_0_r, !Nat.sub_0_r. Qed.

(** C6. A transmit ring of the DMA engine serves ten frames in its life.
    Sending any list of frames on an initialised ring ([tx_ready]) never faults
    and leaves it initialised and unlocked; on a ring that is not, the first
    transmission fails ([dma_tx_uninitialised]).  The answer to a frame is
    TX_RING_FULL when it found no slot, and SUCCESS otherwise - also when it
    could not be mapped and was dropped.  The frames sent take the free slots in
    order, first to last; the device is told, frame by frame, that slot, the
    address of a new mapping of the frame's length, the length and the slot's
    flag, then the event; the slot keeps the frame's data.  No other slot and no
    other mapping changes, and none is ever released: the ring ends with at
    most ten frames sent.  If no mapping fails, the first frames get SUCCESS,
    as many as there were free slots, and all others TX_RING_FULL. *)
Theorem dma_tx_ten frames r w : tx_ready r →
  ∃ fates r' w', dma_tx_all frames r w = Done ((fate_answer <$> fates, r'), w') ∧
    tx_progress frames fates r r' w w' ∧ (slots_used (tx_bufs r') ≤ 10)%nat ∧
    ((∀ w a l, k_dma_mapping_error (k_dma_map w a l) = false) →
     fate_answer <$> fates = tx_answers (length frames) (10 - slots_used (tx_bufs r))).
Proof.
  revert r w. induction frames as [|[data len] frames IH]; intros r w Hr; cbn [dma_tx_all].
  { exists [], r, w. split_and!; [done|by apply tx_progress_nil|by apply slots_at_most_ten|done]. }
  destruct (dma_tx_cases r data len w Hr) as (ret & r1 & w1 & E & Hr1 & Hc).
  rewrite (M_bind_done _ _ _ _ _ E). clear E.
  destruct (IH r1 w1 Hr1) as (fates & r2 & w2 & E & Hp & Hten & Hans).
  rewrite (M_bind_done _ _ _ _ _ E). clear E IH.
  destruct Hc as [(-> & -> & Hs & Hm & Herr)|[(-> & -> & Hs & Hm & Hu)|(-> & l1 & b & l2 & b' & addr & E & Hf & Hl & Hsent)]].
  - exists (TxUnmapped :: fates), r2, w2. split_and!; [done| |done|].
    + eapply tx_progress_idle; [done..|by exists w|exact Hs|done|done].
    + intros Hno. by rewrite Hno in Herr.
  - exists (TxFull :: fates), r2, w2. split_and!; [done| |done|].
    + eapply tx_progress_idle; [done..| |exact Hs|done|done]. cbn. pose proof (tp_used _ _ _ _ _ _ Hp). lia.
    + intros Hno. cbn [fmap list_fmap fate_answer]. rewrite (Hans Hno), Hu. apply tx_answers_full.
  - pose proof (slots_at_most_ten r1 Hr1) as Hle. pose proof (ts_count _ _ _ _ _ _ _ _ _ Hsent) as Hc.
    exists (TxSent (length l1) addr (db_flag b') :: fates), r2, w2.
    split_and!; [done|by eapply tx_progress_sent|done|].
    intros Hno. cbn [fmap list_fmap fate_answer]. rewrite (Hans Hno), Hc.
    replace (10 - S (slots_used (tx_bufs r)))%nat with (10 - slots_used (tx_bufs r) - 1)%nat by lia.
    apply tx_answers_sent. lia.
Qed.

(** The first transmission on a ring that was never initialised.  The code
    then goes on with its copy of the NULL pointer: whatever the allocation
    and the mapping answer, nothing is sent. *)
Lemma dma_tx_uninitialised bufs size data len w :
  let r := DmaTxRing 0 bufs false size in
  let out := wireless_simu_dma_tx mmio_addr false r data len w in
  (out = Fault NotLocked ∧ k_kmalloc w 320 = 0) ∨ out = Fault NullDeref ∨
  ∃ r' w', out = Done ((ERR_SUCCESS, r'), w') ∧ w_mmio w' = w_mmio w ∧ w_map w' = w_map w.
Proof.
  cbv zeta. unfold wireless_simu_dma_tx, wireless_simu_tx_ring_init. cbv zeta. cbn [tx_list].
  rewrite !decide_True by done. unfold mbind, M_bind, kmalloc.
  change (k_kmalloc w _) with (k_kmalloc w 320).
  destruct (decide (k_kmalloc w 320 = 0)) as [Hz|Hz]; [by left|right].
  cbn. rewrite !(decide_False (P := ERR_SUCCESS ≠ 0)) by (intros Hx; by apply Hx).
  cbn. unfold dma_map_single. cbn.
  match goal with |- context [k_dma_mapping_error (k_dma_map ?w1 data len)] =>
    destruct (k_dma_mapping_error (k_dma_map w1 data len)) eqn:E end.
  - right. do 2 eexists. split; [reflexivity|done].
  - by left.
Qed.

(** The test transmission never faults; the block it allocates stays, whatever
    became of the frame. *)
Lemma dma_test_leaks r w : tx_ready r →
  ∃ r' w', wireless_simu_dma_test mmio_addr false r w = Done (r', w') ∧ tx_ready r' ∧
    (w_heap w' = w_heap w ∨ ∃ p, p ∉ w_heap w ∧ w_heap w' = {[p]} ∪ w_heap w).
Proof.
  intros Hr. unfold wireless_simu_dma_test.
  destruct (kmalloc_cases 1024 w) as [E|(p & Hp & Hn & E)]; rewrite (M_bind_done _ _ _ _ _ E).
  { exists r, (tick w). split_and!; [done..|by left]. }
  rewrite decide_False by done.
  destruct (dma_tx_cases r p 1024 ((tick w) <| w_heap := {[p]} ∪ w_heap w |>) Hr)
    as (ret & r' & w' & E2 & Hr' & Hc).
  rewrite (M_bind_done _ _ _ _ _ E2). exists r', w'. split_and!; [done..|]. right. exists p. split; [done|].
  destruct Hc as [(_ & _ & [Hh _ _ _] & _)|[(_ & _ & [Hh _ _ _] & _)|(_ & l1 & b & l2 & b' & addr & _ & _ & _ & Hs)]];
    [done..|]. by destruct (ts_blocks _ _ _ _ _ _ _ _ _ Hs).
Qed.
End transmit.
