(* ===== verification/TestPci.v ===== *)
(** * The PCI test driver

    Source: src/driver/pci_driver_test.c, a driver of its own that the wireless
    driver grew out of: it claims a device, installs an interrupt handler and
    exercises three registers.  The PCI core is the one of [Pci]; what the core
    keeps for the driver is the device with its driver data.  The static
    variables [mmio_addr] and [test_pci_priv] are only used inside the probe. *)

From S2P Require Import Prelude Kernel Pci PciLife.

Definition TEST_REG_DATA : Z := 0x10.
Definition TEST_REG_LENGTH : Z := 0x20.
Definition TEST_REG_IRQ : Z := 0x30.
Definition IRQ_HANDLED : Z := 1.

(** [struct test_pci]; the members nobody uses are left out. *)
Record test_pci := TestPci {
  tp_mmio_addr : Z;
  tp_msi_desc : Z;
  tp_irq_vectors_num : Z
}.
Definition sizeof_test_pci : Z := 56.

(** The device: what the PCI core handed out, and the driver data, a block with
    its contents. *)
Record test_dev := TestDev {
  td_pci : pci_state;
  td_drvdata : option (Z * test_pci)
}.

Section test_pci.
Context `{K : Kernel} `{P : PciApi}.
Variable k_dma_set_mask : world → Z.

(** [pci_get_drvdata] and the first access through it. *)
Definition get_drvdata (d : test_dev) : M test_pci :=
  '(p, priv) ← of_option NullDeref (td_drvdata d);
  heap ← (λ w, Done (w_heap w, w));
  assert (bool_decide (p ∈ heap)) Unmapped;;
  mret priv.

Definition test_pci_irq_handler (d : test_dev) : M Z :=
  priv ← get_drvdata d;
  val ← ioread32 (tp_mmio_addr priv + TEST_REG_IRQ);
  iowrite32 0 (tp_mmio_addr priv + TEST_REG_IRQ);;
  mret IRQ_HANDLED.

(** An error exit: regions and device are given back. *)
Definition test_release (s : pci_state) (ret : Z) : M (Z * test_dev) :=
  s ← pci_release_regions s; s ← pci_disable_device s; mret (ret, TestDev s None).

(** From [pci_irq_vector] on: the handler, the exercise of the registers, the
    driver data.  The result of [request_irq] is not looked at, the one of
    [kzalloc] neither. *)
Definition test_probe_irq (s : pci_state) (mmio_addr num_vectors msi_desc : Z) : M (Z * test_dev) :=
  irq ← ask k_pci_irq_vector;
  ret ← ask k_request_irq;
  let s := if decide (ret = 0) then s <| pci_irq_handler := Some irq |> else s in
  iowrite32 0x00 (mmio_addr + TEST_REG_LENGTH);;
  let val := (0x61 ≪ 24) + (0x62 ≪ 16) + (0x63 ≪ 8) + 0x64 in
  iowrite32 val (mmio_addr + TEST_REG_DATA);;
  ioread32 (mmio_addr + TEST_REG_LENGTH);;
  ioread32 (mmio_addr + TEST_REG_DATA);;
  iowrite32 3 (mmio_addr + TEST_REG_IRQ);;
  ioread32 (mmio_addr + TEST_REG_IRQ);;
  p ← kmalloc sizeof_test_pci;
  if decide (p = 0) then fail NullDeref
  else mret (0, TestDev s (Some (p, TestPci mmio_addr msi_desc num_vectors))).

Definition test_probe_vectors (s : pci_state) (mmio_addr : Z) : M (Z * test_dev) :=
  num_vectors ← ask (λ w, k_pci_alloc_irq_vectors w true);
  let msi := bool_decide (0 ≤ num_vectors) in
  num_vectors ← (if msi then mret num_vectors else ask (λ w, k_pci_alloc_irq_vectors w false));
  if decide (num_vectors < 0) then test_release s num_vectors
  else
    let s := s <| pci_vectors := true |> in
    msi_desc ← (if msi then ask k_irq_get_msi_desc else mret 0);
    if decide (msi ∧ msi_desc = 0)
    then s ← pci_free_irq_vectors s; test_release s (-1)
    else test_probe_irq s mmio_addr num_vectors msi_desc.

Definition test_pci_probe (s : pci_state) : M (Z * test_dev) :=
  ret ← ask k_pci_assign_resource;
  if decide (ret ≠ 0) then mret (ret, TestDev s None)
  else
    ret ← ask k_pci_enable_device;
    if decide (ret ≠ 0) then mret (ret, TestDev s None)
    else
      let s := s <| pci_enabled := true |> in
      ret ← ask k_pci_request_regions;
      if decide (ret ≠ 0) then s ← pci_disable_device s; mret (ret, TestDev s None)
      else
        let s := s <| pci_regions := true |> in
        ret ← ask k_dma_set_mask;
        if decide (ret ≠ 0) then test_release s ret
        else
          let s := s <| pci_master := true |> in
          mmio_addr ← ask k_pci_iomap;
          if decide (mmio_addr = 0) then test_release s (- EIO)
          else test_probe_vectors (s <| pci_iomap_addr := mmio_addr |>) mmio_addr.

(** Removal does not give the interrupt back; the core still holds the driver
    data when it returns. *)
Definition test_pci_remove (d : test_dev) : M test_dev :=
  match td_drvdata d with
  | None => mret d
  | Some (p, priv) =>
      iowrite32 0x00 (tp_mmio_addr priv + TEST_REG_LENGTH);;
      s ← pci_iounmap (td_pci d) (tp_mmio_addr priv);
      s ← pci_free_irq_vectors s;
      s ← pci_release_regions s;
      s ← pci_disable_device s;
      kfree p;;
      mret (TestDev s (td_drvdata d))
  end.

Definition test_pci_shutdown (d : test_dev) : M test_dev := test_pci_remove d.
End test_pci.

(* ------------------------------------------------------------------ *)
(** ** From probe to removal *)

Section lifecycle.
Context `{KO : KernelOk} `{P : PciApi}.
Variable k_dma_set_mask : world → Z.

(** The registers as the probe exercises them. *)
Definition exercised (mmio : Z) : list (Z * Z) :=
  [(mmio + TEST_REG_LENGTH, 0); (mmio + TEST_REG_DATA, 0x61626364); (mmio + TEST_REG_IRQ, 3)].

(** A complete probe. *)
Record test_bound (w w' : world) (d : test_dev) (mmio p : Z) (priv : test_pci) : Prop := {
  tb_pci : td_pci d = pci_running mmio (pci_irq_handler (td_pci d));
  tb_data : td_drvdata d = Some (p, priv);
  tb_mmio : tp_mmio_addr priv = mmio ∧ mmio ≠ 0;
  tb_ptr : p ≠ 0 ∧ p ∉ w_heap w;
  tb_told : w_mmio w' = w_mmio w ++ exercised mmio;
  tb_same : same_resources (heap_above {[p]} w) w'
}.

(** Every outcome of the probe from [pci_irq_vector] on. *)
Lemma test_probe_irq_cases s mmio n desc w0 w : asked w0 w → mmio ≠ 0 → s = pci_running mmio None →
  (test_probe_irq s mmio n desc w = Fault NullDeref) ∨
  ∃ d w' p priv, test_probe_irq s mmio n desc w = Done ((0, d), w') ∧ test_bound w0 w' d mmio p priv.
Proof.
  intros [t ->] Hm ->. unfold test_probe_irq.
  do 2 rewrite (M_bind_done _ _ _ _ _ (ask_done _ _)). cbv zeta.
  set (s := if decide _ then _ else _).
  assert (s = pci_running mmio (pci_irq_handler s)) as Hs by (subst s; by case_decide).
  unfold mbind, M_bind, iowrite32, ioread32, modify. cbn -[kmalloc update update_with].
  match goal with |- context [kmalloc _ ?w1] =>
    assert (∃ m, w1 = w0 <| w_mmio := w_mmio w0 ++ exercised mmio |> <| w_tick := m |>) as [m ->]
      by (eexists; cbn; by rewrite <-!app_assoc) end.
  destruct (kmalloc_cases sizeof_test_pci (w0 <| w_mmio := w_mmio w0 ++ exercised mmio |> <| w_tick := m |>))
    as [E|(p & Hp & Hn & E)]; rewrite E; [by left|right].
  rewrite decide_False by done. do 4 eexists. split; [reflexivity|]. by split.
Qed.

(** Every outcome of the probe: an error with nothing held but perhaps the
    mapping of the BAR, the NULL dereference when the block is refused, or the
    device bound. *)
Definition probe_outcome (w : world) (o : res ((Z * test_dev) * world)) : Prop :=
  (∃ ret d w', o = Done ((ret, d), w') ∧ ret ≠ 0 ∧ asked w w' ∧ td_drvdata d = None ∧
     (td_pci d = pci_idle ∨ ∃ mmio, td_pci d = pci_mapped_only mmio)) ∨
  o = Fault NullDeref ∨
  ∃ d w' mmio p priv, o = Done ((0, d), w') ∧ test_bound w w' d mmio p priv.

Lemma test_probe_vectors_cases mmio w0 w : asked w0 w → mmio ≠ 0 →
  probe_outcome w0 (test_probe_vectors (pci_claimed mmio) mmio w).
Proof.
  intros Ha Hm. unfold test_probe_vectors. rewrite (M_bind_done _ _ _ _ _ (ask_done _ _)). cbv zeta.
  set (n0 := k_pci_alloc_irq_vectors w true).
  assert (∃ n w1, (if bool_decide (0 ≤ n0) then mret n0 else ask (λ w, k_pci_alloc_irq_vectors w false)) (tick w)
    = Done (n, w1) ∧ asked w0 w1) as (n & w1 & E & Ha1).
  { destruct Ha as [t ->]. case_bool_decide; do 2 eexists; (split; [reflexivity|]); by eexists. }
  rewrite (M_bind_done _ _ _ _ _ E). destruct (decide (n < 0)).
  { left. do 3 eexists. split; [reflexivity|]. split_and!; try done; [lia|]. right. by exists mmio. }
  assert (∃ m w2, (if bool_decide (0 ≤ n0) then ask k_irq_get_msi_desc else mret 0) w1
    = Done (m, w2) ∧ asked w0 w2) as (m & w2 & E2 & Ha2).
  { destruct Ha1 as [t ->]. case_bool_decide; do 2 eexists; (split; [reflexivity|]); by eexists. }
  rewrite (M_bind_done _ _ _ _ _ E2). destruct (decide (bool_decide (0 ≤ n0) ∧ m = 0)).
  { left. do 3 eexists. split; [reflexivity|]. split_and!; try done. right. by exists mmio. }
  destruct (test_probe_irq_cases _ mmio n m w0 w2 Ha2 Hm eq_refl) as [E3|(d & w' & p & priv & E3 & Hb)];
    [by right; left|right; right]. by exists d, w', mmio, p, priv.
Qed.

Lemma test_probe_cases w : probe_outcome w (test_pci_probe k_dma_set_mask pci_idle w).
Proof.
  unfold test_pci_probe. cbv zeta.
  do 4 (rewrite (M_bind_done _ _ _ _ _ (ask_done _ _)); case_decide;
    [left; do 3 eexists; split; [reflexivity|]; split_and!; [done|by eexists|done|by left]|]).
  rewrite (M_bind_done _ _ _ _ _ (ask_done _ _)). case_decide.
  { left. do 3 eexists. split; [reflexivity|]. split_and!; [done|by eexists|done|by left]. }
  apply test_probe_vectors_cases; [by eexists|done].
Qed.

Lemma get_drvdata_eq d p priv w : td_drvdata d = Some (p, priv) →
  get_drvdata d w = if decide (p ∈ w_heap w) then Done (priv, w) else Fault Unmapped.
Proof.
  intros E. unfold get_drvdata. rewrite E. unfold mbind, M_bind, assert. cbn.
  destruct (decide (p ∈ w_heap w)); [by rewrite bool_decide_true|by rewrite bool_decide_false].
Qed.

(** Removal of a bound device. *)
Lemma test_remove_bound mmio h p priv w : tp_mmio_addr priv = mmio → p ≠ 0 → p ∈ w_heap w →
  test_pci_remove (TestDev (pci_running mmio h) (Some (p, priv))) w =
    Done (TestDev (pci_idle <| pci_irq_handler := h |>) (Some (p, priv)),
      w <| w_mmio := w_mmio w ++ [(mmio + TEST_REG_LENGTH, 0)] |> <| w_heap := w_heap w ∖ {[p]} |>).
Proof.
  intros <- Hp Hin. unfold test_pci_remove. cbn [td_drvdata td_pci].
  unfold mbind, M_bind, iowrite32, modify, pci_iounmap, assert. cbn -[kfree].
  rewrite bool_decide_true by done. cbn -[kfree].
  unfold pci_release_regions, pci_disable_device, assert, mbind, M_bind. cbn -[kfree]. by rewrite kfree_eq.
Qed.

(** C29.  The test driver from probe to removal.  While the device is bound the
    handler acknowledges every interrupt by clearing the register.  Removal
    does not fault and returns all memory, regions, vectors and the mapping,
    but the interrupt handler stays installed if it was: an interrupt that
    arrives then reads the freed driver data, and, once the core has cleared
    the pointer to it, dereferences NULL. *)
Theorem test_pci_lifecycle w d w1 :
  test_pci_probe k_dma_set_mask pci_idle w = Done ((0, d), w1) →
  ∃ mmio w2 w3 d3,
    w_mmio w1 = w_mmio w ++ exercised mmio ∧
    test_pci_irq_handler d w1 = Done (IRQ_HANDLED, w2) ∧
    same_resources w1 w2 ∧ w_mmio w2 = w_mmio w1 ++ [(mmio + TEST_REG_IRQ, 0)] ∧
    test_pci_remove d w1 = Done (d3, w3) ∧ same_resources w w3 ∧
    td_pci d3 = pci_idle <| pci_irq_handler := pci_irq_handler (td_pci d) |> ∧
    test_pci_irq_handler d3 w3 = Fault Unmapped ∧
    test_pci_irq_handler (TestDev (td_pci d3) None) w3 = Fault NullDeref.
Proof.
  intros E. destruct (test_probe_cases w) as [(ret & d' & w' & E' & Hr & _)|[E'|(d' & w' & mmio & p & priv & E' & Hb)]];
    rewrite E in E'; simplify_eq.
  destruct Hb as [Hpci Hd [Hm Hm0] [Hp Hn] Ht [Hh Hdma Hmap Hdom]].
  cbn in Hh, Hdma, Hmap, Hdom.
  assert (p ∈ w_heap w') as Hin by (rewrite Hh; clear; set_solver).
  destruct d' as [s o]. cbn in Hpci, Hd. rewrite Hd, Hpci in *. clear Hd Hpci. clear E.
  exists mmio. do 3 eexists. split_and!; [done| | | |by apply test_remove_bound| |done| |done].
  - assert (get_drvdata (TestDev (pci_running mmio (pci_irq_handler s)) (Some (p, priv))) w' = Done (priv, w')) as Eg
      by by rewrite (get_drvdata_eq _ p priv), decide_True.
    unfold test_pci_irq_handler. rewrite (M_bind_done _ _ _ _ _ Eg), Hm. reflexivity.
  - by split.
  - done.
  - split; cbn; [|done..]. rewrite Hh. clear -Hn. set_solver.
  - apply M_bind_fault. rewrite (get_drvdata_eq _ p priv) by done. apply decide_False. cbn. clear. set_solver.
Qed.
End lifecycle.
