(* ===== verification/HostDriver.v ===== *)
(** * The host-side driver and its device

    Source: src/driver/host_wireless_driver.c and .h, host_wireless_device.c: an
    older, separate pair of modules, a platform device and a mac80211 driver for
    it that would pass frames to user space over netlink.  Two functions of the
    driver are not C as they stand, simuwifi_tx (a statement without its
    semicolon) and simuwifi_config (no return value); the others are modelled.
    simuwifi_start, simuwifi_stop and simuwifi_netlink_rx do nothing. *)

From S2P Require Import Prelude Kernel Bits Skb Ieee80211 MacTypes Mac80211 MacIface MacProbe.

Class HostApi := {
  k_nlmsg_new : world → Z → Z;                  (* payload -> buffer, 0 is NULL *)
  k_netlink_broadcast : world → Z;              (* negative errors *)
  k_netlink_kernel_create : world → Z;          (* 0 is NULL *)
  k_platform_device_alloc : world → Z;          (* 0 is NULL *)
  k_platform_device_add : world → Z;            (* errors: 0 is success *)
  NL80211_IFTYPE_ADHOC : Z;
  NL80211_IFTYPE_MESH_POINT : Z
}.

Definition NETLINK_SIMUWIFI_GROUP : Z := 9.
Definition MAX_NUM_VIF : nat := 4.

(** [struct simuwifi_host_priv]; the rate and channel tables are never used. *)
Record simuwifi_host_priv := HostPriv {
  hp_pdev : Z;
  hp_vif : list Z;
  hp_netlink_sock : Z;
  hp_group : Z;
  hp_mac_addr : list Z
}.
#[export] Instance eta_host_priv : Eta simuwifi_host_priv := MkEta (λ p,
  HostPriv (hp_pdev p) (hp_vif p) (hp_netlink_sock p) (hp_group p) (hp_mac_addr p)).
(** As [ieee80211_alloc_hw] gives it. *)
Definition host_priv_zero : simuwifi_host_priv :=
  HostPriv 0 (replicate MAX_NUM_VIF 0) 0 0 (replicate 6 0).

(** An interface: its type, its address, and the words of the area [drv_priv]
    that mac80211 reserves behind it, [hw->vif_data_size] bytes, zero at first.
    The driver reads [struct simuwifi_vif] there: a pointer, then [idx]. *)
Record host_vif := HostVif { hv_type : Z; hv_addr : list Z; hv_drv_priv : list Z }.

(** A message handed to [netlink_broadcast]. *)
Record nlmsg := NlMsg { nl_payload : list Z; nl_portid : Z; nl_dst_group : Z }.

(** The platform device with its driver data, the [ieee80211_hw] behind it, and
    the open netlink sockets. *)
Record host_hw := HostHw { hh_registered : bool; hh_vif_data_size : Z }.
Record host_dev := HostDev {
  hd_drvdata : Z;
  hd_hw : host_hw;
  hd_priv : simuwifi_host_priv;
  hd_socks : gset Z
}.
#[export] Instance eta_host_dev : Eta host_dev := MkEta (λ d,
  HostDev (hd_drvdata d) (hd_hw d) (hd_priv d) (hd_socks d)).

(** Ask the kernel; one tick. *)
Definition host_ask (f : world → Z) : M Z := λ w, Done (f w, tick w).

Section host.
Context `{K : Kernel} `{I : Ieee80211} `{A : Mac80211Api} `{H : HostApi}.

(* ------------------------------------------------------------------ *)
(** ** Netlink *)

(** Returns the error and the message sent, if any; [netlink_broadcast] takes
    the buffer in any case. *)
Definition simuwifi_netlink_tx_brodcast (data : list Z) (data_size group : Z) : M (Z * option nlmsg) :=
  let group := if decide (u32 group ≤ 0) then NETLINK_SIMUWIFI_GROUP else u32 group in
  skb_out ← host_ask (λ w, k_nlmsg_new w data_size);
  if decide (skb_out = 0) then mret (-1, None)
  else
    assert (bool_decide (data_size ≤ Z.of_nat (length data))) OutOfBounds;;
    let msg := NlMsg (take (Z.to_nat data_size) data) 0 group in
    ret ← host_ask k_netlink_broadcast;
    if decide (ret < 0) then mret (ret, Some msg) else mret (0, Some msg).

Definition simuwifi_netlink_init (d : host_dev) : M (Z * host_dev) :=
  sock ← host_ask k_netlink_kernel_create;
  if decide (sock = 0) then mret (-1, d)
  else mret (0, d <| hd_socks := {[sock]} ∪ hd_socks d |>
                  <| hd_priv := hd_priv d <| hp_netlink_sock := sock |>
                                          <| hp_group := NETLINK_SIMUWIFI_GROUP |> |>).

(* ------------------------------------------------------------------ *)
(** ** Interfaces *)

Variable vifs : gmap Z host_vif.

Definition get_host_vif (vif : Z) : M host_vif :=
  of_option (if decide (vif = 0) then NullDeref else Unmapped) (vifs !! vif).

(** The cases of the [switch]. *)
Definition host_iftype (t : Z) : bool :=
  bool_decide (t ∈ [NL80211_IFTYPE_AP; NL80211_IFTYPE_STATION; NL80211_IFTYPE_ADHOC;
                    NL80211_IFTYPE_MONITOR; NL80211_IFTYPE_MESH_POINT]).

Definition simuwifi_add_interface (p : simuwifi_host_priv) (vif : Z) : M (Z * simuwifi_host_priv) :=
  v ← get_host_vif vif;
  if host_iftype (hv_type v) then
    match free_vif_slot (hp_vif p) with
    | None => mret (- EBUSY, p)
    | Some i => mret (0, p <| hp_vif := <[i := vif]> (hp_vif p) |> <| hp_mac_addr := hv_addr v |>)
    end
  else mret (- EOPNOTSUPP, p).

(** [vif_priv->idx] is the third word of [drv_priv]. *)
Definition simuwifi_remove_interface (p : simuwifi_host_priv) (vif : Z) : M simuwifi_host_priv :=
  v ← get_host_vif vif;
  idx ← of_option OutOfBounds (hv_drv_priv v !! 2%nat);
  assert (bool_decide (0 ≤ s32 idx < Z.of_nat (length (hp_vif p)))) OutOfBounds;;
  mret (p <| hp_vif := <[Z.to_nat (s32 idx) := 0]> (hp_vif p) |>).

Definition SIMUWIFI_SUPPORTED_FILTERS : Z :=
  foldl Z.lor 0 [FIF_ALLMULTI; FIF_BCN_PRBRESP_PROMISC; FIF_CONTROL; FIF_OTHER_BSS; FIF_PSPOLL; FIF_PROBE_REQ].

(** Returns the new [*total_flags]. *)
Definition simuwifi_configure_filter (total_flags : Z) : M Z :=
  mret (Z.lor (Z.land total_flags SIMUWIFI_SUPPORTED_FILTERS) FIF_ALLMULTI).

(* ------------------------------------------------------------------ *)
(** ** Probe and removal *)

(** [ieee80211_free_hw] works on the members of what it is given. *)
Definition free_hw (dev : Z) : M unit := assert (bool_decide (dev ≠ 0)) NullDeref;; kfree dev.

(** The label [err_free_dev]. *)
Definition host_err_free_dev (d : host_dev) (dev : Z) : M (Z * host_dev) := free_hw dev;; mret (1, d).

(** The callbacks are handed over, but the [ieee80211_hw] is not registered. *)
Definition simuwifi_dev_probe (d : host_dev) (pdev : Z) : M (Z * host_dev) :=
  dev ← ieee80211_alloc_hw;
  if decide (dev = 0) then host_err_free_dev d dev
  else
    let d := d <| hd_hw := HostHw false 0 |> <| hd_priv := host_priv_zero <| hp_pdev := pdev |> |> in
    '(ret, d) ← simuwifi_netlink_init d;
    if decide (ret ≠ 0) then host_err_free_dev d dev
    else mret (0, d <| hd_drvdata := dev |>).

(** [dev->priv] is read before [dev] is compared with NULL. *)
Definition simuwifi_dev_remove (d : host_dev) : M (Z * host_dev) :=
  let dev := hd_drvdata d in
  assert (bool_decide (dev ≠ 0)) NullDeref;;
  let sock := hp_netlink_sock (hd_priv d) in
  d ← (if decide (sock ≠ 0)
       then assert (bool_decide (sock ∈ hd_socks d)) BadFree;;
            mret (d <| hd_socks := hd_socks d ∖ {[sock]} |>
                    <| hd_priv := hd_priv d <| hp_netlink_sock := 0 |> |>)
       else mret d);
  assert (hh_registered (hd_hw d)) BadFree;;
  let d := d <| hd_hw := HostHw false (hh_vif_data_size (hd_hw d)) |> in
  free_hw dev;;
  mret (0, d).
End host.

(* ------------------------------------------------------------------ *)
(** ** host_wireless_device.c *)

(** [my_pdev] and the devices on the platform bus. *)
Record host_platform := HostPlatform { my_pdev : Z; hf_added : gset Z }.

Section device.
Context `{K : Kernel} `{H : HostApi}.

Definition platform_device_alloc : M Z := λ w,
  let p := k_platform_device_alloc w in
  Done (p, if decide (p = 0) then tick w else (tick w) <| w_heap := {[p]} ∪ w_heap w |>).
Definition platform_device_put (p : Z) : M unit := kfree p.

Definition simuwifi_dev_init (s : host_platform) : M (Z * host_platform) :=
  pdev ← platform_device_alloc;
  if decide (pdev = 0) then mret (-1, s)
  else
    let s := HostPlatform pdev (hf_added s) in
    ret ← host_ask k_platform_device_add;
    if decide (ret ≠ 0) then platform_device_put pdev;; mret (ret, s)
    else mret (0, HostPlatform pdev ({[pdev]} ∪ hf_added s)).

Definition simuwifi_dev_exit (s : host_platform) : M host_platform :=
  assert (bool_decide (my_pdev s ∈ hf_added s)) BadFree;;
  platform_device_put (my_pdev s);;
  mret (HostPlatform (my_pdev s) (hf_added s ∖ {[my_pdev s]})).
End device.

(* ------------------------------------------------------------------ *)
(** ** The table of interfaces *)

Section interfaces.
Context `{I : Ieee80211} `{H : HostApi}.
Variable vifs : gmap Z host_vif.

(** Interfaces offered one after the other. *)
Fixpoint host_add_all (p : simuwifi_host_priv) (l : list Z) : M (list Z * simuwifi_host_priv) :=
  match l with
  | [] => mret ([], p)
  | vif :: l' =>
      '(ret, p) ← simuwifi_add_interface vifs p vif;
      '(rets, p) ← host_add_all p l';
      mret (ret :: rets, p)
  end.

(** An interface of a supported type. *)
Definition host_supported (vif : Z) : Prop :=
  vif ≠ 0 ∧ ∃ v, vifs !! vif = Some v ∧ host_iftype (hv_type v) = true.

Lemma host_add_cases p vif w : host_supported vif →
  ∃ v, vifs !! vif = Some v ∧
    simuwifi_add_interface vifs p vif w =
      match free_vif_slot (hp_vif p) with
      | None => Done ((- EBUSY, p), w)
      | Some i => Done ((0, p <| hp_vif := <[i := vif]> (hp_vif p) |> <| hp_mac_addr := hv_addr v |>), w)
      end.
Proof.
  intros (_ & v & Hv & Ht). exists v. split; [done|]. unfold simuwifi_add_interface, get_host_vif.
  rewrite Hv. rewrite (M_bind_done _ _ w v w eq_refl), Ht. by destruct (free_vif_slot _).
Qed.

(** The slots fill up from the left. *)
Lemma host_add_all_done l : ∀ p taken m w, hp_vif p = taken ++ replicate (length l + m) 0 →
  (∀ v, v ∈ taken → v ≠ 0) → Forall host_supported l →
  ∃ p', host_add_all p l w = Done ((replicate (length l) 0, p'), w) ∧
    hp_vif p' = taken ++ l ++ replicate m 0.
Proof.
  induction l as [|vif l IH]; intros p taken m w Hp Hz Hl; cbn [host_add_all].
  { exists p. by rewrite Hp. }
  apply Forall_cons in Hl as [Hvif Hl]. destruct (host_add_cases p vif w Hvif) as (v & _ & E).
  cbn [length Nat.add] in Hp. rewrite Hp, (free_slot_app taken) in E by done.
  rewrite (M_bind_done _ _ _ _ _ E).
  destruct (IH (p <| hp_vif := <[length taken := vif]> (taken ++ replicate (S (length l + m)) 0) |>
    <| hp_mac_addr := hv_addr v |>) (taken ++ [vif]) m w) as (p' & E' & Hp').
  - cbn. by rewrite insert_app_r_alt, Nat.sub_diag, <-app_assoc.
  - intros u [Hu|Hu]%elem_of_app; [by apply Hz|]. apply list_elem_of_singleton in Hu as ->. apply Hvif.
  - done.
  - rewrite (M_bind_done _ _ _ _ _ E'). exists p'. split; [done|]. by rewrite Hp', <-app_assoc.
Qed.

(** C36.  The table of interfaces of the host driver.  Up to four interfaces of
    supported types enter the table in the order they are offered, and once it
    is full every further one is refused with -EBUSY and nothing changes.
    Removal does not undo this: the driver neither reserves [drv_priv] nor
    stores an index there, so removing an interface reads behind its end; were
    the area reserved, zero as mac80211 makes it, removal of any interface
    would clear the first slot and keep its own. *)
Theorem host_interfaces p l w : hp_vif p = replicate MAX_NUM_VIF 0 → (length l ≤ MAX_NUM_VIF)%nat →
  Forall host_supported l →
  ∃ p', host_add_all p l w = Done ((replicate (length l) 0, p'), w) ∧
    hp_vif p' = l ++ replicate (MAX_NUM_VIF - length l) 0 ∧
    (length l = MAX_NUM_VIF → ∀ vif w', host_supported vif →
       simuwifi_add_interface vifs p' vif w' = Done ((- EBUSY, p'), w')) ∧
    ∀ vif v w', vif ∈ l → vifs !! vif = Some v →
      (hv_drv_priv v = [] → simuwifi_remove_interface vifs p' vif w' = Fault OutOfBounds) ∧
      (hv_drv_priv v = replicate 4 0 →
       ∃ p2, simuwifi_remove_interface vifs p' vif w' = Done (p2, w') ∧ hp_vif p2 = <[0%nat := 0]> (hp_vif p')).
Proof.
  intros Hp Hlen Hl.
  destruct (host_add_all_done l p [] (MAX_NUM_VIF - length l) w) as (p' & E & Hp'); [|by intros ? ?%not_elem_of_nil|done|].
  { rewrite Hp. cbn [app]. f_equal. unfold MAX_NUM_VIF in *. lia. }
  exists p'. split_and!; [done|done| |].
  - intros Hfull vif w' Hvif. destruct (host_add_cases p' vif w' Hvif) as (v & _ & E'). rewrite E'.
    rewrite Hp', Hfull, Nat.sub_diag, app_nil_r. cbn [app].
    pose proof (free_vif_slot_spec l) as Hs. destruct (free_vif_slot l) as [i|]; [|done].
    destruct Hs as [Hi _]. rewrite Forall_forall in Hl. apply list_elem_of_lookup_2 in Hi.
    by destruct (Hl 0 Hi).
  - intros vif v w' Hin Hv. unfold simuwifi_remove_interface, get_host_vif. rewrite Hv.
    rewrite (M_bind_done (of_option _ (Some v)) _ w' v w' eq_refl). split; intros ->.
    + done.
    + rewrite (M_bind_done _ _ w' 0 w' eq_refl). unfold assert. rewrite bool_decide_true.
      * by eexists.
      * change (s32 0) with 0. rewrite Hp'. cbn [app]. rewrite length_app, length_replicate. unfold MAX_NUM_VIF in *. lia.
Qed.
End interfaces.

(* ------------------------------------------------------------------ *)
(** ** Probe and removal *)

Section host_life.
Context `{KO : KernelOk} `{AO : Mac80211Ok} `{H : HostApi}.

(** Removal of a device whose [ieee80211_hw] is not registered. *)
Lemma host_remove_unregistered d w : hd_drvdata d ≠ 0 → hh_registered (hd_hw d) = false →
  simuwifi_dev_remove d w = Fault BadFree.
Proof.
  intros Hd Hr. unfold simuwifi_dev_remove, assert. cbv zeta. rewrite (bool_decide_true (hd_drvdata d ≠ 0)) by done.
  rewrite M_bind_ret. case_decide; [case_bool_decide|]; mcbn; by rewrite ?Hr.
Qed.

(** C37.  Probe and removal of the host driver.  A probe without memory for the
    [ieee80211_hw] frees NULL; without a socket it returns 1 and keeps nothing;
    otherwise it returns 0 with socket and [ieee80211_hw] held and not
    registered, so that no callback is ever called and removal, which
    unregisters first, faults.  Removal without driver data dereferences NULL
    before it looks. *)
Theorem host_probe_remove d pdev w : hd_drvdata d = 0 →
  simuwifi_dev_remove d w = Fault NullDeref ∧
  (k_ieee80211_alloc_hw w = 0 ∧ simuwifi_dev_probe d pdev w = Fault NullDeref ∨
   ∃ ret d' w', simuwifi_dev_probe d pdev w = Done ((ret, d'), w') ∧
     (ret = 1 ∧ same_resources w w' ∧ hd_drvdata d' = 0 ∧ hd_socks d' = hd_socks d ∨
      ret = 0 ∧ hd_drvdata d' ≠ 0 ∧ hd_drvdata d' ∉ w_heap w ∧ w_heap w' = {[hd_drvdata d']} ∪ w_heap w ∧
        hp_netlink_sock (hd_priv d') ∈ hd_socks d' ∧ hp_vif (hd_priv d') = replicate MAX_NUM_VIF 0 ∧
        hd_hw d' = HostHw false 0 ∧ simuwifi_dev_remove d' w' = Fault BadFree)).
Proof.
  intros Hd. split.
  { unfold simuwifi_dev_remove, assert. cbv zeta. by rewrite Hd. }
  unfold simuwifi_dev_probe. cbv zeta. destruct (decide (k_ieee80211_alloc_hw w = 0)) as [Hz|Hz]; [left|right].
  { split; [done|]. assert (ieee80211_alloc_hw w = Done (0, tick w)) as E
      by (unfold ieee80211_alloc_hw; cbv zeta; by rewrite Hz).
    by rewrite (M_bind_done _ _ _ _ _ E). }
  destruct (alloc_hw_cases w) as [E|(dev & Hn & Hf & E)].
  { exfalso. unfold ieee80211_alloc_hw in E. cbv zeta in E. congruence. }
  rewrite (M_bind_done _ _ _ _ _ E), decide_False by done. clear E Hz.
  unfold simuwifi_netlink_init. set (w1 := (tick w) <| w_heap := {[dev]} ∪ w_heap w |>).
  rewrite M_bind_assoc, (M_bind_done (host_ask _) _ w1 (k_netlink_kernel_create w1) (tick w1) eq_refl).
  destruct (decide (k_netlink_kernel_create w1 = 0)) as [Hz|Hz]; rewrite M_bind_ret.
  - rewrite decide_True by done. unfold host_err_free_dev, free_hw, assert.
    rewrite (bool_decide_true (dev ≠ 0)), !M_bind_assoc, M_bind_ret by done.
    rewrite (M_bind_done _ _ _ _ _ (kfree_eq dev (tick w1) Hn ltac:(clear; cbn; set_solver))).
    do 3 eexists. split; [reflexivity|]. left. split_and!; [done| |done|done].
    split; cbn; try done. clear -Hf. set_solver.
  - rewrite decide_False by tauto. do 3 eexists. split; [reflexivity|]. right.
    split_and!; try done; [cbn; clear; set_solver|]. by apply host_remove_unregistered.
Qed.
End host_life.

(* ------------------------------------------------------------------ *)
(** ** The other functions *)

Section others.
Context `{KO : KernelOk} `{H : HostApi}.

(** A message goes out to a group, never to group 0, with the bytes it was
    given; without a buffer nothing is sent. *)
Lemma netlink_tx_cases data group w :
  ∃ ret msg w', simuwifi_netlink_tx_brodcast data (Z.of_nat (length data)) group w = Done ((ret, msg), w') ∧
    same_resources w w' ∧
    (ret = -1 ∧ msg = None ∨
     ret ≤ 0 ∧ ∃ g, 0 < g ∧ msg = Some (NlMsg data 0 g)).
Proof.
  unfold simuwifi_netlink_tx_brodcast. cbv zeta. unfold host_ask, mbind, M_bind. cbn -[wrap].
  case_decide; [by do 3 eexists; split_and!; [done|done|by left]|].
  unfold assert. rewrite bool_decide_true by lia. rewrite Nat2Z.id, firstn_all.
  set (g := if decide (u32 group ≤ 0) then _ else _).
  assert (0 < g) by (subst g; case_decide; [done|lia]). clearbody g. unfold mret, M_ret. cbn.
  case_decide; do 3 eexists; (split; [reflexivity|]); (split; [done|]); right; (split; [lia|]); by exists g.
Qed.

(** What the driver core gives out is new. *)
Class HostOk : Prop := {
  platform_alloc_fresh w : k_platform_device_alloc w ≠ 0 → k_platform_device_alloc w ∉ w_heap w
}.

(** The device module: loading fails with nothing held, or unloading gives the
    device back. *)
Lemma host_device_balanced `{!HostOk} s w :
  ∃ ret s' w', simuwifi_dev_init s w = Done ((ret, s'), w') ∧
    (ret ≠ 0 ∧ same_resources w w' ∧ hf_added s' = hf_added s ∨
     ret = 0 ∧ ∃ s2 w2, simuwifi_dev_exit s' w' = Done (s2, w2) ∧ same_resources w w2).
Proof.
  unfold simuwifi_dev_init. destruct (decide (k_platform_device_alloc w = 0)) as [Hz|Hz].
  { rewrite (M_bind_done platform_device_alloc _ w 0 (tick w))
      by (unfold platform_device_alloc; cbv zeta; by rewrite Hz).
    do 3 eexists. split; [reflexivity|]. left. by split_and!. }
  pose proof (platform_alloc_fresh w Hz) as Hf. set (p := k_platform_device_alloc w) in *.
  set (w1 := (tick w) <| w_heap := {[p]} ∪ w_heap w |>).
  assert (p ∈ w_heap w1) as Hin by (cbn; clear; set_solver).
  assert (w_heap w1 ∖ {[p]} = w_heap w) as Hback by (cbn; clear -Hf; set_solver).
  rewrite (M_bind_done platform_device_alloc _ w p w1)
    by (unfold platform_device_alloc; cbv zeta; fold p; by rewrite decide_False).
  rewrite decide_False, (M_bind_done (host_ask _) _ w1 (k_platform_device_add w1) (tick w1) eq_refl) by done.
  case_decide; unfold platform_device_put.
  - rewrite (M_bind_done _ _ _ _ _ (kfree_eq p (tick w1) Hz Hin)). do 3 eexists. split; [reflexivity|]. left.
    split_and!; [done| |done]. by split.
  - do 3 eexists. split; [reflexivity|]. right. split; [done|]. unfold simuwifi_dev_exit, assert. cbn [my_pdev hf_added].
    rewrite bool_decide_true, M_bind_ret by (clear; set_solver).
    unfold platform_device_put. rewrite (M_bind_done _ _ _ _ _ (kfree_eq p (tick w1) Hz Hin)).
    do 2 eexists. split; [reflexivity|]. by split.
Qed.
End others.
