(* ===== verification/Demo.v ===== *)
(** * Concrete instances

    The hypotheses of the theorems are met by a concrete kernel
    ([demo_kernel]), the usual bit macros ([linux_bits]) and flat socket
    buffers ([linear_skb]): each lemma here applies one theorem to such an
    instance. *)

From S2P Require Import Prelude Kernel Bits HalTypes Hif HalRing RingProtocol HalSetup HalInit Skb.
From S2P Require Import SrngTest SrngSend PipeLife SrngTestRun RingCursor Descriptors.

#[local] Existing Instances demo_kernel demo_kernel_ok linux_bits linux_bits_ok linear_skb linear_skb_ok.

(** The HAL after initialisation in [demo_world], and a ring allocated on it. *)
Definition demo_init : res ((Z * wireless_simu_hal) * world) := wireless_simu_hal_srng_init demo_world.

Definition succeeds {A} (r : res ((Z * A) * world)) : bool :=
  match r with Done ((ret, _), _) => ret =? 0 | Fault _ => false end.

Lemma init_ready `{KO : KernelOk} w : succeeds (wireless_simu_hal_srng_init w) = true →
  ∃ hal w', wireless_simu_hal_srng_init w = Done ((0, hal), w') ∧ hal_ready hal w'.
Proof.
  destruct (init_cases w) as [[hal E]|[(c & hal & _ & _ & _ & [E|E])|
    (c & v1 & p1 & v2 & p2 & Hc & Hn & Hv1 & Hv2 & Hb1 & Hb2 & E)]]; rewrite E; [done..|].
  intros _. eexists _, _. split; [done|]. by apply init_hal_ready.
Qed.

Lemma demo_ready : ∃ hal w, demo_init = Done ((0, hal), w) ∧ hal_ready hal w.
Proof. apply (init_ready demo_world). by vm_compute. Qed.

Definition made {A E} (r : res ((E + A) * world)) : bool :=
  match r with Done (inr _, _) => true | _ => false end.

Lemma alloc_new `{KO : KernelOk} `{BO : BitsOk} n e w :
  0 < n → 0 < e → n * (4 * e) + 8 < 2 ^ 31 → made (hal_srng_test_alloc_ring n (4 * e) w) = true →
  ∃ ring w', new_ring n (n * (4 * e) + 8) ring w w'.
Proof.
  intros Hn He Hb.
  destruct (alloc_ring_cases [] w w n e (owns_nil _) Hn He Hb) as (r & w' & E & _ & _ & Hcase).
  rewrite E. destruct r as [err|ring]; [done|]. intros _. destruct Hcase as [_ Hnew].
  by exists ring, w'.
Qed.

Definition demo_alloc (t : hal_ring_type) : bool :=
  match demo_init with
  | Done (_, w) => made (hal_srng_test_alloc_ring 32 (4 * type_entry_size t) w)
  | Fault f => false
  end.

Lemma demo_alloc_made t : demo_alloc t = true.
Proof. by destruct t; vm_compute. Qed.

Lemma demo_alloc_eq t r w : demo_init = Done (r, w) →
  made (hal_srng_test_alloc_ring 32 (4 * type_entry_size t) w) = true.
Proof. intros E. pose proof (demo_alloc_made t) as H. unfold demo_alloc in H. by rewrite E in H. Qed.

Lemma demo_ring t : ∃ hal w0 w ring, hal_ready hal w0 ∧
  new_ring 32 (32 * (4 * type_entry_size t) + 8) ring w0 w.
Proof.
  destruct demo_ready as (hal & w0 & E & Hr). pose proof (type_bounds t).
  destruct (alloc_new 32 (type_entry_size t) w0) as (ring & w & Hnew); [lia..|by eapply demo_alloc_eq|].
  exists hal, w0, w, ring. split; [exact Hr|exact Hnew].
Qed.

Lemma demo_params t : ∃ hal w params, hal_ready hal w ∧ params_ok hal t params w.
Proof.
  destruct (demo_ring t) as (hal & w0 & w & ring & Hr & Hnew).
  destruct (new_ring_params hal t 32 ring w0 w Hr ltac:(lia) Hnew) as [Hp Hr'].
  exists hal, w, (test_params ring). split; [exact Hr'|exact Hp].
Qed.

(** A registered send pipe with one buffer in the store. *)
Definition demo_skb : sk_buff := SkBuff (Linear 64 (replicate 52 6) 0) (SkbCb 4096 0 0 0) 0.
Definition demo_store : skbs := {[1 := demo_skb]}.

Lemma demo_registered mmio_addr : ∃ hal st s ring w,
  Source.initial mmio_addr s w ∧ send_ready mmio_addr hal st demo_store s ring demo_skb 1 0 w [] [].
Proof.
  destruct (demo_ring HAL_TEST_SRNG) as (hal & w0 & w & ring & Hr & Hnew).
  destruct (init_ring_done false mmio_addr hal HAL_TEST_SRNG 32 ring w0 w Hr ltac:(lia) Hnew)
    as (s & w1 & log & _ & _ & _ & _ & _ & (old & Hs) & Hinit).
  specialize (Hinit eq_refl).
  set (ring1 := ring <| tr_hal_ring_id := 125 |>).
  exists (hal <| hal_srng_list := <[125%nat := s]> (hal_srng_list hal) |>),
    (SrngTest 1 [SrngTestPipe 0 0 2048 0 false (Some ring1) None None] 1 [] false None), s, ring1, w1.
  split; [exact Hinit|]. split.
  - eexists. split; reflexivity.
  - cbn. apply list_lookup_insert_eq. rewrite (hr_list _ _ Hr).
    apply Nat.ltb_lt. by vm_compute.
  - by rewrite Hs.
  - reflexivity.
  - cbn. rewrite (nr_skb _ _ _ _ _ Hnew), (proj2 (nr_indices _ _ _ _ _ Hnew)). by vm_compute.
  - by rewrite Hs.
  - by apply Source.initial_inv.
Qed.

(** One send followed by a read of the device. *)
Lemma demo_sent mmio_addr : ∃ s w l, Source.initial mmio_addr s w ∧
  rtc (Source.step mmio_addr) (Source.Link s w [] []) l ∧ length (Source.l_sent l) = 1%nat ∧
  srng_lock (Source.l_srng l) = false.
Proof.
  destruct (demo_registered mmio_addr) as (hal & st & s & ring & w & Hinit & Hready).
  destruct (test_send_cases _ _ _ _ _ _ _ _ _ _ _ _ 0 Hready)
    as (room & s' & pipe & w' & Hroom & _ & _ & _ & Hlock & _ & Hsteps & _).
  assert (room = true) as ->.
  { apply Is_true_true, Hroom. cbn. pose proof (geo_num _ (Source.st_geo _ (Source.init_static _ _ _ Hinit))).
    lia. }
  by eexists s, w, _.
Qed.

(* ------------------------------------------------------------------ *)
(** ** The ring protocol *)

Lemma source_ring_fifo_witness : ∃ s w l,
  Source.initial 4096 s w ∧ rtc (Source.step 4096) (Source.Link s w [] []) l ∧
  Source.l_sent l ≠ [] ∧ Source.l_taken l `prefix_of` Source.l_sent l.
Proof.
  destruct (demo_sent 4096) as (s & w & l & Hi & Hr & Hl & _). exists s, w, l.
  split; [exact Hi|]. split; [exact Hr|]. split; [by destruct (Source.l_sent l)|].
  exact (proj1 (Source.source_ring_fifo 4096 s w l Hi Hr)).
Defined.

(** A second access after the sending: the frame can be read. *)
Lemma source_ring_progress_witness : ∃ s w l l',
  Source.initial 4096 s w ∧ rtc (Source.step 4096) (Source.Link s w [] []) l ∧ length (Source.l_sent l) = 1%nat ∧
  Source.l_sent l `prefix_of` Source.l_taken l'.
Proof.
  destruct (demo_sent 4096) as (s & w & l & Hi & Hr & Hl & Hlock).
  destruct (Source.reach_inv 4096 _ _ Hr (Source.initial_inv 4096 _ _ Hi)) as [Hinv _].
  destruct l as [s1 w1 a b].
  destruct (open_spec 4096 s1 w1 a b Hinv Hlock) as (tp & _ & _ & Hsteps & Hinv' & _).
  destruct (close_spec 4096 (opened s1 tp) w1 a b Hinv' eq_refl) as (s2 & w2 & s3 & E & _).
  set (l0 := Source.Link (opened s1 tp) w1 a b).
  assert (rtc (Source.step 4096) (Source.Link s w [] []) l0) as Hr0 by (etrans; [exact Hr|exact Hsteps]).
  destruct (Source.source_ring_progress 4096 s w l0 s2 w2 _ Hi Hr0 E (rtc_refl _ _)) as (_ & l' & _ & Hp).
  exists s, w, l0, l'. split; [exact Hi|]. split; [exact Hr0|]. split; [exact Hl|exact Hp].
Defined.

Lemma test_send_refines_witness : ∃ hal st s ring w ret s' w',
  send_ready 4096 hal st demo_store s ring demo_skb 1 0 w [] [] ∧
  (∃ hal' st', wireless_simu_hal_srng_test_send 4096 hal st demo_store 1 0 0 w =
     Done ((ret, hal', st'), w')) ∧ srng_lock s' = false ∧ same_resources w w'.
Proof.
  destruct (demo_registered 4096) as (hal & st & s & ring & w & _ & Hr).
  destruct (test_send_refines 4096 hal st demo_store s ring demo_skb 1 0 w [] [] 0 Hr)
    as (ret & s' & ring' & pipe & w' & E & Hl & _ & _ & Hs).
  exists hal, st, s, ring, w, ret, s', w'. split; [exact Hr|].
  split; [eexists _, _; exact E|]. split; [exact Hl|exact Hs].
Defined.

Lemma srng_test_balanced_witness : ∃ hal w hal' w', hal_ready hal w ∧
  wireless_simu_hal_srng_test false 4096 hal ∅ w = Done ((hal', ∅), w') ∧ same_resources w w'.
Proof.
  destruct demo_ready as (hal & w & _ & Hr).
  destruct (srng_test_balanced false 4096 hal ∅ w Hr) as (hal' & w' & E & Hs).
  exists hal, w, hal', w'. split; [exact Hr|]. split; [exact E|exact Hs].
Defined.

Lemma srng_test_confined_witness : ∃ hal w hal' w', hal_ready hal w ∧
  wireless_simu_hal_srng_test false 4096 hal ∅ w = Done ((hal', ∅), w') ∧
  (∀ x, is_Some (w_mem w !! x) → x ≠ rdp_word hal HAL_TEST_SRNG → w_mem w' !! x = w_mem w !! x).
Proof.
  destruct demo_ready as (hal & w & _ & Hr).
  destruct (srng_test_done false 4096 (λ _, False) (λ _, False) hal ∅ w Hr)
    as (hal' & w' & E & _); [by split|].
  exists hal, w, hal', w'. split; [exact Hr|]. split; [exact E|].
  exact (proj1 (srng_test_confined false 4096 hal ∅ w hal' w' Hr E)).
Defined.

(* ------------------------------------------------------------------ *)
(** ** Initialisation and setup *)

Lemma srng_init_outcome_witness : ∃ ret hal w',
  wireless_simu_hal_srng_init demo_world = Done ((ret, hal), w') ∧ w_mmio w' = [].
Proof.
  destruct (srng_init_outcome demo_world) as (ret & hal & w' & E & Hm & _).
  exists ret, hal, w'. split; [exact E|exact Hm].
Defined.

Lemma srng_init_deinit_witness : ∃ hal w1 hal' w2,
  wireless_simu_hal_srng_init demo_world = Done ((0, hal), w1) ∧
  wireless_simu_hal_srng_deinit hal w1 = Done (hal', w2) ∧ w_heap w2 = ∅.
Proof.
  destruct demo_ready as (hal & w1 & E & _).
  destruct (srng_init_deinit demo_world hal w1 E) as (hal' & w2 & E2 & Hh & _).
  exists hal, w1, hal', w2. split; [exact E|]. split; [exact E2|exact Hh].
Defined.

Lemma setup_starts_protocol_witness : ∃ hal params w s hal' w',
  hal_ready hal w ∧ params_ok hal HAL_TEST_SRNG_DST params w ∧
  wireless_simu_hal_srng_setup false 4096 hal HAL_TEST_SRNG_DST 0 0 params w =
    Done ((8, hal'), w') ∧ Source.initial 4096 s w'.
Proof.
  destruct (demo_params HAL_TEST_SRNG_DST) as (hal & w & params & Hr & Hp).
  destruct (setup_starts_protocol false 4096 hal HAL_TEST_SRNG_DST params w Hr Hp eq_refl)
    as (s & hal' & w' & E & _ & Hi & _).
  exists hal, params, w, s, hal', w'. split; [exact Hr|]. split; [exact Hp|].
  split; [exact E|exact Hi].
Defined.

Lemma setup_programs_device_witness : ∃ hal params w log,
  hal_ready hal w ∧ params_ok hal HAL_TEST_SRNG params w ∧
  device_view 4096 hal HAL_TEST_SRNG params log.
Proof.
  destruct (demo_params HAL_TEST_SRNG) as (hal & w & params & Hr & Hp).
  destruct (setup_programs_device false 4096 hal HAL_TEST_SRNG params w Hr Hp)
    as (s & log & w' & _ & _ & _ & Hv & _).
  exists hal, params, w, log. split; [exact Hr|]. split; [exact Hp|exact Hv].
Defined.

Lemma setup_register_frame_witness : ∃ hal params w hal' w',
  hal_ready hal w ∧ params_ok hal HAL_TEST_SRNG params w ∧
  wireless_simu_hal_srng_setup false 4096 hal HAL_TEST_SRNG 0 0 params w = Done ((125, hal'), w') ∧
  ring_reg 4096 (w_mmio w') 8 0 1 = ring_reg 4096 (w_mmio w) 8 0 1.
Proof.
  destruct (demo_params HAL_TEST_SRNG) as (hal & w & params & Hr & Hp).
  destruct (setup_done false 4096 hal HAL_TEST_SRNG params w Hr Hp) as (old & log & _ & E & _).
  eexists hal, params, w, _, _. split; [exact Hr|]. split; [exact Hp|]. split; [exact E|].
  refine (proj1 (setup_register_frame false 4096 hal HAL_TEST_SRNG params w _ _ _ 8 0 1 Hr Hp E _ _ _ _));
    [lia|discriminate|lia|lia].
Defined.

Lemma setup_ring_id_checked_witness : ∃ hal params w, hal_ready hal w ∧
  hal_srng_get_ring_id (nth 0 hw_srng_config_template
    (HalSrngConfig 0 0 0 (0, 0) (0, 0) false HAL_SRNG_DIR_SRC 0)) 1 0 = - EINVAL ∧
  wireless_simu_hal_srng_setup false 4096 hal HAL_TEST_SRNG 1 0 params w = Done ((- EINVAL, hal), w).
Proof.
  destruct (demo_params HAL_TEST_SRNG) as (hal & w & params & Hr & Hp).
  destruct (proj2 (setup_ring_id_checked false 4096 hal HAL_TEST_SRNG 1 0 params w Hr
    ltac:(lia) ltac:(lia))) as [(Hid & _ & E)|(_ & H & _)]; [|discriminate H].
  exists hal, params, w. split; [exact Hr|]. split; [exact Hid|exact E].
Defined.

Lemma pipe_alloc_free_balanced_witness : ∃ ret st1 w1 st2 w2,
  hal_srng_test_alloc_pipe (test_start 1) 0 demo_world = Done ((ret, st1), w1) ∧
  hal_srng_test_free_pipes st1 w1 = Done (st2, w2) ∧ same_resources demo_world w2.
Proof.
  destruct (pipe_alloc_free_balanced (test_start 1) srng_test_pipe_zero (SrngTestAttr 0 32 2048 0)
    demo_world eq_refl eq_refl eq_refl srng_test_configs_ok) as (ret & st1 & w1 & st2 & w2 & E1 & E2 & Hs & _).
  exists ret, st1, w1, st2, w2. split; [exact E1|]. split; [exact E2|exact Hs].
Defined.

(** A ring of eight entries of two words at 4096, three of them claimed, the
    first one read. *)
Definition demo_cursor_ring : hal_srng :=
  hal_srng_zero <| srng_entry_size := 2 |> <| srng_num_entries := 8 |> <| srng_ring_size := 16 |>
    <| srng_ring_base_vaddr := 4096 |> <| srng_lock := true |>
    <| srng_src := HalSrcRing 0 0 0 0 0 0 0 <| src_hp := 6 |> <| src_cached_tp := 2 |> |>.

Lemma demo_cursor_wf : src_wf demo_cursor_ring.
Proof.
  split; [by split|exists 3|exists 1|done]; by split.
Qed.

Lemma accessors_are_cursors_witness : src_wf demo_cursor_ring ∧ ∃ s',
  src_nexts 9 demo_cursor_ring demo_world = Done (([4120; 4128; 4136; 4144; 4152], s'), demo_world).
Proof.
  split; [exact demo_cursor_wf|].
  destruct (proj2 (proj1 (accessors_are_cursors 9 demo_cursor_ring demo_world) demo_cursor_wf)) as [s' E].
  exists s'. exact E.
Defined.

Lemma descriptor_roundtrip_witness :
  decode_dst (hal_test_dst_words (wireless_simu_test_dst_set_desc 0x1234567890)) = Some (0x1234567890, 0x114514aa).
Proof.
  exact (proj1 (proj2 (descriptor_roundtrip (SkBuff (Linear 64 [1; 2] 0) (SkbCb 0xab00001000 0 0 0) 0)
    3 1 5 0x1234567890 ltac:(cbn; lia) ltac:(by vm_compute) ltac:(lia) ltac:(by right) ltac:(lia) ltac:(lia)))).
Defined.
