(* ===== verification/DemoRx.v ===== *)
(** * Concrete instances for the receive path

    Witnesses of the theorems on the receive path: a start on the HAL that
    [wireless_simu_hal_srng_init] leaves, a step of the device, and a kernel
    that runs out of coherent memory. *)

From S2P Require Import Prelude Kernel Bits HalTypes Hif HalRing RingProtocol HalSetup HalInit Skb.
From S2P Require Import SrngTest SrngSend PipeLife SrngTestRun DstTest RxRing RxRun RxLife RxStart RxTrace RxTotal Demo.

#[local] Existing Instances linux_bits linux_bits_ok linear_skb linear_skb_ok.

(** [priv->st_dst] as [kzalloc] leaves it. *)
Definition demo_priv (hal : wireless_simu_hal) : dst_priv :=
  DstPriv hal (SrngTest 0 [srng_test_pipe_zero] 0 [] false None) ∅.

Lemma demo_priv_down hal : rx_down (demo_priv hal).
Proof. exists srng_test_pipe_zero. by split. Qed.

(** A start after [wireless_simu_hal_srng_init], and a test of its outcome. *)
Definition demo_start `{K : Kernel} (test : Z → dst_priv → world → bool) : bool :=
  match wireless_simu_hal_srng_init demo_world with
  | Done (ret, hal, w) =>
      (ret =? 0) &&
      match wireless_simu_hal_srng_dst_test_init false 4096 (demo_priv hal) w with
      | Done (ret, p, w) => test ret p w
      | Fault _ => false
      end
  | Fault _ => false
  end.

Lemma demo_start_inv `{KO : KernelOk} test : demo_start test = true →
  ∃ hal w ret p w', hal_ready hal w ∧
    wireless_simu_hal_srng_dst_test_init false 4096 (demo_priv hal) w = Done ((ret, p), w') ∧
    test ret p w' = true.
Proof.
  unfold demo_start. pose proof (init_ready demo_world) as Hr. unfold succeeds in Hr.
  destruct (wireless_simu_hal_srng_init demo_world) as [[[ret hal] w]|]; [|done].
  intros [Hz H]%andb_prop. destruct (Hr Hz) as (hal' & w' & E & Hready). simplify_eq.
  case_match; [|done]. do 2 case_match. simplify_eq. by eexists _, _, _, _, _.
Qed.

(** The device may take a buffer, and report it. *)
Definition can_take (p : dst_priv) (w : world) : option world :=
  s ← dst_srng p; hp ← mmio_last (w_mmio w) (Source.hp_reg 4096 s);
  tp ← w_mem w !! src_tp_addr (srng_src s);
  if decide (hp ≠ tp)
  then Some (w <| w_mem := <[src_tp_addr (srng_src s) :=
               (tp + srng_entry_size s) mod srng_ring_size s]> (w_mem w) |>)
  else None.
Definition can_report (p : dst_priv) (w : world) : option world :=
  s ← status_srng p; hp ← w_mem w !! dst_hp_addr (srng_dst s);
  if decide (mapped (w_mem w) (srng_ring_base_vaddr s + 4 * hp) 2 ∧ 2 = srng_entry_size s)
  then Some (reported s hp [60; 0] w) else None.

Lemma can_take_event `{K : Kernel} p w w' h : can_take p w = Some w' → rx_event 4096 (p, w, h) (p, w', h + 1).
Proof.
  unfold can_take. intros (s & Hs & (hp & Hhp & (tp & Htp & H)%bind_Some)%bind_Some)%bind_Some.
  case_decide; [|done]. injection H as <-. by eapply ev_take.
Qed.
Lemma can_report_event `{K : Kernel} p w w' h : can_report p w = Some w' → 0 < h →
  rx_event 4096 (p, w, h) (p, w', h - 1).
Proof.
  unfold can_report. intros (s & Hs & (hp & Hhp & H)%bind_Some)%bind_Some Hh.
  case_decide as Hd; [|done]. injection H as <-. destruct Hd. by eapply (ev_report 4096 p w h s hp 60 [0]).
Qed.

(** How many reports wait in the status ring. *)
Definition waiting (p : dst_priv) (w : world) : option Z :=
  s ← status_srng p; hp ← w_mem w !! dst_hp_addr (srng_dst s);
  Some (ring_used (srng_num_entries s) (entry_index (srng_entry_size s) hp)
    (entry_index (srng_entry_size s) (dst_tp (srng_dst s)))).

Definition demo_trace_ok (ret : Z) (p : dst_priv) (w : world) : bool :=
  (ret =? 0) &&
  match can_take p w ≫= can_report p with Some w' => bool_decide (waiting p w' = Some 1) | None => false end.
Lemma demo_trace_run : @demo_start demo_kernel demo_trace_ok = true.
Proof. vm_compute. reflexivity. Qed.

(** A kernel that stops giving coherent memory after the second request. *)
Definition late_kernel : Kernel := {|
  k_kmalloc := @k_kmalloc demo_kernel;
  k_dma_alloc w size := if decide (w_tick w < 3) then @k_dma_alloc demo_kernel w size else (0, 0);
  k_dma_fill := @k_dma_fill demo_kernel;
  k_dma_map := @k_dma_map demo_kernel;
  k_dma_mapping_error := @k_dma_mapping_error demo_kernel;
  k_ioread32 := @k_ioread32 demo_kernel
|}.

Lemma late_kernel_ok : KernelOk (K := late_kernel).
Proof.
  destruct demo_kernel_ok as [H1 H2 H3 H4 H5].
  split; [exact H1|..|exact H5]; intros w size v p; cbn [k_dma_alloc late_kernel];
    case_decide; (apply H2 || apply H3 || apply H4 || (intros; simplify_eq)).
Qed.

Lemma late_start_fails : @demo_start late_kernel (λ ret _ _, ret =? - ENOMEM) = true.
Proof. vm_compute. reflexivity. Qed.

#[local] Existing Instances demo_kernel demo_kernel_ok.

(** A start, then the device takes a buffer and reports 60 bytes in it. *)
Lemma demo_running : ∃ hal w p w1 w2, hal_ready hal w ∧
  wireless_simu_hal_srng_dst_test_init false 4096 (demo_priv hal) w = Done ((0, p), w1) ∧
  nsteps (rx_event 4096) 2 (p, w1, 0) (p, w2, 0) ∧ waiting p w2 = Some 1.
Proof.
  destruct (demo_start_inv _ demo_trace_run) as (hal & w & ret & p & w1 & Hr & E & Ht).
  apply andb_prop in Ht as [Hz Ht]. apply Z.eqb_eq in Hz as ->.
  destruct (can_take p w1) as [w2|] eqn:E2; [|done]. cbn [mbind option_bind] in Ht.
  destruct (can_report p w2) as [w3|] eqn:E3; [|done].
  exists hal, w, p, w1, w3. split_and!; [done|done| |].
  - eapply nsteps_l; [exact (can_take_event p w1 w2 0 E2)|].
    eapply nsteps_l; [exact (can_report_event p w2 w3 1 E3 eq_refl)|]. constructor.
  - by apply bool_decide_eq_true in Ht.
Qed.

Lemma rx_lifecycle_witness : ∃ hal w p w1 w2 p' w',
  hal_ready hal w ∧ nsteps (rx_event 4096) 2 (p, w1, 0) (p, w2, 0) ∧
  wireless_simu_hal_srng_dst_test_deinit 4096 p w2 = Done (p', w') ∧ same_resources w w' ∧
  (size (dp_skbs p') ≤ 3)%nat.
Proof.
  destruct demo_running as (hal & w & p & w1 & w2 & Hr & E & Hrun & Hwait).
  destruct (rx_lifecycle false 4096 2 (demo_priv hal) w p w1 p w2 0 Hr (demo_priv_down hal) E Hrun)
    as (_ & _ & p' & w' & E' & Hs & _ & _ & Hn & _).
  exists hal, w, p, w1, w2, p', w'. split; [exact Hr|]. split; [exact Hrun|]. split; [exact E'|].
  split; [exact Hs|exact Hn].
Defined.

(** One report waits; the oldest buffer is the one it is for. *)
Lemma irq_drains_and_refills_witness : ∃ p w V a t k lens s0 m0 p' w' q kept,
  rx_inv 4096 s0 m0 0 p w V a t k (Z.of_nat (length lens)) ∧ reports (v_s2 V) w lens ∧ length lens = 1%nat ∧
  wireless_simu_irq_hal_srng_dst_dma_test 4096 p 0 w = Done (p', w') ∧ window (v_dst V) k = q :: kept.
Proof.
  destruct demo_running as (hal & w & p & w1 & w2 & Hr & E & Hrun & Hwait).
  destruct (trace_running false 4096 2 (demo_priv hal) w p w1 _ Hr (demo_priv_down hal) E Hrun)
    as [(V & a & t & k & r & s0 & [Hinv [Hps _] Hlock _ _] & _) _]. cbn [fst snd] in *.
  destruct (so_hp _ _ _ (ri_status_ok _ _ _ _ _ _ _ _ _ _ _ Hinv)) as (hp & Hhp & _ & Hu).
  assert (r = 1) as ->.
  { destruct (views 4096 0 _ _ _ _ _ _ _ _ _ Hinv eq_refl) as [_ Hss]. unfold waiting in Hwait. rewrite Hss in Hwait.
    cbn [mbind option_bind] in Hwait. rewrite Hhp in Hwait. cbn [option_bind] in Hwait. injection Hwait as Hw.
    etrans; [symmetry; exact Hu|exact Hw]. }
  clear Hwait Hu. destruct (sr_reports _ _ _ _ (ri_device _ _ _ _ _ _ _ _ _ _ _ Hinv)) as (lens & Hlen & Hrep).
  rewrite <-Hlen in Hinv.
  destruct (irq_drains_and_refills 4096 0 p w2 V a t k lens s0 (w_map w) Hinv Hlock Hrep)
    as (p' & w' & _ & _ & _ & _ & taken & kept & E' & _ & _ & Hwin & Ht & _).
  assert (length lens = 1%nat) as Hl by lia. rewrite Hl in Ht. destruct taken as [|q [|? ?]]; [done| |done].
  exists p, w2, V, a, t, k, lens, s0, (w_map w), p', w', q, kept.
  split; [exact Hinv|]. split; [exact Hrep|]. split; [exact Hl|]. split; [exact E'|exact Hwin].
Defined.

Lemma dst_deinit_tasklet_deadlock_witness : ∃ p w, pipe_intr_tq <$> st_pipes (dp_st p) = [true] ∧
  wireless_simu_hal_srng_dst_test_deinit 4096 p w = Fault Deadlock.
Proof.
  destruct demo_running as (hal & w & p & w1 & w2 & Hr & E & Hrun & Hwait).
  destruct (trace_running false 4096 2 (demo_priv hal) w p w1 _ Hr (demo_priv_down hal) E Hrun)
    as [(V & a & t & k & r & s0 & Hup & _ & Hf & _) _]. injection Hf as _ Hn.
  pose proof (rx_up_scheduled 4096 _ _ _ _ _ _ _ _ _ true Hup) as Hup'. cbv zeta in Hup'.
  eexists _, w2. split; [|exact (dst_deinit_tasklet_deadlock 4096 _ _ _ _ _ _ _ _ _ Hup' eq_refl Hn)].
  destruct (ru_pipes _ _ _ _ _ _ _ _ _ _ Hup') as [Hps _]. rewrite Hps. reflexivity.
Defined.

Lemma dst_init_outcome_witness : ∃ hal w ret p' w', hal_ready hal w ∧
  wireless_simu_hal_srng_dst_test_init false 4096 (demo_priv hal) w = Done ((ret, p'), w').
Proof.
  destruct demo_running as (hal & w & p & w1 & w2 & Hr & E & Hrun & Hwait).
  destruct (dst_init_outcome false 4096 (demo_priv hal) w Hr (demo_priv_down hal))
    as (ret & p' & w' & E' & _).
  exists hal, w, ret, p', w'. split; [exact Hr|exact E'].
Defined.

Lemma dst_failed_start_double_free_witness : ∃ (p : dst_priv) w,
  @wireless_simu_hal_srng_dst_test_deinit late_kernel _ _ 4096 p w = Fault BadFree.
Proof.
  destruct (@demo_start_inv late_kernel late_kernel_ok _ late_start_fails)
    as (hal & w & ret & p & w1 & Hr & E & Ht). apply Z.eqb_eq in Ht as ->.
  exists p, w1. exact (@dst_failed_start_double_free late_kernel late_kernel_ok _ _ _ _ false 4096
    (demo_priv hal) w p w1 Hr (demo_priv_down hal) E).
Defined.

(** A started pipe, all its buffers posted. *)
Definition demo_loops_ok (ret : Z) (p : dst_priv) (w : world) : bool :=
  (ret =? 0) && bool_decide (dp_skbs p !! 0 = None) &&
  match st_pipes (dp_st p) with
  | [pipe] =>
      match pipe_dst_ring pipe, pipe_status_ring pipe with
      | Some ring, Some status =>
          bool_decide (0 ≤ pipe_rx_buf_needed pipe ∧ live (tr_skb ring) ≠ [] ∧
            Z.of_nat (length (tr_skb ring)) ≤ tr_nentries status)
      | _, _ => false
      end
  | _ => false
  end.

Lemma demo_loops : @demo_start demo_kernel demo_loops_ok = true.
Proof. vm_compute. reflexivity. Qed.

Lemma demo_loops_inv p w ret : demo_loops_ok ret p w = true →
  ∃ pipe ring status, st_pipes (dp_st p) = [pipe] ∧ pipe_dst_ring pipe = Some ring ∧
    pipe_status_ring pipe = Some status ∧ dp_skbs p !! 0 = None ∧ 0 ≤ pipe_rx_buf_needed pipe ∧
    live (tr_skb ring) ≠ [] ∧ Z.of_nat (length (tr_skb ring)) ≤ tr_nentries status.
Proof.
  unfold demo_loops_ok. intros [[_ H0%bool_decide_eq_true]%andb_prop H]%andb_prop.
  destruct (st_pipes (dp_st p)) as [|pipe []]; [done| |done].
  destruct (pipe_dst_ring pipe) as [ring|] eqn:Hd; [|done].
  destruct (pipe_status_ring pipe) as [status|] eqn:Hs; [|done].
  apply bool_decide_eq_true in H. exists pipe, ring, status. tauto.
Qed.

Lemma receive_loops_end_witness : ∃ p w pipe ring,
  st_pipes (dp_st p) = [pipe] ∧ pipe_dst_ring pipe = Some ring ∧ live (tr_skb ring) ≠ [] ∧
  wireless_simu_irq_hal_srng_dst_dma_test 4096 p 0 w ≠ Fault OutOfFuel.
Proof.
  destruct (demo_start_inv _ demo_loops) as (hal & w & ret & p & w1 & _ & _ & Ht).
  destruct (demo_loops_inv p w1 ret Ht) as (pipe & ring & status & Hp & Hd & Hs & H0 & Hn & Hl & Hslots).
  exists p, w1, pipe, ring. split; [exact Hp|]. split; [exact Hd|]. split; [exact Hl|].
  refine (proj2 (receive_loops_end 4096 p 0 w1 _) H0 _).
  - intros pipe' Hp'. rewrite Hp in Hp'. injection Hp' as <-. exact Hn.
  - intros pipe' Hp' ring' status' Hd' Hs'. rewrite Hp in Hp'. injection Hp' as <-.
    rewrite Hd in Hd'. injection Hd' as <-. rewrite Hs in Hs'. injection Hs' as <-. exact Hslots.
Defined.
