(* ===== verification/DemoMac.v ===== *)
(** * Concrete instances for mac80211 and the whole driver

    Witnesses of the theorems on frames, interfaces, registration and on the
    PCI driver: a mac80211 that hands out the smallest unused id
    ([demo_mac80211]), a PCI core that grants everything ([demo_pci]) and one
    that refuses the interrupt line. *)

From S2P Require Import Prelude Kernel Bits HalTypes Hif HalRing RingProtocol HalSetup HalInit Skb.
From S2P Require Import SrngTest DstTest RxRing RxLife RxStart Ieee80211 Dp Wmi WmiSend MacTypes Mac80211.
From S2P Require Import MacIface MacFrames MacProbe Pci PciLife.

#[local] Existing Instances demo_kernel demo_kernel_ok linux_bits linux_bits_ok linear_skb linear_skb_ok.
#[local] Existing Instances linux_ieee80211 linux_ieee80211_ok.

Definition smallest_unused (used : gset Z) (start end_ : Z) : Z :=
  match list_find (λ x, x ∉ used) ((λ i : nat, start + Z.of_nat i) <$> seq 0 (Z.to_nat (end_ - start))) with
  | Some (_, x) => x
  | None => - ENOSPC
  end.

#[local] Instance demo_mac80211 : Mac80211Api := {
  k_idr_alloc _ used start end_ := smallest_unused used start end_;
  k_ieee80211_alloc_hw w := 1 + max_key (elements (w_heap w));
  k_ieee80211_register_hw _ _ := 0;
  k_device_get_mac_address _ := replicate 6 0;
  k_is_valid_ether_addr a := bool_decide (a ≠ replicate 6 0);
  k_eth_random_addr _ := [2; 0; 0; 0; 0; 1];
}.

#[local] Instance demo_mac80211_ok : Mac80211Ok.
Proof.
  split; cbn.
  - intros w used start end_. unfold smallest_unused.
    destruct (list_find _ _) as [[i x]|] eqn:E; [right|by left].
    apply list_find_Some in E as (Hi & Hx & _).
    apply list_lookup_fmap_Some in Hi as (j & -> & Hj).
    apply lookup_seq in Hj. split; [lia|done].
  - intros w _ Hin%elem_of_elements%max_key_le. lia.
Qed.

(** An interface at address 7, and a protected deauthentication frame at
    address 1 that goes out on it. *)
Definition demo_vif : ieee80211_vif := Vif NL80211_IFTYPE_AP (replicate 4 0) 0 simu_vif_zero.
Definition demo_frame : sk_buff :=
  SkBuff (Linear 64 ([0xC0; 0x40] ++ replicate 24 9) 32) (SkbCb 0 2 WLAN_CIPHER_SUITE_CCMP 7) 0.
Definition demo_mac (vifs : gmap Z ieee80211_vif) (idr : gmap Z Z) (queue : list Z) : mac_priv :=
  MacPriv (WmiPriv {[1 := demo_frame]} false 0) vifs (replicate WIRELESS_MAX_NUM_VIF 0) false 0 true true
    queue 0 true idr false 0 hw_zero supported_band_zero supported_band_zero supported_band_zero
    (replicate 6 0).
Definition demo_vifs : gmap Z ieee80211_vif :=
  <[7 := demo_vif]> (<[11 := demo_vif]> (<[12 := demo_vif]> (<[13 := demo_vif]> {[14 := demo_vif]}))).

(* ------------------------------------------------------------------ *)
(** ** Frames *)

Lemma suite_mic_len_standard_witness : suite_mic_len WLAN_CIPHER_SUITE_CCMP = 8 ∧
  (WLAN_CIPHER_SUITE_CCMP, 8) ∈ mic_suites.
Proof.
  assert (suite_mic_len WLAN_CIPHER_SUITE_CCMP = 8) as H by reflexivity.
  split; [exact H|]. apply (suite_mic_len_standard WLAN_CIPHER_SUITE_CCMP 8). by split.
Defined.

Lemma tx_frame_fate_witness : ∃ p' cb,
  wireless_mac80211_tx (demo_mac demo_vifs ∅ []) (Some WLAN_CIPHER_SUITE_CCMP) 7 1 demo_world =
    Done (p', demo_world) ∧ mp_mgmt_tx_queue p' = [1] ∧ cb = tx_cb (Some WLAN_CIPHER_SUITE_CCMP) 7.
Proof.
  destruct (tx_frame_fate (demo_mac demo_vifs ∅ []) (Some WLAN_CIPHER_SUITE_CCMP) 7 1 demo_frame demo_world
    eq_refl ltac:(cbn; lia)) as (p' & cb & E & H).
  rewrite decide_False in H by (apply (bool_decide_unpack _); by vm_compute).
  rewrite decide_False in H by (apply (bool_decide_unpack _); by vm_compute).
  exists p', cb. split; [exact E|]. destruct H as (Hcb & _ & Hq & _). split; [exact Hq|exact Hcb].
Defined.

Lemma work_func_drains_witness : ∃ p' w',
  wireless_simu_mgmt_tx_work_func false 0 (demo_mac demo_vifs ∅ [1]) demo_world = Done (p', w') ∧
  mp_mgmt_tx_queue p' = [] ∧ is_Some (mp_skbs p' !! 1).
Proof.
  destruct (work_func_drains false 0 (demo_mac demo_vifs ∅ [1]) demo_world) as (p' & w' & E & Hq & _ & _ & _ & _ & Hf & _).
  - apply NoDup_singleton.
  - by split_and!.
  - intros q ->%list_elem_of_singleton. exists demo_frame. split; [reflexivity|].
    split; [cbn; lia|done|]. right. by exists demo_vif.
  - exists p', w'. split; [exact E|]. split; [exact Hq|].
    apply (Hf 1 demo_frame); [by apply list_elem_of_singleton|reflexivity|done].
Defined.

(** 512 frames have been sent. *)
Definition all_ids : gmap Z Z := list_to_map ((λ i : nat, (Z.of_nat i, 1)) <$> seq 0 512).

Lemma all_ids_used id : 0 ≤ id < 512 → is_Some (all_ids !! id).
Proof.
  intros Hid. apply elem_of_dom. unfold all_ids. rewrite dom_list_to_map_L, elem_of_list_to_set.
  apply list_elem_of_fmap. exists (id, 1). split; [done|]. apply list_elem_of_fmap.
  exists (Z.to_nat id). rewrite Z2Nat.id by lia. split; [done|]. apply elem_of_seq. lia.
Qed.

Lemma ids_exhausted_witness :
  wireless_simu_mgmt_tx_wmi false 0 (demo_mac demo_vifs all_ids []) 0 1 demo_world =
    Done ((- ENOSPC, demo_mac demo_vifs all_ids []), demo_world).
Proof. apply (ids_exhausted false 0 (demo_mac demo_vifs all_ids []) 0 1 demo_world all_ids_used). by split. Defined.

Definition demo_wmi : wmi_priv := WmiPriv {[1 := demo_frame]} false 0.

Lemma mgmt_send_safe_witness : ∃ ret p' w',
  wireless_simu_wmi_mgmt_send false 0 demo_wmi 0 3 1 demo_world = Done ((ret, p'), w') ∧
  wp_htc_tx_lock p' = false.
Proof.
  destruct (mgmt_send_safe false 0 demo_wmi demo_world 0 3 1 demo_frame eq_refl eq_refl)
    as (ret & p' & w' & E & _ & Hl & _).
  exists ret, p', w'. split; [exact E|exact Hl].
Defined.

Definition sent_ok (r : res ((Z * wmi_priv) * world)) : bool :=
  match r with Done ((ret, _), _) => ret =? 0 | Fault _ => false end.
Lemma sent_ok_inv r : sent_ok r = true → ∃ p w, r = Done ((0, p), w).
Proof. destruct r as [[[ret p] w]|]; [|done]. cbn. intros ->%Z.eqb_eq. by exists p, w. Qed.

Lemma mgmt_send_roundtrip_witness : ∃ b, (∃ m, parse_mgmt false (skb_data (sb_buf b)) = Some m ∧
  mm_desc_id m = 3 ∧ mm_frame m = take 64 (skb_data (sb_buf demo_frame))).
Proof.
  destruct (sent_ok_inv (wireless_simu_wmi_mgmt_send false 0 demo_wmi 0 3 1 demo_world))
    as (p' & w' & E); [by vm_compute|].
  destruct (mgmt_send_roundtrip false 0 demo_wmi demo_world 0 3 1 demo_frame p' w' eq_refl eq_refl
    ltac:(lia) ltac:(lia) ltac:(cbn; lia) ltac:(by vm_compute) E) as (q & b & _ & _ & _ & _ & Hp).
  exists b. eexists. split; [exact Hp|]. by split.
Defined.

(* ------------------------------------------------------------------ *)
(** ** Interfaces *)

Lemma add_interface_never_succeeds_witness : ∃ p',
  wireless_mac80211_add_interface (demo_mac demo_vifs ∅ []) 7 demo_world = Done ((- EINVAL, p'), demo_world).
Proof.
  destruct (add_interface_never_succeeds (demo_mac demo_vifs ∅ []) 7 demo_vif demo_world eq_refl eq_refl)
    as (p' & E & _).
  exists p'. exact E.
Defined.

Lemma fifth_interface_blocks_witness : ∃ p p2,
  add_interfaces p [11; 12; 13; 14; 7] demo_world =
    Done (([- EINVAL; - EINVAL; - EINVAL; - EINVAL; - EBUSY], p2), demo_world) ∧
  wireless_mac80211_remove_interface p2 7 demo_world = Fault Deadlock.
Proof.
  destruct (fifth_interface_blocks (demo_mac demo_vifs ∅ []) _ [11; 12; 13; 14] 7 0 0 (TxQueueParams 0 0 0 0) 0 0
    demo_world eq_refl eq_refl eq_refl) as (p2 & E & _ & Er & _).
  - intros v Hv. apply (bool_decide_unpack _).
    repeat (apply elem_of_cons in Hv as [->|Hv]; [by vm_compute|]). by apply not_elem_of_nil in Hv.
  - eexists _, p2. split; [exact E|exact Er].
Defined.

Definition added (r : res ((Z * mac_priv) * world)) : bool := if r is Done _ then true else false.

Lemma remove_undoes_add_witness : ∃ p1 w1 p2,
  wireless_mac80211_remove_interface p1 7 w1 = Done (p2, w1) ∧ mp_vif p2 = replicate WIRELESS_MAX_NUM_VIF 0.
Proof.
  destruct (wireless_mac80211_add_interface (demo_mac demo_vifs ∅ []) 7 demo_world) as [[[ret p1] w1]|] eqn:E.
  - destruct (remove_undoes_add (demo_mac demo_vifs ∅ []) p1 7 demo_vif ret demo_world w1 eq_refl eq_refl
      ltac:(by eexists) E) as (p2 & E2 & Hv & _).
    exists p1, w1, p2. split; [exact E2|exact Hv].
  - exfalso. assert (added (wireless_mac80211_add_interface (demo_mac demo_vifs ∅ []) 7 demo_world) = true) as H
      by by vm_compute. by rewrite E in H.
Defined.

Lemma conf_tx_sets_one_ac_witness : ∃ ret p',
  wireless_mac80211_conf_tx (demo_mac demo_vifs ∅ []) 7 0 2 (TxQueueParams 1 2 3 4) demo_world =
    Done ((ret, p'), demo_world) ∧ ret = 0.
Proof.
  destruct (conf_tx_sets_one_ac (demo_mac demo_vifs ∅ []) 7 demo_vif 0 2 (TxQueueParams 1 2 3 4) demo_world
    eq_refl eq_refl) as (ret & p' & E & _ & _ & H).
  rewrite decide_True in H by (apply (bool_decide_unpack _); by vm_compute).
  exists ret, p'. split; [exact E|]. apply H.
Defined.

(* ------------------------------------------------------------------ *)
(** ** Registration *)

Lemma core_probe_outcome_witness : ∃ ret p' w',
  wireless_mac80211_core_probe (demo_mac ∅ ∅ []) demo_world = Done ((ret, p'), w') ∧ mp_mac_conf_mutex p' = false.
Proof.
  destruct (core_probe_outcome (demo_mac ∅ ∅ []) demo_world) as (ret & p' & w' & E & _ & Hm & _); [by split|].
  exists ret, p', w'. split; [exact E|exact Hm].
Defined.

Lemma core_probe_remove_witness : ∃ ret p' w',
  wireless_mac80211_core_probe (demo_mac ∅ ∅ []) demo_world = Done ((ret, p'), w').
Proof.
  destruct (core_probe_remove (demo_mac ∅ ∅ []) demo_world) as (ret & p' & w' & E & _); [by split|].
  exists ret, p', w'. exact E.
Defined.

(* ------------------------------------------------------------------ *)
(** ** The whole driver *)

Definition granting_pci (irq_error : Z) : PciApi := {|
  k_pci_assign_resource _ := 0;
  k_pci_enable_device _ := 0;
  k_pci_request_regions _ := 0;
  k_dma_set_mask_and_coherent _ := 0;
  k_pci_iomap _ := 4096;
  k_pci_alloc_irq_vectors _ _ := 1;
  k_irq_get_msi_desc _ := 1;
  k_pci_irq_vector _ := 33;
  k_request_irq _ := irq_error;
  k_create_workqueue _ := 5;
  sizeof_wireless_simu := 8192
|}.

Definition probe_ok (test : wireless_simu → bool) (r : res ((Z * wireless_simu * bool) * world)) : bool :=
  match r with Done ((ret, ws, ok), _) => (ret =? 0) && ok && test ws | Fault _ => false end.
Lemma probe_ok_inv test r : probe_ok test r = true →
  ∃ ws w, r = Done ((0, ws, true), w) ∧ test ws = true.
Proof.
  destruct r as [[[[ret ws] ok] w]|]; [|done]. cbn.
  intros [[->%Z.eqb_eq ->]%andb_prop H]%andb_prop. by exists ws, w.
Qed.

Definition completeb (ws : wireless_simu) : bool :=
  match pci_irq_handler (ws_pci ws), st_pipes (ws_st_dst ws) with
  | Some _, [pipe] => bool_decide (is_Some (pipe_dst_ring pipe)) && hw_registered (mp_hw_val (ws_mac ws))
  | _, _ => false
  end.
Lemma completeb_ok ws : completeb ws = true → complete ws.
Proof.
  unfold completeb. destruct (pci_irq_handler (ws_pci ws)) eqn:Hh; [|done].
  destruct (st_pipes (ws_st_dst ws)) as [|pipe [|]] eqn:Hp; [done| |done].
  intros [H1%bool_decide_eq_true H2]%andb_prop. split; [by rewrite Hh|right; by exists pipe|by right].
Qed.

Lemma granted_probe : probe_ok completeb
  (@wireless_simu_pci_probe _ _ _ _ _ (granting_pci 0) false pci_idle ∅ demo_world) = true.
Proof. by vm_compute. Qed.
Lemma refused_probe : probe_ok (λ ws, if pci_irq_handler (ws_pci ws) then false else true)
  (@wireless_simu_pci_probe _ _ _ _ _ (granting_pci (-16)) false pci_idle ∅ demo_world) = true.
Proof. by vm_compute. Qed.

Lemma probe_remove_balanced_witness : ∃ ws w1 ws2 w2,
  @wireless_simu_pci_probe _ _ _ _ _ (granting_pci 0) false pci_idle ∅ demo_world = Done ((0, ws, true), w1) ∧
  wireless_simu_pci_remove false 0%nat (Some ws) w1 = Done (Some ws2, w2) ∧ ws_pci ws2 = pci_idle.
Proof.
  destruct (probe_ok_inv _ _ granted_probe) as (ws & w1 & E & H).
  destruct (@probe_remove_balanced _ demo_kernel_ok _ _ _ _ _ _ demo_mac80211_ok (granting_pci 0) false 0%nat ∅ demo_world
    ws w1 E (completeb_ok ws H)) as (ws2 & w2 & c & E2 & Hi & _).
  exists ws, w1, ws2, w2. split; [exact E|]. split; [exact E2|exact Hi].
Defined.

Lemma probe_ignored_errors_witness : ∃ ws w1,
  @wireless_simu_pci_probe _ _ _ _ _ (granting_pci (-16)) false pci_idle ∅ demo_world = Done ((0, ws, true), w1) ∧
  wireless_simu_pci_remove false 0%nat (Some ws) w1 = Fault BadFree.
Proof.
  destruct (probe_ok_inv _ _ refused_probe) as (ws & w1 & E & H). exists ws, w1. split; [exact E|].
  refine (@probe_ignored_errors _ demo_kernel_ok _ _ _ _ _ _ demo_mac80211_ok (granting_pci (-16)) false 0%nat ∅ demo_world
    ws w1 E _). left. by destruct (pci_irq_handler (ws_pci ws)).
Defined.

Lemma irq_handler_spec_witness : ∃ ws ws' w', wireless_simu_irq_handler (Some ws) demo_world = Done (Some ws', w').
Proof.
  set (ws := wireless_simu_zero 1 pci_idle ∅).
  destruct (irq_handler_spec ws srng_test_pipe_zero demo_world eq_refl) as (_ & ws' & w' & E & _).
  exists ws, ws', w'. exact E.
Defined.

Lemma probe_every_branch_witness : ∃ ret ws ok w',
  @wireless_simu_pci_probe _ _ _ _ _ (granting_pci 0) false pci_idle ∅ demo_world = Done ((ret, ws, ok), w').
Proof.
  destruct (proj2 (@probe_every_branch _ demo_kernel_ok _ _ _ _ _ _ demo_mac80211_ok (granting_pci 0) false ∅
    demo_world) ltac:(done)) as (ret & ws & ok & w' & E & _).
  exists ret, ws, ok, w'. exact E.
Defined.
