(* ===== verification/DemoRun.v ===== *)
(** * Concrete runs of the whole driver

    Witnesses of the theorems on the driver at work: probed with the kernel, the
    mac80211 and the PCI core of the other demonstrations, it is interrupted,
    runs its tasklet, is started, offered an interface and handed a frame.  At
    the end, runs of the old DMA engine and of the test driver. *)

From S2P Require Import Prelude Kernel Bits HalTypes Hif HalRing RingProtocol HalSetup HalInit Skb.
From S2P Require Import SrngTest DstTest RxRing RxLife RxStart RxTrace Ieee80211 Dp Wmi WmiSend MacTypes Mac80211.
From S2P Require Import MacIface MacFrames MacProbe Pci PciLife DriverRun DriverModule DmaEngine TestPci DemoMac.

#[local] Existing Instances demo_kernel demo_kernel_ok linux_bits linux_bits_ok linear_skb linear_skb_ok.
#[local] Existing Instances linux_ieee80211 linux_ieee80211_ok demo_mac80211 demo_mac80211_ok.
#[local] Instance demo_pci : PciApi := granting_pci 0.

(** A buffer address no one uses. *)
Definition demo_address : Z := 10 ^ 12.

(** Steps as functions, to be evaluated. *)
Definition run := (wireless_simu * world)%type.
Definition mac_do {A} (res : res ((A * mac_priv) * world)) (ws : wireless_simu) : option run :=
  match res with Done ((_, p), w) => Some (with_mac ws p, w) | Fault _ => None end.

Definition do_irq (x : run) : option run :=
  match wireless_simu_irq_handler (Some x.1) x.2 with
  | Done (Some ws, w) => Some (ws, w)
  | _ => None
  end.
Definition do_tasklet (x : run) : option run :=
  match wireless_simu_hal_srng_dst_tasklet (ws_mmio_addr x.1) (ws_dst x.1) 0 x.2 with
  | Done (p, w) => Some (with_dst x.1 p, w)
  | Fault _ => None
  end.
Definition do_start (x : run) : option run :=
  mac_do (wireless_mac80211_start (ws_mac80211 x.1) x.2) x.1.
Definition do_add (x : run) : option run :=
  let p := ws_mac80211 x.1 in
  if bool_decide (mp_vifs p !! 7 = None)
  then mac_do (wireless_mac80211_add_interface (set_vif p 7 demo_vif) 7 x.2) x.1 else None.
Definition do_tx (x : run) : option run :=
  let p := ws_mac80211 x.1 in
  if bool_decide (mp_skbs p !! demo_address = None ∧ is_Some (mp_vifs p !! 7))
  then mac_do ((p ← wireless_mac80211_tx (set_skbs p (<[demo_address := demo_frame]> (mp_skbs p)))
                      (Some WLAN_CIPHER_SUITE_CCMP) 7 demo_address; mret (tt, p)) x.2) x.1 else None.
Definition do_work (x : run) : option run :=
  if mp_mgmt_tx_work (ws_mac x.1)
  then mac_do ((p ← wireless_simu_mgmt_tx_work_func false 3 (ws_mac80211 x.1); mret (tt, p)) x.2) x.1
  else None.

Definition stepped (n : nat) (x y : run) : Prop := nsteps (driver_step false) n (x.1, x.2, 0) (y.1, y.2, 0).

Lemma step_stepped x y : driver_step false (x.1, x.2, 0) (y.1, y.2, 0) → stepped 1 x y.
Proof. apply nsteps_once. Qed.

Lemma mac_do_step {A} (ws : wireless_simu) (w : world) (res : res ((A * mac_priv) * world)) y :
  (∀ r p w', res = Done ((r, p), w') → mac_call false (ws_mac80211 ws, w) (p, w')) →
  mac_do res ws = Some y → stepped 1 (ws, w) y.
Proof.
  intros Hc E. apply step_stepped. destruct res as [[[r p] w']|]; [|done]. injection E as <-.
  apply step_mac. by eapply Hc.
Qed.

Lemma do_irq_step x y : do_irq x = Some y → stepped 1 x y.
Proof.
  unfold do_irq. destruct (wireless_simu_irq_handler (Some x.1) x.2) as [[[ws|] w]|] eqn:E; [|done..].
  intros [= <-]. by apply step_stepped, step_irq.
Qed.
Lemma do_tasklet_step x y : do_tasklet x = Some y → stepped 1 x y.
Proof.
  unfold do_tasklet. destruct (wireless_simu_hal_srng_dst_tasklet _ _ _ _) as [[p w]|] eqn:E; [|done].
  intros [= <-]. by apply step_stepped, step_rx, ev_tasklet.
Qed.
Lemma do_start_step x y : do_start x = Some y → stepped 1 x y.
Proof. destruct x as [ws w]. apply mac_do_step. intros r p w' E. by eapply call_start. Qed.
Lemma do_add_step x y : do_add x = Some y → stepped 1 x y.
Proof.
  destruct x as [ws w]. unfold do_add. case_bool_decide as H; [|done]. apply mac_do_step.
  intros r p w' E. by eapply call_add.
Qed.
Lemma do_tx_step x y : do_tx x = Some y → stepped 1 x y.
Proof.
  destruct x as [ws w]. unfold do_tx. case_bool_decide as H; [|done]. destruct H as [Hn Hv].
  apply mac_do_step. intros r p w' E. apply M_bind_inv in E as (p' & w1 & E & E'). injection E' as <- <- <-.
  apply (call_tx _ _ _ demo_address demo_frame (Some WLAN_CIPHER_SUITE_CCMP) 7); [done| |done].
  split; [cbn; lia|by vm_compute|by right].
Qed.
Lemma do_work_step x y : do_work x = Some y → stepped 1 x y.
Proof.
  destruct x as [ws w]. unfold do_work. cbn [fst snd]. destruct (mp_mgmt_tx_work (ws_mac ws)) eqn:Hw; [|done].
  apply mac_do_step. intros r p w' E. apply M_bind_inv in E as (p' & w1 & E & E'). injection E' as <- <- <-.
  by apply (call_work _ _ _ 3).
Qed.

(** From the probe to a frame in the queue, and on to its sending. *)
Definition demo_probe : res ((Z * wireless_simu * bool) * world) :=
  wireless_simu_pci_probe false pci_idle ∅ demo_world.
Definition runningb (ws : wireless_simu) : bool :=
  completeb ws && bool_decide (st_config_ptr (ws_st_dst ws) ≠ 0 ∧ mp_hw (ws_mac ws) ≠ 0).
Definition demo_queued (x : run) : option run := x ← do_irq x; x ← do_tasklet x; x ← do_start x; x ← do_add x; do_tx x.
Definition demo_sent (x : run) : option run := x ← demo_queued x; do_work x.

Definition checked (f : run → option run) (test : run → bool) : bool :=
  match demo_probe with
  | Done ((ret, ws, ok), w) =>
      (ret =? 0) && ok && runningb ws && match f (ws, w) with Some y => test y | None => false end
  | Fault _ => false
  end.
Lemma checked_inv f test : checked f test = true →
  ∃ ws w y, demo_probe = Done ((0, ws, true), w) ∧ running ws ∧ f (ws, w) = Some y ∧ test y = true.
Proof.
  unfold checked. destruct demo_probe as [[[[ret ws] ok] w]|]; [|done].
  intros [[[->%Z.eqb_eq ->]%andb_prop [Hc H]%andb_prop]%andb_prop Hf]%andb_prop.
  apply bool_decide_eq_true in H. destruct (f (ws, w)) as [y|] eqn:E; [|done].
  exists ws, w, y. split_and!; try done. split; [by apply completeb_ok|apply H..].
Qed.

Lemma stepped_trans n m x y z : stepped n x y → stepped m y z → stepped (n + m) x z.
Proof. apply nsteps_trans. Qed.

Lemma demo_queued_steps x y : demo_queued x = Some y → stepped 5 x y.
Proof.
  unfold demo_queued. intros (x1 & E1 & (x2 & E2 & (x3 & E3 & (x4 & E4 & E5)%bind_Some)%bind_Some)%bind_Some)%bind_Some.
  apply (stepped_trans 1 4 _ x1); [by apply do_irq_step|].
  apply (stepped_trans 1 3 _ x2); [by apply do_tasklet_step|].
  apply (stepped_trans 1 2 _ x3); [by apply do_start_step|].
  apply (stepped_trans 1 1 _ x4); [by apply do_add_step|].
  by apply do_tx_step.
Qed.
Lemma demo_sent_steps x y : demo_sent x = Some y → stepped 6 x y.
Proof.
  unfold demo_sent. intros (x1 & E1 & E2)%bind_Some.
  apply (stepped_trans 5 1 _ x1); [by apply demo_queued_steps|by apply do_work_step].
Qed.

Definition quiet (y : run) : bool :=
  bool_decide (pipe_intr_tq <$> st_pipes (ws_st_dst y.1) = [false]) && negb (mp_mgmt_tx_work (ws_mac y.1)) &&
  match st_rx_replenish_retry (ws_st_dst y.1) with None => true | Some _ => false end.
Definition queued (y : run) : bool :=
  mp_mgmt_tx_work (ws_mac y.1) && negb (mp_mac_conf_mutex (ws_mac y.1)) &&
  bool_decide (0 ≤ k_idr_alloc (drain_world y.1 y.2) (dom (mp_txmgmt_idr (ws_mac y.1))) 0 WIRELESS_SIMU_TX_MGMT_NUM_PENDING_MAX) &&
  bool_decide (mp_mgmt_tx_queue (ws_mac y.1) = [demo_address]) &&
  match ws_skbs y.1 !! demo_address with Some b => bool_decide (cb_vif (sb_cb b) ≠ 0) | None => false end.

Lemma demo_sent_quiet : checked demo_sent quiet = true.
Proof. by vm_compute. Qed.
Lemma demo_queued_waits : checked demo_queued queued = true.
Proof. by vm_compute. Qed.

Lemma quiet_inv y : quiet y = true → pipe_intr_tq <$> st_pipes (ws_st_dst y.1) = [false] ∧
  mp_mgmt_tx_work (ws_mac y.1) = false ∧ st_rx_replenish_retry (ws_st_dst y.1) = None.
Proof.
  intros [[H1%bool_decide_eq_true H2%negb_true_iff]%andb_prop H3]%andb_prop. split_and!; [done|done|].
  by destruct (st_rx_replenish_retry (ws_st_dst y.1)).
Qed.

Lemma driver_run_safe_witness : ∃ ws w1 y ws3 w3,
  demo_probe = Done ((0, ws, true), w1) ∧ stepped 6 (ws, w1) y ∧
  wireless_simu_pci_remove false 0%nat (Some y.1) y.2 = Done (Some ws3, w3) ∧
  removed demo_world ∅ 13 y.1 ws3 w3.
Proof.
  destruct (checked_inv _ _ demo_sent_quiet) as (ws & w1 & y & E & Hr & Ey & Hq).
  pose proof (demo_sent_steps _ _ Ey) as Hs. apply quiet_inv in Hq as (Hq1 & Hq2 & _).
  destruct (driver_run_safe false 6 ∅ demo_world ws w1 y.1 y.2 0 E Hr Hs) as [_ Hrem].
  destruct (Hrem Hq1 Hq2 0%nat) as (ws3 & w3 & E3 & Hrm).
  exists ws, w1, y, ws3, w3. split; [exact E|]. split; [exact Hs|]. split; [exact E3|exact Hrm].
Defined.

Lemma demo_mapping_ok w a l : k_dma_mapping_error (k_dma_map w a l) = false.
Proof.
  cbn -[PAGE_SIZE]. apply bool_decide_eq_false. pose proof (max_key_nonneg (map_keys (w_map w))) as Hm.
  destruct (demo_above _ _ Hm eq_refl) as [_ Hp]. clear -Hp. lia.
Qed.

Lemma queued_inv y : queued y = true → mp_mgmt_tx_work (ws_mac y.1) = true ∧ mp_mac_conf_mutex (ws_mac y.1) = false ∧
  0 ≤ k_idr_alloc (drain_world y.1 y.2) (dom (mp_txmgmt_idr (ws_mac y.1))) 0 WIRELESS_SIMU_TX_MGMT_NUM_PENDING_MAX ∧
  mp_mgmt_tx_queue (ws_mac y.1) = [demo_address] ∧
  ∃ b, ws_skbs y.1 !! demo_address = Some b ∧ cb_vif (sb_cb b) ≠ 0.
Proof.
  intros [[[[H1 H2%negb_true_iff]%andb_prop H3%bool_decide_eq_true]%andb_prop H4%bool_decide_eq_true]%andb_prop H5]%andb_prop.
  split_and!; [done..|]. destruct (ws_skbs y.1 !! demo_address) as [b|]; [|done]. exists b.
  by apply bool_decide_eq_true in H5.
Qed.

Lemma removal_drains_late_witness : ∃ ws w1 y,
  demo_probe = Done ((0, ws, true), w1) ∧ stepped 5 (ws, w1) y ∧
  wireless_simu_pci_remove false 0%nat (Some y.1) y.2 = Fault Unmapped.
Proof.
  destruct (checked_inv _ _ demo_queued_waits) as (ws & w1 & y & E & Hr & Ey & Hq).
  pose proof (demo_queued_steps _ _ Ey) as Hs. apply queued_inv in Hq as (H1 & H2 & H3 & H4 & b & Hb & Hv).
  exists ws, w1, y. split; [exact E|]. split; [exact Hs|].
  exact (removal_drains_late false 5 0%nat ∅ demo_world ws w1 y.1 y.2 0 demo_address [] b E Hr Hs H1 H4 Hb Hv H2 H3
    (demo_mapping_ok _)).
Defined.

(** The world before the module is loaded. *)
Definition demo_before : world := demo_world <| w_tick := w_tick demo_world - 1 |>.
Definition demo_core (ws : wireless_simu) : pci_core :=
  PciCore (Some (wireless_simu_driver false 0)) (Some ws) ∅.

Lemma demo_load : wireless_simu_init false (λ _, 0) 0 (unloaded ∅) demo_before =
  Done ((0, PciCore (Some (wireless_simu_driver false 0)) None ∅), demo_world).
Proof. reflexivity. Qed.

(** Loaded, bound, run until a frame has been sent, unloaded. *)
Lemma module_lifetimes_witness : ∃ ws y st w',
  nsteps (life_step false (λ _, 0)) 8 (unloaded ∅, demo_before, 0, O) (demo_core ws, y.2, 0, 1%nat) ∧
  ws = y.1 ∧ wireless_simu_exit (demo_core ws) y.2 = Done (unloaded st, w') ∧ remains demo_before ∅ 1 16 w' st.
Proof.
  destruct (checked_inv _ _ demo_sent_quiet) as (ws & w1 & y & E & Hr & Ey & Hq).
  pose proof (demo_sent_steps _ _ Ey) as Hs. apply quiet_inv in Hq as (Hq1 & Hq2 & Hq3).
  assert (nsteps (life_step false (λ _, 0)) 8 (unloaded ∅, demo_before, 0, O) (demo_core y.1, y.2, 0, 1%nat)) as Hl.
  { eapply nsteps_l; [eapply life_load; [|exact demo_load]; reflexivity|].
    unfold demo_probe in E. eapply nsteps_l.
    - eapply (life_bind _ _ (wireless_simu_driver false 0)); [reflexivity|reflexivity| |exact Hr].
      cbn [pd_probe wireless_simu_driver pc_skbs]. exact E.
    - exact (life_runs false (λ _, 0) _ _ _ 1%nat _ _ Hs). }
  assert (∀ ws2, pc_bound (demo_core y.1) = Some ws2 → DriverModule.at_rest ws2) as Hquiet
    by (intros ws2 [= <-]; by split).
  destruct (module_lifetimes false (λ _, 0) 8 demo_before ∅ _ _ _ _ Hl) as (_ & _ & Hexit).
  destruct (Hexit ltac:(done) Hquiet) as (st & w' & Ex & Hrem).
  exists y.1, y, st, w'. split; [exact Hl|]. split; [reflexivity|]. split; [exact Ex|exact Hrem].
Defined.

(** A kernel that maps no buffer: the start arms the retry timer. *)
Definition refusing_kernel : Kernel := {|
  k_kmalloc := @k_kmalloc demo_kernel;
  k_dma_alloc := @k_dma_alloc demo_kernel;
  k_dma_fill := @k_dma_fill demo_kernel;
  k_dma_map := @k_dma_map demo_kernel;
  k_dma_mapping_error _ := true;
  k_ioread32 := @k_ioread32 demo_kernel
|}.

Lemma refusing_kernel_ok : KernelOk (K := refusing_kernel).
Proof. destruct demo_kernel_ok as [H1 H2 H3 H4 H5]. split; [exact H1|exact H2|exact H3|exact H4|done]. Qed.

Definition refused_probe : res ((Z * wireless_simu * bool) * world) :=
  @wireless_simu_pci_probe refusing_kernel _ _ _ _ _ false pci_idle ∅ demo_world.

Definition timer_armed (o : res ((Z * wireless_simu * bool) * world)) : bool :=
  match o with
  | Done ((ret, ws, ok), w) =>
      (ret =? 0) && ok && runningb ws &&
      bool_decide (pipe_intr_tq <$> st_pipes (ws_st_dst ws) = [false]) && negb (mp_mgmt_tx_work (ws_mac ws)) &&
      match st_rx_replenish_retry (ws_st_dst ws) with Some _ => true | None => false end
  | Fault _ => false
  end.

Lemma timer_armed_inv o : timer_armed o = true → ∃ ws w t, o = Done ((0, ws, true), w) ∧ running ws ∧
  pipe_intr_tq <$> st_pipes (ws_st_dst ws) = [false] ∧ mp_mgmt_tx_work (ws_mac ws) = false ∧
  st_rx_replenish_retry (ws_st_dst ws) = Some t.
Proof.
  destruct o as [[[[ret ws] ok] w]|]; [|done]. cbn [timer_armed].
  intros [[[[[->%Z.eqb_eq ->]%andb_prop [Hc H]%andb_prop]%andb_prop Hq%bool_decide_eq_true]%andb_prop
    Hw%negb_true_iff]%andb_prop Ht]%andb_prop. apply bool_decide_eq_true in H.
  destruct (st_rx_replenish_retry (ws_st_dst ws)) as [t|] eqn:Et; [|done].
  exists ws, w, t. split_and!; try done. split; [by apply completeb_ok|apply H..].
Qed.

Lemma refused_timer_armed : timer_armed refused_probe = true.
Proof. by vm_compute. Qed.

Lemma timer_outlives_driver_witness : ∃ ws w1 t ws3 w3,
  refused_probe = Done ((0, ws, true), w1) ∧
  @wireless_simu_pci_remove refusing_kernel _ _ _ _ false 0%nat (Some ws) w1 = Done (Some ws3, w3) ∧
  st_rx_replenish_retry (ws_st_dst ws3) = Some t ∧ ws_ptr ws ∉ w_heap w3.
Proof.
  destruct (timer_armed_inv _ refused_timer_armed) as (ws & w1 & t & E & Hr & Hq & Hw & Ht).
  destruct (@timer_outlives_driver refusing_kernel refusing_kernel_ok _ _ _ _ _ _ _ _ _ false 0%nat 0%nat ∅ demo_world
    ws w1 ws w1 0 t E Hr (nsteps_O _ _) Hq Hw Ht) as (_ & ws3 & w3 & E3 & Ht3 & _ & Hn).
  exists ws, w1, t, ws3, w3. split; [exact E|]. split; [exact E3|]. split; [exact Ht3|exact Hn].
Defined.

(* ------------------------------------------------------------------ *)
(** ** The old DMA engine *)

Definition told_addresses (o : res ((Z * Wireless_Rx_Ring) * world)) : bool :=
  match o with
  | Done ((0, r), _) => bool_decide (Forall (λ b, db_dma_addr b ≠ 0) (rx_list r))
  | _ => false
  end.

Lemma told_addresses_inv o : told_addresses o = true →
  ∃ r w, o = Done ((ERR_SUCCESS, r), w) ∧ filter at_zero (rx_list r) = [].
Proof.
  destruct o as [[[ret r] w]|]; [|done]. destruct ret; try done. cbn.
  intros H%bool_decide_eq_true. exists r, w. split; [done|].
  induction H as [|b l Hb _ IH]; [done|]. by rewrite filter_cons_False.
Qed.

Lemma demo_told_addresses :
  told_addresses (wireless_simu_rx_ring_init 4096 dma_rx_ring_zero demo_world) = true.
Proof. by vm_compute. Qed.

Lemma rx_ring_balanced_witness : ∃ r1 w1 r2 w2,
  wireless_simu_rx_ring_init 4096 dma_rx_ring_zero demo_world = Done ((ERR_SUCCESS, r1), w1) ∧
  wireless_rx_ring_exit 4096 r1 w1 = Done (r2, w2) ∧ same_resources demo_world w2 ∧ rx_idle r2.
Proof.
  destruct (told_addresses_inv _ demo_told_addresses) as (r1 & w1 & E1 & Ht).
  destruct (rx_ring_balanced 4096 dma_rx_ring_zero demo_world)
    as (ret & posted & rest & r1' & w1' & E & Hl & _ & _ & Hret & _ & _ & r2 & w2 & E2 & _ & _ & Hend);
    [split; [reflexivity|by repeat constructor]|].
  pose proof (eq_trans (eq_sym E1) E) as Heq. clear E. injection Heq as <- <- <-.
  destruct Hret as [[_ ->]|[H _]]; [|discriminate]. rewrite app_nil_r in Hl. rewrite Hl in Ht.
  destruct (Hend Ht) as [Hs Hi]. exists r1, w1, r2, w2.
  split; [exact E1|]. split; [exact E2|]. split; [exact Hs|exact Hi].
Defined.

Definition demo_tx_ring : Wireless_Tx_Ring :=
  DmaTxRing 4096 (replicate 10 dma_buf_zero) false WIRELESS_TX_RING_SIZE.

(** Twelve frames: ten go out, two find the ring full. *)
Lemma dma_tx_ten_witness : tx_ready demo_tx_ring ∧
  ∃ fates r' w',
    dma_tx_all 4096 (replicate 12 (8, 64)) demo_tx_ring demo_world =
      Done ((replicate 10 ERR_SUCCESS ++ replicate 2 TX_RING_FULL, r'), w') ∧
    tx_progress 4096 (replicate 12 (8, 64)) fates demo_tx_ring r' demo_world w'.
Proof.
  assert (tx_ready demo_tx_ring) as Hr by by split. split; [exact Hr|].
  destruct (dma_tx_ten 4096 (replicate 12 (8, 64)) demo_tx_ring demo_world Hr)
    as (fates & r' & w' & E & Hp & _ & Hans).
  exists fates, r', w'. split; [|exact Hp]. rewrite E. by rewrite (Hans demo_mapping_ok).
Defined.

(* ------------------------------------------------------------------ *)
(** ** The test driver *)

Definition bound_result (o : res ((Z * test_dev) * world)) : bool :=
  match o with Done ((0, d), _) => bool_decide (is_Some (pci_irq_handler (td_pci d))) | _ => false end.

Lemma bound_result_inv o : bound_result o = true →
  ∃ d w, o = Done ((0, d), w) ∧ is_Some (pci_irq_handler (td_pci d)).
Proof.
  destruct o as [[[ret d] w]|]; [|done]. destruct ret; try done. cbn.
  intros H%bool_decide_eq_true. by exists d, w.
Qed.

Lemma demo_bound : bound_result (test_pci_probe (λ _, 0) pci_idle demo_world) = true.
Proof. by vm_compute. Qed.

Lemma test_pci_lifecycle_witness : ∃ d w1 d3 w3,
  test_pci_probe (λ _, 0) pci_idle demo_world = Done ((0, d), w1) ∧ test_pci_remove d w1 = Done (d3, w3) ∧
  is_Some (pci_irq_handler (td_pci d3)) ∧ test_pci_irq_handler d3 w3 = Fault Unmapped.
Proof.
  destruct (bound_result_inv _ demo_bound) as (d & w1 & E & Hh).
  destruct (test_pci_lifecycle (λ _, 0) demo_world d w1 E)
    as (mmio & w2 & w3 & d3 & _ & _ & _ & _ & E3 & _ & Hpci & Hf & _).
  exists d, w1, d3, w3. split; [exact E|]. split; [exact E3|]. split; [by rewrite Hpci|exact Hf].
Defined.
