(* ===== verification/DemoHost.v ===== *)
(** * Concrete runs of the host-side driver

    Two interfaces, one with the area behind it that the driver reads and one
    without, and a probe that succeeds. *)

From S2P Require Import Prelude Kernel Bits Skb Ieee80211 Mac80211 MacIface MacProbe HostDriver DemoMac.

#[local] Existing Instances demo_kernel demo_kernel_ok linux_ieee80211 demo_mac80211 demo_mac80211_ok.
#[local] Instance granting_host : HostApi := {
  k_nlmsg_new _ _ := 1;
  k_netlink_broadcast _ := 0;
  k_netlink_kernel_create _ := 1;
  k_platform_device_alloc w := 1 + max_key (elements (w_heap w));
  k_platform_device_add _ := 0;
  NL80211_IFTYPE_ADHOC := 1;
  NL80211_IFTYPE_MESH_POINT := 7
}.

Definition demo_host_vifs : gmap Z host_vif :=
  <[7 := HostVif NL80211_IFTYPE_STATION [2; 0; 0; 0; 0; 1] []]>
  (<[9 := HostVif NL80211_IFTYPE_AP [2; 0; 0; 0; 0; 2] (replicate 4 0)]> ∅).

(** Removing 9, which sits in the second slot, drops 7 from the table. *)
Lemma host_interfaces_witness : ∃ p' p2,
  host_add_all demo_host_vifs host_priv_zero [7; 9] demo_world = Done (([0; 0], p'), demo_world) ∧
  hp_vif p' = [7; 9; 0; 0] ∧
  simuwifi_remove_interface demo_host_vifs p' 7 demo_world = Fault OutOfBounds ∧
  simuwifi_remove_interface demo_host_vifs p' 9 demo_world = Done (p2, demo_world) ∧
  hp_vif p2 = [0; 9; 0; 0].
Proof.
  assert (Forall (host_supported demo_host_vifs) [7; 9]) as Hl.
  { repeat constructor; try done; by eexists. }
  destruct (host_interfaces demo_host_vifs host_priv_zero [7; 9] demo_world eq_refl ltac:(unfold MAX_NUM_VIF; cbn; lia) Hl)
    as (p' & E & Hp & _ & Hrem).
  destruct (Hrem 7 _ demo_world ltac:(by left) eq_refl) as [H7 _].
  destruct (Hrem 9 _ demo_world ltac:(right; by left) eq_refl) as [_ H9].
  destruct (H9 eq_refl) as (p2 & E2 & Hp2). exists p', p2.
  split; [exact E|]. split; [exact Hp|]. split; [by apply H7|]. split; [exact E2|]. by rewrite Hp2, Hp.
Defined.

Definition demo_host_dev : host_dev := HostDev 0 (HostHw false 0) host_priv_zero ∅.

Definition probe_succeeds (o : res ((Z * host_dev) * world)) : bool :=
  match o with Done ((0, _), _) => true | _ => false end.
Lemma demo_host_probe : probe_succeeds (simuwifi_dev_probe demo_host_dev 1 demo_world) = true.
Proof. by vm_compute. Qed.

Lemma host_probe_remove_witness : ∃ d w,
  simuwifi_dev_probe demo_host_dev 1 demo_world = Done ((0, d), w) ∧
  hp_vif (hd_priv d) = replicate MAX_NUM_VIF 0 ∧ simuwifi_dev_remove d w = Fault BadFree.
Proof.
  pose proof demo_host_probe as Hp.
  destruct (host_probe_remove demo_host_dev 1 demo_world eq_refl)
    as [_ [[_ E]|(ret & d & w & E & [(Hr & _)|(Hr & _ & _ & _ & _ & Hv & _ & Hf)])]];
    rewrite E in Hp; [discriminate|rewrite Hr in Hp; discriminate|].
  rewrite Hr in E. exists d, w. split; [exact E|]. split; [exact Hv|exact Hf].
Defined.
